(* ===== verification/_CoqProject ===== *)
-Q . S2P
Prelude.v
Double.v
SystemTypes.v
Validation.v
Effects.v
Protocol.v
AccessPolicy.v
Logging.v
Host.v
Storage.v
Backend.v
BackendSpec.v
BackendLogic.v
BackendRefinement.v
BackendLifecycle.v
Sample.v
BackendProperties.v
Daemon.v
DaemonProperties.v
Client.v
ServiceManager.v
Service.v
Clock.v
Sysmon.v
NetworkFile.v
ZoneCatalog.v
Timestamp.v
Bus.v
Native.v
NativeProperties.v
NativeQueries.v
NativeIsolation.v
NativeSample.v
ClockPolicy.v
System.v
ProfileLoading.v
DaemonProcess.v
DeviceBoot.v
Journal.v
JournalReader.v
JournalSample.v
