(* ===== verification/Prelude.v ===== *)
(** * A verified model of the MNC system manager

    The repository builds embedded Linux images for Monutchee products. Its own
    program is the system manager under
    src/meta-mncos/recipes-support/mnc-system/files/source: a daemon that owns
    the host name, the network, the clock, remote login, power and device reset
    of a product, a client library, and the libraries for logging and services
    that both use. Paths below are relative to that directory. Beside it,
    src/meta-xilinx-addon has a reader of the Xilinx system monitor.

    ** The program

    A client (common/mnc/os/system/client.cpp) sends JSON requests over D-Bus.
    The daemon (daemon/main.cpp) identifies the peer, asks the access policy
    (daemon/access_policy.hpp), decodes the request and calls the manager
    ([Backend], daemon/backend.hpp and daemon/storage.cpp). The manager keeps its
    state in a journal file, written atomically, and changes the system through
    the interface [Platform], which the class [Native] of daemon/backend.cpp
    implements with systemd, networkd, timedated, hostnamed and logind on the
    system bus and with files below /run. A network change is a transaction: it
    is proposed with the hashes of the settings file before and after, applied on
    trial, and kept only if the settings file in force has the announced hash; a
    deadline undoes it. Power and reset are jobs: they are accepted into the
    journal, and dispatched by a later turn of the worker. Every operation writes
    an audit record (common/mnc/logging), which a reader of the systemd journal
    pages through and follows. The process life cycle and the activation of other
    services are in common/mnc/service.

    ** Files

    - Prelude: notations, tactics, lemmas on integers, characters, texts,
      [std::from_chars] and [std::to_string]; Double: the binary64 numbers that
      the parsers produce, with exact decimal conversion.
    - SystemTypes: common/mnc/system/system.hpp; exceptions as values.
    - Validation: common/mnc/system/validation.cpp, against grammars.
    - Effects: state with exceptions, [eff S A], its weakest preconditions [wp],
      and [within R], what a computation may do to the state however it ends.
    - Protocol: protocol.hpp; the JSON library is the class [Json].
    - AccessPolicy: access_policy.hpp and audit.hpp.
    - Logging: logging.cpp. Journal: the entries, the filter, the paging and the
      JSON text of journal_reader.cpp and journal_query.hpp. JournalReader:
      [read] and [follow] over the iterator of libsystemd, the class
      [JournalLib]; JournalSample: a concrete journal.
    - Host: the interface [Host] of files, clock and random numbers, with its
      laws [HostLaws]; Storage: the functions of storage.cpp that implement it,
      on a machine whose system calls may fail and whose power may be cut; data,
      names and new directories survive a power loss only after the [fsync] that
      concerns them.
    - Backend: every operation of [Backend], one definition each, over any
      [Platform] and [Host]; an operation of the platform may change the host,
      which both share, and [PlatformLaws] says which files it leaves alone. The
      field [trace_] is ghost: it lists the writes of the journal and the calls
      of the platform.
    - BackendSpec: the abstract machine of the journal, [micro]; BackendLogic:
      the program logic [vwp] that relates the two; BackendRefinement: every
      operation refines the machine; BackendLifecycle: boots, starts, requests
      and power losses in any order ([world_step]); Sample: a concrete device
      (the fake platform of the unit tests, a JSON-like codec, a profile, a
      disk); BackendProperties: the theorems and their instances on the sample.
    - Daemon, DaemonProperties: the request handler and the worker of main.cpp.
    - Client: the client, and the theorems from the client to the disk.
    - ServiceManager, Service: common/mnc/service.
    - Clock: ptp.cpp and clock_config.cpp; NetworkFile: network_config.cpp;
      ZoneCatalog: timezone_catalog.cpp; Timestamp: the time formats of
      backend.cpp.
    - Bus: the interface [Node] of bus, links, clocks and interfaces, with its
      laws, and the bus helpers of backend.cpp; Native: every operation of
      [Native] and [nativePlatform]; NativeProperties, NativeQueries,
      NativeIsolation: what it changes, what it reports and which files it
      leaves alone; NativeSample: a board with a bus, units and sensors;
      ClockPolicy: the files that [writeClockPolicy] leaves.
    - System: the manager on the native platform over one host.
    - ProfileLoading: [loadProfile], [loadBootPreferences] and the arguments of
      [main]; DaemonProcess: the daemon as a service with its worker thread, the
      one flag [stop_requested_] that both threads read and set, the join in
      [on_stop] that may not return, and [main]; DeviceBoot: what a boot by [main] leaves on the disk.
    - Sysmon: sysmon.cpp of src/meta-xilinx-addon.

    ** How code is modelled

    A member function that may throw is a function from the object to the object
    it leaves and a value or an exception; changes made before an exception stay.
    The constructors of [exn] are the exceptions that the handlers tell apart.
    Integers are [Z] with wrap-around where the code can overflow; texts are
    strings of bytes. Parameters stand for what is not in the repository: the JSON
    library, SHA-256, the D-Bus and systemd libraries, the account database, the
    time zone database and the kernel's interfaces. Their laws are class fields or
    hypotheses, and every theorem with such hypotheses is instantiated on the
    sample device, the sample board or the sample journal, where the whole program
    runs.

    ** What is proved

    - Storage: [atomicWrite] leaves the old or the new contents at every crash
      point, and the new ones once it returned, on directories whose entries are
      durable; a successful write is read back, a removal is durable.
    - Manager, safety: the recorded network, which is in force outside of a
      trial, changes only by a confirmed transaction; a proposal and the way back are durable before they take
      effect; the platform gets validated settings only, and power commands only
      after the job is recorded; a busy or failed manager refuses and changes
      nothing; [apply] is all or nothing.
    - Manager, recovery: after any history of boots, requests and power losses
      the journal can be read and is well formed (the state directory is taken to
      be durable, and the text to be within the limit of [decode]); an expired transaction is
      settled by the first tick; a reset that was accepted removes what it must
      and ends with the factory settings.
    - Refinement: every operation, every request on the bus and every run of the
      worker is a path of the abstract machine.
    - Native platform: [preferences] runs one clock at a time; a unit transition
      ends in the state it was asked for or in an error; a network file is in
      force once [network] returns, and networkd was told; discovery gives
      well-typed settings, the time names one instant in all its forms, for
      clocks within 64-bit milliseconds; no operation touches the files of the
      manager ([native_laws]).
    - Composition: with the native platform in place of the interface, all that
      is asked of the bus and written by name is licensed by a call of the
      manager that fulfils the contract ([device_accounted]), and a boot that
      exits with 0 leaves the network files of the configuration that the journal
      records ([boot_network_in_force]).
    - Daemon and client: unauthorised calls change nothing, the author of a job
      cannot be forged, a failed journal stops the service, a failed worker ends
      the process with code 1, queries are read-only, the client gets exactly the
      answer of the operation, and a job that the client holds is on disk.
    - Validation, policy, logging: exact characterisations of what is accepted,
      of who may do what, and of the records that are written; a public record
      read back from the journal is the event that was logged. [read] over the
      iterator gives the reference page, and [follow] delivers the matching
      entries once, in order and in the end all of them.
    - Services: activation follows the dependencies; [execute] runs the hooks in
      order, stops when asked and reports failure.
    - Clock, network, zones: exactly the units of the chosen source are started,
      the files of the clock policy are the chosen ones once it is written, a
      PTP choice is accepted exactly when the hardware allows it, a network file
      holds exactly the intended settings; the catalogue lists the installed
      zones once and in order, with the coordinates of the table.
    - System monitor: every reading is finite or has a reason, the status of a
      snapshot says which, and devices of other drivers are not read.
    - Some theorems show where the code does not do what it means to: the
      remaining time of a transaction wraps around when it expires between two
      readings of the clock ([remaining_time]), a file in a directory that had to
      be created may be lost ([new_directory_may_be_lost]),
      settings take effect before they are recorded ([apply_all_or_nothing] gives
      the order), a cycle of service dependencies is followed without end
      ([cyclic_dependency_never_starts]), the guard of the reset paths misses trailing
      slashes ([reset_guard_gaps]), a failed wait for signals makes the daemon wait
      for a worker that was not told to stop ([failed_wait_blocks]), and [follow]
      loses entries when the clock goes back ([follow_never_goes_back]) or a burst
      follows an empty journal ([burst_on_empty_journal]).

    ** Bounds and fuel

    Loops of the code that are not structural take fuel: the loops over texts
    take their length, which every pass shortens; the loops over system calls
    take the number of bytes and the results that the machine has planned;
    [start_one] takes any fuel above the rank of the service, and the theorem
    shows that it then returns; [missing_directories] takes the length of the
    path, more than it has components. [poll] takes 200 rounds, since each sleeps
    50 ms and the deadline is 10 s, so that the fuel never ends first. [read]
    takes one round more than the journal has entries. [follow], the worker and
    [execute] run for as long as they are given rounds, since they do not end by
    themselves; the result [None] of [execute] is a process that has not
    returned.

    ** Not modelled, and next

    common/mnc/system/json.hpp (metadata for the JSON library) and the abstract
    class SystemManager have no code. Threads are modelled as sequences of steps:
    the worker and the life cycle of the process interleave between rounds only,
    and the public functions of the service manager run one at a time. A
    [gmtime_r] or [localtime_r] that fails is taken to leave its result as it was
    initialised. The check of the enumerator in [Backend::power] is left out, as
    [PowerAction] has no other values. Next: power
    losses inside a boot on the native platform; the client against the process
    instead of the request handler; the clock policy as part of the boot. *)

From Stdlib Require Export ZArith Lia Ascii.
From stdpp Require Export base tactics list strings gmap option numbers relations.
From stdpp Require Export list.

#[global] Open Scope Z_scope.

(** ** Notations *)

Declare Scope mnc_scope.
Delimit Scope mnc_scope with mnc.
Open Scope mnc_scope.

(** The C++ [operator==] and [operator!=] on a type with decidable equality. *)
Notation "a ==? b" := (bool_decide (a = b)) (at level 70, no associativity) : mnc_scope.
Notation "a <>? b" := (negb (bool_decide (a = b))) (at level 70, no associativity) : mnc_scope.

(** ** Automation *)

Create HintDb mnc discriminated.
Create Rewrite HintDb mnc.

(** Turns boolean tests of the code into propositions. *)
Ltac propify :=
  repeat match goal with
  | H : andb _ _ = true |- _ => apply andb_true_iff in H; destruct H
  | H : orb _ _ = false |- _ => apply orb_false_iff in H; destruct H
  | H : orb _ _ = true |- _ => apply orb_true_iff in H
  | H : andb _ _ = false |- _ => apply andb_false_iff in H
  | H : negb _ = true |- _ => apply negb_true_iff in H
  | H : negb _ = false |- _ => apply negb_false_iff in H
  | H : bool_decide _ = true |- _ => apply bool_decide_eq_true in H
  | H : bool_decide _ = false |- _ => apply bool_decide_eq_false in H
  | H : Z.leb _ _ = true |- _ => apply Z.leb_le in H
  | H : Z.leb _ _ = false |- _ => apply Z.leb_gt in H
  | H : Z.ltb _ _ = true |- _ => apply Z.ltb_lt in H
  | H : Z.ltb _ _ = false |- _ => apply Z.ltb_ge in H
  | H : Z.eqb _ _ = true |- _ => apply Z.eqb_eq in H
  | H : Z.eqb _ _ = false |- _ => apply Z.eqb_neq in H
  | H : Nat.leb _ _ = true |- _ => apply Nat.leb_le in H
  | H : Nat.leb _ _ = false |- _ => apply Nat.leb_gt in H
  | H : Nat.ltb _ _ = true |- _ => apply Nat.ltb_lt in H
  | H : Nat.ltb _ _ = false |- _ => apply Nat.ltb_ge in H
  | H : Nat.eqb _ _ = true |- _ => apply Nat.eqb_eq in H
  | H : Nat.eqb _ _ = false |- _ => apply Nat.eqb_neq in H
  end.

(** Destructs the scrutinee of some [match] or [if], of the goal first. *)
Ltac split_match :=
  match goal with
  | |- context [ match ?x with _ => _ end ] =>
      lazymatch x with context [ match _ with _ => _ end ] => fail | _ => destruct x eqn:? end
  | H : context [ match ?x with _ => _ end ] |- _ =>
      lazymatch x with context [ match _ with _ => _ end ] => fail | _ => destruct x eqn:? end
  end.

(** Proves [Forall P l] for an explicit list from the hypotheses. *)
Ltac forall_list := repeat (apply Forall_cons_2; [assumption|]); apply Forall_nil_2.

(** Takes hypotheses [Forall P (x :: l)] apart. *)
Ltac inv_forall :=
  repeat match goal with
  | H : Forall _ (_ :: _) |- _ =>
      let H' := fresh in
      pose proof (Forall_inv H) as H'; cbv beta in H'; apply Forall_inv_tail in H
  | H : Forall _ [] |- _ => clear H
  end.

(** ** Machine integers *)

(** [std::uint32_t] and [std::uint64_t] arithmetic wraps around. *)
Definition u32 (z : Z) : Z := z mod 2 ^ 32.

Definition u64 (z : Z) : Z := z mod 2 ^ 64.

(** A conversion to [std::int32_t]. *)
Definition i32 (z : Z) : Z := (z + 2 ^ 31) mod 2 ^ 32 - 2 ^ 31.
Definition i64 (z : Z) : Z := (z + 2 ^ 63) mod 2 ^ 64 - 2 ^ 63.

Lemma u32_small z : 0 <= z < 2 ^ 32 -> u32 z = z.
Proof. intros; unfold u32; by rewrite Z.mod_small. Qed.

Lemma u64_small z : 0 <= z < 2 ^ 64 -> u64 z = z.
Proof. intros; unfold u64; by rewrite Z.mod_small. Qed.

Lemma u64_range z : 0 <= u64 z < 2 ^ 64.
Proof. unfold u64. apply Z.mod_pos_bound. lia. Qed.

#[export] Hint Resolve u32_small u64_small u64_range : mnc.

(** A number is a bit field on top of another one. *)
Lemma lor_shiftl_add a b n :
  0 <= n -> 0 <= b < 2 ^ n -> Z.lor (Z.shiftl a n) b = a * 2 ^ n + b.
Proof.
  intros Hn Hb. rewrite Z.shiftl_mul_pow2 by lia.
  assert (Hl : Z.land (a * 2 ^ n) b = 0).
  { apply Z.bits_inj'; intros m Hm. rewrite Z.land_spec, Z.bits_0.
    destruct (Z.lt_ge_cases m n); [by rewrite Z.mul_pow2_bits_low by lia|].
    destruct (Z.eq_dec b 0) as [->|]; [by rewrite Z.bits_0, andb_false_r|].
    rewrite (Z.bits_above_log2 b m), andb_false_r; [done | lia |].
    apply Z.log2_lt_pow2; [lia|].
    eapply Z.lt_le_trans; [apply Hb | apply Z.pow_le_mono_r; lia]. }
  by rewrite <-Z.lxor_lor, Z.add_nocarry_lxor.
Qed.

(** ** Characters *)

(** The value of an [unsigned char]. *)
Definition code (c : ascii) : Z := Z.of_N (N_of_ascii c).

Lemma code_range c : 0 <= code c < 256.
Proof. unfold code. pose proof (N_ascii_bounded c). lia. Qed.

Lemma code_inj c d : code c = code d -> c = d.
Proof.
  unfold code. intros H. apply N2Z.inj in H.
  by rewrite <-(ascii_N_embedding c), <-(ascii_N_embedding d), H.
Qed.

Definition chr (z : Z) : ascii := ascii_of_N (Z.to_N z).

Lemma code_chr z : 0 <= z < 256 -> code (chr z) = z.
Proof. intros. unfold code, chr. rewrite N_ascii_embedding; lia. Qed.

Lemma chr_code c : chr (code c) = c.
Proof. unfold code, chr. by rewrite N2Z.id, ascii_N_embedding. Qed.

#[export] Hint Rewrite code_chr chr_code using lia : mnc.

Definition in_range (lo hi : ascii) (c : ascii) : bool :=
  (code lo <=? code c) && (code c <=? code hi).

(** [std::isdigit], [std::isalpha] and [std::isalnum] of the "C" locale. *)
Definition is_digit : ascii -> bool := in_range "0" "9".

Definition is_lower : ascii -> bool := in_range "a" "z".

Definition is_upper : ascii -> bool := in_range "A" "Z".

Definition is_alnum (c : ascii) : bool := is_lower c || is_upper c || is_digit c.

(** [std::tolower] of the "C" locale. *)
Definition to_lower (c : ascii) : ascii :=
  if is_upper c then chr (code c + 32) else c.

Lemma in_range_spec lo hi c : in_range lo hi c = true <-> code lo <= code c <= code hi.
Proof. unfold in_range. rewrite andb_true_iff, !Z.leb_le. done. Qed.

(** Decides a statement about one character by checking all 256. *)
Lemma ascii_forall (P : ascii -> bool) :
  forallb (fun n => P (ascii_of_nat n)) (seq 0 256) = true -> forall c, P c = true.
Proof.
  intros H c. rewrite forallb_forall in H.
  rewrite <-(ascii_nat_embedding c). apply H.
  apply in_seq. pose proof (nat_ascii_bounded c). lia.
Qed.

Ltac by_ascii c :=
  revert c;
  match goal with
  | |- forall c, @?P c = true => apply (ascii_forall P); vm_compute; reflexivity
  | |- forall c, @?P c = @?Q c =>
      let H := fresh in
      assert (H : forall c, bool_decide (P c = Q c) = true)
        by (apply (ascii_forall (fun c => bool_decide (P c = Q c))); vm_compute; reflexivity);
      intros c; specialize (H c); apply bool_decide_eq_true in H; exact H
  end.

(** ** Strings *)

#[global] Arguments String.append !_ _ : simpl nomatch.

(** [std::string::size]. *)
Definition size_of (s : string) : Z := Z.of_nat (String.length s).

(** [std::string::empty]. *)
Definition empty (s : string) : bool := match s with EmptyString => true | _ => false end.

(** [std::string::front] and [std::string::back]; [None] on the empty string,
    where the C++ is undefined. *)
Definition front (s : string) : option ascii :=
  match s with EmptyString => None | String c _ => Some c end.

Fixpoint back (s : string) : option ascii :=
  match s with
  | EmptyString => None
  | String c EmptyString => Some c
  | String _ s' => back s'
  end.

(** [std::ranges::all_of] on the characters of a string. *)
Fixpoint str_all (p : ascii -> bool) (s : string) : bool :=
  match s with EmptyString => true | String c s' => p c && str_all p s' end.

(** [find(c)], then [substr(0, pos)] and, unless the position is [npos],
    [remove_prefix(pos + 1)]: the text before the first [c] and, if there is
    one, the text after it. *)
Fixpoint cut (c : ascii) (s : string) : string * option string :=
  match s with
  | EmptyString => (EmptyString, None)
  | String d s' =>
      if c ==? d then (EmptyString, Some s')
      else let '(l, r) := cut c s' in (String d l, r)
  end.

(** [find(c) != npos]. *)
Fixpoint contains (c : ascii) (s : string) : bool :=
  match s with EmptyString => false | String d s' => (c ==? d) || contains c s' end.

(** [starts_with], [substr(n)] and [substr(0, n)]. *)
Definition starts_with (p s : string) : bool := String.prefix p s.

Fixpoint str_drop (n : nat) (s : string) : string :=
  match n, s with
  | S n', String _ s' => str_drop n' s'
  | _, _ => s
  end.

Fixpoint str_take (n : nat) (s : string) : string :=
  match n, s with
  | S n', String c s' => String c (str_take n' s')
  | _, _ => EmptyString
  end.

(** [ends_with]. *)
Definition ends_with (suffix s : string) : bool :=
  (String.length suffix <=? String.length s)%nat &&
  (str_drop (String.length s - String.length suffix) s ==? suffix).

(** [find(t) != npos] for a text [t]. *)
Fixpoint has_substring (t s : string) : bool :=
  starts_with t s || match s with EmptyString => false | String _ s' => has_substring t s' end.

Lemma str_app_nil_r s : s +:+ "" = s.
Proof. induction s; simpl; congruence. Qed.

Lemma str_app_assoc a b c : (a +:+ b) +:+ c = a +:+ (b +:+ c).
Proof. induction a; simpl; congruence. Qed.

Lemma str_length_app a b : String.length (a +:+ b) = (String.length a + String.length b)%nat.
Proof. induction a; simpl; congruence. Qed.

Lemma str_app_inj_l a b c : a +:+ b = a +:+ c -> b = c.
Proof. induction a; simpl; [done|]. intros [= H]. auto. Qed.

Lemma str_all_app p a b : str_all p (a +:+ b) = str_all p a && str_all p b.
Proof. induction a; simpl; [done|]. by rewrite IHa, andb_assoc. Qed.

Lemma str_all_impl (p q : ascii -> bool) s :
  (forall c, p c = true -> q c = true) -> str_all p s = true -> str_all q s = true.
Proof. intros Hpq. induction s; simpl; [done|]. rewrite !andb_true_iff. intros []; auto. Qed.

Lemma contains_str_all c s : contains c s = negb (str_all (fun d => c <>? d) s).
Proof. induction s; simpl; [done|]. rewrite IHs. by repeat case_bool_decide. Qed.

Lemma contains_app c a b : contains c (a +:+ b) = contains c a || contains c b.
Proof. induction a; simpl; [done|]. by rewrite IHa, orb_assoc. Qed.

Lemma str_all_contains p c s : str_all p s = true -> p c = false -> contains c s = false.
Proof.
  intros Hs Hc. rewrite contains_str_all. apply negb_false_iff.
  eapply str_all_impl; [|done]. intros d Hd. case_bool_decide; naive_solver.
Qed.

(** What [cut] returns puts the string together again. *)
Lemma cut_spec c s :
  match cut c s with
  | (l, None) => s = l /\ contains c l = false
  | (l, Some r) => s = l +:+ String c r /\ contains c l = false
  end.
Proof.
  induction s as [|d s IH]; simpl; [done|].
  case_bool_decide; subst; [done|].
  destruct (cut c s) as [l [r|]]; destruct IH as [-> ?]; simpl;
    rewrite bool_decide_eq_false_2 by done; done.
Qed.

Lemma cut_app c l r : contains c l = false -> cut c (l +:+ String c r) = (l, Some r).
Proof.
  induction l as [|d l IH]; simpl.
  - intros _. by rewrite bool_decide_eq_true_2.
  - intros [-> ?]%orb_false_iff. by rewrite IH.
Qed.

Lemma cut_none c l : contains c l = false -> cut c l = (l, None).
Proof.
  induction l as [|d l IH]; simpl; [done|].
  intros [-> ?]%orb_false_iff. by rewrite IH.
Qed.

Lemma cut_length c s l r : cut c s = (l, Some r) -> (String.length r < String.length s)%nat.
Proof.
  intros H. pose proof (cut_spec c s) as Hc. rewrite H in Hc. destruct Hc as [-> _].
  rewrite str_length_app. simpl. lia.
Qed.

Lemma size_of_nonneg s : 0 <= size_of s.
Proof. unfold size_of. lia. Qed.

Lemma size_of_app a b : size_of (a +:+ b) = size_of a + size_of b.
Proof. unfold size_of. rewrite str_length_app. lia. Qed.

Lemma empty_spec s : empty s = true <-> s = "".
Proof. destruct s; simpl; split; congruence. Qed.

Lemma empty_false s : empty s = false <-> s <> "".
Proof. destruct s; simpl; split; congruence. Qed.

#[export] Hint Resolve size_of_nonneg : mnc.
#[export] Hint Rewrite str_all_app size_of_app str_app_nil_r str_app_assoc contains_app : mnc.

(** ** Numerals: [std::from_chars] and [std::to_string] *)

(** The value of a digit, letters of either case standing for 10 and more. *)
Definition digit_val (c : ascii) : option Z :=
  if is_digit c then Some (code c - code "0")
  else if is_lower c then Some (code c - code "a" + 10)
  else if is_upper c then Some (code c - code "A" + 10)
  else None.

(** The digits at the start of a text, and the rest of it. *)
Fixpoint digits (base : Z) (s : string) : list Z * string :=
  match s with
  | EmptyString => ([], EmptyString)
  | String c s' =>
      match digit_val c with
      | Some d =>
          if d <? base then let '(ds, r) := digits base s' in (d :: ds, r) else ([], s)
      | None => ([], s)
      end
  end.

Definition value (base : Z) (ds : list Z) : Z := fold_left (fun acc d => acc * base + d) ds 0.

(** [std::from_chars] into an unsigned integer of [bits] bits: the number and
    the text from the returned pointer on; [None] when [ec] is not zero (no
    digit, or a number that does not fit). *)
Definition from_chars_unsigned (bits base : Z) (s : string) : option (Z * string) :=
  let '(ds, rest) := digits base s in
  match ds with
  | [] => None
  | _ => if value base ds <? 2 ^ bits then Some (value base ds, rest) else None
  end.

(** [std::from_chars] into a signed integer of [bits] bits, in base 10. *)
Definition from_chars_signed (bits : Z) (s : string) : option (Z * string) :=
  let '(negative, body) :=
    match s with
    | String "-" s' => (true, s')
    | _ => (false, s)
    end in
  let '(ds, rest) := digits 10 body in
  match ds with
  | [] => None
  | _ =>
      let n := if negative : bool then - value 10 ds else value 10 ds in
      if (- 2 ^ (bits - 1) <=? n) && (n <? 2 ^ (bits - 1)) then Some (n, rest) else None
  end.

Definition digit_char (d : Z) : ascii := chr (code "0" + d).

Fixpoint dec_aux (fuel : nat) (n : Z) (acc : string) : string :=
  match fuel with
  | O => acc
  | S fuel' =>
      let acc' := String (digit_char (n mod 10)) acc in
      if n <? 10 then acc' else dec_aux fuel' (n / 10) acc'
  end.

(** [std::to_string] of a non-negative number; one digit needs more than three
    bits, so that the number of bits bounds the number of digits. *)
Definition to_string (n : Z) : string := dec_aux (S (Z.to_nat (Z.log2 n))) n EmptyString.

Fixpoint string_of_digits (ds : list Z) : string :=
  match ds with [] => EmptyString | d :: ds' => String (digit_char d) (string_of_digits ds') end.

Definition decimal (ds : list Z) : Prop := Forall (fun d => 0 <= d < 10) ds.

Lemma value_snoc b ds d : value b (ds ++ [d]) = value b ds * b + d.
Proof. unfold value. by rewrite fold_left_app. Qed.

Lemma value_nonneg ds : decimal ds -> 0 <= value 10 ds.
Proof.
  induction ds as [|d ds IH] using rev_ind; [done|].
  intros [? Hd]%Forall_app. rewrite value_snoc. inversion Hd; subst.
  specialize (IH H). lia.
Qed.

Lemma digit_val_digit_char d : 0 <= d < 10 -> digit_val (digit_char d) = Some d.
Proof.
  intros H. assert (d = 0 \/ d = 1 \/ d = 2 \/ d = 3 \/ d = 4 \/ d = 5 \/ d = 6 \/ d = 7 \/ d = 8 \/ d = 9) by lia.
  destruct_or!; subst; reflexivity.
Qed.

Lemma digit_char_digit_val c d :
  digit_val c = Some d -> d < 10 -> 0 <= d /\ c = digit_char d.
Proof.
  unfold digit_val, is_digit, is_lower, is_upper. intros H Hd.
  destruct (in_range "0" "9" c) eqn:E; simplify_eq.
  - apply in_range_spec in E. change (code "0") with 48 in *. change (code "9") with 57 in *.
    split; [lia|]. unfold digit_char. change (code "0") with 48.
    replace (48 + (code c - 48)) with (code c) by lia. by rewrite chr_code.
  - change (code "a") with 97 in *. change (code "A") with 65 in *.
    destruct (in_range "a" "z" c) eqn:E2; simplify_eq.
    + apply in_range_spec in E2. change (code "a") with 97 in *. lia.
    + destruct (in_range "A" "Z" c) eqn:E3; simplify_eq.
      apply in_range_spec in E3. change (code "A") with 65 in *. lia.
Qed.

Lemma digits_string_of_digits ds rest :
  decimal ds -> (forall c d, front rest = Some c -> digit_val c = Some d -> 10 <= d) ->
  digits 10 (string_of_digits ds +:+ rest) = (ds, rest).
Proof.
  intros Hds Hr. induction Hds as [|d ds Hd Hds IH]; simpl.
  - destruct rest as [|c rest]; [done|]. simpl.
    destruct (digit_val c) as [d|] eqn:E; [|done].
    specialize (Hr c d eq_refl E). by rewrite (proj2 (Z.ltb_ge d 10)).
  - rewrite digit_val_digit_char by done. rewrite (proj2 (Z.ltb_lt d 10)) by lia. by rewrite IH.
Qed.

Lemma digits_spec s :
  let '(ds, rest) := digits 10 s in decimal ds /\ s = string_of_digits ds +:+ rest.
Proof.
  induction s as [|c s IH]; simpl; [by split; [constructor|]|].
  destruct (digit_val c) as [d|] eqn:E; [|by split; [constructor|]].
  destruct (Z.ltb_spec d 10); [|by split; [constructor|]].
  destruct (digits 10 s) as [ds r]. destruct IH as [? ->].
  destruct (digit_char_digit_val c d) as [? ->]; [done..|].
  split; [constructor; auto | done].
Qed.

(** A list of digits that a number is written with: no superfluous zero. *)
Definition canonical (ds : list Z) : Prop :=
  decimal ds /\ ds <> [] /\ (length ds = 1%nat \/ head ds <> Some 0).

Lemma value_pos ds : decimal ds -> ds <> [] -> head ds <> Some 0 -> 0 < value 10 ds.
Proof.
  induction ds as [|d ds IH] using rev_ind; [done|].
  intros [? Hd]%Forall_app _ Hh. rewrite value_snoc. inversion Hd; subst.
  destruct ds as [|d0 ds].
  - simpl in *. destruct (Z.eq_dec d 0); [congruence|]. unfold value. simpl. lia.
  - assert (0 < value 10 (d0 :: ds)) by (apply IH; auto). lia.
Qed.

Lemma dec_aux_canonical ds fuel acc :
  canonical ds -> (0 < fuel)%nat -> value 10 ds < 2 ^ Z.of_nat fuel ->
  dec_aux fuel (value 10 ds) acc = string_of_digits ds +:+ acc.
Proof.
  intros (Hd & Hn & Hh). revert fuel acc.
  induction ds as [|d ds IH] using rev_ind; [done|]. intros fuel acc Hf0 Hf.
  apply Forall_app in Hd as [Hds Hd]. inversion Hd as [|?? Hd' _]; subst.
  rewrite value_snoc in *. pose proof (value_nonneg ds Hds).
  destruct fuel as [|fuel]; [lia|]. simpl.
  replace ((value 10 ds * 10 + d) mod 10) with d
    by (rewrite Z.add_comm, Z.mod_add by lia; rewrite Z.mod_small; lia).
  destruct (decide (ds = [])) as [->|Hne].
  - rewrite (proj2 (Z.ltb_lt _ _)); [done|]. unfold value; simpl; lia.
  - destruct ds as [|d0 ds]; [done|].
    assert (Hh' : head (d0 :: ds) <> Some 0).
    { destruct Hh as [Hh|Hh]; [rewrite length_app in Hh; simpl in Hh; lia | done]. }
    pose proof (value_pos (d0 :: ds) Hds Hne Hh').
    rewrite (proj2 (Z.ltb_ge _ _)) by lia.
    replace ((value 10 (d0 :: ds) * 10 + d) / 10) with (value 10 (d0 :: ds))
      by (rewrite Z.add_comm, Z.div_add by lia; rewrite Z.div_small; lia).
    rewrite Nat2Z.inj_succ, Z.pow_succ_r in Hf by lia.
    rewrite IH; [| done | done | by right | destruct fuel; [simpl in Hf|]; lia | lia].
    generalize (d0 :: ds) as l; intros l. clear.
    induction l as [|x l IHl]; simpl; [done | by rewrite IHl].
Qed.

Lemma to_string_canonical ds : canonical ds -> to_string (value 10 ds) = string_of_digits ds.
Proof.
  intros Hc. unfold to_string. rewrite dec_aux_canonical; [apply str_app_nil_r | done | lia |].
  pose proof (value_nonneg ds (proj1 Hc)) as [Hp|Hp]%Z.lt_eq_cases; [|by rewrite <-Hp].
  pose proof (Z.log2_spec _ Hp). pose proof (Z.log2_nonneg (value 10 ds)).
  rewrite Nat2Z.inj_succ, Z2Nat.id by lia. lia.
Qed.

(** The digits of a number. *)
Fixpoint digits_of (fuel : nat) (n : Z) : list Z :=
  match fuel with
  | O => []
  | S fuel' => if n <? 10 then [n] else digits_of fuel' (n / 10) ++ [n mod 10]
  end.

Lemma digits_of_spec fuel n :
  0 <= n < 2 ^ Z.of_nat fuel -> (0 < fuel)%nat ->
  canonical (digits_of fuel n) /\ value 10 (digits_of fuel n) = n /\ (10 <= n -> head (digits_of fuel n) <> Some 0).
Proof.
  revert n. induction fuel as [|fuel IH]; [lia|]. intros n Hn _. simpl.
  destruct (Z.ltb_spec n 10).
  - split_and!; [|unfold value; simpl; lia | lia].
    split_and!; [constructor; [lia | constructor] | done | by left].
  - assert (Hq : 0 < n / 10) by (apply Z.div_str_pos; lia).
    assert (Hn' : 0 <= n / 10 < 2 ^ Z.of_nat fuel).
    { split; [lia|]. apply Z.div_lt_upper_bound; [lia|].
      rewrite Nat2Z.inj_succ, Z.pow_succ_r in Hn; lia. }
    assert (Hf : (0 < fuel)%nat) by (destruct fuel; simpl in *; lia).
    destruct (IH _ Hn' Hf) as ((Hd & Hne & Hh) & Hv & Hh').
    assert (Hhd : head (digits_of fuel (n / 10)) <> Some 0).
    { destruct Hh as [Hh|Hh]; [|done]. destruct (digits_of fuel (n / 10)) as [|d [|]]; try done.
      unfold value in Hv; simpl in *. intros [= ->]. lia. }
    destruct (digits_of fuel (n / 10)) as [|d0 ds] eqn:E; [done|].
    split_and!; [split_and! | |].
    + apply Forall_app; split; [done|]. constructor; [apply Z.mod_pos_bound; lia | constructor].
    + done.
    + by right.
    + rewrite value_snoc, Hv. rewrite Z.mul_comm. symmetry. apply Z.div_mod. lia.
    + done.
Qed.

(** Every number has its canonical digits. *)
Lemma to_string_digits n :
  0 <= n -> exists ds, canonical ds /\ value 10 ds = n /\ to_string n = string_of_digits ds.
Proof.
  intros Hn. exists (digits_of (S (Z.to_nat (Z.log2 n))) n).
  destruct (digits_of_spec (S (Z.to_nat (Z.log2 n))) n) as (Hc & Hv & _); [|lia|].
  - split; [done|]. rewrite Nat2Z.inj_succ, Z2Nat.id by apply Z.log2_nonneg.
    apply Z.lt_eq_cases in Hn. destruct Hn as [Hp|Hp]; [apply (Z.log2_spec n Hp) | by subst].
  - split_and!; [done | done |]. etrans; [|by apply to_string_canonical]. by rewrite Hv.
Qed.

(** [std::from_chars] reads back what [std::to_string] wrote. *)
Lemma from_chars_to_string bits n :
  0 <= n < 2 ^ bits -> from_chars_unsigned bits 10 (to_string n) = Some (n, "").
Proof.
  intros [Hn Hb]. destruct (to_string_digits n Hn) as (ds & (Hd & Hne & _) & Hv & ->).
  unfold from_chars_unsigned.
  rewrite <-(str_app_nil_r (string_of_digits ds)), digits_string_of_digits by done.
  destruct ds; [done|]. rewrite Hv, (proj2 (Z.ltb_lt _ _)); done.
Qed.

Lemma digit_char_is_digit d : 0 <= d < 10 -> is_digit (digit_char d) = true.
Proof.
  intros. unfold is_digit, digit_char. apply in_range_spec.
  change (code "0") with 48. change (code "9") with 57. rewrite code_chr; lia.
Qed.

Lemma str_all_digits ds : decimal ds -> str_all is_digit (string_of_digits ds) = true.
Proof. induction 1; simpl; [done|]. by rewrite digit_char_is_digit. Qed.

Lemma to_string_all_digits n : 0 <= n -> str_all is_digit (to_string n) = true.
Proof. intros Hn. destruct (to_string_digits n Hn) as (ds & (? & _) & _ & ->). by apply str_all_digits. Qed.

Lemma to_string_not_empty n : 0 <= n -> to_string n <> "".
Proof. intros Hn. destruct (to_string_digits n Hn) as (ds & (_ & ? & _) & _ & ->). by destruct ds. Qed.

Lemma string_of_digits_inj ds ds' :
  decimal ds -> decimal ds' -> string_of_digits ds = string_of_digits ds' -> ds = ds'.
Proof.
  intros H1 H2 He. assert (Hp : digits 10 (string_of_digits ds +:+ "") = digits 10 (string_of_digits ds' +:+ "")) by congruence.
  rewrite !digits_string_of_digits in Hp by done. congruence.
Qed.

Lemma length_string_of_digits ds : String.length (string_of_digits ds) = length ds.
Proof. induction ds; simpl; congruence. Qed.

Lemma value_lower d ds :
  decimal (d :: ds) -> d <> 0 -> 10 ^ Z.of_nat (length ds) <= value 10 (d :: ds).
Proof.
  unfold decimal. intros Hd Hne. revert Hd. induction ds as [|x ds IH] using rev_ind; intros Hd.
  - inv_forall. change (10 ^ Z.of_nat (length (@nil Z))) with 1. change (value 10 [d]) with d. lia.
  - change (d :: ds ++ [x]) with ((d :: ds) ++ [x]) in *. apply Forall_app in Hd as [Hd Hx]. specialize (IH Hd). inv_forall.
    rewrite value_snoc, length_app. rewrite Nat.add_comm. simpl (length [x] + _)%nat.
    rewrite Nat2Z.inj_succ, Z.pow_succ_r by lia. lia.
Qed.

(** A number below [10 ^ k] has at most [k] digits. *)
Lemma to_string_length n k :
  0 <= n < 10 ^ Z.of_nat k -> (0 < k)%nat -> (String.length (to_string n) <= k)%nat.
Proof.
  intros [Hn Hk] Hk0. destruct (to_string_digits n Hn) as (ds & (Hd & Hne & Hh) & <- & ->).
  rewrite length_string_of_digits. destruct ds as [|d ds]; [done|]. simpl.
  destruct ds as [|d' ds]; [simpl; lia|].
  assert (d <> 0) by (destruct Hh as [Hh|Hh]; [done | simpl in Hh; congruence]).
  pose proof (value_lower d (d' :: ds) Hd H).
  assert (10 ^ Z.of_nat (length (d' :: ds)) < 10 ^ Z.of_nat k) as ?%Z.pow_lt_mono_r_iff by lia; lia.
Qed.

Lemma to_string_inj m n : 0 <= m -> 0 <= n -> to_string m = to_string n -> m = n.
Proof.
  intros Hm Hn. destruct (to_string_digits m Hm) as (ds & (? & _) & <- & ->).
  destruct (to_string_digits n Hn) as (ds' & (? & _) & <- & ->).
  intros He. f_equal. by apply string_of_digits_inj.
Qed.

(** ** Separated lists of texts *)

(** The texts of [l] with [sep] between them. *)
Fixpoint join (sep : string) (l : list string) : string :=
  match l with
  | [] => ""
  | [s] => s
  | s :: l' => s +:+ sep +:+ join sep l'
  end.

Lemma join_cons sep s l : l <> [] -> join sep (s :: l) = s +:+ sep +:+ join sep l.
Proof. by destruct l. Qed.

Lemma str_all_join p sep l :
  str_all p sep = true -> Forall (fun s => str_all p s = true) l -> str_all p (join sep l) = true.
Proof.
  intros Hsep. induction 1 as [|s l Hs Hl IH]; [done|].
  destruct l; [done|]. rewrite join_cons by done. by rewrite !str_all_app, Hs, Hsep, IH.
Qed.

Lemma back_app a b : b <> "" -> back (a +:+ b) = back b.
Proof.
  intros Hb. induction a as [|c a IH]; simpl; [done|]. rewrite IH.
  by destruct a; [destruct b|].
Qed.

Lemma front_app a b : a <> "" -> front (a +:+ b) = front a.
Proof. by destruct a. Qed.

Lemma back_some s c : back s = Some c -> exists s', s = s' +:+ String c "".
Proof.
  induction s as [|d s IH]; simpl; [done|]. destruct s as [|e s].
  - intros [= ->]. by exists "".
  - intros H. destruct (IH H) as [s' ->]. by exists (String d s').
Qed.

Lemma str_take_app a b : str_take (String.length a) (a +:+ b) = a.
Proof. induction a; simpl; [by destruct b | congruence]. Qed.

Lemma str_drop_app a b : str_drop (String.length a) (a +:+ b) = b.
Proof. by induction a. Qed.

Lemma str_take_drop n s : str_take n s +:+ str_drop n s = s.
Proof. revert s. induction n as [|n IH]; intros [|c s]; [done..|]. cbn. f_equal. apply IH. Qed.

Lemma str_take_all n s : (String.length s <= n)%nat -> str_take n s = s.
Proof.
  revert s. induction n as [|n IH]; intros [|c s] H; cbn in *; [done | lia | done|]. f_equal. apply IH. lia.
Qed.

Lemma str_take_length n s : String.length (str_take n s) = (n `min` String.length s)%nat.
Proof. revert s. induction n as [|n IH]; intros [|c s]; cbn; [done..|]. by rewrite IH. Qed.

Lemma starts_with_spec p s : starts_with p s = true <-> exists rest, s = p +:+ rest.
Proof.
  unfold starts_with. revert s. induction p as [|c p IH]; intros s; cbn.
  - split; [by exists s | by destruct s].
  - destruct s as [|d s]; cbn.
    + split; [done | by intros [rest [=]]].
    + destruct (ascii_dec c d) as [<-|Hn].
      * rewrite IH. split; intros [rest Hr]; exists rest; congruence.
      * split; [done | intros [rest [= ? ?]]; congruence].
Qed.

Lemma str_app_empty a b : a +:+ b = "" -> a = "" /\ b = "".
Proof. by destruct a. Qed.

Lemma join_not_empty sep l : l <> [] -> Forall (fun s => s <> "") l -> join sep l <> "".
Proof.
  intros Hl Hf. destruct l as [|s l]; [done|]. inv_forall.
  destruct l; [done|]. rewrite join_cons by done. intros [? _]%str_app_empty. done.
Qed.

Lemma join_back sep l (P : option ascii -> Prop) :
  l <> [] -> Forall (fun s => s <> "" /\ P (back s)) l -> P (back (join sep l)).
Proof.
  intros Hl Hf. induction Hf as [|s l [Hs Hp] Hf IH]; [done|].
  destruct l as [|s' l]; [done|]. rewrite join_cons by done.
  assert (join sep (s' :: l) <> "").
  { apply join_not_empty; [done|]. eapply Forall_impl; [exact Hf|]. by intros ? []. }
  rewrite !back_app; [by apply IH | done | by intros [_ ?]%str_app_empty].
Qed.

Lemma join_front sep l (P : option ascii -> Prop) :
  l <> [] -> Forall (fun s => s <> "" /\ P (front s)) l -> P (front (join sep l)).
Proof.
  intros Hl Hf. destruct l as [|s l]; [done|]. inv_forall. destruct H as [Hs Hp].
  destruct l; [done|]. rewrite join_cons by done. by rewrite front_app.
Qed.

Lemma str_all_front p s c : str_all p s = true -> front s = Some c -> p c = true.
Proof. destruct s; [done|]. simpl. intros [? _]%andb_true_iff [= <-]. done. Qed.

Lemma str_all_back p s c : str_all p s = true -> back s = Some c -> p c = true.
Proof.
  intros Hs [s' ->]%back_some. rewrite str_all_app in Hs. simpl in Hs.
  by destruct (p c), (str_all p s').
Qed.

(** ** Lists *)

Lemma Forall_sublist {A} (P : A -> Prop) l k : l `sublist_of` k -> Forall P k -> Forall P l.
Proof. induction 1; intros H'; [done| |]; apply Forall_cons in H' as [? ?]; auto. Qed.

Lemma NoDup_map_filter {A B} (f : A -> B) (p : A -> bool) l : NoDup (map f l) -> NoDup (map f (List.filter p l)).
Proof.
  induction l as [|x l IH]; cbn; [done|]. rewrite NoDup_cons. intros [Hx Hl]. specialize (IH Hl).
  destruct (p x); [|done]. cbn. apply NoDup_cons. split; [|done].
  intros (y & Hy & Hin)%list_elem_of_fmap. apply Hx. rewrite Hy. apply list_elem_of_fmap_2.
  apply list_elem_of_In, filter_In in Hin as [Hin _]. by apply list_elem_of_In.
Qed.

Lemma NoDup_map_inj {A B} (f : A -> B) l x y : NoDup (map f l) -> x ∈ l -> y ∈ l -> f x = f y -> x = y.
Proof.
  induction l as [|z l IH]; cbn; [by intros _ ?%elem_of_nil|]. rewrite NoDup_cons, !elem_of_cons.
  intros [Hz Hd] [->|Hx] [->|Hy] He; [done | | | by apply IH].
  - exfalso. apply Hz. rewrite He. by apply list_elem_of_fmap_2.
  - exfalso. apply Hz. rewrite <- He. by apply list_elem_of_fmap_2.
Qed.

(** ** Steps *)

(** What every step preserves holds along every sequence of steps. *)
Lemma rtc_preserves {A} (R : relation A) (I : A -> Prop) x y :
  (forall x y, I x -> R x y -> I y) -> I x -> rtc R x y -> I y.
Proof. intros HI Hx Hr. induction Hr as [|x z y Hxz _ IH]; [done | eauto]. Qed.

(** ** The order of texts *)

(** [a <= b] for two [std::string]s. *)
Definition name_order (a b : string) : Prop := String.leb a b = true.

#[export] Instance name_order_dec : RelDecision name_order.
Proof. intros a b. unfold name_order. apply _. Defined.

#[export] Instance name_order_total : Total name_order.
Proof. intros a b. unfold name_order. destruct (String.leb_total a b); auto. Qed.

#[export] Instance name_order_antisymm : AntiSymm (=) name_order.
Proof. intros a b. apply String.leb_antisym. Qed.

Lemma name_order_cons c a d b :
  name_order (String c a) (String d b) <-> (code c < code d \/ c = d /\ name_order a b).
Proof.
  unfold name_order, String.leb. cbn [String.compare]. unfold Ascii.compare.
  destruct (N.compare_spec (N_of_ascii c) (N_of_ascii d)) as [He|Hl|Hl].
  - assert (c = d) as -> by (apply code_inj; unfold code; congruence).
    split; [by right | intros [?|[_ ?]]; [lia | done]].
  - split; [intros _; left; unfold code; lia | done].
  - split; [done|]. unfold code. intros [?|[-> _]]; lia.
Qed.

#[export] Instance name_order_trans : Transitive name_order.
Proof.
  intros a. induction a as [|c a IH]; intros [|d b] [|e z]; try done.
  rewrite !name_order_cons. intros [H1|[-> H1]] [H2|[-> H2]]; [left; lia | by left | by left |].
  right. split; [done | by eapply IH].
Qed.
