(* ===== verification/Double.v ===== *)
(** * Double precision numbers

    [double] as the binary64 format of IEEE 754: the operations of the Standard
    Library's specification of floating point, with 53 bits of precision and
    exponents below 1024, and [std::from_chars] into a [double], rounding the
    decimal text to the nearest number. *)

From Stdlib Require Import Floats.SpecFloat.
From S2P Require Import Prelude.

Definition double : Type := spec_float.

Definition prec : Z := 53.
Definition emax : Z := 1024.

#[export] Instance double_eq_dec : EqDecision double.
Proof. intros a b. unfold Decision. decide equality; first [apply Bool.bool_dec | apply Pos.eq_dec | apply Z.eq_dec]. Defined.

Definition dadd : double -> double -> double := SFadd prec emax.
Definition dmul : double -> double -> double := SFmul prec emax.
Definition ddiv : double -> double -> double := SFdiv prec emax.

(** The conversion of an [int]. *)
Definition of_int (z : Z) : double := binary_normalize prec emax z 0 false.

(** [std::isfinite]. *)
Definition isfinite (d : double) : bool := match d with S754_zero _ | S754_finite _ _ _ => true | _ => false end.

(** [d <= 0]. *)
Definition not_positive (d : double) : bool :=
  match SFcompare d (of_int 0) with Some Lt | Some Eq => true | _ => false end.

(** ** [std::from_chars] *)

(** The number [m * 10 ^ e], rounded; [None] when it is out of range. *)
Definition decimal_to_double (negative : bool) (m e : Z) : option double :=
  let rounded :=
    match m with
    | Zpos p =>
        if 0 <=? e then binary_normalize prec emax (if negative then Z.neg p * 10 ^ e else Z.pos p * 10 ^ e) 0 negative
        else
          let '(mz, ez, lz) := SFdiv_core_binary prec emax m 0 (10 ^ (- e)) 0 in
          binary_round_aux prec emax negative mz ez lz
    | _ => S754_zero negative
    end in
  match rounded with
  | S754_finite _ _ _ => Some rounded
  | S754_zero _ => if m =? 0 then Some rounded else None
  | _ => None
  end.

(** A letter of either case. *)
Definition is_letter (lower : ascii) (c : ascii) : bool := to_lower c ==? lower.

Fixpoint starts_with_word (word s : string) : bool :=
  match word, s with
  | EmptyString, _ => true
  | String w word', String c s' => is_letter w c && starts_with_word word' s'
  | _, _ => false
  end.

(** The exponent and the rest of the text; a text without one has exponent 0. *)
Definition scan_exponent (s : string) : Z * string :=
  match s with
  | String c rest =>
      if is_letter "e" c then
        let '(negative, body) :=
          match rest with
          | String "-" r => (true, r)
          | String "+" r => (false, r)
          | _ => (false, rest)
          end in
        match digits 10 body with
        | ([], _) => (0, s)
        | (ds, rest') => (if negative : bool then - value 10 ds else value 10 ds, rest')
        end
      else (0, s)
  | EmptyString => (0, s)
  end.

Definition scan_number (negative : bool) (s : string) : option (double * string) :=
  let '(whole, r) := digits 10 s in
  let '(fraction, r) := match r with String "." r' => digits 10 r' | _ => ([], r) end in
  match whole ++ fraction with
  | [] => None
  | ds =>
      let '(e, rest) := scan_exponent r in
      d ← decimal_to_double negative (value 10 ds) (e - Z.of_nat (length fraction));
      Some (d, rest)
  end.

(** The number and the text from the returned pointer on; [None] when [ec] is
    not zero. (The optional text in parentheses behind NaN is left in the rest.) *)
Definition from_chars_double (s : string) : option (double * string) :=
  let '(negative, body) := match s with String "-" s' => (true, s') | _ => (false, s) end in
  if starts_with_word "infinity" body then Some (S754_infinity negative, str_drop 8 body)
  else if starts_with_word "inf" body then Some (S754_infinity negative, str_drop 3 body)
  else if starts_with_word "nan" body then Some (S754_nan, str_drop 3 body)
  else scan_number negative body.

Example read_half : from_chars_double "0.5" = Some (S754_finite false 4503599627370496 (-53), "").
Proof. vm_compute. reflexivity. Qed.

Example read_tenth : from_chars_double "-1e-1x" = Some (S754_finite true 7205759403792794 (-56), "x").
Proof. vm_compute. reflexivity. Qed.

Example read_out_of_range : from_chars_double "1e999" = None.
Proof. vm_compute. reflexivity. Qed.
