(* ===== verification/SystemTypes.v ===== *)
(** * Data of the [mnc::system] contract (common/mnc/system/system.hpp)

    The records and enumerations that cross the D-Bus interface, with the
    defaults of their C++ member initialisers, decidable equality (the
    defaulted [operator==]) and the exceptions the code throws. *)

From S2P Require Import Prelude Double.

(** ** Errors *)

Inductive ErrorCode :=
  | none
  | invalid_argument
  | permission_denied
  | unavailable
  | unsupported
  | busy
  | apply_failed
  | timeout
  | internal_error.

#[export] Instance ErrorCode_eq_dec : EqDecision ErrorCode.
Proof. solve_decision. Defined.

Record SystemError := mkSystemError { err_code : ErrorCode; err_message : string }.

#[export] Instance SystemError_eq_dec : EqDecision SystemError.
Proof. solve_decision. Defined.

(** What a [catch] clause can tell apart: [mnc::system::Error], another
    [std::exception] and anything else. *)
Inductive exn :=
  | Error (e : SystemError)
  | StdException (what : string)
  | UnknownException.

#[export] Instance exn_eq_dec : EqDecision exn.
Proof. solve_decision. Defined.

(** The outcome of C++ code that may throw. *)
Inductive outcome (A : Type) :=
  | Return (a : A)
  | Throw (e : exn).
Arguments Return {A} a.
Arguments Throw {A} e.

#[export] Instance outcome_eq_dec `{EqDecision A} : EqDecision (outcome A).
Proof. solve_decision. Defined.

#[export] Instance outcome_ret : MRet outcome := fun A => @Return A.

#[export] Instance outcome_bind : MBind outcome := fun A B f m =>
  match m with Return a => f a | Throw e => Throw e end.

Definition returns {A} (m : outcome A) : bool :=
  match m with Return _ => true | Throw _ => false end.

(** [throw Error({code, message})]. *)
Definition throw_error {A} (c : ErrorCode) (message : string) : outcome A :=
  Throw (Error (mkSystemError c message)).

(** [Result<T>] is [std::expected<T, SystemError>]; [require] throws its error. *)
Definition Result (T : Type) : Type := SystemError + T.

Definition require {T} (result : Result T) : outcome T :=
  match result with
  | inl error => Throw (Error error)
  | inr value => Return value
  end.

Lemma bind_Return {A B} (m : outcome A) (f : A -> outcome B) b :
  m ≫= f = Return b <-> exists a, m = Return a /\ f a = Return b.
Proof. destruct m; cbn; split; [eauto | by intros (? & [= ->] & ?) | done | by intros (? & ? & ?)]. Qed.

(** ** Configuration *)

Inductive NetworkMode := dhcp | static_ipv4.

#[export] Instance NetworkMode_eq_dec : EqDecision NetworkMode.
Proof. solve_decision. Defined.

Record NetworkConfig := mkNetworkConfig {
  nc_interface : string;
  nc_mode : NetworkMode;
  nc_address : string;
  nc_prefix_length : Z;   (* std::uint8_t *)
  nc_gateway : string;
  nc_dns_servers : list string;
  nc_preferred_default : bool
}.

#[export] Instance NetworkConfig_eq_dec : EqDecision NetworkConfig.
Proof. solve_decision. Defined.

Record Preferences := mkPreferences {
  pr_hostname : string;
  pr_ssh_enabled : bool;
  pr_network : list NetworkConfig
}.

#[export] Instance Preferences_eq_dec : EqDecision Preferences.
Proof. solve_decision. Defined.

Record TimePreferences := mkTimePreferences {
  tp_synchronization : string;
  tp_timezone : string;
  tp_ptp_interface : string;
  tp_ntp_servers : list string
}.

#[export] Instance TimePreferences_eq_dec : EqDecision TimePreferences.
Proof. solve_decision. Defined.

Record Configuration := mkConfiguration {
  cf_system : Preferences;
  cf_time : TimePreferences
}.

#[export] Instance Configuration_eq_dec : EqDecision Configuration.
Proof. solve_decision. Defined.

(** Default member initialisers. *)
Definition default_Preferences : Preferences := mkPreferences "mnc" true [].

Definition default_TimePreferences : TimePreferences := mkTimePreferences "ntp" "UTC" "" [].

Definition default_Configuration : Configuration :=
  mkConfiguration default_Preferences default_TimePreferences.

(** [config.system.network = n], [config.system.hostname = h] and
    [config.time.ptp_interface = i]. *)
Definition set_network (n : list NetworkConfig) (c : Configuration) : Configuration :=
  mkConfiguration (mkPreferences (pr_hostname (cf_system c)) (pr_ssh_enabled (cf_system c)) n) (cf_time c).

Definition set_hostname (h : string) (c : Configuration) : Configuration :=
  mkConfiguration (mkPreferences h (pr_ssh_enabled (cf_system c)) (pr_network (cf_system c))) (cf_time c).

Definition set_ptp_interface (i : string) (c : Configuration) : Configuration :=
  mkConfiguration (cf_system c)
    (mkTimePreferences (tp_synchronization (cf_time c)) (tp_timezone (cf_time c)) i (tp_ntp_servers (cf_time c))).

Record BootPreferences := mkBootPreferences {
  bp_schema_version : Z;   (* std::uint32_t *)
  bp_factory : Configuration;
  bp_initial : Configuration;
  bp_managed_hostname : string
}.

#[export] Instance BootPreferences_eq_dec : EqDecision BootPreferences.
Proof. solve_decision. Defined.

(** ** Status and transactions *)

Record TimeStatus := mkTimeStatus {
  ts_unix_time_ms : Z;
  ts_utc_time : string;
  ts_local_time : string;
  ts_timezone : string;
  ts_utc_offset_seconds : Z;
  ts_uptime_ms : Z
}.

Record TimezoneLocation := mkTimezoneLocation { tl_latitude : double; tl_longitude : double }.

Record Timezone := mkTimezone {
  tz_id : string;
  tz_utc_offset_seconds : option Z;
  tz_location : option TimezoneLocation
}.

Record TimezoneCatalog := mkTimezoneCatalog { tc_generated_at_unix_ms : Z; tc_zones : list Timezone }.

Record Temperature := mkTemperature {
  te_zone : string;
  te_label : string;
  te_millidegrees_c : option Z
}.

Definition te_available (t : Temperature) : bool :=
  match te_millidegrees_c t with Some _ => true | None => false end.

Record NetworkStatus := mkNetworkStatus {
  ns_interface : string;
  ns_mac_address : string;
  ns_carrier : bool;
  ns_addresses : list string;
  ns_gateway : string;
  ns_dns_servers : list string
}.

Record PtpInterface := mkPtpInterface {
  pi_interface : string;
  pi_carrier : bool;
  pi_hardware_timestamping : bool;
  pi_phc_index : Z;
  pi_selectable : bool;
  pi_reason : string
}.

#[export] Instance PtpInterface_eq_dec : EqDecision PtpInterface.
Proof. solve_decision. Defined.

Record SystemStatus := mkSystemStatus {
  ss_configuration : Configuration;
  ss_network : list NetworkStatus;
  ss_ptp_interfaces : list PtpInterface;
  ss_irig_selectable : bool;
  ss_ssh_listening : bool;
  ss_kernel_release : string;
  ss_operating_system : string
}.

Record AuditContext := mkAuditContext { ac_actor : string; ac_request_id : string }.

#[export] Instance AuditContext_eq_dec : EqDecision AuditContext.
Proof. solve_decision. Defined.

Record NetworkProposal := mkNetworkProposal {
  np_network : list NetworkConfig;
  np_previous_settings_hash : string;
  np_candidate_settings_hash : string;
  np_audit_context : AuditContext
}.

Record NetworkTransaction := mkNetworkTransaction {
  nt_id : string;
  nt_state : string;
  nt_remaining_ms : Z;   (* std::uint64_t *)
  nt_network : list NetworkConfig;
  nt_message : string
}.

#[export] Instance NetworkTransaction_eq_dec : EqDecision NetworkTransaction.
Proof. solve_decision. Defined.

Definition default_NetworkTransaction : NetworkTransaction := mkNetworkTransaction "" "idle" 0 [] "".

Record Job := mkJob { job_id : string; job_action : string; job_state : string }.

#[export] Instance Job_eq_dec : EqDecision Job.
Proof. solve_decision. Defined.

Definition default_Job : Job := mkJob "" "" "".

Inductive PowerAction := reboot | shutdown.

#[export] Instance PowerAction_eq_dec : EqDecision PowerAction.
Proof. solve_decision. Defined.
