(* ===== verification/Validation.v ===== *)
(** * Validation of configurations (common/mnc/system/validation.cpp)

    The checks that every configuration passes before it is stored or handed to
    the platform, and what they mean: an accepted IPv4 text is exactly the
    canonical dotted form of a unicast address, the accepted network
    configurations are those that meet the arithmetic specification
    [network_ok], and accepted texts cannot inject configuration lines. *)

From S2P Require Import Prelude SystemTypes.

(** ** The code *)

Definition check (v : bool) (message : string) : outcome unit :=
  if v then Return tt else throw_error invalid_argument message.

(** One round of the loop of [ipv4]: the number that [part] denotes. *)
Definition octet (part : string) : option Z :=
  match from_chars_unsigned 32 10 part with
  | Some (n, EmptyString) =>
      if negb (empty part) && ((size_of part =? 1) || (front part <>? Some "0"%char)) && (n <=? 255)
      then Some n else None
  | _ => None
  end.

(** The loop of [ipv4] with [left] rounds to go: [i = 4 - left]. *)
Fixpoint ipv4_loop (left : nat) (result : Z) (rest : string) : outcome Z :=
  match left with
  | O => Return result
  | S left' =>
      let '(part, after) := cut "." rest in
      match octet part with
      | None => throw_error invalid_argument "invalid IPv4 address"
      | Some n =>
          let result := u32 (Z.lor (u32 (Z.shiftl result 8)) n) in
          _ ← check (eqb (left' =? 0)%nat (after ==? None)) "invalid IPv4 address";
          ipv4_loop left' result (default rest after)
      end
  end.

Definition ipv4 (text : string) : outcome Z :=
  result ← ipv4_loop 4 0 text;
  _ ← check (negb (Z.shiftr result 24 =? 0) && (Z.shiftr result 24 <? 224) && negb (Z.shiftr result 24 =? 127))
        "IPv4 must be a unicast address";
  mret result.

(** The lambda [decimalAddress] of [validNtpServer], with [left] rounds to go. *)
Fixpoint decimalAddress_loop (left : nat) (text : string) : bool :=
  match left with
  | O => true
  | S left' =>
      let '(part, after) := cut "." text in
      match from_chars_unsigned 32 10 part with
      | Some (value, EmptyString) =>
          if empty part || ((1 <? size_of part) && (front part ==? Some "0"%char)) || (255 <? value) ||
             negb (eqb (left' =? 0)%nat (after ==? None))
          then false
          else decimalAddress_loop left' (default text after)
      | _ => false
      end
  end.

Definition decimalAddress (text : string) : bool := decimalAddress_loop 4 text.

(** The lambda [count] of [validNtpServer]: the number of 16-bit groups of a
    colon-separated text, [-1] when it is malformed. Each round removes at
    least one character, so that the length of the text is enough fuel. *)
Fixpoint count_loop (fuel : nat) (allowV4 : bool) (words : Z) (part : string) : Z :=
  match fuel with
  | O => -1
  | S fuel' =>
      if empty part then words
      else
        let '(word, after) := cut ":" part in
        if contains "." word then
          if allowV4 && (after ==? None) && decimalAddress word then words + 2 else -1
        else
          match from_chars_unsigned 32 16 word with
          | Some (_, EmptyString) =>
              if empty word || (4 <? size_of word) then -1
              else
                match after with
                | None => words + 1
                | Some EmptyString => -1
                | Some part' => count_loop fuel' allowV4 (words + 1) part'
                end
          | _ => -1
          end
  end.

Definition count (part : string) (allowV4 : bool) : Z :=
  count_loop (S (String.length part)) allowV4 0 part.

(** [find("::")]: the texts before and after the first double colon. *)
Fixpoint cut_double_colon (s : string) : option (string * string) :=
  match s with
  | EmptyString => None
  | String c s' =>
      if (c ==? ":"%char) && (front s' ==? Some ":"%char) then Some (EmptyString, str_drop 1 s')
      else
        match cut_double_colon s' with
        | Some (l, r) => Some (String c l, r)
        | None => None
        end
  end.

Definition label_char (c : ascii) : bool := is_lower c || is_upper c || is_digit c || (c ==? "-"%char).

(** The loop over the labels of a host name; every round removes a dot. *)
Fixpoint labels_loop (fuel : nat) (text : string) : bool :=
  match fuel with
  | O => false
  | S fuel' =>
      if empty text then false
      else
        let '(label, after) := cut "." text in
        if empty label || (63 <? size_of label) || (front label ==? Some "-"%char) ||
           (back label ==? Some "-"%char) || negb (str_all label_char label)
        then false
        else match after with
             | None => true
             | Some text' => labels_loop fuel' text'
             end
  end.

Definition remove_last_dot (text : string) : string :=
  if back text ==? Some "."%char then str_take (String.length text - 1) text else text.

Definition validNtpServer (server : string) : bool :=
  if empty server || (253 <? size_of server) then false
  else if contains ":" server then
    match cut_double_colon server with
    | None => count server true =? 8
    | Some (l, r) =>
        match cut_double_colon r with
        | Some _ => false
        | None =>
            let left := count l false in
            let right := count r true in
            (0 <=? left) && (0 <=? right) && (left + right <? 8)
        end
    end
  else if str_all (fun c => is_digit c || (c ==? "."%char)) server then decimalAddress server
  else
    let text := remove_last_dot server in
    labels_loop (S (String.length text)) text.

Definition name_char (c : ascii) : bool := is_alnum c || (c ==? "_"%char) || (c ==? "-"%char).

Definition validInterfaceName (name : string) : bool :=
  negb (empty name) && (size_of name <? 16) && str_all name_char name.

(** [for (const auto &dns : c.dns_servers) (void)ipv4(dns);] *)
Fixpoint check_dns (servers : list string) : outcome unit :=
  match servers with
  | [] => Return tt
  | dns :: servers' => _ ← ipv4 dns; check_dns servers'
  end.

(** [~mask] in [std::uint32_t]. *)
Definition not32 (z : Z) : Z := u32 (Z.lnot z).

(** The branch of [validateNetwork] for [NetworkMode::static_ipv4]. *)
Definition check_static (c : NetworkConfig) : outcome unit :=
  _ ← check ((1 <=? nc_prefix_length c) && (nc_prefix_length c <=? 32)) "invalid IPv4 prefix";
  _ ← check (negb (nc_preferred_default c) || negb (empty (nc_gateway c)))
        "preferred static interface requires a gateway";
  address ← ipv4 (nc_address c);
  let mask := u32 (Z.shiftl 0xffffffff (32 - nc_prefix_length c)) in
  _ ← (if nc_prefix_length c <? 31
       then check (negb (Z.land address (not32 mask) =? 0) && negb (Z.land address (not32 mask) =? not32 mask))
              "network/broadcast address is not a host"
       else Return tt);
  if negb (empty (nc_gateway c)) then
    gateway ← ipv4 (nc_gateway c);
    _ ← check (negb (gateway =? address) && (Z.land gateway mask =? Z.land address mask))
          "gateway must be a different address on the subnet";
    if nc_prefix_length c <? 31
    then check (negb (Z.land gateway (not32 mask) =? 0) && negb (Z.land gateway (not32 mask) =? not32 mask))
           "gateway cannot be a network or broadcast address"
    else Return tt
  else Return tt.

(** The loop of [validateNetwork]; [names] is the set of names met so far. *)
Fixpoint validateNetwork_loop (names : gset string) (configs : list NetworkConfig) : outcome unit :=
  match configs with
  | [] => Return tt
  | c :: configs' =>
      _ ← check (negb (empty (nc_interface c)) && (size_of (nc_interface c) <? 16) &&
                 str_all name_char (nc_interface c)) "invalid interface name";
      _ ← check (negb (bool_decide (nc_interface c ∈ names))) "duplicate interface";
      _ ← check (Z.of_nat (length (nc_dns_servers c)) <=? 4) "too many DNS servers";
      _ ← check_dns (nc_dns_servers c);
      _ ← match nc_mode c with
          | dhcp => check (empty (nc_address c) && empty (nc_gateway c))
                      "DHCP cannot specify a static address or gateway"
          | static_ipv4 => check_static c
          end;
      validateNetwork_loop ({[nc_interface c]} ∪ names) configs'
  end.

Definition preferred_count (configs : list NetworkConfig) : Z :=
  Z.of_nat (length (filter (fun c => nc_preferred_default c = true) configs)).

Definition validateNetwork (configs : list NetworkConfig) : outcome unit :=
  _ ← check (Z.of_nat (length configs) <=? 8) "too many network interfaces";
  _ ← check (preferred_count configs <=? 1) "only one preferred default interface is allowed";
  validateNetwork_loop ∅ configs.

Definition host_char (c : ascii) : bool := is_alnum c || (c ==? "-"%char).

Definition zone_char (c : ascii) : bool :=
  is_alnum c || (c ==? "/"%char) || (c ==? "_"%char) || (c ==? "-"%char) || (c ==? "+"%char).

(** The loop of [validate] over the NTP servers. *)
Fixpoint check_ntp (servers : gset string) (ntp : list string) : outcome unit :=
  match ntp with
  | [] => Return tt
  | server :: ntp' =>
      _ ← check (validNtpServer server) "invalid NTP server: use a hostname or IP address without a port";
      _ ← check (negb (bool_decide (server ∈ servers))) "duplicate NTP server";
      check_ntp ({[server]} ∪ servers) ntp'
  end.

Definition validate (c : Configuration) : outcome unit :=
  let hostname := pr_hostname (cf_system c) in
  let time := cf_time c in
  _ ← check (negb (empty hostname) && (size_of hostname <=? 63) && (front hostname <>? Some "-"%char) &&
             (back hostname <>? Some "-"%char) && str_all host_char hostname) "invalid hostname";
  _ ← check ((tp_synchronization time ==? "ntp") || (tp_synchronization time ==? "ptp") ||
             (tp_synchronization time ==? "irig") || (tp_synchronization time ==? "local"))
        "invalid time synchronization mode";
  _ ← check (negb (empty (tp_timezone time)) && (size_of (tp_timezone time) <=? 128) &&
             (front (tp_timezone time) <>? Some "/"%char) && negb (has_substring ".." (tp_timezone time)) &&
             str_all zone_char (tp_timezone time)) "invalid timezone";
  _ ← check ((empty (tp_ptp_interface time) && (tp_synchronization time <>? "ptp")) ||
             validInterfaceName (tp_ptp_interface time)) "invalid PTP interface name";
  _ ← check (Z.of_nat (length (tp_ntp_servers time)) <=? 8) "at most eight NTP servers are allowed";
  _ ← check_ntp ∅ (tp_ntp_servers time);
  validateNetwork (pr_network (cf_system c)).

(** ** IPv4 addresses *)

Definition is_octet (n : Z) : Prop := 0 <= n <= 255.

(** The dotted text of four octets and the 32-bit number they form. *)
Definition dotted (a b c d : Z) : string :=
  to_string a +:+ "." +:+ to_string b +:+ "." +:+ to_string c +:+ "." +:+ to_string d.

Definition address_of (a b c d : Z) : Z := a * 2 ^ 24 + b * 2 ^ 16 + c * 2 ^ 8 + d.

Definition unicast (a : Z) : Prop := a <> 0 /\ a < 224 /\ a <> 127.

(** [text] is the canonical text of the unicast address [n]. *)
Definition ipv4_text (text : string) (n : Z) : Prop :=
  exists a b c d, is_octet a /\ is_octet b /\ is_octet c /\ is_octet d /\
    unicast a /\ text = dotted a b c d /\ n = address_of a b c d.

Lemma front_string_of_digits d ds :
  0 <= d < 10 -> front (string_of_digits (d :: ds)) = Some "0"%char <-> d = 0.
Proof.
  intros Hd. simpl. split; [|by intros ->].
  intros [= H]. assert (Hc : digit_val (digit_char d) = digit_val "0") by congruence.
  rewrite digit_val_digit_char in Hc by done. change (digit_val "0") with (Some 0) in Hc. congruence.
Qed.

Lemma octet_spec s n : octet s = Some n <-> is_octet n /\ s = to_string n.
Proof.
  unfold octet, is_octet. split.
  - unfold from_chars_unsigned. pose proof (digits_spec s) as Hs.
    destruct (digits 10 s) as [ds rest]. destruct Hs as [Hd ->].
    destruct ds as [|d ds]; [done|]. destruct (Z.ltb_spec (value 10 (d :: ds)) (2 ^ 32)); [|done].
    destruct rest; [|done]. rewrite str_app_nil_r. intros H1.
    destruct (_ && _) eqn:Hg; [|done]. simplify_eq. propify.
    pose proof (value_nonneg _ Hd). split; [lia|].
    symmetry. apply to_string_canonical. split_and!; [done | done |].
    inversion Hd; subst. destruct H2 as [Hl|Hf]; propify.
    + left. unfold size_of in Hl. rewrite length_string_of_digits in Hl. lia.
    + right. rewrite front_string_of_digits in Hf by done. simpl. congruence.
  - intros [Hn ->]. rewrite from_chars_to_string by lia.
    destruct (to_string_digits n) as (ds & (Hd & Hne & Hc) & Hv & Hs); [lia|]. rewrite Hs.
    destruct ds as [|d ds]; [done|]. pose proof (Forall_inv Hd) as Hd0.
    rewrite (proj2 (Z.leb_le n 255)), andb_true_r by lia.
    replace (_ || _) with true; [done|]. symmetry. apply orb_true_iff.
    destruct Hc as [Hc|Hc].
    + left. unfold size_of. rewrite length_string_of_digits, Hc. done.
    + right. apply negb_true_iff, bool_decide_eq_false. rewrite front_string_of_digits by done.
      simpl in Hc. congruence.
Qed.

Lemma to_string_no_dot n : is_octet n -> contains "." (to_string n) = false.
Proof.
  intros [? _]. eapply str_all_contains; [by apply to_string_all_digits | done].
Qed.

(** Accumulating an octet in [std::uint32_t] is multiplication by 256 as long
    as the number so far has room. *)
Lemma shift_octet r n :
  0 <= r < 2 ^ 24 -> is_octet n -> u32 (Z.lor (u32 (Z.shiftl r 8)) n) = r * 256 + n.
Proof.
  intros Hr Hn. unfold is_octet in Hn.
  rewrite (u32_small (Z.shiftl r 8)) by (rewrite Z.shiftl_mul_pow2; lia).
  rewrite lor_shiftl_add by lia. apply u32_small. lia.
Qed.

(** The texts of [n] octets separated by dots. *)
Fixpoint dotted_octets (ns : list Z) : string :=
  match ns with
  | [] => ""
  | [n] => to_string n
  | n :: ns' => to_string n +:+ "." +:+ dotted_octets ns'
  end.

Lemma cut_dotted n ns :
  is_octet n ->
  cut "." (dotted_octets (n :: ns)) =
  (to_string n, match ns with [] => None | _ => Some (dotted_octets ns) end).
Proof.
  intros Hn. destruct ns as [|m ns].
  - apply cut_none. by apply to_string_no_dot.
  - change (dotted_octets (n :: m :: ns)) with (to_string n +:+ String "." (dotted_octets (m :: ns))).
    apply cut_app. by apply to_string_no_dot.
Qed.

Definition acc_octets (r : Z) (ns : list Z) : Z := fold_left (fun r n => r * 256 + n) ns r.

Lemma octet_room k r m :
  0 <= r -> r < 2 ^ (8 * (4 - Z.of_nat (S k))) -> (S k <= 4)%nat -> is_octet m ->
  r * 256 + m < 2 ^ (8 * (4 - Z.of_nat k)).
Proof.
  intros Hr Hlt Hk Hm. replace (8 * (4 - Z.of_nat k)) with (8 * (4 - Z.of_nat (S k)) + 8) by lia.
  rewrite Z.pow_add_r by lia. unfold is_octet in Hm. revert Hlt.
  generalize (2 ^ (8 * (4 - Z.of_nat (S k)))). lia.
Qed.

Lemma ipv4_loop_spec left r text n :
  (0 < left)%nat -> 0 <= r -> r < 2 ^ (8 * (4 - Z.of_nat left)) -> (left <= 4)%nat ->
  ipv4_loop left r text = Return n <->
  exists ns, length ns = left /\ Forall is_octet ns /\ text = dotted_octets ns /\ n = acc_octets r ns.
Proof.
  revert r text. induction left as [|left IH]; [lia|]. intros r text _ Hr Hr' Hl.
  assert (Hr24 : r < 2 ^ 24).
  { eapply Z.lt_le_trans; [done|]. apply Z.pow_le_mono_r; lia. }
  cbn [ipv4_loop]. split.
  - pose proof (cut_spec "." text) as Hcut. destruct (cut "." text) as [part after].
    destruct (octet part) as [m|] eqn:Ho; [|done]. apply octet_spec in Ho as [Hm ->].
    rewrite shift_octet by (done || lia).
    unfold check. destruct (eqb _ _) eqn:He; [|done]. cbn. apply eqb_prop in He.
    destruct left as [|left].
    + symmetry in He. apply bool_decide_eq_true in He as ->. destruct Hcut as [-> _].
      simpl. intros [= <-]. exists [m]. split_and!; [done | forall_list | done | done].
    + symmetry in He. apply bool_decide_eq_false in He.
      destruct after as [rest|]; [|done]. destruct Hcut as [-> _]. cbn [from_option]. unfold id.
      intros H. apply IH in H as (ns & Hlen & Hns & -> & ->);
        [| lia | unfold is_octet in Hm; lia | | lia].
      * exists (m :: ns). destruct ns; [done|]. split_and!; [simpl in *; lia | by constructor | done | done].
      * by apply octet_room.
  - intros ([|m ns] & Hlen & Hns & -> & ->); [done|]. inversion Hns as [|?? Hm Hns']; subst.
    rewrite cut_dotted by done.
    assert (octet (to_string m) = Some m) as -> by (by apply octet_spec).
    rewrite shift_octet by (done || lia). simpl in Hlen. injection Hlen as Hlen.
    destruct ns as [|m' ns].
    + subst left. done.
    + destruct left as [|left]; [done|]. cbn. apply IH; [lia | unfold is_octet in Hm; lia | | lia |].
      * by apply octet_room.
      * by exists (m' :: ns).
Qed.

Lemma ipv4_loop_four text n :
  ipv4_loop 4 0 text = Return n <->
  exists a b c d, is_octet a /\ is_octet b /\ is_octet c /\ is_octet d /\
    text = dotted a b c d /\ n = address_of a b c d.
Proof.
  rewrite ipv4_loop_spec by (simpl; lia). split.
  - intros (ns & Hl & Hns & -> & ->). destruct ns as [|a [|b [|c [|d [|]]]]]; try done.
    inv_forall.
    exists a, b, c, d. split_and!; try done. unfold address_of, acc_octets. simpl. lia.
  - intros (a & b & c & d & ? & ? & ? & ? & -> & ->). exists [a; b; c; d].
    split_and!; [done | forall_list | done |]. unfold address_of, acc_octets. simpl. lia.
Qed.

Lemma address_of_top a b c d :
  is_octet a -> is_octet b -> is_octet c -> is_octet d -> Z.shiftr (address_of a b c d) 24 = a.
Proof.
  unfold is_octet, address_of. intros. rewrite Z.shiftr_div_pow2 by lia.
  symmetry. apply (Z.div_unique _ _ _ (b * 2 ^ 16 + c * 2 ^ 8 + d)); lia.
Qed.

Lemma ipv4_spec text n : ipv4 text = Return n <-> ipv4_text text n.
Proof.
  unfold ipv4, ipv4_text, check, unicast. rewrite bind_Return. split.
  - intros (r & (a & b & c & d & Ha & Hb & Hc & Hd & -> & ->)%ipv4_loop_four & Hr).
    rewrite address_of_top in Hr by done.
    destruct (_ && _) eqn:Hg; [|done]. injection Hr as <-. propify.
    exists a, b, c, d. repeat split; try apply Ha || apply Hb || apply Hc || apply Hd; lia.
  - intros (a & b & c & d & Ha & Hb & Hc & Hd & (Hu1 & Hu2 & Hu3) & -> & ->).
    exists (address_of a b c d). split; [apply ipv4_loop_four; by exists a, b, c, d|].
    rewrite address_of_top by done.
    rewrite (proj2 (Z.eqb_neq a 0)), (proj2 (Z.ltb_lt a 224)), (proj2 (Z.eqb_neq a 127)) by lia. done.
Qed.

Lemma ipv4_text_range text n : ipv4_text text n -> 0 <= n < 2 ^ 32.
Proof.
  intros (a & b & c & d & Ha & Hb & Hc & Hd & _ & _ & ->).
  unfold is_octet, address_of in *. lia.
Qed.

(** The text of an accepted address has digits and dots only. *)
Definition ipv4_char (c : ascii) : bool := is_digit c || (c ==? "."%char).

Lemma dotted_chars a b c d :
  is_octet a -> is_octet b -> is_octet c -> is_octet d -> str_all ipv4_char (dotted a b c d) = true.
Proof.
  intros Ha Hb Hc Hd. unfold dotted.
  assert (Hn : forall n, is_octet n -> str_all ipv4_char (to_string n) = true).
  { intros n [Hn _]. eapply str_all_impl; [|by apply to_string_all_digits].
    intros x Hx. unfold ipv4_char. by rewrite Hx. }
  rewrite !str_all_app, !Hn by done. done.
Qed.

Lemma ipv4_text_chars text n : ipv4_text text n -> str_all ipv4_char text = true.
Proof. intros (a & b & c & d & ? & ? & ? & ? & _ & -> & _). by apply dotted_chars. Qed.

(** [decimalAddress] makes the same checks as [ipv4], without the unicast one. *)
Lemma decimalAddress_round part :
  (match from_chars_unsigned 32 10 part with
   | Some (value, EmptyString) =>
       negb (empty part || ((1 <? size_of part) && (front part ==? Some "0"%char)) || (255 <? value))
   | _ => false
   end) = match octet part with Some _ => true | None => false end.
Proof.
  unfold octet. destruct (from_chars_unsigned 32 10 part) as [[v []]|]; [|done..].
  assert (negb (empty part || ((1 <? size_of part) && (front part ==? Some "0"%char)) || (255 <? v)) =
          negb (empty part) && ((size_of part =? 1) || (front part <>? Some "0"%char)) && (v <=? 255)) as ->.
  { rewrite (Z.ltb_antisym v 255). destruct part as [|c part]; [done|].
    assert ((1 <? size_of (String c part)) = negb (size_of (String c part) =? 1)) as ->.
    { assert (1 <= size_of (String c part)) by (unfold size_of; simpl; lia).
      destruct (Z.ltb_spec 1 (size_of (String c part))), (Z.eqb_spec (size_of (String c part)) 1); done || lia. }
    by destruct (_ =? 1), (bool_decide (front _ = _)), (v <=? 255). }
  by destruct (_ && _).
Qed.

Lemma decimalAddress_loop_ipv4 left text r :
  decimalAddress_loop left text = returns (ipv4_loop left r text).
Proof.
  revert text r. induction left as [|left IH]; intros text r; [done|].
  cbn [decimalAddress_loop ipv4_loop]. destruct (cut "." text) as [part after].
  pose proof (decimalAddress_round part) as Hr.
  destruct (from_chars_unsigned 32 10 part) as [[v rest]|] eqn:E; cycle 1.
  { unfold octet. by rewrite E. }
  destruct rest; cycle 1.
  { unfold octet. by rewrite E. }
  destruct (octet part) as [m|] eqn:Ho.
  - apply negb_true_iff in Hr. rewrite Hr.
    unfold check. destruct (eqb _ _); cbn; [apply IH | done].
  - apply negb_false_iff in Hr. rewrite Hr. done.
Qed.

Lemma decimalAddress_spec text :
  decimalAddress text = true <->
  exists a b c d, is_octet a /\ is_octet b /\ is_octet c /\ is_octet d /\ text = dotted a b c d.
Proof.
  unfold decimalAddress. rewrite (decimalAddress_loop_ipv4 4 text 0). split.
  - destruct (ipv4_loop 4 0 text) eqn:E; [|done]. apply ipv4_loop_four in E as (a' & b & c & d & ? & ? & ? & ? & ? & ?).
    by exists a', b, c, d.
  - intros (a & b & c & d & ? & ? & ? & ? & ->).
    assert (ipv4_loop 4 0 (dotted a b c d) = Return (address_of a b c d)) as ->; [|done].
    apply ipv4_loop_four. by exists a, b, c, d.
Qed.

(** ** NTP servers *)

Definition label_ok (l : string) : Prop :=
  l <> "" /\ size_of l <= 63 /\ front l <> Some "-"%char /\ back l <> Some "-"%char /\
  str_all label_char l = true.

Definition is_hex (c : ascii) : bool := match digit_val c with Some d => d <? 16 | None => false end.

(** A group of an IPv6 address: one to four hexadecimal digits. *)
Definition hex_group (w : string) : Prop := w <> "" /\ size_of w <= 4 /\ str_all is_hex w = true.

(** [ipv6_part v4 s n]: the text [s] lists [n] 16-bit groups of an IPv6
    address, the last two of them in dotted form only when [v4]. *)
Inductive ipv6_part (v4 : bool) : string -> Z -> Prop :=
  | part_empty : ipv6_part v4 "" 0
  | part_groups ws :
      ws <> [] -> Forall hex_group ws -> ipv6_part v4 (join ":" ws) (Z.of_nat (length ws))
  | part_dotted ws a b c d :
      v4 = true -> Forall hex_group ws -> is_octet a -> is_octet b -> is_octet c -> is_octet d ->
      ipv6_part v4 (join ":" (ws ++ [dotted a b c d])) (Z.of_nat (length ws) + 2).

(** The texts that name an NTP server. *)
Inductive ntp_server : string -> Prop :=
  | server_ipv6 s : ipv6_part true s 8 -> ntp_server s
  | server_ipv6_compressed l r m n :
      ipv6_part false l m -> ipv6_part true r n -> m + n < 8 -> ntp_server (l +:+ "::" +:+ r)
  | server_ipv4 a b c d :
      is_octet a -> is_octet b -> is_octet c -> is_octet d -> ntp_server (dotted a b c d)
  | server_host labels dot :
      labels <> [] -> Forall label_ok labels -> dot = "" \/ dot = "." ->
      str_all ipv4_char (join "." labels) = false -> ntp_server (join "." labels +:+ dot).

Lemma labels_loop_spec fuel text :
  (String.length text < fuel)%nat ->
  labels_loop fuel text = true <->
  exists ls, ls <> [] /\ Forall label_ok ls /\ text = join "." ls.
Proof.
  revert text. induction fuel as [|fuel IH]; [lia|]. intros text Hlen. cbn [labels_loop].
  assert (Hdot : forall l, label_ok l -> contains "." l = false).
  { intros l Hl. eapply str_all_contains; [apply Hl | done]. }
  split.
  - destruct (empty text) eqn:He; [done|].
    pose proof (cut_spec "." text) as Hc. pose proof (cut_length "." text) as Hcl.
    destruct (cut "." text) as [l after]. destruct (_ || _) eqn:Hg; [done|]. propify.
    assert (label_ok l) by (unfold label_ok; rewrite <-empty_false; split_and!; done).
    destruct after as [rest|].
    + specialize (Hcl _ _ eq_refl). intros Hr. apply IH in Hr as (ls & Hne & Hls & ->); [|lia].
      destruct Hc as [-> _]. exists (l :: ls). split_and!; [done | by constructor |].
      by rewrite join_cons.
    + intros _. destruct Hc as [-> _]. exists [l]. split_and!; [done | by constructor | done].
  - intros ([|l ls] & Hne & Hls & ->); [done|]. inv_forall.
    assert (Hl : (empty l || (63 <? size_of l) || (front l ==? Some "-"%char) ||
                  (back l ==? Some "-"%char) || negb (str_all label_char l)) = false).
    { destruct H as (? & ? & ? & ? & ->). repeat rewrite bool_decide_eq_false_2 by done.
      rewrite (proj2 (Z.ltb_ge _ _)), (proj2 (empty_false l)) by done. done. }
    assert (He : empty (join "." (l :: ls)) = false).
    { apply empty_false, join_not_empty; [done|]. constructor; [apply H|].
      eapply Forall_impl; [exact Hls|]. by intros ? []. }
    rewrite He. destruct ls as [|l' ls].
    + cbn [join]. rewrite cut_none by auto. by rewrite Hl.
    + rewrite join_cons by done. change ("." +:+ join "." (l' :: ls)) with (String "." (join "." (l' :: ls))).
      rewrite cut_app by auto. rewrite Hl. apply IH; [|by exists (l' :: ls)].
      rewrite join_cons, !str_length_app in Hlen by done. change (String.length ".") with 1%nat in Hlen. lia.
Qed.

Lemma digits_hex w :
  str_all is_hex w = true ->
  exists ds, digits 16 w = (ds, "") /\ length ds = String.length w /\ Forall (fun d => 0 <= d < 16) ds.
Proof.
  induction w as [|c w IH]; simpl; [by exists []|].
  intros [Hc Hw]%andb_true_iff. destruct (IH Hw) as (ds & -> & Hl & Hf).
  unfold is_hex in Hc. assert (Hp : match digit_val c with Some d => 0 <=? d | None => true end = true).
  { clear. by_ascii c. }
  destruct (digit_val c) as [d|]; [|done]. rewrite Hc. exists (d :: ds).
  propify. split_and!; [done | simpl; lia | constructor; [lia | done]].
Qed.

Lemma digits_all base w ds :
  digits base w = (ds, "") ->
  str_all (fun c => match digit_val c with Some d => d <? base | None => false end) w = true.
Proof.
  revert ds. induction w as [|c w IH]; [done|]. simpl. intros ds.
  destruct (digit_val c) as [d|]; [|done]. destruct (d <? base); [|done].
  destruct (digits base w) as [ds' r]. intros [= <- ->]. by eapply IH.
Qed.

Lemma value_bound base ds :
  0 < base -> Forall (fun d => 0 <= d < base) ds -> 0 <= value base ds < base ^ Z.of_nat (length ds).
Proof.
  intros Hb. induction ds as [|d ds IH] using rev_ind; [done|].
  intros [Hds Hd]%Forall_app. inv_forall. rewrite value_snoc, length_app.
  rewrite Nat2Z.inj_add, Z.pow_add_r by lia. specialize (IH Hds).
  change (Z.of_nat (length [d])) with 1. rewrite Z.pow_1_r.
  set (p := base ^ Z.of_nat (length ds)) in *. clearbody p.
  assert ((value base ds + 1) * base <= p * base)
    by (apply Z.mul_le_mono_nonneg_r; lia).
  assert (0 <= value base ds * base) by (apply Z.mul_nonneg_nonneg; lia). cbv beta in *. lia.
Qed.

Lemma hex_group_spec w :
  (match from_chars_unsigned 32 16 w with
   | Some (_, EmptyString) => negb (empty w || (4 <? size_of w))
   | _ => false
   end) = true <-> hex_group w.
Proof.
  unfold hex_group. split.
  - unfold from_chars_unsigned. destruct (digits 16 w) as [ds r] eqn:Hd.
    destruct ds; [done|]. destruct (_ <? 2 ^ 32); [|done]. destruct r; [|done].
    intros H. propify. rewrite <-empty_false. split_and!; [done..|].
    by apply digits_all in Hd.
  - intros (Hne & Hs & Hh). destruct (digits_hex w Hh) as (ds & Hd & Hl & Hf).
    unfold from_chars_unsigned. rewrite Hd.
    assert (Hv : value 16 ds < 2 ^ 32).
    { destruct (value_bound 16 ds) as [_ Hv]; [lia | done |].
      eapply Z.lt_le_trans; [exact Hv|]. change (2 ^ 32) with (16 ^ 8).
      apply Z.pow_le_mono_r; unfold size_of in *; lia. }
    rewrite (proj2 (Z.ltb_lt _ _) Hv).
    destruct ds; [by destruct w|]. rewrite (proj2 (empty_false w)), (proj2 (Z.ltb_ge _ _)) by done. done.
Qed.

Lemma hex_group_chars w c : hex_group w -> is_hex c = false -> contains c w = false.
Proof. intros (_ & _ & H) Hc. by eapply str_all_contains. Qed.

Lemma dotted_has_dot a b c d : contains "." (dotted a b c d) = true.
Proof. unfold dotted. rewrite contains_app. apply orb_true_iff. right. done. Qed.

Lemma dotted_no_colon a b c d :
  is_octet a -> is_octet b -> is_octet c -> is_octet d -> contains ":" (dotted a b c d) = false.
Proof. intros. eapply str_all_contains; [by apply dotted_chars | done]. Qed.

Lemma cut_join_colon w ws :
  contains ":" w = false -> ws <> [] -> cut ":" (join ":" (w :: ws)) = (w, Some (join ":" ws)).
Proof. intros Hw Hws. rewrite join_cons by done. by apply cut_app. Qed.

(** Prepending a group to a non-empty part. *)
Lemma ipv6_part_cons v4 w s n :
  hex_group w -> s <> "" -> ipv6_part v4 s n -> ipv6_part v4 (w +:+ ":" +:+ s) (n + 1).
Proof.
  intros Hw Hs Hp. destruct Hp as [|ws Hne Hws|ws a b c d Hv Hws]; [done | |].
  - rewrite <-join_cons by done.
    replace (Z.of_nat (length ws) + 1) with (Z.of_nat (length (w :: ws))) by (simpl; lia).
    apply part_groups; [done | by constructor].
  - rewrite <-join_cons by (by destruct ws).
    replace (Z.of_nat (length ws) + 2 + 1) with (Z.of_nat (length (w :: ws)) + 2) by (simpl; lia).
    change (w :: ws ++ [dotted a b c d]) with ((w :: ws) ++ [dotted a b c d]).
    apply part_dotted; try done. by constructor.
Qed.

Lemma count_loop_sound fuel v4 words part n :
  (String.length part < fuel)%nat -> 0 <= words ->
  count_loop fuel v4 words part = n -> 0 <= n -> ipv6_part v4 part (n - words).
Proof.
  revert words part. induction fuel as [|fuel IH]; [lia|]. intros words part Hlen Hw. cbn [count_loop].
  destruct (empty part) eqn:He.
  { intros -> _. apply empty_spec in He as ->. rewrite Z.sub_diag. constructor. }
  pose proof (cut_spec ":" part) as Hc. pose proof (cut_length ":" part) as Hcl.
  destruct (cut ":" part) as [word after].
  destruct (contains "." word).
  - destruct (_ && _) eqn:Hg; [|lia]. propify. subst after. destruct Hc as [-> _].
    match goal with H : decimalAddress _ = true |- _ => apply decimalAddress_spec in H as (a & b & c & d & ? & ? & ? & ? & ->) end.
    intros <- _. replace (words + 2 - words) with (Z.of_nat (length (@nil string)) + 2) by (simpl; lia).
    by apply (part_dotted v4 []).
  - pose proof (hex_group_spec word) as Hx.
    destruct (from_chars_unsigned 32 16 word) as [[v [|]]|]; [|lia..].
    destruct (empty word || (4 <? size_of word)); [lia|]. cbn in Hx.
    assert (hex_group word) by (by apply Hx). destruct after as [[|x rest]|]; [lia| |].
    + destruct Hc as [-> _]. specialize (Hcl _ _ eq_refl). intros Hr Hn.
      apply IH in Hr; [|lia..].
      replace (n - words) with (n - (words + 1) + 1) by lia. by apply ipv6_part_cons.
    + intros <- _. destruct Hc as [-> _].
      replace (words + 1 - words) with (Z.of_nat (length [word])) by (simpl; lia).
      apply (part_groups v4 [word]); [done | by constructor].
Qed.

Lemma count_loop_group fuel v4 words w after :
  hex_group w ->
  count_loop (S fuel) v4 words (match after with Some r => w +:+ ":" +:+ r | None => w end) =
  match after with
  | None => words + 1
  | Some EmptyString => -1
  | Some r => count_loop fuel v4 (words + 1) r
  end.
Proof.
  intros Hw. pose proof (proj2 (hex_group_spec w) Hw) as Hx. cbn [count_loop].
  assert (Hnd : contains "." w = false) by (by eapply hex_group_chars).
  assert (Hnc : contains ":" w = false) by (by eapply hex_group_chars).
  destruct Hw as (Hne & _). destruct w as [|x w]; [done|].
  destruct after as [r|].
  - change (String x w +:+ ":" +:+ r) with (String x w +:+ String ":" r).
    rewrite cut_app by done. cbn [empty String.append]. rewrite Hnd.
    destruct (from_chars_unsigned 32 16 (String x w)) as [[? [|]]|]; [|done..].
    apply negb_true_iff in Hx. cbn [empty] in Hx. rewrite Hx. by destruct r.
  - rewrite cut_none by done. cbn [empty]. rewrite Hnd.
    destruct (from_chars_unsigned 32 16 (String x w)) as [[? [|]]|]; [|done..].
    apply negb_true_iff in Hx. cbn [empty] in Hx. by rewrite Hx.
Qed.

Lemma count_loop_dotted fuel v4 words a b c d :
  is_octet a -> is_octet b -> is_octet c -> is_octet d ->
  count_loop (S fuel) v4 words (dotted a b c d) = if v4 then words + 2 else -1.
Proof.
  intros. cbn [count_loop].
  assert (empty (dotted a b c d) = false) as ->.
  { apply empty_false. intros E. pose proof (dotted_has_dot a b c d) as Hd. by rewrite E in Hd. }
  rewrite cut_none by (by apply dotted_no_colon). rewrite dotted_has_dot.
  assert (decimalAddress (dotted a b c d) = true) as -> by (apply decimalAddress_spec; by exists a, b, c, d).
  by destruct v4.
Qed.

Lemma count_loop_complete fuel v4 words part n :
  (String.length part < fuel)%nat -> ipv6_part v4 part n -> count_loop fuel v4 words part = words + n.
Proof.
  intros Hlen Hp. revert fuel words Hlen.
  assert (Hrec : forall ws fuel words tail m,
            Forall hex_group ws -> (String.length (join ":" (ws ++ tail)) < fuel)%nat ->
            (ws = [] \/ tail <> []) -> Forall (fun s => s <> "") tail ->
            (forall fuel words, (String.length (join ":" tail) < fuel)%nat ->
                count_loop fuel v4 words (join ":" tail) = words + m) ->
            count_loop fuel v4 words (join ":" (ws ++ tail)) = words + Z.of_nat (length ws) + m).
  { induction ws as [|w ws IH]; intros fuel words tail m Hws Hlen Hnil Htail Hb.
    - simpl in *. rewrite Hb; [lia | done].
    - inv_forall. assert (Ht : ws ++ tail <> []) by (destruct Hnil; [done | by destruct ws]).
      assert (Hj : join ":" (ws ++ tail) <> "").
      { apply join_not_empty; [done|]. apply Forall_app; split; [|done].
        eapply Forall_impl; [exact Hws|]. by intros ? []. }
      change ((w :: ws) ++ tail) with (w :: (ws ++ tail)) in *. rewrite join_cons in * by done.
      destruct fuel as [|fuel]; [lia|].
      rewrite (count_loop_group fuel v4 words w (Some (join ":" (ws ++ tail)))) by done.
      rewrite !str_length_app in Hlen. change (String.length ":") with 1%nat in Hlen.
      destruct (join ":" (ws ++ tail)) as [|x r] eqn:E; [done|]. rewrite <-E in *.
      rewrite (IH fuel (words + 1) tail m); [simpl; lia | done | lia | | done | done].
      right. by destruct Hnil. }
  destruct Hp as [|ws Hne Hws|ws a b c d -> Hws]; intros fuel words Hlen.
  - destruct fuel; [lia|]. simpl. lia.
  - destruct (exists_last Hne) as (ws' & w & ->). apply Forall_app in Hws as [Hws Hw]. inv_forall.
    rewrite (Hrec ws' fuel words [w] 1); [| done | done | by right | | ].
    + rewrite length_app. simpl. lia.
    + constructor; [apply H | constructor].
    + intros fuel' words' Hl. destruct fuel' as [|fuel']; [lia|].
      exact (count_loop_group fuel' v4 words' w None H).
  - rewrite (Hrec ws fuel words [dotted a b c d] 2); [lia | done | done | by right | | ].
    + constructor; [|constructor]. intros E. pose proof (dotted_has_dot a b c d) as Hd. by rewrite E in Hd.
    + intros fuel' words' Hl. destruct fuel' as [|fuel']; [lia|]. by apply count_loop_dotted.
Qed.

Lemma ipv6_part_nonneg v4 s n : ipv6_part v4 s n -> 0 <= n.
Proof. destruct 1; lia. Qed.

Lemma count_spec v4 s n : 0 <= n -> count s v4 = n <-> ipv6_part v4 s n.
Proof.
  intros Hn. unfold count. split.
  - intros H. replace n with (n - 0) by lia. eapply count_loop_sound; [| | exact H | done]; lia.
  - intros H. rewrite (count_loop_complete _ _ _ _ n); [lia | lia | done].
Qed.

Lemma cut_double_colon_sound s l r : cut_double_colon s = Some (l, r) -> s = l +:+ "::" +:+ r.
Proof.
  revert l. induction s as [|c s IH]; [done|]. intros l. cbn [cut_double_colon].
  destruct (_ && _) eqn:E.
  - propify. subst c. destruct s as [|d s]; simplify_eq/=. intros [= <- <-]. by destruct s.
  - destruct (cut_double_colon s) as [[l' r']|]; [|done]. intros [= <- ->]. by rewrite (IH l').
Qed.

Lemma cut_double_colon_app l r :
  cut_double_colon l = None -> back l <> Some ":"%char ->
  cut_double_colon (l +:+ "::" +:+ r) = Some (l, r).
Proof.
  induction l as [|c l IH]; [by destruct r|]. cbn [cut_double_colon String.append].
  destruct (_ && _) eqn:E; [done|]. destruct (cut_double_colon l) as [[]|]; [done|]. intros _ Hb.
  destruct l as [|d l].
  - simpl in Hb. assert (c <> ":"%char) by congruence. rewrite bool_decide_eq_false_2 by done.
    cbn [andb]. by destruct r.
  - cbn [front String.append] in *. rewrite E. rewrite IH; done.
Qed.

Lemma no_double_colon_app w s :
  contains ":" w = false -> w <> "" -> cut_double_colon s = None -> front s <> Some ":"%char ->
  cut_double_colon (w +:+ ":" +:+ s) = None.
Proof.
  induction w as [|c w IH]; [done|]. cbn [contains]. intros Hc _ Hs Hf. propify.
  cbn [String.append cut_double_colon].
  rewrite (bool_decide_eq_false_2 (c = ":"%char)) by congruence. cbn [andb].
  destruct w as [|d w].
  - cbn [String.append cut_double_colon]. rewrite (bool_decide_eq_false_2 (front s = _)) by done.
    rewrite andb_false_r. by rewrite Hs.
  - cbn [String.append] in IH |- *. rewrite IH; done.
Qed.

Lemma no_double_colon w : contains ":" w = false -> cut_double_colon w = None.
Proof.
  induction w as [|c w IH]; [done|]. cbn [contains cut_double_colon]. intros H. propify.
  rewrite bool_decide_eq_false_2 by congruence. cbn [andb]. by rewrite IH.
Qed.

Lemma no_colon_ends w :
  contains ":" w = false -> front w <> Some ":"%char /\ back w <> Some ":"%char.
Proof.
  rewrite contains_str_all. intros Hn. apply negb_false_iff in Hn. split; intros H.
  - by pose proof (str_all_front _ _ _ Hn H).
  - by pose proof (str_all_back _ _ _ Hn H).
Qed.

(** Words without colons, separated by single colons. *)
Lemma join_colon_words ws :
  Forall (fun w => w <> "" /\ contains ":" w = false) ws ->
  cut_double_colon (join ":" ws) = None /\
  front (join ":" ws) <> Some ":"%char /\ back (join ":" ws) <> Some ":"%char.
Proof.
  intros Hws. destruct (decide (ws = [])) as [->|Hne]; [done|].
  split_and!.
  - induction Hws as [|w ws [Hw1 Hw2] Hws IH]; [done|].
    destruct ws as [|w' ws]; [by apply no_double_colon|].
    rewrite join_cons by done. apply no_double_colon_app; [done | done | by apply IH |].
    apply (join_front ":" (w' :: ws) (fun o => o <> Some ":"%char)); [done|].
    eapply Forall_impl; [exact Hws|]. intros x [? ?]. split; [done|]. by apply no_colon_ends.
  - apply (join_front ":" ws (fun o => o <> Some ":"%char)); [done|].
    eapply Forall_impl; [exact Hws|]. intros x [? ?]. split; [done|]. by apply no_colon_ends.
  - apply (join_back ":" ws (fun o => o <> Some ":"%char)); [done|].
    eapply Forall_impl; [exact Hws|]. intros x [? ?]. split; [done|]. by apply no_colon_ends.
Qed.

Lemma hex_groups_words ws :
  Forall hex_group ws -> Forall (fun w => w <> "" /\ contains ":" w = false) ws.
Proof.
  intros H. eapply Forall_impl; [exact H|]. intros w Hw. split; [apply Hw | by eapply hex_group_chars].
Qed.

Lemma ipv6_part_words v4 s n :
  ipv6_part v4 s n ->
  exists ws, s = join ":" ws /\ Forall (fun w => w <> "" /\ contains ":" w = false) ws /\ n <= Z.of_nat (length ws) + 1.
Proof.
  destruct 1 as [|ws Hne Hws|ws a b c d Hv Hws].
  - by exists [].
  - exists ws. split_and!; [done | by apply hex_groups_words | lia].
  - exists (ws ++ [dotted a b c d]). split_and!; [done | | rewrite length_app; simpl; lia].
    apply Forall_app. split; [by apply hex_groups_words|]. constructor; [|constructor].
    split; [|by apply dotted_no_colon].
    intros E. pose proof (dotted_has_dot a b c d) as Hd. by rewrite E in Hd.
Qed.

Lemma join_has_colon ws : (2 <= length ws)%nat -> contains ":" (join ":" ws) = true.
Proof.
  destruct ws as [|w [|w' ws]]; simpl; [lia..|]. intros _.
  rewrite contains_app. apply orb_true_iff. by right.
Qed.

Definition ntp_char (c : ascii) : bool := label_char c || (c ==? "."%char) || (c ==? ":"%char).

Lemma remove_last_dot_app s : remove_last_dot (s +:+ ".") = s.
Proof.
  unfold remove_last_dot. rewrite back_app by done. cbn [back].
  rewrite bool_decide_eq_true_2 by done. rewrite str_length_app. change (String.length ".") with 1%nat.
  replace (String.length s + 1 - 1)%nat with (String.length s) by lia. apply str_take_app.
Qed.

Lemma labels_shape labels :
  labels <> [] -> Forall label_ok labels ->
  back (join "." labels) <> Some "."%char /\ contains ":" (join "." labels) = false /\ join "." labels <> "".
Proof.
  intros Hne Hl.
  assert (Hc : forall l, label_ok l -> contains "." l = false /\ contains ":" l = false).
  { intros l (_ & _ & _ & _ & H). split; eapply str_all_contains; done. }
  split_and!.
  - apply (join_back "." labels (fun o => o <> Some "."%char)); [done|].
    eapply Forall_impl; [exact Hl|]. intros l Hlab. split; [apply Hlab|]. intros Hb.
    destruct Hlab as (_ & _ & _ & _ & Hall). by pose proof (str_all_back _ _ _ Hall Hb).
  - eapply str_all_contains; [apply (str_all_join (fun c => label_char c || (c ==? "."%char))); [done|] | done].
    eapply Forall_impl; [exact Hl|]. intros l (_ & _ & _ & _ & H).
    eapply str_all_impl; [|exact H]. intros c ->. done.
  - apply join_not_empty; [done|]. eapply Forall_impl; [exact Hl|]. by intros ? [].
Qed.

Lemma remove_last_dot_cases s :
  s = remove_last_dot s \/ s = remove_last_dot s +:+ ".".
Proof.
  destruct (decide (back s = Some "."%char)) as [Hb|Hb].
  - apply back_some in Hb as [s' ->]. right. change (String "." "") with ".". by rewrite remove_last_dot_app.
  - left. unfold remove_last_dot. by rewrite bool_decide_eq_false_2.
Qed.

Lemma validNtpServer_sound s : validNtpServer s = true -> size_of s <= 253 /\ ntp_server s.
Proof.
  unfold validNtpServer. destruct (_ || _) eqn:H0; [done|]. propify. intros Hv. split; [done|].
  destruct (contains ":" s).
  - destruct (cut_double_colon s) as [[l r]|] eqn:Hc.
    + destruct (cut_double_colon r); [done|]. apply cut_double_colon_sound in Hc as ->. propify.
      apply (server_ipv6_compressed l r (count l false) (count r true)); [by apply count_spec.. | done].
    + propify. apply server_ipv6. by apply count_spec.
  - destruct (str_all _ s) eqn:Hd.
    + apply decimalAddress_spec in Hv as (a & b & c & d & ? & ? & ? & ? & ->). by apply server_ipv4.
    + apply labels_loop_spec in Hv as (ls & Hne & Hls & Ht); [|lia].
      destruct (remove_last_dot_cases s) as [Es|Es]; rewrite Ht in Es; subst s.
      * rewrite <-(str_app_nil_r (join "." ls)). apply server_host; auto.
      * apply server_host; auto. rewrite str_all_app in Hd. apply andb_false_iff in Hd as [?|?]; done.
Qed.

Lemma validNtpServer_complete s : size_of s <= 253 -> ntp_server s -> validNtpServer s = true.
Proof.
  intros Hs Hn. unfold validNtpServer.
  assert (Hsz : (253 <? size_of s) = false) by (by apply Z.ltb_ge). rewrite Hsz, orb_false_r. clear Hs Hsz.
  destruct Hn as [s Hp|l r m n Hl Hr Hmn|a b c d Ha Hb Hc Hd|labels dot Hne Hls Hdot Hall].
  - pose proof (proj2 (count_spec true s 8 ltac:(lia)) Hp) as Hcount.
    destruct (ipv6_part_words _ _ _ Hp) as (ws & -> & Hws & Hlen).
    pose proof (join_has_colon ws ltac:(lia)) as Hcolon.
    destruct (join_colon_words ws Hws) as (Hdc & _ & _).
    rewrite Hcolon, Hdc. destruct (empty _) eqn:E; [|by rewrite Hcount].
    apply empty_spec in E. by rewrite E in Hcolon.
  - assert (contains ":" (l +:+ "::" +:+ r) = true) as Hcolon.
    { rewrite contains_app. apply orb_true_iff. by right. }
    destruct (empty _) eqn:E; [apply empty_spec in E; by rewrite E in Hcolon|]. rewrite Hcolon.
    destruct (ipv6_part_words _ _ _ Hl) as (ws & El & Hws & _).
    destruct (ipv6_part_words _ _ _ Hr) as (ws' & Er & Hws' & _).
    destruct (join_colon_words ws Hws) as (Hdl & _ & Hbl).
    destruct (join_colon_words ws' Hws') as (Hdr & _ & _). rewrite <-El in *. rewrite <-Er in *.
    rewrite cut_double_colon_app, Hdr by done.
    pose proof (ipv6_part_nonneg _ _ _ Hl). pose proof (ipv6_part_nonneg _ _ _ Hr).
    rewrite (proj2 (count_spec false l m ltac:(done)) Hl), (proj2 (count_spec true r n ltac:(done)) Hr).
    rewrite !andb_true_iff, !Z.leb_le, Z.ltb_lt. done.
  - assert (empty (dotted a b c d) = false) as ->.
    { apply empty_false. intros E. pose proof (dotted_has_dot a b c d) as Hx. by rewrite E in Hx. }
    rewrite dotted_no_colon by done. change (fun c0 => is_digit c0 || (c0 ==? "."%char)) with ipv4_char.
    rewrite dotted_chars by done. apply decimalAddress_spec. by exists a, b, c, d.
  - destruct (labels_shape labels Hne Hls) as (Hback & Hcolon & Hempty).
    set (text := join "." labels) in *.
    assert (Hrm : remove_last_dot (text +:+ dot) = text).
    { destruct Hdot as [->| ->]; [|by apply remove_last_dot_app].
      rewrite str_app_nil_r. unfold remove_last_dot. by rewrite bool_decide_eq_false_2. }
    assert (empty (text +:+ dot) = false) as ->.
    { apply empty_false. by intros [? _]%str_app_empty. }
    rewrite contains_app, Hcolon. assert (contains ":" dot = false) as -> by (by destruct Hdot as [->| ->]).
    change (fun c0 => is_digit c0 || (c0 ==? "."%char)) with ipv4_char. rewrite str_all_app, Hall. cbn [orb andb].
    rewrite Hrm. apply labels_loop_spec; [lia|]. by exists labels.
Qed.

Lemma hex_char_ok c : is_hex c = true -> ntp_char c = true.
Proof.
  intros H. assert (Hi : (negb (is_hex c) || ntp_char c) = true) by (clear H; by_ascii c).
  by rewrite H in Hi.
Qed.

Lemma ipv4_char_ok c : ipv4_char c = true -> ntp_char c = true.
Proof.
  intros H. assert (Hi : (negb (ipv4_char c) || ntp_char c) = true) by (clear H; by_ascii c).
  by rewrite H in Hi.
Qed.

Lemma ipv6_part_chars v4 s n : ipv6_part v4 s n -> str_all ntp_char s = true.
Proof.
  destruct 1 as [|ws Hne Hws|ws a b c d Hv Hws]; [done | |]; apply str_all_join; try done.
  - eapply Forall_impl; [exact Hws|]. intros w (_ & _ & Hw). eapply str_all_impl; [apply hex_char_ok | done].
  - apply Forall_app. split.
    + eapply Forall_impl; [exact Hws|]. intros w (_ & _ & Hw). eapply str_all_impl; [apply hex_char_ok | done].
    + constructor; [|constructor]. eapply str_all_impl; [apply ipv4_char_ok | by apply dotted_chars].
Qed.

(** No accepted server holds a space, a line break or any other character that
    means something in a configuration file. *)
Lemma validNtpServer_chars s : validNtpServer s = true -> str_all ntp_char s = true.
Proof.
  intros [_ Hn]%validNtpServer_sound. destruct Hn as [s Hp|l r m n Hl Hr _|a b c d ? ? ? ?|ls dot Hne Hls Hdot _].
  - by eapply ipv6_part_chars.
  - rewrite !str_all_app. by rewrite (ipv6_part_chars _ _ _ Hl), (ipv6_part_chars _ _ _ Hr).
  - eapply str_all_impl; [apply ipv4_char_ok | by apply dotted_chars].
  - rewrite str_all_app, str_all_join; [by destruct Hdot as [->| ->] | done |].
    eapply Forall_impl; [exact Hls|]. intros l (_ & _ & _ & _ & H).
    eapply str_all_impl; [|exact H]. intros c Hc. unfold ntp_char. by rewrite Hc.
Qed.

(** ** Network configurations *)

(** The host part of [n] under a prefix of [p] bits is neither the network nor
    the broadcast address; prefixes of 31 and 32 bits have no such addresses. *)
Definition host_part_ok (p n : Z) : Prop :=
  p < 31 -> 0 < n mod 2 ^ (32 - p) < 2 ^ (32 - p) - 1.

Definition static_ok (c : NetworkConfig) : Prop :=
  let p := nc_prefix_length c in
  1 <= p <= 32 /\ (nc_preferred_default c = true -> nc_gateway c <> "") /\
  exists a, ipv4_text (nc_address c) a /\ host_part_ok p a /\
    (nc_gateway c <> "" ->
     exists g, ipv4_text (nc_gateway c) g /\ g <> a /\
       g / 2 ^ (32 - p) = a / 2 ^ (32 - p) /\ host_part_ok p g).

Definition config_ok (c : NetworkConfig) : Prop :=
  validInterfaceName (nc_interface c) = true /\ (length (nc_dns_servers c) <= 4)%nat /\
  Forall (fun dns => exists n, ipv4_text dns n) (nc_dns_servers c) /\
  match nc_mode c with
  | dhcp => nc_address c = "" /\ nc_gateway c = ""
  | static_ipv4 => static_ok c
  end.

Definition network_ok (configs : list NetworkConfig) : Prop :=
  (length configs <= 8)%nat /\ preferred_count configs <= 1 /\
  NoDup (map nc_interface configs) /\ Forall config_ok configs.

Lemma check_Return b m u : check b m = Return u <-> b = true.
Proof. unfold check. destruct u, b; done. Qed.

Lemma check_then {B} b m (f : unit -> outcome B) r :
  (check b m ≫= f) = Return r <-> b = true /\ f tt = Return r.
Proof. unfold check. destruct b; cbn; [tauto|]. split; [done | by intros []]. Qed.

Definition mask_of (p : Z) : Z := u32 (Z.shiftl 0xffffffff (32 - p)).

Lemma mask_bits p : 1 <= p <= 32 ->
  not32 (mask_of p) = Z.ones (32 - p) /\ mask_of p = Z.ldiff (Z.ones 32) (Z.ones (32 - p)).
Proof.
  intros Hp. assert (Hall : forallb (fun n => (not32 (mask_of (Z.of_nat n)) =? Z.ones (32 - Z.of_nat n)) &&
      (mask_of (Z.of_nat n) =? Z.ldiff (Z.ones 32) (Z.ones (32 - Z.of_nat n)))) (seq 1 32) = true) by reflexivity.
  rewrite forallb_forall in Hall. specialize (Hall (Z.to_nat p)).
  rewrite Z2Nat.id in Hall by lia. rewrite andb_true_iff, !Z.eqb_eq in Hall.
  apply Hall. apply in_seq. lia.
Qed.

Lemma land_host p n : 1 <= p <= 32 -> Z.land n (not32 (mask_of p)) = n mod 2 ^ (32 - p).
Proof. intros Hp. rewrite (proj1 (mask_bits p Hp)). apply Z.land_ones. lia. Qed.

Lemma land_subnet p n :
  1 <= p <= 32 -> 0 <= n < 2 ^ 32 -> Z.land n (mask_of p) = n / 2 ^ (32 - p) * 2 ^ (32 - p).
Proof.
  intros Hp Hn. rewrite (proj2 (mask_bits p Hp)).
  assert (Z.land n (Z.ldiff (Z.ones 32) (Z.ones (32 - p))) = Z.ldiff (Z.land n (Z.ones 32)) (Z.ones (32 - p))) as ->.
  { apply Z.bits_inj'; intros m Hm. rewrite !Z.land_spec, !Z.ldiff_spec, Z.land_spec. by rewrite andb_assoc. }
  rewrite Z.land_ones, Z.mod_small, Z.ldiff_ones_r by lia.
  by rewrite Z.shiftl_mul_pow2, Z.shiftr_div_pow2 by lia.
Qed.

(** The two tests on the host part of an address. *)
Lemma host_test p n :
  1 <= p <= 32 ->
  (if p <? 31 then negb (Z.land n (not32 (mask_of p)) =? 0) &&
                   negb (Z.land n (not32 (mask_of p)) =? not32 (mask_of p)) else true) = true <->
  host_part_ok p n.
Proof.
  intros Hp. rewrite land_host, (proj1 (mask_bits p Hp)), Z.ones_equiv by lia. unfold host_part_ok.
  assert (0 < 2 ^ (32 - p)) by (apply Z.pow_pos_nonneg; lia).
  pose proof (Z.mod_pos_bound n (2 ^ (32 - p)) ltac:(lia)).
  destruct (Z.ltb_spec p 31); [|split; [lia|done]].
  rewrite andb_true_iff, !negb_true_iff, !Z.eqb_neq. lia.
Qed.

Lemma subnet_test p g a :
  1 <= p <= 32 -> 0 <= g < 2 ^ 32 -> 0 <= a < 2 ^ 32 ->
  (Z.land g (mask_of p) =? Z.land a (mask_of p)) = true <-> g / 2 ^ (32 - p) = a / 2 ^ (32 - p).
Proof.
  intros Hp Hg Ha. rewrite !land_subnet, Z.eqb_eq by done.
  assert (2 ^ (32 - p) <> 0) by (apply Z.pow_nonzero; lia).
  split; [by apply Z.mul_reg_r | congruence].
Qed.

Lemma if_check (t b : bool) m : (if t then check b m else Return tt) = Return tt <-> (if t then b else true) = true.
Proof. destruct t; [apply check_Return | done]. Qed.

Lemma check_static_spec c : check_static c = Return tt <-> static_ok c.
Proof.
  unfold check_static, static_ok. fold (mask_of (nc_prefix_length c)).
  set (p := nc_prefix_length c). rewrite check_then, andb_true_iff, !Z.leb_le.
  split.
  - intros (Hp & Hr). apply check_then in Hr as (Hpref & Hr).
    apply bind_Return in Hr as (a & Ha%ipv4_spec & Hr).
    apply bind_Return in Hr as ([] & Hhost & Hr). rewrite if_check, host_test in Hhost by done.
    split; [done|]. split.
    { intros Hd. rewrite Hd in Hpref. cbn in Hpref. by apply negb_true_iff, empty_false in Hpref. }
    exists a. split_and!; [done | done |]. intros Hg%empty_false. rewrite Hg in Hr. cbn [negb] in Hr.
    apply bind_Return in Hr as (g & Hgw%ipv4_spec & Hr). apply check_then in Hr as (Ht & Hr).
    rewrite if_check, host_test in Hr by done. propify.
    exists g. split_and!; [done | done | | done].
    apply subnet_test; [done | by eapply ipv4_text_range.. | by apply Z.eqb_eq].
  - intros (Hp & Hpref & a & Ha & Hhost & Hgw). split; [done|]. rewrite check_then. split.
    { destruct (nc_preferred_default c); [|done]. cbn. apply negb_true_iff, empty_false. auto. }
    apply ipv4_spec in Ha as Ha'. rewrite Ha'. cbn [mbind outcome_bind].
    apply (host_test p a Hp) in Hhost.
    assert (Hif := proj2 (if_check _ _ "network/broadcast address is not a host") Hhost).
    rewrite Hif. cbn [mbind outcome_bind].
    destruct (empty (nc_gateway c)) eqn:E; [done|]. cbn [negb].
    destruct Hgw as (g & Hg & Hne & Hsub & Hhg); [by apply empty_false|].
    apply ipv4_spec in Hg as Hg'. rewrite Hg'. cbn [mbind outcome_bind]. apply check_then. split.
    + apply andb_true_iff. split; [by apply negb_true_iff, Z.eqb_neq|].
      apply subnet_test; [done | by eapply ipv4_text_range.. | done].
    + by apply if_check, host_test.
Qed.

Lemma check_dns_spec l : check_dns l = Return tt <-> Forall (fun dns => exists n, ipv4_text dns n) l.
Proof.
  induction l as [|s l IH]; simpl; [split; [constructor | done]|].
  rewrite bind_Return. split.
  - intros (n & Hn%ipv4_spec & Hl). constructor; [eauto | by apply IH].
  - intros H. inv_forall. destruct H0 as [n Hn%ipv4_spec]. exists n. split; [done | by apply IH].
Qed.

Lemma validateNetwork_loop_spec names configs :
  validateNetwork_loop names configs = Return tt <->
  NoDup (map nc_interface configs) /\ Forall (fun c => nc_interface c ∉ names) configs /\ Forall config_ok configs.
Proof.
  revert names. induction configs as [|c configs IH]; intros names; simpl.
  { split; [intros _; split_and!; constructor | done]. }
  rewrite !check_then, negb_true_iff, bool_decide_eq_false, Z.leb_le, !bind_Return.
  fold (validInterfaceName (nc_interface c)). rewrite NoDup_cons.
  assert (Hmode : (exists u, match nc_mode c with
            | dhcp => check (empty (nc_address c) && empty (nc_gateway c)) "DHCP cannot specify a static address or gateway"
            | static_ipv4 => check_static c end = Return u) <->
            match nc_mode c with dhcp => nc_address c = "" /\ nc_gateway c = "" | static_ipv4 => static_ok c end).
  { destruct (nc_mode c).
    - rewrite <-!empty_spec, <-andb_true_iff. split; [intros [[] ?%check_Return]; done | intros ->; eauto].
    - rewrite <-check_static_spec. split; [by intros [[] ?] | eauto]. }
  split.
  - intros (Hname & Hnew & Hlen & [] & Hdns%check_dns_spec & Hr).
    apply bind_Return in Hr as ([] & Hm & Hr). apply IH in Hr as (Hnd & Hfresh & Hok).
    split_and!.
    + intros (c' & Hc & Hin)%list_elem_of_fmap. rewrite Forall_forall in Hfresh.
      apply (Hfresh c'); [done | set_solver].
    + done.
    + constructor; [done|]. eapply Forall_impl; [exact Hfresh|]. set_solver.
    + constructor; [|done]. split_and!; [done | lia | done |]. apply Hmode. eauto.
  - intros ((Hnin & Hnd) & Hfresh & Hok).
    destruct (Forall_inv Hok) as (Hname & Hlen & Hdns%check_dns_spec & Hm). apply Forall_inv_tail in Hok.
    pose proof (Forall_inv Hfresh) as Hnew. cbv beta in Hnew. apply Forall_inv_tail in Hfresh.
    split_and!; [done | done | lia |]. exists tt. split; [done|]. apply bind_Return.
    apply Hmode in Hm as [[] Hm]. exists tt. split; [done|]. apply IH. split_and!; [done | | done].
    apply Forall_forall. intros c' Hc'. rewrite Forall_forall in Hfresh.
    assert (nc_interface c' <> nc_interface c).
    { intros E. apply Hnin. rewrite <-E. by apply list_elem_of_fmap_2. }
    specialize (Hfresh c' Hc'). set_solver.
Qed.

Lemma validateNetwork_spec configs : validateNetwork configs = Return tt <-> network_ok configs.
Proof.
  unfold validateNetwork, network_ok. rewrite !check_then, !Z.leb_le, validateNetwork_loop_spec.
  split.
  - intros (? & ? & ? & _ & ?). split_and!; done || lia.
  - intros (? & ? & ? & ?). split_and!; try done; [lia|]. apply Forall_forall. set_solver.
Qed.

(** ** Configurations *)

Definition hostname_ok (h : string) : Prop :=
  h <> "" /\ size_of h <= 63 /\ front h <> Some "-"%char /\ back h <> Some "-"%char /\
  str_all host_char h = true.

Definition time_ok (t : TimePreferences) : Prop :=
  tp_synchronization t ∈ ["ntp"; "ptp"; "irig"; "local"] /\
  (tp_timezone t <> "" /\ size_of (tp_timezone t) <= 128 /\ front (tp_timezone t) <> Some "/"%char /\
   str_all zone_char (tp_timezone t) = true) /\
  (tp_ptp_interface t = "" /\ tp_synchronization t <> "ptp" \/ validInterfaceName (tp_ptp_interface t) = true) /\
  (length (tp_ntp_servers t) <= 8)%nat /\ NoDup (tp_ntp_servers t) /\
  Forall (fun s => validNtpServer s = true) (tp_ntp_servers t).

Definition configuration_ok (c : Configuration) : Prop :=
  hostname_ok (pr_hostname (cf_system c)) /\ time_ok (cf_time c) /\ network_ok (pr_network (cf_system c)).

Lemma check_ntp_spec servers ntp :
  check_ntp servers ntp = Return tt <->
  NoDup ntp /\ Forall (fun s => s ∉ servers) ntp /\ Forall (fun s => validNtpServer s = true) ntp.
Proof.
  revert servers. induction ntp as [|s ntp IH]; intros servers; cbn [check_ntp].
  { split; [intros _; split_and!; constructor | done]. }
  rewrite !check_then, negb_true_iff, bool_decide_eq_false, IH, NoDup_cons, !Forall_cons, !Forall_forall.
  split.
  - intros (Hv & Hnew & Hnd & Hf & Hok). split_and!; try done.
    + intros Hin. apply (Hf s Hin). set_solver.
    + intros x Hx. specialize (Hf x Hx). set_solver.
  - intros ((Hnin & Hnd) & (Hnew & Hf) & (Hv & Hok)). split_and!; try done.
    intros x Hx. specialize (Hf x Hx). set_solver.
Qed.

(** The dot is not a time zone character, so that the test for [..] is implied. *)
Lemma zone_no_dots s : str_all zone_char s = true -> has_substring ".." s = false.
Proof.
  induction s as [|c s IH]; [done|]. cbn [str_all has_substring]. intros [Hc Hs]%andb_true_iff.
  rewrite IH, orb_false_r by done. unfold starts_with. cbn [String.prefix].
  by destruct (ascii_dec "." c) as [<-|].
Qed.

Lemma validate_spec c : validate c = Return tt <-> configuration_ok c.
Proof.
  unfold validate, configuration_ok, hostname_ok, time_ok. cbv zeta.
  rewrite !check_then, bind_Return, !andb_true_iff, !orb_true_iff, !negb_true_iff, !Z.leb_le, !empty_false.
  rewrite !bool_decide_eq_true, !bool_decide_eq_false, andb_true_iff, negb_true_iff, bool_decide_eq_false, empty_spec.
  rewrite !elem_of_cons, elem_of_nil. split.
  - intros (? & ? & ? & ? & ? & [] & (? & _ & ?)%check_ntp_spec & ?%validateNetwork_spec).
    destruct_and!. split_and!; try done; [tauto | lia].
  - intros (? & (? & ? & ? & ? & ? & ?) & ?). destruct_and!.
    split_and!; try done; [tauto | by apply zone_no_dots | lia |].
    exists tt. split; [|by apply validateNetwork_spec].
    apply check_ntp_spec. split_and!; try done. apply Forall_forall. set_solver.
Qed.

(** ** The only error of validation *)

Definition invalid_only {A} (m : outcome A) : Prop :=
  match m with
  | Return _ => True
  | Throw e => exists message, e = Error (mkSystemError invalid_argument message)
  end.

Lemma invalid_only_check b m : invalid_only (check b m).
Proof. destruct b; cbn; eauto. Qed.

Lemma invalid_only_bind {A B} (m : outcome A) (f : A -> outcome B) :
  invalid_only m -> (forall a, invalid_only (f a)) -> invalid_only (m ≫= f).
Proof. destruct m; cbn; auto. Qed.

#[export] Hint Resolve invalid_only_check invalid_only_bind : mnc.
#[export] Hint Extern 1 (invalid_only (Return _)) => exact I : mnc.
#[export] Hint Extern 1 (invalid_only (mret _)) => exact I : mnc.

Lemma invalid_only_ipv4 text : invalid_only (ipv4 text).
Proof.
  assert (Hl : forall left r t, invalid_only (ipv4_loop left r t)).
  { induction left as [|left IH]; intros r t; cbn [ipv4_loop]; [done|].
    destruct (cut "." t). destruct (octet _); [|cbn; eauto]. auto with mnc. }
  unfold ipv4. apply invalid_only_bind; [apply Hl|]. intros; apply invalid_only_bind; auto with mnc.
Qed.

#[export] Hint Resolve invalid_only_ipv4 : mnc.

Lemma invalid_only_validateNetwork configs : invalid_only (validateNetwork configs).
Proof.
  assert (Hd : forall l, invalid_only (check_dns l)) by (induction l; cbn [check_dns]; auto with mnc).
  assert (Hs : forall c, invalid_only (check_static c)).
  { intros c. unfold check_static.
    repeat first [apply invalid_only_ipv4 | apply invalid_only_check | apply invalid_only_bind | intros ?
                 | split_match | exact I]. }
  assert (Hl : forall cs names, invalid_only (validateNetwork_loop names cs)).
  { induction cs as [|c cs IH]; intros names; cbn [validateNetwork_loop]; [done|].
    repeat first [apply invalid_only_check | apply Hd | apply Hs | apply IH | apply invalid_only_bind | intros ?
                 | split_match]. }
  unfold validateNetwork. repeat (apply invalid_only_bind; [apply invalid_only_check | intros ?]). apply Hl.
Qed.

Lemma invalid_only_validate c : invalid_only (validate c).
Proof.
  assert (Hn : forall l servers, invalid_only (check_ntp servers l)).
  { induction l; intros servers; cbn [check_ntp]; auto with mnc. }
  unfold validate. cbv zeta.
  repeat first [apply invalid_only_validateNetwork | apply invalid_only_check | apply Hn | apply invalid_only_bind | intros ?].
Qed.

(** ** Properties *)

(** [ipv4] accepts a text exactly when it is the canonical dotted form (four
    decimal octets, no leading zeros, nothing else) of a unicast IPv4 address,
    and then returns the 32-bit number of that address. *)
Theorem ipv4_accepts_canonical_unicast text n :
  ipv4 text = Return n <->
  exists a b c d, is_octet a /\ is_octet b /\ is_octet c /\ is_octet d /\
    unicast a /\ text = dotted a b c d /\ n = address_of a b c d.
Proof. apply ipv4_spec. Qed.

(** C35: [validNtpServer] accepts exactly the texts of at most 253 bytes that are
    an IPv6 address (eight groups, or fewer around one [::], the last two
    possibly dotted), a dotted IPv4 address, or a host name whose labels are of
    1 to 63 letters, digits and inner hyphens. *)
Theorem validNtpServer_grammar s :
  validNtpServer s = true <-> size_of s <= 253 /\ ntp_server s.
Proof. split; [apply validNtpServer_sound | intros []; by apply validNtpServer_complete]. Qed.

(** C36: [validate] accepts exactly the configurations that meet the declarative
    specification (subnet arithmetic by division, distinct interfaces and
    servers, character sets), and everything it rejects is rejected with
    [ErrorCode::invalid_argument]. *)
Theorem validate_accepts c :
  (validate c = Return tt /\ configuration_ok c) \/
  (exists message, validate c = throw_error invalid_argument message /\ ~ configuration_ok c).
Proof.
  pose proof (invalid_only_validate c) as Hi. pose proof (validate_spec c) as Hs.
  destruct (validate c) as [[]|e] eqn:E; [left; split; [done | by apply Hs]|].
  right. destruct Hi as [m ->]. exists m. split; [done|]. rewrite <-Hs. done.
Qed.
