(* ===== verification/Effects.v ===== *)
(** * Stateful code that may throw

    A member function that changes an object and may throw is a function from
    the state to the state it leaves and its outcome; an exception keeps the
    changes made before it, as in C++. The weakest precondition [wp] of such a
    computation, with a postcondition for a return and one for an exception, is
    how the components' theorems are proved. *)

From S2P Require Import Prelude SystemTypes.

Definition eff (S A : Type) : Type := S -> S * outcome A.

#[export] Instance eff_ret {S} : MRet (eff S) := fun A a s => (s, Return a).

#[export] Instance eff_bind {S} : MBind (eff S) := fun A B f m s =>
  match m s with
  | (s', Return a) => f a s'
  | (s', Throw e) => (s', Throw e)
  end.

Definition throw {S A} (e : exn) : eff S A := fun s => (s, Throw e).

(** [throw Error({code, message})]. *)
Definition throw_err {S A} (c : ErrorCode) (message : string) : eff S A :=
  throw (Error (mkSystemError c message)).

(** [try { m } catch (...) { h }]; [h] receives the exception to rethrow it. *)
Definition try_catch {S A} (m : eff S A) (h : exn -> eff S A) : eff S A := fun s =>
  match m s with
  | (s', Throw e) => h e s'
  | r => r
  end.

Definition gets {S A} (f : S -> A) : eff S A := fun s => (s, Return (f s)).

Definition modify {S} (f : S -> S) : eff S unit := fun s => (f s, Return tt).

(** Code that does not touch the state. *)
Definition lift {S A} (m : outcome A) : eff S A := fun s => (s, m).

Definition when {S} (b : bool) (m : eff S unit) : eff S unit := if b then m else mret tt.

(** [for (const auto &x : l) f(x);] *)
Fixpoint for_each {S A} (f : A -> eff S unit) (l : list A) : eff S unit :=
  match l with
  | [] => mret tt
  | x :: l' => _ ← f x; for_each f l'
  end.

Section wp.
Context {S : Type}.

Definition wp {A} (m : eff S A) (Q : A -> S -> Prop) (E : exn -> S -> Prop) (s : S) : Prop :=
  match m s with
  | (s', Return a) => Q a s'
  | (s', Throw e) => E e s'
  end.

Lemma wp_bind {A B} (m : eff S A) (f : A -> eff S B) Q E s :
  wp (m ≫= f) Q E s <-> wp m (fun a => wp (f a) Q E) E s.
Proof. unfold wp, mbind, eff_bind. by destruct (m s) as [s' []]. Qed.

Lemma wp_ret {A} (a : A) Q E s : wp (mret a) Q E s <-> Q a s.
Proof. done. Qed.

Lemma wp_throw {A} e (Q : A -> S -> Prop) E s : wp (throw e) Q E s <-> E e s.
Proof. done. Qed.

Lemma wp_gets {A} (f : S -> A) Q E s : wp (gets f) Q E s <-> Q (f s) s.
Proof. done. Qed.

Lemma wp_modify f (Q : unit -> S -> Prop) E s : wp (modify f) Q E s <-> Q tt (f s).
Proof. done. Qed.

Lemma wp_lift {A} (m : outcome A) Q E s :
  wp (lift m) Q E s <-> match m with Return a => Q a s | Throw e => E e s end.
Proof. done. Qed.

Lemma wp_try {A} (m : eff S A) h Q E s :
  wp (try_catch m h) Q E s <-> wp m Q (fun e => wp (h e) Q E) s.
Proof. unfold wp, try_catch. by destruct (m s) as [s' []]. Qed.

Lemma wp_mono {A} (m : eff S A) (Q Q' : A -> S -> Prop) (E E' : exn -> S -> Prop) s :
  wp m Q E s -> (forall a s', Q a s' -> Q' a s') -> (forall e s', E e s' -> E' e s') -> wp m Q' E' s.
Proof. unfold wp. destruct (m s) as [s' []]; auto. Qed.

Lemma wp_and {A} (m : eff S A) (Q Q' : A -> S -> Prop) (E E' : exn -> S -> Prop) s :
  wp m Q E s -> wp m Q' E' s ->
  wp m (fun a s' => Q a s' /\ Q' a s') (fun e s' => E e s' /\ E' e s') s.
Proof. unfold wp. by destruct (m s) as [s' []]. Qed.

(** What holds of the state in every outcome. *)
Lemma wp_always {A} (m : eff S A) (P : S -> Prop) s :
  wp m (fun _ => P) (fun _ => P) s <-> P (fst (m s)).
Proof. unfold wp. by destruct (m s) as [s' []]. Qed.

Lemma wp_trivial {A} (m : eff S A) s : wp m (fun _ _ => True) (fun _ _ => True) s.
Proof. unfold wp. by destruct (m s) as [s' []]. Qed.

Lemma wp_for_each {A} (f : A -> eff S unit) l (I : S -> Prop) E s :
  I s -> (forall x s, I s -> wp (f x) (fun _ => I) E s) -> wp (for_each f l) (fun _ => I) E s.
Proof.
  intros HI Hf. revert s HI. induction l as [|x l IH]; intros s HI; simpl; [done|].
  apply wp_bind. eapply wp_mono; [by apply Hf | intros [] s1 Hs1; by apply IH | done].
Qed.

(** A computation from a state to its outcome, as [wp] sees it. *)
Lemma wp_run {A} (m : eff S A) Q E s s' r :
  wp m Q E s -> m s = (s', r) -> match r with Return a => Q a s' | Throw e => E e s' end.
Proof. unfold wp. intros H Hm. rewrite Hm in H. by destruct r. Qed.

End wp.

#[export] Hint Rewrite @wp_bind @wp_ret @wp_throw @wp_gets @wp_modify @wp_lift @wp_try : mnc.

(** One step of symbolic execution of the computation at the head of the goal. *)
Ltac wp_step :=
  first
    [ rewrite wp_bind | rewrite wp_try | rewrite wp_ret | rewrite wp_throw
    | rewrite wp_gets | rewrite wp_modify ]; cbv beta.

Ltac wp_steps := repeat wp_step.

(** Passes over a call of which only its end matters. *)
Tactic Notation "wp_skip" "as" ident(x) :=
  rewrite wp_bind; eapply wp_mono; [apply wp_trivial | cbv beta zeta; intros x ? _ | done].

(** ** What a computation does to the state, however it ends *)

Section within.
Context {S : Type} (R : relation S) `{!PreOrder R}.

Definition within {A} (m : eff S A) : Prop := forall s, R s (fst (m s)).

Lemma within_ret {A} (a : A) : within (mret a).
Proof. intros s. cbn. reflexivity. Qed.

Lemma within_throw {A} e : within (throw (A := A) e).
Proof. intros s. cbn. reflexivity. Qed.

Lemma within_throw_err {A} c message : within (throw_err (A := A) c message).
Proof. apply within_throw. Qed.

Lemma within_lift {A} (m : outcome A) : within (lift m).
Proof. intros s. cbn. reflexivity. Qed.

Lemma within_gets {A} (f : S -> A) : within (gets f).
Proof. intros s. cbn. reflexivity. Qed.

Lemma within_bind {A B} (m : eff S A) (f : A -> eff S B) :
  within m -> (forall a, within (f a)) -> within (m ≫= f).
Proof.
  intros Hm Hf s. specialize (Hm s). unfold mbind, eff_bind. destruct (m s) as [s' [a|e]]; [|done].
  etrans; [exact Hm | apply Hf].
Qed.

Lemma within_lift_bind {A B} (o : outcome A) (f : A -> eff S B) :
  (forall a, o = Return a -> within (f a)) -> within (lift o ≫= f).
Proof. intros Hf s. destruct o as [a|e]; [exact (Hf a eq_refl s) | exact (within_throw e s)]. Qed.

Lemma within_try {A} (m : eff S A) h : within m -> (forall e, within (h e)) -> within (try_catch m h).
Proof.
  intros Hm Hh s. specialize (Hm s). unfold try_catch. destruct (m s) as [s' [a|e]]; [done|].
  etrans; [exact Hm | apply Hh].
Qed.

Lemma within_for_each {A} (f : A -> eff S unit) l : (forall x, x ∈ l -> within (f x)) -> within (for_each f l).
Proof.
  induction l as [|x l IH]; intros Hf; cbn [for_each]; [apply within_ret|].
  apply within_bind; [apply Hf; left | intros []; apply IH; intros y Hy; apply Hf; by right].
Qed.

Lemma within_when (b : bool) (m : eff S unit) : (b = true -> within m) -> within (when b m).
Proof. destruct b; intros H; [by apply H | apply within_ret]. Qed.

Lemma within_wp {A} (m : eff S A) s : within m -> wp m (fun _ => R s) (fun _ => R s) s.
Proof. intros H. apply wp_always, H. Qed.

End within.

Create HintDb within discriminated.
#[export] Hint Resolve within_ret within_throw within_throw_err within_lift within_gets : within.

(** Takes a computation apart; what is left are its calls. *)
Ltac within_step :=
  match goal with
  | |- within _ (mbind _ _) => apply within_bind; [typeclasses eauto | | intros ?]
  | |- within _ (try_catch _ _) => apply within_try; [typeclasses eauto | | intros ?]
  | |- within _ (for_each _ _) => apply within_for_each; [typeclasses eauto | intros ? ?]
  | |- within _ (when _ _) => apply within_when; [typeclasses eauto | intros ?]
  | |- within _ (match ?x with _ => _ end) => destruct x eqn:?
  | |- within _ _ => solve [ eauto with within typeclass_instances ]
  end.

Ltac within_auto := repeat within_step.
