(* ===== verification/Protocol.v ===== *)
(** * Messages of the D-Bus interface (common/mnc/os/system/protocol.hpp)

    Requests and replies are JSON texts written and read by the Glaze library,
    which is a parameter: [Json T] holds its two functions for the type [T] and
    [JsonLaws T] the round trip that its documentation promises. *)

From S2P Require Import Prelude SystemTypes.

Definition max_message_size : Z := 65536.

Record Reply := mkReply { rp_code : ErrorCode; rp_message : string; rp_json : string }.

Inductive Empty := mkEmpty.

Record Id := mkId { id_id : string }.

Record Finish := mkFinish { fi_id : string; fi_commit : bool; fi_audit_context : AuditContext }.

Record Power := mkPower { pw_action : PowerAction; pw_audit_context : AuditContext }.

Record Reset := mkReset { rs_confirmed : bool; rs_audit_context : AuditContext }.

(** [glz::write_json] and [glz::read_json]; [inl] carries the formatted error. *)
Class Json (T : Type) := {
  write_json : T -> option string;
  read_json : string -> string + T
}.

Class JsonLaws (T : Type) `{Json T} := {
  read_write : forall v t, write_json v = Some t -> read_json t = inr v
}.

Section codec.
Context {T : Type} `{Json T}.

Definition decode (limit : Z) (text : string) : outcome T :=
  if limit <? size_of text then throw_error invalid_argument "message too large"
  else
    match read_json text with
    | inl format_error => throw_error invalid_argument ("invalid system request: " +:+ format_error)
    | inr result => Return result
    end.

Definition encode (v : T) : outcome string :=
  match write_json v with
  | None => throw_error internal_error "cannot encode system message"
  | Some result => Return result
  end.

Lemma decode_encode `{!JsonLaws T} v t limit :
  encode v = Return t -> size_of t <= limit -> decode limit t = Return v.
Proof.
  unfold encode, decode. destruct (write_json v) as [t'|] eqn:E; [|done]. intros [= <-] Hs.
  rewrite (proj2 (Z.ltb_ge _ _)) by done. by rewrite (read_write _ _ E).
Qed.

End codec.
