(* ===== verification/AccessPolicy.v ===== *)
(** * Who may call what (daemon/access_policy.hpp, common/mnc/system/audit.hpp) *)

From S2P Require Import Prelude SystemTypes.

Definition settingsOperation (name : string) : bool :=
  (name ==? "ApplyPreferences") || (name ==? "BeginNetwork") || (name ==? "PrepareNetworkCommit") ||
  (name ==? "FinishNetwork").

Definition controlOperation (name : string) : bool := (name ==? "Power") || (name ==? "ResetDevice").

(** [trusted && uid == *trusted]. *)
Definition is_account (uid : Z) (trusted : option Z) : bool :=
  match trusted with Some t => uid =? t | None => false end.

Definition allowed (name : string) (uid : Z) (settings_uid control_uid : option Z) : bool :=
  if settingsOperation name then (uid =? 0) || is_account uid settings_uid
  else if controlOperation name then (uid =? 0) || is_account uid control_uid
  else (name ==? "GetStatus") || (name ==? "GetTime") || (name ==? "ListTimezones") ||
       (name ==? "GetTimezoneCatalog") || (name ==? "GetTemperatures") ||
       (name ==? "GetNetworkTransaction") || (name ==? "GetJob").

(** The lambda [safe] of [trustedAuditContext]. *)
Definition audit_safe (value : string) (bound : Z) : bool :=
  (size_of value <=? bound) && str_all (fun c => negb ((code c <? 32) || (code c =? 127))) value.

Definition trustedAuditContext (context : AuditContext) (peer_uid : Z) (trusted_uid : option Z) : AuditContext :=
  if negb (is_account peer_uid trusted_uid) then mkAuditContext ("uid:" +:+ to_string peer_uid) ""
  else mkAuditContext
         (if empty (ac_actor context) || negb (audit_safe (ac_actor context) 256)
          then "unknown" else ac_actor context)
         (if audit_safe (ac_request_id context) 128 then ac_request_id context else "").

(** The operations that only read. *)
Definition query_operations : list string :=
  ["GetStatus"; "GetTime"; "ListTimezones"; "GetTimezoneCatalog"; "GetTemperatures";
   "GetNetworkTransaction"; "GetJob"].

Definition settings_operations : list string :=
  ["ApplyPreferences"; "BeginNetwork"; "PrepareNetworkCommit"; "FinishNetwork"].

Definition control_operations : list string := ["Power"; "ResetDevice"].

Lemma settingsOperation_spec name : settingsOperation name = true <-> name ∈ settings_operations.
Proof.
  unfold settingsOperation, settings_operations.
  rewrite !orb_true_iff, !bool_decide_eq_true, !elem_of_cons, elem_of_nil. tauto.
Qed.

Lemma controlOperation_spec name : controlOperation name = true <-> name ∈ control_operations.
Proof.
  unfold controlOperation, control_operations.
  rewrite !orb_true_iff, !bool_decide_eq_true, !elem_of_cons, elem_of_nil. tauto.
Qed.

Lemma is_account_spec uid t : is_account uid t = true <-> t = Some uid.
Proof. destruct t; simpl; [rewrite Z.eqb_eq|]; split; congruence. Qed.

Lemma settings_not_control name : settingsOperation name = true -> controlOperation name = false.
Proof.
  intros H%settingsOperation_spec. unfold settings_operations in H.
  rewrite !elem_of_cons, elem_of_nil in H. by repeat destruct H as [->|H].
Qed.

(** The actor of every context that leaves the boundary is well formed: short,
    printable and not empty. *)
Lemma audit_actor_safe context peer trusted :
  0 <= peer < 2 ^ 32 ->
  let c := trustedAuditContext context peer trusted in
  ac_actor c <> "" /\ audit_safe (ac_actor c) 256 = true /\ audit_safe (ac_request_id c) 128 = true.
Proof.
  intros Hp. assert (Hd : str_all is_digit (to_string peer) = true) by (apply to_string_all_digits; lia).
  unfold trustedAuditContext. destruct (is_account peer trusted); cbn [negb ac_actor ac_request_id].
  - split_and!.
    + destruct (empty _) eqn:E; [done|]. destruct (audit_safe (ac_actor context) 256); [|done].
      by apply empty_false in E.
    + destruct (empty _); [done|]. by destruct (audit_safe (ac_actor context) 256) eqn:E.
    + by destruct (audit_safe (ac_request_id context) 128) eqn:E.
  - split_and!; [done | | done]. unfold audit_safe. apply andb_true_iff. split.
    + apply Z.leb_le. pose proof (to_string_length peer 10 ltac:(change (10 ^ Z.of_nat 10) with 10000000000; lia) ltac:(lia)).
      rewrite size_of_app. change (size_of "uid:") with 4. unfold size_of. lia.
    + rewrite str_all_app. cbn [andb]. eapply (str_all_impl is_digit) in Hd; [exact Hd|]. intros c Hc.
      assert (Hi : (negb (is_digit c) || negb ((code c <? 32) || (code c =? 127))) = true) by (clear; by_ascii c).
      by rewrite Hc in Hi.
Qed.

(** ** Properties *)

(** Exactly these calls pass the access check: a settings operation by root
    or the settings account, a control operation by root or the control
    account, and the seven queries by anyone; an unknown operation passes for
    nobody, root included. *)
Theorem allowed_exactly name uid settings_uid control_uid :
  allowed name uid settings_uid control_uid = true <->
  (name ∈ settings_operations /\ (uid = 0 \/ settings_uid = Some uid)) \/
  (name ∈ control_operations /\ (uid = 0 \/ control_uid = Some uid)) \/
  name ∈ query_operations.
Proof.
  unfold allowed. rewrite <-settingsOperation_spec, <-controlOperation_spec, <-!is_account_spec.
  assert (Hq : name ∈ query_operations -> settingsOperation name = false /\ controlOperation name = false).
  { unfold query_operations. rewrite !elem_of_cons, elem_of_nil. intros H. by repeat destruct H as [->|H]. }
  destruct (settingsOperation name) eqn:Hs.
  - rewrite (settings_not_control _ Hs), orb_true_iff, Z.eqb_eq.
    split; [tauto | intros [[_ ?]|[[? _]|[? _]%Hq]]; done].
  - destruct (controlOperation name) eqn:Hc.
    + rewrite orb_true_iff, Z.eqb_eq. split; [tauto | intros [[? _]|[[_ ?]|[_ ?]%Hq]]; done].
    + clear Hq. unfold query_operations.
      rewrite !orb_true_iff, !bool_decide_eq_true, !elem_of_cons, elem_of_nil. intuition congruence.
Qed.

(** Audit identity cannot be forged across the boundary: a peer that is not
    the trusted account is recorded under its own numeric user id with no
    request id, whatever it submits, and in all cases what is recorded is a
    non-empty, bounded, printable actor. *)
Theorem audit_context_trusted context peer_uid trusted_uid :
  0 <= peer_uid < 2 ^ 32 ->
  let c := trustedAuditContext context peer_uid trusted_uid in
  (trusted_uid <> Some peer_uid ->
   ac_actor c = "uid:" +:+ to_string peer_uid /\ ac_request_id c = "") /\
  ac_actor c <> "" /\ audit_safe (ac_actor c) 256 = true /\ audit_safe (ac_request_id c) 128 = true.
Proof.
  intros Hp c. split; [|by apply audit_actor_safe].
  intros Ht. subst c. unfold trustedAuditContext.
  destruct (is_account peer_uid trusted_uid) eqn:E; [|done]. by apply is_account_spec in E.
Qed.

Lemma audit_context_trusted_witness :
  let c := trustedAuditContext (mkAuditContext "administrator" "request") 200 (Some 100) in
  ac_actor c = "uid:200" /\ ac_actor c <> "".
Proof.
  pose proof (audit_context_trusted (mkAuditContext "administrator" "request") 200 (Some 100) ltac:(lia)) as [H1 [H2 _]].
  split; [apply H1; discriminate | exact H2].
Defined.
