(* ===== verification/Logging.v ===== *)
(** * Structured logging (common/mnc/logging/logging.hpp, logging.cpp)

    Records are lists of named fields that a sink sends to the journal.
    Developer records carry caller-chosen fields, user records are built from a
    validated [UserEvent]. *)

From S2P Require Import Prelude SystemTypes.

Inductive Priority :=
  | emergency | alert | critical | error | warning | notice | info | debug.

#[export] Instance Priority_eq_dec : EqDecision Priority.
Proof. solve_decision. Defined.

(** [static_cast<unsigned>(priority)]. *)
Definition priority_code (p : Priority) : Z :=
  match p with
  | emergency => 0 | alert => 1 | critical => 2 | error => 3
  | warning => 4 | notice => 5 | info => 6 | debug => 7
  end.

(** [static_cast<Priority>(numeric)] for a number that is at most 7. *)
Definition priority_of_code (n : Z) : option Priority :=
  match n with
  | 0 => Some emergency | 1 => Some alert | 2 => Some critical | 3 => Some error
  | 4 => Some warning | 5 => Some notice | 6 => Some info | 7 => Some debug
  | _ => None
  end.

Inductive Audience := developer | user.

#[export] Instance Audience_eq_dec : EqDecision Audience.
Proof. solve_decision. Defined.

Record Field := mkField { fd_name : string; fd_value : string }.

#[export] Instance Field_eq_dec : EqDecision Field.
Proof. solve_decision. Defined.

Definition priority_name (p : Priority) : string :=
  match p with
  | emergency => "emergency" | alert => "alert" | critical => "critical" | error => "error"
  | warning => "warning" | notice => "notice" | info => "info" | debug => "debug"
  end.

Fixpoint str_map (f : ascii -> ascii) (s : string) : string :=
  match s with EmptyString => EmptyString | String c s' => String (f c) (str_map f s') end.

(** The table of [parse_priority], [debug] included. *)
Definition priority_table : list (string * Priority) :=
  [("emergency", emergency); ("emerg", emergency); ("alert", alert); ("critical", critical);
   ("crit", critical); ("error", error); ("err", error); ("warning", warning);
   ("notice", notice); ("info", info); ("debug", debug)].

(** [parse_priority]: [None] when it returns [false]. *)
Definition parse_priority (name : string) : option Priority :=
  let normalized := str_map to_lower name in
  snd <$> List.find (fun entry => normalized ==? fst entry) priority_table.

Definition field_char (c : ascii) : bool := is_upper c || is_digit c || (c ==? "_"%char).

Definition valid_field_name (name : string) : bool :=
  if empty name || (front name ==? Some "_"%char) then false else str_all field_char name.

Definition reserved_names : list string :=
  ["MESSAGE"; "PRIORITY"; "MNC_COMPONENT"; "MNC_MODULE"; "MNC_EVENT"; "MNC_LOG_AUDIENCE";
   "MNC_EVENT_CATEGORY"; "MNC_ACTOR"; "MNC_ACTION"; "MNC_OUTCOME"; "MNC_SUBJECT"; "MNC_CHANGED_FIELDS"].

Definition reserved (name : string) : bool :=
  bool_decide (name ∈ reserved_names) || starts_with "CODE_" name.

Definition control_char (c : ascii) : bool := (code c <? 32) || (code c =? 127).

Definition safe_text (value : string) (maximum : Z) : bool :=
  (size_of value <=? maximum) && str_all (fun c => negb (control_char c)) value.

Definition identifier_char (c : ascii) : bool :=
  is_lower c || is_upper c || is_digit c || (c ==? "_"%char) || (c ==? "-"%char) || (c ==? "."%char).

Definition identifier (value : string) : bool :=
  negb (empty value) && (size_of value <=? 128) && str_all identifier_char value.

Definition quote : string := String (chr 34) "".

(** The body of the loop of [changed_json]; [result.size() > 1] tests for an
    earlier name. *)
Definition changed_json_add (result name : string) : string :=
  (if 1 <? size_of result then result +:+ "," else result) +:+ quote +:+ name +:+ quote.

Definition changed_json (names : list string) : string :=
  fold_left changed_json_add names "[" +:+ "]".

Definition journal_field (name value : string) : string := name +:+ "=" +:+ value.

(** [JournalSink::write]: what [sd_journal_sendv] is called with. *)
Definition JournalSink_values (fields : list Field) : list string :=
  map (fun f => journal_field (fd_name f) (fd_value f)) fields.

Definition JournalSink_write (sd_journal_sendv : list string -> Z) (fields : list Field) : bool :=
  0 <=? sd_journal_sendv (JournalSink_values fields).

Record LogBase := mkLogBase { lb_component : string; lb_module : string; lb_audience : Audience }.

(** The constructor. *)
Definition LogBase_new (component module : string) (audience : Audience) : outcome LogBase :=
  if empty component then Throw (StdException "logging component must not be empty")
  else Return (mkLogBase component module audience).

Record source_location := mkSource { sl_file_name : string; sl_line : Z; sl_function_name : string }.

(** The fields [emit] writes itself. *)
Definition core_fields (log : LogBase) (priority : Priority) (message event : string)
    (source : option source_location) : list Field :=
  [mkField "MESSAGE" message; mkField "PRIORITY" (to_string (priority_code priority));
   mkField "MNC_COMPONENT" (lb_component log);
   mkField "MNC_LOG_AUDIENCE" (if lb_audience log ==? user then "user" else "developer")] ++
  (if negb (empty (lb_module log)) then [mkField "MNC_MODULE" (lb_module log)] else []) ++
  (if negb (empty event) then [mkField "MNC_EVENT" event] else []) ++
  match source with
  | Some s => [mkField "CODE_FILE" (sl_file_name s); mkField "CODE_LINE" (to_string (sl_line s));
               mkField "CODE_FUNC" (sl_function_name s)]
  | None => []
  end.

(** The caller's fields that [emit] keeps. *)
Definition emitted (audience : Audience) (f : Field) : bool :=
  valid_field_name (fd_name f) && negb (reserved (fd_name f) && (audience ==? developer)).

(** [LogBase::emit]: the record handed to the sink. *)
Definition emit_record (log : LogBase) (priority : Priority) (message event : string)
    (fields : list Field) (source : option source_location) : list Field :=
  core_fields log priority message event source ++ List.filter (emitted (lb_audience log)) fields.

Definition emit (sink : list Field -> bool) (log : LogBase) (priority : Priority)
    (message event : string) (fields : list Field) (source : option source_location) : bool :=
  sink (emit_record log priority message event fields source).

(** [DeveloperLog::write]. *)
Definition DeveloperLog_write (sink : list Field -> bool) (log : LogBase) (priority : Priority)
    (message event : string) (fields : list Field) (source : source_location) : bool :=
  emit sink log priority message event fields (Some source).

Record UserEvent := mkUserEvent {
  ue_code : string;
  ue_category : string;
  ue_message : string;
  ue_actor : string;
  ue_action : string;
  ue_outcome : string;
  ue_subject : string;
  ue_changed_fields : list string;
  ue_request_id : string
}.

#[export] Instance UserEvent_eq_dec : EqDecision UserEvent.
Proof. solve_decision. Defined.

Definition categories : list string :=
  ["network"; "mqtt"; "delivery"; "settings"; "authentication"; "administration"; "availability"].

Definition valid_user_event (event : UserEvent) : bool :=
  identifier (ue_code event) && identifier (ue_action event) && identifier (ue_outcome event) &&
  bool_decide (ue_category event ∈ categories) && negb (empty (ue_message event)) &&
  safe_text (ue_message event) 512 && safe_text (ue_actor event) 256 && safe_text (ue_subject event) 256 &&
  safe_text (ue_request_id event) 128 && (Z.of_nat (length (ue_changed_fields event)) <=? 64) &&
  forallb identifier (ue_changed_fields event).

Definition user_fields (event : UserEvent) : list Field :=
  [mkField "MNC_EVENT_CATEGORY" (ue_category event); mkField "MNC_ACTOR" (ue_actor event);
   mkField "MNC_ACTION" (ue_action event); mkField "MNC_OUTCOME" (ue_outcome event);
   mkField "MNC_SUBJECT" (ue_subject event);
   mkField "MNC_CHANGED_FIELDS" (changed_json (ue_changed_fields event));
   mkField "MNC_REQUEST_ID" (ue_request_id event)].

(** The record [UserLog::write] hands to [emit]'s sink; [None] when the event is
    rejected. *)
Definition UserLog_record (log : LogBase) (priority : Priority) (event : UserEvent) : option (list Field) :=
  if negb (valid_user_event event) then None
  else Some (emit_record log priority (ue_message event) (ue_code event) (user_fields event) None).

Definition UserLog_write (sink : list Field -> bool) (log : LogBase) (priority : Priority)
    (event : UserEvent) : bool :=
  if negb (valid_user_event event) then false
  else emit sink log priority (ue_message event) (ue_code event) (user_fields event) None.

(** ** Lookup of fields *)

(** The values of the fields with a name. *)
Definition values_of (name : string) (record : list Field) : list string :=
  map fd_value (List.filter (fun f => name ==? fd_name f) record).

Lemma values_of_app name r1 r2 : values_of name (r1 ++ r2) = values_of name r1 ++ values_of name r2.
Proof. unfold values_of. by rewrite List.filter_app, map_app. Qed.

Lemma UserLog_write_record sink log priority event :
  UserLog_write sink log priority event =
  match UserLog_record log priority event with Some r => sink r | None => false end.
Proof. unfold UserLog_write, UserLog_record. by destruct (negb _). Qed.

(** Fields of the caller in a developer record are not reserved. *)
Lemma developer_no_reserved fields name :
  reserved name = true -> values_of name (List.filter (emitted developer) fields) = [].
Proof.
  intros Hr. induction fields as [|f fields IH]; [done|]. simpl.
  destruct (emitted developer f) eqn:He; [|done]. unfold values_of in *. simpl.
  case_bool_decide; [|done]. subst. unfold emitted in He. rewrite Hr in He. cbn in He.
  by rewrite andb_false_r in He.
Qed.

Definition single_line (s : string) : Prop := str_all (fun c => negb (control_char c)) s = true.

Lemma identifier_single_line s : identifier s = true -> single_line s.
Proof.
  unfold identifier, single_line. rewrite !andb_true_iff. intros [_ H].
  eapply str_all_impl; [|exact H]. intros c Hc.
  assert (Hi : (negb (identifier_char c) || negb (control_char c)) = true) by (clear; by_ascii c).
  by rewrite Hc in Hi.
Qed.

Lemma safe_text_single_line s n : safe_text s n = true -> single_line s.
Proof. unfold safe_text. rewrite andb_true_iff. by intros []. Qed.

#[export] Hint Resolve identifier_single_line safe_text_single_line : mnc.

(** The text [changed_json] writes. *)
Definition quoted (name : string) : string := quote +:+ name +:+ quote.

Lemma changed_json_fold names acc :
  1 < size_of acc ->
  fold_left changed_json_add names acc = fold_left (fun r n => r +:+ "," +:+ quoted n) names acc.
Proof.
  revert acc. induction names as [|n names IH]; intros acc Ha; [done|]. simpl.
  unfold changed_json_add at 2. rewrite (proj2 (Z.ltb_lt _ _)) by done. rewrite str_app_assoc. apply IH.
  rewrite size_of_app. match goal with |- _ < _ + size_of ?x => pose proof (size_of_nonneg x) end. lia.
Qed.

Lemma changed_json_tail names acc q :
  fold_left (fun r n => r +:+ "," +:+ quoted n) names (acc +:+ q) = acc +:+ join "," (q :: map quoted names).
Proof.
  revert q. induction names as [|m names IH]; intros q; [done|].
  cbn [fold_left map]. rewrite (str_app_assoc acc), IH. f_equal.
  destruct names; cbn [map]; [done|]. rewrite !join_cons by done. by rewrite !str_app_assoc.
Qed.

Lemma changed_json_join names : changed_json names = "[" +:+ join "," (map quoted names) +:+ "]".
Proof.
  unfold changed_json. rewrite <-str_app_assoc. f_equal.
  destruct names as [|n names]; [done|]. cbn [fold_left].
  assert (H1 : changed_json_add "[" n = "[" +:+ quoted n) by done. rewrite H1.
  rewrite changed_json_fold.
  2: { unfold quoted. rewrite !size_of_app. pose proof (size_of_nonneg n).
       change (size_of quote) with 1. change (size_of "[") with 1. lia. }
  apply changed_json_tail.
Qed.

(** A valid event's fields all pass the filter of [emit]. *)
Lemma user_fields_emitted event : List.filter (emitted user) (user_fields event) = user_fields event.
Proof. reflexivity. Qed.

Lemma quoted_single_line n : single_line n -> single_line (quoted n).
Proof. unfold single_line, quoted. intros H. by rewrite !str_all_app, H. Qed.

Lemma changed_json_single_line names :
  Forall single_line names -> single_line (changed_json names).
Proof.
  intros H. rewrite changed_json_join. unfold single_line. rewrite !str_all_app. cbn [str_all].
  rewrite str_all_join; [done | done |]. apply Forall_map.
  eapply Forall_impl; [exact H|]. intros n. apply quoted_single_line.
Qed.

Lemma digits_single_line n : 0 <= n -> single_line (to_string n).
Proof.
  intros Hn. eapply str_all_impl; [|by apply to_string_all_digits]. intros c Hc.
  assert (Hi : (negb (is_digit c) || negb (control_char c)) = true) by (clear; by_ascii c).
  by rewrite Hc in Hi.
Qed.

(** What validation says about an event, as propositions. *)
Lemma valid_user_event_spec event :
  valid_user_event event = true <->
  identifier (ue_code event) = true /\ identifier (ue_action event) = true /\
  identifier (ue_outcome event) = true /\ ue_category event ∈ categories /\ ue_message event <> "" /\
  safe_text (ue_message event) 512 = true /\ safe_text (ue_actor event) 256 = true /\
  safe_text (ue_subject event) 256 = true /\ safe_text (ue_request_id event) 128 = true /\
  (length (ue_changed_fields event) <= 64)%nat /\
  Forall (fun n => identifier n = true) (ue_changed_fields event).
Proof.
  unfold valid_user_event. rewrite !andb_true_iff, negb_true_iff, bool_decide_eq_true, empty_false, Z.leb_le.
  rewrite forallb_forall, Forall_forall. setoid_rewrite <-list_elem_of_In.
  split; [intros; destruct_and!; split_and!; done || lia | intros; destruct_and!; split_and!; done || lia].
Qed.

Lemma category_single_line c : c ∈ categories -> single_line c.
Proof.
  unfold categories. rewrite !elem_of_cons, elem_of_nil.
  intros H. by repeat destruct H as [->|H].
Qed.

Lemma UserLog_record_valid log priority event r :
  UserLog_record log priority event = Some r ->
  valid_user_event event = true /\
  r = emit_record log priority (ue_message event) (ue_code event) (user_fields event) None.
Proof. unfold UserLog_record. destruct (valid_user_event event); cbn; [by intros [= <-] | done]. Qed.

(** ** Properties *)

(** A developer record cannot be turned into a public one: whatever fields
    the caller adds, every reserved name of the record (audience, message,
    priority, component, actor, ..., [CODE_*]) carries the value [emit] wrote
    itself, and the audience is the single value [developer]. *)
Theorem developer_record_not_spoofable component module priority message event fields source name :
  reserved name = true ->
  let log := mkLogBase component module developer in
  let record := emit_record log priority message event fields (Some source) in
  values_of name record = values_of name (core_fields log priority message event (Some source)) /\
  values_of "MNC_LOG_AUDIENCE" record = ["developer"].
Proof.
  intros Hr log record. unfold record, emit_record. split; rewrite values_of_app.
  - by rewrite developer_no_reserved, app_nil_r.
  - rewrite developer_no_reserved, app_nil_r by done. unfold core_fields. simpl.
    by destruct (empty module), (empty event).
Qed.

(** [UserLog::write] refuses an event that is not valid without calling the
    sink; the record of a valid one names every field once, is marked for the
    audience [user], holds no source location, and no value of it contains a
    control character, so that one record is one line of every text rendering. *)
Theorem user_record_wellformed component module priority event record :
  single_line component -> single_line module ->
  UserLog_record (mkLogBase component module user) priority event = Some record ->
  valid_user_event event = true /\ NoDup (map fd_name record) /\
  values_of "MNC_LOG_AUDIENCE" record = ["user"] /\ values_of "CODE_FILE" record = [] /\
  Forall (fun f => single_line (fd_value f)) record.
Proof.
  intros Hc Hm [Hv ->]%UserLog_record_valid. split; [done|].
  pose proof (proj1 (valid_user_event_spec event) Hv) as Hs. destruct_and!.
  assert (He : empty (ue_code event) = false).
  { apply empty_false. intros E. by match goal with H : identifier (ue_code event) = true |- _ => rewrite E in H end. }
  unfold emit_record, core_fields. cbn [lb_audience lb_module lb_component]. rewrite user_fields_emitted, He.
  rewrite (bool_decide_eq_true_2 (user = user)) by done. cbn [negb]. split_and!.
  - destruct (empty module); cbn; apply (bool_decide_unpack _); vm_compute; exact I.
  - by destruct (empty module).
  - by destruct (empty module).
  - assert (Hp : 0 <= priority_code priority) by (by destruct priority).
    assert (single_line (changed_json (ue_changed_fields event))).
    { apply changed_json_single_line. eapply Forall_impl; [eassumption|]. auto with mnc. }
    destruct (empty module); cbn;
      repeat (apply Forall_cons_2; [cbn [fd_value]; eauto using category_single_line, digits_single_line with mnc|]);
      try apply Forall_nil_2; done.
Qed.

Lemma developer_record_not_spoofable_witness :
  let log := mkLogBase "system" "" developer in
  let fields := [mkField "MESSAGE" "forged"; mkField "MNC_LOG_AUDIENCE" "user"; mkField "MNC_OPERATION" "Power"] in
  let record := emit_record log notice "accepted" "system_operation" fields (Some (mkSource "main.cpp" 98 "request")) in
  values_of "MESSAGE" record = ["accepted"] /\ values_of "MNC_LOG_AUDIENCE" record = ["developer"] /\
  values_of "MNC_OPERATION" record = ["Power"].
Proof.
  pose proof (developer_record_not_spoofable "system" "" notice "accepted" "system_operation"
    [mkField "MESSAGE" "forged"; mkField "MNC_LOG_AUDIENCE" "user"; mkField "MNC_OPERATION" "Power"]
    (mkSource "main.cpp" 98 "request") "MESSAGE" eq_refl) as [H1 H2].
  split; [exact H1 | split; [exact H2 | reflexivity]].
Defined.

Lemma user_record_wellformed_witness :
  exists record,
    UserLog_record (mkLogBase "system-manager" "operations" user) info
      (mkUserEvent "network_down" "network" "Network connection lost" "system" "link" "failed" "end0" [] "") = Some record /\
    NoDup (map fd_name record).
Proof.
  eexists. split; [reflexivity|].
  eapply (user_record_wellformed "system-manager" "operations" info
    (mkUserEvent "network_down" "network" "Network connection lost" "system" "link" "failed" "end0" [] "")); reflexivity.
Defined.
