(* ===== verification/Host.v ===== *)
(** * What the system manager asks of the host

    The files, the random identifiers and the boot clock that [Backend] uses
    through the functions of daemon/storage.cpp, as an interface: [Host] lists
    the operations and [HostLaws] what they promise. The implementation over
    system calls that may fail is in Storage.v. *)

From S2P Require Import Prelude SystemTypes.

(** [std::hex << std::setw(2) << std::setfill('0')] of a byte. *)
Definition hex_digit (n : Z) : ascii := if n <? 10 then chr (48 + n) else chr (87 + n).

Definition hex_byte (b : Z) : string := String (hex_digit (b / 16)) (String (hex_digit (b mod 16)) "").

Definition hex_bytes (bytes : list Z) : string := fold_right (fun b s => hex_byte b +:+ s) "" bytes.

(** ** Paths *)

(** [fs::path(a) / b] for a relative [b]. *)
Definition path_append (a b : string) : string :=
  if empty a || ends_with "/" a then a +:+ b else a +:+ "/" +:+ b.

Fixpoint last_slash (s : string) : option nat :=
  match s with
  | EmptyString => None
  | String c s' =>
      match last_slash s' with
      | Some n => Some (S n)
      | None => if c ==? "/"%char then Some O else None
      end
  end.

(** [fs::path::parent_path] of a path without empty components. *)
Definition parent_path (p : string) : string :=
  match last_slash p with
  | Some O => "/"
  | Some n => str_take n p
  | None => ""
  end.

(** [q] is [p] or below it in the tree. *)
Definition under (p q : string) : bool := (p ==? q) || starts_with (p +:+ "/") q.

(** [q] is neither [p] nor one of its temporary files. *)
Definition apart (p q : string) : Prop := q <> p /\ starts_with (p +:+ ".") q = false.

(** ** The interface *)

Class Host (H : Type) := {
  (** The contents of a regular file, as a process sees them. *)
  file : H -> string -> option string;
  exists_ : string -> H -> H * outcome bool;
  permissions : string -> H -> H * outcome unit;
  readFile : string -> Z -> H -> H * outcome string;
  atomicWrite : string -> string -> H -> H * outcome unit;
  durableRemove : string -> H -> H * outcome unit;
  create_directories : string -> H -> H * outcome unit;
  randomId : H -> H * outcome string;
  clock_ : H -> H * outcome Z
}.

Class HostLaws (H : Type) `{Host H} := {
  exists_frame h p q : file (fst (exists_ p h)) q = file h q;
  exists_false h p : snd (exists_ p h) = Return false -> file h p = None;
  permissions_frame h p q : file (fst (permissions p h)) q = file h q;
  readFile_frame h p limit q : file (fst (readFile p limit h)) q = file h q;
  readFile_ok h p limit c :
    snd (readFile p limit h) = Return c -> file h p = Some c /\ size_of c <= limit;
  atomicWrite_ok h p v :
    snd (atomicWrite p v h) = Return tt -> file (fst (atomicWrite p v h)) p = Some v;
  atomicWrite_fail h p v e :
    snd (atomicWrite p v h) = Throw e ->
    file (fst (atomicWrite p v h)) p = file h p \/ file (fst (atomicWrite p v h)) p = Some v;
  atomicWrite_frame h p v q : apart p q -> file (fst (atomicWrite p v h)) q = file h q;
  durableRemove_ok h p q :
    snd (durableRemove p h) = Return tt -> under p q = true -> file (fst (durableRemove p h)) q = None;
  durableRemove_frame h p q :
    under p q = false -> file (fst (durableRemove p h)) q = file h q;
  durableRemove_shrinks h p q : file h q = None -> file (fst (durableRemove p h)) q = None;
  create_directories_frame h p q : file (fst (create_directories p h)) q = file h q;
  randomId_frame h q : file (fst (randomId h)) q = file h q;
  clock_frame h q : file (fst (clock_ h)) q = file h q;
  (** [clock_gettime(CLOCK_BOOTTIME)] does not fail. *)
  clock_returns h : exists t, snd (clock_ h) = Return t /\ 0 <= t < 2 ^ 64
}.
