(* ===== verification/Storage.v ===== *)
(** * Durable files over system calls (daemon/storage.cpp, lines 18 to 108)

    [readFile], [atomicWrite], [durableRemove], [randomId] and
    [bootMilliseconds] over a machine whose system calls may fail at any point
    and whose power may fail between any two of them. A disk keeps, besides what
    processes see, what has reached stable storage: file data by [fsync], names
    by [fsync] of their directory; after a power loss any part of the pending
    directory changes may have happened. A directory is durable only when the
    directory that holds it was synced after its creation: until then a power
    loss may take it away with everything below it. *)

From S2P Require Import Prelude SystemTypes Effects Host.

(** ** The machine *)

(** The result of a system call: what [write] and [getrandom] may return short,
    and a failure with the text of [strerror(errno)]. *)
Inductive sysres :=
  | Done
  | Short (n : nat)
  | Interrupted
  | Failed (strerror : string).

(** A change of directory entries that has not reached stable storage. *)
Inductive dirop :=
  | Link (path : string) (inode : nat)
  | Unlink (path : string)
  | Rename (src dst : string) (inode : nat).

Record Disk := mkDisk {
  dk_data : gmap nat string;        (* file data as processes see it *)
  dk_stable : gmap nat string;      (* file data after the last fsync *)
  dk_dir : gmap string nat;         (* names as processes see them *)
  dk_stable_dir : gmap string nat;  (* names on stable storage *)
  dk_pending : list dirop;          (* changes of names since, oldest first *)
  dk_dirs : gset string;            (* directories *)
  dk_unsynced : gset string         (* directories whose own entry is not on stable storage *)
}.

Record Machine := mkMachine {
  mc_disk : Disk;
  mc_plan : list sysres;            (* results of the coming system calls *)
  mc_entropy : list Z;              (* bytes that getrandom returns *)
  mc_clock : list (Z * Z);          (* seconds and nanoseconds since boot *)
  mc_history : list Disk            (* the disk after each system call, newest first *)
}.

Definition apply_op (dir : gmap string nat) (op : dirop) : gmap string nat :=
  match op with
  | Link p i => <[p := i]> dir
  | Unlink p => delete p dir
  | Rename src dst i => <[dst := i]> (delete src dir)
  end.

(** The prefixes of [p] that are directories on the way to it, [p] included. *)
Fixpoint ancestors (sofar p : string) : list string :=
  match p with
  | EmptyString => [sofar]
  | String c p' =>
      let rest := ancestors (sofar +:+ String c "") p' in
      if c ==? "/"%char then (if empty sofar then "/" else sofar) :: rest else rest
  end.

(** The directories above the file [p]. *)
Definition way (p : string) : list string := ancestors "" (parent_path p).

(** [p] is in or below one of the directories [lost]. *)
Definition is_lost (lost : gset string) (p : string) : bool := existsb (fun D => bool_decide (D ∈ lost)) (way p).

(** [survives d files]: the files after a power loss in the state [d]. Any part
    of the pending changes may have happened, any of the unsynced directories
    may be gone, and data that was never synced may be anything. *)
Definition survives (d : Disk) (files : gmap string string) : Prop :=
  exists ops lost, ops `sublist_of` dk_pending d /\ lost ⊆ dk_unsynced d /\
    let dir := fold_left apply_op ops (dk_stable_dir d) in
    forall p,
      if is_lost lost p then files !! p = None
      else
        match dir !! p with
        | None => files !! p = None
        | Some i => forall c, dk_stable d !! i = Some c -> files !! p = Some c
        end.

(** ** System calls *)

Abbreviation M := (eff Machine).

Definition set_disk (d : Disk) (m : Machine) : Machine :=
  mkMachine d (mc_plan m) (mc_entropy m) (mc_clock m) (d :: mc_history m).

(** The next planned result; system calls beyond the plan succeed. *)
Definition next_result : M sysres := fun m =>
  match mc_plan m with
  | [] => (m, Return Done)
  | r :: plan => (mkMachine (mc_disk m) plan (mc_entropy m) (mc_clock m) (mc_history m), Return r)
  end.

(** A system call with an effect on the disk: [None] on success. *)
Definition sys (f : Disk -> option Disk) : M (option string) :=
  r ← next_result;
  match r with
  | Done =>
      d ← gets mc_disk;
      match f d with
      | Some d' => _ ← modify (set_disk d'); mret None
      | None => mret (Some "refused")
      end
  | Failed strerror => mret (Some strerror)
  | Short _ | Interrupted => mret (Some "interrupted")
  end.

(** [io(ok, what)]. *)
Definition io (result : option string) (what : string) : M unit :=
  match result with
  | None => mret tt
  | Some strerror => throw_err apply_failed (what +:+ ": " +:+ strerror)
  end.

(** ** Identifiers and the clock *)

Definition take_entropy (n : nat) : M (list Z) := fun m =>
  let bytes := take n (mc_entropy m) in
  (mkMachine (mc_disk m) (mc_plan m) (drop n (mc_entropy m)) (mc_clock m) (mc_history m),
   Return (bytes ++ replicate (n - length bytes) 0)).

(** The loop of [randomId]: [need] bytes to go. Every round uses up a planned
    result or, beyond the plan, returns the rest, so that one round more than
    the length of the plan is enough. *)
Fixpoint random_loop (fuel : nat) (need : nat) : M (list Z) :=
  match need with
  | O => mret []
  | _ =>
    match fuel with
    | O => throw_err apply_failed "random ID"
    | S fuel' =>
        r ← next_result;
        match r with
        | Done => take_entropy need
        | Interrupted => random_loop fuel' need
        | Short (S n) =>
            bytes ← take_entropy (S n `min` need)%nat;
            rest ← random_loop fuel' (need - length bytes)%nat;
            mret (bytes ++ rest)
        | Short O => throw_err apply_failed "random ID: "
        | Failed strerror => throw_err apply_failed ("random ID: " +:+ strerror)
        end
    end
  end.

Definition machine_randomId : M string :=
  plan ← gets mc_plan;
  bytes ← random_loop (S (length plan)) 16;
  mret (hex_bytes bytes).

(** [bootMilliseconds], for a clock that does not fail. *)
Definition bootMilliseconds : M Z := fun m =>
  match mc_clock m with
  | [] => (m, Return 0)
  | (sec, nsec) :: rest =>
      (mkMachine (mc_disk m) (mc_plan m) (mc_entropy m) (if rest is [] then mc_clock m else rest) (mc_history m),
       Return (u64 (u64 (sec * 1000) + nsec / 1000000)))
  end.

(** ** Files *)

(** [open(tmp, O_CREAT | O_EXCL)]: a new empty file [i] in a directory. *)
Definition sys_create (i : nat) (tmp : string) (d : Disk) : option Disk :=
  match dk_dir d !! tmp with
  | Some _ => None
  | None =>
      if bool_decide (parent_path tmp ∈ dk_dirs d) && bool_decide (tmp ∉ dk_dirs d) then
        Some (mkDisk (<[i := ""]> (dk_data d)) (dk_stable d) (<[tmp := i]> (dk_dir d)) (dk_stable_dir d)
                (dk_pending d ++ [Link tmp i]) (dk_dirs d) (dk_unsynced d))
      else None
  end.

Definition sys_write (i : nat) (bytes : string) (d : Disk) : Disk :=
  mkDisk (<[i := default "" (dk_data d !! i) +:+ bytes]> (dk_data d)) (dk_stable d) (dk_dir d)
    (dk_stable_dir d) (dk_pending d) (dk_dirs d) (dk_unsynced d).

Definition sys_fsync (i : nat) (d : Disk) : option Disk :=
  Some (mkDisk (dk_data d) (<[i := default "" (dk_data d !! i)]> (dk_stable d)) (dk_dir d)
          (dk_stable_dir d) (dk_pending d) (dk_dirs d) (dk_unsynced d)).

Definition sys_rename (src dst : string) (d : Disk) : option Disk :=
  match dk_dir d !! src with
  | None => None
  | Some i =>
      if bool_decide (dst ∈ dk_dirs d) then None
      else
        Some (mkDisk (dk_data d) (dk_stable d) (apply_op (dk_dir d) (Rename src dst i)) (dk_stable_dir d)
                (dk_pending d ++ [Rename src dst i]) (dk_dirs d) (dk_unsynced d))
  end.

Definition sys_unlink (path : string) (d : Disk) : option Disk :=
  match dk_dir d !! path with
  | None => None
  | Some _ =>
      Some (mkDisk (dk_data d) (dk_stable d) (delete path (dk_dir d)) (dk_stable_dir d)
              (dk_pending d ++ [Unlink path]) (dk_dirs d) (dk_unsynced d))
  end.

Definition sys_rmdir (path : string) (d : Disk) : option Disk :=
  Some (mkDisk (dk_data d) (dk_stable d) (dk_dir d) (dk_stable_dir d) (dk_pending d) (dk_dirs d ∖ {[path]})
          (dk_unsynced d ∖ {[path]})).

(** [create_directories]: those that are missing on the way are made, and their
    entries are not synced. *)
Definition sys_mkdirs (path : string) (d : Disk) : option Disk :=
  let dirs := list_to_set (ancestors "" path) in
  Some (mkDisk (dk_data d) (dk_stable d) (dk_dir d) (dk_stable_dir d) (dk_pending d)
          (dk_dirs d ∪ dirs) (dk_unsynced d ∪ (dirs ∖ dk_dirs d))).

Definition op_directory (op : dirop) : string :=
  match op with Link p _ => parent_path p | Unlink p => parent_path p | Rename _ dst _ => parent_path dst end.

(** [fsync] of a directory: its pending changes reach stable storage, and so do
    the entries of the directories it holds; not its own entry, which is in the
    directory above it. *)
Definition sys_fsync_directory (directory : string) (d : Disk) : option Disk :=
  Some (mkDisk (dk_data d) (dk_stable d) (dk_dir d)
          (fold_left apply_op (List.filter (fun op => directory ==? op_directory op) (dk_pending d)) (dk_stable_dir d))
          (List.filter (fun op => directory <>? op_directory op) (dk_pending d)) (dk_dirs d)
          (filter (fun D => parent_path D <> directory) (dk_unsynced d))).

(** [open(p, O_DIRECTORY)]. *)
Definition sys_open_directory (directory : string) (d : Disk) : option Disk :=
  if bool_decide (directory ∈ dk_dirs d) then Some d else None.

Definition syncDirectory (directory : string) : M unit :=
  fd ← sys (sys_open_directory directory);
  _ ← io fd "open directory";
  r ← sys (sys_fsync_directory directory);
  io r "sync directory".

(** The loop [while (!value.empty())] of [atomicWrite]; one round more than
    there are planned results is enough, as for [random_loop]. *)
Fixpoint write_loop (fuel : nat) (i : nat) (value : string) : M unit :=
  if empty value then mret tt
  else
    match fuel with
    | O => throw_err apply_failed "write state"
    | S fuel' =>
        r ← next_result;
        match r with
        | Done => modify (fun m => set_disk (sys_write i value (mc_disk m)) m)
        | Interrupted => write_loop fuel' i value
        | Short (S n) =>
            _ ← modify (fun m => set_disk (sys_write i (str_take (S n) value) (mc_disk m)) m);
            write_loop fuel' i (str_drop (S n) value)
        | Short O => throw_err apply_failed "write state: "
        | Failed strerror => throw_err apply_failed ("write state: " +:+ strerror)
        end
    end.

(** A call of std::filesystem that throws [filesystem_error]. *)
Definition fs_call (f : Disk -> option Disk) : M unit :=
  r ← sys f;
  match r with None => mret tt | Some strerror => throw (StdException strerror) end.

Definition machine_create_directories (p : string) : M unit := fs_call (sys_mkdirs p).

Definition machine_permissions (p : string) : M unit := fs_call Some.

(** The file that [open] creates: an inode that nothing on the disk refers to. *)
Definition op_inodes (op : dirop) : list nat :=
  match op with Link _ i => [i] | Unlink _ => [] | Rename _ _ i => [i] end.

Definition inodes (d : Disk) : list nat :=
  map fst (map_to_list (dk_data d)) ++ map fst (map_to_list (dk_stable d)) ++
  map snd (map_to_list (dk_dir d)) ++ map snd (map_to_list (dk_stable_dir d)) ++
  List.concat (map op_inodes (dk_pending d)).

Definition fresh_inode (d : Disk) : nat := S (max_list (inodes d)).

Definition machine_atomicWrite (p value : string) : M unit :=
  _ ← machine_create_directories (parent_path p);
  id ← machine_randomId;
  let tmp := p +:+ "." +:+ id +:+ ".tmp" in
  i ← gets (fun m => fresh_inode (mc_disk m));
  fd ← sys (sys_create i tmp);
  _ ← io fd "create state file";
  try_catch
    (plan ← gets mc_plan;
     _ ← write_loop (S (length plan)) i value;
     r ← sys (sys_fsync i);
     _ ← io r "sync state";
     r ← sys (sys_rename tmp p);
     _ ← io r "replace state";
     syncDirectory (parent_path p))
    (fun e => _ ← sys (sys_unlink tmp); throw e).

Definition machine_file (m : Machine) (p : string) : option string :=
  dk_dir (mc_disk m) !! p ≫= fun i => dk_data (mc_disk m) !! i.

(** [fs::exists], which throws when the status cannot be found out. *)
Definition machine_exists (p : string) : M bool :=
  _ ← fs_call Some;
  gets (fun m => bool_decide (is_Some (dk_dir (mc_disk m) !! p)) || bool_decide (p ∈ dk_dirs (mc_disk m))).

(** The loop [while (f)] of [readFile]: [rest] is to come, [value] was read. The
    stream repeats short and interrupted reads; a block shorter than the buffer
    is the end of the file. One round more than the file has bytes is enough. *)
Fixpoint read_loop (fuel : nat) (p : string) (limit : Z) (value rest : string) : M string :=
  match fuel with
  | O => throw_err unavailable ("cannot finish reading " +:+ p)
  | S fuel' =>
      r ← next_result;
      match r with
      | Failed _ => throw_err unavailable ("cannot finish reading " +:+ p)
      | _ =>
          let value' := value +:+ str_take 4096 rest in
          if limit <? size_of value' then throw_err invalid_argument "file too large"
          else if size_of rest <? 4096 then mret value'
          else read_loop fuel' p limit value' (str_drop 4096 rest)
      end
  end.

Definition machine_readFile (p : string) (limit : Z) : M string :=
  r ← sys Some;
  match r with
  | Some _ => throw_err unavailable ("cannot read " +:+ p)
  | None =>
      content ← gets (fun m => machine_file m p);
      match content with
      | None => throw_err unavailable ("cannot read " +:+ p)
      | Some c => read_loop (S (String.length c)) p limit "" c
      end
  end.

(** [fs::remove_all]: the names at or below [p], one [unlink] or [rmdir] each. *)
Definition names_under (p : string) (d : Disk) : list string :=
  List.filter (under p) (map fst (map_to_list (dk_dir d))).

Definition dirs_under (p : string) (d : Disk) : list string :=
  List.filter (under p) (elements (dk_dirs d)).

Definition machine_remove_all (p : string) : M unit :=
  names ← gets (fun m => names_under p (mc_disk m));
  _ ← for_each (fun q => fs_call (sys_unlink q)) names;
  dirs ← gets (fun m => dirs_under p (mc_disk m));
  for_each (fun q => fs_call (sys_rmdir q)) dirs.

Definition machine_durableRemove (p : string) : M unit :=
  _ ← machine_remove_all p;
  found ← machine_exists (parent_path p);
  when found (syncDirectory (parent_path p)).

(** ** Reasoning about system calls *)

(** [m'] has the disk of [m]: only planned results were used up. *)
Definition same_disk (m m' : Machine) : Prop :=
  mc_disk m' = mc_disk m /\ mc_history m' = mc_history m.

Lemma same_disk_refl m : same_disk m m.
Proof. done. Qed.

Lemma same_disk_trans m1 m2 m3 : same_disk m1 m2 -> same_disk m2 m3 -> same_disk m1 m3.
Proof. unfold same_disk. intros [-> ->] [-> ->]. done. Qed.

#[export] Hint Resolve same_disk_refl : mnc.

Lemma wp_next_result Q E m :
  (forall r m', same_disk m m' -> Q r m') -> wp next_result Q E m.
Proof. unfold wp, next_result. intros H. destruct (mc_plan m); by apply H. Qed.

(** A system call fails and leaves the disk, or has its effect, which is recorded
    in the history. *)
Lemma wp_sys f Q E m :
  (forall strerror m', same_disk m m' -> Q (Some strerror) m') ->
  (forall m' d, f (mc_disk m) = Some d -> mc_disk m' = d -> mc_history m' = d :: mc_history m -> Q None m') ->
  wp (sys f) Q E m.
Proof.
  intros Hfail Hdone. unfold sys. rewrite wp_bind. apply wp_next_result. intros r m' [Hd Hh].
  destruct r; wp_steps; try (by apply Hfail).
  rewrite Hd. destruct (f (mc_disk m)) as [d|] eqn:E'; wp_steps; [|by apply Hfail].
  apply (Hdone _ d); [done | done|]. cbn. by rewrite Hh.
Qed.

Lemma wp_io r what Q E m :
  (r = None -> Q tt m) -> (forall e, r <> None -> E e m) -> wp (io r what) Q E m.
Proof. intros H1 H2. destruct r; simpl; [by apply H2 | by apply H1]. Qed.

Lemma wp_fs_call f Q E m :
  (forall e m', same_disk m m' -> E e m') ->
  (forall m' d, f (mc_disk m) = Some d -> mc_disk m' = d -> mc_history m' = d :: mc_history m -> Q tt m') ->
  wp (fs_call f) Q E m.
Proof.
  intros H1 H2. unfold fs_call. rewrite wp_bind. apply wp_sys.
  - intros s m' Hs. rewrite wp_throw. by apply H1.
  - intros m' d Hf Hd Hh. rewrite wp_ret. by apply (H2 m' d).
Qed.

Lemma wp_take_entropy n Q E m :
  (forall bytes m', same_disk m m' -> Q bytes m') -> wp (take_entropy n) Q E m.
Proof. intros H. unfold wp, take_entropy. by apply H. Qed.

Lemma wp_random_loop fuel need m :
  wp (random_loop fuel need) (fun _ => same_disk m) (fun _ => same_disk m) m.
Proof.
  revert need m. induction fuel as [|fuel IH]; intros [|need] m; try (by split).
  cbn [random_loop]. rewrite wp_bind. apply wp_next_result. intros r m1 H1. destruct r as [|[|n]| |s].
  - apply wp_take_entropy. intros _ m2. by apply same_disk_trans.
  - done.
  - rewrite wp_bind. apply wp_take_entropy. intros bytes m2 H2. rewrite wp_bind.
    eapply wp_mono; [apply IH | |]; [|intros e m3 H3; eauto using same_disk_trans].
    intros rest m3 H3. rewrite wp_ret. eauto using same_disk_trans.
  - eapply wp_mono; [apply IH | |]; eauto using same_disk_trans.
  - done.
Qed.

Lemma wp_randomId m :
  wp machine_randomId (fun _ => same_disk m) (fun _ => same_disk m) m.
Proof.
  unfold machine_randomId. rewrite wp_bind, wp_gets, wp_bind.
  eapply wp_mono; [apply wp_random_loop | by intros | done].
Qed.

(** Enough fuel: each round of [write_loop] uses up a planned result or ends it. *)
Lemma write_loop_fuel fuel i value m :
  (length (mc_plan m) < fuel)%nat -> write_loop fuel i value m = write_loop (S (length (mc_plan m))) i value m.
Proof.
  revert value m. induction fuel as [|fuel IH]; intros value m Hf; [lia|].
  cbn [write_loop]. destruct (empty value); [done|]. unfold mbind, eff_bind, next_result.
  destruct (mc_plan m) as [|r plan] eqn:E; [done|]. cbn [length] in *.
  destruct r as [|[|n]| |s]; try done.
  - cbn. rewrite (IH _ (set_disk _ _)) by (cbn; lia). done.
  - rewrite IH by (cbn; lia). done.
Qed.

(** ** The proof rule of [atomicWrite]

    One predicate per stage of the function; each stage's system call takes the
    disk from one to the next, and all of them imply what is claimed of the
    history, that is, of the disk at every moment at which the power may fail. *)
Section atomic_write_rule.
Context (p v : string).
Context (H0 : Disk -> Prop).                                   (* at every moment *)
Context (A0 B0 : Disk -> Prop).                                (* before; its directory is made *)
Context (A1 : nat -> string -> string -> Disk -> Prop).        (* created, part written *)
Context (A2 A3 : nat -> string -> Disk -> Prop).               (* synced; renamed *)
Context (A4 : Disk -> Prop).                                   (* directory synced *)
Context (X : Disk -> Prop).                                    (* after a failure *)

Definition temporary (tmp : string) : Prop := exists id, tmp = p +:+ "." +:+ id +:+ ".tmp".

Context (H_A0 : forall d, A0 d -> H0 d) (H_B0 : forall d, B0 d -> H0 d) (H_A1 : forall i tmp w d, A1 i tmp w d -> H0 d).
Context (H_A2 : forall i tmp d, A2 i tmp d -> H0 d) (H_A3 : forall i tmp d, A3 i tmp d -> H0 d).
Context (H_A4 : forall d, A4 d -> H0 d) (H_X : forall d, X d -> H0 d).
Context (step_mkdirs : forall d d', A0 d -> sys_mkdirs (parent_path p) d = Some d' -> B0 d').
Context (step_create : forall i tmp d d', temporary tmp -> B0 d -> i = fresh_inode d ->
  sys_create i tmp d = Some d' -> A1 i tmp "" d').
Context (step_write : forall i tmp w bytes d, temporary tmp -> A1 i tmp w d -> A1 i tmp (w +:+ bytes) (sys_write i bytes d)).
Context (step_fsync : forall i tmp d d', temporary tmp -> A1 i tmp v d -> sys_fsync i d = Some d' -> A2 i tmp d').
Context (step_rename : forall i tmp d d', temporary tmp -> A2 i tmp d -> sys_rename tmp p d = Some d' -> A3 i tmp d').
Context (step_sync : forall i tmp d d', temporary tmp -> A3 i tmp d ->
  sys_fsync_directory (parent_path p) d = Some d' -> A4 d').
Context (fail_0 : forall d, A0 d -> X d) (fail_made : forall d, B0 d -> X d) (fail_1 : forall i tmp w d, temporary tmp -> A1 i tmp w d -> X d).
Context (fail_2 : forall i tmp d, temporary tmp -> A2 i tmp d -> X d) (fail_3 : forall i tmp d, temporary tmp -> A3 i tmp d -> X d).
Context (step_unlink : forall tmp d d', temporary tmp -> X d -> sys_unlink tmp d = Some d' -> X d').

Definition at_stage (P : Disk -> Prop) (m : Machine) : Prop := P (mc_disk m) /\ Forall H0 (mc_history m).

Lemma at_stage_same P m m' : at_stage P m -> same_disk m m' -> at_stage P m'.
Proof. unfold at_stage. by intros [? ?] [-> ->]. Qed.

Lemma at_stage_step (P P' : Disk -> Prop) m m' d :
  at_stage P m -> (forall d, P' d -> H0 d) -> (P (mc_disk m) -> P' d) ->
  mc_disk m' = d -> mc_history m' = d :: mc_history m -> at_stage P' m'.
Proof. intros [HP Hh] HH Hs <- Hm. split; [auto|]. rewrite Hm. constructor; auto. Qed.

Lemma at_stage_weaken (P P' : Disk -> Prop) m : at_stage P m -> (forall d, P d -> P' d) -> at_stage P' m.
Proof. intros [? ?] HP. split; auto. Qed.

Lemma wp_stage f (P P' : Disk -> Prop) what m :
  at_stage P m -> (forall d, P' d -> H0 d) -> (forall d d', P d -> f d = Some d' -> P' d') ->
  wp (r ← sys f; io r what) (fun _ => at_stage P') (fun _ => at_stage P) m.
Proof.
  intros HP HH Hs. rewrite wp_bind. apply wp_sys.
  - intros s m' Hsame. apply wp_io; [done|]. intros e _. by eapply at_stage_same.
  - intros m' d Hf Hd Hh. apply wp_io; [|done]. intros _. apply (at_stage_step P P' m m' d); eauto.
Qed.

Lemma wp_write_loop fuel i tmp w rest m :
  temporary tmp -> at_stage (A1 i tmp w) m ->
  wp (write_loop fuel i rest) (fun _ => at_stage (A1 i tmp (w +:+ rest)))
     (fun _ m' => exists w', at_stage (A1 i tmp w') m') m.
Proof.
  intros Ht. revert w rest m. induction fuel as [|fuel IH]; intros w rest m HA; cbn [write_loop].
  - destruct (empty rest) eqn:E; [apply empty_spec in E as -> | by exists w].
    rewrite str_app_nil_r. done.
  - destruct (empty rest) eqn:E; [apply empty_spec in E as ->; by rewrite str_app_nil_r|].
    rewrite wp_bind. apply wp_next_result. intros r m1 H1.
    pose proof (at_stage_same _ _ _ HA H1) as HA1.
    assert (Hwrite : forall bytes, at_stage (A1 i tmp (w +:+ bytes)) (set_disk (sys_write i bytes (mc_disk m1)) m1)).
    { intros bytes. eapply (at_stage_step _ _ m1); [exact HA1 | apply H_A1 | by apply step_write | done | done]. }
    destruct r as [|[|n]| |s]; [apply Hwrite | by exists w | | by apply IH | by exists w].
    rewrite wp_bind, wp_modify. replace (w +:+ rest) with ((w +:+ str_take (S n) rest) +:+ str_drop (S n) rest)
      by (by rewrite str_app_assoc, str_take_drop). apply IH. apply Hwrite.
Qed.

Lemma atomicWrite_rule m :
  at_stage A0 m ->
  wp (machine_atomicWrite p v) (fun _ => at_stage A4) (fun _ => at_stage X) m.
Proof.
  intros HA. unfold machine_atomicWrite, machine_create_directories.
  rewrite wp_bind. apply wp_fs_call.
  { intros e m' Hs. eapply at_stage_weaken; [by eapply at_stage_same | apply fail_0]. }
  intros m1 d1 Hf1 Hd1 Hh1.
  assert (HA1 : at_stage B0 m1) by (apply (at_stage_step A0 B0 m m1 d1); eauto). clear HA Hf1 Hd1 Hh1 m d1.
  rewrite wp_bind. eapply wp_mono; [apply wp_randomId| |].
  2:{ intros e m' Hs. eapply at_stage_weaken; [by eapply at_stage_same | apply fail_made]. }
  intros id m2 Hs. pose proof (at_stage_same _ _ _ HA1 Hs) as HA2. clear HA1 Hs m1.
  assert (Ht : temporary (p +:+ "." +:+ id +:+ ".tmp")) by (by exists id).
  cbv zeta. set (tmp := p +:+ "." +:+ id +:+ ".tmp") in *. clearbody tmp.
  rewrite wp_bind, wp_gets. set (i := fresh_inode (mc_disk m2)).
  rewrite wp_bind. apply wp_sys.
  { intros s m' Hs. rewrite wp_bind. apply wp_io; [done|]. intros e _.
    eapply at_stage_weaken; [by eapply at_stage_same | apply fail_made]. }
  intros m3 d3 Hf3 Hd3 Hh3. rewrite wp_bind. apply wp_io; [|done]. intros _.
  assert (HA3 : at_stage (A1 i tmp "") m3) by (apply (at_stage_step B0 _ m2 m3 d3); eauto). clear HA2 Hf3 Hd3 Hh3.
  assert (Hcleanup : forall e m', at_stage X m' ->
    wp (_ ← sys (sys_unlink tmp); throw e : M unit) (fun _ => at_stage A4) (fun _ => at_stage X) m').
  { intros e m' HX. rewrite wp_bind. apply wp_sys.
    - intros s m'' Hs. rewrite wp_throw. by eapply at_stage_same.
    - intros m'' d Hf Hd Hh. rewrite wp_throw. apply (at_stage_step X X m' m'' d); eauto. }
  clearbody i. rewrite wp_try, wp_bind, wp_gets, wp_bind.
  eapply wp_mono; [apply (wp_write_loop _ i tmp ""); done| |].
  2:{ intros e m' [w' Hw]. apply Hcleanup. eapply at_stage_weaken; [exact Hw | eauto]. }
  cbn [String.append]. intros _ m4 HA4.
  assert (Hbind : forall f what (P P' : Disk -> Prop) (k : M unit) m, at_stage P m -> (forall d, P' d -> H0 d) ->
    (forall d d', P d -> f d = Some d' -> P' d') -> (forall d, P d -> X d) ->
    (forall m', at_stage P' m' -> wp k (fun _ => at_stage A4) (fun _ => at_stage X) m') ->
    wp (r ← sys f; _ ← io r what; k) (fun _ => at_stage A4) (fun _ => at_stage X) m).
  { intros f what P P' k m HP HH Hs HX Hk. rewrite wp_bind.
    pose proof (wp_stage f P P' what m HP HH Hs) as Hw. rewrite wp_bind in Hw.
    eapply wp_mono; [exact Hw | | intros e m' H'; eapply at_stage_weaken; [exact H' | exact HX]].
    intros r m' H'. rewrite wp_bind. eapply wp_mono; [exact H' | intros [] m'' H''; by apply Hk |].
    intros e m'' H''. eapply at_stage_weaken; [exact H'' | exact HX]. }
  eapply (wp_mono _ (fun _ => at_stage A4) _ (fun _ => at_stage X));
    [ | done | intros e m' HX; exact (Hcleanup e m' HX)].
  eapply Hbind; [exact HA4 | apply (H_A2 i tmp) | eauto | eauto |]. intros m5 HA5.
  eapply Hbind; [exact HA5 | apply (H_A3 i tmp) | eauto | eauto |]. intros m6 HA6.
  unfold syncDirectory.
  eapply (Hbind _ _ _ (A3 i tmp)); [exact HA6 | eauto | | eauto |].
  { unfold sys_open_directory. intros d d' Hd. by case_bool_decide; intros [= <-]. }
  intros m7 HA7. pose proof (wp_stage (sys_fsync_directory (parent_path p)) (A3 i tmp) A4 "sync directory" m7 HA7 H_A4) as Hw.
  eapply wp_mono; [apply Hw; eauto | done | ]. intros e m' H'. eapply at_stage_weaken; [exact H' | eauto].
Qed.

End atomic_write_rule.

Lemma fresh_inode_spec d i : i ∈ inodes d -> i <> fresh_inode d.
Proof. intros H%max_list_elem_of_le. unfold fresh_inode. lia. Qed.

Lemma fresh_dir d q : dk_dir d !! q <> Some (fresh_inode d).
Proof.
  intros H. apply (fresh_inode_spec d (fresh_inode d)); [|done]. unfold inodes. rewrite !elem_of_app.
  right; right; left. apply list_elem_of_fmap. exists (q, fresh_inode d). by rewrite elem_of_map_to_list.
Qed.

Lemma fresh_stable_dir d q : dk_stable_dir d !! q <> Some (fresh_inode d).
Proof.
  intros H. apply (fresh_inode_spec d (fresh_inode d)); [|done]. unfold inodes. rewrite !elem_of_app.
  do 3 right; left. apply list_elem_of_fmap. exists (q, fresh_inode d). by rewrite elem_of_map_to_list.
Qed.

Lemma temporary_not_self p tmp : temporary p tmp -> tmp <> p.
Proof.
  intros [id ->] H. apply (f_equal String.length) in H. rewrite !str_length_app in H. cbn in H. lia.
Qed.

Lemma starts_with_app a b : starts_with a (a +:+ b) = true.
Proof. induction a as [|c a IH]; [by destruct b|]. cbn. by destruct (ascii_dec c c). Qed.

Lemma temporary_not_apart p tmp : temporary p tmp -> ~ apart p tmp.
Proof.
  intros [id ->] [_ H]. rewrite <-str_app_assoc in H. by rewrite starts_with_app in H.
Qed.

#[export] Hint Resolve temporary_not_self temporary_not_apart : mnc.

(** ** What processes see of [atomicWrite] *)
Section visible.
Context (p v : string) (d0 : Disk).

Definition seen (d : Disk) (q : string) : option string := dk_dir d !! q ≫= fun i => dk_data d !! i.

Definition v_start (d : Disk) : Prop := dk_dir d = dk_dir d0 /\ dk_data d = dk_data d0.

Definition v_made (i : nat) (tmp w : string) (d : Disk) : Prop :=
  dk_dir d = <[tmp := i]> (dk_dir d0) /\ dk_data d = <[i := w]> (dk_data d0) /\
  forall q, dk_dir d0 !! q <> Some i.

Definition v_moved (i : nat) (tmp : string) (d : Disk) : Prop :=
  dk_dir d = <[p := i]> (delete tmp (dk_dir d0)) /\ dk_data d = <[i := v]> (dk_data d0) /\
  forall q, dk_dir d0 !! q <> Some i.

Definition v_done (d : Disk) : Prop :=
  (forall q, apart p q -> seen d q = seen d0 q) /\ seen d p = Some v.

Definition v_failed (d : Disk) : Prop :=
  (forall q, apart p q -> seen d q = seen d0 q) /\ (seen d p = seen d0 p \/ seen d p = Some v).

Lemma seen_other i w q :
  (forall q, dk_dir d0 !! q <> Some i) ->
  (dk_dir d0 !! q ≫= fun j => <[i := w]> (dk_data d0) !! j) = seen d0 q.
Proof.
  intros Hi. unfold seen. destruct (dk_dir d0 !! q) as [j|] eqn:E; [|done]. cbn.
  apply lookup_insert_ne. intros ->. by apply (Hi q).
Qed.

Lemma seen_made i tmp w d q : q <> tmp -> v_made i tmp w d -> seen d q = seen d0 q.
Proof.
  intros Hq (Hd & Hdata & Hi). unfold seen at 1. rewrite Hd, Hdata, lookup_insert_ne by done.
  by apply seen_other.
Qed.

Lemma seen_moved i tmp d q :
  q <> p -> q <> tmp -> v_moved i tmp d -> seen d q = seen d0 q.
Proof.
  intros Hq Ht (Hd & Hdata & Hi). unfold seen at 1.
  rewrite Hd, Hdata, lookup_insert_ne, lookup_delete_ne by done. by apply seen_other.
Qed.

Lemma moved_done i tmp d : temporary p tmp -> v_moved i tmp d -> v_done d.
Proof.
  intros Ht Hm. split.
  - intros q Hq. apply (seen_moved i tmp); [apply Hq | | done]. intros ->. by eapply temporary_not_apart.
  - destruct Hm as (Hd & Hdata & _). unfold seen. rewrite Hd, Hdata, lookup_insert_eq. cbn.
    apply lookup_insert_eq.
Qed.

Lemma made_failed i tmp w d : temporary p tmp -> v_made i tmp w d -> v_failed d.
Proof.
  intros Ht Hm. split.
  - intros q Hq. eapply seen_made; [|exact Hm]. intros ->. by eapply temporary_not_apart.
  - left. eapply seen_made; [|exact Hm]. by apply not_eq_sym, temporary_not_self.
Qed.

Lemma unlink_failed tmp d d' : temporary p tmp -> v_failed d -> sys_unlink tmp d = Some d' -> v_failed d'.
Proof.
  intros Ht [Hf Hp]. unfold sys_unlink. destruct (dk_dir d !! tmp); intros [= <-].
  assert (Hs : forall q, q <> tmp -> seen (mkDisk (dk_data d) (dk_stable d) (delete tmp (dk_dir d))
    (dk_stable_dir d) (dk_pending d ++ [Unlink tmp]) (dk_dirs d) (dk_unsynced d)) q = seen d q).
  { intros q Hq. unfold seen. cbn. by rewrite lookup_delete_ne. }
  split.
  - intros q Hq. rewrite Hs; [by apply Hf|]. intros ->. by eapply temporary_not_apart.
  - rewrite Hs; [done|]. by apply not_eq_sym, temporary_not_self.
Qed.

Lemma atomicWrite_visible m :
  mc_disk m = d0 ->
  wp (machine_atomicWrite p v) (fun _ m' => v_done (mc_disk m')) (fun _ m' => v_failed (mc_disk m')) m.
Proof.
  intros Hm. eapply wp_mono; [apply (atomicWrite_rule p v (fun _ => True) v_start v_start v_made
    (fun i tmp => v_made i tmp v) v_moved v_done v_failed); try done | | ].
  - by intros d d' Hd [= <-].
  - intros i tmp d d' Ht [H1 H2] -> Hc. unfold sys_create in Hc.
    destruct (dk_dir d !! tmp); [done|]. case_match; [|done]. injection Hc as <-.
    split_and!; cbn; [by rewrite H1 | by rewrite H2 |]. rewrite <-H1. apply fresh_dir.
  - intros i tmp w bytes d Ht (H1 & H2 & H3). split_and!; cbn; [done | | done].
    by rewrite H2, lookup_insert_eq, insert_insert_eq.
  - by intros i tmp d d' Ht Hm' [= <-].
  - intros i tmp d d' Ht (H1 & H2 & H3) Hr. unfold sys_rename in Hr. rewrite H1, lookup_insert_eq in Hr.
    case_bool_decide; [done|]. injection Hr as <-. split_and!; cbn; [|done|done].
    by rewrite delete_insert_eq.
  - intros i tmp d d' Ht Hd [= <-]. eapply (moved_done i tmp); [done | exact Hd].
  - intros d [H1 H2]. split; [|left]; intros; unfold seen; by rewrite H1, H2.
  - intros d [H1 H2]. split; [|left]; intros; unfold seen; by rewrite H1, H2.
  - apply made_failed.
  - apply (fun i tmp => made_failed i tmp v).
  - intros i tmp d Ht Hd. destruct (moved_done _ _ _ Ht Hd). split; auto.
  - apply unlink_failed.
  - unfold at_stage, v_start. rewrite Hm. by split; [split | apply Forall_true].
  - by intros [] m' [? _].
  - by intros e m' [? _].
Qed.

End visible.

(** ** What survives a power loss *)

(** [op] changes the name [p]. *)
Definition touches (p : string) (op : dirop) : Prop :=
  match op with Link q _ => q = p | Unlink q => q = p | Rename src dst _ => src = p \/ dst = p end.

Definition quiet (p : string) (d : Disk) : Prop := Forall (fun op => ~ touches p op) (dk_pending d).

(** The contents of [p] on stable storage, when they are there in full. *)
Definition durable (p : string) (d : Disk) (c : option string) : Prop :=
  match dk_stable_dir d !! p with
  | None => c = None
  | Some i => exists s, dk_stable d !! i = Some s /\ c = Some s
  end.

(** [p] is at rest: nothing about it is pending and its contents are synced. *)
Definition at_rest (p : string) (d : Disk) (c : option string) : Prop := quiet p d /\ durable p d c.

(** The directories above [p] are there, with their entries on stable storage. *)
Definition grounded (p : string) (d : Disk) : Prop :=
  Forall (fun D => D ∈ dk_dirs d /\ D ∉ dk_unsynced d) (way p).

Lemma grounded_not_lost p d lost : grounded p d -> lost ⊆ dk_unsynced d -> is_lost lost p = false.
Proof.
  intros Hg Hl. apply not_true_is_false. intros H. apply existsb_exists in H as (D & HD & Hin).
  apply bool_decide_eq_true in Hin. unfold grounded in Hg. rewrite Forall_forall in Hg.
  apply list_elem_of_In in HD. destruct (Hg D HD) as [_ Hn]. set_solver.
Qed.

Lemma grounded_mkdirs p d d' : grounded p d -> sys_mkdirs (parent_path p) d = Some d' -> grounded p d'.
Proof.
  intros Hg [= <-]. unfold grounded in *. rewrite Forall_forall in *. intros D HD. destruct (Hg D HD). cbn. set_solver.
Qed.

Lemma grounded_sync p D d d' : grounded p d -> sys_fsync_directory D d = Some d' -> grounded p d'.
Proof.
  intros Hg [= <-]. unfold grounded in *. rewrite Forall_forall in *. intros E HE. destruct (Hg E HE). cbn. set_solver.
Qed.

Lemma apply_op_untouched p dir op : ~ touches p op -> apply_op dir op !! p = dir !! p.
Proof.
  destruct op; cbn; intros H.
  - by apply lookup_insert_ne.
  - by apply lookup_delete_ne.
  - rewrite lookup_insert_ne, lookup_delete_ne; tauto.
Qed.

Lemma apply_ops_untouched p ops dir :
  Forall (fun op => ~ touches p op) ops -> fold_left apply_op ops dir !! p = dir !! p.
Proof.
  revert dir. induction ops as [|op ops IH]; intros dir H; [done|].
  apply Forall_cons in H as [H1 H2]. cbn. by rewrite IH, apply_op_untouched.
Qed.

Section crash.
Context (p v : string) (old : option string) (kept : Prop).

(** The directories above [p] are in place, when they were in the beginning. *)
Definition held (d : Disk) : Prop := kept -> grounded p d.

(** A pending change of [p] puts a fully synced file with the contents [v] there. *)
Definition replaces (d : Disk) (op : dirop) : Prop :=
  touches p op -> exists src i, op = Rename src p i /\ src <> p /\ dk_stable d !! i = Some v.

(** In [d] a power loss leaves the old contents or the new ones. *)
Definition guarded (d : Disk) : Prop :=
  Forall (replaces d) (dk_pending d) /\ (durable p d old \/ durable p d (Some v)) /\ held d.

Lemma apply_ops_guarded d ops dir :
  Forall (replaces d) ops ->
  fold_left apply_op ops dir !! p = dir !! p \/
  exists i, fold_left apply_op ops dir !! p = Some i /\ dk_stable d !! i = Some v.
Proof.
  revert dir. induction ops as [|op ops IH]; intros dir H; [by left|].
  apply Forall_cons in H as [H1 H2]. cbn. destruct (IH (apply_op dir op) H2) as [->|?]; [|by right].
  destruct (decide (apply_op dir op !! p = dir !! p)) as [|Hne]; [by left|]. right.
  destruct H1 as (src & i & -> & Hsrc & Hi).
  { destruct op as [q ?|q|src dst ?]; cbn in *.
    - destruct (decide (q = p)); [done|]. by rewrite lookup_insert_ne in Hne.
    - destruct (decide (q = p)); [done|]. by rewrite lookup_delete_ne in Hne.
    - destruct (decide (src = p)); [by left|]. destruct (decide (dst = p)); [by right|].
      by rewrite lookup_insert_ne, lookup_delete_ne in Hne. }
  exists i. cbn. by rewrite lookup_insert_eq.
Qed.

Lemma survives_lookup d (files : gmap string string) ops c :
  match fold_left apply_op ops (dk_stable_dir d) !! p with
  | None => files !! p = None
  | Some i => forall c, dk_stable d !! i = Some c -> files !! p = Some c
  end ->
  fold_left apply_op ops (dk_stable_dir d) !! p = dk_stable_dir d !! p ->
  durable p d c -> files !! p = c.
Proof.
  intros Hf He Hd. rewrite He in Hf. unfold durable in Hd.
  destruct (dk_stable_dir d !! p); [|by subst]. destruct Hd as (s & Hs & ->). by apply Hf.
Qed.

Lemma guarded_survives d (files : gmap string string) :
  (old = None \/ kept) -> guarded d -> survives d files -> files !! p = old \/ files !! p = Some v.
Proof.
  intros Hk (Hops & Hd & Hg) (ops & lost & Hsub & Hl & Hf). specialize (Hf p). cbv zeta in Hf.
  destruct (is_lost lost p) eqn:El.
  { destruct Hk as [->|Hk]; [by left|]. by rewrite (grounded_not_lost p d lost (Hg Hk) Hl) in El. }
  assert (Hops' : Forall (replaces d) ops) by (by eapply Forall_sublist).
  destruct (apply_ops_guarded d ops (dk_stable_dir d) Hops') as [He|(i & He & Hi)].
  - destruct Hd; [left|right]; by eapply survives_lookup.
  - right. rewrite He in Hf. by apply Hf.
Qed.

Lemma at_rest_survives d c (files : gmap string string) :
  at_rest p d c -> (c = None \/ grounded p d) -> survives d files -> files !! p = c.
Proof.
  intros [Hq Hd] Hg (ops & lost & Hsub & Hl & Hf). specialize (Hf p). cbv zeta in Hf.
  destruct (is_lost lost p) eqn:El.
  { destruct Hg as [->|Hg]; [done|]. by rewrite (grounded_not_lost p d lost Hg Hl) in El. }
  eapply survives_lookup; [exact Hf | | done].
  apply apply_ops_untouched. by eapply Forall_sublist.
Qed.

Lemma at_rest_guarded d c : at_rest p d c -> held d -> (c = old \/ c = Some v) -> guarded d.
Proof.
  intros [Hq Hd] Hg Hc. split; [|split; [destruct Hc; subst; auto | done]].
  eapply Forall_impl; [exact Hq|]. intros op Hop H. done.
Qed.

(** The stages of [atomicWrite]. *)
Definition c_rest (c : option string) (d : Disk) : Prop := at_rest p d c /\ held d.

Definition c_made (i : nat) (tmp w : string) (d : Disk) : Prop :=
  c_rest old d /\ dk_stable_dir d !! p <> Some i /\ dk_data d !! i = Some w /\ dk_dir d !! tmp = Some i.

Definition c_synced (i : nat) (tmp : string) (d : Disk) : Prop :=
  c_rest old d /\ dk_stable d !! i = Some v /\ dk_dir d !! tmp = Some i.

Definition c_moved (i : nat) (tmp : string) (d : Disk) : Prop :=
  exists l, dk_pending d = l ++ [Rename tmp p i] /\ Forall (fun op => ~ touches p op) l /\
    dk_stable d !! i = Some v /\ durable p d old /\ held d.

Lemma moved_guarded i tmp d : temporary p tmp -> c_moved i tmp d -> guarded d.
Proof.
  intros Ht (l & Hl & Hq & Hi & Hd & Hg). split; [|split; [by left | done]]. rewrite Hl. apply Forall_app. split.
  - eapply Forall_impl; [exact Hq|]. intros op Hop H. done.
  - apply Forall_singleton. intros _. exists tmp, i. eauto with mnc.
Qed.

Lemma quiet_snoc d op : quiet p d -> ~ touches p op -> Forall (fun op => ~ touches p op) (dk_pending d ++ [op]).
Proof. intros. apply Forall_app. split; [done|]. by apply Forall_singleton. Qed.

Lemma unlink_guarded tmp d d' : temporary p tmp -> guarded d -> sys_unlink tmp d = Some d' -> guarded d'.
Proof.
  intros Ht (Hops & Hd & Hg). unfold sys_unlink. destruct (dk_dir d !! tmp); intros [= <-].
  split; [|exact (conj Hd Hg)]. cbn. apply Forall_app. split; [exact Hops|]. apply Forall_singleton.
  intros H. cbn in H. by apply temporary_not_self in Ht.
Qed.

Lemma sync_moved i tmp d d' :
  temporary p tmp -> c_moved i tmp d -> sys_fsync_directory (parent_path p) d = Some d' -> c_rest (Some v) d'.
Proof.
  intros Ht (l & Hl & Hq & Hi & Hd & Hg) Hs. split; [|intros Hk; eapply grounded_sync; [exact (Hg Hk) | exact Hs]].
  injection Hs as <-. unfold at_rest, quiet, durable. cbn.
  rewrite Hl, !List.filter_app. cbn. rewrite (bool_decide_eq_true_2 (parent_path p = parent_path p)) by done. cbn.
  rewrite app_nil_r, fold_left_app. cbn. split.
  - apply Forall_forall. intros op [Hop _]%list_elem_of_In%List.filter_In.
    rewrite Forall_forall in Hq. by apply Hq, list_elem_of_In.
  - rewrite lookup_insert_eq. eauto.
Qed.

(** At every moment of [atomicWrite] a power loss leaves the old or the new
    contents, in full; once it has returned, the new ones. *)
Lemma atomicWrite_durable m :
  c_rest old (mc_disk m) -> Forall guarded (mc_history m) ->
  wp (machine_atomicWrite p v)
     (fun _ m' => c_rest (Some v) (mc_disk m') /\ Forall guarded (mc_history m'))
     (fun _ m' => guarded (mc_disk m') /\ Forall guarded (mc_history m')) m.
Proof.
  intros Hm Hh.
  assert (Hrest : forall d, c_rest old d -> guarded d) by (intros d []; eapply at_rest_guarded; eauto).
  apply (atomicWrite_rule p v guarded (c_rest old) (c_rest old) c_made c_synced
    (fun i tmp d => temporary p tmp /\ c_moved i tmp d) (c_rest (Some v)) guarded); try done.
  - intros i tmp w d [? _]. auto.
  - intros i tmp d [? _]. auto.
  - intros i tmp d [Ht Hd]. by eapply moved_guarded.
  - intros d []. eapply at_rest_guarded; eauto.
  - intros d d' [Hd Hg] Hs. split; [by injection Hs as <-|]. intros Hk. eapply grounded_mkdirs; [exact (Hg Hk) | exact Hs].
  - intros i tmp d d' Ht [[Hq Hd] Hg] -> Hc. unfold sys_create in Hc.
    destruct (dk_dir d !! tmp); [done|]. case_match; [|done]. injection Hc as <-.
    split_and!; cbn; [|apply fresh_stable_dir | by rewrite lookup_insert_eq | by rewrite lookup_insert_eq].
    split; [|exact Hg]. split; [|exact Hd]. apply quiet_snoc; [done|]. by apply temporary_not_self.
  - intros i tmp w bytes d Ht (H1 & H2 & H3 & H4). split_and!; [exact H1 | done | | done].
    cbn. by rewrite H3, lookup_insert_eq.
  - intros i tmp d d' Ht ([[Hq Hd] Hg] & H2 & H3 & H4) [= <-]. split_and!; cbn; [| |done].
    + split; [|exact Hg]. split; [exact Hq|]. unfold durable in *. cbn. destruct (dk_stable_dir d !! p) as [j|]; [|done].
      rewrite lookup_insert_ne; [done|]. congruence.
    + by rewrite H3, lookup_insert_eq.
  - intros i tmp d d' Ht ([[Hq Hd] Hg] & H3 & H4) Hr. unfold sys_rename in Hr. rewrite H4 in Hr.
    case_bool_decide; [done|]. injection Hr as <-. split; [done|]. exists (dk_pending d). done.
  - intros i tmp d d' Ht [_ Hd]. by apply (sync_moved i tmp).
  - intros i tmp w d Ht [? _]. auto.
  - intros i tmp d Ht [? _]. auto.
  - intros i tmp d Ht [_ Hd]. by eapply moved_guarded.
  - apply unlink_guarded.
Qed.

End crash.

(** ** Reading and removing *)

Lemma wp_read_loop fuel p limit value rest m :
  wp (read_loop fuel p limit value rest)
     (fun c m' => same_disk m m' /\ c = value +:+ rest /\ size_of c <= limit) (fun _ m' => same_disk m m') m.
Proof.
  revert value rest m. induction fuel as [|fuel IH]; intros value rest m; [done|].
  cbn [read_loop]. rewrite wp_bind. apply wp_next_result. intros r m1 H1.
  assert (Hround : wp
    (let value' := value +:+ str_take 4096 rest in
     if limit <? size_of value' then throw_err invalid_argument "file too large"
     else if size_of rest <? 4096 then mret value'
     else read_loop fuel p limit value' (str_drop 4096 rest))
    (fun c m' => same_disk m m' /\ c = value +:+ rest /\ size_of c <= limit) (fun _ m' => same_disk m m') m1).
  { cbv zeta. destruct (limit <? _) eqn:El; [done|]. apply Z.ltb_ge in El.
    destruct (size_of rest <? 4096) eqn:Er.
    - rewrite wp_ret. apply Z.ltb_lt in Er. rewrite str_take_all in * by (unfold size_of in Er; lia). done.
    - eapply wp_mono; [apply IH | |]; cbv beta.
      + intros c m2 (H2 & -> & H3). rewrite str_app_assoc, str_take_drop in *. eauto using same_disk_trans.
      + intros e m2 H2. eauto using same_disk_trans. }
  by destruct r.
Qed.

Lemma wp_machine_readFile p limit m :
  wp (machine_readFile p limit)
     (fun c m' => mc_disk m' = mc_disk m /\ machine_file m p = Some c /\ size_of c <= limit)
     (fun _ m' => mc_disk m' = mc_disk m) m.
Proof.
  unfold machine_readFile. rewrite wp_bind. apply wp_sys.
  - by intros s m' [? _].
  - intros m' d [= <-] Hd _. rewrite wp_bind, wp_gets. unfold machine_file. rewrite Hd.
    destruct (_ ≫= _) as [c|] eqn:E; [|done].
    eapply wp_mono; [apply wp_read_loop | |]; cbv beta.
    + intros c' m2 ([H2 _] & -> & H3). cbn. split_and!; [congruence | done | done].
    + intros e m2 [H2 _]. congruence.
Qed.

(** Enough rounds: a file within the limit is read in full when no call fails. *)
Lemma read_loop_total fuel p limit value rest m :
  mc_plan m = [] -> size_of (value +:+ rest) <= limit -> (String.length rest < fuel)%nat ->
  read_loop fuel p limit value rest m = (m, Return (value +:+ rest)).
Proof.
  intros Hp. revert value rest. induction fuel as [|fuel IH]; intros value rest Hl Hf; [lia|].
  cbn [read_loop]. unfold mbind, eff_bind, next_result at 1. rewrite Hp. cbv zeta.
  assert (Ht : size_of (value +:+ str_take 4096 rest) <= limit).
  { pose proof (str_take_drop 4096 rest) as Htd. rewrite <-Htd in Hl. autorewrite with mnc in Hl.
    rewrite size_of_app. pose proof (size_of_nonneg (str_drop 4096 rest)). lia. }
  apply Z.ltb_ge in Ht. rewrite Ht. destruct (size_of rest <? 4096) eqn:Er.
  - apply Z.ltb_lt in Er. unfold size_of in Er. rewrite str_take_all by lia. done.
  - apply Z.ltb_ge in Er. unfold size_of in Er. rewrite IH.
    + by rewrite str_app_assoc, str_take_drop.
    + by rewrite str_app_assoc, str_take_drop.
    + pose proof (f_equal String.length (str_take_drop 4096 rest)) as Hlen. rewrite str_length_app in Hlen.
      pose proof (str_take_length 4096 rest). lia.
Qed.

(** The files of [m'] are those of [m] less some of [names]. *)
Definition pruned (names : list string) (m m' : Machine) : Prop :=
  dk_data (mc_disk m') = dk_data (mc_disk m) /\
  forall q, dk_dir (mc_disk m') !! q = dk_dir (mc_disk m) !! q \/ (q ∈ names /\ dk_dir (mc_disk m') !! q = None).

Lemma pruned_refl names m : pruned names m m.
Proof. split; auto. Qed.

Lemma pruned_step q names m m1 m2 :
  pruned [q] m m1 -> pruned names m1 m2 -> pruned (q :: names) m m2.
Proof.
  intros [Hd1 H1] [Hd2 H2]. split; [congruence|]. intros x. rewrite elem_of_cons.
  destruct (H2 x) as [->|[? ?]]; [|by auto]. destruct (H1 x) as [->|[?%list_elem_of_singleton ?]]; auto.
Qed.

Lemma wp_unlink q m :
  wp (fs_call (sys_unlink q))
     (fun _ m' => pruned [q] m m' /\ dk_dir (mc_disk m') !! q = None /\
        dk_dirs (mc_disk m') = dk_dirs (mc_disk m) /\ dk_stable_dir (mc_disk m') = dk_stable_dir (mc_disk m) /\
        dk_pending (mc_disk m') = dk_pending (mc_disk m) ++ [Unlink q])
     (fun _ m' => pruned [q] m m') m.
Proof.
  apply wp_fs_call.
  - intros e m' [Hd _]. unfold pruned. rewrite Hd. auto.
  - intros m' d Hu Hd _. unfold sys_unlink in Hu. destruct (dk_dir (mc_disk m) !! q); [|done].
    injection Hu as <-. unfold pruned. rewrite Hd. cbn. split_and!; [done | | by rewrite lookup_delete_eq | done | done | done].
    intros x. destruct (decide (x = q)) as [->|Hx]; [right | left; by apply lookup_delete_ne].
    split; [by apply list_elem_of_singleton | apply lookup_delete_eq].
Qed.

Lemma wp_unlink_all names m :
  wp (for_each (fun q => fs_call (sys_unlink q)) names)
     (fun _ m' => pruned names m m' /\ (forall q, q ∈ names -> dk_dir (mc_disk m') !! q = None) /\
        dk_dirs (mc_disk m') = dk_dirs (mc_disk m) /\ dk_stable_dir (mc_disk m') = dk_stable_dir (mc_disk m) /\
        dk_pending (mc_disk m') = dk_pending (mc_disk m) ++ map Unlink names)
     (fun _ m' => pruned names m m') m.
Proof.
  revert m. induction names as [|q names IH]; intros m.
  { split; [apply pruned_refl|]. split; [by intros q ?%elem_of_nil|]. by rewrite app_nil_r. }
  cbn [for_each]. rewrite wp_bind. eapply wp_mono; [apply wp_unlink | |]; cbv beta.
  2:{ intros e m1 H1. eapply pruned_step; [done | apply pruned_refl]. }
  intros _ m1 (H1 & Hq & Hdirs & Hst & Hp).
  eapply wp_mono; [apply IH | |]; cbv beta.
  2:{ intros e m2 H2. by eapply pruned_step. }
  intros _ m2 (H2 & Hn & Hdirs2 & Hst2 & Hp2). split_and!; [by eapply pruned_step | | congruence | congruence |].
  - intros x [->|Hx]%elem_of_cons; [|by apply Hn]. destruct H2 as [_ H2]. destruct (H2 q) as [->|[_ ?]]; done.
  - by rewrite Hp2, Hp, <-app_assoc.
Qed.

Lemma wp_rmdir_all dirs m :
  let same (m' : Machine) := dk_dir (mc_disk m') = dk_dir (mc_disk m) /\
    dk_data (mc_disk m') = dk_data (mc_disk m) /\ dk_stable_dir (mc_disk m') = dk_stable_dir (mc_disk m) /\
    dk_pending (mc_disk m') = dk_pending (mc_disk m) /\
    forall q, q ∉ dirs -> (q ∈ dk_dirs (mc_disk m') <-> q ∈ dk_dirs (mc_disk m)) in
  wp (for_each (fun q => fs_call (sys_rmdir q)) dirs) (fun _ => same) (fun _ => same) m.
Proof.
  cbv zeta. revert m. induction dirs as [|x dirs IH]; intros m; [done|].
  cbn [for_each]. rewrite wp_bind. apply wp_fs_call.
  - by intros e m' [-> _].
  - intros m' d [= <-] Hd _.
    eapply wp_mono; [apply IH | |]; cbv beta; rewrite Hd; cbn.
    all: intros _ m2 (H1 & H2 & H3 & H4 & H5); split_and!; try done.
    all: intros q [Hx Hq]%not_elem_of_cons; rewrite (H5 q Hq), elem_of_difference, elem_of_singleton; tauto.
Qed.

Lemma names_under_spec p d q : q ∈ names_under p d <-> under p q = true /\ is_Some (dk_dir d !! q).
Proof.
  unfold names_under. rewrite list_elem_of_In, List.filter_In, <-list_elem_of_In, list_elem_of_fmap.
  split.
  - intros [([x i] & -> & H%elem_of_map_to_list) ?]. eauto.
  - intros [? [i H]]. split; [|done]. exists (q, i). by rewrite elem_of_map_to_list.
Qed.

Lemma wp_machine_exists p m :
  wp (machine_exists p)
     (fun b m' => mc_disk m' = mc_disk m /\
        b = (bool_decide (is_Some (dk_dir (mc_disk m) !! p)) || bool_decide (p ∈ dk_dirs (mc_disk m))))
     (fun _ m' => mc_disk m' = mc_disk m) m.
Proof.
  unfold machine_exists. rewrite wp_bind. apply wp_fs_call; [by intros e m' [-> _]|].
  intros m' d [= <-] Hd _. rewrite wp_gets. by rewrite Hd.
Qed.

Lemma wp_syncDirectory directory m :
  wp (syncDirectory directory)
     (fun _ m' => sys_fsync_directory directory (mc_disk m) = Some (mc_disk m'))
     (fun _ m' => mc_disk m' = mc_disk m) m.
Proof.
  unfold syncDirectory. rewrite wp_bind. apply wp_sys.
  - intros s m' [Hd _]. rewrite wp_bind. by apply wp_io.
  - intros m' d Ho Hd _. unfold sys_open_directory in Ho. case_bool_decide; [|done]. injection Ho as <-.
    rewrite wp_bind. apply wp_io; [|done]. intros _. rewrite wp_bind. apply wp_sys.
    + intros s m2 [Hd2 _]. apply wp_io; [done|]. intros e _. congruence.
    + intros m2 d2 [= <-] Hd2 _. apply wp_io; [|done]. intros _. by rewrite Hd2, Hd.
Qed.

(** What [remove_all] leaves: the same data, no name of [names] on success, and
    no name added or changed. *)
Lemma wp_remove_all p m :
  let names := names_under p (mc_disk m) in
  wp (machine_remove_all p)
     (fun _ m' => pruned names m m' /\ (forall q, q ∈ names -> dk_dir (mc_disk m') !! q = None) /\
        (forall q, under p q = false -> q ∈ dk_dirs (mc_disk m') <-> q ∈ dk_dirs (mc_disk m)) /\
        dk_stable_dir (mc_disk m') = dk_stable_dir (mc_disk m) /\
        dk_pending (mc_disk m') = dk_pending (mc_disk m) ++ map Unlink names)
     (fun _ m' => pruned names m m') m.
Proof.
  cbv zeta. unfold machine_remove_all. rewrite wp_bind, wp_gets, wp_bind.
  eapply wp_mono; [apply wp_unlink_all | | done]; cbv beta.
  intros _ m1 ([Hd1 H1] & Hn & Hdirs & Hst & Hp). rewrite wp_bind, wp_gets.
  eapply wp_mono; [apply wp_rmdir_all | |]; cbv beta; intros _ m2 (H2 & H3 & H4 & H5 & H6);
    unfold pruned; rewrite H2, H3; split_and!; try done.
  - intros q Hq. rewrite H6, Hdirs; [done|]. unfold dirs_under.
    rewrite list_elem_of_In, List.filter_In, Hq. by intros [_ ?].
  - congruence.
  - congruence.
Qed.

Lemma wp_durableRemove p m :
  let names := names_under p (mc_disk m) in
  wp (machine_durableRemove p)
     (fun _ m' => pruned names m m' /\ forall q, q ∈ names -> dk_dir (mc_disk m') !! q = None)
     (fun _ m' => pruned names m m') m.
Proof.
  cbv zeta. unfold machine_durableRemove. rewrite wp_bind.
  eapply wp_mono; [apply wp_remove_all | | done]; cbv beta. intros _ m1 ([Hd1 H1] & Hn & _).
  assert (Hkeep : forall m2, dk_dir (mc_disk m2) = dk_dir (mc_disk m1) -> dk_data (mc_disk m2) = dk_data (mc_disk m1) ->
    pruned (names_under p (mc_disk m)) m m2 /\ forall q, q ∈ names_under p (mc_disk m) -> dk_dir (mc_disk m2) !! q = None).
  { intros m2 E1 E2. unfold pruned. by rewrite E1, E2. }
  rewrite wp_bind. eapply wp_mono; [apply wp_machine_exists | |]; cbv beta.
  2:{ intros e m2 E. apply Hkeep; by rewrite E. }
  intros b m2 [E _]. destruct b; simpl when; [|apply Hkeep; by rewrite E].
  eapply wp_mono; [apply wp_syncDirectory | |]; cbv beta.
  - intros _ m3 [= E3]. apply Hkeep; rewrite <-E3; cbn; by rewrite E.
  - intros e m3 E3. apply Hkeep; by rewrite E3, E.
Qed.

Lemma pruned_file names m m' q :
  pruned names m m' -> machine_file m' q = machine_file m q \/ (q ∈ names /\ machine_file m' q = None).
Proof.
  intros [Hd H]. unfold machine_file. rewrite Hd. destruct (H q) as [->|[? ->]]; auto.
Qed.

Lemma pruned_absent p m m' q :
  pruned (names_under p (mc_disk m)) m m' -> under p q = true ->
  (forall q, q ∈ names_under p (mc_disk m) -> dk_dir (mc_disk m') !! q = None) -> machine_file m' q = None.
Proof.
  intros [Hd H] Hu Hn. unfold machine_file.
  destruct (decide (q ∈ names_under p (mc_disk m))) as [Hin|Hout]; [by rewrite Hn|].
  destruct (H q) as [->|[? _]]; [|done]. destruct (dk_dir (mc_disk m) !! q) as [i|] eqn:E; [|done].
  exfalso. apply Hout, names_under_spec. rewrite E. eauto.
Qed.

(** ** The host *)

#[export] Instance Machine_host : Host Machine := {
  file := machine_file;
  exists_ := machine_exists;
  permissions := machine_permissions;
  readFile := machine_readFile;
  atomicWrite := machine_atomicWrite;
  durableRemove := machine_durableRemove;
  create_directories := machine_create_directories;
  randomId := machine_randomId;
  clock_ := bootMilliseconds
}.

Lemma wp_seen {A} (mm : M A) m q (P : option string -> Prop) :
  wp mm (fun _ m' => P (machine_file m' q)) (fun _ m' => P (machine_file m' q)) m -> P (machine_file (fst (mm m)) q).
Proof. unfold wp. by destruct (mm m) as [m' []]. Qed.

Lemma fs_call_files f m q :
  (forall d d', f d = Some d' -> dk_dir d' = dk_dir d /\ dk_data d' = dk_data d) ->
  machine_file (fst (fs_call f m)) q = machine_file m q.
Proof.
  intros Hf. apply (wp_seen _ _ _ (fun c => c = machine_file m q)). unfold machine_file. apply wp_fs_call.
  - by intros e m' [-> _].
  - intros m' d Hd -> _. apply Hf in Hd as [-> ->]. done.
Qed.

#[export] Instance Machine_laws : HostLaws Machine.
Proof.
  split; cbn [file exists_ permissions readFile atomicWrite durableRemove create_directories randomId clock_ Machine_host].
  - intros h p q. apply (wp_seen _ _ _ (fun c => c = machine_file h q)). unfold machine_file.
    eapply wp_mono; [apply wp_machine_exists | |]; cbv beta; [intros b m' [-> _] | intros e m' ->]; done.
  - intros h p Hr. pose proof (wp_machine_exists p h) as Hw. unfold wp in Hw.
    destruct (machine_exists p h) as [m' [b|e]]; cbn in Hr; [|done]. injection Hr as ->.
    destruct Hw as [_ Hb]. symmetry in Hb. apply orb_false_iff in Hb as [Hb _].
    apply bool_decide_eq_false in Hb. apply eq_None_not_Some in Hb. unfold machine_file. by rewrite Hb.
  - intros h p q. apply fs_call_files. by intros d d' [= ->].
  - intros h p limit q. apply (wp_seen _ _ _ (fun c => c = machine_file h q)). unfold machine_file.
    eapply wp_mono; [apply wp_machine_readFile | |]; cbv beta; [intros c m' [-> _] | intros e m' ->]; done.
  - intros h p limit c Hr. pose proof (wp_machine_readFile p limit h) as Hw. unfold wp in Hw.
    destruct (machine_readFile p limit h) as [m' [b|e]]; cbn in Hr; [|done]. injection Hr as ->. tauto.
  - intros h p v Hr. pose proof (atomicWrite_visible p v _ h eq_refl) as Hw. unfold wp in Hw.
    destruct (machine_atomicWrite p v h) as [m' [[]|e]]; [|done]. apply Hw.
  - intros h p v e Hr. pose proof (atomicWrite_visible p v _ h eq_refl) as Hw. unfold wp in Hw.
    destruct (machine_atomicWrite p v h) as [m' [[]|e']]; [done|]. apply Hw.
  - intros h p v q Hq. pose proof (atomicWrite_visible p v _ h eq_refl) as Hw. unfold wp in Hw.
    destruct (machine_atomicWrite p v h) as [m' [[]|e']]; by apply Hw.
  - intros h p q Hr Hu. pose proof (wp_durableRemove p h) as Hw. unfold wp in Hw.
    destruct (machine_durableRemove p h) as [m' [[]|e']]; [|done]. destruct Hw. by eapply pruned_absent.
  - intros h p q Hu. apply (wp_seen _ _ _ (fun c => c = machine_file h q)).
    assert (Hq : forall m', pruned (names_under p (mc_disk h)) h m' -> machine_file m' q = machine_file h q).
    { intros m' Hm. apply (pruned_file _ _ _ q) in Hm as [?|[[? _]%names_under_spec _]]; [done | congruence]. }
    eapply wp_mono; [apply wp_durableRemove | |]; cbv beta; [intros _ m' [? _] | intros _ m' ?]; by apply Hq.
  - intros h p q Hn. apply (wp_seen _ _ _ (fun c => c = None)).
    assert (Hq : forall m', pruned (names_under p (mc_disk h)) h m' -> machine_file m' q = None).
    { intros m' Hm. apply (pruned_file _ _ _ q) in Hm as [?|[_ ?]]; congruence. }
    eapply wp_mono; [apply wp_durableRemove | |]; cbv beta; [intros _ m' [? _] | intros _ m' ?]; by apply Hq.
  - intros h p q. apply fs_call_files. by intros d d' [= <-].
  - intros h q. apply (wp_seen _ _ _ (fun c => c = machine_file h q)). unfold machine_file.
    eapply wp_mono; [apply wp_randomId | |]; cbv beta; [intros c m' [-> _] | intros e m' [-> _]]; done.
  - intros h q. unfold bootMilliseconds. by destruct (mc_clock h) as [|[sec nsec] []].
  - intros h. unfold bootMilliseconds. destruct (mc_clock h) as [|[sec nsec] rest]; cbn.
    + exists 0. split; [done | lia].
    + eexists. split; [done|]. apply u64_range.
Qed.

(** ** Success when no system call fails *)

Definition healthy (m : Machine) : Prop := mc_plan m = [] /\ Forall (fun b => 0 <= b < 256) (mc_entropy m).

(** [p] can be created: neither it nor a temporary name of it is taken. *)
Definition room_for (p : string) (d : Disk) : Prop :=
  let dirs := dk_dirs d ∪ list_to_set (ancestors "" (parent_path p)) in
  (p ∉ dirs) /\ forall id, dk_dir d !! (p +:+ "." +:+ id +:+ ".tmp") = None /\ (p +:+ "." +:+ id +:+ ".tmp") ∉ dirs.

Lemma wp_sys_total f d Q E m :
  mc_plan m = [] -> f (mc_disk m) = Some d -> Q None (set_disk d m) -> wp (sys f) Q E m.
Proof. intros Hp Hf HQ. unfold wp, sys, mbind, eff_bind, next_result. rewrite Hp. cbn. by rewrite Hf. Qed.

Lemma wp_randomId_total m :
  healthy m ->
  wp machine_randomId (fun id m' => exists bytes, id = hex_bytes bytes /\ Forall (fun b => 0 <= b < 256) bytes /\
    same_disk m m' /\ healthy m') (fun _ _ => False) m.
Proof.
  intros [Hp He]. unfold machine_randomId. rewrite wp_bind, wp_gets, wp_bind. rewrite Hp.
  unfold wp. cbn [random_loop length]. unfold mbind, eff_bind, next_result, take_entropy. rewrite Hp. cbn.
  eexists. split; [reflexivity|]. split; [|split; [done | split; [done | cbn; by apply Forall_drop]]].
  apply (Forall_app _ (take 16 (mc_entropy m))). split; [by apply Forall_take|]. apply Forall_replicate. lia.
Qed.

Lemma hex_digit_no_slash n : 0 <= n < 16 -> contains "/" (String (hex_digit n) "") = false.
Proof.
  intros Hn. unfold hex_digit. apply orb_false_iff. split; [|done]. apply bool_decide_eq_false. intros E.
  apply (f_equal code) in E. change (code "/") with 47 in E. destruct (n <? 10) eqn:El; rewrite code_chr in E; lia.
Qed.

Lemma hex_bytes_no_slash bytes : Forall (fun b => 0 <= b < 256) bytes -> contains "/" (hex_bytes bytes) = false.
Proof.
  induction 1 as [|b bytes Hb _ IH]; [done|]. cbn [hex_bytes fold_right]. unfold hex_byte.
  pose proof (hex_digit_no_slash (b / 16) ltac:(split; [apply Z.div_pos | apply Z.div_lt_upper_bound]; lia)) as H1.
  pose proof (hex_digit_no_slash (b mod 16) ltac:(apply Z.mod_pos_bound; lia)) as H2.
  cbn in *. rewrite orb_false_r in H1, H2. by rewrite H1, H2.
Qed.

Lemma last_slash_app a b : contains "/" b = false -> last_slash (a +:+ b) = last_slash a.
Proof.
  intros Hb. induction a as [|c a IH]; cbn.
  - induction b as [|c b IHb]; [done|]. cbn in *. apply orb_false_iff in Hb as [Hc Hb]. rewrite IHb by done.
    apply bool_decide_eq_false in Hc. by rewrite bool_decide_eq_false_2 by congruence.
  - by rewrite IH.
Qed.

Lemma last_slash_lt a n : last_slash a = Some n -> (n < String.length a)%nat.
Proof.
  revert n. induction a as [|c a IH]; intros n; cbn; [done|]. destruct (last_slash a) as [k|]; [intros [= <-]; specialize (IH k eq_refl); lia|].
  case_bool_decide; intros [= <-]. lia.
Qed.

Lemma parent_path_app a b : contains "/" b = false -> a <> "" -> parent_path (a +:+ b) = parent_path a.
Proof.
  intros Hb Ha. unfold parent_path. rewrite last_slash_app by done.
  destruct (last_slash a) as [[|n]|] eqn:E; [done | | done].
  apply last_slash_lt in E. clear Ha Hb. revert a E. generalize (S n). clear n.
  intros n. induction n as [|n IH]; intros [|c a] E; cbn in *; [done.. | lia |]. f_equal. apply IH. lia.
Qed.

Lemma ancestors_self sofar p : (sofar +:+ p) ∈ ancestors sofar p.
Proof.
  revert sofar. induction p as [|c p IH]; intros sofar; cbn.
  - rewrite str_app_nil_r. by apply list_elem_of_singleton.
  - assert (H : (sofar +:+ String c p) ∈ ancestors (sofar +:+ String c "") p).
    { replace (sofar +:+ String c p) with ((sofar +:+ String c "") +:+ p) by (by rewrite str_app_assoc). apply IH. }
    case_bool_decide; [by apply elem_of_cons; right | done].
Qed.

Lemma wp_write_loop_total i v w m :
  mc_plan m = [] -> dk_data (mc_disk m) !! i = Some w ->
  wp (write_loop (S (length (mc_plan m))) i v)
     (fun _ m' => mc_plan m' = [] /\ dk_data (mc_disk m') !! i = Some (w +:+ v) /\
        dk_dir (mc_disk m') = dk_dir (mc_disk m) /\ dk_dirs (mc_disk m') = dk_dirs (mc_disk m))
     (fun _ _ => False) m.
Proof.
  intros Hp Hi. cbn [write_loop]. destruct (empty v) eqn:E.
  - apply empty_spec in E as ->. by rewrite str_app_nil_r.
  - unfold wp, mbind, eff_bind, next_result. rewrite Hp. unfold modify.
    cbn. by rewrite lookup_insert_eq, Hi.
Qed.

Lemma atomicWrite_total p v m :
  p <> "" -> healthy m -> room_for p (mc_disk m) ->
  wp (machine_atomicWrite p v) (fun _ m' => mc_plan m' = [] /\ machine_file m' p = Some v) (fun _ _ => False) m.
Proof.
  intros Hne Hm [Hroom Htmp]. unfold machine_atomicWrite, machine_create_directories, fs_call.
  rewrite !wp_bind. eapply wp_sys_total; [apply Hm | done|]. wp_steps. eapply wp_mono;
    [apply wp_randomId_total; exact Hm | | done]; cbv beta.
  intros id m2 (bytes & -> & Hb%hex_bytes_no_slash & [Hd2 _] & [Hp2 _]). cbv zeta.
  specialize (Htmp (hex_bytes bytes)) as [Hfree Hnodir].
  assert (Hpar : parent_path (p +:+ "." +:+ hex_bytes bytes +:+ ".tmp") = parent_path p).
  { apply parent_path_app; [|done]. cbn. by rewrite contains_app, Hb. }
  assert (Ht : temporary p (p +:+ "." +:+ hex_bytes bytes +:+ ".tmp")) by (by eexists).
  set (tmp := p +:+ "." +:+ hex_bytes bytes +:+ ".tmp") in *. clearbody tmp. clear Hb bytes.
  assert (Hin : parent_path p ∈ dk_dirs (mc_disk m2)).
  { rewrite Hd2. cbn. apply elem_of_union_r, elem_of_list_to_set. apply (ancestors_self "" (parent_path p)). }
  wp_steps. set (i := fresh_inode (mc_disk m2)). eapply wp_sys_total; [done | |].
  { unfold sys_create. rewrite Hpar, (bool_decide_eq_true_2 _ Hin).
    replace (dk_dir (mc_disk m2) !! tmp) with (@None nat) by (by rewrite Hd2).
    rewrite bool_decide_eq_true_2; [reflexivity|]. by rewrite Hd2. }
  wp_steps. apply wp_io; [|done]. intros _. wp_steps.
  eapply wp_mono; [apply (wp_write_loop_total i v ""); [done | cbn; apply lookup_insert_eq] | | done]; cbv beta.
  cbn [mc_disk set_disk dk_dir dk_dirs String.append]. intros _ m3 (Hp3 & Hi3 & Hd3 & Hs3).
  wp_steps. eapply wp_sys_total; [done | reflexivity|]. wp_steps. apply wp_io; [|done]. intros _. wp_steps.
  eapply wp_sys_total; [done | |].
  { unfold sys_rename. cbn. rewrite Hd3, lookup_insert_eq, bool_decide_eq_false_2; [reflexivity|].
    rewrite Hs3, Hd2. apply Hroom. }
  wp_steps. apply wp_io; [|done]. intros _. unfold syncDirectory. wp_steps. eapply wp_sys_total; [done | |].
  { unfold sys_open_directory. cbn. rewrite bool_decide_eq_true_2; [reflexivity|]. by rewrite Hs3. }
  wp_steps. apply wp_io; [|done]. intros _. wp_steps. eapply wp_sys_total; [done | reflexivity|].
  apply wp_io; [|done]. intros _. split; [done|]. unfold machine_file. cbn. rewrite lookup_insert_eq. done.
Qed.

(** ** What survives [durableRemove] *)

Lemma unlinks_touch p names : p ∉ names -> Forall (fun op => ~ touches p op) (map Unlink names).
Proof.
  intros Hp. apply Forall_forall. intros op (q & -> & Hq)%list_elem_of_fmap. cbn. by intros ->.
Qed.

(** Names are unlinked in the order of [names_under], [p] at most once. *)
Lemma names_under_split p d :
  p ∈ names_under p d -> exists l r, names_under p d = l ++ p :: r /\ p ∉ r.
Proof.
  intros Hp. apply list_elem_of_split in Hp as (l & r & E). exists l, r. split; [done|].
  assert (Hnd : NoDup (names_under p d)).
  { apply NoDup_ListNoDup, List.NoDup_filter, NoDup_ListNoDup. apply NoDup_fst_map_to_list. }
  rewrite E in Hnd. apply NoDup_app in Hnd as (_ & _ & Hnd). by apply NoDup_cons in Hnd as [? _].
Qed.

Lemma filter_directory_quiet p ops (keep : dirop -> bool) :
  Forall (fun op => ~ touches p op) ops -> Forall (fun op => ~ touches p op) (List.filter keep ops).
Proof.
  rewrite !Forall_forall. intros H op [Hop _]%list_elem_of_In%List.filter_In. by apply H, list_elem_of_In.
Qed.

Lemma filter_directory_rest p ops :
  Forall (fun op => touches p op -> op = Unlink p) ops ->
  Forall (fun op => ~ touches p op) (List.filter (fun op => parent_path p <>? op_directory op) ops).
Proof.
  rewrite !Forall_forall. intros H op [Hop Hd]%list_elem_of_In%List.filter_In Ht.
  rewrite (H op (proj2 (list_elem_of_In _ _) Hop) Ht) in Hd. cbn in Hd. by rewrite bool_decide_eq_true_2 in Hd.
Qed.

Lemma sync_removed p d d' names :
  quiet p d -> durable p d (seen d p) ->
  dk_stable_dir d' = dk_stable_dir d -> names = names_under p d ->
  dk_pending d' = dk_pending d ++ map Unlink names ->
  forall d'', sys_fsync_directory (parent_path p) d' = Some d'' -> at_rest p d'' None.
Proof.
  intros Hq Hd Hst Hn Hp d'' [= <-]. unfold at_rest, quiet, durable. cbn. rewrite Hst, Hp, !List.filter_app. split.
  - apply Forall_app. split; [by apply filter_directory_quiet|]. apply filter_directory_rest.
    apply Forall_forall. intros op (q & -> & _)%list_elem_of_fmap. cbn. by intros ->.
  - rewrite fold_left_app. destruct (decide (p ∈ names)) as [Hin|Hout].
    + rewrite Hn in Hin. apply names_under_split in Hin as (l & r & E & Hr). rewrite Hn, E, map_app. cbn [map].
      rewrite List.filter_app. cbn [List.filter op_directory].
      rewrite (bool_decide_eq_true_2 (parent_path p = parent_path p)) by done.
      rewrite fold_left_app. cbn [fold_left apply_op]. rewrite apply_ops_untouched, lookup_delete_eq; [done|].
      by apply filter_directory_quiet, unlinks_touch.
    + rewrite !apply_ops_untouched by (by apply filter_directory_quiet; try apply unlinks_touch).
      unfold durable in Hd. destruct (dk_stable_dir d !! p) as [i|]; [|done]. destruct Hd as (s & _ & Hs).
      exfalso. apply Hout. rewrite Hn. apply names_under_spec. split; [unfold under; by rewrite bool_decide_eq_true_2|].
      unfold seen in Hs. destruct (dk_dir d !! p); [eauto | done].
Qed.

(** ** Properties *)

(** C3: Crash safety of [atomicWrite]: when the file [p] is at rest with the
    contents [old] (absent for [None]) and, if it has contents, the directories
    above it are in place with their entries on stable storage, then whatever
    system calls fail or return short, a power loss after any of them leaves [p]
    with its old contents or with all of the new ones. Once [atomicWrite] has
    returned, the new contents survive every power loss, provided that the
    directories above [p] were in place before: the code syncs the directory of
    [p] but not the entry of a directory that it has just created (see
    [new_directory_may_be_lost]). *)
Theorem atomicWrite_crash_safe p v old m :
  at_rest p (mc_disk m) old -> (old = None \/ grounded p (mc_disk m)) -> mc_history m = [mc_disk m] ->
  let '(m', r) := machine_atomicWrite p v m in
  Forall (fun d => forall files, survives d files -> files !! p = old \/ files !! p = Some v) (mc_history m') /\
  (r = Return tt -> grounded p (mc_disk m) -> forall files, survives (mc_disk m') files -> files !! p = Some v).
Proof.
  intros Hm Hk Hh. set (kept := grounded p (mc_disk m)) in *.
  assert (Hg : Forall (guarded p v old kept) (mc_history m)).
  { rewrite Hh. apply Forall_singleton. eapply at_rest_guarded; eauto. by intros ?. }
  pose proof (atomicWrite_durable p v old kept m (conj Hm (fun H => H)) Hg) as Hw. unfold wp in Hw.
  destruct (machine_atomicWrite p v m) as [m' [[]|e]]; destruct Hw as [Hd Hh'].
  all: split; [eapply Forall_impl; [exact Hh'|]; intros d Hd' files; by eapply guarded_survives|].
  - intros _ Hkept files. destruct Hd as [Hd Hheld]. apply at_rest_survives; [done|]. right. by apply Hheld.
  - done.
Qed.

(** A power loss in which the directory [D] is lost, and nothing that is pending
    happens, leaves what is on stable storage outside of [D]. *)
Definition without (D : string) (d : Disk) : gmap string string :=
  map_imap (fun q i => if is_lost {[D]} q then None else dk_stable d !! i) (dk_stable_dir d).

Lemma without_survives D d : D ∈ dk_unsynced d -> survives d (without D d).
Proof.
  intros HD. exists [], {[D]}. split; [apply sublist_nil_l|]. split; [set_solver|]. cbv zeta. intros q. cbn [fold_left].
  unfold without. rewrite map_lookup_imap. destruct (is_lost {[D]} q) eqn:E.
  - by destruct (dk_stable_dir d !! q).
  - destruct (dk_stable_dir d !! q); [|done]. done.
Qed.

(** The directory of [p] was made and its entry is not synced; [sync_directory]
    does not change that. *)
Lemma atomicWrite_unsynced p v m :
  parent_path p ∉ dk_dirs (mc_disk m) -> parent_path (parent_path p) <> parent_path p ->
  wp (machine_atomicWrite p v) (fun _ m' => parent_path p ∈ dk_unsynced (mc_disk m')) (fun _ _ => True) m.
Proof.
  intros Hnew Hroot. set (P := fun d => parent_path p ∈ dk_unsynced d).
  eapply wp_mono; [apply (atomicWrite_rule p v (fun _ => True) (fun d => parent_path p ∉ dk_dirs d) P (fun _ _ _ => P)
    (fun _ _ => P) (fun _ _ => P) P (fun _ => True)); try done | by intros [] m' [? _] | done]; unfold P.
  - intros d d' Hd [= <-]. cbn. pose proof (ancestors_self "" (parent_path p)). set_solver.
  - intros i tmp d d' _ Hd _ Hc. unfold sys_create in Hc. destruct (dk_dir d !! tmp); [done|].
    case_match; [|done]. by injection Hc as <-.
  - by intros i tmp d d' _ Hd [= <-].
  - intros i tmp d d' _ Hd Hr. unfold sys_rename in Hr. destruct (dk_dir d !! tmp); [|done].
    case_bool_decide; [done|]. by injection Hr as <-.
  - intros i tmp d d' _ Hd [= <-]. cbn. set_solver.
  - split; [done | by apply Forall_true].
Qed.

(** What [atomicWrite] does not guarantee: when it has to create the
    directory of [p] and returns normally, there is a power loss after which the
    file is gone, although processes saw the new contents in it; for no one
    syncs the directory in which the new directory was made. *)
Theorem new_directory_may_be_lost p v m m' :
  parent_path p ∉ dk_dirs (mc_disk m) -> parent_path (parent_path p) <> parent_path p ->
  machine_atomicWrite p v m = (m', Return tt) ->
  machine_file m' p = Some v /\ exists files, survives (mc_disk m') files /\ files !! p = None.
Proof.
  intros Hnew Hroot Hw. pose proof (atomicWrite_unsynced p v m Hnew Hroot) as Hu.
  pose proof (atomicWrite_visible p v _ m eq_refl) as Hv. unfold wp in Hu, Hv. rewrite Hw in Hu, Hv.
  split; [apply Hv|]. exists (without (parent_path p) (mc_disk m')). split; [by apply without_survives|].
  unfold without. rewrite map_lookup_imap.
  assert (is_lost {[parent_path p]} p = true) as ->.
  { apply existsb_exists. exists (parent_path p). split; [apply list_elem_of_In, (ancestors_self "")|].
    apply bool_decide_eq_true. set_solver. }
  by destruct (dk_stable_dir (mc_disk m') !! p).
Qed.

(** When no system call fails, [atomicWrite] ends and succeeds, for every
    path that is not a directory and contents of every size, and [readFile]
    then returns exactly those contents, if they are within its limit. *)
Theorem atomicWrite_readFile p v limit m :
  p <> "" -> healthy m -> room_for p (mc_disk m) -> size_of v <= limit ->
  let '(m', r) := machine_atomicWrite p v m in
  r = Return tt /\ snd (machine_readFile p limit m') = Return v.
Proof.
  intros Hne Hm Hroom Hl. pose proof (atomicWrite_total p v m Hne Hm Hroom) as Hw. unfold wp in Hw.
  destruct (machine_atomicWrite p v m) as [m' [[]|e]]; [|done]. destruct Hw as [Hp Hf]. split; [done|].
  assert (Hr : wp (machine_readFile p limit) (fun c _ => c = v) (fun _ _ => False) m').
  { unfold machine_readFile. rewrite wp_bind. eapply wp_sys_total; [done | reflexivity|]. wp_steps.
    unfold machine_file in *. cbn [mc_disk set_disk]. rewrite Hf. unfold wp.
    rewrite read_loop_total; [done | done | done | lia]. }
  unfold wp in Hr. destruct (machine_readFile p limit m') as [m'' [c|e]]; [by subst | done].
Qed.

(** Removal is durable: when a path whose directory exists is at rest and
    [durableRemove] returns, the file is absent after every later power loss. *)
Theorem durableRemove_crash_safe p m :
  at_rest p (mc_disk m) (machine_file m p) -> parent_path p ∈ dk_dirs (mc_disk m) ->
  under p (parent_path p) = false ->
  let '(m', r) := machine_durableRemove p m in
  r = Return tt -> forall files, survives (mc_disk m') files -> files !! p = None.
Proof.
  intros [Hq Hd] Hpar Hu.
  assert (Hw : wp (machine_durableRemove p) (fun _ m' => at_rest p (mc_disk m') None) (fun _ _ => True) m).
  { unfold machine_durableRemove. rewrite wp_bind.
    eapply wp_mono; [apply wp_remove_all | | done]; cbv beta. intros _ m1 (_ & _ & Hdirs & Hst & Hp).
    rewrite wp_bind. eapply wp_mono; [apply wp_machine_exists | | done]; cbv beta. intros b m2 [E ->].
    rewrite (bool_decide_eq_true_2 (parent_path p ∈ _)) by (by apply Hdirs). rewrite orb_true_r. simpl when.
    eapply wp_mono; [apply wp_syncDirectory | | done]; cbv beta. intros _ m3 H3. rewrite E in H3.
    eapply (sync_removed p (mc_disk m) (mc_disk m1)); eauto. }
  unfold wp in Hw. destruct (machine_durableRemove p m) as [m' [[]|e]]; [|done].
  intros _ files. apply at_rest_survives; [done | by left].
Qed.

(** A machine with one file, of which the coming system calls return short, are
    interrupted and at last fail. *)
Definition sample_disk : Disk :=
  mkDisk {[0%nat := "old"]} {[0%nat := "old"]} {["/s/state.json" := 0%nat]} {["/s/state.json" := 0%nat]} [] {["/"; "/s"]} ∅.

Definition sample_machine (plan : list sysres) : Machine :=
  mkMachine sample_disk plan (replicate 64 171) [(1, 0)] [sample_disk].

Lemma sample_at_rest plan : at_rest "/s/state.json" (mc_disk (sample_machine plan)) (Some "old").
Proof. split; [constructor|]. by exists "old". Defined.

Lemma sample_grounded plan : grounded "/s/state.json" (mc_disk (sample_machine plan)).
Proof. by apply (bool_decide_unpack _). Defined.

Lemma atomicWrite_crash_safe_witness :
  let m := sample_machine [Done; Interrupted; Done; Done; Short 2; Interrupted; Done; Done; Failed "EIO"] in
  let '(m', r) := machine_atomicWrite "/s/state.json" "new" m in
  length (mc_history m') = 7%nat /\ r <> Return tt /\
  Forall (fun d => forall files, survives d files -> files !! "/s/state.json" = Some "old" \/
    files !! "/s/state.json" = Some "new") (mc_history m').
Proof.
  pose proof (atomicWrite_crash_safe "/s/state.json" "new" (Some "old")
    (sample_machine [Done; Interrupted; Done; Done; Short 2; Interrupted; Done; Done; Failed "EIO"])
    (sample_at_rest _) (or_intror (sample_grounded _)) eq_refl) as H.
  assert (Hl : let '(m', r) := machine_atomicWrite "/s/state.json" "new"
      (sample_machine [Done; Interrupted; Done; Done; Short 2; Interrupted; Done; Done; Failed "EIO"]) in
    length (mc_history m') = 7%nat /\ r = throw_error apply_failed "replace state: EIO").
  { clear H. vm_compute. split; reflexivity. }
  cbv zeta. destruct (machine_atomicWrite _ _ _) as [m' r].
  destruct Hl as [Hl Hr]. split; [exact Hl|]. split; [rewrite Hr; discriminate | apply H].
Defined.

Lemma atomicWrite_readFile_witness :
  let '(m', r) := machine_atomicWrite "/s/new.json" "contents" (sample_machine []) in
  r = Return tt /\ snd (machine_readFile "/s/new.json" 1048576 m') = Return "contents".
Proof.
  apply (atomicWrite_readFile "/s/new.json" "contents" 1048576 (sample_machine [])).
  - done.
  - split; [done|]. by apply Forall_replicate.
  - split.
    + by apply (bool_decide_unpack _).
    + intros id. split.
      * apply lookup_singleton_ne. cbn. intros [=].
      * set_unfold. intros H. destruct_or! H; [discriminate H.. | apply list_elem_of_singleton in H; discriminate H].
  - vm_compute. discriminate.
Defined.

Lemma durableRemove_crash_safe_witness :
  let '(m', r) := machine_durableRemove "/s/state.json" (sample_machine []) in
  r = Return tt /\ forall files, survives (mc_disk m') files -> files !! "/s/state.json" = None.
Proof.
  pose proof (durableRemove_crash_safe "/s/state.json" (sample_machine []) (sample_at_rest [])
    ltac:(by apply (bool_decide_unpack _)) eq_refl) as H.
  assert (Hr : snd (machine_durableRemove "/s/state.json" (sample_machine [])) = Return tt) by reflexivity.
  destruct (machine_durableRemove _ _) as [m' r]. split; [exact Hr | by apply H].
Defined.

Lemma new_directory_may_be_lost_witness :
  exists m', machine_atomicWrite "/s/new/state.json" "contents" (sample_machine []) = (m', Return tt) /\
    machine_file m' "/s/new/state.json" = Some "contents" /\
    exists files, survives (mc_disk m') files /\ files !! "/s/new/state.json" = None.
Proof.
  destruct (machine_atomicWrite "/s/new/state.json" "contents" (sample_machine [])) as [m' r] eqn:E.
  assert (Hr : snd (machine_atomicWrite "/s/new/state.json" "contents" (sample_machine [])) = Return tt) by reflexivity.
  rewrite E in Hr. cbn in Hr. subst r. exists m'. split; [reflexivity|].
  apply (new_directory_may_be_lost "/s/new/state.json" "contents" (sample_machine [])); [| | exact E].
  - by apply (bool_decide_unpack _).
  - by apply (bool_decide_unpack _).
Defined.
