(* ===== verification/Backend.v ===== *)
(** * The system manager's state and operations (daemon/backend.hpp, daemon/storage.cpp)

    [Backend] keeps a journal (state.json) of the configuration, the pending
    network transaction and the pending job, and drives the platform. Its
    operations are computations over the object: they read and write the journal
    through the host, call the platform, and may throw after part of the work,
    which keeps the changes made so far. A ghost trace lists the calls of the
    platform, the writes of the journal, the removals and the public log records
    in order, so that theorems can speak about what precedes what. *)

From S2P Require Import Prelude SystemTypes Validation Effects Protocol Logging Host.

(** ** Data *)

Record InterfacePolicy := mkInterfacePolicy { ip_name : string; ip_device_tree_node : string }.

Record SensorPolicy := mkSensorPolicy { sp_zone : string; sp_label : string }.

Record Profile := mkProfile {
  pf_settings_user : string;
  pf_control_user : string;
  pf_state_directory : string;
  pf_active_settings : string;
  pf_runtime_root : string;
  pf_runtime_etc_directory : string;
  pf_storage_status_file : string;
  pf_interfaces : list InterfacePolicy;
  pf_sensors : list SensorPolicy;
  pf_defaults : Configuration;
  pf_ssh_socket : string;
  pf_ssh_service : string;
  pf_ntp_units : list string;
  pf_irig_units : list string;
  pf_ptp_units : list string;
  pf_ptp_unit_templates : list string;
  pf_reset_paths : list string;
  pf_boot_preferences : option BootPreferences
}.

Record Pending := mkPending {
  pd_transaction : NetworkTransaction;
  pd_previous : list NetworkConfig;
  pd_previous_hash : string;
  pd_candidate_hash : string;
  pd_deadline : Z;   (* std::uint64_t *)
  pd_actor : string;
  pd_request_id : string
}.

#[export] Instance Pending_eq_dec : EqDecision Pending.
Proof. solve_decision. Defined.

Definition default_Pending : Pending := mkPending default_NetworkTransaction [] "" "" 0 "system" "".

Record State := mkState {
  st_configuration : Configuration;
  st_initialized : bool;
  st_pending : Pending;
  st_job : Job;
  st_reset_intent : bool;
  st_job_actor : string;
  st_job_request_id : string
}.

#[export] Instance State_eq_dec : EqDecision State.
Proof. solve_decision. Defined.

Definition default_State : State :=
  mkState default_Configuration false default_Pending default_Job false "system" "".

(** Assignments to members of [state_]. *)
Definition with_configuration (c : Configuration) (s : State) : State :=
  mkState c (st_initialized s) (st_pending s) (st_job s) (st_reset_intent s) (st_job_actor s) (st_job_request_id s).

Definition with_initialized (i : bool) (s : State) : State :=
  mkState (st_configuration s) i (st_pending s) (st_job s) (st_reset_intent s) (st_job_actor s) (st_job_request_id s).

Definition with_pending (p : Pending) (s : State) : State :=
  mkState (st_configuration s) (st_initialized s) p (st_job s) (st_reset_intent s) (st_job_actor s) (st_job_request_id s).

Definition with_job (j : Job) (s : State) : State :=
  mkState (st_configuration s) (st_initialized s) (st_pending s) j (st_reset_intent s) (st_job_actor s) (st_job_request_id s).

Definition with_reset_intent (r : bool) (s : State) : State :=
  mkState (st_configuration s) (st_initialized s) (st_pending s) (st_job s) r (st_job_actor s) (st_job_request_id s).

Definition with_job_audit (actor request_id : string) (s : State) : State :=
  mkState (st_configuration s) (st_initialized s) (st_pending s) (st_job s) (st_reset_intent s) actor request_id.

Definition with_job_state (js : string) (s : State) : State :=
  with_job (mkJob (job_id (st_job s)) (job_action (st_job s)) js) s.

(** Assignments to [state_.pending]: the transaction's state and remaining time,
    the deadline, the audit fields. *)
Definition with_transaction_state (ts : string) (remaining : Z) (p : Pending) : Pending :=
  mkPending (mkNetworkTransaction (nt_id (pd_transaction p)) ts remaining (nt_network (pd_transaction p))
               (nt_message (pd_transaction p)))
    (pd_previous p) (pd_previous_hash p) (pd_candidate_hash p) (pd_deadline p) (pd_actor p) (pd_request_id p).

Definition with_deadline (d : Z) (p : Pending) : Pending :=
  mkPending (pd_transaction p) (pd_previous p) (pd_previous_hash p) (pd_candidate_hash p) d (pd_actor p) (pd_request_id p).

Definition with_audit (actor request_id : string) (p : Pending) : Pending :=
  mkPending (pd_transaction p) (pd_previous p) (pd_previous_hash p) (pd_candidate_hash p) (pd_deadline p) actor request_id.

(** [StorageBootStatus]: its two members, [capabilities.factory_reset] and
    [reset_prepared]. *)
Record StorageBootStatus := mkStorageBootStatus { sb_factory_reset : bool; sb_reset_prepared : bool }.

(** ** The platform *)

(** An operation of the platform: it may change the platform's own state and the
    host, which the platform and the manager share. *)
Definition operation (P H A : Type) : Type := P * H -> (P * H) * outcome A.

Class Platform (P H : Type) := {
  platform_discover : operation P H Configuration;
  platform_status : operation P H SystemStatus;
  platform_time : operation P H TimeStatus;
  platform_networkLinks : operation P H (list NetworkStatus);
  platform_timezones : operation P H (list string);
  platform_timezoneCatalog : operation P H TimezoneCatalog;
  platform_temperatures : operation P H (list Temperature);
  platform_validateConfiguration : Configuration -> operation P H unit;
  platform_preferences : Configuration -> operation P H unit;
  platform_bootHostname : string -> operation P H unit;
  platform_network : list NetworkConfig -> bool -> operation P H unit;
  platform_sshBootPolicy : bool -> operation P H unit;
  platform_clockBootPolicy : TimePreferences -> operation P H unit;
  platform_power : PowerAction -> operation P H unit
}.

(** The operation leaves the files of [own] alone, however it ends. *)
Class Framed {P H A : Type} `{Host H} (own : string -> Prop) (f : operation P H A) : Prop :=
  framed x q : own q -> file (snd (fst (f x))) q = file (snd x) q.

(** A platform that leaves the files of [own] to the manager. *)
Class PlatformLaws (P H : Type) `{Platform P H} `{Host H} (own : string -> Prop) : Prop := {
  discover_law :: Framed own platform_discover;
  status_law :: Framed own platform_status;
  time_law :: Framed own platform_time;
  networkLinks_law :: Framed own platform_networkLinks;
  timezones_law :: Framed own platform_timezones;
  timezoneCatalog_law :: Framed own platform_timezoneCatalog;
  temperatures_law :: Framed own platform_temperatures;
  validateConfiguration_law c :: Framed own (platform_validateConfiguration c);
  preferences_law c :: Framed own (platform_preferences c);
  bootHostname_law h :: Framed own (platform_bootHostname h);
  network_law n bootstrap :: Framed own (platform_network n bootstrap);
  sshBootPolicy_law enabled :: Framed own (platform_sshBootPolicy enabled);
  clockBootPolicy_law t :: Framed own (platform_clockBootPolicy t);
  power_law a :: Framed own (platform_power a)
}.

(** ** The trace *)

Inductive call :=
  | CallPreferences (c : Configuration)
  | CallBootHostname (h : string)
  | CallNetwork (n : list NetworkConfig) (bootstrap : bool)
  | CallSshBootPolicy (enabled : bool)
  | CallClockBootPolicy (t : TimePreferences)
  | CallPower (a : PowerAction).

(** What happened, and whether it succeeded. *)
Inductive trace_event :=
  | Called (c : call) (ok : bool)
  | Wrote (s : State) (ok : bool)
  | Removed (path : string) (ok : bool)
  | Logged (record : list Field).

(** ** The object *)

Record Backend (P H : Type) := mkBackend {
  state_ : State;
  carriers_ : gmap string bool;
  next_network_observation_ : Z;
  storage_failed_ : bool;
  job_deadline_ : Z;
  platform_ : P;
  host_ : H;
  trace_ : list trace_event   (* ghost, newest first *)
}.
Arguments mkBackend {P H}.
Arguments state_ {P H}.
Arguments carriers_ {P H}.
Arguments next_network_observation_ {P H}.
Arguments storage_failed_ {P H}.
Arguments job_deadline_ {P H}.
Arguments platform_ {P H}.
Arguments host_ {P H}.
Arguments trace_ {P H}.

(** [pending()]. *)
Definition is_pending (s : State) : bool :=
  (nt_state (pd_transaction (st_pending s)) ==? "pending") ||
  (nt_state (pd_transaction (st_pending s)) ==? "committing").

Definition hash_char (c : ascii) : bool := is_digit c || in_range "a" "f" c.

Definition validHash (s : string) : bool := (size_of s =? 64) && str_all hash_char s.

(** The log of [Backend]'s constructor. *)
Definition user_log_ : LogBase := mkLogBase "system-manager" "operations" user.

Section operations.
Context {P H : Type} {PL : Platform P H} {HO : Host H} {JS : Json State}.
Context (sha256 : string -> option (list Z)) (read_status : string -> option StorageBootStatus).
Context (profile_ : Profile).

Abbreviation B := (eff (Backend P H)).

(** *** Access to the object *)

Definition update (f : State -> State) : B unit := modify (fun b =>
  mkBackend (f (state_ b)) (carriers_ b) (next_network_observation_ b) (storage_failed_ b) (job_deadline_ b)
    (platform_ b) (host_ b) (trace_ b)).

Definition set_carriers (f : gmap string bool -> gmap string bool) : B unit := modify (fun b =>
  mkBackend (state_ b) (f (carriers_ b)) (next_network_observation_ b) (storage_failed_ b) (job_deadline_ b)
    (platform_ b) (host_ b) (trace_ b)).

Definition set_next_observation (t : Z) : B unit := modify (fun b =>
  mkBackend (state_ b) (carriers_ b) t (storage_failed_ b) (job_deadline_ b) (platform_ b) (host_ b) (trace_ b)).

Definition set_storage_failed : B unit := modify (fun b =>
  mkBackend (state_ b) (carriers_ b) (next_network_observation_ b) true (job_deadline_ b)
    (platform_ b) (host_ b) (trace_ b)).

Definition set_job_deadline (t : Z) : B unit := modify (fun b =>
  mkBackend (state_ b) (carriers_ b) (next_network_observation_ b) (storage_failed_ b) t
    (platform_ b) (host_ b) (trace_ b)).

Definition note (e : trace_event) : B unit := modify (fun b =>
  mkBackend (state_ b) (carriers_ b) (next_network_observation_ b) (storage_failed_ b) (job_deadline_ b)
    (platform_ b) (host_ b) (e :: trace_ b)).

(** A function of the host. *)
Definition host {A} (f : H -> H * outcome A) : B A := fun b =>
  let '(h, r) := f (host_ b) in
  (mkBackend (state_ b) (carriers_ b) (next_network_observation_ b) (storage_failed_ b) (job_deadline_ b)
     (platform_ b) h (trace_ b), r).

(** A query of the platform. *)
Definition ask {A} (f : operation P H A) : B A := fun b =>
  let '((p, h), r) := f (platform_ b, host_ b) in
  (mkBackend (state_ b) (carriers_ b) (next_network_observation_ b) (storage_failed_ b) (job_deadline_ b) p h (trace_ b), r).

(** A computation whose end is noted in the trace. *)
Definition noting (e : bool -> trace_event) (m : B unit) : B unit :=
  _ ← try_catch m (fun x => _ ← note (e false); throw x);
  note (e true).

Definition call_platform (c : call) (f : operation P H unit) : B unit := noting (Called c) (ask f).

(** Reads of members. *)
Definition get {A} (f : Backend P H -> A) : B A := gets f.

Definition preferences (c : Configuration) : B unit := call_platform (CallPreferences c) (platform_preferences c).

Definition bootHostname (h : string) : B unit := call_platform (CallBootHostname h) (platform_bootHostname h).

Definition network (n : list NetworkConfig) (bootstrap : bool) : B unit :=
  call_platform (CallNetwork n bootstrap) (platform_network n bootstrap).

Definition sshBootPolicy (enabled : bool) : B unit :=
  call_platform (CallSshBootPolicy enabled) (platform_sshBootPolicy enabled).

Definition clockBootPolicy (t : TimePreferences) : B unit :=
  call_platform (CallClockBootPolicy t) (platform_clockBootPolicy t).

Definition power_off (a : PowerAction) : B unit := call_platform (CallPower a) (platform_power a).

Definition now : B Z := host clock_.

Definition state_path : string := path_append (pf_state_directory profile_) "state.json".

(** *** Private operations *)

Definition fileHash (p : string) : B string :=
  found ← host (exists_ p);
  if negb found then mret ""
  else
    v ← host (readFile p 1048576);
    match sha256 v with
    | None => throw_err internal_error "SHA256 failed"
    | Some digest => mret (hex_bytes digest)
    end.

Definition event (code category message actor action outcome subject : string) (priority : Priority)
    (request_id : string) : B unit :=
  match UserLog_record user_log_ priority
          (mkUserEvent code category message actor action outcome subject [] request_id) with
  | Some record => note (Logged record)
  | None => mret tt
  end.

(** The body of the loop over the links in [observeNetwork]. *)
Definition observe_link (link : NetworkStatus) : B unit :=
  if forallb (fun policy => ip_name policy <>? ns_interface link) (pf_interfaces profile_) then mret tt
  else
    previous ← get (fun b => carriers_ b !! ns_interface link);
    let carrier := ns_carrier link in
    _ ← match previous with
        | Some p =>
            when (negb (Bool.eqb p carrier))
              (event (if carrier then "network_recovered" else "network_down") "network"
                 (if carrier then "Network connection restored" else "Network connection lost")
                 "system" "link" (if carrier then "recovered" else "failed") (ns_interface link)
                 (if carrier then info else warning) "")
        | None => mret tt
        end;
    set_carriers (fun m => <[ns_interface link := carrier]> m).

Definition observeNetwork : B unit :=
  try_catch
    (links ← ask platform_networkLinks;
     _ ← set_carriers (filter (fun previous => fst previous ∈ map ns_interface links));
     for_each observe_link links)
    (fun _ => mret tt).

Definition persist : B unit :=
  failed ← get storage_failed_;
  if (failed : bool) then throw_err unavailable "system journal requires recovery"
  else
    try_catch
      (s ← get state_;
       text ← lift (encode s);
       noting (Wrote s) (host (atomicWrite state_path text)))
      (fun e => _ ← set_storage_failed; throw e).

Definition idle : B unit :=
  failed ← get storage_failed_;
  s ← get state_;
  if (failed : bool) then throw_err unavailable "system journal requires recovery"
  else if is_pending s || (job_state (st_job s) ==? "accepted") || st_reset_intent s
  then throw_err busy "another system transaction is in progress"
  else mret tt.

Definition checkId (id : string) : B unit :=
  s ← get state_;
  if negb (is_pending s) || (id <>? nt_id (pd_transaction (st_pending s)))
  then throw_err invalid_argument "network transaction is no longer pending"
  else mret tt.

Definition settle_code (commit : bool) (reason : string) : string :=
  if commit then "network_configuration_committed"
  else if reason ==? "cancel" then "network_configuration_cancelled"
  else if reason ==? "timeout" then "network_configuration_timed_out"
  else "network_configuration_rolled_back".

Definition settle_message (commit : bool) (reason : string) : string :=
  if commit then "Network settings confirmed"
  else if reason ==? "cancel" then "Network settings cancelled"
  else if reason ==? "timeout" then "Network settings confirmation timed out"
  else "Network settings restored".

Definition settleNetwork (commit bootstrap : bool) (reason : string) : B unit :=
  s ← get state_;
  let next := if commit then nt_network (pd_transaction (st_pending s)) else pd_previous (st_pending s) in
  _ ← network next bootstrap;
  _ ← update (fun s => with_configuration (set_network next (st_configuration s)) s);
  _ ← update (fun s => with_pending (with_transaction_state (if commit then "committed" else "rolled_back") 0
                                       (st_pending s)) s);
  _ ← persist;
  s ← get state_;
  event (settle_code commit reason) "network" (settle_message commit reason) (pd_actor (st_pending s))
    "configure_network" (if commit then "completed" else "rolled_back") "network" info (pd_request_id (st_pending s)).

Definition recoverNetwork (bootstrap : bool) : B unit :=
  s ← get state_;
  if negb (is_pending s) then mret tt
  else
    committed ←
      (if nt_state (pd_transaction (st_pending s)) ==? "committing" then
         hash ← fileHash (pf_active_settings profile_);
         mret (hash ==? pd_candidate_hash (st_pending s))
       else mret false);
    settleNetwork committed bootstrap (if bootstrap then "recovery" else "timeout").

Definition storageStatus (path : string) : B StorageBootStatus :=
  input ← host (readFile path 1048576);
  match read_status input with
  | None => throw_err unavailable "invalid storage boot status"
  | Some status => mret status
  end.

(** *** Construction, boot and start *)

(** [if (state_.configuration.time.ptp_interface.empty()) ...] of the constructor. *)
Definition migrate (s : State) : State :=
  if empty (tp_ptp_interface (cf_time (st_configuration s)))
  then with_configuration (set_ptp_interface (tp_ptp_interface (cf_time (pf_defaults profile_))) (st_configuration s)) s
  else s.

Definition construct : B unit :=
  _ ← host (create_directories (pf_state_directory profile_));
  _ ← host (permissions (pf_state_directory profile_));
  found ← host (exists_ state_path);
  _ ← (if (found : bool) then
         text ← host (readFile state_path 1048576);
         s ← lift (decode max_message_size text);
         update (fun _ => s)
       else update (with_configuration (pf_defaults profile_)));
  update migrate.

Definition durable_remove (path : string) : B unit := noting (Removed path) (host (durableRemove path)).

(** [network], [sshBootPolicy] and [clockBootPolicy] for the configuration. *)
Definition boot_policies : B unit :=
  c ← get (fun b => st_configuration (state_ b));
  _ ← network (pr_network (cf_system c)) true;
  _ ← sshBootPolicy (pr_ssh_enabled (cf_system c));
  clockBootPolicy (cf_time c).

Definition bootstrap_reset : B unit :=
  _ ← (if negb (empty (pf_storage_status_file profile_)) then
         status ← storageStatus (pf_storage_status_file profile_);
         when (negb (sb_reset_prepared status)) (throw_err unavailable "storage reset recovery did not complete")
       else mret tt);
  _ ← for_each durable_remove (pf_reset_paths profile_);
  _ ← update (with_configuration (pf_defaults profile_));
  _ ← update (with_initialized true);
  _ ← update (with_pending default_Pending);
  _ ← boot_policies;
  _ ← update (with_reset_intent false);
  _ ← update (with_job_state "completed");
  _ ← persist;
  s ← get state_;
  event "device_reset_completed" "administration" "Device reset completed" (st_job_actor s) "device_reset"
    "completed" "device" info (st_job_request_id s).

Definition bootstrap : B unit :=
  s ← get state_;
  _ ← (if st_reset_intent s then bootstrap_reset
       else if st_initialized s then
         _ ← recoverNetwork true;
         boot_policies
       else
         match pf_boot_preferences profile_ with
         | Some boot =>
             _ ← update (with_configuration (bp_initial boot));
             _ ← boot_policies;
             _ ← update (with_initialized true);
             persist
         | None => clockBootPolicy (cf_time (pf_defaults profile_))
         end);
  match pf_boot_preferences profile_ with
  | Some boot =>
      _ ← update (fun s => with_configuration (set_hostname (bp_managed_hostname boot) (st_configuration s)) s);
      h ← get (fun b => pr_hostname (cf_system (st_configuration (state_ b))));
      _ ← bootHostname h;
      persist
  | None => mret tt
  end.

Definition start : B unit :=
  s ← get state_;
  if st_reset_intent s then
    t ← now;
    set_job_deadline (u64 (t + 5000))
  else
    _ ← (if negb (st_initialized s) then
           c ← ask platform_discover;
           _ ← update (with_configuration c);
           _ ← lift (validate c);
           _ ← update (with_initialized true);
           persist
         else mret tt);
    _ ← recoverNetwork false;
    s ← get state_;
    when (job_state (st_job s) ==? "accepted")
      (_ ← update (with_job_state "interrupted");
       _ ← persist;
       s ← get state_;
       event "system_operation_interrupted" "administration" "System operation interrupted" (st_job_actor s)
         (job_action (st_job s)) "interrupted" "device" warning (st_job_request_id s)).

(** *** The periodic work *)

Definition dispatch_job : B unit :=
  _ ← set_job_deadline 0;
  _ ← update (with_job_state "dispatched");
  _ ← persist;
  try_catch
    (s ← get state_;
     _ ← power_off (if job_action (st_job s) ==? "shutdown" then shutdown else reboot);
     event "system_operation_dispatched" "administration" "System operation dispatched" (st_job_actor s)
       (job_action (st_job s)) "dispatched" "device" info (st_job_request_id s))
    (fun e =>
       _ ← update (with_job_state "failed");
       _ ← persist;
       s ← get state_;
       _ ← event "system_operation_failed" "administration" "System operation failed" (st_job_actor s)
             (job_action (st_job s)) "failed" "device" error (st_job_request_id s);
       throw e).

Definition tick : B unit :=
  failed ← get storage_failed_;
  if (failed : bool) then throw_err unavailable "system journal requires recovery"
  else
    t ← now;
    next ← get next_network_observation_;
    _ ← when (next <=? t) (t ← now; _ ← set_next_observation (u64 (t + 1000)); observeNetwork);
    s ← get state_;
    _ ← when (is_pending s) (t ← now; when (pd_deadline (st_pending s) <=? t) (recoverNetwork false));
    deadline ← get job_deadline_;
    when (negb (deadline =? 0)) (t ← now; when (deadline <=? t) dispatch_job).

(** *** Requests *)

Definition status : B SystemStatus :=
  result ← ask platform_status;
  c ← get (fun b => st_configuration (state_ b));
  mret (mkSystemStatus c (ss_network result) (ss_ptp_interfaces result) (ss_irig_selectable result)
          (ss_ssh_listening result) (ss_kernel_release result) (ss_operating_system result)).

Definition job : B Job := get (fun b => st_job (state_ b)).

(** The hostname of a product with boot preferences is fixed. *)
Definition check_hostname (c : Configuration) : B unit :=
  match pf_boot_preferences profile_ with
  | Some boot =>
      when (pr_hostname (cf_system c) <>? bp_managed_hostname boot)
        (throw_err invalid_argument "hostname is managed by production identity")
  | None => mret tt
  end.

(** The handler of [apply]: the previous configuration is put back. *)
Definition restore (previous : Configuration) (e : exn) : B unit :=
  _ ← update (with_configuration previous);
  _ ← try_catch
        (_ ← preferences previous;
         _ ← sshBootPolicy (pr_ssh_enabled (cf_system previous));
         persist)
        (fun _ => throw_err apply_failed "preferences failed and rollback needs recovery");
  throw e.

Definition apply (config : Configuration) : B unit :=
  _ ← idle;
  _ ← lift (validate config);
  _ ← check_hostname config;
  _ ← ask (platform_validateConfiguration config);
  s ← get state_;
  _ ← when (st_initialized s && (pr_network (cf_system config) <>? pr_network (cf_system (st_configuration s))))
        (throw_err invalid_argument "network changes require a confirmation transaction");
  let previous := st_configuration s in
  try_catch
    (_ ← preferences config;
     _ ← sshBootPolicy (pr_ssh_enabled (cf_system config));
     _ ← update (with_configuration config);
     _ ← update (with_initialized true);
     persist)
    (restore previous).

Definition networkTransaction : B NetworkTransaction :=
  _ ← tick;
  s ← get state_;
  let t := pd_transaction (st_pending s) in
  remaining ←
    (if is_pending s then
       first ← now;
       if first <? pd_deadline (st_pending s) then
         second ← now;
         mret (u64 (pd_deadline (st_pending s) - second))
       else mret 0
     else mret 0);
  mret (mkNetworkTransaction (nt_id t) (nt_state t) remaining (nt_network t) (nt_message t)).

Definition beginNetwork (p : NetworkProposal) (actor request_id : string) : B NetworkTransaction :=
  _ ← idle;
  s ← get state_;
  let config := set_network (np_network p) (st_configuration s) in
  _ ← lift (validate config);
  _ ← check_hostname config;
  _ ← ask (platform_validateConfiguration config);
  stale ←
    (if negb (validHash (np_previous_settings_hash p)) || negb (validHash (np_candidate_settings_hash p)) ||
        (np_previous_settings_hash p ==? np_candidate_settings_hash p)
     then mret true
     else
       hash ← fileHash (pf_active_settings profile_);
       mret (hash <>? np_previous_settings_hash p));
  _ ← when (stale : bool) (throw_err invalid_argument "settings changed before network proposal");
  id ← host randomId;
  t ← now;
  _ ← update (with_pending
         (mkPending
            (mkNetworkTransaction id "pending" 120000 (np_network p)
               "Confirm within 120 seconds to retain these addresses")
            (pr_network (cf_system (st_configuration s))) (np_previous_settings_hash p)
            (np_candidate_settings_hash p) (u64 (t + 120000)) actor request_id));
  _ ← persist;
  _ ← try_catch (network (np_network p) false)
        (fun e => _ ← settleNetwork false false "recovery"; throw e);
  s ← get state_;
  _ ← event "network_configuration_pending" "network" "Network settings await confirmation"
        (pd_actor (st_pending s)) "configure_network" "pending" "network" info (pd_request_id (st_pending s));
  networkTransaction.

Definition prepareNetworkCommit (id : string) : B unit :=
  _ ← tick;
  _ ← checkId id;
  s ← get state_;
  if nt_state (pd_transaction (st_pending s)) ==? "committing" then mret tt
  else
    hash ← fileHash (pf_active_settings profile_);
    _ ← when (hash <>? pd_previous_hash (st_pending s))
          (throw_err invalid_argument "settings changed during network proposal");
    _ ← update (fun s => with_pending (with_transaction_state "committing"
           (nt_remaining_ms (pd_transaction (st_pending s))) (st_pending s)) s);
    t ← now;
    _ ← update (fun s => with_pending (with_deadline (u64 (t + 30000)) (st_pending s)) s);
    persist.

Definition finishNetwork (id : string) (commit : bool) (actor request_id : string) : B unit :=
  s ← get state_;
  if (id ==? nt_id (pd_transaction (st_pending s))) &&
     (nt_state (pd_transaction (st_pending s)) ==? (if commit then "committed" else "rolled_back"))
  then mret tt
  else
    _ ← checkId id;
    _ ← when commit
          (missing ←
             (if nt_state (pd_transaction (st_pending s)) <>? "committing" then mret true
              else
                hash ← fileHash (pf_active_settings profile_);
                mret (hash <>? pd_candidate_hash (st_pending s)));
           when (missing : bool) (throw_err invalid_argument "candidate settings have not been persisted"));
    _ ← when (negb commit && (nt_state (pd_transaction (st_pending s)) ==? "committing"))
          (hash ← fileHash (pf_active_settings profile_);
           when (hash ==? pd_candidate_hash (st_pending s)) (throw_err busy "network settings already committed"));
    _ ← update (fun s => with_pending (with_audit actor request_id (st_pending s)) s);
    settleNetwork commit false "cancel".

(** What [power] and [resetDevice] do once the job is recorded in [state_]. *)
Definition accept_job : B Job :=
  _ ← persist;
  s ← get state_;
  let reset := job_action (st_job s) ==? "device_reset" in
  _ ← event (if reset then "device_reset_requested" else "power_requested") "administration"
        (if reset then "Device reset requested" else "Power operation requested") (st_job_actor s)
        (job_action (st_job s)) "accepted" "device" info (st_job_request_id s);
  t ← now;
  _ ← set_job_deadline (u64 (t + 5000));
  mret (st_job s).

(** The check of the enumerator is left out: [PowerAction] has no other values. *)
Definition power (action : PowerAction) (actor request_id : string) : B Job :=
  _ ← idle;
  id ← host randomId;
  _ ← update (with_job (mkJob id (match action with reboot => "reboot" | shutdown => "shutdown" end) "accepted"));
  _ ← update (with_job_audit actor request_id);
  accept_job.

Definition resetDevice (confirmed : bool) (actor request_id : string) : B Job :=
  if negb confirmed then throw_err invalid_argument "whole-device reset requires explicit confirmation"
  else
    _ ← idle;
    _ ← (if negb (empty (pf_storage_status_file profile_)) then
           status ← storageStatus (pf_storage_status_file profile_);
           when (negb (sb_factory_reset status)) (throw_err unavailable "factory reset requires persistent state and data")
         else mret tt);
    id ← host randomId;
    _ ← update (with_job (mkJob id "device_reset" "accepted"));
    _ ← update (with_reset_intent true);
    _ ← update (with_job_audit actor request_id);
    accept_job.

End operations.
