(* ===== verification/BackendSpec.v ===== *)
(** * What the system manager promises

    An abstract machine over what matters of a [Backend]: its state, the journal
    on disk, the active settings file of the settings authority, and the trace.
    [change] lists the changes the journal may record, each with its guard; a
    [micro] step records one of them (in full or failing half way), calls the
    platform within its contract, or logs; [life] adds the outside world: the
    settings authority, and restarts of the process at any moment. *)

From S2P Require Import Prelude SystemTypes Validation Effects Protocol Logging Host Backend.

Record view := mkView {
  v_state : State;
  v_failed : bool;             (* storage_failed_ *)
  v_deadline : Z;              (* job_deadline_ *)
  v_journal : option string;   (* contents of state.json *)
  v_active : option string;    (* contents of the active settings *)
  v_trace : list trace_event
}.

Definition v_with_state (s : State) (v : view) : view :=
  mkView s (v_failed v) (v_deadline v) (v_journal v) (v_active v) (v_trace v).

Definition v_with_failed (v : view) : view :=
  mkView (v_state v) true (v_deadline v) (v_journal v) (v_active v) (v_trace v).

Definition v_with_deadline (d : Z) (v : view) : view :=
  mkView (v_state v) (v_failed v) d (v_journal v) (v_active v) (v_trace v).

Definition v_with_journal (j : option string) (v : view) : view :=
  mkView (v_state v) (v_failed v) (v_deadline v) j (v_active v) (v_trace v).

Definition v_with_active (c : option string) (v : view) : view :=
  mkView (v_state v) (v_failed v) (v_deadline v) (v_journal v) c (v_trace v).

Definition v_note (e : trace_event) (v : view) : view :=
  mkView (v_state v) (v_failed v) (v_deadline v) (v_journal v) (v_active v) (e :: v_trace v).

Abbreviation tx_state s := (nt_state (pd_transaction (st_pending s))).
Abbreviation tx_network s := (nt_network (pd_transaction (st_pending s))).
Abbreviation net_of s := (pr_network (cf_system (st_configuration s))).

(** The states of a well-formed journal: a valid configuration and, while a
    network transaction is open, the network in force before it and a valid
    candidate under two different settings. *)
Record wf (s : State) : Prop := {
  wf_configuration : configuration_ok (st_configuration s);
  wf_initialized : is_pending s = true -> st_initialized s = true;
  wf_previous : is_pending s = true -> pd_previous (st_pending s) = net_of s;
  wf_candidate : is_pending s = true -> network_ok (tx_network s);
  wf_hashes : is_pending s = true -> pd_previous_hash (st_pending s) <> pd_candidate_hash (st_pending s)
}.

(** A state in which [idle] accepts a new operation. *)
Definition at_ease (s : State) : Prop :=
  is_pending s = false /\ job_state (st_job s) <> "accepted" /\ st_reset_intent s = false.

(** The end of a network transaction. *)
Definition settled (commit : bool) (s : State) : State :=
  let next := if commit then tx_network s else pd_previous (st_pending s) in
  with_pending (with_transaction_state (if commit then "committed" else "rolled_back") 0 (st_pending s))
    (with_configuration (set_network next (st_configuration s)) s).

Section spec.
Context {JS : Json State}.
Context (sha256 : string -> option (list Z)) (profile_ : Profile).

(** What [fileHash] returns for contents, when it returns. *)
Definition hash_of (contents : option string) (hash : string) : Prop :=
  match contents with
  | None => hash = ""
  | Some c => exists digest, sha256 c = Some digest /\ hash = hex_bytes digest
  end.

(** [change booting active removed s s']: the journal may go from [s] to [s']
    while the active settings file holds [active] and the paths [removed] were
    removed. Some changes only happen while the device or the daemon starts. *)
Inductive change (booting : bool) (active : option string) (removed : list string) (s : State) : State -> Prop :=
  | change_same : change booting active removed s s
  | change_propose next :
      at_ease s -> st_initialized s = true -> nt_state (pd_transaction next) = "pending" -> pd_previous next = net_of s ->
      network_ok (nt_network (pd_transaction next)) ->
      pd_previous_hash next <> pd_candidate_hash next -> hash_of active (pd_previous_hash next) ->
      change booting active removed s (with_pending next s)
  | change_prepare deadline :
      tx_state s = "pending" -> hash_of active (pd_previous_hash (st_pending s)) ->
      change booting active removed s
        (with_pending (with_deadline deadline
           (with_transaction_state "committing" (nt_remaining_ms (pd_transaction (st_pending s))) (st_pending s))) s)
  | change_commit :
      tx_state s = "committing" -> hash_of active (pd_candidate_hash (st_pending s)) ->
      change booting active removed s (settled true s)
  | change_rollback :
      is_pending s = true ->
      (tx_state s = "committing" -> exists hash, hash_of active hash /\ hash <> pd_candidate_hash (st_pending s)) ->
      change booting active removed s (settled false s)
  | change_apply c :
      at_ease s -> configuration_ok c -> (st_initialized s = true -> pr_network (cf_system c) = net_of s) ->
      change booting active removed s (with_initialized true (with_configuration c s))
  | change_discover c :
      booting = true -> st_initialized s = false -> st_reset_intent s = false -> configuration_ok c ->
      change booting active removed s (with_initialized true (with_configuration c s))
  | change_accept j actor request_id (reset : bool) :
      at_ease s -> job_state j = "accepted" -> (reset = true -> job_action j = "device_reset") ->
      change booting active removed s (with_job_audit actor request_id (with_reset_intent reset (with_job j s)))
  | change_job_state js :
      js ∈ ["dispatched"; "failed"; "interrupted"] ->
      change booting active removed s (with_job_state js s)
  | change_reset_done :
      booting = true -> st_reset_intent s = true -> Forall (fun path => path ∈ removed) (pf_reset_paths profile_) ->
      change booting active removed s
        (with_job_state "completed" (with_reset_intent false (with_pending default_Pending
           (with_initialized true (with_configuration (pf_defaults profile_) s)))))
  | change_hostname boot :
      booting = true -> pf_boot_preferences profile_ = Some boot ->
      change booting active removed s
        (with_configuration (set_hostname (bp_managed_hostname boot) (st_configuration s)) s).

Definition removed_paths (trace : list trace_event) : list string :=
  omap (fun e => match e with Removed p true => Some p | _ => None end) trace.

(** The contract of the platform: it is only asked to apply what was validated,
    and to stop the machine only right after the journal recorded that. *)
Definition call_ok (trace : list trace_event) (c : call) : Prop :=
  match c with
  | CallPreferences c => configuration_ok c
  | CallBootHostname h => exists boot, pf_boot_preferences profile_ = Some boot /\ h = bp_managed_hostname boot
  | CallNetwork n _ => network_ok n
  | CallSshBootPolicy _ => True
  | CallClockBootPolicy t => time_ok t
  | CallPower a =>
      exists s rest, trace = Wrote s true :: rest /\ job_state (st_job s) = "dispatched" /\
        a = (if job_action (st_job s) ==? "shutdown" then shutdown else reboot)
  end.

Inductive micro (booting : bool) (v : view) : view -> Prop :=
  | micro_write s t :   (* the journal is written *)
      change booting (v_active v) (removed_paths (v_trace v)) (v_state v) s -> v_failed v = false -> encode s = Return t ->
      micro booting v (v_note (Wrote s true) (v_with_journal (Some t) (v_with_state s v)))
  | micro_write_fails s t j :   (* the write fails: the journal is the old or the new one *)
      change booting (v_active v) (removed_paths (v_trace v)) (v_state v) s -> v_failed v = false -> encode s = Return t ->
      j = v_journal v \/ j = Some t ->
      micro booting v (v_with_failed (v_note (Wrote s false) (v_with_journal j (v_with_state s v))))
  | micro_encode_fails s :
      change booting (v_active v) (removed_paths (v_trace v)) (v_state v) s -> v_failed v = false ->
      micro booting v (v_with_failed (v_with_state s v))
  | micro_unrecorded s :   (* after a failed write the state changes in memory only *)
      change booting (v_active v) (removed_paths (v_trace v)) (v_state v) s -> v_failed v = true ->
      micro booting v (v_with_state s v)
  | micro_restore c :   (* [apply] puts the previous configuration back after a failed write *)
      v_failed v = true -> at_ease (v_state v) -> configuration_ok c -> pr_network (cf_system c) = net_of (v_state v) ->
      micro booting v (v_with_state (with_configuration c (v_state v)) v)
  | micro_audit actor request_id :
      is_pending (v_state v) = true ->
      micro booting v (v_with_state (with_pending (with_audit actor request_id (st_pending (v_state v))) (v_state v)) v)
  | micro_call c ok : call_ok (v_trace v) c -> micro booting v (v_note (Called c ok) v)
  | micro_remove path ok active :
      booting = true -> st_reset_intent (v_state v) = true -> path ∈ pf_reset_paths profile_ ->
      micro booting v (v_note (Removed path ok) (v_with_active active v))
  | micro_log record : micro booting v (v_note (Logged record) v)
  | micro_deadline d : micro booting v (v_with_deadline d v).

(** The state a new process starts from. The constructor also refuses a journal
    above [max_message_size]: see [journal_state_decodes]. *)
Definition journal_state (j : option string) (s : State) : Prop :=
  match j with
  | None => s = with_configuration (pf_defaults profile_) default_State
  | Some t => read_json t = inr s
  end.

(** A journal within the limit is decoded to its state. *)
Lemma journal_state_decodes j s t :
  journal_state j s -> j = Some t -> size_of t <= max_message_size -> decode max_message_size t = Return s.
Proof. intros Hj -> Hs. unfold decode. rewrite (proj2 (Z.ltb_ge _ _)) by done. cbn in Hj. by rewrite Hj. Qed.

(** One step of the life of the system: of the manager, of the settings
    authority, or the end of the process at any moment and its next start. *)
Inductive life (v : view) : view -> Prop :=
  | life_micro v' : micro true v v' -> life v v'
  | life_settings active : life v (v_with_active active v)
  | life_restart s :
      journal_state (v_journal v) s ->
      life v (mkView (migrate profile_ s) false 0 (v_journal v) (v_active v) (v_trace v)).

End spec.
