(* ===== verification/BackendLogic.v ===== *)
(** * A program logic for [Backend]

    [vwp m Q E v]: run from any object whose view is [v], the computation [m]
    ends in a view that satisfies [Q] or throws in one that satisfies [E]. One
    rule per primitive, derived from the laws of the host; the rule of [persist]
    is stated with the steps of the abstract machine. *)

From S2P Require Import Prelude SystemTypes Validation Effects Protocol Logging Host Backend BackendSpec.

(** What the product profile must satisfy: it is checked when it is loaded,
    and its files are distinct. *)
Class ProfileOk (profile_ : Profile) : Prop := {
  profile_defaults : configuration_ok (pf_defaults profile_);
  profile_initial boot : pf_boot_preferences profile_ = Some boot -> configuration_ok (bp_initial boot);
  profile_hostname boot : pf_boot_preferences profile_ = Some boot -> hostname_ok (bp_managed_hostname boot);
  profile_active : apart (state_path profile_) (pf_active_settings profile_);
  profile_reset : Forall (fun p => under p (state_path profile_) = false) (pf_reset_paths profile_)
}.

(** The journal and the settings file are files that the platform leaves alone. *)
Class Owned (own : string -> Prop) (profile_ : Profile) : Prop := {
  own_state : own (state_path profile_);
  own_active : own (pf_active_settings profile_)
}.

Section logic.
Context {P H : Type} {PL : Platform P H} {HO : Host H} {HL : HostLaws H} {JS : Json State}.
Context (sha256 : string -> option (list Z)) (read_status : string -> option StorageBootStatus).
Context (booting : bool) (profile_ : Profile) {PO : ProfileOk profile_}.

Abbreviation B := (eff (Backend P H)).
Abbreviation micro := (micro sha256 profile_ booting).

Definition view_of (b : Backend P H) : view :=
  mkView (state_ b) (storage_failed_ b) (job_deadline_ b) (file (host_ b) (state_path profile_))
    (file (host_ b) (pf_active_settings profile_)) (trace_ b).

Definition vwp {A} (m : B A) (Q : A -> view -> Prop) (E : exn -> view -> Prop) (v : view) : Prop :=
  forall b, view_of b = v -> wp m (fun a b' => Q a (view_of b')) (fun e b' => E e (view_of b')) b.

Lemma vwp_mono {A} (m : B A) (Q Q' : A -> view -> Prop) (E E' : exn -> view -> Prop) v :
  vwp m Q E v -> (forall a v', Q a v' -> Q' a v') -> (forall e v', E e v' -> E' e v') -> vwp m Q' E' v.
Proof. intros Hm HQ HE b Hb. eapply wp_mono; [by apply Hm | auto | auto]. Qed.

Lemma vwp_bind {A C} (m : B A) (f : A -> B C) Q E v :
  vwp m (fun a => vwp (f a) Q E) E v -> vwp (m ≫= f) Q E v.
Proof.
  intros Hm b Hb. apply wp_bind. eapply wp_mono; [by apply Hm | | done]. intros a b' Hf. by apply Hf.
Qed.

Lemma vwp_ret {A} (a : A) (Q : A -> view -> Prop) E v : Q a v -> vwp (mret a) Q E v.
Proof. intros HQ b <-. done. Qed.

Lemma vwp_throw {A} e (Q : A -> view -> Prop) (E : exn -> view -> Prop) v : E e v -> vwp (throw e) Q E v.
Proof. intros HE b <-. done. Qed.

Lemma vwp_try {A} (m : B A) h Q E v : vwp m Q (fun e => vwp (h e) Q E) v -> vwp (try_catch m h) Q E v.
Proof.
  intros Hm b Hb. apply wp_try. eapply wp_mono; [by apply Hm | done|]. intros e b' Hh. by apply Hh.
Qed.

Lemma vwp_when (c : bool) (m : B unit) Q E v :
  (c = true -> vwp m Q E v) -> (c = false -> Q tt v) -> vwp (when c m) Q E v.
Proof. intros H1 H2. destruct c; [by apply H1 | by apply vwp_ret, H2]. Qed.

Lemma vwp_lift {A} (m : outcome A) (Q : A -> view -> Prop) (E : exn -> view -> Prop) v :
  (forall a, m = Return a -> Q a v) -> (forall e, m = Throw e -> E e v) -> vwp (lift m) Q E v.
Proof. intros HQ HE b <-. unfold wp, lift. destruct m; auto. Qed.

Lemma vwp_get {A} (f : Backend P H -> A) (g : view -> A) (Q : A -> view -> Prop) E v :
  (forall b, f b = g (view_of b)) -> Q (g v) v -> vwp (get f) Q E v.
Proof. intros Hf HQ b <-. unfold wp, get, gets. by rewrite Hf. Qed.

Lemma vwp_get_any {A} (f : Backend P H -> A) (Q : A -> view -> Prop) E v :
  (forall a, Q a v) -> vwp (get f) Q E v.
Proof. intros HQ b <-. apply HQ. Qed.

Lemma vwp_update f (Q : unit -> view -> Prop) E v :
  Q tt (v_with_state (f (v_state v)) v) -> vwp (update f) Q E v.
Proof. intros HQ b <-. exact HQ. Qed.

Lemma vwp_note e (Q : unit -> view -> Prop) E v : Q tt (v_note e v) -> vwp (note e) Q E v.
Proof. intros HQ b <-. exact HQ. Qed.

Lemma vwp_set_job_deadline d (Q : unit -> view -> Prop) E v :
  Q tt (v_with_deadline d v) -> vwp (set_job_deadline d) Q E v.
Proof. intros HQ b <-. exact HQ. Qed.

Lemma vwp_set_storage_failed (Q : unit -> view -> Prop) E v :
  Q tt (v_with_failed v) -> vwp set_storage_failed Q E v.
Proof. intros HQ b <-. exact HQ. Qed.

Lemma vwp_set_next_observation t (Q : unit -> view -> Prop) E v : Q tt v -> vwp (set_next_observation t) Q E v.
Proof. intros HQ b <-. exact HQ. Qed.

Lemma vwp_set_carriers f (Q : unit -> view -> Prop) E v : Q tt v -> vwp (set_carriers f) Q E v.
Proof. intros HQ b <-. exact HQ. Qed.

(** Asking the platform leaves the view as it is. *)
Lemma ask_view {A} own `{!Framed own f} `{!Owned own profile_} (b : Backend P H) : view_of (fst (ask (A := A) f b)) = view_of b.
Proof.
  unfold ask. pose proof (framed (f := f) (platform_ b, host_ b)) as Hf. destruct (f (platform_ b, host_ b)) as [[p h] r].
  cbn in Hf. unfold view_of. cbn. by rewrite !Hf by first [apply own_state | apply own_active].
Qed.

Lemma vwp_ask {A} {own} {OW : Owned own profile_} (f : operation P H A) {FR : Framed own f} (Q : A -> view -> Prop) (E : exn -> view -> Prop) v :
  (forall a, Q a v) -> (forall e, E e v) -> vwp (ask f) Q E v.
Proof.
  intros HQ HE b <-. unfold wp. pose proof (ask_view own b) as Hv. destruct (ask f b) as [b' [a|e]]; cbn in Hv; rewrite Hv; auto.
Qed.

(** A function of the host that changes no file; its result may depend on them. *)
Lemma vwp_host {A} (f : H -> H * outcome A) (Q : A -> view -> Prop) (E : exn -> view -> Prop) v :
  (forall h q, file (fst (f h)) q = file h q) ->
  (forall h, file h (state_path profile_) = v_journal v -> file h (pf_active_settings profile_) = v_active v ->
     match snd (f h) with Return a => Q a v | Throw e => E e v end) ->
  vwp (host f) Q E v.
Proof.
  intros Hf HQ b Hb. unfold wp, host. specialize (Hf (host_ b)). specialize (HQ (host_ b)).
  destruct (f (host_ b)) as [h r]. cbn [fst snd] in *.
  assert (Hv : view_of (mkBackend (state_ b) (carriers_ b) (next_network_observation_ b) (storage_failed_ b)
    (job_deadline_ b) (platform_ b) h (trace_ b)) = v) by (rewrite <-Hb; unfold view_of; cbn; by rewrite !Hf).
  destruct r; rewrite Hv; apply HQ; by rewrite <-Hb.
Qed.

Lemma vwp_query {A} (f : H -> H * outcome A) (Q : A -> view -> Prop) (E : exn -> view -> Prop) v :
  (forall h q, file (fst (f h)) q = file h q) -> (forall a, Q a v) -> (forall e, E e v) -> vwp (host f) Q E v.
Proof. intros Hf HQ HE. apply vwp_host; [done|]. intros h _ _. destruct (snd (f h)); auto. Qed.

Lemma vwp_now (Q : Z -> view -> Prop) E v : (forall t, Q t v) -> vwp now Q E v.
Proof.
  intros HQ. apply vwp_host; [apply clock_frame|]. intros h _ _. destruct (clock_returns h) as (t & -> & _). auto.
Qed.

Lemma vwp_noting (f : bool -> trace_event) (m : B unit) (Q : unit -> view -> Prop) (E : exn -> view -> Prop) v :
  vwp m (fun _ v' => Q tt (v_note (f true) v')) (fun e v' => E e (v_note (f false) v')) v ->
  vwp (noting f m) Q E v.
Proof.
  intros Hm. unfold noting. apply vwp_bind, vwp_try. eapply vwp_mono; [exact Hm | |]; cbv beta.
  - intros a v' HQ. by apply vwp_note.
  - intros e v' HE. by apply vwp_bind, vwp_note, vwp_throw.
Qed.

Lemma vwp_call {own} {OW : Owned own profile_} c f {FR : Framed own f} (Q : unit -> view -> Prop) (E : exn -> view -> Prop) v :
  Q tt (v_note (Called c true) v) -> (forall e, E e (v_note (Called c false) v)) -> vwp (call_platform c f) Q E v.
Proof. intros HQ HE. apply vwp_noting, (vwp_ask (own := own)); auto. Qed.

Lemma vwp_event code category message actor action outcome subject priority request_id (Q : unit -> view -> Prop) E v :
  Q tt v -> (forall r, Q tt (v_note (Logged r) v)) ->
  vwp (event code category message actor action outcome subject priority request_id) Q E v.
Proof. intros H1 H2. unfold event. destruct (UserLog_record _ _ _); [by apply vwp_note | by apply vwp_ret]. Qed.

(** [fileHash] of the active settings. *)
Lemma vwp_fileHash (Q : string -> view -> Prop) (E : exn -> view -> Prop) v :
  (forall hash, hash_of sha256 (v_active v) hash -> Q hash v) -> (forall e, E e v) ->
  vwp (fileHash sha256 (pf_active_settings profile_)) Q E v.
Proof.
  intros HQ HE. unfold fileHash. apply vwp_bind, vwp_host; [intros; apply exists_frame|].
  intros h _ Hact. destruct (snd (exists_ _ h)) as [[]|e] eqn:Ex; [| |apply HE]; cbn [negb].
  2:{ apply vwp_ret, HQ. rewrite <-Hact, (exists_false _ _ Ex). done. }
  clear h Hact Ex. apply vwp_bind, vwp_host; [intros; apply readFile_frame|].
  intros h _ Hact. destruct (snd (readFile _ _ h)) as [c|e] eqn:Er; [|apply HE].
  apply readFile_ok in Er as [Hc _]. destruct (sha256 c) as [digest|] eqn:Ed; [|by apply vwp_throw].
  apply vwp_ret, HQ. rewrite <-Hact, Hc. by exists digest.
Qed.

Lemma vwp_storageStatus path (Q : StorageBootStatus -> view -> Prop) (E : exn -> view -> Prop) v :
  (forall st, Q st v) -> (forall e, E e v) -> vwp (storageStatus read_status path) Q E v.
Proof.
  intros HQ HE. apply vwp_bind, vwp_query; [intros; apply readFile_frame | | done]. intros input.
  destruct (read_status input); [by apply vwp_ret | by apply vwp_throw].
Qed.

Lemma vwp_atomicWrite t (Q : unit -> view -> Prop) (E : exn -> view -> Prop) v :
  Q tt (v_with_journal (Some t) v) ->
  (forall e j, j = v_journal v \/ j = Some t -> E e (v_with_journal j v)) ->
  vwp (host (atomicWrite (state_path profile_) t)) Q E v.
Proof.
  intros HQ HE b Hb. unfold wp, host.
  pose proof (atomicWrite_ok (host_ b) (state_path profile_) t) as Hok.
  pose proof (atomicWrite_fail (host_ b) (state_path profile_) t) as Hfail.
  pose proof (atomicWrite_frame (host_ b) (state_path profile_) t _ profile_active) as Hact.
  destruct (atomicWrite (state_path profile_) t (host_ b)) as [h [[]|e]]; cbn [fst snd] in *.
  - specialize (Hok eq_refl). unfold view_of. cbn. rewrite Hok, Hact. by rewrite <-Hb in HQ.
  - specialize (Hfail e eq_refl). specialize (HE e (file h (state_path profile_))). rewrite <-Hb in HE.
    unfold view_of. cbn. rewrite Hact. by apply HE.
Qed.

(** [persist] in a state that the abstract machine may record. *)
Lemma vwp_persist s v0 (Q : unit -> view -> Prop) (E : exn -> view -> Prop) :
  change sha256 profile_ booting (v_active v0) (removed_paths (v_trace v0)) (v_state v0) s ->
  (forall t, v_failed v0 = false -> encode s = Return t ->
     let v := v_note (Wrote s true) (v_with_journal (Some t) (v_with_state s v0)) in micro v0 v -> Q tt v) ->
  (forall e v, v_state v = s -> v_failed v = true -> v_deadline v = v_deadline v0 -> v_active v = v_active v0 ->
     removed_paths (v_trace v) = removed_paths (v_trace v0) -> micro v0 v -> E e v) ->
  vwp (persist profile_) Q E (v_with_state s v0).
Proof.
  intros Hc HQ HE. apply vwp_bind, (vwp_get _ v_failed); [done|]. cbv beta. cbn [v_failed v_with_state].
  destruct (v_failed v0) eqn:Ef.
  { apply vwp_throw, HE; try done. by apply micro_unrecorded. }
  apply vwp_try, vwp_bind, (vwp_get _ v_state); [done|]. apply vwp_bind, vwp_lift.
  2:{ intros e _. apply vwp_bind, vwp_set_storage_failed, vwp_throw, HE; try done.
      by apply micro_encode_fails. }
  intros t Ht. apply vwp_noting, vwp_atomicWrite.
  - apply HQ; [done | done|]. by apply micro_write.
  - intros e j Hj. apply vwp_bind, vwp_set_storage_failed, vwp_throw, HE; try done.
    by apply (micro_write_fails _ _ _ _ s t j).
Qed.

Lemma vwp_durable_remove path (Q : unit -> view -> Prop) (E : exn -> view -> Prop) v :
  path ∈ pf_reset_paths profile_ ->
  (forall c, Q tt (v_note (Removed path true) (v_with_active c v))) ->
  (forall e c, E e (v_note (Removed path false) (v_with_active c v))) ->
  vwp (durable_remove path) Q E v.
Proof.
  intros Hpath HQ HE. apply vwp_noting. intros b Hb. unfold wp, host.
  pose proof (profile_reset (profile_ := profile_)) as Hreset. rewrite Forall_forall in Hreset.
  pose proof (durableRemove_frame (host_ b) path _ (Hreset _ Hpath)) as Hj.
  destruct (durableRemove path (host_ b)) as [h [[]|e]]; cbn [fst] in Hj; unfold view_of; cbn; rewrite Hj.
  - specialize (HQ (file h (pf_active_settings profile_))). by rewrite <-Hb in HQ.
  - specialize (HE e (file h (pf_active_settings profile_))). by rewrite <-Hb in HE.
Qed.

(** From a judgement to a run. *)
Lemma vwp_run {A} (m : B A) (Q : A -> view -> Prop) (E : exn -> view -> Prop) b :
  vwp m Q E (view_of b) ->
  match m b with (b', Return a) => Q a (view_of b') | (b', Throw e) => E e (view_of b') end.
Proof. intros Hm. specialize (Hm b eq_refl). unfold wp in Hm. by destruct (m b) as [b' []]. Qed.

End logic.

#[global] Opaque vwp.
