(* ===== verification/BackendRefinement.v ===== *)
(** * The operations of [Backend] implement the abstract machine *)

From S2P Require Import Prelude SystemTypes Validation Effects Protocol Logging Host Backend BackendSpec BackendLogic.

(** A state after [start]. *)
Definition started (s : State) : Prop := st_initialized s = true \/ st_reset_intent s = true.

Lemma set_network_same c : set_network (pr_network (cf_system c)) c = c.
Proof. by destruct c as [[] ?]. Qed.

Lemma with_configuration_same s : with_configuration (st_configuration s) s = s.
Proof. by destruct s. Qed.

Lemma with_reset_intent_same s : with_reset_intent (st_reset_intent s) s = s.
Proof. by destruct s. Qed.

Lemma configuration_ok_network n c : configuration_ok c -> network_ok n -> configuration_ok (set_network n c).
Proof. by intros (? & ? & ?) ?. Qed.

Lemma configuration_ok_hostname h c : configuration_ok c -> hostname_ok h -> configuration_ok (set_hostname h c).
Proof. by intros (? & ? & ?) ?. Qed.

Lemma configuration_ok_get c : configuration_ok c -> network_ok (pr_network (cf_system c)).
Proof. by intros (? & ? & ?). Qed.

Lemma is_pending_spec s : is_pending s = true <-> tx_state s = "pending" \/ tx_state s = "committing".
Proof. unfold is_pending. by rewrite orb_true_iff, !bool_decide_eq_true. Qed.

Lemma committing_pending s : tx_state s = "committing" -> is_pending s = true.
Proof. intros E. apply is_pending_spec. by right. Qed.

#[export] Hint Resolve configuration_ok_network configuration_ok_hostname configuration_ok_get committing_pending : mnc.

Section invariants.
Context {JS : Json State} (sha256 : string -> option (list Z)) (profile_ : Profile) (booting : bool) {PO : ProfileOk profile_}.

Lemma change_wf active removed s s' : wf s -> change sha256 profile_ booting active removed s s' -> wf s'.
Proof.
  intros [Hc Hi Hp Hn Hh] Hch.
  destruct Hch as [|next Hease Hinit Htx Hprev Hnet Hhash Ha|deadline Htx Ha|Htx Ha|Hpend Ha|c Hease Hok Hsame
    |c Hboot Hinit Hr Hok|j actor rid reset Hease Hj Ha|js Hjs|Hboot Hr Hrem|boot Hboot Hb].
  - by split.
  - by split.
  - assert (Hpend : is_pending s = true) by (apply is_pending_spec; auto). split; cbn; auto.
  - split; cbn; [|done..]. apply configuration_ok_network; auto with mnc.
  - split; cbn; [|done..]. rewrite Hp, set_network_same by done. done.
  - destruct Hease as (Hpend & _). split; cbn; [done | by unfold is_pending in *; cbn in *; rewrite Hpend..].
  - assert (Hpend : is_pending s = false) by (destruct (is_pending s); [by rewrite Hi in Hinit | done]).
    split; cbn; [done | by unfold is_pending in *; cbn in *; rewrite Hpend..].
  - by split.
  - by split.
  - split; cbn; [apply profile_defaults | done..].
  - split; cbn; [|done..]. apply configuration_ok_hostname; [done | by eapply profile_hostname].
Qed.

Lemma change_started active removed s s' : started s -> change sha256 profile_ booting active removed s s' -> started s'.
Proof.
  unfold started. intros Hs Hch. destruct Hch as [| | | | | | |j actor rid reset (_ & _ & Hr)| | |]; cbn; auto.
  destruct Hs as [?|?]; [auto | congruence].
Qed.

Lemma micro_wf v v' : wf (v_state v) -> micro sha256 profile_ booting v v' -> wf (v_state v').
Proof.
  intros Hw Hm. destruct Hm as [s t Hc|s t j Hc|s Hc|s Hc|c Hf (Hp & _) Hok Hnet|actor rid| | | |]; cbn;
    try (by eapply change_wf); try done.
  - destruct Hw as [_ _ _ _ _]. split; cbn; [done | by unfold is_pending in *; cbn in *; rewrite Hp..].
  - destruct Hw as [Hc Hi Hpr Hn Hh]. by split.
Qed.

Lemma micro_started v v' : started (v_state v) -> micro sha256 profile_ booting v v' -> started (v_state v').
Proof. intros Hs Hm. destruct Hm; cbn; eauto using change_started. Qed.

(** [v] is reached from [v0] by steps of the abstract machine. *)
Definition reach (v0 v : view) : Prop :=
  rtc (micro sha256 profile_ booting) v0 v /\ wf (v_state v) /\ started (v_state v).

Lemma reach_refl v : wf (v_state v) -> started (v_state v) -> reach v v.
Proof. intros. split; [apply rtc_refl | done]. Qed.

Lemma reach_step v0 v v' : reach v0 v -> micro sha256 profile_ booting v v' -> reach v0 v'.
Proof.
  intros (Hr & Hw & Hs) Hm. split; [by eapply rtc_r|]. eauto using micro_wf, micro_started.
Qed.

End invariants.

#[export] Hint Resolve micro_log micro_deadline : mnc.

Section refinement.
Context {P H : Type} {PL : Platform P H} {HO : Host H} {HL : HostLaws H} {JS : Json State}.
Context (sha256 : string -> option (list Z)) (read_status : string -> option StorageBootStatus).
Context (profile_ : Profile) (booting : bool) {PO : ProfileOk profile_} {own : string -> Prop} {PW : PlatformLaws P H own} {OW : Owned own profile_}.

Abbreviation B := (eff (Backend P H)).
Abbreviation reach := (reach sha256 profile_ booting).
Abbreviation vwp := (@BackendLogic.vwp P H HO profile_ _).

(** The rules of the logic for this host and profile. *)
Abbreviation r_persist := (vwp_persist (HL := HL) (PO := PO) sha256 booting profile_).
Abbreviation r_fileHash := (vwp_fileHash (HL := HL) sha256 profile_).
Abbreviation r_storageStatus := (vwp_storageStatus (HL := HL) read_status profile_).
Abbreviation r_durable_remove := (vwp_durable_remove (HL := HL) (PO := PO) profile_).
Abbreviation r_now := (vwp_now (HL := HL) profile_).

Lemma step v0 v v' : reach v0 v -> micro sha256 profile_ booting v v' -> reach v0 v'.
Proof. by apply reach_step. Qed.

(** [m] takes an object from a reached view to a reached view, whether it
    returns or throws. *)
Definition refines {A} (m : B A) : Prop :=
  forall v0 v, reach v0 v -> vwp m (fun _ => reach v0) (fun _ => reach v0) v.

Lemma refines_bind {A C} (m : B A) (f : A -> B C) : refines m -> (forall a, refines (f a)) -> refines (m ≫= f).
Proof.
  intros Hm Hf v0 v Hv. apply vwp_bind. eapply vwp_mono; [by apply Hm | | done].
  intros a v' Hv'. by apply Hf.
Qed.

Lemma refines_ret {A} (a : A) : refines (mret a).
Proof. intros v0 v Hv. by apply vwp_ret. Qed.

Lemma refines_throw {A} e : refines (throw e : B A).
Proof. intros v0 v Hv. by apply vwp_throw. Qed.

Lemma refines_when c m : refines m -> refines (when c m).
Proof. intros Hm. destruct c; [done | apply refines_ret]. Qed.

Lemma refines_try {A} (m : B A) h : refines m -> (forall e, refines (h e)) -> refines (try_catch m h).
Proof.
  intros Hm Hh v0 v Hv. apply vwp_try. eapply vwp_mono; [by apply Hm | done|]. intros e v' Hv'. by apply Hh.
Qed.

Lemma refines_for_each {A} (f : A -> B unit) l : (forall x, refines (f x)) -> refines (for_each f l).
Proof. intros Hf. induction l; [apply refines_ret | by apply refines_bind]. Qed.

Lemma refines_lift {A} (m : outcome A) : refines (lift m).
Proof. intros v0 v Hv. by apply vwp_lift. Qed.

Lemma refines_get {A} (f : Backend P H -> A) : refines (get f).
Proof. intros v0 v Hv. by apply vwp_get_any. Qed.

Lemma refines_ask {A} (f : operation P H A) {FR : Framed own f} : refines (ask f).
Proof. intros v0 v Hv. by apply (vwp_ask _ (own := own) f). Qed.

Lemma refines_now : refines now.
Proof. intros v0 v Hv. by apply r_now. Qed.

Lemma refines_event code category message actor action outcome subject priority request_id :
  refines (event code category message actor action outcome subject priority request_id).
Proof.
  intros v0 v Hv. apply vwp_event; [done|]. intros r. eapply step; eauto with mnc.
Qed.

(** A public event is logged, or dropped; it never throws. *)
Lemma vwp_logged code category message actor action outcome subject priority request_id
    v0 v (Q : unit -> view -> Prop) (E : exn -> view -> Prop) :
  reach v0 v -> (forall v', reach v0 v' -> Q tt v') ->
  vwp (event code category message actor action outcome subject priority request_id) Q E v.
Proof. intros Hv HQ. apply vwp_event; [by apply HQ|]. intros r. apply HQ. eapply step; eauto with mnc. Qed.

Lemma refines_observe : refines (observeNetwork profile_).
Proof.
  apply refines_try; [|intros; apply refines_ret]. apply refines_bind; [apply (refines_ask platform_networkLinks)|]. intros links.
  apply refines_bind; [intros v0 v Hv; by apply vwp_set_carriers|]. intros _. apply refines_for_each. intros link.
  unfold observe_link. destruct (forallb _ _); [apply refines_ret|].
  apply refines_bind; [apply refines_get|]. intros previous. apply refines_bind.
  - destruct previous; [apply refines_when, refines_event | apply refines_ret].
  - intros _ v0 v Hv. by apply vwp_set_carriers.
Qed.

(** A call of the platform within its contract. *)
Lemma vwp_contract c f {FR : Framed own f} v0 v (Q : unit -> view -> Prop) (E : exn -> view -> Prop) :
  reach v0 v -> call_ok profile_ (v_trace v) c ->
  (forall ok, reach v0 (v_note (Called c ok) v) -> if ok then Q tt (v_note (Called c ok) v)
     else forall e, E e (v_note (Called c ok) v)) ->
  vwp (call_platform c f) Q E v.
Proof.
  intros Hv Hc HQ. assert (Hok : forall ok, reach v0 (v_note (Called c ok) v)).
  { intros ok. eapply step; [done|]. by apply micro_call. }
  apply (vwp_call _ (own := own) _ f); [by apply (HQ true) | by apply (HQ false)].
Qed.

(** The change recorded by [persist]. *)
Lemma vwp_record s v0 v (Q : unit -> view -> Prop) (E : exn -> view -> Prop) :
  reach v0 v -> change sha256 profile_ booting (v_active v) (removed_paths (v_trace v)) (v_state v) s ->
  (forall t, let v' := v_note (Wrote s true) (v_with_journal (Some t) (v_with_state s v)) in
     v_failed v = false -> reach v0 v' -> Q tt v') ->
  (forall e v', v_state v' = s -> v_failed v' = true -> reach v0 v' -> E e v') ->
  vwp (persist profile_) Q E (v_with_state s v).
Proof.
  intros Hv Hc HQ HE. eapply r_persist; [exact Hc | |].
  - intros t Hf Ht v' Hm. apply HQ; [done|]. by eapply step.
  - intros e v' Hs Hf _ _ _ Hm. apply HE; [done | done|]. by eapply step.
Qed.

Lemma refines_settle commit boot reason v0 v :
  reach v0 v -> is_pending (v_state v) = true ->
  change sha256 profile_ booting (v_active v) (removed_paths (v_trace v)) (v_state v) (settled commit (v_state v)) ->
  vwp (settleNetwork profile_ commit boot reason) (fun _ => reach v0) (fun _ => reach v0) v.
Proof.
  intros Hv Hp Hc. apply vwp_bind, (vwp_get _ _ v_state); [done|]. cbv zeta.
  apply vwp_bind, (vwp_contract _ (platform_network _ _) v0); [done | |].
  { destruct Hv as (_ & [Hok _ Hprev Hnet _] & _). cbn. destruct commit; [auto|]. rewrite Hprev by done.
    auto with mnc. }
  intros [] Hcall; [|done]. apply vwp_bind, vwp_update, vwp_bind, vwp_update, vwp_bind.
  eapply (vwp_record (settled commit (v_state v)) v0 (v_note (Called _ true) v)); [exact Hcall | exact Hc | | done].
  intros t v' _ Hv'. apply vwp_bind, (vwp_get _ _ v_state); [done|]. by apply refines_event.
Qed.

Lemma refines_recover boot : refines (recoverNetwork sha256 profile_ boot).
Proof.
  intros v0 v Hv. apply vwp_bind, (vwp_get _ _ v_state); [done|]. cbv beta.
  destruct (is_pending (v_state v)) eqn:Hp; cbn [negb]; [|by apply vwp_ret].
  apply vwp_bind. case_bool_decide as Htx.
  - apply vwp_bind, r_fileHash; [|done]. intros hash Hh. apply vwp_ret. apply refines_settle; [done | done|].
    case_bool_decide as Hc; [subst; by apply change_commit | apply change_rollback; eauto].
  - apply vwp_ret, refines_settle; [done | done|]. apply change_rollback; [done|]. by intros ?.
Qed.

Lemma refines_dispatch : refines (dispatch_job profile_).
Proof.
  intros v0 v Hv. apply vwp_bind, vwp_set_job_deadline.
  assert (Hv1 : reach v0 (v_with_deadline 0 v)) by (eapply step; eauto with mnc).
  apply vwp_bind, vwp_update, vwp_bind.
  eapply (vwp_record _ v0 (v_with_deadline 0 v)); [exact Hv1 | | | done].
  { apply change_job_state. set_solver. }
  intros t v' _ Hv'. apply vwp_try, vwp_bind, (vwp_get _ _ v_state); [done|].
  apply vwp_bind, (vwp_contract _ (platform_power _) v0); [done | by eexists _, _ |].
  intros [] Hc; [by apply (vwp_logged _ _ _ _ _ _ _ _ _ v0)|]. intros e.
  apply vwp_bind, vwp_update, vwp_bind.
  eapply (vwp_record _ v0 (v_note (Called _ false) v')); [exact Hc | | | done].
  { apply change_job_state. set_solver. }
  intros t' v'' _ Hv''. apply vwp_bind, (vwp_get _ _ v_state); [done|].
  apply vwp_bind, (vwp_logged _ _ _ _ _ _ _ _ _ v0); [done|]. intros v3 Hv3. by apply vwp_throw.
Qed.

Lemma refines_tick : refines (tick sha256 profile_).
Proof.
  apply refines_bind; [apply refines_get|]. intros []; [apply refines_throw|].
  apply refines_bind; [apply refines_now|]. intros t. apply refines_bind; [apply refines_get|]. intros next.
  apply refines_bind.
  { apply refines_when, refines_bind; [apply refines_now|]. intros t'. apply refines_bind; [|intros; apply refines_observe].
    intros v0 v Hv. by apply vwp_set_next_observation. }
  intros _. apply refines_bind; [apply refines_get|]. intros s. apply refines_bind.
  { apply refines_when, refines_bind; [apply refines_now|]. intros t'. apply refines_when, refines_recover. }
  intros _. apply refines_bind; [apply refines_get|]. intros deadline.
  apply refines_when, refines_bind; [apply refines_now|]. intros t'. apply refines_when, refines_dispatch.
Qed.

Lemma refines_networkTransaction : refines (networkTransaction sha256 profile_).
Proof.
  apply refines_bind; [apply refines_tick|]. intros _. apply refines_bind; [apply refines_get|]. intros s. cbv zeta.
  apply refines_bind; [|intros; apply refines_ret]. destruct (is_pending s); [|apply refines_ret].
  apply refines_bind; [apply refines_now|]. intros t. destruct (t <? _); [|apply refines_ret].
  apply refines_bind; [apply refines_now | intros; apply refines_ret].
Qed.

(** What is known after [idle] returned. *)
Lemma vwp_idle (Q : unit -> view -> Prop) (E : exn -> view -> Prop) v :
  (v_failed v = false -> at_ease (v_state v) -> Q tt v) -> (forall e, E e v) -> vwp idle Q E v.
Proof.
  intros HQ HE. apply vwp_bind, (vwp_get _ _ v_failed); [done|]. apply vwp_bind, (vwp_get _ _ v_state); [done|].
  destruct (v_failed v); [apply vwp_throw, HE|].
  destruct (_ || _) eqn:Eb; [apply vwp_throw, HE|]. apply vwp_ret, HQ; [done|].
  apply orb_false_iff in Eb as [Eb1 Er]. apply orb_false_iff in Eb1 as [Ep Ej].
  apply bool_decide_eq_false in Ej. by split.
Qed.

Lemma vwp_check_hostname c (Q : unit -> view -> Prop) (E : exn -> view -> Prop) v :
  Q tt v -> (forall e, E e v) -> vwp (check_hostname profile_ c) Q E v.
Proof.
  intros HQ HE. unfold check_hostname. destruct (pf_boot_preferences profile_); [|by apply vwp_ret].
  apply vwp_when; [intros; by apply vwp_throw | done].
Qed.

Lemma vwp_validate c (Q : unit -> view -> Prop) (E : exn -> view -> Prop) v :
  (configuration_ok c -> Q tt v) -> (forall e, E e v) -> vwp (lift (validate c)) Q E v.
Proof.
  intros HQ HE. apply vwp_lift; [|done]. intros [] Hc. by apply HQ, validate_spec.
Qed.

Lemma refines_restore previous e v0 v :
  configuration_ok previous -> reach v0 (v_with_state (with_configuration previous (v_state v)) v) ->
  vwp (restore profile_ previous e) (fun _ => reach v0) (fun _ => reach v0) v.
Proof.
  intros Hok Hv. apply vwp_bind, vwp_update, vwp_bind, vwp_try, vwp_bind, (vwp_contract _ (platform_preferences _) v0); [done | done|].
  intros [] Hc1; [|intros e'; by apply vwp_throw].
  apply vwp_bind, (vwp_contract _ (platform_sshBootPolicy _) v0); [done | done|]. intros [] Hc2; [|intros e'; by apply vwp_throw].
  eapply (vwp_record _ v0 (v_note _ (v_note _ (v_with_state _ v)))); [exact Hc2 | apply change_same | |].
  - intros t v' _ Hv'. by apply vwp_throw.
  - intros e' v' _ _ Hv'. by apply vwp_throw.
Qed.

Lemma refines_apply config : refines (apply profile_ config).
Proof.
  intros v0 v Hv. apply vwp_bind, vwp_idle; [|done]. intros Hf Hease.
  apply vwp_bind, vwp_validate; [|done]. intros Hok. apply vwp_bind, vwp_check_hostname; [|done].
  apply vwp_bind, (vwp_ask _ (own := own) (platform_validateConfiguration _)); [|done]. intros _. apply vwp_bind, (vwp_get _ _ v_state); [done|].
  apply vwp_bind, vwp_when; [intros; by apply vwp_throw|]. intros Hdiff. cbv zeta.
  assert (Hsame : st_initialized (v_state v) = true -> pr_network (cf_system config) = net_of (v_state v)).
  { intros Hi. rewrite Hi in Hdiff. by apply negb_false_iff, bool_decide_eq_true in Hdiff. }
  assert (Hprev : configuration_ok (st_configuration (v_state v))) by apply Hv.
  assert (Hback : forall e v1, reach v0 (v_with_state (with_configuration (st_configuration (v_state v)) (v_state v1)) v1) ->
    vwp (restore profile_ (st_configuration (v_state v)) e) (fun _ => reach v0) (fun _ => reach v0) v1).
  { intros e v1 Hv1. by apply refines_restore. }
  apply vwp_try, vwp_bind, (vwp_contract _ (platform_preferences _) v0); [done | done|].
  assert (Hundo : forall c, reach v0 (v_note (Called c false) v) ->
    reach v0 (v_with_state (with_configuration (st_configuration (v_state v)) (v_state v)) (v_note (Called c false) v))).
  { intros c Hc. rewrite with_configuration_same. exact Hc. }
  intros [] Hc1; [|intros e; by apply Hback, Hundo].
  apply vwp_bind, (vwp_contract _ (platform_sshBootPolicy _) v0); [done | done|].
  intros [] Hc2; [|intros e; apply Hback; cbn; rewrite with_configuration_same; exact Hc2].
  apply vwp_bind, vwp_update, vwp_bind, vwp_update.
  eapply (vwp_record _ v0 (v_note _ (v_note _ v))); [exact Hc2 | | done |].
  - by apply (change_apply _ _ _ _ _ _ config).
  - intros e v1 Hs Hf1 Hv1. apply Hback. eapply step; [exact Hv1|]. apply micro_restore; [done | by rewrite Hs | done |].
    rewrite Hs. cbn. symmetry. apply Hsame. destruct Hv as (_ & _ & [Hi|Hr]); [done|].
    destruct Hease as (_ & _ & Hr'). congruence.
Qed.

Lemma refines_beginNetwork p actor request_id : refines (beginNetwork sha256 profile_ p actor request_id).
Proof.
  intros v0 v Hv. apply vwp_bind, vwp_idle; [|done]. intros Hf Hease.
  apply vwp_bind, (vwp_get _ _ v_state); [done|]. cbv zeta.
  apply vwp_bind, vwp_validate; [|done]. intros Hok. apply vwp_bind, vwp_check_hostname; [|done].
  apply vwp_bind, (vwp_ask _ (own := own) (platform_validateConfiguration _)); [|done]. intros _. apply vwp_bind.
  (* the checks of the settings *)
  assert (Hstale : forall Q : bool -> view -> Prop,
    Q true v ->
    (np_previous_settings_hash p <> np_candidate_settings_hash p ->
     hash_of sha256 (v_active v) (np_previous_settings_hash p) -> Q false v) ->
    vwp (if negb (validHash (np_previous_settings_hash p)) || negb (validHash (np_candidate_settings_hash p)) ||
            (np_previous_settings_hash p ==? np_candidate_settings_hash p)
         then mret true
         else
           hash ← fileHash sha256 (pf_active_settings profile_);
           mret (hash <>? np_previous_settings_hash p)) Q (fun _ => reach v0) v).
  { intros Q H1 H2. destruct (_ || _) eqn:Eb; [by apply vwp_ret|].
    apply orb_false_iff in Eb as [_ Eb%bool_decide_eq_false].
    apply vwp_bind, r_fileHash; [|done]. intros hash Hh. apply vwp_ret.
    case_bool_decide; [subst; by apply H2 | by apply H1]. }
  apply Hstale; clear Hstale; [apply vwp_bind, vwp_when; [intros; by apply vwp_throw | done]|].
  intros Hne Hhash. apply vwp_bind, vwp_when; [done|]. intros _.
  apply vwp_bind, vwp_query; [intros; apply randomId_frame | | done]. intros id.
  apply vwp_bind, r_now. intros t. apply vwp_bind, vwp_update, vwp_bind.
  assert (Hinit : st_initialized (v_state v) = true).
  { destruct Hv as (_ & _ & [?|Hr]); [done|]. destruct Hease as (_ & _ & Hr'). congruence. }
  eapply (vwp_record _ v0 v); [done | | | done].
  { apply change_propose; try done. by apply configuration_ok_get in Hok. }
  intros t' v' _ Hv'. apply vwp_bind, vwp_try, (vwp_contract _ (platform_network _ _) v0); [done | by apply configuration_ok_get in Hok |].
  intros [] Hc.
  - apply vwp_bind, (vwp_get _ _ v_state); [done|]. apply vwp_bind, (vwp_logged _ _ _ _ _ _ _ _ _ v0); [done|].
    intros v2 Hv2. by apply refines_networkTransaction.
  - intros e. apply vwp_bind. eapply vwp_mono; [apply (refines_settle false false _ v0); [exact Hc | done|] | | done].
    + apply change_rollback; [done|]. by intros ?.
    + intros [] v2 Hv2. by apply vwp_throw.
Qed.

Lemma vwp_checkId id (Q : unit -> view -> Prop) (E : exn -> view -> Prop) v :
  (is_pending (v_state v) = true -> id = nt_id (pd_transaction (st_pending (v_state v))) -> Q tt v) ->
  (forall e, E e v) -> vwp (checkId id) Q E v.
Proof.
  intros HQ HE. apply vwp_bind, (vwp_get _ _ v_state); [done|]. destruct (is_pending (v_state v)); [|by apply vwp_throw].
  cbn [negb orb]. case_bool_decide; [by apply vwp_ret, HQ | by apply vwp_throw].
Qed.

Lemma refines_prepare id : refines (prepareNetworkCommit sha256 profile_ id).
Proof.
  apply refines_bind; [apply refines_tick|]. intros _ v0 v Hv. apply vwp_bind, vwp_checkId; [|done]. intros Hp _.
  apply vwp_bind, (vwp_get _ _ v_state); [done|]. case_bool_decide as Htx; [by apply vwp_ret|].
  apply vwp_bind, r_fileHash; [|done]. intros hash Hh.
  apply vwp_bind, vwp_when; [intros; by apply vwp_throw|].
  intros Heq%negb_false_iff%bool_decide_eq_true. apply vwp_bind, vwp_update, vwp_bind, r_now. intros t.
  apply vwp_bind, vwp_update.
  eapply (vwp_record (with_pending (with_deadline (u64 (t + 30000)) (with_transaction_state "committing"
    (nt_remaining_ms (pd_transaction (st_pending (v_state v)))) (st_pending (v_state v)))) (v_state v)) v0 v);
    [done | | done | done].
  apply change_prepare; [|by subst]. apply is_pending_spec in Hp as [?|?]; done.
Qed.

Lemma refines_finish id commit actor request_id : refines (finishNetwork sha256 profile_ id commit actor request_id).
Proof.
  intros v0 v Hv. apply vwp_bind, (vwp_get _ _ v_state); [done|].
  destruct (_ && _); [by apply vwp_ret|]. apply vwp_bind, vwp_checkId; [|done]. intros Hp _.
  (* what the two checks leave *)
  assert (Hgo : (if commit then tx_state (v_state v) = "committing" /\
      hash_of sha256 (v_active v) (pd_candidate_hash (st_pending (v_state v)))
    else tx_state (v_state v) = "committing" ->
      exists hash, hash_of sha256 (v_active v) hash /\ hash <> pd_candidate_hash (st_pending (v_state v))) ->
    vwp (_ ← update (fun s => with_pending (with_audit actor request_id (st_pending s)) s);
         settleNetwork profile_ commit false "cancel") (fun _ => reach v0) (fun _ => reach v0) v).
  { intros Hc. apply vwp_bind, vwp_update. apply refines_settle; [eapply step; [exact Hv | by apply micro_audit] | exact Hp |].
    destruct commit; [destruct Hc; by apply change_commit | by apply change_rollback]. }
  destruct commit; cbn [negb andb when].
  - apply vwp_bind, vwp_bind. case_bool_decide as Htx; cbn [negb].
    + apply vwp_bind, r_fileHash; [|done]. intros hash Hh. apply vwp_ret. case_bool_decide as Hc; cbn [negb].
      * apply vwp_ret, vwp_bind, vwp_ret, Hgo. by subst.
      * by apply vwp_throw.
    + apply vwp_ret. by apply vwp_throw.
  - apply vwp_bind, vwp_ret, vwp_bind. case_bool_decide as Htx; cbn [when].
    + apply vwp_bind, r_fileHash; [|done]. intros hash Hh. case_bool_decide as Hc; cbn [when]; [by apply vwp_throw|].
      apply vwp_ret, Hgo. eauto.
    + by apply vwp_ret, Hgo.
Qed.

Lemma refines_accept v0 v j actor request_id (reset : bool) :
  reach v0 v -> at_ease (v_state v) -> job_state j = "accepted" -> (reset = true -> job_action j = "device_reset") ->
  vwp (accept_job profile_) (fun _ => reach v0) (fun _ => reach v0)
    (v_with_state (with_job_audit actor request_id (with_reset_intent reset (with_job j (v_state v)))) v).
Proof.
  intros Hv Hease Hj Hr. apply vwp_bind. eapply (vwp_record _ v0 v); [done | by apply change_accept | | done].
  intros t v' _ Hv'. apply vwp_bind, (vwp_get _ _ v_state); [done|]. cbv zeta.
  apply vwp_bind, (vwp_logged _ _ _ _ _ _ _ _ _ v0); [done|]. intros v2 Hv2.
  apply vwp_bind, r_now. intros t'. apply vwp_bind, vwp_set_job_deadline, vwp_ret. eapply step; eauto with mnc.
Qed.

Lemma refines_power action actor request_id : refines (power profile_ action actor request_id).
Proof.
  intros v0 v Hv. apply vwp_bind, vwp_idle; [|done]. intros Hf Hease.
  apply vwp_bind, vwp_query; [intros; apply randomId_frame | | done]. intros id.
  apply vwp_bind, vwp_update, vwp_bind, vwp_update.
  pose proof (refines_accept v0 v (mkJob id (match action with reboot => "reboot" | shutdown => "shutdown" end) "accepted")
    actor request_id false Hv Hease eq_refl ltac:(done)) as Ha.
  replace (with_reset_intent false _) with
    (with_job (mkJob id (match action with reboot => "reboot" | shutdown => "shutdown" end) "accepted") (v_state v)) in Ha;
    [exact Ha|].
  destruct Hease as (_ & _ & <-). by destruct (v_state v).
Qed.

Lemma refines_reset confirmed actor request_id : refines (resetDevice read_status profile_ confirmed actor request_id).
Proof.
  intros v0 v Hv. unfold resetDevice. destruct confirmed; cbn [negb]; [|by apply vwp_throw].
  apply vwp_bind, vwp_idle; [|done]. intros Hf Hease. apply vwp_bind.
  assert (Hgo : vwp (id ← host randomId;
       _ ← update (with_job (mkJob id "device_reset" "accepted"));
       _ ← update (with_reset_intent true);
       _ ← update (with_job_audit actor request_id);
       accept_job profile_) (fun _ => reach v0) (fun _ => reach v0) v).
  { apply vwp_bind, vwp_query; [intros; apply randomId_frame | | done]. intros id.
    apply vwp_bind, vwp_update, vwp_bind, vwp_update, vwp_bind, vwp_update.
    exact (refines_accept v0 v (mkJob id "device_reset" "accepted") actor request_id true Hv Hease eq_refl ltac:(done)). }
  destruct (negb _); [|by apply vwp_ret].
  apply vwp_bind, r_storageStatus; [|done]. intros st. apply vwp_when; [intros; by apply vwp_throw | done].
Qed.

(** ** Requests *)

(** What the daemon may ask of a running backend. *)
Inductive request :=
  | RTick
  | RStatus
  | RApply (c : Configuration)
  | RBeginNetwork (p : NetworkProposal) (actor request_id : string)
  | RNetworkTransaction
  | RPrepareNetworkCommit (id : string)
  | RFinishNetwork (id : string) (commit : bool) (actor request_id : string)
  | RPower (action : PowerAction) (actor request_id : string)
  | RResetDevice (confirmed : bool) (actor request_id : string).

Definition perform (r : request) : B unit :=
  match r with
  | RTick => tick sha256 profile_
  | RStatus => _ ← status; mret tt
  | RApply c => apply profile_ c
  | RBeginNetwork p actor request_id => _ ← beginNetwork sha256 profile_ p actor request_id; mret tt
  | RNetworkTransaction => _ ← networkTransaction sha256 profile_; mret tt
  | RPrepareNetworkCommit id => prepareNetworkCommit sha256 profile_ id
  | RFinishNetwork id commit actor request_id => finishNetwork sha256 profile_ id commit actor request_id
  | RPower action actor request_id => _ ← power profile_ action actor request_id; mret tt
  | RResetDevice confirmed actor request_id => _ ← resetDevice read_status profile_ confirmed actor request_id; mret tt
  end.

Lemma refines_perform r : refines (perform r).
Proof.
  destruct r; cbn [perform].
  - apply refines_tick.
  - apply refines_bind; [|intros; apply refines_ret]. apply refines_bind; [apply (refines_ask platform_status)|]. intros st.
    apply refines_bind; [apply refines_get | intros; apply refines_ret].
  - apply refines_apply.
  - apply refines_bind; [apply refines_beginNetwork | intros; apply refines_ret].
  - apply refines_bind; [apply refines_networkTransaction | intros; apply refines_ret].
  - apply refines_prepare.
  - apply refines_finish.
  - apply refines_bind; [apply refines_power | intros; apply refines_ret].
  - apply refines_bind; [apply refines_reset | intros; apply refines_ret].
Qed.

(** A run of a computation that refines the machine. *)
Lemma refines_run {A} (m : B A) b :
  refines m -> wf (state_ b) -> started (state_ b) ->
  reach (view_of profile_ b) (view_of profile_ (fst (m b))).
Proof.
  intros Hm Hw Hs.
  assert (Hr : reach (view_of profile_ b) (view_of profile_ b)) by (apply reach_refl; done).
  specialize (Hm _ _ Hr). apply vwp_run in Hm. by destruct (m b) as [b' []].
Qed.

End refinement.
