(* ===== verification/BackendLifecycle.v ===== *)
(** * Boot, start and the life of the system manager

    [construct], [bootstrap] and [start] also implement the abstract machine,
    up to what a process that dies leaves in memory; so every history of the
    device (boots, launches, requests, crashes, changes by the settings
    authority) is a run of [life]. *)

From S2P Require Import Prelude SystemTypes Validation Effects Protocol Logging Host Backend BackendSpec BackendLogic.
From S2P Require Import BackendRefinement.

Section boot.
Context {P H : Type} {PL : Platform P H} {HO : Host H} {HL : HostLaws H} {JS : Json State}.
Context (sha256 : string -> option (list Z)) (read_status : string -> option StorageBootStatus).
Context (profile_ : Profile) {PO : ProfileOk profile_} {own : string -> Prop} {PW : PlatformLaws P H own} {OW : Owned own profile_}.

Abbreviation B := (eff (Backend P H)).
Abbreviation micro := (micro sha256 profile_ true).
Abbreviation reach := (reach sha256 profile_ true).
Abbreviation vwp := (@BackendLogic.vwp P H HO profile_ _).

(** The abstract machine went from [v0] to [v] with the state [s]; the state in
    memory may be ahead of it. *)
Definition shadow (v0 : view) (s : State) (v : view) : Prop := rtc micro v0 (v_with_state s v) /\ wf s.

Lemma shadow_refl v : wf (v_state v) -> shadow v (v_state v) v.
Proof. intros Hw. split; [|done]. by destruct v; apply rtc_refl. Qed.

Lemma shadow_of_reach v0 v : reach v0 v -> shadow v0 (v_state v) v.
Proof. intros (Hr & Hw & _). split; [|done]. by destruct v. Qed.

Lemma shadow_micro v0 s v v' :
  shadow v0 s v -> micro (v_with_state s v) (v_with_state s v') -> shadow v0 s v'.
Proof. intros [Hr Hw] Hm. split; [by eapply rtc_r | done]. Qed.

Lemma shadow_log v0 s v r : shadow v0 s v -> shadow v0 s (v_note (Logged r) v).
Proof. intros Hv. eapply shadow_micro; [exact Hv|]. exact (micro_log _ _ _ (v_with_state s v) r). Qed.

Lemma shadow_state v0 s s' v : shadow v0 s v <-> shadow v0 s (v_with_state s' v).
Proof. done. Qed.

Lemma reach_of_shadow v0 v : shadow v0 (v_state v) v -> started (v_state v) -> reach v0 v.
Proof. intros [Hr Hw] Hs. split; [|done]. by destruct v. Qed.

(** A call within the contract, whatever is in memory. *)
Lemma vwp_shadow_call c f {FR : Framed own f} v0 s v (Q : unit -> view -> Prop) (E : exn -> view -> Prop) :
  shadow v0 s v -> call_ok profile_ (v_trace v) c ->
  (forall v', v' = v_note (Called c true) v -> shadow v0 s v' -> Q tt v') ->
  (forall e v', shadow v0 s v' -> E e v') -> vwp (call_platform c f) Q E v.
Proof.
  intros Hv Hc HQ HE.
  assert (Hok : forall ok, shadow v0 s (v_note (Called c ok) v)).
  { intros ok. eapply shadow_micro; [done|]. exact (micro_call _ _ _ (v_with_state s v) c ok Hc). }
  apply (vwp_call _ (own := own) _ f); [by apply HQ | intros; by apply HE].
Qed.

(** [persist] catches the abstract machine up. *)
Lemma vwp_shadow_persist v0 s v (Q : unit -> view -> Prop) (E : exn -> view -> Prop) :
  shadow v0 s v -> change sha256 profile_ true (v_active v) (removed_paths (v_trace v)) s (v_state v) ->
  (forall v', v_state v' = v_state v -> v_trace v' = Wrote (v_state v) true :: v_trace v -> v_active v' = v_active v ->
     shadow v0 (v_state v') v' -> Q tt v') ->
  (forall e v' s', shadow v0 s' v' -> E e v') -> vwp (persist profile_) Q E v.
Proof.
  intros [Hr Hw] Hc HQ HE.
  assert (Hwf : wf (v_state v)) by (by eapply change_wf).
  replace v with (v_with_state (v_state v) (v_with_state s v)) by (by destruct v).
  eapply (vwp_persist (HL := HL) (PO := PO) sha256 true profile_); [exact Hc | |].
  - intros t Hf Ht v' Hm. apply HQ; [done | done | done|]. split; [|done]. eapply rtc_r; [exact Hr | exact Hm].
  - intros e v' Hs Hf _ _ _ Hm. apply (HE e v' (v_state v')). split; [|by rewrite Hs].
    eapply rtc_r; [exact Hr|]. by destruct v'.
Qed.

Lemma vwp_boot_policies v0 s v (Q : unit -> view -> Prop) (E : exn -> view -> Prop) :
  shadow v0 s v -> configuration_ok (st_configuration (v_state v)) ->
  (forall v', v_state v' = v_state v -> removed_paths (v_trace v') = removed_paths (v_trace v) ->
     v_active v' = v_active v -> shadow v0 s v' -> Q tt v') ->
  (forall e v', shadow v0 s v' -> E e v') -> vwp boot_policies Q E v.
Proof.
  intros Hv Hok HQ HE. apply vwp_bind, (vwp_get _ _ (fun v => st_configuration (v_state v))); [done|].
  apply vwp_bind, (vwp_shadow_call _ (platform_network _ _) v0 s); [done | by apply Hok | | done]. intros v1 -> Hv1.
  apply vwp_bind, (vwp_shadow_call _ (platform_sshBootPolicy _) v0 s); [done | done | | done]. intros v2 -> Hv2.
  apply (vwp_shadow_call _ (platform_clockBootPolicy _) v0 s); [done | by apply Hok | | done]. intros v3 -> Hv3. by apply HQ.
Qed.

Lemma vwp_remove_all v0 s v paths (Q : unit -> view -> Prop) (E : exn -> view -> Prop) :
  st_reset_intent s = true -> paths ⊆ pf_reset_paths profile_ -> shadow v0 s v ->
  (forall v', v_state v' = v_state v -> (forall p, p ∈ removed_paths (v_trace v) \/ p ∈ paths -> p ∈ removed_paths (v_trace v')) ->
     shadow v0 s v' -> Q tt v') ->
  (forall e v', shadow v0 s v' -> E e v') -> vwp (for_each durable_remove paths) Q E v.
Proof.
  intros Hr. revert v. induction paths as [|path paths IH]; intros v Hsub Hv HQ HE; cbn [for_each].
  { apply vwp_ret, HQ; [done | | done]. intros p [?|Hp]; [done|]. by apply elem_of_nil in Hp. }
  assert (Hpath : path ∈ pf_reset_paths profile_) by (apply Hsub, elem_of_cons; by left).
  assert (Hm : forall ok c, shadow v0 s (v_note (Removed path ok) (v_with_active c v))).
  { intros ok c. eapply shadow_micro; [done|]. exact (micro_remove _ _ _ (v_with_state s v) path ok c eq_refl Hr Hpath). }
  apply vwp_bind, (vwp_durable_remove (HL := HL) (PO := PO) profile_); [done | | intros; by apply HE].
  intros c. apply IH; [|by apply Hm | | done].
  { intros p Hp. apply Hsub, elem_of_cons. by right. }
  intros v' Hs Hrem Hv'. apply HQ; [done | | done]. intros p Hp. apply Hrem. cbn.
  rewrite elem_of_cons in Hp |- *. tauto.
Qed.

Definition boots (m : B unit) (v : view) : Prop :=
  vwp m (fun _ v' => shadow v (v_state v') v') (fun _ v' => exists s, shadow v s v') v.

Lemma bootstrap_reset_boots v :
  wf (v_state v) -> st_reset_intent (v_state v) = true -> boots (bootstrap_reset read_status profile_) v.
Proof.
  intros Hw Hr. unfold boots, bootstrap_reset. apply vwp_bind.
  assert (Hgo : forall v1, shadow v (v_state v) v1 -> v_state v1 = v_state v -> vwp
    (_ ← for_each durable_remove (pf_reset_paths profile_);
     _ ← update (with_configuration (pf_defaults profile_));
     _ ← update (with_initialized true);
     _ ← update (with_pending default_Pending);
     _ ← boot_policies;
     _ ← update (with_reset_intent false);
     _ ← update (with_job_state "completed");
     _ ← persist profile_;
     s ← get state_;
     event "device_reset_completed" "administration" "Device reset completed" (st_job_actor s) "device_reset"
       "completed" "device" info (st_job_request_id s))
    (fun _ v' => shadow v (v_state v') v') (fun _ v' => exists s, shadow v s v') v1).
  { intros v1 Hv1 Hs1. apply vwp_bind, (vwp_remove_all v (v_state v)); [done | done | done | | eauto].
    intros v2 Hs2 Hrem Hv2. apply vwp_bind, vwp_update, vwp_bind, vwp_update, vwp_bind, vwp_update, vwp_bind.
    eapply (vwp_boot_policies v (v_state v)); [exact Hv2 | apply profile_defaults | | eauto].
    intros v3 Hs3 Hrem3 _ Hv3. apply vwp_bind, vwp_update, vwp_bind, vwp_update, vwp_bind.
    eapply (vwp_shadow_persist v (v_state v)); [exact Hv3 | | | eauto].
    - cbn [v_with_state v_state v_active v_trace] in *. rewrite Hs3, Hs2, Hs1. apply change_reset_done; [done | done|].
      apply Forall_forall. intros p Hp. rewrite Hrem3. apply Hrem. by right.
    - intros v4 Hs4 _ _ Hv4. apply vwp_bind, (vwp_get _ _ v_state); [done|]. apply vwp_event; [done|]. intros r.
      by apply shadow_log. }
  assert (Hstart : shadow v (v_state v) v) by (by apply shadow_refl).
  destruct (negb _); [|by apply vwp_ret, Hgo].
  apply vwp_bind, (vwp_storageStatus (HL := HL)); [|eauto]. intros st.
  apply vwp_when; [intros; apply vwp_throw; eauto | intros; by apply Hgo].
Qed.

(** The hostname of a product with boot preferences. *)
Lemma boot_hostname_boots v0 v :
  shadow v0 (v_state v) v ->
  vwp (match pf_boot_preferences profile_ with
       | Some boot =>
           _ ← update (fun s => with_configuration (set_hostname (bp_managed_hostname boot) (st_configuration s)) s);
           h ← get (fun b => pr_hostname (cf_system (st_configuration (state_ b))));
           _ ← bootHostname h;
           persist profile_
       | None => mret tt
       end) (fun _ v' => shadow v0 (v_state v') v') (fun _ v' => exists s, shadow v0 s v') v.
Proof.
  intros Hv. destruct (pf_boot_preferences profile_) as [boot|] eqn:Hb; [|by apply vwp_ret].
  apply vwp_bind, vwp_update, vwp_bind, (vwp_get _ _ (fun v => pr_hostname (cf_system (st_configuration (v_state v))))); [done|].
  apply vwp_bind, (vwp_shadow_call _ (platform_bootHostname _) v0 (v_state v)); [exact Hv | by exists boot | | eauto].
  intros v1 -> Hv1. eapply (vwp_shadow_persist v0 (v_state v)); [exact Hv1 | by apply change_hostname | | eauto].
  intros v2 _ _ _ Hv2. done.
Qed.

Lemma bootstrap_boots v : wf (v_state v) -> boots (bootstrap sha256 read_status profile_) v.
Proof.
  intros Hw. unfold boots, bootstrap. assert (Hv : shadow v (v_state v) v) by (by apply shadow_refl).
  apply vwp_bind, (vwp_get _ _ v_state); [done|]. apply vwp_bind.
  eapply (vwp_mono profile_ _ (fun _ v' => shadow v (v_state v') v') _ (fun _ v' => exists s, shadow v s v'));
    [| intros [] v1 Hv1; by apply boot_hostname_boots | done].
  destruct (st_reset_intent (v_state v)) eqn:Hr; [by apply bootstrap_reset_boots|].
  destruct (st_initialized (v_state v)) eqn:Hi.
  - apply vwp_bind. assert (Hreach : reach v v) by (apply reach_refl; [done | by left]).
    eapply vwp_mono; [apply (refines_recover (HL := HL) (PO := PO) sha256 profile_ true true v v Hreach) | |]; cbv beta.
    + intros [] v1 Hv1. eapply (vwp_boot_policies v (v_state v1));
        [by apply shadow_of_reach | apply Hv1 | | eauto].
      intros v2 Hs2 _ _ Hv2. by rewrite Hs2.
    + intros e v1 Hv1. eexists. by apply shadow_of_reach.
  - destruct (pf_boot_preferences profile_) as [boot|] eqn:Hb.
    + apply vwp_bind, vwp_update, vwp_bind.
      eapply (vwp_boot_policies v (v_state v)); [exact Hv | by eapply profile_initial | | eauto].
      intros v1 Hs1 Hrem _ Hv1. apply vwp_bind, vwp_update.
      eapply (vwp_shadow_persist v (v_state v)); [exact Hv1 | | done | eauto].
      cbn [v_with_state v_state v_active v_trace]. rewrite Hs1.
      apply change_discover; [done | done | done | by eapply profile_initial].
    + apply (vwp_shadow_call _ (platform_clockBootPolicy _) v (v_state v)); [done | apply profile_defaults | | eauto].
      intros v1 -> Hv1. exact Hv1.
Qed.

Lemma start_boots v :
  wf (v_state v) ->
  vwp (start sha256 profile_) (fun _ v' => reach v v') (fun _ v' => exists s, shadow v s v') v.
Proof.
  intros Hw. unfold start. apply vwp_bind, (vwp_get _ _ v_state); [done|].
  assert (Hv : shadow v (v_state v) v) by (by apply shadow_refl).
  destruct (st_reset_intent (v_state v)) eqn:Hr.
  { apply vwp_bind, (vwp_now (HL := HL)). intros t. apply vwp_set_job_deadline.
    eapply (reach_step sha256 profile_ true (PO := PO)); [apply reach_refl; [done | by right] | apply micro_deadline]. }
  apply vwp_bind.
  eapply (vwp_mono profile_ _ (fun _ v' => reach v v') _ (fun _ v' => exists s, shadow v s v')).
  - destruct (st_initialized (v_state v)) eqn:Hi; cbn [negb].
    { apply vwp_ret, reach_refl; [done | by left]. }
    apply vwp_bind, (vwp_ask _ (own := own) platform_discover); [|eauto]. intros c. apply vwp_bind, vwp_update, vwp_bind, vwp_validate; [|eauto].
    intros Hok. apply vwp_bind, vwp_update.
    eapply (vwp_shadow_persist v (v_state v)); [exact Hv | by apply change_discover | | eauto].
    intros v1 Hs1 _ _ Hv1. apply reach_of_shadow; [done|]. rewrite Hs1. by left.
  - intros [] v1 Hv1. apply vwp_bind.
    eapply vwp_mono; [apply (refines_recover (HL := HL) (PO := PO) sha256 profile_ true false v v1 Hv1) | |]; cbv beta.
    2:{ intros e v2 Hv2. eexists. by apply shadow_of_reach. }
    intros [] v2 Hv2. apply vwp_bind, (vwp_get _ _ v_state); [done|]. apply vwp_when; [|done]. intros _.
    apply vwp_bind, vwp_update, vwp_bind.
    eapply (vwp_record (HL := HL) (PO := PO) sha256 profile_ true _ v v2); [done | apply change_job_state; set_solver | |].
    + intros t v3 _ Hv3. apply vwp_bind, (vwp_get _ _ v_state); [done|].
      by apply (vwp_logged (PO := PO) sha256 profile_ true _ _ _ _ _ _ _ _ _ v).
    + intros e v3 _ _ Hv3. eexists. by apply shadow_of_reach.
  - done.
Qed.

Lemma construct_boots v :
  v_state v = default_State ->
  vwp (construct profile_)
    (fun _ v' => exists s, journal_state profile_ (v_journal v) s /\ v' = v_with_state (migrate profile_ s) v)
    (fun _ v' => exists s, v' = v_with_state s v) v.
Proof.
  intros Hs. assert (Hv : exists s, v = v_with_state s v) by (exists (v_state v); by destruct v).
  unfold construct. apply vwp_bind, vwp_query; [intros; apply create_directories_frame | | done]. intros _.
  apply vwp_bind, vwp_query; [intros; apply permissions_frame | | done]. intros _.
  apply vwp_bind, vwp_host; [intros; apply exists_frame|]. intros h Hj _.
  destruct (snd (exists_ _ h)) as [[]|e] eqn:Ex; [| |done]; apply vwp_bind.
  - clear h Hj Ex. apply vwp_bind, vwp_host; [intros; apply readFile_frame|]. intros h Hj _.
    destruct (snd (readFile _ _ h)) as [t|e] eqn:Er; [|done]. apply readFile_ok in Er as [Ht _].
    apply vwp_bind, vwp_lift; [|done]. intros s Hd. apply vwp_update, vwp_update. exists s. split; [|done].
    rewrite <-Hj, Ht. cbn. unfold decode in Hd. case_match; [done|]. destruct (read_json t); [done|].
    by injection Hd as ->.
  - apply vwp_update, vwp_update. rewrite Hs. exists (with_configuration (pf_defaults profile_) default_State).
    split; [|done]. rewrite <-Hj, (exists_false _ _ Ex). done.
Qed.

End boot.

(** ** The invariant of every life *)

(** Each call of the platform was within its contract at its time, and each
    state given to the journal was well formed. *)
Fixpoint trace_ok (profile_ : Profile) (trace : list trace_event) : Prop :=
  match trace with
  | [] => True
  | e :: rest =>
      match e with
      | Called c _ => call_ok profile_ rest c
      | Wrote s _ => wf s
      | _ => True
      end /\ trace_ok profile_ rest
  end.

Section life.
Context {JS : Json State} {JL : JsonLaws State}.
Context (sha256 : string -> option (list Z)) (profile_ : Profile) {PO : ProfileOk profile_}.

(** The audit fields of the pending transaction do not matter to a restart. *)
Definition forget (s : State) : State := with_pending (with_audit "" "" (st_pending s)) s.

(** [s] and [s'] are the same to a new process. *)
Definition same_journal (s s' : State) : Prop := forget (migrate profile_ s) = forget (migrate profile_ s').

#[export] Instance same_journal_equiv : Equivalence same_journal.
Proof. unfold same_journal. split; [by intros s | by intros s s' -> | by intros s s' s'' -> ->]. Qed.

Lemma migrate_pending s : st_pending (migrate profile_ s) = st_pending s.
Proof. unfold migrate. by destruct (empty _). Qed.

Lemma migrate_job s : st_job (migrate profile_ s) = st_job s.
Proof. unfold migrate. by destruct (empty _). Qed.

Lemma migrate_reset s : st_reset_intent (migrate profile_ s) = st_reset_intent s.
Proof. unfold migrate. by destruct (empty _). Qed.

Lemma migrate_initialized s : st_initialized (migrate profile_ s) = st_initialized s.
Proof. unfold migrate. by destruct (empty _). Qed.

Lemma migrate_network s : net_of (migrate profile_ s) = net_of s.
Proof. unfold migrate. by destruct (empty _). Qed.

#[export] Instance is_pending_proper : Proper (same_journal ==> eq) is_pending.
Proof.
  intros s s' Hs. apply (f_equal is_pending) in Hs. unfold is_pending in *. cbn in Hs. by rewrite !migrate_pending in Hs.
Qed.

#[export] Instance st_job_proper : Proper (same_journal ==> eq) st_job.
Proof. intros s s' Hs. apply (f_equal st_job) in Hs. cbn in Hs. by rewrite !migrate_job in Hs. Qed.

#[export] Instance reset_intent_proper : Proper (same_journal ==> eq) st_reset_intent.
Proof. intros s s' Hs. apply (f_equal st_reset_intent) in Hs. cbn in Hs. by rewrite !migrate_reset in Hs. Qed.

(** Whether a new operation is accepted does not change over a restart. *)
#[export] Instance at_ease_proper : Proper (same_journal ==> iff) at_ease.
Proof. intros s s' Hs. unfold at_ease. by rewrite Hs. Qed.

Lemma migrate_idempotent s : migrate profile_ (migrate profile_ s) = migrate profile_ s.
Proof.
  unfold migrate at 2 3. destruct (empty (tp_ptp_interface (cf_time (st_configuration s)))) eqn:E.
  - unfold migrate. cbn. destruct (empty (tp_ptp_interface (cf_time (pf_defaults profile_)))); done.
  - unfold migrate. by rewrite E.
Qed.

Lemma same_journal_migrate s : same_journal s (migrate profile_ s).
Proof. unfold same_journal. by rewrite migrate_idempotent. Qed.

Lemma same_journal_audit actor request_id s :
  same_journal s (with_pending (with_audit actor request_id (st_pending s)) s).
Proof. unfold same_journal, migrate. cbn. by destruct (empty _). Qed.

Lemma migrate_wf s : wf s -> wf (migrate profile_ s).
Proof.
  intros [Hc Hi Hp Hn Hh].
  split; unfold is_pending; rewrite ?migrate_pending, ?migrate_initialized, ?migrate_network; try done.
  unfold migrate. destruct (empty _) eqn:E; [|done]. apply empty_spec in E. cbn.
  destruct Hc as (Hhost & (Hsync & Hzone & Hptp & Hrest) & Hnet). split; [done|]. split; [|done].
  destruct (profile_defaults (profile_ := profile_)) as (_ & (_ & _ & Hd & _) & _).
  split; [done|]. split; [done|]. split; [|done]. cbn.
  destruct Hptp as [[_ Hs]|Hv]; [|by rewrite E in Hv]. destruct Hd as [[-> _]|Hd]; [by left | by right].
Qed.

Record sound (v : view) : Prop := {
  sound_state : wf (v_state v);
  sound_journal : exists s, journal_state profile_ (v_journal v) s /\ wf s /\
    (v_failed v = false -> same_journal s (v_state v));
  sound_trace : trace_ok profile_ (v_trace v)
}.

Lemma encode_read s t : encode s = Return t -> read_json t = inr s.
Proof. unfold encode. destruct (write_json s) eqn:E; [|done]. intros [= <-]. by apply read_write. Qed.

Lemma micro_sound v v' : sound v -> micro sha256 profile_ true v v' -> sound v'.
Proof.
  intros [Hs (sj & Hj & Hjw & Hsync) Ht] Hm.
  assert (Hw : wf (v_state v')) by (by eapply micro_wf).
  destruct Hm as [s t Hc Hf He|s t j Hc Hf He Hjj|s Hc Hf|s Hc Hf|c Hf Hease Hok Hnet|actor rid Hp|c ok Hcall|path ok act Hbt Hr Hin|r|d];
    split; try done; cbn.
  - exists s. split; [by apply encode_read|]. split; [done|]. done.
  - destruct Hjj as [Ej|Ej]; rewrite Ej; [by exists sj|]. exists s. split; [by apply encode_read|]. done.
  - by exists sj.
  - exists sj. split; [done|]. split; [done|]. congruence.
  - exists sj. split; [done|]. split; [done|]. congruence.
  - exists sj. split; [done|]. split; [done|]. intros Hf. rewrite (Hsync Hf). apply same_journal_audit.
  - by exists sj.
  - by exists sj.
  - by exists sj.
  - by exists sj.
Qed.

Lemma life_sound v v' : sound v -> life sha256 profile_ v v' -> sound v'.
Proof.
  intros Hv Hl. destruct Hl as [v' Hm|active|s Hj].
  - by eapply micro_sound.
  - by destruct Hv.
  - destruct Hv as [Hs (sj & Hjs & Hjw & Hsync) Ht]. cbn in *.
    assert (s = sj) as ->.
    { destruct (v_journal v) as [t|]; cbn in *; congruence. }
    split; cbn; [by apply migrate_wf | | done]. exists sj. split; [done|]. split; [done|].
    intros _. apply same_journal_migrate.
Qed.

(** A device that was never set up. *)
Definition first_view (active : option string) : view :=
  mkView (migrate profile_ (with_configuration (pf_defaults profile_) default_State)) false 0 None active [].

Lemma first_wf : wf (with_configuration (pf_defaults profile_) default_State).
Proof. split; [apply profile_defaults | done..]. Qed.

Lemma first_sound active : sound (first_view active).
Proof.
  split; cbn; [apply migrate_wf, first_wf | | done].
  eexists. split; [done|]. split; [apply first_wf|]. intros _. apply same_journal_migrate.
Qed.

Lemma lives_sound active v : rtc (life sha256 profile_) (first_view active) v -> sound v.
Proof.
  intros Hl. eapply rtc_preserves; [by apply life_sound | apply first_sound | exact Hl].
Qed.

End life.

(** ** The device *)

(** Between processes only the platform and the host are left. *)
Inductive world (P H : Type) :=
  | Off (p : P) (h : H) (trace : list trace_event)
  | On (b : Backend P H).
Arguments Off {P H}.
Arguments On {P H}.

(** What is left of a process. *)
Definition stopped {P H} (b : Backend P H) : world P H := Off (platform_ b) (host_ b) (trace_ b).

Section world.
Context {P H : Type} {PL : Platform P H} {HO : Host H} {HL : HostLaws H} {JS : Json State} {JL : JsonLaws State}.
Context (sha256 : string -> option (list Z)) (read_status : string -> option StorageBootStatus).
Context (profile_ : Profile) {PO : ProfileOk profile_} {own : string -> Prop} {PW : PlatformLaws P H own} {OW : Owned own profile_}.

Abbreviation life := (life sha256 profile_).
Abbreviation view_of := (view_of (P := P) (H := H) profile_).

(** The object before its constructor runs. *)
Definition blank (p : P) (h : H) (trace : list trace_event) : Backend P H :=
  mkBackend default_State ∅ 0 false 0 p h trace.

(** [main] with [--bootstrap], and the start of the daemon. *)
Definition boot_process : eff (Backend P H) unit :=
  _ ← construct profile_; bootstrap sha256 read_status profile_.

Definition daemon_start : eff (Backend P H) unit := _ ← construct profile_; start sha256 profile_.

Inductive world_step : world P H -> world P H -> Prop :=
  | ws_boot p h trace : world_step (Off p h trace) (stopped (fst (boot_process (blank p h trace))))
  | ws_start p h trace b :
      daemon_start (blank p h trace) = (b, Return tt) -> world_step (Off p h trace) (On b)
  | ws_start_fails p h trace b e :
      daemon_start (blank p h trace) = (b, Throw e) -> world_step (Off p h trace) (stopped b)
  | ws_request b r : world_step (On b) (On (fst (perform sha256 read_status profile_ r b)))
  | ws_stop b : world_step (On b) (stopped b)
  | ws_power_loss b r v p h :   (* while a request runs, at any of its steps *)
      rtc (micro sha256 profile_ true) (view_of b) v ->
      rtc (micro sha256 profile_ true) v (view_of (fst (perform sha256 read_status profile_ r b))) ->
      file h (state_path profile_) = v_journal v -> world_step (On b) (Off p h (v_trace v))
  | ws_outside_off p h trace p' h' :   (* the rest of the system leaves the journal alone *)
      file h' (state_path profile_) = file h (state_path profile_) -> world_step (Off p h trace) (Off p' h' trace)
  | ws_outside_on b p' h' :
      file h' (state_path profile_) = file (host_ b) (state_path profile_) ->
      world_step (On b)
        (On (mkBackend (state_ b) (carriers_ b) (next_network_observation_ b) (storage_failed_ b) (job_deadline_ b)
               p' h' (trace_ b))).

(** The abstract life behind a world. *)
Definition lives (v0 : view) (w : world P H) : Prop :=
  match w with
  | Off p h trace => exists v, rtc life v0 v /\ v_journal v = file h (state_path profile_) /\ v_trace v = trace
  | On b => rtc life v0 (view_of b) /\ wf (state_ b) /\ started (state_ b)
  end.

Lemma micro_lives v v' : rtc (micro sha256 profile_ true) v v' -> rtc life v v'.
Proof. induction 1 as [|v v1 v2 Hm _ IH]; [done|]. eapply rtc_l; [by apply life_micro | done]. Qed.

Lemma life_active v active : rtc life v (v_with_active active v).
Proof. apply rtc_once, life_settings. Qed.

(** A process starts from the journal it finds. *)
Lemma construct_lives v0 p h trace :
  (forall v, rtc life v0 v -> sound profile_ v) -> lives v0 (Off p h trace) ->
  match construct profile_ (blank p h trace) with
  | (b, Return _) => rtc life v0 (view_of b) /\ wf (state_ b)
  | (b, Throw _) => lives v0 (stopped b)
  end.
Proof.
  intros Hsound (v & Hv & Hj & Ht).
  pose proof (construct_boots (P := P) (HL := HL) profile_ (view_of (blank p h trace)) eq_refl) as Hc.
  apply vwp_run in Hc. destruct (construct profile_ (blank p h trace)) as [b [[]|e]]; cbn in Hc.
  - destruct Hc as (s & Hs & Hb). rewrite Hb. rewrite <-Hj in Hs.
    assert (Hw : wf s).
    { destruct (Hsound v Hv) as [_ (s' & Hs' & Hw & _) _]. destruct (v_journal v); cbn in *; congruence. }
    split; [|apply (f_equal v_state) in Hb; cbn in Hb; rewrite Hb; by apply migrate_wf].
    etrans; [exact Hv|]. eapply rtc_l; [by apply (life_restart _ _ v s)|].
    eapply rtc_l; [apply (life_settings _ _ _ (file h (pf_active_settings profile_)))|]. cbn. rewrite Hj, Ht. done.
  - destruct Hc as (s & Hb). unfold stopped. cbn. exists v. split; [done|].
    assert (Hjb : file (host_ b) (state_path profile_) = file h (state_path profile_)) by (exact (f_equal v_journal Hb)).
    assert (Htb : trace_ b = trace) by (exact (f_equal v_trace Hb)). by rewrite Hjb, Htb.
Qed.

Lemma shadow_lives v0 v s b :
  rtc life v0 v -> shadow sha256 profile_ v s (view_of b) -> lives v0 (stopped b).
Proof.
  intros Hv [Hr _]. unfold stopped. cbn. eexists. split; [|split].
  - etrans; [exact Hv | apply micro_lives, Hr].
  - done.
  - done.
Qed.

Lemma world_lives v0 w w' :
  (forall v, rtc life v0 v -> sound profile_ v) -> lives v0 w -> world_step w w' -> lives v0 w'.
Proof.
  intros Hsound Hw Hstep.
  destruct Hstep as [p h trace|p h trace b Hrun|p h trace b e Hrun|b r|b|b r v p h Hm1 Hm2 Hj|p h trace p' h' Hj|b p' h' Hj].
  - pose proof (construct_lives v0 p h trace Hsound Hw) as Hc. unfold boot_process, mbind, eff_bind.
    destruct (construct profile_ (blank p h trace)) as [b [[]|e]]; [|exact Hc]. destruct Hc as [Hb Hwf].
    pose proof (vwp_run _ _ _ _ _ (bootstrap_boots (P := P) (HL := HL) (PO := PO) sha256 read_status profile_ (view_of b) Hwf)) as Hr.
    destruct (bootstrap sha256 read_status profile_ b) as [b' [[]|e]]; [|destruct Hr as [s Hr]]; by eapply shadow_lives.
  - pose proof (construct_lives v0 p h trace Hsound Hw) as Hc. unfold daemon_start, mbind, eff_bind in Hrun.
    destruct (construct profile_ (blank p h trace)) as [b1 [[]|e]]; [|done]. destruct Hc as [Hb Hwf].
    pose proof (vwp_run _ _ _ _ _ (start_boots (P := P) (HL := HL) (PO := PO) sha256 profile_ (view_of b1) Hwf)) as Hr.
    rewrite Hrun in Hr. destruct Hr as (Hr & Hw' & Hs'). split; [|done]. etrans; [exact Hb | apply micro_lives, Hr].
  - pose proof (construct_lives v0 p h trace Hsound Hw) as Hc. unfold daemon_start, mbind, eff_bind in Hrun.
    destruct (construct profile_ (blank p h trace)) as [b1 [[]|e1]]; [|by injection Hrun as -> _]. destruct Hc as [Hb Hwf].
    pose proof (vwp_run _ _ _ _ _ (start_boots (P := P) (HL := HL) (PO := PO) sha256 profile_ (view_of b1) Hwf)) as Hr.
    rewrite Hrun in Hr. destruct Hr as [s Hr]. by eapply shadow_lives.
  - destruct Hw as (Hb & Hwf & Hs).
    destruct (refines_run sha256 profile_ true _ b (refines_perform (HL := HL) (PO := PO) sha256 read_status profile_ true r) Hwf Hs)
      as (Hr & Hw' & Hs'). split; [|done]. etrans; [exact Hb | apply micro_lives, Hr].
  - destruct Hw as (Hb & _ & _). unfold stopped. cbn. by exists (view_of b).
  - destruct Hw as (Hb & _ & _). cbn. exists v. split; [|done]. etrans; [exact Hb | by apply micro_lives].
  - destruct Hw as (v & Hv & Hj' & Ht). cbn. exists v. by rewrite Hj.
  - destruct Hw as (Hb & Hwf & Hs). split; [|done]. etrans; [exact Hb|].
    eapply rtc_l; [apply (life_settings _ _ _ (file h' (pf_active_settings profile_)))|].
    unfold BackendLogic.view_of. cbn. by rewrite Hj.
Qed.

(** Every history of a new device is a life of the abstract machine. *)
Lemma worlds_live p h active w :
  file h (state_path profile_) = None -> rtc world_step (Off p h []) w -> lives (first_view profile_ active) w.
Proof.
  intros Hn Hr. eapply rtc_preserves; [| |exact Hr].
  - intros w1 w2 Hw1 Hs. eapply world_lives; [|done..]. intros v. by apply lives_sound.
  - cbn. exists (first_view profile_ active). by rewrite Hn.
Qed.

Lemma worlds_sound p h w :
  file h (state_path profile_) = None -> rtc world_step (Off p h []) w ->
  match w with
  | Off _ h' trace => exists s, journal_state profile_ (file h' (state_path profile_)) s /\ wf s /\ trace_ok profile_ trace
  | On b => sound profile_ (view_of b) /\ started (state_ b)
  end.
Proof.
  intros Hn Hr. apply (worlds_live p h None) in Hr; [|done]. destruct w as [p' h' trace|b].
  - destruct Hr as (v & Hv & Hj & Ht). apply (lives_sound sha256 profile_ (PO := PO)) in Hv as [_ (s & Hs & Hw & _) Htr]. exists s. by rewrite <-Hj, <-Ht.
  - destruct Hr as (Hv & _ & Hs). by apply lives_sound in Hv.
Qed.

End world.
