(* ===== verification/Sample.v ===== *)
(** * A concrete device

    The platform that the unit tests use (tests/backend_test.cpp, [Fake]), a
    text encoding of the journal and a profile: with the machine of Storage.v
    they instantiate every parameter of the model, so that whole scenarios run
    and the hypotheses of the theorems are seen to hold. *)

From Stdlib Require Import Floats.SpecFloat.
From S2P Require Import Prelude Double SystemTypes Validation Effects Protocol Logging Host Storage Backend BackendSpec.
From S2P Require Import BackendLogic.

(** ** An encoding of the journal *)

(** [par (ser a ++ rest)] gives [a] and [rest] back. *)
Class Serial (A : Type) := {
  ser : A -> string;
  par : string -> option (A * string);
  par_ser a rest : par (ser a +:+ rest) = Some (a, rest)
}.

Fixpoint esc (s : string) : string :=
  match s with
  | EmptyString => ";"
  | String c s' =>
      if (c ==? ";"%char) || (c ==? "\"%char) then String "\" (String c (esc s')) else String c (esc s')
  end.

Fixpoint unesc (s : string) : option (string * string) :=
  match s with
  | EmptyString => None
  | String c s' =>
      if c ==? ";"%char then Some ("", s')
      else if c ==? "\"%char then
        match s' with
        | EmptyString => None
        | String d s'' => '(r, rest) ← unesc s''; Some (String d r, rest)
        end
      else '(r, rest) ← unesc s'; Some (String c r, rest)
  end.

#[export] Program Instance Serial_string : Serial string := {| ser := esc; par := unesc |}.
Next Obligation.
  intros s rest. induction s as [|c s IH]; [done|]. cbn [esc].
  destruct (bool_decide_reflect (c = ";"%char)) as [->|H1]; cbn [orb]; [cbn; by rewrite IH|].
  destruct (bool_decide_reflect (c = "\"%char)) as [->|H2]; [cbn; by rewrite IH|].
  cbn. rewrite (bool_decide_eq_false_2 _ H1), (bool_decide_eq_false_2 _ H2). by rewrite IH.
Qed.

Fixpoint ser_pos (p : positive) : string :=
  match p with xH => "." | xO p => String "0" (ser_pos p) | xI p => String "1" (ser_pos p) end.

Fixpoint par_pos (s : string) : option (positive * string) :=
  match s with
  | EmptyString => None
  | String c s' =>
      if c ==? "."%char then Some (xH, s')
      else '(p, rest) ← par_pos s'; Some (if c ==? "0"%char then xO p else xI p, rest)
  end.

Lemma par_ser_pos p rest : par_pos (ser_pos p +:+ rest) = Some (p, rest).
Proof. induction p as [p IH|p IH|]; cbn; [by rewrite IH | by rewrite IH | done]. Qed.

#[export] Program Instance Serial_Z : Serial Z := {|
  ser z := match z with Z0 => "0" | Zpos p => "+" +:+ ser_pos p | Zneg p => "-" +:+ ser_pos p end;
  par s :=
    match s with
    | EmptyString => None
    | String c s' =>
        if c ==? "0"%char then Some (0, s')
        else '(p, rest) ← par_pos s'; Some (if c ==? "+"%char then Zpos p else Zneg p, rest)
    end
|}.
Next Obligation. intros [|p|p] rest; cbn; [done | by rewrite par_ser_pos..]. Qed.

#[export] Program Instance Serial_bool : Serial bool := {|
  ser b := if b then "t" else "f";
  par s := match s with EmptyString => None | String c s' => Some (c ==? "t"%char, s') end
|}.
Next Obligation. by intros [] rest. Qed.

#[export] Program Instance Serial_pair {A B} `{Serial A, Serial B} : Serial (A * B) := {|
  ser p := ser (fst p) +:+ ser (snd p);
  par s := '(a, s') ← par s; '(b, rest) ← par s'; Some ((a, b), rest)
|}.
Next Obligation. intros A B SA SB [a b] rest. cbn. rewrite str_app_assoc, par_ser. cbn. by rewrite par_ser. Qed.

Section list.
Context {A : Type} `{Serial A}.

Fixpoint ser_list (l : list A) : string :=
  match l with [] => "]" | x :: l' => "," +:+ ser x +:+ ser_list l' end.

Fixpoint par_list (fuel : nat) (s : string) : option (list A * string) :=
  match fuel, s with
  | S fuel', String c s' =>
      if c ==? "]"%char then Some ([], s')
      else '(x, s'') ← par s'; '(l, rest) ← par_list fuel' s''; Some (x :: l, rest)
  | _, _ => None
  end.

Lemma par_ser_list l rest fuel :
  (String.length (ser_list l) <= fuel)%nat -> par_list fuel (ser_list l +:+ rest) = Some (l, rest).
Proof.
  revert fuel. induction l as [|x l IH]; intros [|fuel] Hf; cbn in *; try lia; [done|].
  rewrite str_app_assoc, par_ser. cbn. rewrite IH; [done|]. rewrite str_length_app in Hf. lia.
Qed.

#[export] Program Instance Serial_list : Serial (list A) := {|
  ser := ser_list; par s := par_list (String.length s) s
|}.
Next Obligation. intros l rest. apply par_ser_list. rewrite str_length_app. lia. Qed.

End list.

(** A type with as many values as another. *)
Program Definition Serial_iso {A B} `{Serial B} (to : A -> B) (from : B -> A) (Hfrom : forall a, from (to a) = a) : Serial A :=
  {| ser a := ser (to a); par s := '(b, rest) ← par s; Some (from b, rest) |}.
Next Obligation. intros A B SB to from Hfrom a rest. cbn. rewrite par_ser. cbn. by rewrite Hfrom. Qed.

#[export] Instance Serial_NetworkConfig : Serial NetworkConfig.
Proof.
  refine (Serial_iso
    (fun c => (nc_interface c, (match nc_mode c with dhcp => true | static_ipv4 => false end, (nc_address c,
       (nc_prefix_length c, (nc_gateway c, (nc_dns_servers c, nc_preferred_default c)))))))
    (fun '(i, (m, (a, (p, (g, (d, f)))))) => mkNetworkConfig i (if (m : bool) then dhcp else static_ipv4) a p g d f) _).
  by intros [? [] ? ? ? ? ?].
Defined.

#[export] Instance Serial_Configuration : Serial Configuration.
Proof.
  refine (Serial_iso
    (fun c => ((pr_hostname (cf_system c), (pr_ssh_enabled (cf_system c), pr_network (cf_system c))),
       (tp_synchronization (cf_time c), (tp_timezone (cf_time c), (tp_ptp_interface (cf_time c), tp_ntp_servers (cf_time c))))))
    (fun '((h, (e, n)), (s, (z, (i, l)))) => mkConfiguration (mkPreferences h e n) (mkTimePreferences s z i l)) _).
  by intros [[] []].
Defined.

#[export] Instance Serial_Pending : Serial Pending.
Proof.
  refine (Serial_iso
    (fun p => let t := pd_transaction p in
       ((nt_id t, (nt_state t, (nt_remaining_ms t, (nt_network t, nt_message t)))),
        (pd_previous p, (pd_previous_hash p, (pd_candidate_hash p, (pd_deadline p, (pd_actor p, pd_request_id p)))))))
    (fun '((i, (s, (r, (n, m)))), (p, (h, (c, (d, (a, q)))))) => mkPending (mkNetworkTransaction i s r n m) p h c d a q) _).
  by intros [[] ? ? ? ? ? ?].
Defined.

#[export] Instance Serial_State : Serial State.
Proof.
  refine (Serial_iso
    (fun s => let j := st_job s in
       (st_configuration s, (st_initialized s, (st_pending s, ((job_id j, (job_action j, job_state j)),
         (st_reset_intent s, (st_job_actor s, st_job_request_id s)))))))
    (fun '(c, (i, (p, ((ji, (ja, js)), (r, (a, q)))))) => mkState c i p (mkJob ji ja js) r a q) _).
  by intros [? ? ? [] ? ? ?].
Defined.

#[export] Instance Json_Serial {A} `{Serial A} : Json A := {|
  write_json a := Some (ser a);
  read_json t := match par t with Some (a, EmptyString) => inr a | _ => inl "syntax" end
|}.

Lemma read_json_ser {A} `{Serial A} (a : A) : read_json (ser a) = inr a.
Proof.
  pose proof (par_ser a "") as Hp. rewrite str_app_nil_r in Hp. cbn [read_json Json_Serial]. by rewrite Hp.
Qed.

#[export] Instance Json_Serial_laws {A} `{Serial A} : JsonLaws A.
Proof.
  split. intros a t Ht. assert (t = ser a) as -> by (cbn [write_json Json_Serial] in Ht; congruence).
  apply read_json_ser.
Qed.

(** The other messages. *)
#[export] Instance Serial_Empty : Serial Empty.
Proof. refine (Serial_iso (fun _ => true) (fun _ => mkEmpty) _). by intros []. Defined.

#[export] Instance Serial_Id : Serial Id.
Proof. refine (Serial_iso id_id mkId _). by intros []. Defined.

#[export] Instance Serial_AuditContext : Serial AuditContext.
Proof.
  refine (Serial_iso (fun c => (ac_actor c, ac_request_id c)) (fun '(a, r) => mkAuditContext a r) _). by intros [].
Defined.

#[export] Instance Serial_Finish : Serial Finish.
Proof.
  refine (Serial_iso (fun f => (fi_id f, (fi_commit f, fi_audit_context f))) (fun '(i, (c, a)) => mkFinish i c a) _).
  by intros [].
Defined.

#[export] Instance Serial_Power : Serial Power.
Proof.
  refine (Serial_iso (fun p => (match pw_action p with reboot => true | shutdown => false end, pw_audit_context p))
    (fun '(r, a) => mkPower (if (r : bool) then reboot else shutdown) a) _).
  by intros [[] ?].
Defined.

#[export] Instance Serial_Reset : Serial Reset.
Proof.
  refine (Serial_iso (fun r => (rs_confirmed r, rs_audit_context r)) (fun '(c, a) => mkReset c a) _). by intros [].
Defined.

#[export] Instance Serial_NetworkTransaction : Serial NetworkTransaction.
Proof.
  refine (Serial_iso (fun t => (nt_id t, (nt_state t, (nt_remaining_ms t, (nt_network t, nt_message t)))))
    (fun '(i, (s, (r, (n, m)))) => mkNetworkTransaction i s r n m) _). by intros [].
Defined.

#[export] Instance Serial_Job : Serial Job.
Proof.
  refine (Serial_iso (fun j => (job_id j, (job_action j, job_state j))) (fun '(i, (a, s)) => mkJob i a s) _). by intros [].
Defined.

#[export] Instance Serial_NetworkProposal : Serial NetworkProposal.
Proof.
  refine (Serial_iso
    (fun p => (np_network p, (np_previous_settings_hash p, (np_candidate_settings_hash p, np_audit_context p))))
    (fun '(n, (h, (c, a))) => mkNetworkProposal n h c a) _). by intros [].
Defined.

#[export] Program Instance Serial_option {A} `{Serial A} : Serial (option A) := {|
  ser o := match o with None => "n" | Some a => "s" +:+ ser a end;
  par s :=
    match s with
    | EmptyString => None
    | String c s' => if c ==? "n"%char then Some (None, s') else '(a, rest) ← par s'; Some (Some a, rest)
    end
|}.
Next Obligation. intros A SA [a|] rest; cbn; [by rewrite par_ser | done]. Qed.

#[export] Instance Serial_TimeStatus : Serial TimeStatus.
Proof.
  refine (Serial_iso
    (fun t => (ts_unix_time_ms t, (ts_utc_time t, (ts_local_time t, (ts_timezone t, (ts_utc_offset_seconds t, ts_uptime_ms t))))))
    (fun '(a, (b, (c, (d, (e, f))))) => mkTimeStatus a b c d e f) _). by intros [].
Defined.

#[export] Program Instance Serial_double : Serial double := {|
  ser d :=
    match d with
    | S754_zero s => "z" +:+ ser s
    | S754_infinity s => "i" +:+ ser s
    | S754_nan => "x"
    | S754_finite s m e => "d" +:+ ser s +:+ ser_pos m +:+ ser e
    end;
  par t :=
    match t with
    | EmptyString => None
    | String c t =>
        if c ==? "x"%char then Some (S754_nan, t)
        else
          '(s, t) ← par t;
          if c ==? "z"%char then Some (S754_zero s, t)
          else if c ==? "i"%char then Some (S754_infinity s, t)
          else '(m, t) ← par_pos t; '(e, t) ← par t; Some (S754_finite s m e, t)
    end
|}.
Next Obligation.
  intros [s|s| |s m e] rest; [by destruct s | by destruct s | done |]. cbn [String.append].
  rewrite !str_app_assoc. cbn -[par ser par_pos ser_pos]. rewrite par_ser. cbn -[par ser par_pos ser_pos].
  rewrite par_ser_pos. cbn -[par ser par_pos ser_pos]. by rewrite par_ser.
Qed.

#[export] Instance Serial_Timezone : Serial Timezone.
Proof.
  refine (Serial_iso
    (fun z => (tz_id z, (tz_utc_offset_seconds z, (fun l => (tl_latitude l, tl_longitude l)) <$> tz_location z)))
    (fun '(i, (o, l)) => mkTimezone i o ((fun '(a, b) => mkTimezoneLocation a b) <$> l)) _).
  by intros [? ? [[]|]].
Defined.

#[export] Instance Serial_TimezoneCatalog : Serial TimezoneCatalog.
Proof. refine (Serial_iso (fun c => (tc_generated_at_unix_ms c, tc_zones c)) (fun '(t, z) => mkTimezoneCatalog t z) _). by intros []. Defined.

#[export] Instance Serial_Temperature : Serial Temperature.
Proof.
  refine (Serial_iso (fun t => (te_zone t, (te_label t, te_millidegrees_c t))) (fun '(z, (l, m)) => mkTemperature z l m) _).
  by intros [].
Defined.

#[export] Instance Serial_NetworkStatus : Serial NetworkStatus.
Proof.
  refine (Serial_iso
    (fun n => (ns_interface n, (ns_mac_address n, (ns_carrier n, (ns_addresses n, (ns_gateway n, ns_dns_servers n))))))
    (fun '(a, (b, (c, (d, (e, f))))) => mkNetworkStatus a b c d e f) _). by intros [].
Defined.

#[export] Instance Serial_PtpInterface : Serial PtpInterface.
Proof.
  refine (Serial_iso
    (fun n => (pi_interface n, (pi_carrier n, (pi_hardware_timestamping n, (pi_phc_index n, (pi_selectable n, pi_reason n))))))
    (fun '(a, (b, (c, (d, (e, f))))) => mkPtpInterface a b c d e f) _). by intros [].
Defined.

#[export] Instance Serial_SystemStatus : Serial SystemStatus.
Proof.
  refine (Serial_iso
    (fun s => (ss_configuration s, (ss_network s, (ss_ptp_interfaces s, (ss_irig_selectable s, (ss_ssh_listening s,
       (ss_kernel_release s, ss_operating_system s)))))))
    (fun '(a, (b, (c, (d, (e, (f, g)))))) => mkSystemStatus a b c d e f g) _). by intros [].
Defined.

Definition error_codes : list ErrorCode :=
  [none; invalid_argument; permission_denied; unavailable; unsupported; busy; apply_failed; timeout; internal_error].

Definition error_number (c : ErrorCode) : Z :=
  match c with
  | none => 0 | invalid_argument => 1 | permission_denied => 2 | unavailable => 3 | unsupported => 4
  | busy => 5 | apply_failed => 6 | timeout => 7 | internal_error => 8
  end.

#[export] Instance Serial_Reply : Serial Reply.
Proof.
  refine (Serial_iso (fun r => (error_number (rp_code r), (rp_message r, rp_json r)))
    (fun '(n, (m, j)) => mkReply (nth (Z.to_nat n) error_codes internal_error) m j) _). by intros [[] ? ?].
Defined.

(** ** The platform of the tests *)

Record Fake := mkFake {
  fk_config : Configuration;
  fk_links : list NetworkStatus;
  fk_fail_network : bool;
  fk_fail_power : bool;
  fk_reboots : Z;
  fk_fail_preferences_once : bool
}.

Definition fk_with_config (c : Configuration) (f : Fake) : Fake :=
  mkFake c (fk_links f) (fk_fail_network f) (fk_fail_power f) (fk_reboots f) (fk_fail_preferences_once f).

(** The fake platform leaves the host alone. *)
Definition on_fake {H A} (f : Fake -> Fake * outcome A) : operation Fake H A := fun x =>
  let '(p, r) := f (fst x) in ((p, snd x), r).

#[export] Instance Fake_platform {H} : Platform Fake H := {|
  platform_discover := on_fake (fun f => (f, Return (fk_config f)));
  platform_status := on_fake (fun f => (f, Return (mkSystemStatus default_Configuration [] [] false false "" "")));
  platform_time := on_fake (fun f => (f, Return (mkTimeStatus 0 "" "" "" 0 0)));
  platform_networkLinks := on_fake (fun f => (f, Return (fk_links f)));
  platform_timezones := on_fake (fun f => (f, Return ["UTC"]));
  platform_timezoneCatalog := on_fake (fun f => (f, Return (mkTimezoneCatalog 0 [mkTimezone "UTC" (Some 0) None])));
  platform_temperatures := on_fake (fun f => (f, Return []));
  platform_validateConfiguration c := on_fake (fun f => (f, validate c));
  platform_preferences c := on_fake (fun f =>
    (mkFake c (fk_links f) (fk_fail_network f) (fk_fail_power f) (fk_reboots f) false,
     if fk_fail_preferences_once f then throw_error apply_failed "injected clock start failure" else Return tt));
  platform_bootHostname h := on_fake (fun f => (fk_with_config (set_hostname h (fk_config f)) f, Return tt));
  platform_network n _ := on_fake (fun f =>
    if fk_fail_network f then (f, throw_error apply_failed "injected network failure")
    else (fk_with_config (set_network n (fk_config f)) f, Return tt));
  platform_sshBootPolicy b := on_fake (fun f =>
    (fk_with_config (mkConfiguration (mkPreferences (pr_hostname (cf_system (fk_config f))) b
       (pr_network (cf_system (fk_config f)))) (cf_time (fk_config f))) f, Return tt));
  platform_clockBootPolicy t := on_fake (fun f => (fk_with_config (mkConfiguration (cf_system (fk_config f)) t) f, Return tt));
  platform_power _ := on_fake (fun f =>
    if fk_fail_power f then (f, throw_error apply_failed "injected power failure")
    else (mkFake (fk_config f) (fk_links f) (fk_fail_network f) (fk_fail_power f) (fk_reboots f + 1)
            (fk_fail_preferences_once f), Return tt))
|}.

(** Every file is the manager's. *)
Definition all_files (q : string) : Prop := True.

Lemma on_fake_framed {H A} `{Host H} (f : Fake -> Fake * outcome A) : Framed all_files (on_fake (H := H) f).
Proof. intros x q _. unfold on_fake. by destruct (f (fst x)). Qed.

#[export] Instance Fake_laws {H} `{Host H} : PlatformLaws Fake H all_files.
Proof. split; intros; apply on_fake_framed. Qed.

#[export] Instance all_files_owned profile : Owned all_files profile.
Proof. done. Qed.

(** ** The profile and the machine *)

Definition sample_network : list NetworkConfig := [mkNetworkConfig "end0" dhcp "" 24 "" [] false].

Definition candidate_network : list NetworkConfig :=
  [mkNetworkConfig "end0" static_ipv4 "10.0.0.2" 24 "10.0.0.1" [] false].

Definition sample_configuration : Configuration := set_network sample_network default_Configuration.

Definition sample_profile : Profile :=
  mkProfile "settings" "control" "/s" "/product/active.json" "/run/mnc" "" "" [mkInterfacePolicy "end0" ""] []
    sample_configuration "sshd.socket" "sshd.service" ["systemd-timesyncd.service"] [] [] [] ["/product"] None.

(** A stand-in for SHA-256: the bytes of the text, padded to 32 bytes. *)
Definition sample_digest (s : string) : option (list Z) :=
  let bytes := map code (String.list_ascii_of_string s) in
  Some (take 32 (bytes ++ replicate 32 0)).

Definition sample_hash (s : string) : string := hex_bytes (default [] (sample_digest s)).

Definition no_status (s : string) : option StorageBootStatus := None.

#[export] Instance sample_profile_ok : ProfileOk sample_profile.
Proof.
  split.
  - by apply validate_spec.
  - done.
  - done.
  - split; [done | reflexivity].
  - apply Forall_singleton. reflexivity.
Qed.

Definition sample_fake : Fake := mkFake sample_configuration [] false false 0 false.

(** A disk with an active settings file and no journal; the clock shows the
    given seconds, one per reading. *)
Definition sample_host (settings : string) (seconds : list Z) (plan : list sysres) : Machine :=
  let d := mkDisk {[0%nat := settings]} {[0%nat := settings]} {["/product/active.json" := 0%nat]}
             {["/product/active.json" := 0%nat]} [] {["/"; "/s"; "/product"]} ∅ in
  mkMachine d plan (replicate 64 171) (map (fun s => (s, 0)) seconds) [d].
