(* ===== verification/BackendProperties.v ===== *)
(** * Properties of the system manager *)

From S2P Require Import Prelude SystemTypes Validation Effects Protocol Logging Host Storage Backend BackendSpec.
From S2P Require Import BackendLogic BackendRefinement BackendLifecycle Sample.

(** ** The two phases of a network change *)
Section two_phase.
Context {JS : Json State} (sha256 : string -> option (list Z)) (profile_ : Profile) {PO : ProfileOk profile_}.

Lemma hash_of_inj contents h1 h2 : hash_of sha256 contents h1 -> hash_of sha256 contents h2 -> h1 = h2.
Proof. destruct contents; cbn; [|congruence]. intros (d1 & H1 & ->) (d2 & H2 & ->). congruence. Qed.

(** The settings that complete the open transaction are in force. *)
Definition confirmed (active : option string) (s : State) : Prop :=
  tx_state s = "committing" /\ hash_of sha256 active (pd_candidate_hash (st_pending s)).

(** From [s0] the network is unchanged, or became the confirmed candidate. *)
Definition network_from (active : option string) (s0 s : State) : Prop :=
  (net_of s = net_of s0 /\ (confirmed active s -> confirmed active s0 /\ tx_network s = tx_network s0)) \/
  (net_of s = tx_network s0 /\ confirmed active s0 /\ ~ confirmed active s).

Lemma network_from_same active s0 s s' :
  network_from active s0 s -> net_of s' = net_of s ->
  (confirmed active s' -> confirmed active s /\ tx_network s' = tx_network s) -> network_from active s0 s'.
Proof.
  intros [[Hn Hc]|(Hn & Hc0 & Hno)] Hs Hconf; rewrite <-Hs in Hn.
  - left. split; [done|]. intros [Hc' Ht]%Hconf. rewrite Ht. by apply Hc.
  - right. split; [done|]. split; [done|]. intros [Hc' _]%Hconf. done.
Qed.

Lemma change_network_from active removed s0 s s' :
  wf s -> started s -> network_from active s0 s -> change sha256 profile_ false active removed s s' ->
  network_from active s0 s'.
Proof.
  intros Hw Hst Hf Hch.
  destruct Hch as [|next Hease Hinit Htx Hprev Hnet Hhash Ha|deadline Htx Ha|Htx Ha|Hpend Ha|c Hease Hok Hsame
    |c Hboot|j actor rid reset Hease Hj Ha|js Hjs|Hboot|boot Hboot]; try done.
  - eapply network_from_same; [exact Hf | done|]. intros [Hc _]. cbn in Hc. congruence.
  - eapply network_from_same; [exact Hf | done|]. intros [_ Hc]. exfalso.
    apply (wf_hashes s Hw); [apply is_pending_spec; auto|]. by eapply hash_of_inj.
  - destruct Hf as [[Hn Hc]|(_ & _ & Hno)]; [|by destruct Hno].
    destruct (Hc (conj Htx Ha)) as [H0 Ht]. right. split; [by rewrite <-Ht|]. split; [done|]. intros [? _]. done.
  - eapply network_from_same; [exact Hf | |]; [cbn; by apply wf_previous|]. intros [? _]. done.
  - assert (Hi : st_initialized s = true).
    { destruct Hst as [?|Hr]; [done|]. destruct Hease as (_ & _ & Hr'). congruence. }
    eapply network_from_same; [exact Hf | by apply Hsame | done].
Qed.

Lemma micro_network_from s0 v v' :
  wf (v_state v) -> started (v_state v) -> network_from (v_active v) s0 (v_state v) ->
  micro sha256 profile_ false v v' -> v_active v' = v_active v /\ network_from (v_active v') s0 (v_state v').
Proof.
  intros Hw Hs Hf Hm. destruct Hm as [s t Hc|s t j Hc|s Hc|s Hc|c Hfail Hease Hok Hnet|actor rid Hp|c ok|path ok act Hb|r|d];
    cbn; try done; split; try done; try (by eapply change_network_from).
  by eapply network_from_same.
Qed.

Lemma steps_network_from v v' :
  wf (v_state v) -> started (v_state v) -> rtc (micro sha256 profile_ false) v v' ->
  v_active v' = v_active v /\ network_from (v_active v) (v_state v) (v_state v').
Proof.
  intros Hw Hs Hr.
  assert (Hi : v_active v' = v_active v /\ wf (v_state v') /\ started (v_state v') /\
    network_from (v_active v') (v_state v) (v_state v')).
  { eapply (rtc_preserves _ (fun x => v_active x = v_active v /\ wf (v_state x) /\ started (v_state x) /\
      network_from (v_active x) (v_state v) (v_state x))); [| |exact Hr].
    - intros x y (Ha & Hwx & Hsx & Hfx) Hm. destruct (micro_network_from _ _ _ Hwx Hsx Hfx Hm) as [Ha' Hf'].
      split; [congruence|]. split; [by eapply micro_wf|]. split; [by eapply micro_started | done].
    - split; [done|]. split; [done|]. split; [done|]. left. done. }
  destruct Hi as (Ha & _ & _ & Hf). by rewrite Ha in Hf.
Qed.

End two_phase.

(** ** Rules for single operations *)
Section rules.
Context {P H : Type} {PL : Platform P H} {HO : Host H} {HL : HostLaws H} {JS : Json State}.
Context (profile_ : Profile) {PO : ProfileOk profile_} {own : string -> Prop} {PW : PlatformLaws P H own} {OW : Owned own profile_}.

Abbreviation vwp := (@BackendLogic.vwp P H HO profile_ _).

(** [persist] writes the state, or throws with the storage marked as failed. *)
Lemma vwp_saved v (Q : unit -> view -> Prop) (E : exn -> view -> Prop) :
  (forall t, v_failed v = false -> encode (v_state v) = Return t ->
     Q tt (v_note (Wrote (v_state v) true) (v_with_journal (Some t) v))) ->
  (forall e v', v_state v' = v_state v -> v_failed v' = true -> E e v') -> vwp (persist profile_) Q E v.
Proof.
  intros HQ HE. replace v with (v_with_state (v_state v) v) by (by destruct v).
  eapply (vwp_persist (HL := HL) (PO := PO) (fun _ => None) false profile_); [apply change_same | |].
  - intros t Hf Ht v' _. specialize (HQ t Hf Ht). by destruct v.
  - intros e v' Hs Hf _ _ _ _. by apply HE.
Qed.

(** How [apply] may end, seen from the view [v] it started in. *)
Definition applied (config : Configuration) (v v' : view) : Prop :=
  configuration_ok config /\ v_state v' = with_initialized true (with_configuration config (v_state v)) /\
  (exists t, encode (v_state v') = Return t /\ v_journal v' = Some t) /\
  v_trace v' = Wrote (v_state v') true :: Called (CallSshBootPolicy (pr_ssh_enabled (cf_system config))) true ::
    Called (CallPreferences config) true :: v_trace v.

Definition restored (v v' : view) : Prop :=
  let previous := st_configuration (v_state v) in
  v_state v' = v_state v /\ (exists t, encode (v_state v') = Return t /\ v_journal v' = Some t) /\
  exists attempt, v_trace v' = Wrote (v_state v) true ::
    Called (CallSshBootPolicy (pr_ssh_enabled (cf_system previous))) true ::
    Called (CallPreferences previous) true :: attempt ++ v_trace v.

Definition recovery_error : exn :=
  Error (mkSystemError apply_failed "preferences failed and rollback needs recovery").

Definition apply_failed_with (e : exn) (v v' : view) : Prop :=
  st_configuration (v_state v') = st_configuration (v_state v) /\
  (v' = v \/ restored v v' \/ e = recovery_error).

Lemma vwp_restore e v v1 :
  (v_state v1 = v_state v /\ exists attempt, v_trace v1 = attempt ++ v_trace v) \/ v_failed v1 = true ->
  vwp (restore profile_ (st_configuration (v_state v)) e)
    (fun _ _ => False) (fun e' => apply_failed_with e' v) v1.
Proof.
  intros Hv1. apply vwp_bind, vwp_update, vwp_bind, vwp_try.
  set (v2 := v_with_state _ v1).
  assert (Hrec : forall v', v_state v' = v_state v2 -> apply_failed_with recovery_error v v').
  { intros v' Hv'. split; [by rewrite Hv' | by right; right]. }
  apply vwp_bind, (vwp_call _ (own := own) _ (platform_preferences _)); [|intros e'; by apply vwp_throw, Hrec].
  apply vwp_bind, (vwp_call _ (own := own) _ (platform_sshBootPolicy _)); [|intros e'; by apply vwp_throw, Hrec].
  apply vwp_saved; [|intros e' v' Hv' _; by apply vwp_throw, Hrec].
  intros t Hf Henc. apply vwp_throw. cbn in Hf. destruct Hv1 as [[Hs [attempt Ht]]|Hfail]; [|congruence].
  assert (Hv2 : v_state v2 = v_state v) by (cbn; rewrite Hs; apply with_configuration_same).
  split; [done|]. right; left. split; [exact Hv2|]. split; [by exists t|]. exists attempt. cbn. rewrite Ht.
  change (with_configuration (st_configuration (v_state v)) (v_state v1)) with (v_state v2). by rewrite Hv2.
Qed.

Lemma vwp_apply config v :
  vwp (apply profile_ config) (fun _ => applied config v) (fun e => apply_failed_with e v) v.
Proof.
  assert (Hkeep : forall e, apply_failed_with e v v) by (intros e; split; [done | by left]).
  apply vwp_bind, vwp_idle; [|done]. intros Hf Hease. apply vwp_bind, vwp_validate; [|done]. intros Hok.
  apply vwp_bind, vwp_check_hostname; [|done]. apply vwp_bind, (vwp_ask _ (own := own) (platform_validateConfiguration _)); [|done]. intros _.
  apply vwp_bind, (vwp_get _ _ v_state); [done|]. apply vwp_bind, vwp_when; [intros; by apply vwp_throw|].
  intros _. cbv zeta. apply vwp_try.
  assert (Hback : forall e v1,
    (v_state v1 = v_state v /\ exists attempt, v_trace v1 = attempt ++ v_trace v) \/ v_failed v1 = true ->
    vwp (restore profile_ (st_configuration (v_state v)) e) (fun _ => applied config v) (fun e => apply_failed_with e v) v1).
  { intros e v1 Hv1. eapply vwp_mono; [by apply vwp_restore | by intros [] | done]. }
  apply vwp_bind, (vwp_call _ (own := own) _ (platform_preferences _)).
  2:{ intros e. apply Hback. left. split; [done|]. by exists [Called (CallPreferences config) false]. }
  apply vwp_bind, (vwp_call _ (own := own) _ (platform_sshBootPolicy _)).
  2:{ intros e. apply Hback. left. split; [done|].
      by exists [Called (CallSshBootPolicy (pr_ssh_enabled (cf_system config))) false; Called (CallPreferences config) true]. }
  apply vwp_bind, vwp_update, vwp_bind, vwp_update, vwp_saved.
  - intros t _ Henc. split; [done|]. split; [done|]. split; [by exists t | done].
  - intros e v1 _ Hf1. apply Hback. by right.
Qed.

(** The journal holds the state in memory. *)
Definition saved (v : view) : Prop := exists t, encode (v_state v) = Return t /\ v_journal v = Some t.

Lemma vwp_event_keeps code category message actor action outcome subject priority request_id v
    (Q : unit -> view -> Prop) (E : exn -> view -> Prop) :
  (forall v', v_state v' = v_state v -> v_failed v' = v_failed v -> v_deadline v' = v_deadline v ->
     v_journal v' = v_journal v -> v_active v' = v_active v -> Q tt v') ->
  vwp (event code category message actor action outcome subject priority request_id) Q E v.
Proof. intros HQ. apply vwp_event; [by apply HQ | intros r; by apply HQ]. Qed.

Lemma vwp_accept v :
  vwp (accept_job profile_) (fun j v' => j = st_job (v_state v) /\ v_state v' = v_state v /\ saved v')
    (fun _ v' => v_failed v' = true) v.
Proof.
  apply vwp_bind, vwp_saved; [|done]. intros t Hf Henc. apply vwp_bind, (vwp_get _ _ v_state); [done|]. cbv zeta.
  apply vwp_bind, vwp_event_keeps. intros v' Hs _ _ Hj _. apply vwp_bind, (vwp_now (HL := HL)). intros t'.
  apply vwp_bind, vwp_set_job_deadline, vwp_ret. split; [done|]. split; [exact Hs|]. exists t. cbn. by rewrite Hs, Hj.
Qed.

(** A job that was accepted is in the journal; a job that was not accepted
    changed nothing, unless the journal could not be written. *)
Definition job_accepted (action actor request_id : string) (reset : bool) (v : view) (j : Job) (v' : view) : Prop :=
  st_job_actor (v_state v') = actor /\ st_job_request_id (v_state v') = request_id /\ job_action j = action /\ job_state j = "accepted" /\ st_job (v_state v') = j /\
  st_reset_intent (v_state v') = reset /\ st_configuration (v_state v') = st_configuration (v_state v) /\ saved v'.

Lemma vwp_power action actor request_id v :
  vwp (power profile_ action actor request_id)
    (job_accepted (match action with reboot => "reboot" | shutdown => "shutdown" end) actor request_id false v)
    (fun _ v' => v' = v \/ v_failed v' = true) v.
Proof.
  apply vwp_bind, vwp_idle; [|intros; by left]. intros Hf (_ & _ & Hr).
  apply vwp_bind, vwp_query; [intros; apply randomId_frame | | intros; by left]. intros id.
  apply vwp_bind, vwp_update, vwp_bind, vwp_update. eapply vwp_mono; [apply vwp_accept | | intros; by right]; cbv beta.
  intros j v' (-> & Hs & Hsaved). unfold job_accepted. rewrite Hs. done.
Qed.

Lemma vwp_resetDevice read_status confirmed actor request_id v :
  vwp (resetDevice read_status profile_ confirmed actor request_id)
    (fun j v' => confirmed = true /\ job_accepted "device_reset" actor request_id true v j v')
    (fun _ v' => v' = v \/ v_failed v' = true) v.
Proof.
  unfold resetDevice. destruct confirmed; cbn [negb]; [|apply vwp_throw; intros; by left].
  apply vwp_bind, vwp_idle; [|intros; by left]. intros Hf _. apply vwp_bind.
  assert (Hgo : vwp (id ← host randomId;
       _ ← update (with_job (mkJob id "device_reset" "accepted"));
       _ ← update (with_reset_intent true);
       _ ← update (with_job_audit actor request_id);
       accept_job profile_) (fun j v' => true = true /\ job_accepted "device_reset" actor request_id true v j v')
       (fun _ v' => v' = v \/ v_failed v' = true) v).
  { apply vwp_bind, vwp_query; [intros; apply randomId_frame | | intros; by left]. intros id.
    apply vwp_bind, vwp_update, vwp_bind, vwp_update, vwp_bind, vwp_update.
    eapply vwp_mono; [apply vwp_accept | | intros; by right]; cbv beta.
    intros j v' (-> & Hs & Hsaved). split; [done|]. unfold job_accepted. by rewrite Hs. }
  destruct (negb _); [|by apply vwp_ret].
  apply vwp_bind, (vwp_storageStatus (HL := HL)); [|intros; by left]. intros st.
  apply vwp_when; [intros; apply vwp_throw; by left | done].
Qed.

(** ** Settling *)

Lemma vwp_settle commit boot reason v :
  vwp (settleNetwork profile_ commit boot reason)
    (fun _ v' => v_state v' = settled commit (v_state v) /\ v_failed v' = false /\ v_deadline v' = v_deadline v /\ saved v')
    (fun _ v' => v_state v' = v_state v \/ v_failed v' = true) v.
Proof.
  apply vwp_bind, (vwp_get _ _ v_state); [done|]. cbv zeta. apply vwp_bind, (vwp_call _ (own := own) _ (platform_network _ _)); [|intros; by left].
  apply vwp_bind, vwp_update, vwp_bind, vwp_update, vwp_bind, vwp_saved; [|intros; by right].
  intros t Hf Henc. apply vwp_bind, (vwp_get _ _ v_state); [done|]. apply vwp_event_keeps.
  intros v' Hs Hf' Hd Hj _. split; [by rewrite Hs|]. split; [by rewrite Hf'|]. split; [by rewrite Hd|].
  exists t. by rewrite Hs, Hj.
Qed.

Lemma vwp_removed paths v :
  paths ⊆ pf_reset_paths profile_ ->
  vwp (for_each durable_remove paths) (fun _ v' => v_state v' = v_state v) (fun _ _ => True) v.
Proof.
  revert v. induction paths as [|path paths IH]; intros v Hsub; cbn [for_each]; [by apply vwp_ret|].
  apply vwp_bind, (vwp_durable_remove (HL := HL) (PO := PO) profile_); [apply Hsub, elem_of_cons; by left | | done].
  intros c. eapply vwp_mono; [apply IH; intros x Hx; apply Hsub, elem_of_cons; by right | done | done].
Qed.

Lemma vwp_policies v : vwp boot_policies (fun _ v' => v_state v' = v_state v) (fun _ _ => True) v.
Proof.
  apply vwp_bind, (vwp_get _ _ (fun v => st_configuration (v_state v))); [done|].
  apply vwp_bind, (vwp_call _ (own := own) _ (platform_network _ _)); [|done]. apply vwp_bind, (vwp_call _ (own := own) _ (platform_sshBootPolicy _)); [|done]. by apply (vwp_call _ (own := own) _ (platform_clockBootPolicy _)).
Qed.

(** An expired transaction is completed if the announced settings are in force
    and undone if not. *)
Lemma vwp_recover sha256 boot v :
  is_pending (v_state v) = true ->
  vwp (recoverNetwork sha256 profile_ boot)
    (fun _ v' => exists commit, v_state v' = settled commit (v_state v) /\
       (commit = true <-> confirmed sha256 (v_active v) (v_state v)) /\
       v_failed v' = false /\ v_deadline v' = v_deadline v /\ saved v')
    (fun _ v' => v_state v' = v_state v \/ v_failed v' = true) v.
Proof.
  intros Hp. apply vwp_bind, (vwp_get _ _ v_state); [done|]. rewrite Hp. cbn [negb]. apply vwp_bind.
  assert (Hgo : forall commit, (commit = true <-> confirmed sha256 (v_active v) (v_state v)) ->
    vwp (settleNetwork profile_ commit boot (if boot then "recovery" else "timeout"))
    (fun _ v' => exists commit, v_state v' = settled commit (v_state v) /\
       (commit = true <-> confirmed sha256 (v_active v) (v_state v)) /\
       v_failed v' = false /\ v_deadline v' = v_deadline v /\ saved v')
    (fun _ v' => v_state v' = v_state v \/ v_failed v' = true) v).
  { intros commit Hc. eapply vwp_mono; [apply vwp_settle | | done]. intros [] v' (? & ? & ? & ?). exists commit. auto. }
  case_bool_decide as Htx.
  - apply vwp_bind, (vwp_fileHash (HL := HL) sha256); [|intros; by left]. intros hash Hh. apply vwp_ret, Hgo.
    rewrite bool_decide_eq_true. split; [intros Heq; subst hash; by split|]. intros [_ Hc]. by eapply hash_of_inj.
  - apply vwp_ret, Hgo. split; [done|]. by intros [? _].
Qed.

End rules.

(** ** Files that stay away *)
Section absence.
Context {P H : Type} {PL : Platform P H} {HO : Host H} {HL : HostLaws H} {JS : Json State}.
Context (sha256 : string -> option (list Z)) (read_status : string -> option StorageBootStatus) (profile_ : Profile).
Context {own : string -> Prop} {PW : PlatformLaws P H own} (q : string) (Hown : own q).

Abbreviation B := (eff (Backend P H)).

Definition absent (b : Backend P H) : Prop := file (host_ b) q = None.

(** [m] does not create the file [q]. *)
Definition spares {A} (m : B A) : Prop := forall b, absent b -> wp m (fun _ => absent) (fun _ => absent) b.

Lemma spares_bind {A C} (m : B A) (f : A -> B C) : spares m -> (forall a, spares (f a)) -> spares (m ≫= f).
Proof.
  intros Hm Hf b Hb. apply wp_bind. eapply wp_mono; [by apply Hm | | done]. intros a b' Hb'. by apply Hf.
Qed.

Lemma spares_try {A} (m : B A) h : spares m -> (forall e, spares (h e)) -> spares (try_catch m h).
Proof.
  intros Hm Hh b Hb. apply wp_try. eapply wp_mono; [by apply Hm | done|]. intros e b' Hb'. by apply Hh.
Qed.

(** What does not touch the host. *)
Lemma spares_pure {A} (m : B A) : (forall b, host_ (fst (m b)) = host_ b) -> spares m.
Proof.
  intros Hm b Hb. specialize (Hm b). unfold wp, absent in *. destruct (m b) as [b' []]; cbn in Hm; by rewrite Hm.
Qed.

Lemma spares_host {A} (f : H -> H * outcome A) :
  (forall h, file h q = None -> file (fst (f h)) q = None) -> spares (host f).
Proof.
  intros Hf b Hb. unfold wp, host. specialize (Hf (host_ b) Hb). by destruct (f (host_ b)) as [h []].
Qed.

Lemma spares_noting f (m : B unit) : spares m -> spares (noting f m).
Proof.
  intros Hm. apply spares_bind; [|intros; by apply spares_pure]. apply spares_try; [done|]. intros e.
  apply spares_bind; [by apply spares_pure | intros; by apply spares_pure].
Qed.

Lemma spares_call c f {FR : Framed own f} : spares (call_platform c f).
Proof.
  apply spares_noting. intros b Hb. unfold wp, ask, absent in *. pose proof (framed (f := f) (platform_ b, host_ b) q Hown) as Hf.
  destruct (f (platform_ b, host_ b)) as [[p h] [a|e]]; cbn in *; congruence.
Qed.

Lemma spares_event code category message actor action outcome subject priority request_id :
  spares (event code category message actor action outcome subject priority request_id).
Proof. unfold event. destruct (UserLog_record _ _ _); by apply spares_pure. Qed.

Lemma spares_persist : apart (state_path profile_) q -> spares (persist profile_).
Proof.
  intros Ha. apply spares_bind; [by apply spares_pure|]. intros []; [by apply spares_pure|].
  apply spares_try; [|intros; apply spares_bind; [by apply spares_pure | intros; by apply spares_pure]].
  apply spares_bind; [by apply spares_pure|]. intros s. apply spares_bind; [by apply spares_pure|]. intros t.
  apply spares_noting, spares_host. intros h Hh. by rewrite atomicWrite_frame.
Qed.

Lemma spares_boot_policies : spares boot_policies.
Proof.
  apply spares_bind; [by apply spares_pure|]. intros c. apply spares_bind; [apply (spares_call _ (platform_network _ _))|].
  intros _. apply spares_bind; [apply (spares_call _ (platform_sshBootPolicy _))|]. intros _. apply (spares_call _ (platform_clockBootPolicy _)).
Qed.

Lemma spares_remove_all paths : spares (for_each durable_remove paths).
Proof.
  induction paths as [|path paths IH]; [by apply spares_pure|]. apply spares_bind; [|done].
  apply spares_noting, spares_host. intros h. apply durableRemove_shrinks.
Qed.

Lemma removes path paths :
  path ∈ paths -> under path q = true -> forall b,
  wp (for_each durable_remove paths) (fun _ => absent) (fun _ _ => True) b.
Proof.
  intros Hin Hu. induction paths as [|x paths IH]; intros b; [by apply elem_of_nil in Hin|].
  cbn [for_each]. apply wp_bind. destruct (decide (path = x)) as [<-|Hne].
  - eapply (wp_mono _ (fun _ => absent) _ (fun _ _ => True)); [| |done].
    + unfold durable_remove, noting. apply wp_bind, wp_try. unfold wp at 1, host.
      pose proof (durableRemove_ok (host_ b) path q) as Hok.
      destruct (durableRemove path (host_ b)) as [h [[]|e]]; [|done]. by apply Hok.
    + intros _ b1 Hb1. eapply wp_mono; [by apply spares_remove_all | done | done].
  - apply elem_of_cons in Hin as [?|Hin]; [done|].
    eapply (wp_mono _ (fun _ _ => True) _ (fun _ _ => True)); [| |done].
    + apply wp_trivial.
    + intros _ b1 _. by apply IH.
Qed.

End absence.

(** ** Refusals *)
Section refusals.
Context {P H : Type} {PL : Platform P H} {HO : Host H} {JS : Json State}.
Context (sha256 : string -> option (list Z)) (read_status : string -> option StorageBootStatus) (profile_ : Profile).

(** Requests that begin something new. *)
Definition new_operation (r : request) : bool :=
  match r with
  | RApply _ | RBeginNetwork _ _ _ | RPower _ _ _ | RResetDevice true _ _ => true
  | _ => false
  end.

Definition idle_error (b : Backend P H) : exn :=
  if storage_failed_ b then Error (mkSystemError unavailable "system journal requires recovery")
  else Error (mkSystemError busy "another system transaction is in progress").

Lemma idle_refuses b : storage_failed_ b = true \/ ~ at_ease (state_ b) -> idle b = (b, Throw (idle_error b)).
Proof.
  intros Hb. unfold idle, mbind, eff_bind, get, gets, idle_error. destruct (storage_failed_ b); [done|].
  destruct Hb as [?|Hb]; [done|]. destruct (_ || _) eqn:E; [done|]. exfalso. apply Hb.
  apply orb_false_iff in E as [E Hr]. apply orb_false_iff in E as [Hp Hj%bool_decide_eq_false]. by split.
Qed.

Lemma bind_throws {A C} (m : eff (Backend P H) A) (f : A -> eff (Backend P H) C) b b' e :
  m b = (b', Throw e) -> (m ≫= f) b = (b', Throw e).
Proof. unfold mbind, eff_bind. by intros ->. Qed.

Lemma new_operation_refused r b :
  new_operation r = true -> storage_failed_ b = true \/ ~ at_ease (state_ b) ->
  perform sha256 read_status profile_ r b = (b, Throw (idle_error b)).
Proof.
  intros Hr Hb. apply idle_refuses in Hb. destruct r as [| | | | | | | |[]]; try done; cbn [perform].
  - by apply bind_throws.
  - by apply bind_throws, bind_throws.
  - by apply bind_throws, bind_throws.
  - by apply bind_throws, bind_throws.
Qed.

End refusals.

(** ** The deadline *)
Section deadline.
Context {P H : Type} {PL : Platform P H} {HO : Host H} {HL : HostLaws H} {JS : Json State}.
Context (sha256 : string -> option (list Z)) (profile_ : Profile) {PO : ProfileOk profile_} {own : string -> Prop} {PW : PlatformLaws P H own} {OW : Owned own profile_}.
(** Hosts whose clock shows at least [limit] from now on. *)
Context (limit : Z) (late : H -> Prop).
Context (late_clock : forall h, late h -> exists h' t, clock_ h = (h', Return t) /\ limit <= t /\ late h').
Context (late_links : forall x, late (snd x) -> late (snd (fst (platform_networkLinks (P := P) x)))).

Abbreviation view_of := (view_of (P := P) (H := H) profile_).

(** [v'] is [v] but for public log records. *)
Definition but_logs (v v' : view) : Prop :=
  v_state v' = v_state v /\ v_failed v' = v_failed v /\ v_deadline v' = v_deadline v /\
  v_journal v' = v_journal v /\ v_active v' = v_active v.

Definition idling (v : view) (b : Backend P H) : Prop := but_logs v (view_of b) /\ late (host_ b).

Lemma wp_now_late v (Q : Z -> Backend P H -> Prop) E b :
  idling v b -> (forall t b', limit <= t -> idling v b' -> Q t b') -> wp now Q E b.
Proof.
  intros [Hv Hl] HQ. unfold wp, now, host. pose proof (clock_frame (host_ b)) as Hf.
  destruct (late_clock _ Hl) as (h & t & Hc & Ht & Hh). rewrite Hc in *. cbn [fst] in Hf. apply HQ; [done|].
  split; [|done]. unfold but_logs in *. cbn in *. by rewrite !Hf.
Qed.

Lemma wp_event_late v code category message actor action outcome subject priority request_id E b :
  idling v b ->
  wp (event code category message actor action outcome subject priority request_id) (fun _ => idling v) E b.
Proof. intros Hb. unfold event. by destruct (UserLog_record _ _ _). Qed.

Lemma wp_observe_late v E b : idling v b -> wp (observeNetwork profile_) (fun _ => idling v) E b.
Proof.
  intros Hb. unfold observeNetwork. apply wp_try, wp_bind.
  assert (Ha : idling v (fst (ask platform_networkLinks b))).
  { destruct Hb as [Hv Hl]. split; [by rewrite (ask_view profile_ own)|]. specialize (late_links (platform_ b, host_ b) Hl).
    unfold ask. by destruct (platform_networkLinks (platform_ b, host_ b)) as [[p h] r]. }
  unfold wp at 1. destruct (ask platform_networkLinks b) as [b0 [links|e]]; cbn [fst] in Ha; [|by apply wp_ret].
  apply wp_bind. unfold wp at 1, set_carriers, modify. apply wp_for_each; [done|].
  intros link b1 Hb1. unfold observe_link. destruct (forallb _ _); [by apply wp_ret|].
  apply wp_bind. unfold get. apply wp_gets. cbv zeta. apply wp_bind.
  eapply (wp_mono _ (fun _ => idling v) _ (fun _ _ => False)); [|by intros [] b2 Hb2|done].
  destruct (carriers_ b1 !! ns_interface link) as [c|]; [|by apply wp_ret].
  unfold when. destruct (negb _); [by apply wp_event_late | by apply wp_ret].
Qed.

Lemma tick_expires_wp b :
  storage_failed_ b = false -> is_pending (state_ b) = true -> pd_deadline (st_pending (state_ b)) <= limit ->
  job_deadline_ b = 0 -> late (host_ b) ->
  wp (tick sha256 profile_)
    (fun _ b' => exists commit, state_ b' = settled commit (state_ b) /\
       (commit = true <-> confirmed sha256 (file (host_ b) (pf_active_settings profile_)) (state_ b)) /\ saved (view_of b'))
    (fun _ b' => state_ b' = state_ b \/ storage_failed_ b' = true) b.
Proof.
  intros Hf Hp Hd Hj Hl. assert (Hi : idling (view_of b) b) by (by split).
  unfold tick. apply wp_bind. unfold get. apply wp_gets. rewrite Hf. apply wp_bind, (wp_now_late (view_of b)); [done|].
  intros t b1 _ Hb1. apply wp_bind, wp_gets, wp_bind.
  eapply (wp_mono _ (fun _ => idling (view_of b)) _ (fun _ _ => False)); [| |done].
  { unfold when. destruct (_ <=? t); [|by apply wp_ret]. apply wp_bind, (wp_now_late (view_of b)); [done|].
    intros t' b2 _ Hb2. apply wp_bind. unfold wp at 1, set_next_observation, modify. by apply wp_observe_late. }
  intros [] b2 Hb2. apply wp_bind, wp_gets. destruct Hb2 as [(Hs & Hf2 & Hd2 & Hj2 & Ha2) Hl2]. cbn in Hs, Hf2, Hd2, Ha2.
  rewrite Hs, Hp. cbn [when]. apply wp_bind, wp_bind, (wp_now_late (view_of b2)); [by split|].
  intros t' b3 Ht' [(Hs3 & Hf3 & Hd3 & Hj3 & Ha3) Hl3]. cbn in Hs3, Hf3, Hd3, Ha3.
  rewrite (proj2 (Z.leb_le _ _)) by lia. cbn [when].
  assert (Hp3 : is_pending (v_state (view_of b3)) = true) by (cbn; by rewrite Hs3, Hs).
  pose proof (vwp_run _ _ _ _ _ (vwp_recover (P := P) (HL := HL) (PO := PO) profile_ sha256 false (view_of b3) Hp3)) as Hr.
  unfold wp at 1. destruct (recoverNetwork sha256 profile_ false b3) as [b4 [[]|e]].
  - destruct Hr as (commit & Hst & Hc & _ & Hdl & Hsv). cbn in Hst, Hc, Hdl. apply wp_bind, wp_gets.
    rewrite Hdl, Hd3, Hd2, Hj. cbn [when negb Z.eqb]. apply wp_ret. exists commit.
    rewrite Hs3, Hs, Ha3, Ha2 in *. done.
  - cbn in Hr. rewrite Hs3, Hs in Hr. done.
Qed.

End deadline.

(** ** A proposal *)
Section proposal.
Context {P H : Type} {PL : Platform P H} {HO : Host H} {HL : HostLaws H} {JS : Json State}.
Context (sha256 : string -> option (list Z)) (profile_ : Profile) {PO : ProfileOk profile_} {own : string -> Prop} {PW : PlatformLaws P H own} {OW : Owned own profile_}.

Abbreviation vwp := (@BackendLogic.vwp P H HO profile_ _).
Abbreviation reach := (reach sha256 profile_ false).

Lemma micro_extends v v' : micro sha256 profile_ false v v' -> exists later, v_trace v' = later ++ v_trace v.
Proof.
  destruct 1; cbn; try (by exists []); by eexists [_].
Qed.

Lemma reach_extends v v' : reach v v' -> exists later, v_trace v' = later ++ v_trace v.
Proof.
  intros [Hr _]. eapply (rtc_preserves _ (fun x => exists later, v_trace x = later ++ v_trace v)); [| |exact Hr].
  - intros x y [l Hl] [l' Hl']%micro_extends. exists (l' ++ l). by rewrite Hl', Hl, app_assoc.
  - by exists [].
Qed.

(** The proposal [p] was durably recorded, with what is needed to undo it, and
    only then was the platform given the new network. *)
Definition proposed (p : NetworkProposal) (v v' : view) : Prop :=
  exists s ok later,
    v_trace v' = later ++ Called (CallNetwork (np_network p) false) ok :: Wrote s true :: v_trace v /\
    tx_state s = "pending" /\ tx_network s = np_network p /\ network_ok (np_network p) /\
    pd_previous (st_pending s) = net_of (v_state v) /\
    hash_of sha256 (v_active v) (np_previous_settings_hash p) /\
    pd_candidate_hash (st_pending s) = np_candidate_settings_hash p.

Definition begun (p : NetworkProposal) (v v' : view) : Prop := v' = v \/ v_failed v' = true \/ proposed p v v'.

Lemma proposed_later p v v1 v2 : proposed p v v1 -> reach v1 v2 -> begun p v v2.
Proof.
  intros (s & ok & later & Ht & Hrest) [l Hl]%reach_extends. right; right. exists s, ok, (l ++ later).
  split; [by rewrite Hl, Ht, app_assoc | done].
Qed.

Lemma reach_self v0 v : reach v0 v -> reach v v.
Proof. intros (_ & Hw & Hs). by apply reach_refl. Qed.

Lemma vwp_begin p actor request_id v :
  wf (v_state v) -> started (v_state v) ->
  vwp (beginNetwork sha256 profile_ p actor request_id) (fun _ => begun p v) (fun _ => begun p v) v.
Proof.
  intros Hw Hst. assert (Hkeep : begun p v v) by (by left). assert (Hv : reach v v) by (by apply reach_refl).
  apply vwp_bind, vwp_idle; [|done]. intros Hf Hease. apply vwp_bind, (vwp_get _ _ v_state); [done|]. cbv zeta.
  apply vwp_bind, vwp_validate; [|done]. intros Hok%configuration_ok_get. apply vwp_bind, vwp_check_hostname; [|done].
  apply vwp_bind, (vwp_ask _ (own := own) (platform_validateConfiguration _)); [|done]. intros _. apply vwp_bind.
  destruct (_ || _) eqn:Eb; [apply vwp_ret, vwp_bind; by apply vwp_throw|].
  apply orb_false_iff in Eb as [_ Hne%bool_decide_eq_false].
  apply vwp_bind, (vwp_fileHash (HL := HL) sha256 profile_); [|done]. intros hash Hh. apply vwp_ret, vwp_bind.
  case_bool_decide as Hhash; cbn [negb when]; [subst hash; apply vwp_ret | by apply vwp_throw].
  apply vwp_bind, vwp_query; [intros; apply randomId_frame | | done]. intros id.
  apply vwp_bind, (vwp_now (HL := HL)). intros t. apply vwp_bind, vwp_update, vwp_bind.
  assert (Hinit : st_initialized (v_state v) = true).
  { destruct Hst as [?|Hr]; [done|]. destruct Hease as (_ & _ & Hr'). congruence. }
  eapply (vwp_record (HL := HL) (PO := PO) sha256 profile_ false _ v v); [done | by apply change_propose | |].
  2:{ intros e v' _ Hf' _. right; by left. }
  intros t' v' _ Hv'. apply vwp_bind, vwp_try, (vwp_contract (PO := PO) sha256 profile_ false _ (platform_network _ _) v); [done | done |].
  assert (Hprop : forall ok, proposed p v (v_note (Called (CallNetwork (np_network p) false) ok) v')).
  { intros ok. eexists _, ok, []. split; [reflexivity | done]. }
  intros [] Hc.
  - apply vwp_bind, (vwp_get _ _ v_state); [done|].
    apply vwp_bind, (vwp_logged (PO := PO) sha256 profile_ false _ _ _ _ _ _ _ _ _ (v_note (Called (CallNetwork (np_network p) false) true) v')); [by apply (reach_self v)|].
    intros v2 Hv2. eapply vwp_mono; [by apply (refines_networkTransaction (HL := HL) (PO := PO) sha256 (fun _ => None) profile_ false _ v2 Hv2) | |];
      cbv beta; intros; by eapply proposed_later.
  - intros e. apply vwp_bind.
    eapply vwp_mono; [apply (refines_settle (HL := HL) (PO := PO) sha256 profile_ false false false _ _ _ (reach_self _ _ Hc)); [done|] | |].
    + apply change_rollback; [done|]. by intros ?.
    + cbv beta. intros [] v2 Hv2. apply vwp_throw. by eapply proposed_later.
    + cbv beta. intros e' v2 Hv2. by eapply proposed_later.
Qed.

End proposal.

(** ** Theorems *)
Section properties.
Context {P H : Type} {PL : Platform P H} {HO : Host H} {HL : HostLaws H} {JS : Json State} {JL : JsonLaws State}.
Context (sha256 : string -> option (list Z)) (read_status : string -> option StorageBootStatus).
Context (profile_ : Profile) {PO : ProfileOk profile_} {own : string -> Prop} {PW : PlatformLaws P H own} {OW : Owned own profile_}.

Abbreviation perform := (perform (P := P) (H := H) sha256 read_status profile_).
Abbreviation view_of := (view_of (P := P) (H := H) profile_).
Abbreviation world_step := (world_step (P := P) (H := H) sha256 read_status profile_).

(** C7: Every request to a running manager, whatever fails on the way, is a
    sequence of steps of the abstract machine, and leaves a well-formed state;
    so a power loss within it leaves a journal of one of these steps. *)
Theorem perform_refines r b :
  wf (state_ b) -> started (state_ b) ->
  let b' := fst (perform r b) in
  rtc (micro sha256 profile_ false) (view_of b) (view_of b') /\ wf (state_ b') /\ started (state_ b').
Proof.
  intros Hw Hs. apply refines_run; [|done..]. by apply (refines_perform (HL := HL) (PO := PO) (own := own) sha256 read_status profile_ false).
Qed.

(** C1: Two-phase safety: a request changes the recorded network, the one that is
    in force outside of a trial (the platform gets a proposed network at once, on
    trial), only by completing a transaction in its committing phase while the settings file on
    disk is exactly the candidate that the transaction announced; then the new
    network is the announced one. *)
Theorem network_changes_only_when_confirmed r b :
  wf (state_ b) -> started (state_ b) ->
  let b' := fst (perform r b) in
  net_of (state_ b') = net_of (state_ b) \/
  (confirmed sha256 (file (host_ b) (pf_active_settings profile_)) (state_ b) /\
   net_of (state_ b') = tx_network (state_ b)).
Proof.
  intros Hw Hs b'.
  destruct (refines_run sha256 profile_ false _ b (refines_perform (HL := HL) (PO := PO) sha256 read_status profile_ false r) Hw Hs)
    as (Hr & _).
  apply (steps_network_from sha256 profile_ (PO := PO)) in Hr as [_ [[Hn _]|(Hn & Hc & _)]]; auto.
Qed.

(** C2: After any history of a new device (boots, starts, requests, stops,
    power losses in the middle of requests, and changes of files other than the
    journal by other programs) the journal can be read and holds a well-formed
    state; while the manager runs its state is well formed and, unless a write
    failed, is what a restart would read back, audit fields aside. Reading here is
    what the JSON library reads; the constructor decodes it to that very state
    as long as the text is within [max_message_size], which the code does not
    enforce when it writes. *)
Theorem journal_always_recoverable p h w :
  file h (state_path profile_) = None -> rtc world_step (Off p h []) w ->
  match w with
  | Off _ h' _ => exists s, journal_state profile_ (file h' (state_path profile_)) s /\ wf s /\
      forall t, file h' (state_path profile_) = Some t -> size_of t <= max_message_size -> decode max_message_size t = Return s
  | On b =>
      wf (state_ b) /\ started (state_ b) /\
      exists s, journal_state profile_ (file (host_ b) (state_path profile_)) s /\ wf s /\
        (storage_failed_ b = false -> same_journal profile_ s (state_ b)) /\
        forall t, file (host_ b) (state_path profile_) = Some t -> size_of t <= max_message_size ->
          decode max_message_size t = Return s
  end.
Proof.
  intros Hn Hr. apply (worlds_sound (HL := HL) (JL := JL) sha256 read_status profile_ (PO := PO)) in Hr; [|done]. destruct w as [p' h' trace|b].
  - destruct Hr as (s & Hs & Hw & _). exists s. split_and!; [done | done|]. intros t. by apply journal_state_decodes with (1 := Hs).
  - destruct Hr as [[Hw (s & Hs & Hws & Hsync) _] Hst]. split; [done|]. split; [done|]. exists s. split_and!; [done.. |].
    intros t. by apply journal_state_decodes with (1 := Hs).
Qed.

Lemma trace_ok_split after c ok before :
  trace_ok profile_ (after ++ Called c ok :: before) -> call_ok profile_ before c.
Proof. induction after as [|e after IH]; cbn; [tauto|]. intros [_ ?]. auto. Qed.

Definition trace_of (w : world P H) : list trace_event :=
  match w with Off _ _ trace => trace | On b => trace_ b end.

(** C6: In every history of a new device the platform is only asked to apply
    validated configurations, networks and clock settings, to set the managed
    hostname, and to stop the machine right after the journal durably recorded
    the job as dispatched, with the action the job asks for. *)
Theorem platform_contract p h w after c ok before :
  file h (state_path profile_) = None -> rtc world_step (Off p h []) w ->
  trace_of w = after ++ Called c ok :: before -> call_ok profile_ before c.
Proof.
  intros Hn Hr Ht. apply (worlds_sound (HL := HL) (JL := JL) sha256 read_status profile_ (PO := PO)) in Hr; [|done]. apply (trace_ok_split after c ok). rewrite <-Ht.
  destruct w as [p' h' trace|b]; [by destruct Hr as (s & _ & _ & Htr) | by destruct Hr as [[_ _ Htr] _]].
Qed.

(** C8: [apply] is all or nothing. When it returns, the configuration was
    valid, the platform took it and the journal holds it. When it throws, the
    configuration in force is the previous one, and either nothing was touched,
    or the platform was given the previous preferences back and the journal
    holds them, or the error tells that recovery is needed. *)
Theorem apply_all_or_nothing config b :
  let '(b', r) := apply profile_ config b in
  match r with
  | Return _ => applied config (view_of b) (view_of b')
  | Throw e => apply_failed_with e (view_of b) (view_of b')
  end.
Proof.
  pose proof (vwp_run _ _ _ _ _ (vwp_apply (P := P) (HL := HL) (PO := PO) profile_ config (view_of b))) as Hw.
  destruct (apply profile_ config b) as [b' [[]|e]]; exact Hw.
Qed.

(** A power request that is answered with a job has the job in the journal
    before the answer, and the machine is stopped by a later tick only; a request
    that is refused has changed nothing, unless the journal failed. *)
Theorem power_accepted_durably action actor request_id b :
  let '(b', r) := power profile_ action actor request_id b in
  match r with
  | Return j => job_accepted (match action with reboot => "reboot" | shutdown => "shutdown" end) actor request_id false (view_of b) j (view_of b')
  | Throw _ => view_of b' = view_of b \/ storage_failed_ b' = true
  end.
Proof.
  pose proof (vwp_run _ _ _ _ _ (vwp_power (P := P) (HL := HL) (PO := PO) profile_ action actor request_id (view_of b))) as Hw.
  destruct (power profile_ action actor request_id b) as [b' [j|e]]; exact Hw.
Qed.

(** The same for a device reset: it needs the confirmation, and once it is
    answered the intent to reset is in the journal and survives restarts. *)
Theorem reset_accepted_durably confirmed actor request_id b :
  let '(b', r) := resetDevice read_status profile_ confirmed actor request_id b in
  match r with
  | Return j => confirmed = true /\ job_accepted "device_reset" actor request_id true (view_of b) j (view_of b')
  | Throw _ => view_of b' = view_of b \/ storage_failed_ b' = true
  end.
Proof.
  pose proof (vwp_run _ _ _ _ _ (vwp_resetDevice (P := P) (HL := HL) (PO := PO) profile_ read_status confirmed actor
    request_id (view_of b))) as Hw.
  destruct (resetDevice read_status profile_ confirmed actor request_id b) as [b' [j|e]]; exact Hw.
Qed.

(** C20: One operation at a time: while a transaction, a job or a reset is open,
    or after a failed write of the journal, a request that begins something new
    is refused with the matching error and changes nothing at all. *)
Theorem busy_refused_unchanged r b :
  new_operation r = true -> storage_failed_ b = true \/ ~ at_ease (state_ b) ->
  perform r b = (b, Throw (idle_error b)).
Proof. apply new_operation_refused. Qed.

(** C14: A network proposal is in the journal, together with the network to go
    back to, before the platform is given the new network, and only for settings
    that are in force; a refused proposal changes nothing. *)
Theorem proposal_recorded_before_effect p actor request_id b :
  wf (state_ b) -> started (state_ b) ->
  let b' := fst (beginNetwork sha256 profile_ p actor request_id b) in
  view_of b' = view_of b \/ storage_failed_ b' = true \/ proposed sha256 p (view_of b) (view_of b').
Proof.
  intros Hw Hs b'. subst b'.
  pose proof (vwp_run _ _ _ _ _ (vwp_begin (P := P) (HL := HL) (PO := PO) sha256 profile_ p actor request_id (view_of b) Hw Hs)) as Hv.
  by destruct (beginNetwork sha256 profile_ p actor request_id b) as [b' []].
Qed.

(** C13: Confirmation cannot be missed: once the clock is past the deadline, the
    next tick completes the transaction if the announced settings are in force
    and undoes it otherwise, and records the result; if the platform or the
    journal fails, it throws with the transaction still open or the storage
    marked as failed. *)
Theorem tick_settles_expired (limit : Z) (late : H -> Prop) b :
  (forall h, late h -> exists h' t, clock_ h = (h', Return t) /\ limit <= t /\ late h') ->
  (forall x, late (snd x) -> late (snd (fst (platform_networkLinks (P := P) x)))) ->
  storage_failed_ b = false -> is_pending (state_ b) = true -> pd_deadline (st_pending (state_ b)) <= limit ->
  job_deadline_ b = 0 -> late (host_ b) ->
  let '(b', r) := tick sha256 profile_ b in
  match r with
  | Return _ => exists commit, state_ b' = settled commit (state_ b) /\
      (commit = true <-> confirmed sha256 (file (host_ b) (pf_active_settings profile_)) (state_ b)) /\ saved (view_of b')
  | Throw _ => state_ b' = state_ b \/ storage_failed_ b' = true
  end.
Proof.
  intros Hlate Hlinks Hf Hp Hd Hj Hl.
  pose proof (tick_expires_wp (HL := HL) (PO := PO) sha256 profile_ limit late Hlate Hlinks b Hf Hp Hd Hj Hl) as Hw.
  unfold wp in Hw. by destruct (tick sha256 profile_ b) as [b' [[]|e]].
Qed.

(** C40: The remaining time that [networkTransaction] reports, with two readings
    [t1] and [t2] of the clock after the tick: zero when no transaction is open
    or the first reading is at the deadline; the distance from the second
    reading to the deadline when that is not past it; and, when the deadline
    passes between the two readings, that distance wrapped around 64 bits, so
    that an expired transaction is reported with an enormous time left. The
    rest of the answer is the transaction as the tick left it. *)
Theorem remaining_time b b1 h1 h2 t1 t2 :
  tick sha256 profile_ b = (b1, Return tt) ->
  clock_ (host_ b1) = (h1, Return t1) -> clock_ h1 = (h2, Return t2) ->
  let open_ := st_pending (state_ b1) in
  let d := pd_deadline open_ in
  0 <= d < 2 ^ 64 ->
  exists b' t, networkTransaction sha256 profile_ b = (b', Return t) /\ state_ b' = state_ b1 /\
    nt_state t = nt_state (pd_transaction open_) /\ nt_id t = nt_id (pd_transaction open_) /\
    (is_pending (state_ b1) = false \/ d <= t1 -> nt_remaining_ms t = 0) /\
    (is_pending (state_ b1) = true -> t1 < d -> t2 <= d -> nt_remaining_ms t = d - t2) /\
    (is_pending (state_ b1) = true -> t1 < d -> d < t2 -> nt_remaining_ms t = 2 ^ 64 + d - t2).
Proof.
  intros Ht H1 H2 open_ d Hd. assert (Hr2 : 0 <= t2 < 2 ^ 64).
  { destruct (clock_returns h1) as (t & Hs & Hr). rewrite H2 in Hs. cbn in Hs. by injection Hs as <-. }
  unfold networkTransaction, mbind, eff_bind, mret, eff_ret. rewrite Ht. cbn [get gets fst snd]. fold open_ d.
  destruct (is_pending (state_ b1)) eqn:Hp.
  2:{ eexists _, _. split; [reflexivity|]. split_and!; try done. }
  unfold now, host. rewrite H1. cbn -[Z.pow]. destruct (t1 <? d) eqn:El.
  - apply Z.ltb_lt in El. cbn [host_]. rewrite H2. cbn -[Z.pow]. eexists _, _. split; [reflexivity|]. split_and!; try done.
    + intros [|]; [done | lia].
    + intros _ _ Hle. apply Z.mod_small. lia.
    + intros _ _ Hlt. cbn -[Z.pow]. unfold u64. symmetry. apply (Z.mod_unique _ _ (-1)); [left; lia|]. lia.
  - apply Z.ltb_ge in El. eexists _, _. split; [reflexivity|]. split_and!; try done; lia.
Qed.

(** The factory settings, under the managed name of a product that has one. *)
Definition factory_configuration : Configuration :=
  match pf_boot_preferences profile_ with
  | Some boot => set_hostname (bp_managed_hostname boot) (pf_defaults profile_)
  | None => pf_defaults profile_
  end.

Abbreviation vwp := (@BackendLogic.vwp P H HO profile_ _).

Lemma vwp_bootstrap_reset v (Q : unit -> view -> Prop) :
  (forall v', v_state v' = with_job_state "completed" (with_reset_intent false (with_pending default_Pending
      (with_initialized true (with_configuration (pf_defaults profile_) (v_state v))))) -> saved v' -> Q tt v') ->
  vwp (bootstrap_reset read_status profile_) Q (fun _ _ => True) v.
Proof.
  intros HQ. unfold bootstrap_reset.
  apply vwp_bind. eapply (vwp_mono profile_ _ (fun _ v' => v' = v) _ (fun _ _ => True)); [| |done].
  { destruct (negb _); [|by apply vwp_ret]. apply vwp_bind, (vwp_storageStatus (HL := HL)); [|done]. intros st.
    apply vwp_when; [intros; by apply vwp_throw | done]. }
  intros [] v0 ->. apply vwp_bind. eapply vwp_mono; [by apply (vwp_removed (HL := HL) profile_ (PO := PO)) | | done].
  intros [] v1 Hs1. apply vwp_bind, vwp_update, vwp_bind, vwp_update, vwp_bind, vwp_update, vwp_bind.
  eapply vwp_mono; [apply (vwp_policies (own := own) profile_) | | done]. intros [] v2 Hs2. cbn in Hs2.
  apply vwp_bind, vwp_update, vwp_bind, vwp_update, vwp_bind, (vwp_saved (HL := HL) profile_ (PO := PO)); [|done].
  intros t Hf Henc. apply vwp_bind, (vwp_get _ _ v_state); [done|]. apply vwp_event_keeps.
  intros v3 Hs3 _ _ Hj _. cbn in Hs3, Hj, Henc. rewrite Hs2, Hs1 in Hs3, Henc.
  apply HQ; [exact Hs3|]. exists t. by rewrite Hs3.
Qed.

Lemma vwp_bootstrap_factory v :
  st_reset_intent (v_state v) = true ->
  vwp (bootstrap sha256 read_status profile_)
    (fun _ v' => st_reset_intent (v_state v') = false /\ is_pending (v_state v') = false /\
       st_configuration (v_state v') = factory_configuration /\ saved v') (fun _ _ => True) v.
Proof.
  intros Hr. apply vwp_bind, (vwp_get _ _ v_state); [done|]. rewrite Hr. apply vwp_bind, vwp_bootstrap_reset.
  intros v1 Hs1 Hsaved. unfold factory_configuration. destruct (pf_boot_preferences profile_) as [boot|].
  - apply vwp_bind, vwp_update, vwp_bind, vwp_get_any. intros h. apply vwp_bind, (vwp_call _ (own := own) _ (platform_bootHostname _)); [|done].
    apply (vwp_saved (HL := HL) profile_ (PO := PO)); [|done]. intros t _ Henc. cbn in *. rewrite Hs1 in *. split; [done|].
    split; [done|]. split; [done|]. by exists t.
  - apply vwp_ret. rewrite Hs1. done.
Qed.

(** After the removals nothing brings a file under a reset path back. *)
Lemma bootstrap_removes path q :
  own q -> path ∈ pf_reset_paths profile_ -> under path q = true -> apart (state_path profile_) q -> forall b,
  st_reset_intent (state_ b) = true ->
  wp (bootstrap sha256 read_status profile_) (fun _ => absent q) (fun _ _ => True) b.
Proof.
  intros Hown Hp Hu Ha b Hr.
  assert (Hspare : forall {A} (m : eff (Backend P H) A) b, spares q m -> absent q b ->
    wp m (fun _ => absent q) (fun _ _ => True) b).
  { intros A m b0 Hm Hb0. eapply wp_mono; [by apply Hm | done | done]. }
  unfold bootstrap. apply wp_bind, wp_gets. rewrite Hr. apply wp_bind.
  eapply (wp_mono _ (fun _ => absent q) _ (fun _ _ => True)); [| |done].
  - unfold bootstrap_reset. apply wp_bind. eapply (wp_mono _ (fun _ _ => True) _ (fun _ _ => True)); [| |done].
    { apply wp_trivial. }
    intros _ b1 _. apply wp_bind. eapply wp_mono; [by apply (removes q path) | | done].
    intros [] b2 Hb2. apply Hspare; [|done].
    do 3 (apply spares_bind; [by apply spares_pure|]; intros _).
    apply spares_bind; [by apply (spares_boot_policies (own := own))|]. intros _.
    do 2 (apply spares_bind; [by apply spares_pure|]; intros _).
    apply spares_bind; [by apply spares_persist|]. intros _. apply spares_bind; [by apply spares_pure|]. intros s.
    apply spares_event.
  - intros _ b1 Hb1. apply Hspare; [|done]. destruct (pf_boot_preferences profile_); [|by apply spares_pure].
    apply spares_bind; [by apply spares_pure|]. intros _. apply spares_bind; [by apply spares_pure|]. intros h.
    apply spares_bind; [by apply (spares_call q Hown _ (platform_bootHostname _))|]. intros _. by apply spares_persist.
Qed.

(** C15: A device reset is complete when the boot process ends: every file under
    a reset path that the platform does not write is gone, the configuration is the factory one, no transaction
    is open, and the journal records all of this with the intent cleared. *)
Theorem reset_completes b b' :
  st_reset_intent (state_ b) = true -> bootstrap sha256 read_status profile_ b = (b', Return tt) ->
  st_reset_intent (state_ b') = false /\ is_pending (state_ b') = false /\
  st_configuration (state_ b') = factory_configuration /\ saved (view_of b') /\
  forall path q, own q -> path ∈ pf_reset_paths profile_ -> under path q = true -> apart (state_path profile_) q ->
    file (host_ b') q = None.
Proof.
  intros Hr Hb. pose proof (vwp_run _ _ _ _ _ (vwp_bootstrap_factory (view_of b) Hr)) as Hv. rewrite Hb in Hv.
  destruct Hv as (H1 & H2 & H3 & H4). split; [done|]. split; [done|]. split; [done|]. split; [done|].
  intros path q Hown Hp Hu Ha. pose proof (bootstrap_removes path q Hown Hp Hu Ha b Hr) as Hw. unfold wp in Hw. by rewrite Hb in Hw.
Qed.

End properties.

(** ** The sample device *)

Abbreviation sample_backend := (Backend Fake Machine).

(** The manager of a new device, running, with the clock at one second. *)
Definition running : sample_backend :=
  fst (daemon_start sample_digest sample_profile (blank sample_fake (sample_host "previous" [1] []) [])).

Definition sample_perform (r : request) : eff sample_backend unit :=
  perform sample_digest no_status sample_profile r.

(** The same object later, with the settings file changed by its owner. *)
Definition later (settings : string) (seconds : list Z) (b : sample_backend) : sample_backend :=
  let m := host_ b in
  let d := mc_disk m in
  let d' := mkDisk (<[0%nat := settings]> (dk_data d)) (dk_stable d) (dk_dir d) (dk_stable_dir d) (dk_pending d) (dk_dirs d) (dk_unsynced d) in
  mkBackend (state_ b) (carriers_ b) (next_network_observation_ b) (storage_failed_ b) (job_deadline_ b) (platform_ b)
    (mkMachine d' (mc_plan m) (mc_entropy m) (map (fun s => (s, 0)) seconds) (mc_history m)) (trace_ b).

Definition sample_proposal : NetworkProposal :=
  mkNetworkProposal candidate_network (sample_hash "previous") (sample_hash "candidate") (mkAuditContext "" "").

Definition sample_id : string := "abababababababababababababababab".

(** A proposal was accepted; then it is in its committing phase; then the new
    settings are in force. *)
Definition proposing : sample_backend := fst (sample_perform (RBeginNetwork sample_proposal "admin" "1") running).

Definition committing : sample_backend := fst (sample_perform (RPrepareNetworkCommit sample_id) proposing).

Definition switched : sample_backend := later "candidate" [2] committing.

Definition resetting : sample_backend := fst (sample_perform (RResetDevice true "admin" "2") running).

Ltac by_computation := vm_compute; first [reflexivity | discriminate | intros; discriminate].

Lemma wf_sample (b : sample_backend) :
  validate (st_configuration (state_ b)) = Return tt ->
  (is_pending (state_ b) = true -> st_initialized (state_ b) = true /\ pd_previous (st_pending (state_ b)) = net_of (state_ b) /\
     validateNetwork (tx_network (state_ b)) = Return tt /\
     pd_previous_hash (st_pending (state_ b)) <> pd_candidate_hash (st_pending (state_ b))) ->
  wf (state_ b).
Proof.
  intros Hv Hp. split; [by apply validate_spec | intros H; destruct (Hp H) as (? & ? & ? & ?); try done..].
  by apply validateNetwork_spec.
Qed.

Lemma running_wf : wf (state_ running).
Proof. apply wf_sample; by_computation. Qed.

Lemma switched_wf : wf (state_ switched).
Proof. apply wf_sample; [by_computation|]. intros _. split_and!; by_computation. Qed.

Lemma running_starts :
  daemon_start sample_digest sample_profile (blank sample_fake (sample_host "previous" [1] []) []) = (running, Return tt).
Proof. by_computation. Qed.

Lemma perform_refines_witness :
  let b' := fst (sample_perform (RFinishNetwork sample_id true "admin" "3") switched) in
  rtc (micro sample_digest sample_profile false) (view_of sample_profile switched) (view_of sample_profile b') /\
  net_of (state_ b') = candidate_network.
Proof.
  split; [|by_computation].
  apply (perform_refines sample_digest no_status sample_profile (RFinishNetwork sample_id true "admin" "3") switched).
  - apply switched_wf.
  - left. by_computation.
Defined.

Lemma network_changes_only_when_confirmed_witness :
  let b' := fst (sample_perform (RFinishNetwork sample_id true "admin" "3") switched) in
  net_of (state_ b') <> net_of (state_ switched) /\
  (net_of (state_ b') = net_of (state_ switched) \/
   (confirmed sample_digest (file (host_ switched) "/product/active.json") (state_ switched) /\
    net_of (state_ b') = tx_network (state_ switched))).
Proof.
  split; [by_computation|].
  apply (network_changes_only_when_confirmed sample_digest no_status sample_profile
    (RFinishNetwork sample_id true "admin" "3") switched).
  - apply switched_wf.
  - left. by_computation.
Defined.

Lemma running_reached :
  rtc (world_step sample_digest no_status sample_profile) (Off sample_fake (sample_host "previous" [1] []) []) (On proposing).
Proof.
  eapply rtc_l; [apply ws_start, running_starts|].
  apply rtc_once. exact (ws_request _ _ _ running (RBeginNetwork sample_proposal "admin" "1")).
Qed.

Lemma journal_always_recoverable_witness :
  wf (state_ proposing) /\ is_pending (state_ proposing) = true /\
  exists s, journal_state sample_profile (file (host_ proposing) "/s/state.json") s /\
    same_journal sample_profile s (state_ proposing).
Proof.
  pose proof (journal_always_recoverable sample_digest no_status sample_profile sample_fake
    (sample_host "previous" [1] []) (On proposing) eq_refl running_reached) as (Hw & _ & s & Hs & _ & Hsync & _).
  split; [exact Hw|]. split; [by_computation|]. exists s. split; [exact Hs|]. apply Hsync. by_computation.
Defined.

Lemma later_step settings seconds b :
  file (host_ (later settings seconds b)) (state_path sample_profile) = file (host_ b) (state_path sample_profile) ->
  world_step sample_digest no_status sample_profile (On b) (On (later settings seconds b)).
Proof. intros Hf. exact (ws_outside_on _ _ _ b (platform_ b) (host_ (later settings seconds b)) Hf). Qed.

(** The device is restarted by a tick five seconds after the request. *)
Definition rebooted : sample_backend :=
  fst (sample_perform RTick (later "previous" [10] (fst (sample_perform (RPower reboot "admin" "4") running)))).

Lemma rebooted_reached :
  rtc (world_step sample_digest no_status sample_profile) (Off sample_fake (sample_host "previous" [1] []) []) (On rebooted).
Proof.
  eapply rtc_l; [apply ws_start, running_starts|].
  eapply rtc_l; [exact (ws_request _ _ _ running (RPower reboot "admin" "4"))|].
  eapply rtc_l; [|apply rtc_once; exact (ws_request _ _ _ _ RTick)].
  apply later_step. by_computation.
Qed.

Lemma platform_contract_witness :
  exists after before,
    trace_ rebooted = after ++ Called (CallPower reboot) true :: before /\
    call_ok sample_profile before (CallPower reboot).
Proof.
  eexists _, _.
  assert (Ht : trace_ rebooted = [hd (Logged []) (trace_ rebooted)] ++ Called (CallPower reboot) true :: tl (tl (trace_ rebooted)))
    by by_computation.
  split; [exact Ht|].
  eapply (platform_contract sample_digest no_status sample_profile sample_fake (sample_host "previous" [1] []) (On rebooted)).
  - reflexivity.
  - exact rebooted_reached.
  - exact Ht.
Defined.

Lemma busy_refused_unchanged_witness :
  sample_perform (RApply sample_configuration) proposing =
  (proposing, Throw (Error (mkSystemError busy "another system transaction is in progress"))).
Proof.
  apply (busy_refused_unchanged sample_digest no_status sample_profile (RApply sample_configuration) proposing).
  - reflexivity.
  - right. intros [Hp _]. revert Hp. by_computation.
Defined.

Lemma proposal_recorded_before_effect_witness :
  let b' := fst (beginNetwork sample_digest sample_profile sample_proposal "admin" "1" running) in
  (view_of sample_profile b' = view_of sample_profile running \/ storage_failed_ b' = true \/
   proposed sample_digest sample_proposal (view_of sample_profile running) (view_of sample_profile b')) /\
  length (trace_ b') = S (S (S (length (trace_ running)))).
Proof.
  split; [|by_computation].
  apply (proposal_recorded_before_effect sample_digest sample_profile sample_proposal "admin" "1" running).
  - apply running_wf.
  - left. by_computation.
Defined.

(** The machine's clock stands still. *)
Definition stands_at (seconds : Z) (m : Machine) : Prop := mc_clock m = [(seconds, 0)].

Lemma stands_at_late m :
  stands_at 1000 m -> exists m' t, clock_ m = (m', Return t) /\ 1000000 <= t /\ stands_at 1000 m'.
Proof.
  intros Hm. unfold clock_, Machine_host, bootMilliseconds. unfold stands_at in Hm. rewrite Hm.
  do 2 eexists. split; [reflexivity|]. split; [by_computation | reflexivity].
Qed.

Lemma tick_settles_expired_witness :
  let '(b', r) := tick sample_digest sample_profile (later "previous" [1000] committing) in
  r = Return tt /\ net_of (state_ b') = sample_network /\ is_pending (state_ b') = false /\
  exists commit, state_ b' = settled commit (state_ (later "previous" [1000] committing)).
Proof.
  pose proof (tick_settles_expired sample_digest sample_profile 1000000 (stands_at 1000)
    (later "previous" [1000] committing) stands_at_late (fun x Hx => Hx)
    ltac:(by_computation) ltac:(by_computation) ltac:(by_computation) ltac:(by_computation) ltac:(by_computation)) as H.
  assert (Hr : let '(b', r) := tick sample_digest sample_profile (later "previous" [1000] committing) in
    r = Return tt /\ net_of (state_ b') = sample_network /\ is_pending (state_ b') = false).
  { clear H. vm_compute. split; [|split]; reflexivity. }
  destruct (tick sample_digest sample_profile (later "previous" [1000] committing)) as [b' r].
  destruct Hr as (Hr & Hn & Hp). rewrite Hr in H. destruct H as (commit & Hc & _).
  split; [exact Hr|]. split; [exact Hn|]. split; [exact Hp|]. exists commit. exact Hc.
Defined.

(** The process that boots after the reset request, before [bootstrap] runs. *)
Definition reset_boot : sample_backend :=
  fst (construct sample_profile (blank (platform_ resetting) (host_ resetting) (trace_ resetting))).

Lemma reset_completes_witness :
  let b' := fst (bootstrap sample_digest no_status sample_profile reset_boot) in
  file (host_ reset_boot) "/product/active.json" = Some "previous" /\
  file (host_ b') "/product/active.json" = None /\ st_reset_intent (state_ b') = false.
Proof.
  assert (Hb : bootstrap sample_digest no_status sample_profile reset_boot =
    (fst (bootstrap sample_digest no_status sample_profile reset_boot), Return tt)) by by_computation.
  pose proof (reset_completes sample_digest no_status sample_profile reset_boot
    (fst (bootstrap sample_digest no_status sample_profile reset_boot)) ltac:(by_computation) Hb) as (Hr & _ & _ & _ & Hf).
  split; [by_computation|]. split; [|exact Hr].
  apply (Hf "/product").
  - exact I.
  - apply list_elem_of_singleton. reflexivity.
  - reflexivity.
  - split; [discriminate | reflexivity].
Defined.

Lemma remaining_time_witness :
  let b := later "previous" [120; 120; 120; 120; 122] proposing in
  pd_deadline (st_pending (state_ b)) = 121000 /\
  exists b' t, networkTransaction sample_digest sample_profile b = (b', Return t) /\ nt_state t = "pending" /\
    nt_remaining_ms t = 2 ^ 64 - 1000.
Proof.
  cbv zeta. set (b := later "previous" [120; 120; 120; 120; 122] proposing).
  set (b1 := fst (tick sample_digest sample_profile b)). set (h1 := fst (clock_ (host_ b1))).
  split; [by_computation|].
  assert (Ht : tick sample_digest sample_profile b = (b1, Return tt)) by by_computation.
  assert (H1 : clock_ (host_ b1) = (h1, Return 120000)) by by_computation.
  assert (H2 : clock_ h1 = (fst (clock_ h1), Return 122000)) by by_computation.
  assert (Hd : pd_deadline (st_pending (state_ b1)) = 121000) by by_computation.
  assert (Hp : is_pending (state_ b1) = true) by by_computation.
  assert (Hs : nt_state (pd_transaction (st_pending (state_ b1))) = "pending") by by_computation.
  clearbody h1. clearbody b1. clearbody b.
  pose proof (remaining_time sample_digest sample_profile b b1 h1 (fst (clock_ h1)) 120000 122000 Ht H1 H2) as H.
  cbv zeta in H. rewrite Hd in H. destruct H as (b' & t & Hn & _ & Hstate & _ & _ & _ & Hr); [by split|].
  exists b', t. split; [exact Hn|]. split; [by rewrite Hstate|]. by rewrite Hr.
Defined.

Definition no_ssh : Configuration :=
  mkConfiguration (mkPreferences "mnc" false sample_network) (cf_time sample_configuration).

(** The platform refuses the new preferences once, as in the unit test. *)
Definition refusing : sample_backend :=
  mkBackend (state_ running) (carriers_ running) (next_network_observation_ running) (storage_failed_ running)
    (job_deadline_ running) (mkFake sample_configuration [] false false 0 true) (host_ running) (trace_ running).

Lemma apply_all_or_nothing_witness :
  applied no_ssh (view_of sample_profile running) (view_of sample_profile (fst (apply sample_profile no_ssh running))) /\
  let '(b', r) := apply sample_profile no_ssh refusing in
  r = throw_error apply_failed "injected clock start failure" /\
  st_configuration (state_ b') = sample_configuration.
Proof.
  split.
  - pose proof (apply_all_or_nothing sample_profile no_ssh running) as H.
    assert (Hr : snd (apply sample_profile no_ssh running) = Return tt) by by_computation.
    destruct (apply sample_profile no_ssh running) as [b' r]. cbn [snd fst] in *. rewrite Hr in H. exact H.
  - pose proof (apply_all_or_nothing sample_profile no_ssh refusing) as H.
    assert (Hr : snd (apply sample_profile no_ssh refusing) = throw_error apply_failed "injected clock start failure")
      by by_computation.
    destruct (apply sample_profile no_ssh refusing) as [b' r]. cbn [snd] in Hr. rewrite Hr in H.
    split; [exact Hr|]. destruct H as [H _]. cbn [view_of v_state] in H. rewrite H. by_computation.
Defined.

Lemma power_accepted_durably_witness :
  let '(b', r) := power sample_profile shutdown "admin" "5" running in
  exists j, r = Return j /\ job_accepted "shutdown" "admin" "5" false (view_of sample_profile running) j (view_of sample_profile b').
Proof.
  pose proof (power_accepted_durably sample_profile shutdown "admin" "5" running) as H.
  assert (Hr : snd (power sample_profile shutdown "admin" "5" running) = Return (mkJob sample_id "shutdown" "accepted"))
    by by_computation.
  destruct (power sample_profile shutdown "admin" "5" running) as [b' r]. cbn [snd] in Hr. rewrite Hr in H.
  eexists. split; [exact Hr | exact H].
Defined.

Lemma reset_accepted_durably_witness :
  let '(b', r) := resetDevice no_status sample_profile true "admin" "6" running in
  exists j, r = Return j /\ job_accepted "device_reset" "admin" "6" true (view_of sample_profile running) j (view_of sample_profile b').
Proof.
  pose proof (reset_accepted_durably no_status sample_profile true "admin" "6" running) as H.
  assert (Hr : snd (resetDevice no_status sample_profile true "admin" "6" running) =
    Return (mkJob sample_id "device_reset" "accepted")) by by_computation.
  destruct (resetDevice no_status sample_profile true "admin" "6" running) as [b' r]. cbn [snd] in Hr. rewrite Hr in H.
  eexists. split; [exact Hr | exact (proj2 H)].
Defined.
