(* ===== verification/Daemon.v ===== *)
(** * The daemon (daemon/main.cpp, class [Daemon])

    One D-Bus method call: who calls, what it may call, what it asks for, and
    the reply; and the worker that serves the bus. The bus library and the account
    database are parameters. *)

From S2P Require Import Prelude SystemTypes Validation Effects Protocol AccessPolicy Logging Host Backend.

(** What the bus library tells of a method call: its member, whether the
    sender's credentials could be queried, the effective user id in them, and
    the string argument. *)
Record Message := mkMessage {
  mg_member : option string;
  mg_credentials : bool;
  mg_euid : option Z;
  mg_text : option string
}.

Record Daemon (P H : Type) := mkDaemon {
  backend_ : Backend P H;
  failed_ : bool;
  stop_requested_ : bool;
  log_ : list (list Field)   (* ghost: the developer records, newest first *)
}.
Arguments mkDaemon {P H}.
Arguments backend_ {P H}.
Arguments failed_ {P H}.
Arguments stop_requested_ {P H}.
Arguments log_ {P H}.

(** [Service("MNC system manager", "system")]. *)
Definition logger : LogBase := mkLogBase "system" "lifecycle" developer.

(** [catch] clauses of [request]. *)
Definition error_reply (e : exn) : Reply :=
  match e with
  | Error e => mkReply (err_code e) (err_message e) ""
  | StdException what => mkReply internal_error what ""
  | UnknownException => mkReply internal_error "system operation failed" ""
  end.

(** A round of the worker's loop: what [sd_bus_process] found. *)
Inductive BusRound :=
  | Disconnected
  | Quiet
  | Arrived (m : Message).

Section daemon.
Context {P H : Type} {PL : Platform P H} {HO : Host H}.
Context {JState : Json State} {JEmpty : Json Empty} {JStatus : Json SystemStatus} {JTime : Json TimeStatus}
  {JZones : Json (list string)} {JCatalog : Json TimezoneCatalog} {JTemperatures : Json (list Temperature)}
  {JConfiguration : Json Configuration} {JProposal : Json NetworkProposal} {JTransaction : Json NetworkTransaction}
  {JId : Json Id} {JFinish : Json Finish} {JPower : Json Power} {JReset : Json Reset} {JJob : Json Job}
  {JReply : Json Reply}.
Context (sha256 : string -> option (list Z)) (read_status : string -> option StorageBootStatus).
Context (account : string -> option Z).
Context (profile_ : Profile).

Abbreviation B := (eff (Backend P H)).
Abbreviation D := (eff (Daemon P H)).

(** A query: an empty request, an operation, and its result as JSON. *)
Definition query {A} `{Json A} (json : string) (m : B A) : B string :=
  _ ← lift (decode (T := Empty) max_message_size json);
  r ← m;
  lift (encode r).

(** The context that the manager trusts for this peer. *)
Definition context (uid : Z) (value : AuditContext) (settings_peer : bool) : AuditContext :=
  trustedAuditContext value uid
    (account (if settings_peer then pf_settings_user profile_ else pf_control_user profile_)).

(** The chain of [if (name == ...)]; the result is [reply.json]. *)
Definition dispatch (name : string) (uid : Z) (json : string) : B string :=
  if name ==? "GetStatus" then query json status
  else if name ==? "GetTime" then query json (ask platform_time)
  else if name ==? "ListTimezones" then query json (ask platform_timezones)
  else if name ==? "GetTimezoneCatalog" then query json (ask platform_timezoneCatalog)
  else if name ==? "GetTemperatures" then query json (ask platform_temperatures)
  else if name ==? "ApplyPreferences" then
    c ← lift (decode (T := Configuration) max_message_size json);
    _ ← apply profile_ c;
    mret ""
  else if name ==? "BeginNetwork" then
    p ← lift (decode (T := NetworkProposal) max_message_size json);
    let c := context uid (np_audit_context p) true in
    t ← beginNetwork sha256 profile_ p (ac_actor c) (ac_request_id c);
    lift (encode t)
  else if name ==? "GetNetworkTransaction" then query json (networkTransaction sha256 profile_)
  else if name ==? "PrepareNetworkCommit" then
    i ← lift (decode (T := Id) max_message_size json);
    _ ← prepareNetworkCommit sha256 profile_ (id_id i);
    mret ""
  else if name ==? "FinishNetwork" then
    v ← lift (decode (T := Finish) max_message_size json);
    let c := context uid (fi_audit_context v) true in
    _ ← finishNetwork sha256 profile_ (fi_id v) (fi_commit v) (ac_actor c) (ac_request_id c);
    mret ""
  else if name ==? "Power" then
    r ← lift (decode (T := Power) max_message_size json);
    let c := context uid (pw_audit_context r) false in
    j ← power profile_ (pw_action r) (ac_actor c) (ac_request_id c);
    lift (encode j)
  else if name ==? "ResetDevice" then
    r ← lift (decode (T := Reset) max_message_size json);
    let c := context uid (rs_audit_context r) false in
    j ← resetDevice read_status profile_ (rs_confirmed r) (ac_actor c) (ac_request_id c);
    lift (encode j)
  else if name ==? "GetJob" then query json job
  else throw_err unsupported "unknown system operation".

(** The caller and the text of a call that may be dispatched. *)
Definition check_call (m : Message) : outcome (string * Z * string) :=
  if negb (mg_credentials m) then throw_error permission_denied "peer identity unavailable"
  else
    match mg_euid m with
    | None => throw_error permission_denied "peer UID unavailable"
    | Some uid =>
        let name := default "" (mg_member m) in
        if negb (allowed name uid (account (pf_settings_user profile_)) (account (pf_control_user profile_)))
        then throw_error permission_denied "operation is not allowed for this service identity"
        else
          match mg_text m with
          | None => throw_error invalid_argument "missing request"
          | Some json => Return (name, uid, json)
          end
    end.

(** *** The daemon's own state *)

Definition on_backend {A} (m : B A) : D A := fun d =>
  let '(b, r) := m (backend_ d) in (mkDaemon b (failed_ d) (stop_requested_ d) (log_ d), r).

Definition write_log (priority : Priority) (message event : string) (fields : list Field) (source : source_location) : D unit :=
  modify (fun d => mkDaemon (backend_ d) (failed_ d) (stop_requested_ d)
    (emit_record logger priority message event fields (Some source) :: log_ d)).

(** [request]: the text of the reply; [None] when it cannot be encoded. *)
Definition request (m : Message) : D (option string) :=
  reply ←
    try_catch
      ('(name, uid, json) ← lift (check_call m);
       result ← on_backend (dispatch name uid json);
       _ ← when (settingsOperation name || controlOperation name)
             (write_log notice "system operation accepted" "system_operation"
                [mkField "MNC_OPERATION" name; mkField "MNC_PEER_UID" (to_string uid)] (mkSource "main.cpp" 98 "request"));
       mret (mkReply none "" result))
      (fun e => mret (error_reply e));
  _ ← when (rp_code reply <>? none)
        (write_log warning (rp_message reply) "system_operation_rejected" [] (mkSource "main.cpp" 112 "request"));
  mret (match encode reply with Return text => Some text | Throw _ => None end).

(** [request_stop()]: the flag is that of the service, which the thread that waits
    for signals reads too. *)
Definition request_stop : D unit := modify (fun d => mkDaemon (backend_ d) (failed_ d) true (log_ d)).

(** [while (!stop_requested())], with the rounds of the bus and whether the other
    thread requests a stop before each of them. *)
Fixpoint worker_loop (rounds : list (bool * BusRound)) : D unit :=
  match rounds with
  | [] => mret tt
  | (stop, round) :: rest =>
      _ ← when stop request_stop;
      stopped ← gets stop_requested_;
      if (stopped : bool) then mret tt
      else
        _ ← on_backend (tick sha256 profile_);
        _ ← match round with
            | Disconnected => throw_err unavailable "system bus disconnected"
            | Quiet => mret tt
            | Arrived m => _ ← request m; mret tt
            end;
        worker_loop rest
  end.

Definition what (e : exn) : string :=
  match e with Error e => err_message e | StdException what => what | UnknownException => "" end.

(** The thread that [on_start] starts. An exception that is not a
    [std::exception] leaves it and ends the process. *)
Definition worker (rounds : list (bool * BusRound)) : D unit :=
  try_catch (worker_loop rounds)
    (fun e =>
       match e with
       | UnknownException => throw e
       | _ =>
           _ ← write_log error (what e) "system_worker_failed" [] (mkSource "main.cpp" 156 "operator()");
           _ ← modify (fun d => mkDaemon (backend_ d) true (stop_requested_ d) (log_ d));
           request_stop
       end).

End daemon.
