(* ===== verification/DaemonProperties.v ===== *)
(** * Properties of the daemon *)

From S2P Require Import Prelude SystemTypes Validation Effects Protocol AccessPolicy Logging Host Storage Backend.
From S2P Require Import BackendSpec BackendLogic BackendRefinement BackendLifecycle Sample BackendProperties Daemon.

Section properties.
Context {P H : Type} {PL : Platform P H} {HO : Host H} {HL : HostLaws H}.
Context {JState : Json State} {JEmpty : Json Empty} {JStatus : Json SystemStatus} {JTime : Json TimeStatus}
  {JZones : Json (list string)} {JCatalog : Json TimezoneCatalog} {JTemperatures : Json (list Temperature)}
  {JConfiguration : Json Configuration} {JProposal : Json NetworkProposal} {JTransaction : Json NetworkTransaction}
  {JId : Json Id} {JFinish : Json Finish} {JPower : Json Power} {JReset : Json Reset} {JJob : Json Job}
  {JReply : Json Reply}.
Context (sha256 : string -> option (list Z)) (read_status : string -> option StorageBootStatus).
Context (account : string -> option Z).
Context (profile_ : Profile) {PO : ProfileOk profile_} {own : string -> Prop} {PW : PlatformLaws P H own} {OW : Owned own profile_}.

Abbreviation B := (eff (Backend P H)).
Abbreviation D := (eff (Daemon P H)).
Abbreviation dispatch := (Daemon.dispatch sha256 read_status account profile_).
Abbreviation request := (Daemon.request sha256 read_status account profile_).
Abbreviation worker_loop := (Daemon.worker_loop sha256 read_status account profile_).
Abbreviation worker := (Daemon.worker sha256 read_status account profile_).
Abbreviation refines := (refines (P := P) (H := H) sha256 profile_ false).
Abbreviation view_of := (view_of (P := P) (H := H) profile_).
Abbreviation reach := (reach sha256 profile_ false).

(** ** Every call implements the abstract machine *)

Lemma refines_query {A} `{Json A} json (m : B A) : refines m -> refines (query json m).
Proof.
  intros Hm. apply refines_bind; [apply refines_lift|]. intros _. apply refines_bind; [done|]. intros r. apply refines_lift.
Qed.

Lemma refines_dispatch_call name uid json : refines (dispatch name uid json).
Proof.
  unfold Daemon.dispatch.
  repeat (case_bool_decide;
    [first [apply refines_query
           | apply refines_bind; [apply refines_lift|]; intros x; cbv zeta;
             apply refines_bind; [|intros; first [apply refines_ret | apply refines_lift]]]|]);
    try match goal with |- refines (ask _) => eapply refines_ask; typeclasses eauto end; try (by apply refines_throw).
  - apply refines_bind; [eapply refines_ask; typeclasses eauto|]. intros st. apply refines_bind; [apply refines_get | intros; apply refines_ret].
  - apply (refines_apply sha256 profile_ false (own := own)).
  - apply (refines_beginNetwork sha256 read_status profile_ false (own := own)).
  - apply (refines_networkTransaction sha256 read_status profile_ false (own := own)).
  - apply (refines_prepare sha256 read_status profile_ false (own := own)).
  - apply (refines_finish sha256 profile_ false (own := own)).
  - by apply refines_power.
  - by apply refines_reset.
  - apply refines_get.
Qed.

(** The daemon [d'] has a backend that [d] may reach. *)
Definition served (d d' : Daemon P H) : Prop := reach (view_of (backend_ d)) (view_of (backend_ d')).

Definition serves {A} (m : D A) : Prop := forall d0 d, served d0 d -> wp m (fun _ => served d0) (fun _ => served d0) d.

Lemma serves_bind {A C} (m : D A) (f : A -> D C) : serves m -> (forall a, serves (f a)) -> serves (m ≫= f).
Proof.
  intros Hm Hf d0 d Hd. apply wp_bind. eapply wp_mono; [by apply Hm | | done]. intros a d' Hd'. by apply Hf.
Qed.

Lemma serves_try {A} (m : D A) h : serves m -> (forall e, serves (h e)) -> serves (try_catch m h).
Proof.
  intros Hm Hh d0 d Hd. apply wp_try. eapply wp_mono; [by apply Hm | done|]. intros e d' Hd'. by apply Hh.
Qed.

Lemma serves_pure {A} (m : D A) : (forall d, backend_ (fst (m d)) = backend_ d) -> serves m.
Proof.
  intros Hm d0 d Hd. specialize (Hm d). unfold wp, served in *. by destruct (m d) as [d' []]; cbn in Hm; rewrite Hm.
Qed.

Lemma serves_backend {A} (m : B A) : refines m -> serves (on_backend m).
Proof.
  intros Hm d0 d (Hr & Hw & Hs). unfold wp, on_backend, served.
  destruct (refines_run sha256 profile_ false m (backend_ d) Hm Hw Hs) as (Hr' & Hw' & Hs').
  destruct (m (backend_ d)) as [b r]. cbn in *.
  assert (Hb : reach (view_of (backend_ d0)) (view_of b)) by (split; [by etrans | done]). by destruct r.
Qed.

Lemma serves_request m : serves (request m).
Proof.
  apply serves_bind.
  - apply serves_try; [|intros; by apply serves_pure].
    apply serves_bind; [by apply serves_pure|]. intros [[name uid] json].
    apply serves_bind; [apply serves_backend, refines_dispatch_call|]. intros result.
    apply serves_bind; [|intros; by apply serves_pure]. unfold when. destruct (_ || _); by apply serves_pure.
  - intros reply. apply serves_bind; [|intros; by apply serves_pure].
    unfold when. destruct (rp_code reply <>? none); by apply serves_pure.
Qed.

Lemma serves_worker rounds : serves (worker rounds).
Proof.
  apply serves_try.
  - induction rounds as [|[stop round] rest IH]; cbn [Daemon.worker_loop]; [by apply serves_pure|].
    apply serves_bind; [unfold when; destruct stop; by apply serves_pure|]. intros _.
    apply serves_bind; [by apply serves_pure|]. intros []; [by apply serves_pure|].
    apply serves_bind; [apply serves_backend; apply (refines_tick sha256 read_status profile_ false (own := own))|]. intros _.
    apply serves_bind; [|done]. destruct round as [| |m]; [by apply serves_pure.. |].
    apply serves_bind; [apply serves_request | intros; by apply serves_pure].
  - intros [| |]; [| |by apply serves_pure]; (apply serves_bind; [by apply serves_pure | intros _]);
      (apply serves_bind; [by apply serves_pure | intros; by apply serves_pure]).
Qed.

(** ** Refused calls *)

Definition authorised (m : Message) : Prop :=
  mg_credentials m = true /\ exists uid, mg_euid m = Some uid /\
    allowed (default "" (mg_member m)) uid (account (pf_settings_user profile_)) (account (pf_control_user profile_)) = true.

Lemma check_call_refuses m :
  ~ authorised m -> exists message, check_call account profile_ m = throw_error permission_denied message.
Proof.
  intros Hm. unfold check_call. destruct (mg_credentials m) eqn:Hc; cbn [negb]; [|eauto].
  destruct (mg_euid m) as [uid|] eqn:Hu; [|eauto]. cbv zeta.
  destruct (allowed _ _ _ _) eqn:Ha; cbn [negb]; [|eauto]. exfalso. apply Hm. split; [done|]. eauto.
Qed.

Definition reply_text (r : Reply) : option string :=
  match encode r with Return text => Some text | Throw _ => None end.

Lemma request_refuses m d e :
  check_call account profile_ m = Throw e ->
  backend_ (fst (request m d)) = backend_ d /\ snd (request m d) = Return (reply_text (error_reply e)).
Proof.
  intros Hc. unfold Daemon.request, mbind, eff_bind, try_catch, lift. rewrite Hc. cbn [mret eff_ret].
  unfold when. destruct (rp_code (error_reply e) <>? none); done.
Qed.

(** ** Theorems *)

(** C21: A caller that cannot be identified, or that the access policy does not
    allow the operation, gets the error [permission_denied] and the manager is
    left exactly as it was. *)
Theorem unauthorised_call_changes_nothing m d :
  ~ authorised m ->
  backend_ (fst (request m d)) = backend_ d /\
  exists reply, rp_code reply = permission_denied /\ snd (request m d) = Return (reply_text reply).
Proof.
  intros (message & Hc)%check_call_refuses. destruct (request_refuses m d _ Hc) as [Hb Hr].
  split; [done|]. eexists. split; [|exact Hr]. done.
Qed.

(** C16: Whatever arrives on the bus, in any order and with any failures, a worker
    takes the manager only through steps of the abstract machine, and its state
    stays well formed. *)
Theorem worker_keeps_machine rounds d :
  wf (state_ (backend_ d)) -> started (state_ (backend_ d)) ->
  let d' := fst (worker rounds d) in
  rtc (micro sha256 profile_ false) (view_of (backend_ d)) (view_of (backend_ d')) /\ wf (state_ (backend_ d')).
Proof.
  intros Hw Hs d'.
  assert (Hd : served d d) by (by apply reach_refl).
  pose proof (serves_worker rounds d d Hd) as Hr. unfold wp in Hr. subst d'.
  destruct (worker rounds d) as [d' r]. by destruct r, Hr as (Hr & Hw' & _).
Qed.

(** Fail-stop: once a write of the journal has failed, the worker serves no
    further call; it marks the daemon as failed, asks it to stop and leaves the
    manager untouched. *)
Theorem failed_journal_stops_service round rest d :
  storage_failed_ (backend_ d) = true -> stop_requested_ d = false ->
  let '(d', r) := worker ((false, round) :: rest) d in
  r = Return tt /\ backend_ d' = backend_ d /\ failed_ d' = true /\ stop_requested_ d' = true.
Proof.
  intros Hf Hs. unfold Daemon.worker, try_catch, mbind, eff_bind. cbn [Daemon.worker_loop].
  unfold mbind, eff_bind, gets, when, mret, eff_ret. rewrite Hs.
  assert (Ht : tick sha256 profile_ (backend_ d) =
    (backend_ d, throw_error unavailable "system journal requires recovery")).
  { unfold tick, mbind, eff_bind, get, gets. by rewrite Hf. }
  unfold on_backend at 1. rewrite Ht. done.
Qed.

(** C22: The audit trail cannot be forged: when a call of [Power] is accepted from
    a peer that is not the control account, the job in the journal names the
    peer's own user id and no request id, whatever the message claims. *)
Theorem power_actor_authenticated uid json b b' result :
  account (pf_control_user profile_) <> Some uid ->
  dispatch "Power" uid json b = (b', Return result) ->
  st_job_actor (state_ b') = "uid:" +:+ to_string uid /\ st_job_request_id (state_ b') = "" /\
  saved (view_of b').
Proof.
  intros Ha Hd. unfold Daemon.dispatch in Hd.
  repeat (rewrite bool_decide_eq_false_2 in Hd by discriminate). rewrite bool_decide_eq_true_2 in Hd by done.
  unfold mbind at 1, eff_bind at 1, lift at 1 in Hd. destruct (decode max_message_size json) as [r|e]; [|done].
  cbv zeta in Hd. unfold context, trustedAuditContext in Hd.
  destruct (is_account uid _) eqn:Ei; [by apply is_account_spec in Ei|]. cbn [negb ac_actor ac_request_id] in Hd.
  unfold mbind at 1, eff_bind at 1 in Hd.
  pose proof (vwp_run _ _ _ _ _ (vwp_power (P := P) (HL := HL) (PO := PO) profile_ (pw_action r) ("uid:" +:+ to_string uid) ""
    (view_of b))) as Hw.
  destruct (power profile_ (pw_action r) _ _ b) as [b1 [j|e]]; [|done].
  unfold lift in Hd. injection Hd as -> _. destruct Hw as (H1 & H2 & _ & _ & _ & _ & _ & H3). done.
Qed.

(** The operations that only look. [GetNetworkTransaction] is not one of them: it
    settles a transaction whose deadline has passed. *)
Definition pure_queries : list string :=
  ["GetStatus"; "GetTime"; "ListTimezones"; "GetTimezoneCatalog"; "GetTemperatures"; "GetJob"].

(** [b'] is [b] but for the platform, and for files that are not the manager's. *)
Definition kept (b b' : Backend P H) : Prop :=
  state_ b' = state_ b /\ trace_ b' = trace_ b /\ carriers_ b' = carriers_ b /\
  next_network_observation_ b' = next_network_observation_ b /\ storage_failed_ b' = storage_failed_ b /\
  job_deadline_ b' = job_deadline_ b /\ forall q, own q -> file (host_ b') q = file (host_ b) q.

#[local] Instance kept_preorder : PreOrder kept.
Proof.
  split; [by intros b; split_and!|]. intros b1 b2 b3 (? & ? & ? & ? & ? & ? & Hq1) (? & ? & ? & ? & ? & ? & Hq2).
  split_and!; try congruence. intros q Hq. by rewrite Hq2, Hq1.
Qed.

Lemma kept_ask {A} (f : operation P H A) {FR : Framed own f} : within kept (ask f).
Proof.
  intros b. unfold ask. pose proof (framed (f := f) (platform_ b, host_ b)) as Hf. by destruct (f (platform_ b, host_ b)) as [[p h] r].
Qed.

#[local] Hint Extern 1 (within kept (ask _)) => apply kept_ask; typeclasses eauto : within.

(** The queries are read-only: whatever text they are given and however the
    platform answers, they leave the state, the trace of effects, every timer and
    every file of the manager as they were; only the platform sees them. *)
Theorem queries_change_nothing name uid json b : name ∈ pure_queries -> kept b (fst (dispatch name uid json b)).
Proof.
  intros Hn. revert b. change (within kept (dispatch name uid json)). unfold pure_queries in Hn.
  repeat (apply elem_of_cons in Hn as [Hn|Hn]; [subst name; unfold Daemon.dispatch;
    repeat (rewrite bool_decide_eq_false_2 by discriminate); rewrite bool_decide_eq_true_2 by done;
    unfold query, status, job, get; within_auto|]).
  by apply elem_of_nil in Hn.
Qed.

End properties.

(** ** The daemon of the sample device *)

Definition sample_account (name : string) : option Z :=
  if name ==? "settings" then Some 990 else if name ==? "control" then Some 991 else None.

Definition sample_request : Message -> eff (Daemon Fake Machine) (option string) :=
  Daemon.request sample_digest no_status sample_account sample_profile.

Definition sample_daemon (b : sample_backend) : Daemon Fake Machine := mkDaemon b false false [].

Definition power_text : string := ser (mkPower reboot (mkAuditContext "admin" "7")).

Definition power_call (uid : Z) : Message := mkMessage (Some "Power") true (Some uid) (Some power_text).

(** The settings account may not stop the machine. *)
Lemma unauthorised_call_changes_nothing_witness :
  backend_ (fst (sample_request (power_call 990) (sample_daemon running))) = running /\
  snd (sample_request (power_call 991) (sample_daemon running)) <> snd (sample_request (power_call 990) (sample_daemon running)).
Proof.
  split; [|by_computation].
  apply (unauthorised_call_changes_nothing sample_digest no_status sample_account sample_profile
    (power_call 990) (sample_daemon running)).
  intros (_ & uid & [= <-] & Ha). by vm_compute in Ha.
Defined.

(** A worker that accepts a request for a reboot and dispatches it. *)
Definition sample_rounds : list (bool * BusRound) := [(false, Arrived (power_call 991)); (false, Quiet); (false, Disconnected)].

Definition sample_worker : eff (Daemon Fake Machine) unit :=
  Daemon.worker sample_digest no_status sample_account sample_profile sample_rounds.

Lemma worker_keeps_machine_witness :
  let d := sample_daemon (later "previous" [2; 3; 10; 20; 20; 20] running) in
  let d' := fst (sample_worker d) in
  rtc (micro sample_digest sample_profile false) (view_of sample_profile (backend_ d)) (view_of sample_profile (backend_ d')) /\
  wf (state_ (backend_ d')) /\ fk_reboots (platform_ (backend_ d')) = 1 /\ failed_ d' = true.
Proof.
  intros d d'.
  destruct (worker_keeps_machine sample_digest no_status sample_account sample_profile sample_rounds d)
    as [Hr Hw].
  - apply wf_sample; by_computation.
  - left. by_computation.
  - split; [exact Hr|]. split; [exact Hw|]. split; by_computation.
Defined.

(** The journal of a machine whose next system call fails. *)
Definition broken : sample_backend :=
  let b := running in
  mkBackend (state_ b) (carriers_ b) (next_network_observation_ b) true (job_deadline_ b) (platform_ b) (host_ b) (trace_ b).

Lemma failed_journal_stops_service_witness :
  let '(d', r) := Daemon.worker sample_digest no_status sample_account sample_profile
    [(false, Arrived (power_call 991))] (sample_daemon broken) in
  r = Return tt /\ backend_ d' = broken /\ failed_ d' = true /\ stop_requested_ d' = true.
Proof.
  exact (failed_journal_stops_service sample_digest no_status sample_account sample_profile
    (Arrived (power_call 991)) [] (sample_daemon broken) eq_refl eq_refl).
Defined.

(** Root asks for a reboot in the name of somebody else. *)
Lemma power_actor_authenticated_witness :
  let b' := fst (Daemon.dispatch sample_digest no_status sample_account sample_profile "Power" 0 power_text running) in
  st_job_actor (state_ b') = "uid:0" /\ st_job_request_id (state_ b') = "".
Proof.
  pose proof (power_actor_authenticated sample_digest no_status sample_account sample_profile 0 power_text running)
    as Hp.
  intros b'.
  destruct (Daemon.dispatch sample_digest no_status sample_account sample_profile "Power" 0 power_text running)
    as [b1 [result|e]] eqn:Hd.
  - destruct (Hp b1 result) as (H1 & H2 & _); [by_computation | reflexivity |]. split; [exact H1 | exact H2].
  - exfalso. apply (f_equal snd) in Hd. revert Hd. by_computation.
Defined.

Lemma queries_change_nothing_witness :
  let r := Daemon.dispatch sample_digest no_status sample_account sample_profile "GetJob" 990 (ser mkEmpty) resetting in
  state_ (fst r) = state_ resetting /\ snd r = Return (ser (st_job (state_ resetting))).
Proof.
  assert (Hn : "GetJob" ∈ pure_queries) by (vm_compute; do 5 right; left).
  split; [|by_computation].
  exact (proj1 (queries_change_nothing (own := all_files) sample_digest no_status sample_account sample_profile "GetJob" 990
    (ser mkEmpty) resetting Hn)).
Defined.
