(* ===== verification/Client.v ===== *)
(** * The client library (common/mnc/os/system/client.cpp)

    One bus connection per request. The bus is a parameter: what a call of a
    method with a text gives. The end-to-end theorem puts the daemon behind it. *)

From S2P Require Import Prelude SystemTypes Validation Effects Protocol AccessPolicy Logging Host Storage Backend.
From S2P Require Import BackendSpec BackendLogic BackendRefinement BackendLifecycle Sample BackendProperties Daemon.
From S2P Require Import DaemonProperties.

(** What the bus library makes of a call: the system bus cannot be opened, the
    timeout cannot be set, the call fails with an error number and perhaps a
    text, the reply holds no text, or a text. *)
Inductive BusCall :=
  | OpenFails
  | TimeoutRefused
  | CallFails (r : Z) (message : option string)
  | NoText
  | Replied (text : string).

(** [static_cast<std::uint64_t>(timeout.count()) * 1000], in microseconds. *)
Definition timeout_usec (timeout_ms : Z) : Z := u64 (u64 timeout_ms * 1000).

Definition default_AuditContext : AuditContext := mkAuditContext "" "".

Definition EACCES : Z := 13.

Definition ETIMEDOUT : Z := 110.

(** The largest reply that the client reads. *)
Definition max_reply_size : Z := 512 * 1024.

Record Client := mkClient { timeout_ : Z }.

(** The constructor, for a timeout in milliseconds. *)
Definition Client_new (timeout : Z) : outcome Client :=
  if (timeout <=? 0) || (60000 <? timeout)
  then Throw (StdException "system manager timeout must be in (0, 60s]")
  else Return (mkClient timeout).

Section client.
Context {JReply : Json Reply}.
(** [bus method text timeout], the timeout in microseconds. *)
Context (bus : string -> string -> Z -> BusCall).

Definition bus_request (method json : string) (timeout : Z) : outcome (Result Reply) :=
  match bus method json (timeout_usec timeout) with
  | OpenFails => Return (inl (mkSystemError unavailable "system bus unavailable"))
  | TimeoutRefused => Return (inl (mkSystemError internal_error "cannot set system manager request timeout"))
  | CallFails r message =>
      Return (inl (mkSystemError
             (if r =? - EACCES then permission_denied else if r =? - ETIMEDOUT then SystemTypes.timeout else unavailable)
             (default "system manager unavailable" message)))
  | NoText => Return (inl (mkSystemError internal_error "invalid manager reply"))
  | Replied text =>
      match decode max_reply_size text with
      | Return reply => Return (inr reply)
      | Throw (Error e) => Return (inl e)
      | Throw e => Throw e
      end
  end.

(** The [catch] clauses of [call]; what is no [std::exception] passes. *)
Definition caught {T} (m : outcome (Result T)) : outcome (Result T) :=
  match m with
  | Return r => Return r
  | Throw (Error e) => Return (inl e)
  | Throw (StdException what) => Return (inl (mkSystemError internal_error what))
  | Throw UnknownException => Throw UnknownException
  end.

(** [call] of a method, with what is done with [reply->json]. *)
Definition call_with {Request T} `{Json Request} (result : string -> outcome T) (timeout : Z) (method : string)
    (value : Request) : outcome (Result T) :=
  caught (
    json ← encode value;
    answer ← bus_request method json timeout;
    match answer with
    | inl e => Return (inl e)
    | inr reply =>
        if rp_code reply <>? none then Return (inl (mkSystemError (rp_code reply) (rp_message reply)))
        else v ← result (rp_json reply); Return (inr v)
    end).

Definition call {T Request} `{Json T, Json Request} : Z -> string -> Request -> outcome (Result T) :=
  call_with (fun json => decode max_reply_size json).

Definition call_void {Request} `{Json Request} : Z -> string -> Request -> outcome (Result unit) :=
  call_with (fun _ => Return tt).

(** The methods; [c] is the client. *)
Section methods.
Context {JEmpty : Json Empty} {JStatus : Json SystemStatus} {JTime : Json TimeStatus}
  {JZones : Json (list string)} {JTemperatures : Json (list Temperature)}
  {JConfiguration : Json Configuration} {JProposal : Json NetworkProposal} {JTransaction : Json NetworkTransaction}
  {JId : Json Id} {JFinish : Json Finish} {JPower : Json Power} {JReset : Json Reset} {JJob : Json Job}.
Context {JCatalog : Json TimezoneCatalog}.
Context (c : Client).

Definition Client_status : outcome (Result SystemStatus) := call (timeout_ c) "GetStatus" mkEmpty.
Definition Client_time : outcome (Result TimeStatus) := call (timeout_ c) "GetTime" mkEmpty.
Definition Client_timezones : outcome (Result (list string)) := call (timeout_ c) "ListTimezones" mkEmpty.
Definition Client_timezoneCatalog : outcome (Result TimezoneCatalog) := call (timeout_ c) "GetTimezoneCatalog" mkEmpty.
Definition Client_temperatures : outcome (Result (list Temperature)) := call (timeout_ c) "GetTemperatures" mkEmpty.
Definition Client_apply (configuration : Configuration) : outcome (Result unit) :=
  call_void (timeout_ c) "ApplyPreferences" configuration.
Definition Client_beginNetwork (proposal : NetworkProposal) : outcome (Result NetworkTransaction) :=
  call (timeout_ c) "BeginNetwork" proposal.
Definition Client_networkTransaction : outcome (Result NetworkTransaction) := call (timeout_ c) "GetNetworkTransaction" mkEmpty.
Definition Client_prepareNetworkCommit (id : string) : outcome (Result unit) :=
  call_void (timeout_ c) "PrepareNetworkCommit" (mkId id).
Definition Client_finishNetwork (id : string) (commit : bool) (audit : AuditContext) : outcome (Result unit) :=
  call_void (timeout_ c) "FinishNetwork" (mkFinish id commit audit).
Definition Client_power (action : PowerAction) (audit : AuditContext) : outcome (Result Job) :=
  call (timeout_ c) "Power" (mkPower action audit).
Definition Client_resetDevice (confirmed : bool) (audit : AuditContext) : outcome (Result Job) :=
  call (timeout_ c) "ResetDevice" (mkReset confirmed audit).
(** The overloads without a context. *)
Definition Client_finishNetwork_plain (id : string) (commit : bool) : outcome (Result unit) :=
  Client_finishNetwork id commit default_AuditContext.
Definition Client_power_plain (action : PowerAction) : outcome (Result Job) := Client_power action default_AuditContext.
Definition Client_resetDevice_plain (confirmed : bool) : outcome (Result Job) :=
  Client_resetDevice confirmed default_AuditContext.
Definition Client_job : outcome (Result Job) := call (timeout_ c) "GetJob" mkEmpty.
End methods.

End client.

(** ** End to end *)
Section end_to_end.
Context {P H : Type} {PL : Platform P H} {HO : Host H} {HL : HostLaws H}.
Context {JState : Json State} {JEmpty : Json Empty} {JStatus : Json SystemStatus} {JTime : Json TimeStatus}
  {JZones : Json (list string)} {JCatalog : Json TimezoneCatalog} {JTemperatures : Json (list Temperature)}
  {JConfiguration : Json Configuration} {JProposal : Json NetworkProposal} {JTransaction : Json NetworkTransaction}
  {JId : Json Id} {JFinish : Json Finish} {JPower : Json Power} {JReset : Json Reset} {JJob : Json Job}
  {JReply : Json Reply} {JReplyLaws : JsonLaws Reply} {JPowerLaws : JsonLaws Power} {JJobLaws : JsonLaws Job}.
Context (sha256 : string -> option (list Z)) (read_status : string -> option StorageBootStatus).
Context (account : string -> option Z).
Context (profile_ : Profile) {PO : ProfileOk profile_} {own : string -> Prop} {PW : PlatformLaws P H own} {OW : Owned own profile_}.

Abbreviation dispatch := (Daemon.dispatch sha256 read_status account profile_).
Abbreviation request := (Daemon.request sha256 read_status account profile_).

(** The bus of a peer with the user id [uid] when the daemon [d] answers. *)
Definition served_by (uid : Z) (d : Daemon P H) (method text : string) (timeout : Z) : BusCall :=
  match snd (request (mkMessage (Some method) true (Some uid) (Some text)) d) with
  | Return (Some reply) => Replied reply
  | _ => CallFails (- 12) None   (* -ENOMEM *)
  end.

(** A reply that crosses the bus. *)
Definition fits (r : Reply) : Prop := exists text, encode r = Return text /\ size_of text <= max_reply_size.

Definition daemon_reply (m : Backend P H * outcome string) : Reply :=
  match snd m with Return json => mkReply none "" json | Throw e => error_reply e end.

(** An allowed call with a text runs the operation on the backend. *)
Lemma request_runs uid d method text :
  allowed method uid (account (pf_settings_user profile_)) (account (pf_control_user profile_)) = true ->
  let r := request (mkMessage (Some method) true (Some uid) (Some text)) d in
  let m := dispatch method uid text (backend_ d) in
  backend_ (fst r) = fst m /\ snd r = Return (reply_text (daemon_reply m)).
Proof.
  intros Ha r m. subst r m. unfold Daemon.request, check_call.
  cbn [mg_credentials mg_euid mg_member mg_text negb default from_option id]. cbv zeta. rewrite Ha. cbn [negb].
  unfold mbind, eff_bind, try_catch, lift, on_backend, daemon_reply.
  destruct (dispatch method uid text (backend_ d)) as [b' [json|e]]; cbn [fst snd].
  - unfold when. by destruct (settingsOperation method || controlOperation method).
  - unfold mret, eff_ret, when. by destruct (rp_code (error_reply e) <>? none).
Qed.

Lemma served_reply uid d method text timeout :
  allowed method uid (account (pf_settings_user profile_)) (account (pf_control_user profile_)) = true ->
  fits (daemon_reply (dispatch method uid text (backend_ d))) ->
  bus_request (served_by uid d) method text timeout =
  Return (inr (daemon_reply (dispatch method uid text (backend_ d)))).
Proof.
  intros Ha (t & Ht & Hs). destruct (request_runs uid d method text Ha) as [_ Hr].
  unfold bus_request, served_by. rewrite Hr. unfold reply_text. rewrite Ht.
  by rewrite (decode_encode _ _ _ Ht Hs).
Qed.

(** C23: The client gets the daemon's answer: for an allowed call whose request
    and reply fit the limits, [call] returns the value that the operation
    returned, decoded from its JSON, and the error code and message of the
    exception that it threw, and nothing else. *)
Theorem client_gets_the_answer {T Request} `{Json T, Json Request} uid d timeout method (value : Request) text :
  allowed method uid (account (pf_settings_user profile_)) (account (pf_control_user profile_)) = true ->
  encode value = Return text -> fits (daemon_reply (dispatch method uid text (backend_ d))) ->
  (call (served_by uid d) timeout method value : outcome (Result T)) =
  match snd (dispatch method uid text (backend_ d)) with
  | Return json => caught (v ← decode max_reply_size json; Return (inr v))
  | Throw e =>
      if rp_code (error_reply e) <>? none 
      then Return (inl (mkSystemError (rp_code (error_reply e)) (rp_message (error_reply e))))
      else caught (v ← decode max_reply_size ""; Return (inr v))
  end.
Proof.
  intros Ha Hv Hf. unfold call, call_with. rewrite Hv. cbn [mbind outcome_bind].
  rewrite (served_reply uid d method text timeout Ha Hf). unfold daemon_reply.
  destruct (dispatch method uid text (backend_ d)) as [b' [json|e]]; cbn [snd]; [done|].
  destruct e as [[] | |]; cbn; try done. by case_bool_decide.
Qed.

(** No value comes of an exception, since the empty text holds none. *)
Lemma caught_refused {T} `{Json T} e (v : T) :
  (forall v : T, read_json "" <> inr v) ->
  caught (if rp_code (error_reply e) <>? none
   then Return (inl (mkSystemError (rp_code (error_reply e)) (rp_message (error_reply e))))
   else v ← decode max_reply_size (rp_json (error_reply e)); Return (inr v)) = Return (inr v : Result T) -> False.
Proof.
  intros He. destruct (rp_code (error_reply e) <>? none); [done|].
  assert (rp_json (error_reply e) = "") as -> by (by destruct e). unfold decode. cbn.
  destruct (read_json "") as [x|x] eqn:E; [done|]. by destruct (He x).
Qed.

Lemma daemon_reply_value j json (b : Backend P H) (v : Job) :
  encode j = Return json ->
  caught (if rp_code (daemon_reply (b, Return json)) <>? none
          then Return (inl (mkSystemError (rp_code (daemon_reply (b, Return json))) (rp_message (daemon_reply (b, Return json)))))
          else v ← decode max_reply_size (rp_json (daemon_reply (b, Return json))); Return (inr v)) = Return (inr v) ->
  j = v.
Proof.
  intros Hj. cbn [daemon_reply snd rp_code rp_json]. rewrite bool_decide_eq_true_2 by done. cbn [negb].
  unfold decode. destruct (_ <? _); [done|]. unfold encode in Hj. destruct (write_json j) as [t|] eqn:E; [|done].
  injection Hj as ->. rewrite (read_write _ _ E). by intros [= ->].
Qed.

(** What is left of a call of [Power] by the control account: the job. *)
Lemma dispatch_power uid audit text action b :
  encode (mkPower action audit) = Return text -> size_of text <= max_message_size ->
  dispatch "Power" uid text b =
  (j ← power profile_ action (ac_actor (context account profile_ uid audit false))
         (ac_request_id (context account profile_ uid audit false)); lift (encode j)) b.
Proof.
  intros Ht Hs. unfold Daemon.dispatch. repeat (rewrite bool_decide_eq_false_2 by discriminate).
  rewrite bool_decide_eq_true_2 by done. unfold mbind at 1, eff_bind at 1, lift at 1.
  by rewrite (decode_encode _ _ _ Ht Hs).
Qed.

(** C17: From the client to the disk: when [Client::power] returns a job, the
    daemon's journal holds that very job, accepted, for the action asked for, in
    the name of the peer, and it is written out. *)
Theorem client_power_durable uid d c action audit text job d' reply :
  (forall j : Job, read_json "" <> inr j) ->
  encode (mkPower action audit) = Return text -> size_of text <= max_message_size ->
  allowed "Power" uid (account (pf_settings_user profile_)) (account (pf_control_user profile_)) = true ->
  fits (daemon_reply (dispatch "Power" uid text (backend_ d))) ->
  request (mkMessage (Some "Power") true (Some uid) (Some text)) d = (d', reply) ->
  Client_power (served_by uid d) c action audit = Return (inr job) ->
  st_job (state_ (backend_ d')) = job /\ job_state job = "accepted" /\
  job_action job = (match action with reboot => "reboot" | shutdown => "shutdown" end) /\
  st_job_actor (state_ (backend_ d')) = ac_actor (context account profile_ uid audit false) /\
  saved (view_of profile_ (backend_ d')).
Proof.
  intros He Ht Hs Ha Hf Hd Hc. unfold Client_power, call, call_with in Hc. rewrite Ht in Hc. cbn [mbind outcome_bind] in Hc.
  rewrite (served_reply uid d _ _ _ Ha Hf) in Hc. cbn [mbind outcome_bind] in Hc.
  destruct (request_runs uid d "Power" text Ha) as [Hb _]. rewrite Hd in Hb. cbn [fst] in Hb. rewrite Hb.
  destruct (dispatch "Power" uid text (backend_ d)) as [b1 [json|e]] eqn:Hm; [|by destruct (caught_refused e job He Hc)].
  rewrite (dispatch_power _ _ _ _ _ Ht Hs) in Hm. unfold mbind, eff_bind in Hm.
  pose proof (vwp_run _ _ _ _ _ (vwp_power (P := P) (HL := HL) (PO := PO) profile_ action
    (ac_actor (context account profile_ uid audit false)) (ac_request_id (context account profile_ uid audit false))
    (view_of profile_ (backend_ d)))) as Hw.
  destruct (power profile_ action _ _ (backend_ d)) as [b2 [j|e]]; [|done].
  unfold lift in Hm. injection Hm as -> Hj. cbn [fst].
  destruct Hw as (H1 & _ & H3 & H4 & H5 & _ & _ & H8).
  by rewrite <- (daemon_reply_value j json b1 job Hj Hc).
Qed.

End end_to_end.

(** ** The client of the sample device *)

Definition sample_bus : string -> string -> Z -> BusCall :=
  served_by sample_digest no_status sample_account sample_profile 991 (sample_daemon running).

Definition sample_context : AuditContext := mkAuditContext "admin" "7".

Lemma fits_sample (r : Reply) : (size_of (ser r) <=? max_reply_size) = true -> fits r.
Proof. intros Hs%Z.leb_le. exists (ser r). split; [done | exact Hs]. Qed.

Lemma client_gets_the_answer_witness :
  call sample_bus 5000 "Power" (mkPower reboot sample_context) = Return (inr (mkJob sample_id "reboot" "accepted")).
Proof.
  unfold sample_bus.
  etrans; [apply (client_gets_the_answer (T := Job) sample_digest no_status sample_account sample_profile 991
    (sample_daemon running) 5000 "Power" (mkPower reboot sample_context) power_text)|].
  - vm_compute; reflexivity.
  - vm_compute; reflexivity.
  - apply fits_sample. vm_compute; reflexivity.
  - vm_compute; reflexivity.
Defined.

Definition power_result : Daemon Fake Machine * outcome (option string) :=
  sample_request (mkMessage (Some "Power") true (Some 991) (Some power_text)) (sample_daemon running).

Lemma client_power_durable_witness :
  st_job (state_ (backend_ (fst power_result))) = mkJob sample_id "reboot" "accepted" /\
  saved (view_of sample_profile (backend_ (fst power_result))).
Proof.
  destruct (client_power_durable sample_digest no_status sample_account sample_profile 991 (sample_daemon running)
    (mkClient 5000) reboot sample_context power_text (mkJob sample_id "reboot" "accepted") (fst power_result) (snd power_result))
    as (H1 & _ & _ & _ & H5).
  - intros j. vm_compute. discriminate.
  - vm_compute; reflexivity.
  - apply Z.leb_le. vm_compute; reflexivity.
  - vm_compute; reflexivity.
  - apply fits_sample. vm_compute; reflexivity.
  - apply surjective_pairing.
  - vm_compute; reflexivity.
  - split; [exact H1 | exact H5].
Defined.
