(* ===== verification/ServiceManager.v ===== *)
(** * The service manager (common/mnc/service/service_manager.{hpp,cpp})

    A registry of units with their dependencies. The systemd bus is a parameter:
    [UnitController] holds the two calls that the manager makes. [start_one] is
    recursive through the dependencies and takes fuel; [None] is a recursion that
    the fuel did not see the end of. *)

From S2P Require Import Prelude SystemTypes Effects.

Inductive ServiceAction := start | stop | restart | reload.

#[export] Instance ServiceAction_eq_dec : EqDecision ServiceAction.
Proof. solve_decision. Defined.

Inductive ServicePriorityTier := critical_tier | high_tier | normal_tier | background_tier.

#[export] Instance ServicePriorityTier_eq_dec : EqDecision ServicePriorityTier.
Proof. solve_decision. Defined.

Definition service_priority_nice (tier : ServicePriorityTier) : Z :=
  match tier with critical_tier => -10 | high_tier => -5 | normal_tier => 0 | background_tier => 5 end.

Definition service_priority_name (tier : ServicePriorityTier) : string :=
  match tier with
  | critical_tier => "critical" | high_tier => "high" | normal_tier => "normal" | background_tier => "background"
  end.

Record ManagedService := mkManagedService {
  ms_name : string;
  ms_unit : string;
  ms_after : list string;
  ms_auto_start : bool;
  ms_priority_tier : ServicePriorityTier
}.

Record ManagedServiceStatus := mkManagedServiceStatus {
  mss_name : string;
  mss_unit : string;
  mss_active_state : string;
  mss_sub_state : string;
  mss_restart_count : Z;   (* std::uint32_t *)
  mss_permanently_failed : bool;
  mss_required_active : bool;
  mss_priority_tier : ServicePriorityTier;
  mss_expected_nice : Z;
  mss_effective_nice : Z;
  mss_priority_matches : bool
}.

(** ** The controller on the systemd bus *)

(** The answers of systemd about one unit: the reply to [GetUnit], then the
    properties, [None] for one that cannot be read. *)
Inductive GetUnit := NotFound | BadPath | UnitPath (path : string).

Record UnitProperties := mkUnitProperties {
  up_active : option string;
  up_sub : option string;
  up_restarts : option Z;
  up_nice : option Z
}.

Definition SystemdUnitController_inspect (s : ManagedService) (unit : GetUnit) (properties : string -> UnitProperties) :
    outcome ManagedServiceStatus :=
  match unit with
  | NotFound =>
      Return (mkManagedServiceStatus (ms_name s) (ms_unit s) "inactive" "not-found" 0 false true (ms_priority_tier s)
        (service_priority_nice (ms_priority_tier s)) 0 false)
  | BadPath => Throw (StdException "systemd returned an invalid unit path")
  | UnitPath path =>
      let p := properties path in
      let active := default "unknown" (up_active p) in
      let restarts := default 0 (up_restarts p) in
      let nice := default 0 (up_nice p) in
      Return (mkManagedServiceStatus (ms_name s) (ms_unit s) active (default "unknown" (up_sub p)) restarts
        ((active ==? "failed") && (3 <=? restarts)) true (ms_priority_tier s)
        (service_priority_nice (ms_priority_tier s)) nice
        (match up_nice p with Some _ => nice =? service_priority_nice (ms_priority_tier s) | None => false end))
  end.

Definition method_of (action : ServiceAction) : string :=
  match action with start => "StartUnit" | stop => "StopUnit" | restart => "RestartUnit" | reload => "ReloadUnit" end.

(** [bus method unit]: [inr] for a reply, [inl] for a failure and its message. *)
Definition SystemdUnitController_control (bus : string -> string -> option string + unit) (s : ManagedService)
    (action : ServiceAction) : outcome unit :=
  match bus (method_of action) (ms_unit s) with
  | inl message => Throw (StdException (default "systemd control failed" message))
  | inr _ => Return tt
  end.

(** The controller of a build without libsystemd. *)
Definition Fallback_inspect (s : ManagedService) : ManagedServiceStatus :=
  mkManagedServiceStatus (ms_name s) (ms_unit s) "unavailable" "libsystemd-missing" 0 true true (ms_priority_tier s)
    (service_priority_nice (ms_priority_tier s)) 0 false.

Definition Fallback_control (s : ManagedService) (action : ServiceAction) : outcome unit :=
  Throw (StdException "systemd sd-bus support is unavailable").

(** ** The manager *)

Class UnitController (C : Type) := {
  inspect : ManagedService -> C -> C * outcome ManagedServiceStatus;
  unit_control : ManagedService -> ServiceAction -> C -> C * outcome unit
}.

Record Manager (C : Type) := mkManager { controller_ : C; services_ : list ManagedService }.
Arguments mkManager {C}.
Arguments controller_ {C}.
Arguments services_ {C}.

(** The state of an activation: the controller, [started], and the services that
    [control(service, start)] was called for, in order. *)
Record Activation (C : Type) := mkActivation { act_controller : C; act_started : list string; act_calls : list string }.
Arguments mkActivation {C}.
Arguments act_controller {C}.
Arguments act_started {C}.
Arguments act_calls {C}.

(** Code that may not return. *)
Definition diverging (S : Type) : Type := S -> option (S * outcome unit).

Definition and_then {S} (m k : diverging S) : diverging S := fun s =>
  match m s with
  | Some (s', Return _) => k s'
  | r => r
  end.

Section manager.
Context {C : Type} {UC : UnitController C}.
Abbreviation M := (eff (Manager C)).

Definition register_service (s : ManagedService) : M unit := fun m =>
  if existsb (fun candidate => (ms_name candidate ==? ms_name s) || (ms_unit candidate ==? ms_unit s)) (services_ m)
  then (m, Throw (StdException "duplicate managed service"))
  else (mkManager (controller_ m) (services_ m ++ [s]), Return tt).

Definition find_service (services : list ManagedService) (name : string) : outcome ManagedService :=
  match List.find (fun s => ms_name s ==? name) services with
  | Some s => Return s
  | None => Throw (StdException ("unknown service: " +:+ name))
  end.

(** [inspect], then [control] when the unit is not active, then [push_back]. *)
Definition activate (s : ManagedService) : diverging (Activation C) := fun a =>
  let '(c, r) := inspect s (act_controller a) in
  match r with
  | Throw e => Some (mkActivation c (act_started a) (act_calls a), Throw e)
  | Return state =>
      if mss_active_state state <>? "active" then
        let '(c', r') := unit_control s start c in
        match r' with
        | Throw e => Some (mkActivation c' (act_started a) (act_calls a ++ [ms_name s]), Throw e)
        | Return _ => Some (mkActivation c' (act_started a ++ [ms_name s]) (act_calls a ++ [ms_name s]), Return tt)
        end
      else Some (mkActivation c (act_started a ++ [ms_name s]) (act_calls a), Return tt)
  end.

(** The loop over [service.after], where [go] starts a service. *)
Fixpoint start_dependencies (go : ManagedService -> diverging (Activation C)) (services : list ManagedService)
    (after : list string) : diverging (Activation C) :=
  match after with
  | [] => fun a => Some (a, Return tt)
  | dependency :: rest =>
      and_then
        (match find_service services dependency with
         | Return s => go s
         | Throw e => fun a => Some (a, Throw e)
         end)
        (start_dependencies go services rest)
  end.

Fixpoint start_one (fuel : nat) (services : list ManagedService) (s : ManagedService) : diverging (Activation C) :=
  match fuel with
  | O => fun _ => None
  | S fuel' => fun a =>
      if bool_decide (ms_name s ∈ act_started a) then Some (a, Return tt)
      else and_then (start_dependencies (start_one fuel' services) services (ms_after s)) (activate s) a
  end.

(** The loop of [start_registered]. *)
Fixpoint start_all (fuel : nat) (services todo : list ManagedService) : diverging (Activation C) :=
  match todo with
  | [] => fun a => Some (a, Return tt)
  | s :: rest =>
      and_then (if ms_auto_start s then start_one fuel services s else fun a => Some (a, Return tt))
        (start_all fuel services rest)
  end.

Definition activation (fuel : nat) (m : Manager C) : option (Activation C * outcome unit) :=
  start_all fuel (services_ m) (services_ m) (mkActivation (controller_ m) [] []).

Definition start_registered (fuel : nat) (m : Manager C) : option (Manager C * outcome unit) :=
  '(a, r) ← activation fuel m; Some (mkManager (act_controller a) (services_ m), r).

(** The three fields that the manager fills in itself. *)
Definition complete (s : ManagedService) (st : ManagedServiceStatus) : ManagedServiceStatus :=
  mkManagedServiceStatus (mss_name st) (mss_unit st) (mss_active_state st) (mss_sub_state st) (mss_restart_count st)
    (mss_permanently_failed st) (ms_auto_start s) (ms_priority_tier s) (service_priority_nice (ms_priority_tier s))
    (mss_effective_nice st) (mss_priority_matches st).

Definition on_controller {A} (f : C -> C * outcome A) : M A := fun m =>
  let '(c, r) := f (controller_ m) in (mkManager c (services_ m), r).

Fixpoint statuses_loop (todo : list ManagedService) : M (list ManagedServiceStatus) :=
  match todo with
  | [] => mret []
  | s :: rest =>
      st ← on_controller (inspect s);
      result ← statuses_loop rest;
      mret (complete s st :: result)
  end.

Definition statuses : M (list ManagedServiceStatus) :=
  services ← gets services_;
  statuses_loop services.

Definition service_status (name : string) : M ManagedServiceStatus :=
  services ← gets services_;
  s ← lift (find_service services name);
  st ← on_controller (inspect s);
  mret (complete s st).

Definition control (name : string) (action : ServiceAction) : M ManagedServiceStatus :=
  services ← gets services_;
  s ← lift (find_service services name);
  _ ← on_controller (unit_control s action);
  st ← on_controller (inspect s);
  mret (complete s st).

End manager.

(** ** The order of activation *)

Section order.
Context {C : Type} {UC : UnitController C}.
Context (services : list ManagedService).

(** Every dependency is registered and has a lower rank: no cycles. *)
Definition ranked (rank : string -> nat) : Prop :=
  forall s d, s ∈ services -> d ∈ ms_after s -> (exists t, t ∈ services /\ ms_name t = d) /\ (rank d < rank (ms_name s))%nat.

(** Each name once, after the names of its dependencies. *)
Inductive ordered : list string -> Prop :=
  | ordered_nil : ordered []
  | ordered_snoc l s : ordered l -> s ∈ services -> ms_name s ∉ l -> (forall d, d ∈ ms_after s -> d ∈ l) ->
      ordered (l ++ [ms_name s]).

(** A last call that failed was for a service whose dependencies were up. *)
Definition failed_call (a : Activation C) : Prop :=
  exists l s, act_calls a = l ++ [ms_name s] /\ (l `sublist_of` act_started a) /\ s ∈ services /\
    (ms_name s ∉ act_started a) /\ (forall d, d ∈ ms_after s -> d ∈ act_started a).

(** The services started are in order, and so are the calls to systemd. *)
Definition in_order (a : Activation C) (r : outcome unit) : Prop :=
  ordered (act_started a) /\
  match r with
  | Return _ => act_calls a `sublist_of` act_started a
  | Throw _ => act_calls a `sublist_of` act_started a \/ failed_call a
  end.

(** [m] returns from [a], in order, and starts only services that satisfy [P]. *)
Definition proceeds (P : string -> Prop) (m : diverging (Activation C)) (Q : list string -> Prop) (a : Activation C) : Prop :=
  exists a' r, m a = Some (a', r) /\ in_order a' r /\ act_started a ⊆ act_started a' /\
    (forall x, x ∈ act_started a' -> x ∈ act_started a \/ P x) /\ (r = Return tt -> Q (act_started a')).

Lemma proceeds_mono (P P' Q Q' : _ -> Prop) m a :
  (forall x, P x -> P' x) -> (forall l, Q l -> Q' l) -> proceeds P m Q a -> proceeds P' m Q' a.
Proof.
  intros HP HQ (a' & r & H1 & H2 & H3 & H4 & H5). exists a', r. split_and!; [done.. | |auto].
  intros x [|]%H4; auto.
Qed.

Lemma proceeds_post P (Q Q' : _ -> Prop) m a : proceeds P m Q a -> (forall l, Q l -> Q' l) -> proceeds P m Q' a.
Proof. intros Hm HQ. by eapply (proceeds_mono P P Q). Qed.

Lemma proceeds_return P a : in_order a (Return tt) -> proceeds P (fun a => Some (a, Return tt)) (fun _ => True) a.
Proof. intros Ha. exists a, (Return tt). split_and!; auto. Qed.

Lemma proceeds_then (P P' : string -> Prop) m k (Q R : list string -> Prop) a :
  (forall x, P x -> P' x) -> proceeds P m Q a -> (forall l l', Q l -> l ⊆ l' -> Q l') ->
  (forall a', in_order a' (Return tt) -> Q (act_started a') -> (forall x, x ∈ act_started a' -> x ∈ act_started a \/ P x) ->
     proceeds P' k R a') ->
  proceeds P' (and_then m k) (fun l => Q l /\ R l) a.
Proof.
  intros HP (a1 & r1 & H1 & H2 & H3 & H4 & H5) HQ Hk. unfold proceeds, and_then. rewrite H1.
  destruct r1 as [[]|e].
  - destruct (Hk a1 H2 (H5 eq_refl) H4) as (a2 & r2 & K1 & K2 & K3 & K4 & K5).
    exists a2, r2. split_and!; [done | done | by etrans | |].
    + intros x [[Hx|Hx]%H4|Hx]%K4; auto.
    + intros Hr. split; [by eapply HQ; [apply H5|] | auto].
  - exists a1, (Throw e). split_and!; [done.. | | done]. intros x [|]%H4; auto.
Qed.

Lemma find_service_registered d : (exists t, t ∈ services /\ ms_name t = d) ->
  exists t, find_service services d = Return t /\ t ∈ services /\ ms_name t = d.
Proof.
  intros (t & Ht & Hd). unfold find_service. destruct (List.find _ services) as [u|] eqn:E.
  - apply List.find_some in E as [Hu He]. exists u. split; [done|]. split; [by apply list_elem_of_In|].
    by apply bool_decide_eq_true in He.
  - exfalso. pose proof (List.find_none _ _ E t (proj1 (list_elem_of_In _ _) Ht)) as He. by apply bool_decide_eq_false in He.
Qed.

Lemma activate_proceeds s a :
  in_order a (Return tt) -> s ∈ services -> ms_name s ∉ act_started a ->
  (forall d, d ∈ ms_after s -> d ∈ act_started a) ->
  proceeds (eq (ms_name s)) (activate s) (fun l => ms_name s ∈ l) a.
Proof.
  intros [Ho Hc] Hs Hn Hd. unfold proceeds, activate.
  destruct (inspect s (act_controller a)) as [c [st|e]].
  - destruct (mss_active_state st <>? "active").
    + destruct (unit_control s start c) as [c' [u|e]].
      * eexists _, _. split; [done|]. unfold in_order. cbn. split_and!.
        -- by constructor.
        -- by apply sublist_app.
        -- set_solver.
        -- set_solver.
        -- set_solver.
      * eexists _, _. split; [done|]. unfold in_order. cbn. split_and!; [done | | set_solver.. | done].
        right. exists (act_calls a), s. by split_and!.
    + eexists _, _. split; [done|]. unfold in_order. cbn. split_and!.
      * by constructor.
      * rewrite <- (app_nil_r (act_calls a)). apply sublist_app; [done | apply sublist_nil_l].
      * set_solver.
      * set_solver.
      * set_solver.
  - eexists _, _. split; [done|]. unfold in_order. cbn. split_and!; [done | by left | set_solver.. | done].
Qed.

(** The services that starting [s] may start. *)
Inductive needs (s : ManagedService) : string -> Prop :=
  | needs_self : needs s (ms_name s)
  | needs_dependency d t x : d ∈ ms_after s -> find_service services d = Return t -> needs t x -> needs s x.

Context (rank : string -> nat) (Hrank : ranked rank).

(** Once is enough: [start_one] with as much fuel as the rank of the service. *)
Lemma start_one_proceeds fuel s a :
  s ∈ services -> (rank (ms_name s) < fuel)%nat -> in_order a (Return tt) ->
  proceeds (fun x => (rank x <= rank (ms_name s))%nat /\ needs s x) (start_one fuel services s) (fun l => ms_name s ∈ l) a.
Proof.
  revert s a. induction fuel as [|fuel IH]; intros s a Hs Hf Ha; [lia|].
  assert (Hdeps : forall after, after ⊆ ms_after s -> forall a, in_order a (Return tt) ->
    proceeds (fun x => (rank x < rank (ms_name s))%nat /\ needs s x) (start_dependencies (start_one fuel services) services after)
      (fun l => after ⊆ l) a).
  { intros after. induction after as [|d rest IHd]; intros Hafter a0 Ha0.
    - eapply proceeds_post; [by apply proceeds_return | intros; apply list_subseteq_nil].
    - assert (Hd : d ∈ ms_after s) by (apply Hafter; left). destruct (Hrank s d Hs Hd) as [Hreg Hlt].
      destruct (find_service_registered d Hreg) as (t & Ht & Hts & Htn). cbn [start_dependencies]. rewrite Ht. subst d.
      eapply proceeds_post; [eapply (proceeds_then (fun x => (rank x < rank (ms_name s))%nat /\ needs s x) _ _ _ (fun l => ms_name t ∈ l)
        (fun l => rest ⊆ l)); [done| | set_solver |]|].
      + eapply proceeds_mono; [| |apply IH; [done | lia | done]]; cbv beta; [|done].
        intros x [Hx Hn]. split; [lia | by eapply needs_dependency].
      + intros a' Ha' _ _. apply IHd; [set_solver | done].
      + cbv beta. set_solver. }
  unfold proceeds. cbn [start_one]. case_bool_decide as Hin.
  { exists a, (Return tt). split_and!; auto. }
  assert (Hthen : proceeds (fun x => (rank x <= rank (ms_name s))%nat /\ needs s x)
    (and_then (start_dependencies (start_one fuel services) services (ms_after s)) (activate s))
    (fun l => ms_name s ∈ l) a); [|exact Hthen].
  eapply proceeds_post; [eapply (proceeds_then (fun x => (rank x < rank (ms_name s))%nat /\ needs s x) _ _ _ (fun l => ms_after s ⊆ l)
    (fun l => ms_name s ∈ l)); [cbv beta; intros x [Hx Hn]; split; [lia | done] | by apply Hdeps | set_solver |]|by intros l [_ H]].
  intros a' Ha' Hd Hnew. eapply proceeds_mono; [| |apply activate_proceeds]; auto.
  - intros x <-. split; [done | constructor].
  - intros [|[Hx _]]%Hnew; [done | lia].
Qed.

(** The loop of [start_registered]. *)
Lemma start_all_proceeds fuel todo a :
  todo ⊆ services -> (forall s, s ∈ services -> (rank (ms_name s) < fuel)%nat) -> in_order a (Return tt) ->
  proceeds (fun x => exists s, s ∈ todo /\ ms_auto_start s = true /\ needs s x) (start_all fuel services todo)
    (fun l => forall s, s ∈ todo -> ms_auto_start s = true -> ms_name s ∈ l) a.
Proof.
  intros Hsub Hf. revert a. induction todo as [|s rest IH]; intros a Ha; cbn [start_all].
  { eapply proceeds_post; [by apply proceeds_return | intros l _ s Hs; by apply elem_of_nil in Hs]. }
  eapply proceeds_post; [eapply (proceeds_then (fun x => ms_auto_start s = true /\ needs s x) _ _ _
    (fun l => ms_auto_start s = true -> ms_name s ∈ l)
    (fun l => forall t, t ∈ rest -> ms_auto_start t = true -> ms_name t ∈ l))|].
  - intros x [Hs Hx]. exists s. split; [left | done].
  - destruct (ms_auto_start s) eqn:Es.
    + eapply proceeds_mono; [| |apply start_one_proceeds; [apply Hsub; left | apply Hf, Hsub; left | done]]; cbv beta; tauto.
    + eapply proceeds_post; [by apply proceeds_return | done].
  - intros l l' Hl Hll' Hs. by apply Hll', Hl.
  - intros a' Ha' _ _. eapply proceeds_mono; [| |apply IH; [set_solver | done]]; cbv beta; [|done].
    intros x (t & Ht & Hx). exists t. split; [by right | done].
  - intros l [Hs Hrest] t [->|Ht]%elem_of_cons; auto.
Qed.

End order.

(** ** Theorems *)

Section theorems.
Context {C : Type} {UC : UnitController C}.


(** The services of [X] are on cycles: each of them is to start after one of them. *)
Definition cyclic (services : list ManagedService) (X : string -> Prop) : Prop :=
  forall t, t ∈ services -> X (ms_name t) -> exists d, d ∈ ms_after t /\ X d.

(** Every dependency is registered and no call of the controller throws. *)
Definition dependable (services : list ManagedService) : Prop :=
  (forall t d, t ∈ services -> d ∈ ms_after t -> exists u, u ∈ services /\ ms_name u = d) /\
  forall t (c : C), t ∈ services ->
    (exists st, snd (inspect t c) = Return st) /\ snd (unit_control t start c) = Return tt.

(** No service of [X] is started, and if [stuck] the call does not return normally. *)
Definition held_up (X : string -> Prop) (stuck : Prop) (r : option (Activation C * outcome unit)) : Prop :=
  match r with
  | None => True
  | Some (a, r) => (forall x, X x -> x ∉ act_started a) /\ (stuck -> r <> Return tt)
  end.

Lemma find_service_spec services d u : find_service services d = Return u -> u ∈ services /\ ms_name u = d.
Proof.
  unfold find_service. destruct (List.find _ services) as [t|] eqn:E; [|done]. intros [= <-].
  apply List.find_some in E as [Hu He]. split; [by apply list_elem_of_In | by apply bool_decide_eq_true in He].
Qed.

Lemma activate_held_up X t (a : Activation C) :
  ~ X (ms_name t) -> (forall x, X x -> x ∉ act_started a) -> held_up X False (activate t a).
Proof.
  intros Ht Ha. unfold activate. destruct (inspect t _) as [c [st|e]]; [|by split].
  assert (Hx : forall x, X x -> x ∉ act_started a ++ [ms_name t]).
  { intros x Hx [?|?%list_elem_of_singleton]%elem_of_app; [by apply (Ha x) | by subst]. }
  destruct (_ <>? _); [|by split]. destruct (unit_control t start c) as [c' [u|e]]; by split.
Qed.

Lemma dependencies_held_up X services go after (a : Activation C) :
  (forall t a, t ∈ services -> (forall x, X x -> x ∉ act_started a) -> held_up X (X (ms_name t)) (go t a)) ->
  (forall x, X x -> x ∉ act_started a) ->
  held_up X (exists d, d ∈ after /\ X d) (start_dependencies go services after a).
Proof.
  intros Hgo. revert a. induction after as [|d after IH]; intros a Ha; cbn [start_dependencies].
  { split; [done|]. by intros (d & ?%elem_of_nil & _). }
  unfold and_then. destruct (find_service services d) as [u|e] eqn:Hu; [|by split].
  apply find_service_spec in Hu as [Hu Hn]. specialize (Hgo u a Hu Ha). rewrite Hn in Hgo. clear Hn Hu.
  destruct (go u a) as [[a1 [[]|e]]|]; [| |done]; destruct Hgo as [H1 H2]; [|by split].
  specialize (IH a1 H1). destruct (start_dependencies go services after a1) as [[a2 r]|]; [|done].
  destruct IH as [H3 H4]. split; [done|]. intros (x & [->|Hx]%elem_of_cons & HX); [by destruct (H2 HX) | eauto].
Qed.

Lemma start_one_held_up X services fuel t (a : Activation C) :
  cyclic services X -> t ∈ services -> (forall x, X x -> x ∉ act_started a) ->
  held_up X (X (ms_name t)) (start_one fuel services t a).
Proof.
  intros Hc. revert t a. induction fuel as [|fuel IH]; intros t a Ht Ha; [done|]. cbn [start_one].
  case_bool_decide as Hin; [split; [done|]; intros Hx; by destruct (Ha _ Hx)|].
  pose proof (dependencies_held_up X services (start_one fuel services) (ms_after t) a IH Ha) as Hd. unfold and_then.
  destruct (start_dependencies _ services (ms_after t) a) as [[a1 [[]|e]]|]; [| |done]; destruct Hd as [H1 H2]; [|by split].
  assert (Ht' : ~ X (ms_name t)) by (intros HX; by destruct (H2 (Hc t Ht HX))).
  pose proof (activate_held_up X t a1 Ht' H1) as Hact. destruct (activate t a1) as [[a2 r]|]; [|done].
  destruct Hact. by split.
Qed.

Lemma start_all_held_up X services fuel todo (a : Activation C) :
  cyclic services X -> (forall t, t ∈ todo -> t ∈ services) -> (forall x, X x -> x ∉ act_started a) ->
  held_up X (exists t, t ∈ todo /\ ms_auto_start t = true /\ X (ms_name t)) (start_all fuel services todo a).
Proof.
  intros Hc. revert a. induction todo as [|t todo IH]; intros a Hsub Ha; cbn [start_all].
  { split; [done|]. by intros (t & ?%elem_of_nil & _). }
  pose proof (start_one_held_up X services fuel t a Hc (Hsub t ltac:(left)) Ha) as Ht. unfold and_then.
  assert (Hrest : forall a1, (forall x, X x -> x ∉ act_started a1) -> (ms_auto_start t = true -> ~ X (ms_name t)) ->
    held_up X (exists u, u ∈ t :: todo /\ ms_auto_start u = true /\ X (ms_name u)) (start_all fuel services todo a1)).
  { intros a1 Ha1 Hn. specialize (IH a1 (fun u Hu => Hsub u ltac:(by right)) Ha1).
    destruct (start_all fuel services todo a1) as [[a2 r]|]; [|done]. destruct IH as [H1 H2]. split; [done|].
    intros (u & [->|Hu]%elem_of_cons & Hauto & HX); [by destruct Hn | eauto]. }
  destruct (ms_auto_start t); [|by apply Hrest].
  destruct (start_one fuel services t a) as [[a1 [[]|e]]|]; [| |done]; destruct Ht as [H1 H2]; [|by split].
  apply Hrest; [done|]. intros _ HX. by destruct (H2 HX).
Qed.

(** Nothing throws with dependencies that are registered and a controller that works. *)
Definition smooth (r : option (Activation C * outcome unit)) : Prop :=
  match r with Some (_, Throw _) => False | _ => True end.

Lemma smooth_and_then (m k : diverging (Activation C)) a : smooth (m a) -> (forall a, smooth (k a)) -> smooth (and_then m k a).
Proof. unfold and_then. intros Hm Hk. destruct (m a) as [[a1 [u|e]]|]; [apply Hk | done | done]. Qed.

Lemma activate_smooth services t (a : Activation C) : dependable services -> t ∈ services -> smooth (activate t a).
Proof.
  intros [_ Hc] Ht. unfold activate. destruct (Hc t (act_controller a) Ht) as [[st Hst] _].
  destruct (inspect t (act_controller a)) as [c r]. cbn in Hst. subst r.
  destruct (Hc t c Ht) as [_ Hu]. destruct (_ <>? _); [|done]. by destruct (unit_control t start c) as [c' r]; cbn in Hu; subst r.
Qed.

Lemma start_one_smooth services fuel t (a : Activation C) :
  dependable services -> t ∈ services -> smooth (start_one fuel services t a).
Proof.
  intros Hd. revert t a. induction fuel as [|fuel IH]; intros t a Ht; [done|]. cbn [start_one].
  case_bool_decide; [done|]. apply smooth_and_then; [|intros a1; by eapply activate_smooth].
  assert (Hreg : forall d, d ∈ ms_after t -> exists u, u ∈ services /\ ms_name u = d) by (intros d; by apply Hd).
  clear Ht H. revert a. induction (ms_after t) as [|d after IHa]; intros a; cbn [start_dependencies]; [done|].
  apply smooth_and_then; [|intros a1; apply IHa; intros x Hx; apply Hreg; by right].
  destruct (find_service_registered services d (Hreg d ltac:(left))) as (u & -> & Hu & _). by apply IH.
Qed.

Lemma start_all_smooth services fuel todo (a : Activation C) :
  dependable services -> (forall t, t ∈ todo -> t ∈ services) -> smooth (start_all fuel services todo a).
Proof.
  intros Hd. revert a. induction todo as [|t todo IH]; intros a Hsub; cbn [start_all]; [done|].
  apply smooth_and_then; [|intros a1; apply IH; intros u Hu; apply Hsub; by right].
  destruct (ms_auto_start t); [|done]. apply start_one_smooth; [done | apply Hsub; left].
Qed.


(** No two services share a name or a unit. *)
Definition unique (m : Manager C) : Prop := NoDup (map ms_name (services_ m)) /\ NoDup (map ms_unit (services_ m)).

Lemma find_service_app l s name :
  find_service (l ++ [s]) name =
  match find_service l name with Return t => Return t | Throw _ => find_service [s] name end.
Proof.
  unfold find_service. induction l as [|t l IH]; cbn [app List.find]; [done|].
  destruct (ms_name t ==? name); [done | exact IH].
Qed.

(** The registry: a service is registered exactly when its name and its unit
    are new, names and units stay unique, [find] then returns it, every other
    lookup is as before, and a refused registration changes nothing. *)
Theorem register_service_spec s (m : Manager C) :
  unique m ->
  let '(m', r) := register_service s m in
  unique m' /\ controller_ m' = controller_ m /\
  match r with
  | Return _ =>
      (ms_name s ∉ map ms_name (services_ m)) /\ (ms_unit s ∉ map ms_unit (services_ m)) /\
      find_service (services_ m') (ms_name s) = Return s /\
      forall name, name <> ms_name s -> find_service (services_ m') name = find_service (services_ m) name
  | Throw e =>
      m' = m /\ e = StdException "duplicate managed service" /\
      (ms_name s ∈ map ms_name (services_ m) \/ ms_unit s ∈ map ms_unit (services_ m))
  end.
Proof.
  intros [Hn Hu]. unfold register_service. destruct (existsb _ (services_ m)) eqn:E.
  - split; [done|]. split; [done|]. split; [done|]. split; [done|]. apply existsb_exists in E as (t & Ht & He).
    apply list_elem_of_In in Ht. apply orb_true_iff in He as [He|He]; apply bool_decide_eq_true in He; rewrite <- He;
      [left | right]; apply list_elem_of_fmap; eauto.
  - assert (Hfresh : forall t, t ∈ services_ m -> ms_name t <> ms_name s /\ ms_unit t <> ms_unit s).
    { intros t Ht. apply list_elem_of_In in Ht. apply not_true_iff_false in E. rewrite existsb_exists in E.
      split; intros He; apply E; exists t; (split; [done|]); apply orb_true_iff; [left | right]; by apply bool_decide_eq_true. }
    assert (Hname : ms_name s ∉ map ms_name (services_ m)).
    { intros (t & He & Ht)%list_elem_of_fmap. by destruct (Hfresh t Ht). }
    assert (Hunit : ms_unit s ∉ map ms_unit (services_ m)).
    { intros (t & He & Ht)%list_elem_of_fmap. by destruct (Hfresh t Ht). }
    cbn [services_ controller_]. unfold unique. cbn [services_]. rewrite !map_app. split_and!; try done.
    + apply NoDup_app. split_and!; [done | set_solver | apply NoDup_singleton].
    + apply NoDup_app. split_and!; [done | set_solver | apply NoDup_singleton].
    + rewrite find_service_app. unfold find_service at 1. destruct (List.find _ (services_ m)) as [t|] eqn:F.
      * apply List.find_some in F as [Ht He%bool_decide_eq_true]. apply list_elem_of_In in Ht. by destruct (Hfresh t Ht).
      * unfold find_service. cbn. by rewrite bool_decide_eq_true_2.
    + intros name Hne. rewrite find_service_app. unfold find_service. destruct (List.find _ (services_ m)); [done|].
      cbn. by rewrite bool_decide_eq_false_2 by done.
Qed.

End theorems.

(** ** A sample controller: the names of the active units *)

Definition unit_state (active : bool) (s : ManagedService) : ManagedServiceStatus :=
  mkManagedServiceStatus (ms_name s) (ms_unit s) (if active then "active" else "inactive") "" 0 false true (ms_priority_tier s) 0 0 false.

#[export] Instance Units_controller : UnitController (list string) := {|
  inspect s c := (c, Return (unit_state (bool_decide (ms_unit s ∈ c)) s));
  unit_control s action c :=
    match action with
    | start => (ms_unit s :: c, Return tt)
    | stop => (filter (.≠ ms_unit s) c, Return tt)
    | restart | reload => (c, Return tt)
    end
|}.

Definition sample_services : list ManagedService :=
  [mkManagedService "api" "api.service" ["db"; "log"] true normal_tier;
   mkManagedService "db" "db.service" ["log"] true high_tier;
   mkManagedService "log" "log.service" [] false critical_tier;
   mkManagedService "extra" "extra.service" [] false background_tier].

Definition sample_rank (name : string) : nat :=
  if name ==? "api" then 2 else if name ==? "db" then 1 else 0.


(** "a" needs "log" and then, through "b", itself. *)
Definition cyclic_services : list ManagedService :=
  [mkManagedService "a" "a.service" ["log"; "b"] true normal_tier; mkManagedService "b" "b.service" ["log"; "a"] false normal_tier;
   mkManagedService "log" "log.service" [] false critical_tier].


Lemma register_service_spec_witness :
  let '(m', r) := register_service (mkManagedService "web" "web.service" ["api"] true normal_tier) (mkManager ["db.service"] sample_services) in
  unique m' /\ r = Return tt.
Proof.
  pose proof (register_service_spec (mkManagedService "web" "web.service" ["api"] true normal_tier)
    (mkManager ["db.service"] sample_services)) as Hr.
  cbv beta iota delta [register_service] in Hr |- *. cbn in Hr |- *.
  split; [|done]. apply Hr. split; apply (bool_decide_unpack _); vm_compute; exact I.
Defined.
