(* ===== verification/Service.v ===== *)
(** * The life of a service process (common/mnc/service/service.{hpp,cpp})

    [execute] runs the hooks of a derived service, answers signals and tells
    systemd how it is. The hooks are a parameter, as is what happens while the
    process waits: the other threads of the service, and the signals. The flag
    [stop_requested_] is one for the process and all of its threads: it is a part
    of the object's state, which all of them share. *)

From S2P Require Import Prelude SystemTypes Effects Logging.

Record ServiceHealth := mkServiceHealth { healthy : bool; summary : string }.

(** The virtual functions of a class derived from [Service], on the state of the
    object, and the access to the flag of its base class in it. [on_stop] may
    wait for another thread: it gives [false] when it has not returned. *)
Class Hooks (S : Type) := {
  stop_requested : S -> bool;
  set_stop_requested : S -> S;
  on_start : S -> S * outcome unit;
  on_reload : S -> S * outcome unit;
  on_stop : S -> S * bool;
  health : S -> outcome ServiceHealth
}.

(** What [sigtimedwait] returns: a signal, a wait that ended ([EAGAIN] or
    [EINTR]), or another error and its text. *)
Inductive Signal := SIGINT | SIGTERM | SIGHUP | NoSignal | WaitFails (text : string).

(** What the process did, for the theorems. *)
Inductive deed :=
  | Started
  | Notified (text : string)
  | Logged (priority : Priority) (message event : string)
  | Reloaded
  | Unhealthy
  | Stopped.

Record Process (S : Type) := mkProcess {
  pc_state : S;          (* with the flag stop_requested_ *)
  reload_requested_ : bool;
  pc_started : bool;     (* the local variable started of execute *)
  pc_deeds : list deed   (* ghost, oldest first *)
}.
Arguments mkProcess {S}.
Arguments pc_state {S}.
Arguments reload_requested_ {S}.
Arguments pc_started {S}.
Arguments pc_deeds {S}.

(** The other threads: they change the state, the flag [stop_requested_] in it
    included, and may request a reload, before the flag is read and while the
    process waits for a signal. *)
Record Round (S : Type) := mkRound {
  rd_before : S -> S;
  rd_during : S -> S;
  rd_reload_during : bool;
  rd_signal : Signal
}.
Arguments mkRound {S}.
Arguments rd_before {S}.
Arguments rd_during {S}.
Arguments rd_reload_during {S}.
Arguments rd_signal {S}.

(** [sizeof(sockaddr_un::sun_path)]. *)
Definition sun_path_size : Z := 108.

(** The bytes of the address that [notify] sends to, for the value of
    [NOTIFY_SOCKET]: an abstract name begins with a zero byte, a path ends in one. *)
Definition notify_address (socket_name : string) : string :=
  match socket_name with
  | String c rest => if c ==? "@"%char then String zero rest else socket_name +:+ String zero ""
  | EmptyString => String zero ""
  end.

(** [notify]; [socket_opens] is whether [socket] returns a descriptor, and
    [sendto address text] the number of bytes that it reports sent. *)
Definition notify (NOTIFY_SOCKET : option string) (socket_opens : bool) (sendto : string -> string -> Z) (state : string) : bool :=
  match NOTIFY_SOCKET with
  | None | Some EmptyString => true
  | Some socket_name =>
      if sun_path_size <=? size_of socket_name then false
      else if negb socket_opens then false
      else sendto (notify_address socket_name) state =? size_of state
  end.

Section service.
Context {S : Type} {HK : Hooks S}.
Context (name_ : string).
Abbreviation E := (eff (Process S)).

Definition deed_done (d : deed) : E unit :=
  modify (fun p => mkProcess (pc_state p) (reload_requested_ p) (pc_started p) (pc_deeds p ++ [d])).

Definition set_state (f : S -> S) : E unit :=
  modify (fun p => mkProcess (f (pc_state p)) (reload_requested_ p) (pc_started p) (pc_deeds p)).

Definition set_started (b : bool) : E unit :=
  modify (fun p => mkProcess (pc_state p) (reload_requested_ p) b (pc_deeds p)).

Definition request_stop : E unit := set_state set_stop_requested.

Definition request_reload : E unit :=
  modify (fun p => mkProcess (pc_state p) true (pc_started p) (pc_deeds p)).

(** [reload_requested_.exchange(false)]. *)
Definition take_reload : E bool := fun p =>
  (mkProcess (pc_state p) false (pc_started p) (pc_deeds p), Return (reload_requested_ p)).

Definition run_hook (f : S -> S * outcome unit) : E unit := fun p =>
  let '(s, r) := f (pc_state p) in (mkProcess s (reload_requested_ p) (pc_started p) (pc_deeds p), r).

(** [stop_requested()]. *)
Definition read_stop : E bool := gets (fun p => stop_requested (pc_state p)).

Definition read_health : E ServiceHealth := fun p => (p, health (pc_state p)).

Definition newline : string := String (chr 10) "".

(** The wait for a signal. *)
Definition listen (r : Round S) : E unit :=
  _ ← set_state (rd_during r);
  _ ← when (rd_reload_during r) request_reload;
  match rd_signal r with
  | WaitFails text => throw (StdException ("sigtimedwait failed: " +:+ text))
  | SIGINT | SIGTERM => request_stop
  | SIGHUP => request_reload
  | NoSignal => mret tt
  end.

(** The reload and the health check; the result is whether [result] is set to 1. *)
Definition look_after : E bool :=
  reload ← take_reload;
  _ ← when reload (
        _ ← run_hook on_reload;
        _ ← deed_done Reloaded;
        deed_done (Logged notice (name_ +:+ " reloaded") "service_reloaded"));
  current ← read_health;
  if negb (healthy current) then
    _ ← deed_done Unhealthy;
    _ ← request_stop;
    mret true
  else
    _ ← deed_done (Notified ("WATCHDOG=1" +:+ newline +:+ "STATUS=" +:+ summary current));
    mret false.

(** The loop; [None] when the process still runs after these rounds, else
    [result]. *)
Fixpoint service_loop (rounds : list (Round S)) (result : Z) : E (option Z) :=
  match rounds with
  | [] =>
      stopped ← read_stop;
      mret (if (stopped : bool) then Some result else None)
  | r :: rest =>
      _ ← set_state (rd_before r);
      stopped ← read_stop;
      if (stopped : bool) then mret (Some result)
      else
        _ ← listen r;
        failed ← look_after;
        service_loop rest (if (failed : bool) then 1 else result)
  end.

(** The [try] block up to the loop. *)
Definition begin_service : E unit :=
  _ ← run_hook on_start;
  _ ← set_started true;
  _ ← deed_done Started;
  initial ← read_health;
  _ ← deed_done (Notified ("READY=1" +:+ newline +:+ "STATUS=" +:+ summary initial));
  deed_done (Logged notice (name_ +:+ " is ready") "service_ready").

(** The [catch] clauses. *)
Definition failed_with (e : exn) : E (option Z) :=
  _ ← deed_done (Logged critical
        (match e with
         | Error e => name_ +:+ " failed: " +:+ err_message e
         | StdException what => name_ +:+ " failed: " +:+ what
         | UnknownException => name_ +:+ " failed with an unknown exception"
         end) "service_failed");
  mret (Some 1).

(** [on_stop()]: whether it returned. *)
Definition call_on_stop : E bool := fun p =>
  let '(s, returned) := on_stop (pc_state p) in
  (mkProcess s (reload_requested_ p) (pc_started p) (pc_deeds p ++ if (returned : bool) then [Stopped] else []), Return returned).

(** [if (started) on_stop()]. *)
Definition stop_hook : E bool :=
  started ← gets pc_started;
  if (started : bool) then call_on_stop else mret true.

(** What follows the [try] block: whether it gets to its end. *)
Definition finish : E bool :=
  _ ← deed_done (Notified ("STOPPING=1" +:+ newline +:+ "STATUS=" +:+ name_ +:+ " is stopping"));
  returned ← stop_hook;
  _ ← when returned (deed_done (Logged notice (name_ +:+ " stopped") "service_stopped"));
  mret returned.

(** [execute]; [masked] is whether the signals could be blocked. [None] when it
    has not returned: the process still runs after the rounds, or [on_stop] waits. *)
Definition execute (masked : bool) (rounds : list (Round S)) : E (option Z) :=
  if negb masked then
    _ ← deed_done (Logged critical "failed to block lifecycle signals" "signal_setup_failed");
    mret (Some 1)
  else
    _ ← set_started false;
    result ← try_catch (_ ← begin_service; service_loop rounds 0) failed_with;
    match result with
    | None => mret None
    | Some code => returned ← finish; mret (if (returned : bool) then Some code else None)
    end.

End service.

(** ** What [execute] guarantees *)

Section guarantees.
Context {S : Type} {HK : Hooks S}.
Context (name_ : string).
Abbreviation E := (eff (Process S)).

(** What a process in service may do. *)
Definition serving (d : deed) : Prop :=
  match d with
  | Reloaded | Unhealthy => True
  | Notified text => exists s, text = "WATCHDOG=1" +:+ newline +:+ "STATUS=" +:+ s
  | Logged _ _ event => event = "service_reloaded"
  | Started | Stopped => False
  end.

(** [p'] is [p] after the deeds [l]. *)
Definition after (p : Process S) (l : list deed) (p' : Process S) : Prop :=
  pc_started p' = pc_started p /\ pc_deeds p' = pc_deeds p ++ l.

Lemma after_refl p : after p [] p.
Proof. split; [done | by rewrite app_nil_r]. Qed.

Lemma after_trans p l p' l' p'' : after p l p' -> after p' l' p'' -> after p (l ++ l') p''.
Proof. intros [H1 H2] [H3 H4]. split; [congruence|]. by rewrite H4, H2, app_assoc. Qed.

Definition served (p : Process S) (unhealthy : bool) (p' : Process S) : Prop :=
  exists l, after p l p' /\ Forall serving l /\ (unhealthy = true <-> Unhealthy ∈ l).

Lemma served_trans p b p' b' p'' : served p b p' -> served p' b' p'' -> served p (b || b') p''.
Proof.
  intros (l & H1 & H2 & H3) (l' & K1 & K2 & K3). exists (l ++ l'). split; [by eapply after_trans|].
  split; [by apply Forall_app|]. rewrite orb_true_iff, elem_of_app. tauto.
Qed.

Definition asked_during (r : Round S) : bool := match rd_signal r with SIGINT | SIGTERM => true | _ => false end.

Lemma wp_deed d (Q : unit -> Process S -> Prop) F p :
  Q tt (mkProcess (pc_state p) (reload_requested_ p) (pc_started p) (pc_deeds p ++ [d])) ->
  wp (deed_done d) Q F p.
Proof. done. Qed.

Lemma listen_spec r p : wp (listen r) (fun _ => after p []) (fun _ => after p []) p.
Proof.
  unfold listen, after, wp, mbind, eff_bind, set_state, modify, when, request_stop, set_state, modify, request_reload, throw.
  destruct r as [rb rdu [] []]; cbn; rewrite app_nil_r; done.
Qed.

Lemma served_nil p q : after p [] q -> served p false q.
Proof. intros Hq. exists []. split_and!; [done | done |]. split; [done | by intros ?%elem_of_nil]. Qed.

(** The reload. *)
Lemma reload_spec p :
  wp (reload ← take_reload; when reload (_ ← run_hook on_reload; _ ← deed_done Reloaded;
        deed_done (Logged notice (name_ +:+ " reloaded") "service_reloaded")))
    (fun _ => served p false) (fun _ => served p false) p.
Proof.
  unfold wp, mbind, eff_bind, take_reload, when, run_hook, deed_done, modify. destruct (reload_requested_ p).
  - cbn. destruct (on_reload (pc_state p)) as [s [u|e]]; cbn.
    + exists [Reloaded; Logged notice (name_ +:+ " reloaded") "service_reloaded"].
      split; [by split; [|cbn; rewrite <- app_assoc]|]. split; [by repeat constructor|]. split; [done | set_solver].
    + apply served_nil. split; [done | by rewrite app_nil_r].
  - apply served_nil. split; [done | by rewrite app_nil_r].
Qed.

Lemma look_after_spec p :
  wp (look_after name_) (fun b => served p b) (fun _ => served p false) p.
Proof.
  unfold look_after. rewrite wp_bind. pose proof (reload_spec p) as Hr. rewrite wp_bind in Hr.
  eapply wp_mono; [exact Hr | | done]. cbv beta. intros reload p0 Hp0. rewrite wp_bind.
  eapply wp_mono; [exact Hp0 | | done]. cbv beta. intros [] p1 Hs. rewrite wp_bind. unfold read_health, wp at 1.
  destruct (health (pc_state p1)) as [h|e]; [|done].
  destruct (healthy h); cbn [negb]; rewrite wp_bind; apply wp_deed.
  - rewrite wp_ret. apply (served_trans p false p1 false); [done|]. eexists. split; [by split|].
    split; [repeat constructor; by eexists|]. split; [done | set_solver].
  - rewrite wp_bind. unfold request_stop, set_state. rewrite wp_modify, wp_ret.
    apply (served_trans p false p1 true); [done|]. exists [Unhealthy]. split; [by split|].
    split; [by repeat constructor|]. split; [intros _; left | done].
Qed.

(** The loop, from a process that has done [l0] since [p]. *)
Lemma service_loop_spec rounds b p :
  wp (service_loop name_ rounds (if b : bool then 1 else 0))
    (fun res p' => exists b', served p b' p' /\ forall code, res = Some code -> code = if b || b' then 1 else 0)
    (fun _ p' => exists b', served p b' p') p.
Proof.
  revert b p. induction rounds as [|r rest IH]; intros b p; cbn [service_loop].
  - unfold read_stop. rewrite wp_bind, wp_gets, wp_ret. exists false. split; [by apply served_nil, after_refl|].
    rewrite orb_false_r. by destruct (stop_requested (pc_state p)); intros ? [= <-].
  - rewrite wp_bind. unfold set_state. rewrite wp_modify. set (p2 := mkProcess _ _ _ _).
    assert (Hp2 : after p [] p2) by (split; [done | cbn; by rewrite app_nil_r]).
    unfold read_stop. rewrite wp_bind, wp_gets. destruct (stop_requested (pc_state p2)).
    + rewrite wp_ret. exists false. split; [by apply served_nil|]. rewrite orb_false_r. by intros ? [= <-].
    + rewrite wp_bind. eapply wp_mono; [apply listen_spec | |]; cbv beta.
      2: { intros e p' Hp'. exists false. apply served_nil. by apply (after_trans p [] p2 []). }
      intros [] p3 Hp3. rewrite wp_bind. eapply wp_mono; [apply look_after_spec | |]; cbv beta.
      2: { intros e p' Hp'. exists false. by apply (served_trans p false p3 false); [apply served_nil, (after_trans p [] p2 [])|]. }
      intros b4 p4 Hp4.
      assert (Hsv : served p b4 p4) by (apply (served_trans p false p3 b4); [by apply served_nil, (after_trans p [] p2 []) | done]).
      replace (if b4 then 1 else if b then 1 else 0) with (if b || b4 then 1 else 0) by (by destruct b, b4).
      eapply wp_mono; [apply IH | |]; cbv beta.
      * intros res p5 (b5 & Hb5 & Hcode). exists (b4 || b5). split; [by eapply served_trans|].
        intros code Hc. rewrite (Hcode code Hc). by rewrite orb_assoc.
      * intros e p5 (b5 & Hb5). exists (b4 || b5). by eapply served_trans.
Qed.

Definition failure_log (e : exn) : deed :=
  Logged critical
    (match e with
     | Error e => name_ +:+ " failed: " +:+ err_message e
     | StdException what => name_ +:+ " failed: " +:+ what
     | UnknownException => name_ +:+ " failed with an unknown exception"
     end) "service_failed".

Definition ready (h : ServiceHealth) : list deed :=
  [Notified ("READY=1" +:+ newline +:+ "STATUS=" +:+ summary h); Logged notice (name_ +:+ " is ready") "service_ready"].

Definition stopping : deed := Notified ("STOPPING=1" +:+ newline +:+ "STATUS=" +:+ name_ +:+ " is stopping").

Definition stopped : deed := Logged notice (name_ +:+ " stopped") "service_stopped".

(** The deeds of a started process before it leaves, and its exit code. *)
Inductive service_life : list deed -> Z -> Prop :=
  | life_no_health e : service_life [failure_log e] 1
  | life_served h l b : Forall serving l -> (b = true <-> Unhealthy ∈ l) -> service_life (ready h ++ l) (if b : bool then 1 else 0)
  | life_broken h l e : Forall serving l -> service_life (ready h ++ l ++ [failure_log e]) 1.

(** The process after the [try] block. *)
Lemma try_spec rounds p :
  pc_started p = false ->
  wp (try_catch (_ ← begin_service name_; service_loop name_ rounds 0) (failed_with name_))
    (fun res p' =>
       match snd (on_start (pc_state p)) with
       | Throw e => res = Some 1 /\ pc_started p' = false /\ pc_deeds p' = pc_deeds p ++ [failure_log e]
       | Return _ => pc_started p' = true /\ exists l, pc_deeds p' = pc_deeds p ++ Started :: l /\
           forall code, res = Some code -> service_life l code
       end)
    (fun _ _ => False) p.
Proof.
  intros Hp. rewrite wp_try, wp_bind. unfold begin_service. rewrite wp_bind. unfold run_hook, wp at 1.
  destruct (on_start (pc_state p)) as [s [u|e]]; cbn [snd]; [|done].
  rewrite wp_bind. unfold set_started. rewrite wp_modify. rewrite wp_bind. apply wp_deed. cbn.
  rewrite wp_bind. unfold read_health, wp at 1. cbn. destruct (health s) as [h|e].
  2: { split; [done|]. exists [failure_log e]. split; [cbn; by rewrite <- app_assoc | intros ? [= <-]; constructor]. }
  rewrite wp_bind. apply wp_deed, wp_deed. set (p1 := mkProcess _ _ _ _).
  eapply wp_mono; [apply (service_loop_spec rounds false p1) | |]; cbv beta; cbn [orb].
  - intros res p2 (b & (l & [Hst Hd] & Hl & Hb) & Hcode).
    split; [exact Hst|]. exists (ready h ++ l). split; [rewrite Hd; cbn; by rewrite <- !app_assoc|].
    intros code Hc. rewrite (Hcode code Hc). by constructor.
  - intros e p2 (b & l & [Hst Hd] & Hl & Hb). unfold failed_with. rewrite wp_bind. apply wp_deed.
    split; [exact Hst|]. exists (ready h ++ l ++ [failure_log e]).
    split; [cbn; rewrite Hd; cbn; by rewrite <- !app_assoc|]. intros ? [= <-]. by constructor.
Qed.

(** C26: The orderly life of a process: [execute] throws nothing. When it returns,
    a process whose [on_start] failed has logged the failure and exits with 1,
    and [on_stop] was not called; one that started announced itself ready before
    anything else, served, said that it is stopping, called [on_stop] exactly
    once, as its last act, and exits with 0 exactly when no health check and no
    step failed. *)
Theorem execute_orderly rounds p :
  pc_deeds p = [] ->
  let '(p', r) := execute name_ true rounds p in
  exists result, r = Return result /\
  forall code, result = Some code ->
  match snd (on_start (pc_state p)) with
  | Throw e => code = 1 /\ pc_deeds p' = [failure_log e; stopping; stopped]
  | Return _ => exists l, pc_deeds p' = Started :: l ++ [stopping; Stopped; stopped] /\ service_life l code
  end.
Proof.
  intros Hp. cut (wp (execute name_ true rounds) (fun result p' => forall code, result = Some code ->
    match snd (on_start (pc_state p)) with
    | Throw e => code = 1 /\ pc_deeds p' = [failure_log e; stopping; stopped]
    | Return _ => exists l, pc_deeds p' = Started :: l ++ [stopping; Stopped; stopped] /\ service_life l code
    end) (fun _ _ => False) p).
  { unfold wp. destruct (execute name_ true rounds p) as [p' [result|e]]; [eauto | done]. }
  unfold execute. cbn [negb]. rewrite wp_bind. unfold set_started. rewrite wp_modify, wp_bind.
  eapply wp_mono; [by apply try_spec | | done]. cbv beta. cbn [pc_state pc_deeds]. rewrite Hp.
  intros [code|] p' Hres; [|done].
  rewrite wp_bind. unfold finish, stop_hook. rewrite wp_bind. apply wp_deed. rewrite wp_bind, wp_bind, wp_gets. cbn [pc_started].
  destruct (snd (on_start (pc_state p))) as [u|e].
  - destruct Hres as (Hst & l & Hd & Hl). rewrite Hst. unfold call_on_stop, wp at 1. cbn [pc_state].
    destruct (on_stop (pc_state p')) as [s [|]]; cbn [when].
    + rewrite wp_bind. apply wp_deed. rewrite !wp_ret. intros ? [= <-]. exists l. split; [|auto].
      cbn. rewrite Hd. cbn. by rewrite <- !app_assoc.
    + rewrite wp_bind, !wp_ret. done.
  - destruct Hres as ([= <-] & Hst & Hd). rewrite Hst, wp_ret. cbn [when]. rewrite wp_bind. apply wp_deed. rewrite !wp_ret.
    intros ? [= <-]. split; [done|]. cbn. by rewrite Hd.
Qed.

(** A function that does not take a request to stop back. *)
Definition keeps_stop (f : S -> S) : Prop := forall s, stop_requested s = true -> stop_requested (f s) = true.

Lemma listen_stop r p :
  (forall s : S, stop_requested (set_stop_requested s) = true) -> keeps_stop (rd_during r) ->
  stop_requested (pc_state p) = true \/ asked_during r = true ->
  wp (listen r) (fun _ p' => stop_requested (pc_state p') = true) (fun _ _ => True) p.
Proof.
  intros Hset Hk. unfold listen, asked_during, wp, mbind, eff_bind, set_state, modify, when, request_stop, set_state, modify, request_reload, throw.
  destruct r as [rb rdu [] []]; cbn in *; intros [Hp|Ha]; auto; done.
Qed.

Lemma look_after_stop p :
  (forall s : S, stop_requested (set_stop_requested s) = true) -> keeps_stop (fun s => fst (on_reload s)) ->
  stop_requested (pc_state p) = true ->
  wp (look_after name_) (fun _ p' => stop_requested (pc_state p') = true) (fun _ _ => True) p.
Proof.
  intros Hset Hk Hp. unfold look_after. rewrite wp_bind. unfold take_reload, wp at 1. rewrite wp_bind.
  eapply wp_mono with (Q := fun _ p' => stop_requested (pc_state p') = true) (E := fun _ _ => True); [|intros [] p1 Hp1|done].
  - destruct (reload_requested_ p); cbn [when]; [|done]. rewrite wp_bind. unfold run_hook, wp at 1. cbn [pc_state].
    specialize (Hk _ Hp). cbv beta in Hk. by destruct (on_reload (pc_state p)) as [s [u|e]].
  - rewrite wp_bind. unfold read_health, wp at 1. destruct (health (pc_state p1)) as [h|e]; [|done].
    destruct (healthy h); cbn [negb]; rewrite wp_bind; apply wp_deed; [done|].
    rewrite wp_bind. unfold request_stop, set_state. rewrite wp_modify, wp_ret. apply Hset.
Qed.

Lemma service_loop_stops rounds code p :
  (forall s : S, stop_requested (set_stop_requested s) = true) -> keeps_stop (fun s => fst (on_reload s)) ->
  Forall (fun r => keeps_stop (rd_before r) /\ keeps_stop (rd_during r)) rounds ->
  stop_requested (pc_state p) = true \/ existsb asked_during rounds = true ->
  wp (service_loop name_ rounds code) (fun res _ => res <> None) (fun _ _ => True) p.
Proof.
  intros Hset Hre Hr. revert code p. induction Hr as [|r rest [Hb Hd] _ IH]; intros code p Hp; cbn [service_loop existsb] in *.
  - unfold read_stop. rewrite wp_bind, wp_gets, wp_ret. destruct Hp as [->|]; done.
  - rewrite wp_bind. unfold set_state. rewrite wp_modify. set (p2 := mkProcess _ _ _ _). unfold read_stop. rewrite wp_bind, wp_gets.
    destruct (stop_requested (pc_state p2)) eqn:E2; [by rewrite wp_ret|].
    destruct Hp as [Hp|Hp]; [pose proof (Hb _ Hp) as Hp2; unfold p2 in E2; cbn in E2; congruence|].
    apply orb_true_iff in Hp as [Hp|Hp].
    + rewrite wp_bind. eapply wp_mono; [by apply listen_stop; [| |right] | | done]. cbv beta. intros [] p3 Hp3.
      rewrite wp_bind. eapply wp_mono; [by apply look_after_stop | | done]. cbv beta. intros b p4 Hp4. apply IH. by left.
    + rewrite wp_bind. eapply wp_mono; [apply listen_spec | | done]. cbv beta. intros [] p3 _.
      rewrite wp_bind. eapply wp_mono; [apply look_after_spec | | done]. cbv beta. intros b p4 _. apply IH. by right.
Qed.

(** A process that is asked to stop stops: once [SIGINT] or [SIGTERM] arrived in
    some round, [execute] returns an exit code, provided that no thread takes the
    request back and that [on_stop] returns. *)
Theorem execute_stops rounds p :
  (forall s : S, stop_requested (set_stop_requested s) = true) -> keeps_stop (fun s => fst (on_reload s)) ->
  Forall (fun r => keeps_stop (rd_before r) /\ keeps_stop (rd_during r)) rounds ->
  (forall s, snd (on_stop s) = true) -> existsb asked_during rounds = true ->
  exists code, snd (execute name_ true rounds p) = Return (Some code).
Proof.
  intros Hset Hre Hr Hstop Ha. cut (wp (execute name_ true rounds) (fun result _ => result <> None) (fun _ _ => False) p).
  { unfold wp. destruct (execute name_ true rounds p) as [p' [[code|]|e]]; [eauto | done | done]. }
  unfold execute. cbn [negb]. rewrite wp_bind. unfold set_started. rewrite wp_modify, wp_bind.
  eapply wp_mono with (Q := fun res _ => res <> None) (E := fun _ _ => False); [|intros [code|] p'; [|done]|done].
  - rewrite wp_try, wp_bind. eapply wp_mono; [apply wp_trivial | |]; cbv beta; [|done]. intros [] p1 _.
    eapply wp_mono; [by apply service_loop_stops; [| | |right] | done | done].
  - intros _. rewrite wp_bind. eapply wp_mono with (Q := fun returned _ => returned = true) (E := fun _ _ => False); [| |done].
    2:{ by intros [] p2 H2; [rewrite wp_ret|]. }
    unfold finish, stop_hook. rewrite wp_bind. apply wp_deed. rewrite wp_bind, wp_bind, wp_gets.
    eapply wp_mono with (Q := fun returned _ => returned = true) (E := fun _ _ => False); [| |done].
    + destruct (pc_started _); [|by rewrite wp_ret]. unfold call_on_stop, wp. cbn [pc_state]. specialize (Hstop (pc_state p')).
      destruct (on_stop (pc_state p')) as [s returned]. exact Hstop.
    + intros [] p2 H2; [|done]. cbn [when]. rewrite wp_bind. apply wp_deed. by rewrite wp_ret.
Qed.

End guarantees.

(** ** A sample service: it fails in the third round *)

Record Counter := mkCounter { ct_stop : bool; ct_count : Z }.

#[export] Instance Counter_hooks : Hooks Counter := {|
  stop_requested := ct_stop;
  set_stop_requested c := mkCounter true (ct_count c);
  on_start c := (c, Return tt);
  on_reload c := (mkCounter (ct_stop c) 0, Return tt);
  on_stop c := (mkCounter (ct_stop c) (-1), true);
  health c := Return (mkServiceHealth (ct_count c <? 3) "counting")
|}.

Definition count_round (signal : Signal) : Round Counter :=
  mkRound id (fun c => mkCounter (ct_stop c) (ct_count c + 1)) false signal.

Definition fresh_process : Process Counter := mkProcess (mkCounter false 0) false false [].

Lemma execute_orderly_witness :
  let '(p', r) := execute "counter" true (map count_round [NoSignal; NoSignal; NoSignal; NoSignal]) fresh_process in
  r = Return (Some 1) /\ pc_state p' = mkCounter true (-1) /\
  exists l, pc_deeds p' = Started :: l ++ [stopping "counter"; Stopped; stopped "counter"] /\ service_life "counter" l 1.
Proof.
  pose proof (execute_orderly "counter" (map count_round [NoSignal; NoSignal; NoSignal; NoSignal]) fresh_process eq_refl) as H.
  destruct (execute "counter" true (map count_round [NoSignal; NoSignal; NoSignal; NoSignal]) fresh_process) as [p' r] eqn:Hx.
  destruct H as (result & Hr & H). vm_compute in Hx. injection Hx as Hp Hres. subst p'. rewrite Hr in Hres. injection Hres as <-.
  split; [exact Hr|]. split; [reflexivity|]. exact (H 1 eq_refl).
Defined.

Lemma execute_stops_witness :
  exists code, snd (execute "counter" true (map count_round [NoSignal; SIGHUP; SIGTERM]) fresh_process) = Return (Some code).
Proof.
  apply execute_stops; [done | by intros c | | done | reflexivity].
  repeat (constructor; [split; by intros c|]). constructor.
Defined.
