(* ===== verification/Clock.v ===== *)
(** * Clock sources (daemon/ptp.cpp and daemon/clock_config.cpp)

    Which network interfaces may carry PTP, which units run for a choice of
    synchronisation, and the files that tell the other services about it. The
    kernel's interfaces, their links and their time stamping are parameters. *)

From stdpp Require Import sorting.
From S2P Require Import Prelude SystemTypes Validation Effects Host Backend.

(** ** PTP interfaces *)

Record TimestampCapabilities := mkTimestampCapabilities { tc_phc_index : Z; tc_hardware : bool }.

Definition no_capabilities : TimestampCapabilities := mkTimestampCapabilities (-1) false.

(** [SOF_TIMESTAMPING_TX_HARDWARE | ..._RX_HARDWARE | ..._RAW_HARDWARE]. *)
Definition required : Z := Z.lor (Z.lor 1 4) 64.

(** What [ETHTOOL_GET_TS_INFO] tells of an interface; [None] when the socket
    cannot be opened or the request fails. *)
Record ethtool_ts_info := mkTsInfo { ti_phc_index : Z; ti_so_timestamping : Z }.

Definition timestampCapabilities (ioctl : string -> option ethtool_ts_info) (name : string) : TimestampCapabilities :=
  if negb (validInterfaceName name) then no_capabilities
  else
    match ioctl name with
    | None => no_capabilities
    | Some info =>
        mkTimestampCapabilities (ti_phc_index info)
          ((0 <=? ti_phc_index info) && (Z.land (ti_so_timestamping info) required =? required))
    end.

(** An entry of /sys/class/net: its name, the number in its file [carrier] (0
    when there is none), and the file name of its device tree node. *)
Record net_entry := mkNetEntry { ne_name : string; ne_carrier : Z; ne_of_node : option string }.

Definition find_policy (profile : Profile) (name : string) : option InterfacePolicy :=
  List.find (fun p => ip_name p ==? name) (pf_interfaces profile).

Definition managed (profile : Profile) (e : net_entry) : bool :=
  match find_policy profile (ne_name e) with
  | None => false
  | Some policy =>
      empty (ip_device_tree_node policy) ||
      match ne_of_node e with Some node => node ==? ip_device_tree_node policy | None => false end
  end.

Definition ptp_interface (profile : Profile) (query : string -> TimestampCapabilities) (e : net_entry) : PtpInterface :=
  let capabilities := query (ne_name e) in
  let '(selectable, reason) :=
    if negb (managed profile e) then (false, "Interface is not managed by this product")
    else if bool_decide (pf_ptp_unit_templates profile = []) then (false, "PTP is unavailable on this product")
    else if negb (tc_hardware capabilities) then (false, "Hardware PTP timestamps are unavailable")
    else (true, "") in
  mkPtpInterface (ne_name e) (ne_carrier e =? 1) (tc_hardware capabilities) (tc_phc_index capabilities) selectable reason.

Definition listed_entry (e : net_entry) : bool := validInterfaceName (ne_name e) && (ne_name e <>? "lo").

Definition name_le (a b : PtpInterface) : Prop := String.leb (pi_interface a) (pi_interface b) = true.

#[export] Instance name_le_dec : RelDecision name_le.
Proof. intros a b. unfold name_le. apply _. Defined.

Definition discoverPtpInterfaces (profile : Profile) (entries : list net_entry) (query : string -> TimestampCapabilities) :
    list PtpInterface :=
  merge_sort name_le (map (ptp_interface profile query) (List.filter listed_entry entries)).

Definition find_ptp (interfaces : list PtpInterface) (name : string) : option PtpInterface :=
  List.find (fun i => pi_interface i ==? name) interfaces.

Definition validatePtpSelection (time : TimePreferences) (interfaces : list PtpInterface) : outcome unit :=
  if tp_synchronization time <>? "ptp" then Return tt
  else
    match find_ptp interfaces (tp_ptp_interface time) with
    | None => throw_error invalid_argument "Selected PTP interface is unavailable"
    | Some found => if negb (pi_selectable found) then throw_error invalid_argument (pi_reason found) else Return tt
    end.

(** ** Units *)

Record ClockUnits := mkClockUnits { cu_stop : list string; cu_start : list string }.

(** systemd's escaping of an instance name. *)
Fixpoint escaped (name : string) : string :=
  match name with
  | EmptyString => ""
  | String c rest => (if c ==? "-"%char then "\x2d" else String c "") +:+ escaped rest
  end.

(** The lambda [instance]. *)
Definition instance (unit name : string) : outcome string :=
  if negb (validInterfaceName name) || negb (ends_with "@.service" unit)
  then throw_error invalid_argument "Invalid PTP unit template or interface"
  else Return (str_take (String.length unit - 8) unit +:+ escaped name +:+ ".service").

(** [for (const auto &unit : templates) selected.push_back(instance(unit, name));] *)
Fixpoint instances (templates : list string) (name : string) : outcome (list string) :=
  match templates with
  | [] => Return []
  | unit :: rest => u ← instance unit name; us ← instances rest name; Return (u :: us)
  end.

Definition selected_units (profile : Profile) (time : TimePreferences) : outcome (list string) :=
  irig ←
    (if tp_synchronization time ==? "irig" then
       if bool_decide (pf_irig_units profile = []) then throw_error unsupported "IRIG source profile is unavailable"
       else Return (pf_irig_units profile)
     else Return []);
  if tp_synchronization time ==? "ptp" then
    if negb (existsb (fun p => ip_name p ==? tp_ptp_interface time) (pf_interfaces profile)) ||
       bool_decide (pf_ptp_unit_templates profile = [])
    then throw_error invalid_argument "Selected PTP interface is not supported"
    else ptp ← instances (pf_ptp_unit_templates profile) (tp_ptp_interface time); Return (irig ++ ptp)
  else Return irig.

(** [if (find(all, name) == end) all.push_back(name)], for a list of names. *)
Definition add_new (all names : list string) : list string :=
  fold_left (fun all name => if bool_decide (name ∈ all) then all else all ++ [name]) names all.

Fixpoint all_instances (templates : list string) (ports : list InterfacePolicy) (all : list string) : outcome (list string) :=
  match ports with
  | [] => Return all
  | port :: rest => names ← instances templates (ip_name port); all_instances templates rest (add_new all names)
  end.

Definition clockUnits (profile : Profile) (time : TimePreferences) : outcome ClockUnits :=
  selected ← selected_units profile time;
  all ← all_instances (pf_ptp_unit_templates profile) (pf_interfaces profile) (pf_ptp_units profile);
  let all := all ++ pf_irig_units profile in
  let stop := List.filter (fun u => negb (bool_decide (u ∈ selected))) (rev all) in
  if tp_synchronization time <>? "ntp" then Return (mkClockUnits (stop ++ rev (pf_ntp_units profile)) selected)
  else Return (mkClockUnits stop (pf_ntp_units profile)).

(** ** The units of a choice *)

Lemma instances_spec templates name us u :
  instances templates name = Return us -> (u ∈ us <-> exists t, t ∈ templates /\ instance t name = Return u).
Proof.
  revert us. induction templates as [|t rest IH]; intros us; cbn [instances].
  { intros [= <-]. split; [by intros ?%elem_of_nil | intros (t & Ht & _); by apply elem_of_nil in Ht]. }
  destruct (instance t name) as [v|e] eqn:Ei; [|done]. cbn [mbind outcome_bind].
  destruct (instances rest name) as [vs|e] eqn:Es; [|done]. intros [= <-].
  rewrite elem_of_cons, (IH vs eq_refl). split.
  - intros [->|(t' & Ht' & Hi)]; [exists t; split; [left | done] | exists t'; split; [by right | done]].
  - intros (t' & [->|Ht']%elem_of_cons & Hi); [left; congruence | right; eauto].
Qed.

Lemma instances_total templates name :
  validInterfaceName name = true -> Forall (fun t => ends_with "@.service" t = true) templates ->
  exists us, instances templates name = Return us.
Proof.
  intros Hn. induction 1 as [|t rest Ht _ [us IH]]; cbn [instances]; [by eexists|].
  unfold instance at 1. rewrite Hn, Ht. cbn [negb orb mbind outcome_bind]. rewrite IH. by eexists.
Qed.

Lemma elem_of_add_new all names u : u ∈ add_new all names <-> u ∈ all \/ u ∈ names.
Proof.
  unfold add_new. revert all. induction names as [|n names IH]; intros all; cbn [fold_left].
  { split; [by left | intros [|?%elem_of_nil]; done]. }
  rewrite IH, elem_of_cons. case_bool_decide; [naive_solver|]. rewrite elem_of_app, list_elem_of_singleton. naive_solver.
Qed.

Lemma all_instances_spec templates ports all res u :
  all_instances templates ports all = Return res ->
  (u ∈ res <-> u ∈ all \/ exists p t, p ∈ ports /\ t ∈ templates /\ instance t (ip_name p) = Return u).
Proof.
  revert all. induction ports as [|p ports IH]; intros all; cbn [all_instances].
  { intros [= <-]. split; [by left | intros [|(p & t & ?%elem_of_nil & _)]; done]. }
  destruct (instances templates (ip_name p)) as [names|e] eqn:Ei; [|done]. cbn [mbind outcome_bind].
  intros Hr. rewrite (IH _ Hr), elem_of_add_new, (instances_spec _ _ _ u Ei).
  setoid_rewrite elem_of_cons. naive_solver.
Qed.

Lemma all_instances_total templates ports all :
  Forall (fun t => ends_with "@.service" t = true) templates ->
  Forall (fun p => validInterfaceName (ip_name p) = true) ports ->
  exists res, all_instances templates ports all = Return res.
Proof.
  intros Ht Hp. revert all. induction Hp as [|p ports Hp _ IH]; intros all; cbn [all_instances]; [by eexists|].
  destruct (instances_total templates (ip_name p) Hp Ht) as [us ->]. apply IH.
Qed.

Lemma elem_of_rev {A} (l : list A) x : x ∈ rev l <-> x ∈ l.
Proof. by rewrite !list_elem_of_In, <- in_rev. Qed.

(** A unit that steers the clock from the network or from IRIG. *)
Definition servo_unit (profile : Profile) (u : string) : Prop :=
  u ∈ pf_ptp_units profile \/ u ∈ pf_irig_units profile \/
  exists p t, p ∈ pf_interfaces profile /\ t ∈ pf_ptp_unit_templates profile /\ instance t (ip_name p) = Return u.

(** The units that a choice of synchronisation asks for. *)
Definition wanted (profile : Profile) (time : TimePreferences) (u : string) : Prop :=
  tp_synchronization time = "ntp" /\ u ∈ pf_ntp_units profile \/
  tp_synchronization time = "irig" /\ u ∈ pf_irig_units profile \/
  tp_synchronization time = "ptp" /\
    exists t, t ∈ pf_ptp_unit_templates profile /\ instance t (tp_ptp_interface time) = Return u.

Lemma selected_units_spec profile time sel :
  selected_units profile time = Return sel ->
  (forall u, u ∈ sel <-> tp_synchronization time = "irig" /\ u ∈ pf_irig_units profile \/
     tp_synchronization time = "ptp" /\
       exists t, t ∈ pf_ptp_unit_templates profile /\ instance t (tp_ptp_interface time) = Return u) /\
  forall u, u ∈ sel -> servo_unit profile u.
Proof.
  unfold selected_units. destruct (bool_decide_reflect (tp_synchronization time = "irig")) as [Hi|Hi].
  - rewrite Hi. destruct (bool_decide_reflect (pf_irig_units profile = [])); [done|]. cbn [mbind outcome_bind].
    rewrite bool_decide_eq_false_2 by discriminate. intros [= <-]. split; [|intros u Hu; by right; left].
    intros u. split; [by left|]. by intros [[_ ?]|[? _]].
  - cbn [mbind outcome_bind]. destruct (bool_decide_reflect (tp_synchronization time = "ptp")) as [Hp|Hp].
    + destruct (existsb _ _) eqn:He; cbn [negb orb]; [|done].
      destruct (bool_decide_reflect (pf_ptp_unit_templates profile = [])); [done|].
      destruct (instances _ _) as [us|e] eqn:Eu; [|done]. intros [= <-]. cbn [app]. split.
      * intros u. rewrite (instances_spec _ _ _ u Eu). naive_solver.
      * intros u Hu. right; right. apply (instances_spec _ _ _ u Eu) in Hu as (t & Ht & Hi').
        apply existsb_exists in He as (p & Hin & Hn%bool_decide_eq_true). exists p, t. rewrite Hn.
        split; [by apply list_elem_of_In | done].
    + intros [= <-]. split; [|by intros u ?%elem_of_nil]. intros u. split; [by intros ?%elem_of_nil | naive_solver].
Qed.

(** The product has what the choice needs. *)
Definition supported (profile : Profile) (time : TimePreferences) : Prop :=
  (tp_synchronization time = "irig" -> pf_irig_units profile <> []) /\
  (tp_synchronization time = "ptp" -> pf_ptp_unit_templates profile <> [] /\
     exists p, p ∈ pf_interfaces profile /\ ip_name p = tp_ptp_interface time).

(** The ports have interface names and the templates are systemd templates. *)
Definition units_ok (profile : Profile) : Prop :=
  Forall (fun p => validInterfaceName (ip_name p) = true) (pf_interfaces profile) /\
  Forall (fun t => ends_with "@.service" t = true) (pf_ptp_unit_templates profile).

Lemma selected_units_total profile time :
  units_ok profile -> supported profile time -> exists sel, selected_units profile time = Return sel.
Proof.
  intros [Hports Htemplates] [Hirig Hptp]. unfold selected_units.
  destruct (bool_decide_reflect (tp_synchronization time = "irig")) as [Hi|Hi].
  - rewrite (bool_decide_eq_false_2 (pf_irig_units profile = [])) by auto. cbn [mbind outcome_bind].
    rewrite (bool_decide_eq_false_2 (tp_synchronization time = _)) by congruence. by eexists.
  - cbn [mbind outcome_bind]. destruct (bool_decide_reflect (tp_synchronization time = "ptp")) as [Hp|Hp]; [|by eexists].
    destruct (Hptp Hp) as (Hne & p & Hin & Hname).
    assert (He : existsb (fun p => ip_name p ==? tp_ptp_interface time) (pf_interfaces profile) = true).
    { apply existsb_exists. exists p. split; [by apply list_elem_of_In | by apply bool_decide_eq_true]. }
    rewrite He, (bool_decide_eq_false_2 (pf_ptp_unit_templates profile = [])) by exact Hne. cbn [negb orb].
    rewrite Forall_forall in Hports.
    destruct (instances_total (pf_ptp_unit_templates profile) (tp_ptp_interface time)) as [us ->];
      [rewrite <- Hname; by apply Hports | done | by eexists].
Qed.

Lemma clockUnits_total profile time :
  units_ok profile -> supported profile time -> exists r, clockUnits profile time = Return r.
Proof.
  intros Hok Hs. unfold clockUnits. destruct (selected_units_total profile time Hok Hs) as [sel ->]. cbn [mbind outcome_bind].
  destruct (all_instances_total (pf_ptp_unit_templates profile) (pf_interfaces profile) (pf_ptp_units profile)) as [all ->];
    [apply Hok | apply Hok|]. cbn [mbind outcome_bind]. destruct (tp_synchronization time <>? "ntp"); by eexists.
Qed.

Lemma clockUnits_split profile time r :
  tp_synchronization time ∈ ["ntp"; "ptp"; "irig"] ->
  (forall u, u ∈ pf_ntp_units profile -> ~ servo_unit profile u) ->
  clockUnits profile time = Return r ->
  forall u,
    (u ∈ cu_start r <-> wanted profile time u) /\
    (u ∈ cu_stop r <-> (servo_unit profile u \/ u ∈ pf_ntp_units profile) /\ ~ wanted profile time u).
Proof.
  intros Hmode Hntp. unfold clockUnits. destruct (selected_units profile time) as [sel|e] eqn:Es; [|done].
  cbn [mbind outcome_bind]. destruct (selected_units_spec _ _ _ Es) as [Hsel Hservo].
  destruct (all_instances _ _ _) as [all|e] eqn:Ea; [|done].
  assert (Hstop : forall u, u ∈ List.filter (fun u => negb (bool_decide (u ∈ sel))) (rev (all ++ pf_irig_units profile)) <->
    servo_unit profile u /\ u ∉ sel).
  { intros u. rewrite list_elem_of_In, filter_In, <- list_elem_of_In, negb_true_iff, bool_decide_eq_false.
    rewrite elem_of_rev, elem_of_app, (all_instances_spec _ _ _ _ u Ea). unfold servo_unit. tauto. }
  intros Hr u. specialize (Hsel u). specialize (Hstop u). specialize (Hntp u). specialize (Hservo u). unfold wanted.
  destruct (bool_decide_reflect (tp_synchronization time = "ntp")) as [Hn|Hn]; cbn [negb] in Hr; injection Hr as <-;
    cbn [cu_start cu_stop].
  - rewrite Hstop, Hsel, Hn. naive_solver.
  - rewrite elem_of_app, Hstop, elem_of_rev. rewrite Hsel in *. tauto.
Qed.

(** One clock source at a time: for a choice that the product supports, when
    the NTP services are not among the other units, [clockUnits] returns and splits
    the clock units of the product into those to start, exactly the ones that the
    chosen source asks for, and those to stop, all the others. *)
Theorem clockUnits_exclusive profile time :
  units_ok profile -> supported profile time -> tp_synchronization time ∈ ["ntp"; "ptp"; "irig"] ->
  (forall u, u ∈ pf_ntp_units profile -> ~ servo_unit profile u) ->
  exists r, clockUnits profile time = Return r /\
  forall u,
    (u ∈ cu_start r <-> wanted profile time u) /\
    (u ∈ cu_stop r <-> (servo_unit profile u \/ u ∈ pf_ntp_units profile) /\ ~ wanted profile time u).
Proof.
  intros Hok Hs Hmode Hntp. destruct (clockUnits_total profile time Hok Hs) as [r Hr]. exists r. split; [done|].
  by apply clockUnits_split.
Qed.

(** ** The selection *)

Lemma find_ptp_some interfaces name i :
  NoDup (map pi_interface interfaces) -> (find_ptp interfaces name = Some i <-> i ∈ interfaces /\ pi_interface i = name).
Proof.
  unfold find_ptp. induction interfaces as [|j rest IH]; cbn; intros Hd.
  { split; [done | by intros [?%elem_of_nil _]]. }
  apply NoDup_cons in Hd as [Hj Hd]. rewrite elem_of_cons. case_bool_decide as Hn.
  - split; [intros [= <-]; auto|]. intros [[->|Hi] Hin]; [done|]. exfalso. apply Hj. rewrite Hn, <- Hin.
    by apply list_elem_of_fmap_2.
  - rewrite IH by done. split; [tauto|]. intros [[->|Hi] Hin]; done.
Qed.

Lemma discover_elem profile entries query i :
  i ∈ discoverPtpInterfaces profile entries query <->
  exists e, e ∈ entries /\ listed_entry e = true /\ i = ptp_interface profile query e.
Proof.
  unfold discoverPtpInterfaces. rewrite (merge_sort_Permutation name_le). setoid_rewrite list_elem_of_fmap. split.
  - intros (e & -> & He). apply list_elem_of_In, filter_In in He as [He Hl]. exists e. by rewrite list_elem_of_In.
  - intros (e & He & Hl & ->). exists e. split; [done|]. apply list_elem_of_In, filter_In. by rewrite <- list_elem_of_In.
Qed.

Lemma ptp_interface_name profile query e : pi_interface (ptp_interface profile query e) = ne_name e.
Proof. unfold ptp_interface. by repeat case_match. Qed.

Lemma discover_names profile entries query :
  NoDup (map ne_name entries) -> NoDup (map pi_interface (discoverPtpInterfaces profile entries query)).
Proof.
  intros Hd. unfold discoverPtpInterfaces. rewrite (merge_sort_Permutation name_le), map_map.
  rewrite (map_ext _ ne_name (ptp_interface_name profile query)). by apply NoDup_map_filter.
Qed.

(** An entry that may carry PTP. *)
Definition carries_ptp (profile : Profile) (query : string -> TimestampCapabilities) (e : net_entry) : Prop :=
  listed_entry e = true /\ managed profile e = true /\ pf_ptp_unit_templates profile <> [] /\
  tc_hardware (query (ne_name e)) = true.

Lemma ptp_interface_selectable profile query e :
  pi_selectable (ptp_interface profile query e) = true <->
  managed profile e = true /\ pf_ptp_unit_templates profile <> [] /\ tc_hardware (query (ne_name e)) = true.
Proof.
  unfold ptp_interface. destruct (managed profile e), (bool_decide_reflect (pf_ptp_unit_templates profile = [])),
    (tc_hardware (query (ne_name e))); cbn; naive_solver.
Qed.

(** A PTP choice is accepted exactly when the chosen interface exists in the
    kernel, is managed by the product (and sits at the right place of the device
    tree), has hardware time stamps, and the product has PTP units; a choice of
    another source is always accepted. *)
Theorem ptp_selection_exact profile entries query time :
  NoDup (map ne_name entries) ->
  (validatePtpSelection time (discoverPtpInterfaces profile entries query) = Return tt <->
   tp_synchronization time <> "ptp" \/
   exists e, e ∈ entries /\ ne_name e = tp_ptp_interface time /\ carries_ptp profile query e).
Proof.
  intros Hd. unfold validatePtpSelection, carries_ptp.
  destruct (bool_decide_reflect (tp_synchronization time = "ptp")) as [Hs|Hs]; cbn [negb]; [|tauto].
  pose proof (fun i => find_ptp_some _ (tp_ptp_interface time) i (discover_names profile entries query Hd)) as Hf.
  destruct (find_ptp _ _) as [i|].
  - destruct (proj1 (Hf i) eq_refl) as [(e & He & Hl & ->)%discover_elem Hn]. rewrite ptp_interface_name in Hn.
    pose proof (ptp_interface_selectable profile query e) as Hsel.
    destruct (pi_selectable (ptp_interface profile query e)) eqn:E; cbn [negb].
    + split; [|done]. intros _. right. exists e. tauto.
    + split; [done|]. intros [|(e' & He' & Hn' & Hl' & Hc)]; [done|]. exfalso.
      specialize (Hf (ptp_interface profile query e')). rewrite ptp_interface_name in Hf.
      assert (Some (ptp_interface profile query e) = Some (ptp_interface profile query e')) as [= Heq].
      { apply Hf. split; [|done]. apply discover_elem. eauto. }
      apply ptp_interface_selectable in Hc. congruence.
  - split; [done|]. intros [|(e & He & Hn & Hl & _)]; [done|]. exfalso.
    specialize (Hf (ptp_interface profile query e)). rewrite ptp_interface_name in Hf.
    assert (None = Some (ptp_interface profile query e)); [|done]. apply Hf. split; [|done]. apply discover_elem. eauto.
Qed.

(** ** Files *)

Record ClockPolicyChanges := mkClockPolicyChanges { cp_servers : bool; cp_network : bool }.

Section files.
Context {H : Type} {HO : Host H}.
Abbreviation F := (eff H).

(** The missing directories above a file, innermost first; [fuel] bounds the
    number of components of the path. *)
Fixpoint missing_directories (fuel : nat) (directory : string) : F (list string) :=
  match fuel with
  | O => mret []
  | S fuel' =>
      e ← exists_ directory;
      if (e : bool) then mret []
      else rest ← missing_directories fuel' (parent_path directory); mret (directory :: rest)
  end.

(** Whether the file was written. *)
Definition readableWrite (path value : string) : F bool :=
  e ← exists_ path;
  same ← (if (e : bool) then c ← readFile path 1048576; mret (c ==? value) else mret false);
  if (same : bool) then mret false
  else
    missing ← missing_directories (String.length path) (parent_path path);
    _ ← create_directories (parent_path path);
    _ ← for_each permissions missing;
    _ ← permissions (parent_path path);
    _ ← atomicWrite path value;
    _ ← permissions path;
    mret true.

(** [fs::path(p).filename()]. *)
Definition filename (p : string) : string :=
  match last_slash p with Some n => str_drop (S n) p | None => p end.

Definition modes : list string := ["ntp"; "ptp"; "irig"].

Definition marker (runtime : string) (profile : Profile) (mode : string) : string :=
  path_append (path_append (path_append runtime (filename (pf_runtime_root profile))) "system") (mode +:+ "-disabled").

Definition nl : string := String (chr 10) "".

Definition timesync_config (servers : list string) : string :=
  "[Time]" +:+ nl +:+
  (if bool_decide (servers = []) then ""
   else "NTP=" +:+ nl +:+ "NTP=" +:+ fold_right (fun s rest => s +:+ " " +:+ rest) "" servers +:+ nl +:+ "FallbackNTP=" +:+ nl).

Definition explicit_servers : string :=
  "[Network]" +:+ nl +:+ "NTP=" +:+ nl +:+ "[DHCPv4]" +:+ nl +:+ "UseNTP=no" +:+ nl +:+ "[DHCPv6]" +:+ nl +:+ "UseNTP=no" +:+ nl.

Definition port_file (runtime name : string) : string :=
  path_append (path_append (path_append runtime "systemd/network") ("10-mnc-" +:+ name +:+ ".network.d")) "50-mnc-time.conf".

(** The loop over the ports; the result is [changes.network]. *)
Fixpoint write_ports (runtime : string) (time : TimePreferences) (ports : list InterfacePolicy) (changed : bool) : F bool :=
  match ports with
  | [] => mret changed
  | port :: rest =>
      if negb (validInterfaceName (ip_name port)) then throw_err invalid_argument "invalid policy interface"
      else
        let path := port_file runtime (ip_name port) in
        changed' ←
          (if negb (bool_decide (tp_ntp_servers time = [])) then
             w ← readableWrite path explicit_servers; mret (changed || w)
           else
             e ← exists_ path;
             if (e : bool) then _ ← durableRemove path; mret true else mret changed);
        write_ports runtime time rest changed'
  end.

Definition writeClockPolicy (profile : Profile) (time : TimePreferences) (runtime : string) : F ClockPolicyChanges :=
  _ ← lift (validate (mkConfiguration default_Preferences time));
  _ ← when ((tp_synchronization time ==? "irig") && bool_decide (pf_irig_units profile = []))
        (throw_err unsupported "IRIG source profile is unavailable");
  _ ← for_each (fun mode =>
        if tp_synchronization time ==? mode then durableRemove (marker runtime profile mode)
        else atomicWrite (marker runtime profile mode) ("disabled" +:+ nl)) modes;
  servers ← readableWrite (path_append runtime "systemd/timesyncd.conf.d/90-mnc-time.conf") (timesync_config (tp_ntp_servers time));
  network ← write_ports runtime time (pf_interfaces profile) false;
  mret (mkClockPolicyChanges servers network).

End files.

(** ** A sample product: PTP on two ports, and IRIG *)

Definition clock_profile : Profile :=
  mkProfile "settings" "control" "/s" "/product/active.json" "/run/mnc" "" ""
    [mkInterfacePolicy "end0" "ethernet@f1"; mkInterfacePolicy "end-1" ""] [] default_Configuration "sshd.socket" "sshd.service"
    ["systemd-timesyncd.service"] ["irig.service"] ["ptp4l.service"] ["ptp4l@.service"; "phc2sys@.service"] [] None.

Definition ptp_choice (name : string) : TimePreferences := mkTimePreferences "ptp" "UTC" name [].

Lemma clockUnits_exclusive_witness :
  clockUnits clock_profile (ptp_choice "end-1") =
    Return (mkClockUnits ["irig.service"; "phc2sys@end0.service"; "ptp4l@end0.service"; "ptp4l.service"; "systemd-timesyncd.service"]
      ["ptp4l@end\x2d1.service"; "phc2sys@end\x2d1.service"]) /\
  ~ wanted clock_profile (ptp_choice "end-1") "ptp4l@end0.service".
Proof.
  assert (Hc : clockUnits clock_profile (ptp_choice "end-1") =
    Return (mkClockUnits ["irig.service"; "phc2sys@end0.service"; "ptp4l@end0.service"; "ptp4l.service"; "systemd-timesyncd.service"]
      ["ptp4l@end\x2d1.service"; "phc2sys@end\x2d1.service"])) by (vm_compute; reflexivity).
  split; [exact Hc|].
  destruct (clockUnits_exclusive clock_profile (ptp_choice "end-1")) as (r & Hr & Hu).
  - split; repeat constructor.
  - split; [discriminate|]. intros _. split; [discriminate|]. eexists. split; [right; left | reflexivity].
  - right; left.
  - intros u Hu. cbn in Hu. apply list_elem_of_singleton in Hu as ->. intros [Hx|[Hx|(p & t & Hp & Ht & Hi)]].
    + cbn in Hx. by apply list_elem_of_singleton in Hx.
    + cbn in Hx. by apply list_elem_of_singleton in Hx.
    + cbn in Hp, Ht. set_unfold. destruct Hp as [->|[->|[]]], Ht as [->|[->|[]]]; vm_compute in Hi; discriminate.
  - rewrite Hc in Hr. injection Hr as <-. apply (Hu "ptp4l@end0.service"). do 2 right. left.
Defined.

Definition sample_entries : list net_entry :=
  [mkNetEntry "lo" 1 None; mkNetEntry "end0" 1 (Some "ethernet@f1"); mkNetEntry "end-1" 0 None].

Definition sample_query : string -> TimestampCapabilities :=
  timestampCapabilities (fun name => if name ==? "end0" then Some (mkTsInfo 0 69) else Some (mkTsInfo (-1) 0)).

Lemma ptp_selection_exact_witness :
  validatePtpSelection (ptp_choice "end0") (discoverPtpInterfaces clock_profile sample_entries sample_query) = Return tt /\
  validatePtpSelection (ptp_choice "end-1") (discoverPtpInterfaces clock_profile sample_entries sample_query) <> Return tt.
Proof.
  assert (Hd : NoDup (map ne_name sample_entries)) by (apply (bool_decide_unpack _); vm_compute; exact I).
  split; [|vm_compute; discriminate].
  apply (ptp_selection_exact clock_profile sample_entries sample_query (ptp_choice "end0") Hd). right.
  exists (mkNetEntry "end0" 1 (Some "ethernet@f1")). split; [right; left|]. split; [reflexivity|].
  split_and!; [vm_compute; reflexivity | vm_compute; reflexivity | discriminate | vm_compute; reflexivity].
Defined.
