(* ===== verification/Sysmon.v ===== *)
(** * The Xilinx system monitor (meta-xilinx-addon, mnc/xilinx/sysmon/sysmon.{hpp,cpp})

    A read-only reader of the voltage and temperature channels that the Linux
    driver of the AMS block exposes under /sys/bus/iio. It finds the devices by
    their driver and their device tree node, and reports every channel, with a
    value only when all the numbers it needs could be read. The tree of files is
    a parameter. *)

From Stdlib Require Import Floats.SpecFloat.
From stdpp Require Import sorting.
From S2P Require Import Prelude SystemTypes Host Clock Double.

Record Reading := mkReading {
  rd_id : string;
  rd_device : string;
  rd_source_channel : string;
  rd_label : string;
  rd_domain : string;
  rd_kind : string;
  rd_unit : string;
  rd_value : option double;
  rd_sampled_at_unix_ms : Z;
  rd_status : string;
  rd_error : string
}.

Record Snapshot := mkSnapshot {
  sn_status : string;
  sn_error : string;
  sn_sampled_at_unix_ms : Z;
  sn_readings : list Reading
}.

Record Selector := mkSelector { sl_compatible : string; sl_device_tree_node : string }.

(** What the code asks of the file system: the names in a directory, the bytes
    of a file, whether a name exists, the canonical path; [None] where the call
    fails. *)
Record Sysfs := mkSysfs {
  sf_list : string -> option (list string);
  sf_bytes : string -> option string;
  sf_exists : string -> option bool;
  sf_canonical : string -> option string
}.

(** [throw std::runtime_error(what)]. *)
Definition throw_std {A} (what : string) : outcome A := Throw (StdException what).

Definition id_order (a b : Reading) : Prop := name_order (rd_id a) (rd_id b).

#[export] Instance id_order_dec : RelDecision id_order.
Proof. intros a b. unfold id_order. apply _. Defined.

Section monitor.
Context (fs : Sysfs) (clock : nat -> Z).

(** ** Attributes *)

Definition blank_back (c : ascii) : bool := (c ==? chr 10) || (c ==? chr 13) || (c ==? " "%char).

(** [while (!value.empty() && ...) value.pop_back()]. *)
Fixpoint drop_blank_back (s : string) : string :=
  match s with
  | EmptyString => ""
  | String c rest =>
      match drop_blank_back rest with
      | EmptyString => if blank_back c then "" else String c ""
      | rest' => String c rest'
      end
  end.

Definition read (path : string) : outcome string :=
  match sf_bytes fs path with
  | None => throw_std "attribute unreadable"
  | Some bytes => if 4097 <=? size_of bytes then throw_std "attribute invalid or too large" else Return (drop_blank_back bytes)
  end.

Definition number (path : string) : outcome double :=
  text ← read path;
  match from_chars_double text with
  | Some (d, EmptyString) => if isfinite d then Return d else throw_std "invalid numeric attribute"
  | _ => throw_std "invalid numeric attribute"
  end.

Definition hasAttribute (path : string) : outcome bool :=
  match sf_exists fs path with Some found => Return found | None => throw_std "attribute inaccessible" end.

Definition attribute (device channel kind suffix : string) : outcome string :=
  let separate := path_append device (channel +:+ suffix) in
  found ← hasAttribute separate;
  Return (if (found : bool) then separate else path_append device ("in_" +:+ kind +:+ suffix)).

(** The loop of [compatible] over the texts between the zero bytes; every round
    shortens the text. *)
Fixpoint compatible_loop (fuel : nat) (values expected : string) : bool :=
  match fuel with
  | O => false
  | S fuel' =>
      if empty values then false
      else
        match cut (chr 0) values with
        | (v, None) => v ==? expected
        | (v, Some rest) => if v ==? expected then true else compatible_loop fuel' rest expected
        end
  end.

Definition compatible (node expected : string) : outcome bool :=
  values ← read (path_append node "compatible");
  Return (compatible_loop (S (String.length values)) values expected).

Definition domain (label : string) : string :=
  if starts_with "VCC_PS" label || starts_with "PS_" label || (label ==? "Temp_LPD") || (label ==? "Temp_FPD") then "PS"
  else if (label ==? "VCCINT") || (label ==? "VCCAUX") || (label ==? "VCCBRAM") || (label ==? "VCCAMS") || (label ==? "Temp_PL")
  then "PL" else "unknown".

(** One round of the loop of [channelKind]. *)
Definition is_channel (kind channel : string) : bool :=
  let prefix := "in_" +:+ kind in
  let index := str_drop (String.length prefix) channel in
  starts_with prefix channel && negb (empty index) && str_all is_digit index.

Definition channelKind (channel : string) : string :=
  if is_channel "voltage" channel then "voltage" else if is_channel "temp" channel then "temp" else "".

(** ** One device *)

(** [std::map::emplace]: sorted by name, the first one of a name stays. *)
Fixpoint emplace (k v : string) (l : list (string * string)) : list (string * string) :=
  match l with
  | [] => [(k, v)]
  | (k', v') :: rest =>
      if k ==? k' then l
      else if bool_decide (name_order k k') then (k, v) :: l
      else (k', v') :: emplace k v rest
  end.

Definition suffixes : list string := ["_raw"; "_input"; "_label"].

(** The loop over the suffixes, for one name of the directory. *)
Definition add_channel (channels : list (string * string)) (name : string) : list (string * string) :=
  fold_left (fun channels suffix =>
    if ends_with suffix name then
      let base := str_take (String.length name - String.length suffix) name in
      let kind := channelKind base in
      if empty kind then channels else emplace base kind channels
    else channels) suffixes channels.

Fixpoint find_channels (names : list string) (channels : list (string * string)) : outcome (list (string * string)) :=
  match names with
  | [] => Return channels
  | name :: rest =>
      let channels := add_channel channels name in
      if 256 <? Z.of_nat (length channels) then throw_std "too many AMS channels" else find_channels rest channels
  end.

(** The label, from the first part of the [try] block. *)
Definition channel_label (device channel : string) : outcome string :=
  let file := path_append device (channel +:+ "_label") in
  found ← hasAttribute file;
  if (found : bool) then value ← read file; Return (if empty value then channel else value) else Return channel.

(** The value, from the second part. *)
Definition channel_value (device channel kind : string) : outcome double :=
  let input := path_append device (channel +:+ "_input") in
  found ← hasAttribute input;
  value ←
    (if (found : bool) then number input
     else
       raw ← number (path_append device (channel +:+ "_raw"));
       scale_file ← attribute device channel kind "_scale";
       scale ← number scale_file;
       offset_file ← attribute device channel kind "_offset";
       has_offset ← hasAttribute offset_file;
       offset ← (if (has_offset : bool) then number offset_file else Return (of_int 0));
       if not_positive scale then throw_std "invalid channel scale" else Return (dmul (dadd raw offset) scale));
  let value := ddiv value (of_int 1000) in
  if isfinite value then Return value else throw_std "converted value overflow".

(** [error.what()]. *)
Definition what_of (e : exn) : string :=
  match e with StdException what => what | Error e => err_message e | UnknownException => "" end.

Definition sample_channel (device node_id : string) (now : Z) (c : string * string) : Reading :=
  let '(channel, kind) := c in
  let reading label domain value status error :=
    mkReading (node_id +:+ "/" +:+ channel) node_id channel label domain
      (if kind ==? "temp" then "temperature" else "voltage") (if kind ==? "temp" then "°C" else "V") value now status error in
  match channel_label device channel with
  | Throw e => reading channel "unknown" None "unavailable" (what_of e)
  | Return label =>
      match channel_value device channel kind with
      | Throw e => reading label (domain label) None "unavailable" (what_of e)
      | Return value => reading label (domain label) (Some value) "ok" ""
      end
  end.

(** [sampleDevice]: the readings that are added; the clock was asked once before
    and once for every reading so far. *)
Definition sampleDevice (readings : list Reading) (device node_id : string) : outcome (list Reading) :=
  match sf_list fs device with
  | None => throw_std "directory iterator cannot open directory"
  | Some names =>
      channels ← find_channels names [];
      Return (readings ++ imap (fun i => sample_channel device node_id (clock (S (length readings + i)))) channels)
  end.

(** ** The snapshot *)

(** The position of a text in another. *)
Fixpoint find_text (t s : string) : option nat :=
  if starts_with t s then Some O
  else match s with EmptyString => None | String _ s' => S <$> find_text t s' end.

Definition identity_of (canonical : string) : string :=
  match find_text "/base/" canonical with
  | None => filename canonical
  | Some base => str_drop (base + 6) canonical
  end.

(** The device tree identity of a device, unless it is to be skipped. *)
Definition selected_device (selector_ : Selector) (device : string) : outcome (option string) :=
  match read (path_append device "name") with
  | Throw _ => Return None
  | Return name =>
      if name <>? "xilinx-ams" then Return None
      else
        found ← hasAttribute (path_append device "of_node");
        let node := if (found : bool) then path_append device "of_node" else path_append device "device/of_node" in
        match_ ← compatible node (sl_compatible selector_);
        if negb match_ then Return None
        else
          match sf_canonical fs node with
          | None => throw_std "cannot make canonical path"
          | Some canonical =>
              if negb (empty (sl_device_tree_node selector_)) && (filename canonical <>? sl_device_tree_node selector_)
              then Return None else Return (Some (identity_of canonical))
          end
  end.

(** The loop over the devices: the readings, and whether it ended without an
    exception. *)
Fixpoint sample_devices (selector_ : Selector) (devices : list string) (readings : list Reading) : list Reading * bool :=
  match devices with
  | [] => (readings, true)
  | device :: rest =>
      match selected_device selector_ device with
      | Throw _ => (readings, false)
      | Return None => sample_devices selector_ rest readings
      | Return (Some node_id) =>
          match sampleDevice readings device node_id with
          | Throw _ => (readings, false)
          | Return readings' => sample_devices selector_ rest readings'
          end
      end
  end.

(** [devices], before sorting; [None] when there are too many. *)
Fixpoint find_devices (root_ : string) (names : list string) (devices : list string) : option (list string) :=
  match names with
  | [] => Some devices
  | name :: rest =>
      let devices := if starts_with "iio:device" name then devices ++ [path_append root_ name] else devices in
      if 64 <? Z.of_nat (length devices) then None else find_devices root_ rest devices
  end.

Definition has_value (r : Reading) : bool := match rd_value r with Some _ => true | None => false end.

Definition failed_snapshot (readings : list Reading) : Snapshot :=
  mkSnapshot (if bool_decide (readings = []) then "unavailable" else "partial") "AMS discovery or channel enumeration failed"
    (clock 0) readings.

Definition readSnapshot (selector_ : Selector) (root_ : string) : Snapshot :=
  if sl_compatible selector_ <>? "xlnx,zynqmp-ams"
  then mkSnapshot "unsupported" "unsupported SYSMON compatible" (clock 0) []
  else
    match names ← sf_list fs root_; find_devices root_ names [] with
    | None => failed_snapshot []
    | Some devices =>
        match sample_devices selector_ (merge_sort name_order devices) [] with
        | (readings, false) => failed_snapshot readings
        | (readings, true) =>
            let readings := merge_sort id_order readings in
            if bool_decide (readings = [])
            then mkSnapshot "unavailable" "no matching AMS channels exposed" (clock 0) []
            else mkSnapshot (if forallb has_value readings then "ok" else "partial") "" (clock 0) readings
        end
    end.

End monitor.

(** ** Sound readings *)

#[export] Instance id_order_total : Total id_order.
Proof. intros a b. unfold id_order. apply name_order_total. Qed.

(** Exceptions say what happened. *)
Definition explains {A} (m : outcome A) : Prop :=
  match m with Return _ => True | Throw (StdException what) => what <> "" | Throw _ => False end.

Lemma explains_bind {A B} (m : outcome A) (f : A -> outcome B) : explains m -> (forall a, explains (f a)) -> explains (m ≫= f).
Proof. intros Hm Hf. destruct m as [a|e]; [apply Hf | exact Hm]. Qed.

Ltac explains_step :=
  match goal with
  | |- explains (mbind _ _) => apply explains_bind; [|intros ?]
  | |- explains (match ?x with _ => _ end) => destruct x
  | |- explains _ => solve [done | eauto with explains]
  end.

Create HintDb explains discriminated.

Lemma explains_read fs path : explains (read fs path).
Proof. unfold read. repeat explains_step. Qed.

#[local] Hint Resolve explains_read : explains.

Lemma explains_number fs path : explains (number fs path).
Proof. unfold number. repeat explains_step. Qed.

Lemma explains_hasAttribute fs path : explains (hasAttribute fs path).
Proof. unfold hasAttribute. repeat explains_step. Qed.

#[local] Hint Resolve explains_number explains_hasAttribute : explains.

Lemma explains_attribute fs device channel kind suffix : explains (attribute fs device channel kind suffix).
Proof. unfold attribute. repeat explains_step. Qed.

#[local] Hint Resolve explains_attribute : explains.

Lemma explains_label fs device channel : explains (channel_label fs device channel).
Proof. unfold channel_label. cbv zeta. repeat explains_step. Qed.

Lemma explains_value fs device channel kind : explains (channel_value fs device channel kind).
Proof. unfold channel_value. cbv zeta. repeat explains_step. Qed.

(** A value is finite. *)
Lemma channel_value_finite fs device channel kind v : channel_value fs device channel kind = Return v -> isfinite v = true.
Proof.
  unfold channel_value. cbv zeta. rewrite bind_Return. intros (found & _ & Hv). rewrite bind_Return in Hv.
  destruct Hv as (value & _ & Hv). destruct (isfinite _) eqn:E; [|done]. by injection Hv as <-.
Qed.

(** A reading: either a finite value, or the reason why there is none. *)
Definition reading_sound (r : Reading) : Prop :=
  rd_id r = rd_device r +:+ "/" +:+ rd_source_channel r /\
  ((rd_kind r = "temperature" /\ rd_unit r = "°C") \/ (rd_kind r = "voltage" /\ rd_unit r = "V")) /\
  ((rd_status r = "ok" /\ rd_error r = "" /\ exists v, rd_value r = Some v /\ isfinite v = true) \/
   (rd_status r = "unavailable" /\ rd_error r <> "" /\ rd_value r = None)).

Lemma sample_channel_sound fs device node_id now c : reading_sound (sample_channel fs device node_id now c).
Proof.
  destruct c as [channel kind]. unfold sample_channel. pose proof (explains_label fs device channel) as Hl.
  destruct (channel_label fs device channel) as [label|e].
  - pose proof (explains_value fs device channel kind) as Hv. pose proof (channel_value_finite fs device channel kind) as Hf.
    destruct (channel_value fs device channel kind) as [v|e]; cbn in Hv; (split; [done|]); (split; [cbn; case_bool_decide; auto|]).
    + left. split_and!; [done | done|]. exists v. auto.
    + right. by destruct e.
  - split; [done|]. split; [cbn; case_bool_decide; auto|]. right. by destruct e.
Qed.

Lemma sampleDevice_sound fs clock readings device node_id readings' :
  Forall reading_sound readings -> sampleDevice fs clock readings device node_id = Return readings' -> Forall reading_sound readings'.
Proof.
  intros Hr. unfold sampleDevice. destruct (sf_list fs device) as [names|]; [|done]. rewrite bind_Return.
  intros (channels & _ & [= <-]). apply Forall_app. split; [done|]. apply Forall_forall. intros r Hin.
  apply elem_of_lookup_imap in Hin as (i & c & -> & _). apply sample_channel_sound.
Qed.

Lemma sample_devices_sound fs clock selector devices readings :
  Forall reading_sound readings -> Forall reading_sound (fst (sample_devices fs clock selector devices readings)).
Proof.
  revert readings. induction devices as [|d devices IH]; intros readings Hr; cbn [sample_devices]; [done|].
  destruct (selected_device fs selector d) as [[node_id|]|e]; [| by apply IH | done].
  destruct (sampleDevice fs clock readings d node_id) as [readings'|e] eqn:Es; [|done].
  by apply IH, (sampleDevice_sound _ _ _ _ _ _ Hr Es).
Qed.

(** What the status says. *)
Definition status_sound (s : Snapshot) : Prop :=
  (sn_status s = "ok" /\ sn_readings s <> [] /\ Forall (fun r => rd_status r = "ok") (sn_readings s) /\ sn_error s = "") \/
  (sn_status s = "partial" /\ sn_readings s <> [] /\
     (sn_error s <> "" \/ Exists (fun r => rd_status r = "unavailable") (sn_readings s))) \/
  (sn_status s ∈ ["unavailable"; "unsupported"] /\ sn_readings s = [] /\ sn_error s <> "").

Lemma all_ok readings : Forall reading_sound readings -> forallb has_value readings = true -> Forall (fun r => rd_status r = "ok") readings.
Proof.
  intros Hs Hv. rewrite forallb_forall in Hv. rewrite Forall_forall in Hs |- *. intros r Hr.
  destruct (Hs r Hr) as (_ & _ & [(Ho & _)|(_ & _ & Hn)]); [done|]. specialize (Hv r (proj1 (list_elem_of_In _ _) Hr)).
  unfold has_value in Hv. by rewrite Hn in Hv.
Qed.

Lemma some_missing readings : Forall reading_sound readings -> forallb has_value readings = false -> Exists (fun r => rd_status r = "unavailable") readings.
Proof.
  induction 1 as [|r readings Hr _ IH]; cbn; [done|]. destruct Hr as (_ & _ & [(_ & _ & v & Hv & _)|(Hu & _)]).
  - unfold has_value at 1. rewrite Hv. intros H. apply Exists_cons_tl, IH, H.
  - intros _. by apply Exists_cons_hd.
Qed.

(** When the status is ok and when it is partial. A snapshot whose readings all
    lack a value is partial too, and so is one with all values after a device
    that failed. *)
Definition status_exact (s : Snapshot) : Prop :=
  (sn_status s = "ok" <->
     sn_readings s <> [] /\ Forall (fun r => rd_status r = "ok") (sn_readings s) /\ sn_error s = "") /\
  (sn_status s = "partial" <->
     sn_readings s <> [] /\ (sn_error s <> "" \/ Exists (fun r => rd_status r = "unavailable") (sn_readings s))) /\
  (sn_status s ∈ ["unavailable"; "unsupported"] <-> sn_readings s = []) /\ (sn_readings s = [] -> sn_error s <> "").

Lemma ok_not_unavailable readings :
  Forall (fun r => rd_status r = "ok") readings -> ~ Exists (fun r => rd_status r = "unavailable") readings.
Proof. induction 1 as [|r l Hr _ IH]; intros He; inversion He as [? ? Hu|]; subst; [by rewrite Hr in Hu | by apply IH]. Qed.

Lemma status_sound_exact s : status_sound s -> status_exact s.
Proof.
  unfold status_exact. intros [(-> & Hn & Ho & He)|[(-> & Hn & Hp)|(Hs & Hn & He)]].
  - apply ok_not_unavailable in Ho as Hu. set_solver.
  - assert (Ho : Forall (fun r => rd_status r = "ok") (sn_readings s) -> sn_error s = "" -> False).
    { intros Ho%ok_not_unavailable He. tauto. }
    split_and!; [split; [done | tauto] | tauto | set_solver | done].
  - rewrite Hn. split_and!; [ | | tauto | done]; (split; [intros Hx; rewrite Hx in Hs; set_solver | tauto]).
Qed.

Lemma snapshot_facts fs clock selector root :
  let s := readSnapshot fs clock selector root in
  Forall reading_sound (sn_readings s) /\ status_sound s /\ (sn_error s = "" -> Sorted id_order (sn_readings s)).
Proof.
  unfold readSnapshot. destruct (negb _).
  { split_and!; [constructor | right; right; cbn; split_and!; [right; left | done | done] | done]. }
  assert (Hfail : forall readings, Forall reading_sound readings ->
    status_sound (failed_snapshot clock readings) /\ (sn_error (failed_snapshot clock readings) = "" -> Sorted id_order readings)).
  { intros readings Hr. unfold status_sound, failed_snapshot. cbn. split; [|done]. case_bool_decide as He.
    - right; right. split_and!; [left | done | done].
    - right; left. split_and!; [done | done | by left]. }
  destruct (_ ≫= _) as [devices|]; [|destruct (Hfail []); [constructor | split_and!; [constructor | done | done]]].
  pose proof (sample_devices_sound fs clock selector (merge_sort name_order devices) [] ltac:(constructor)) as Hs.
  destruct (sample_devices _ _ _ _ _) as [readings [|]]; cbn [fst] in Hs.
  - assert (Hm : Forall reading_sound (merge_sort id_order readings)) by (by rewrite (merge_sort_Permutation id_order)).
    pose proof (Sorted_merge_sort id_order readings) as Hsorted. cbv zeta. case_bool_decide as He.
    + split_and!; [constructor | right; right; cbn; split_and!; [left | done | done] | done].
    + split_and!; cbn [sn_readings sn_error]; [done | | done]. unfold status_sound. cbn.
      destruct (forallb has_value (merge_sort id_order readings)) eqn:Ev.
      * left. split_and!; [done | done | by apply all_ok | done].
      * right; left. split_and!; [done | done | right; by apply some_missing].
  - destruct (Hfail readings Hs) as [H1 H2]. by split_and!.
Qed.


(** ** Other devices are left alone *)

(** Two trees that look the same at the paths of [Q]. *)
Definition agree (Q : string -> Prop) (fs fs' : Sysfs) : Prop :=
  forall path, Q path ->
    sf_list fs' path = sf_list fs path /\ sf_bytes fs' path = sf_bytes fs path /\
    sf_exists fs' path = sf_exists fs path /\ sf_canonical fs' path = sf_canonical fs path.

(** A name in a directory, and a path that a name can be appended to. *)
Definition plain_name (n : string) : Prop := n <> "" /\ contains "/" n = false.

Definition plain_path (p : string) : Prop := p <> "" /\ ends_with "/" p = false.

(** [path] is the device or a path in it. *)
Definition below (device path : string) : Prop := path = device \/ exists r, path = device +:+ "/" +:+ r.

Lemma ends_with_back s : ends_with "/" s = true -> back s = Some "/"%char.
Proof.
  unfold ends_with. intros [_ Hd%bool_decide_eq_true]%andb_true_iff.
  rewrite <- (str_take_drop (String.length s - String.length "/") s), Hd. by rewrite back_app.
Qed.

Lemma back_contains s c : back s = Some c -> contains c s = true.
Proof. intros (s' & ->)%back_some. rewrite contains_app. cbn. rewrite bool_decide_eq_true_2 by done. by rewrite orb_true_r. Qed.

Lemma plain_append a b : plain_path a -> path_append a b = a +:+ "/" +:+ b.
Proof. intros [Hne He]. unfold path_append. rewrite (proj2 (empty_false a) Hne), He. done. Qed.

Lemma plain_device root n : plain_path root -> plain_name n -> plain_path (path_append root n).
Proof.
  intros Hr [Hne Hc]. rewrite plain_append by done. split; [by destruct root; destruct Hr|].
  apply not_true_is_false. intros Hb%ends_with_back. rewrite <- str_app_assoc, back_app in Hb by done.
  apply back_contains in Hb. congruence.
Qed.

Lemma below_self d : below d d.
Proof. by left. Qed.

Lemma below_append d p x : plain_path d -> below d p -> below d (path_append p x).
Proof.
  intros Hd [->|[r ->]]; right.
  - rewrite plain_append by done. by exists x.
  - unfold path_append. destruct (_ || _); rewrite !str_app_assoc; by eexists.
Qed.

(** The name that a path in a directory starts with. *)
Lemma below_names root n n' path :
  plain_path root -> plain_name n -> plain_name n' -> below (path_append root n) path -> below (path_append root n') path -> n = n'.
Proof.
  intros Hr [_ Hn] [_ Hn']. unfold below. rewrite !plain_append by done.
  assert (Hcut : forall n, contains "/" n = false -> forall t, t = "" \/ (exists r, t = "/" +:+ r) -> fst (cut "/" (n +:+ t)) = n).
  { intros k Hk t [->|[r ->]]; [by rewrite str_app_nil_r, cut_none | change ("/" +:+ r) with (String "/" r); by rewrite cut_app]. }
  assert (Hrest : forall k, path = root +:+ "/" +:+ k \/ (exists r, path = (root +:+ "/" +:+ k) +:+ "/" +:+ r) ->
    exists t, path = root +:+ "/" +:+ k +:+ t /\ (t = "" \/ exists r, t = "/" +:+ r)).
  { intros k [->|[r ->]]; [exists ""; rewrite str_app_nil_r; auto | exists ("/" +:+ r); rewrite !str_app_assoc; eauto]. }
  intros (t & Hp & Ht)%Hrest (t' & Hp' & Ht')%Hrest. rewrite Hp in Hp'. apply str_app_inj_l, str_app_inj_l in Hp'.
  rewrite <- (Hcut n Hn t Ht), <- (Hcut n' Hn' t' Ht'), Hp'. done.
Qed.

Create HintDb below discriminated.
#[local] Hint Resolve below_self below_append : below.

(** What is read of a device depends on the device only. *)
Section same_device.
Context (fs fs' : Sysfs) (device : string) (Hplain : plain_path device) (Hagree : agree (below device) fs fs').

Ltac same := eauto with below.

Lemma read_same path : below device path -> read fs' path = read fs path.
Proof. intros Hp. unfold read. by destruct (Hagree path Hp) as (_ & -> & _). Qed.

Lemma number_same path : below device path -> number fs' path = number fs path.
Proof. intros Hp. unfold number. by rewrite read_same. Qed.

Lemma hasAttribute_same path : below device path -> hasAttribute fs' path = hasAttribute fs path.
Proof. intros Hp. unfold hasAttribute. by destruct (Hagree path Hp) as (_ & _ & -> & _). Qed.

Lemma attribute_same channel kind suffix : attribute fs' device channel kind suffix = attribute fs device channel kind suffix.
Proof. unfold attribute. cbv zeta. rewrite hasAttribute_same by same. done. Qed.

Lemma attribute_below channel kind suffix f : attribute fs device channel kind suffix = Return f -> below device f.
Proof.
  unfold attribute. cbv zeta. rewrite bind_Return. intros (found & _ & [= <-]). destruct found; same.
Qed.

Lemma bind_same {A B} (m m' : outcome A) (f f' : A -> outcome B) :
  m' = m -> (forall a, m = Return a -> f' a = f a) -> (m' ≫= f') = (m ≫= f).
Proof. intros -> Hf. destruct m as [a|e]; [by apply Hf | done]. Qed.

Lemma channel_label_same channel : channel_label fs' device channel = channel_label fs device channel.
Proof.
  unfold channel_label. cbv zeta. apply bind_same; [apply hasAttribute_same; same|]. intros [] _; [|done]. by rewrite read_same by same.
Qed.

Lemma channel_value_same channel kind : channel_value fs' device channel kind = channel_value fs device channel kind.
Proof.
  unfold channel_value. cbv zeta. apply bind_same; [apply hasAttribute_same; same|]. intros found _. apply bind_same; [|done].
  destruct found; [apply number_same; same|]. apply bind_same; [apply number_same; same|]. intros raw _.
  apply bind_same; [apply attribute_same|]. intros f Hf%attribute_below. apply bind_same; [by apply number_same|]. intros scale _.
  apply bind_same; [apply attribute_same|]. intros g Hg%attribute_below. apply bind_same; [by apply hasAttribute_same|].
  intros has _. apply bind_same; [destruct has; [by apply number_same | done] | done].
Qed.

Lemma sample_channel_same node_id now c : sample_channel fs' device node_id now c = sample_channel fs device node_id now c.
Proof. destruct c as [channel kind]. unfold sample_channel. by rewrite channel_label_same, channel_value_same. Qed.

Lemma sampleDevice_same clock readings node_id : sampleDevice fs' clock readings device node_id = sampleDevice fs clock readings device node_id.
Proof.
  unfold sampleDevice. destruct (Hagree device (below_self device)) as (-> & _). destruct (sf_list fs device) as [names|]; [|done].
  apply bind_same; [done|]. intros channels _. do 2 f_equal. apply imap_ext. intros i c _. apply sample_channel_same.
Qed.

Lemma selected_device_same selector : selected_device fs' selector device = selected_device fs selector device.
Proof.
  unfold selected_device. rewrite read_same by same. destruct (read fs (path_append device "name")) as [name|e]; [|done].
  destruct (negb _); [done|]. apply bind_same; [apply hasAttribute_same; same|]. intros found _.
  set (node := if found then _ else _). assert (Hn : below device node) by (unfold node; destruct found; same).
  cbv zeta. apply bind_same; [unfold compatible; by rewrite read_same by same|]. intros [] _; [|done].
  by destruct (Hagree node Hn) as (_ & _ & _ & ->).
Qed.

End same_device.

(** A device with another driver. *)
Definition foreign_device (fs : Sysfs) (device : string) : Prop :=
  match read fs (path_append device "name") with Return name => name <> "xilinx-ams" | Throw _ => True end.

Lemma foreign_skipped fs selector device : foreign_device fs device -> selected_device fs selector device = Return None.
Proof.
  unfold foreign_device, selected_device. destruct (read _ _) as [name|e]; [|done]. intros Hn. by rewrite bool_decide_eq_false_2.
Qed.

Lemma find_devices_all (Q : string -> Prop) root names devices found :
  (forall n, n ∈ names -> Q (path_append root n)) -> Forall Q devices -> find_devices root names devices = Some found -> Forall Q found.
Proof.
  revert devices. induction names as [|n names IH]; intros devices Hn Hd; cbn [find_devices]; [by intros [= <-]|].
  cbv zeta. destruct (_ <? _); [done|]. apply IH; [intros k Hk; apply Hn; by right|].
  destruct (starts_with "iio:device" n); [|done]. apply Forall_app. split; [done|]. constructor; [apply Hn; left | constructor].
Qed.

Lemma sample_devices_same fs fs' clock selector devices readings :
  Forall (fun d => selected_device fs' selector d = selected_device fs selector d /\
    forall node_id readings, selected_device fs selector d = Return (Some node_id) ->
      sampleDevice fs' clock readings d node_id = sampleDevice fs clock readings d node_id) devices ->
  sample_devices fs' clock selector devices readings = sample_devices fs clock selector devices readings.
Proof.
  intros Hd. revert readings. induction Hd as [|d devices [Hs Hr] _ IH]; intros readings; cbn [sample_devices]; [done|].
  rewrite Hs. destruct (selected_device fs selector d) as [[node_id|]|e] eqn:E; [|by apply IH|done].
  rewrite Hr by done. by destruct (sampleDevice _ _ _ _ _); [apply IH|].
Qed.

(** The monitor never reads a device of another driver: apart from the file
    that names its driver, whatever is in such a device, a snapshot is the same. *)
Theorem foreign_devices_unread fs fs' clock selector root n names :
  plain_path root -> sf_list fs root = Some names -> Forall plain_name names -> n ∈ names ->
  let device := path_append root n in
  foreign_device fs device ->
  agree (fun path => path = path_append device "name" \/ (below device path -> False)) fs fs' ->
  readSnapshot fs' clock selector root = readSnapshot fs clock selector root.
Proof.
  intros Hroot Hlist Hnames Hn device Hforeign Hagree. rewrite Forall_forall in Hnames.
  assert (Hr : sf_list fs' root = Some names).
  { rewrite <- Hlist. apply (Hagree root). right. unfold below, device. rewrite plain_append by done.
    intros [He|[r He]]; apply (f_equal String.length) in He; rewrite !str_length_app in He; cbn in He; lia. }
  unfold readSnapshot. destruct (negb _); [done|]. rewrite Hlist, Hr. cbn [mbind option_bind].
  destruct (find_devices root names []) as [devices|] eqn:Ef; [|done].
  rewrite (sample_devices_same fs fs'); [done|]. rewrite (merge_sort_Permutation name_order).
  refine (find_devices_all _ _ _ _ _ _ (Forall_nil_2 _) Ef). intros k Hk. cbv beta.
  destruct (decide (k = n)) as [->|Hne].
  - assert (Hforeign' : foreign_device fs' device).
    { unfold foreign_device, read in *. destruct (Hagree (path_append device "name") (or_introl eq_refl)) as (_ & -> & _). exact Hforeign. }
    fold device. rewrite !foreign_skipped by done. done.
  - assert (Hplain : plain_path (path_append root k)) by (by apply plain_device; [|apply Hnames]).
    assert (Hk' : agree (below (path_append root k)) fs fs').
    { intros path Hp. apply Hagree. right. intros Hd. apply Hne. by apply (below_names root k n path); [| apply Hnames | apply Hnames | |]. }
    split; [by apply selected_device_same|]. intros node_id readings _. by apply sampleDevice_same.
Qed.

(** ** A sample tree *)

Definition devices_root : string := "/sys/bus/iio/devices".

Definition iio (n : string) : string := devices_root +:+ "/iio:device" +:+ n.

(** An AMS device with a temperature and a voltage, beside an acquisition device. *)
Definition sample_file (path : string) : option string :=
  if path ==? iio "0/name" then Some ("xilinx-ams" +:+ String (chr 10) "")
  else if path ==? iio "0/of_node/compatible" then Some ("xlnx,zynqmp-ams" +:+ String (chr 0) "")
  else if path ==? iio "0/in_temp0_raw" then Some "20000"
  else if path ==? iio "0/in_temp0_scale" then Some "2.5"
  else if path ==? iio "0/in_temp0_offset" then Some "-10000"
  else if path ==? iio "0/in_voltage1_label" then Some "VCCINT"
  else if path ==? iio "1/name" then Some "ad9361" else None.

Definition sample_tree : Sysfs := {|
  sf_list path :=
    if path ==? devices_root then Some ["iio:device1"; "iio:device0"; "trigger0"]
    else if path ==? iio "0" then Some ["in_temp0_raw"; "in_temp0_scale"; "in_temp0_offset"; "in_voltage1_label"; "name"; "of_node"] else None;
  sf_bytes := sample_file;
  sf_exists path := Some (bool_decide (is_Some (sample_file path)) || (path ==? iio "0/of_node"));
  sf_canonical path := if path ==? iio "0/of_node" then Some "/sys/firmware/devicetree/base/amba/ams@ffa50000" else None
|}.

(** Another acquisition device in its place. *)
Definition other_tree : Sysfs := {|
  sf_list path := if path ==? iio "1" then Some ["in_voltage0_raw"] else sf_list sample_tree path;
  sf_bytes path := if path ==? iio "1/in_voltage0_raw" then Some "12" else sf_bytes sample_tree path;
  sf_exists path := sf_exists sample_tree path;
  sf_canonical path := sf_canonical sample_tree path
|}.

Example sample_snapshot :
  let s := readSnapshot sample_tree (fun _ => 7) (mkSelector "xlnx,zynqmp-ams" "") devices_root in
  sn_status s = "partial" /\
  map (fun r => (rd_id r, rd_domain r, rd_value r, rd_status r)) (sn_readings s) =
  [("amba/ams@ffa50000/in_temp0", "unknown", Some (of_int 25), "ok");
   ("amba/ams@ffa50000/in_voltage1", "PL", None, "unavailable")].
Proof. vm_compute. split; reflexivity. Qed.

Lemma foreign_devices_unread_witness :
  let selector := mkSelector "xlnx,zynqmp-ams" "" in
  readSnapshot other_tree (fun _ => 7) selector devices_root = readSnapshot sample_tree (fun _ => 7) selector devices_root.
Proof.
  apply (foreign_devices_unread sample_tree other_tree (fun _ => 7) (mkSelector "xlnx,zynqmp-ams" "") devices_root "iio:device1"
    ["iio:device1"; "iio:device0"; "trigger0"]).
  - by split.
  - reflexivity.
  - repeat constructor; done.
  - left.
  - done.
  - intros path [->|Hp]; [split_and!; vm_compute; reflexivity|]. cbn [sf_list sf_bytes sf_exists sf_canonical other_tree].
    split_and!; [| | done | done]; rewrite bool_decide_eq_false_2; [done| |done|]; intros ->; apply Hp; [by left | right; by exists "in_voltage0_raw"].
Defined.
