(* ===== verification/NetworkFile.v ===== *)
(** * The systemd-networkd file of an interface (daemon/network_config.cpp)

    [renderNetwork] writes the file as text. The theorem reads it back the way
    systemd does: it holds the intended settings and nothing else, so no value
    of a configuration can add a section or a setting. *)

From S2P Require Import Prelude SystemTypes Validation.

Definition endl : string := String (chr 10) "".

Definition yes_no (b : bool) : string := if b then "yes" else "no".

(** The loop body for a section of the addresses that routers and servers give. *)
Definition dynamic_section (c : NetworkConfig) (hasPreferred : bool) (metric : Z) (section : string) : string :=
  endl +:+ "[" +:+ section +:+ "]" +:+ endl +:+ "UseDNS=" +:+ yes_no (bool_decide (nc_dns_servers c = [])) +:+ endl +:+
  (if section ==? "DHCPv4" then "UseDomains=yes" +:+ endl else "") +:+
  (if hasPreferred && (section <>? "DHCPv6") then "RouteMetric=" +:+ to_string metric +:+ endl else "").

Definition render_text (c : NetworkConfig) (hasPreferred : bool) : string :=
  let static := bool_decide (nc_mode c = static_ipv4) in
  let metric := if nc_preferred_default c then 100 else 600 in
  "# Generated by MNC System Manager" +:+ endl +:+ "[Match]" +:+ endl +:+ "Name=" +:+ nc_interface c +:+ endl +:+ endl +:+
  "[Network]" +:+ endl +:+ "DHCP=" +:+ yes_no (bool_decide (nc_mode c = dhcp)) +:+ endl +:+ "IPv6AcceptRA=yes" +:+ endl +:+
  (if static then "Address=" +:+ nc_address c +:+ "/" +:+ to_string (nc_prefix_length c) +:+ endl else "") +:+
  fold_right (fun dns rest => "DNS=" +:+ dns +:+ endl +:+ rest) "" (nc_dns_servers c) +:+
  (if static && negb (empty (nc_gateway c)) then
     endl +:+ "[Route]" +:+ endl +:+ "Gateway=" +:+ nc_gateway c +:+ endl +:+
     (if hasPreferred then "Metric=" +:+ to_string metric +:+ endl else "")
   else "") +:+
  fold_right (fun section rest => dynamic_section c hasPreferred metric section +:+ rest) "" ["DHCPv4"; "DHCPv6"; "IPv6AcceptRA"].

Definition renderNetwork (c : NetworkConfig) (hasPreferred : bool) : outcome string :=
  _ ← validateNetwork [c]; Return (render_text c hasPreferred).

(** ** How systemd reads such a file *)

Fixpoint lines (s : string) : list string :=
  match s with
  | EmptyString => []
  | String c rest =>
      if c ==? chr 10 then "" :: lines rest
      else match lines rest with [] => [String c ""] | l :: ls => String c l :: ls end
  end.

(** What a line of a unit file is. *)
Inductive ini_line := Blank | Section_ (name : string) | Setting (key value : string) | Malformed.

Definition read_line (l : string) : ini_line :=
  match l with
  | EmptyString => Blank
  | String c rest =>
      if (c ==? "#"%char) || (c ==? ";"%char) then Blank
      else if c ==? "["%char then
        match cut "]" rest with
        | (name, Some EmptyString) => Section_ name
        | _ => Malformed
        end
      else
        match cut "=" l with
        | (key, Some value) => Setting key value
        | _ => Malformed
        end
  end.

(** The settings of the file with their sections, in order. *)
Fixpoint read_lines (section : string) (ls : list string) : option (list (string * string * string)) :=
  match ls with
  | [] => Some []
  | l :: rest =>
      match read_line l with
      | Blank => read_lines section rest
      | Section_ name => read_lines name rest
      | Setting key value => settings ← read_lines section rest; Some ((section, key, value) :: settings)
      | Malformed => None
      end
  end.

Definition read_ini (text : string) : option (list (string * string * string)) := read_lines "" (lines text).

(** ** What the file should say *)

Definition dynamic_settings (c : NetworkConfig) (hasPreferred : bool) (section : string) : list (string * string * string) :=
  [(section, "UseDNS", yes_no (bool_decide (nc_dns_servers c = [])))] ++
  (if section ==? "DHCPv4" then [(section, "UseDomains", "yes")] else []) ++
  (if hasPreferred && (section <>? "DHCPv6")
   then [(section, "RouteMetric", if nc_preferred_default c then "100" else "600")] else []).

Definition network_settings (c : NetworkConfig) (hasPreferred : bool) : list (string * string * string) :=
  [("Match", "Name", nc_interface c);
   ("Network", "DHCP", yes_no (bool_decide (nc_mode c = dhcp)));
   ("Network", "IPv6AcceptRA", "yes")] ++
  (match nc_mode c with
   | static_ipv4 => [("Network", "Address", nc_address c +:+ "/" +:+ to_string (nc_prefix_length c))]
   | dhcp => []
   end) ++
  map (fun dns => ("Network", "DNS", dns)) (nc_dns_servers c) ++
  (match nc_mode c with
   | static_ipv4 =>
       if empty (nc_gateway c) then []
       else ("Route", "Gateway", nc_gateway c) ::
         (if hasPreferred then [("Route", "Metric", if nc_preferred_default c then "100" else "600")] else [])
   | dhcp => []
   end) ++
  dynamic_settings c hasPreferred "DHCPv4" ++ dynamic_settings c hasPreferred "DHCPv6" ++
  dynamic_settings c hasPreferred "IPv6AcceptRA".

(** ** Proof *)

Definition line_free (s : string) : bool := negb (contains (chr 10) s).

Lemma lines_line l rest : line_free l = true -> lines (l +:+ endl +:+ rest) = l :: lines rest.
Proof.
  unfold line_free. intros Hl%negb_true_iff. induction l as [|c l IH]; [done|]. cbn [contains] in Hl.
  apply orb_false_iff in Hl as [Hc Hl]. cbn [String.append lines]. rewrite bool_decide_eq_false in Hc.
  rewrite bool_decide_eq_false_2 by congruence. by rewrite (IH Hl).
Qed.

(** [text] reads as the settings [ss], and leaves the section [to], whatever follows. *)
Definition reads (section text to : string) (ss : list (string * string * string)) : Prop :=
  forall rest, read_lines section (lines (text +:+ rest)) = (ss' ← read_lines to (lines rest); Some (ss ++ ss')).

Lemma reads_nil section : reads section "" section [].
Proof. intros rest. cbn. by destruct (read_lines section (lines rest)). Qed.

Lemma reads_app s0 t1 s1 l1 t2 s2 l2 : reads s0 t1 s1 l1 -> reads s1 t2 s2 l2 -> reads s0 (t1 +:+ t2) s2 (l1 ++ l2).
Proof.
  intros H1 H2 rest. rewrite str_app_assoc, H1, H2. destruct (read_lines s2 (lines rest)); [|done]. cbn. by rewrite app_assoc.
Qed.

Lemma reads_blank section : reads section endl section [].
Proof. intros rest. change (endl +:+ rest) with ("" +:+ endl +:+ rest). rewrite lines_line by done. cbn. by destruct (read_lines section (lines rest)). Qed.

Lemma reads_comment section : reads section ("# Generated by MNC System Manager" +:+ endl) section [].
Proof.
  intros rest. rewrite str_app_assoc, lines_line by done. cbn. by destruct (read_lines section (lines rest)).
Qed.

Lemma reads_section section name :
  line_free name = true -> contains "]" name = false -> reads section ("[" +:+ name +:+ "]" +:+ endl) name [].
Proof.
  intros Hl Hb rest. replace (("[" +:+ name +:+ "]" +:+ endl) +:+ rest) with (("[" +:+ name +:+ "]") +:+ endl +:+ rest)
    by (by rewrite !str_app_assoc).
  rewrite lines_line.
  - cbn [read_lines]. change ("[" +:+ name +:+ "]") with (String "[" (name +:+ String "]" "")). unfold read_line.
    change (("["%char ==? "#"%char) || ("["%char ==? ";"%char)) with false. change ("["%char ==? "["%char) with true. cbv iota.
    rewrite (cut_app _ name "") by done. by destruct (read_lines name (lines rest)).
  - unfold line_free in *. rewrite !contains_app. apply negb_true_iff in Hl. by rewrite Hl.
Qed.

(** A key: it starts like no comment and no section, and holds no equals sign. *)
Definition key_ok (key : string) : bool :=
  match key with
  | EmptyString => false
  | String c _ => negb ((c ==? "#"%char) || (c ==? ";"%char)) && (c <>? "["%char)
  end && negb (contains "=" key) && line_free key.

Lemma reads_setting section key value :
  key_ok key = true -> line_free value = true -> reads section (key +:+ "=" +:+ value +:+ endl) section [(section, key, value)].
Proof.
  unfold key_ok. intros Hk Hv rest. apply andb_true_iff in Hk as [[Hk He%negb_true_iff]%andb_true_iff Hl].
  replace ((key +:+ "=" +:+ value +:+ endl) +:+ rest) with ((key +:+ "=" +:+ value) +:+ endl +:+ rest) by (by rewrite !str_app_assoc).
  rewrite lines_line.
  - cbn [read_lines]. assert (Hr : read_line (key +:+ "=" +:+ value) = Setting key value); [|by rewrite Hr].
    pose proof (cut_app "=" key value He) as Hc. destruct key as [|c key]; [done|].
    apply andb_true_iff in Hk as [H1%negb_true_iff H2%negb_true_iff].
    cbn [String.append] in Hc |- *. unfold read_line. rewrite H1, H2. by rewrite Hc.
  - unfold line_free in *. rewrite !contains_app. apply negb_true_iff in Hl, Hv. by rewrite Hl, Hv.
Qed.

Lemma ipv4_line_free text n : ipv4_text text n -> line_free text = true.
Proof. intros H%ipv4_text_chars. unfold line_free. by rewrite (str_all_contains _ _ _ H). Qed.

Lemma digits_line_free n : 0 <= n -> line_free (to_string n) = true.
Proof. intros H%to_string_all_digits. unfold line_free. by rewrite (str_all_contains _ _ _ H). Qed.

Lemma interface_line_free name : validInterfaceName name = true -> line_free name = true.
Proof.
  unfold validInterfaceName. intros [_ H]%andb_true_iff. unfold line_free. by rewrite (str_all_contains _ _ _ H).
Qed.

Lemma reads_dns servers :
  Forall (fun dns => line_free dns = true) servers ->
  reads "Network" (fold_right (fun dns rest => "DNS=" +:+ dns +:+ endl +:+ rest) "" servers) "Network"
    (map (fun dns => ("Network", "DNS", dns)) servers).
Proof.
  induction 1 as [|dns servers Hd _ IH]; cbn [fold_right map]; [apply reads_nil|].
  replace ("DNS=" +:+ dns +:+ endl +:+ fold_right (fun dns rest => "DNS=" +:+ dns +:+ endl +:+ rest) "" servers)
    with (("DNS" +:+ "=" +:+ dns +:+ endl) +:+ fold_right (fun dns rest => "DNS=" +:+ dns +:+ endl +:+ rest) "" servers)
    by (by rewrite !str_app_assoc).
  apply (reads_app _ _ "Network" [_]); [by apply reads_setting | exact IH].
Qed.

Lemma reads_dynamic from c hasPreferred section :
  line_free section = true -> contains "]" section = false ->
  reads from (dynamic_section c hasPreferred (if nc_preferred_default c then 100 else 600) section) section
    (dynamic_settings c hasPreferred section).
Proof.
  intros Hl Hb. unfold dynamic_section, dynamic_settings.
  replace (endl +:+ "[" +:+ section +:+ "]" +:+ endl +:+ "UseDNS=" +:+ yes_no (bool_decide (nc_dns_servers c = [])) +:+ endl +:+ _)
    with (endl +:+ ("[" +:+ section +:+ "]" +:+ endl) +:+
      ("UseDNS" +:+ "=" +:+ yes_no (bool_decide (nc_dns_servers c = [])) +:+ endl) +:+
      (if section ==? "DHCPv4" then "UseDomains" +:+ "=" +:+ "yes" +:+ endl else "") +:+
      (if hasPreferred && (section <>? "DHCPv6")
       then "RouteMetric" +:+ "=" +:+ to_string (if nc_preferred_default c then 100 else 600) +:+ endl else ""))
    by (rewrite !str_app_assoc; done).
  apply (reads_app _ _ from []); [apply reads_blank|]. apply (reads_app _ _ section []); [by apply reads_section|].
  apply (reads_app _ _ section [_]); [apply reads_setting; [done | by case_bool_decide]|].
  apply (reads_app _ _ section).
  - destruct (section ==? "DHCPv4"); [by apply reads_setting | apply reads_nil].
  - destruct (hasPreferred && _); [|apply reads_nil]. by destruct (nc_preferred_default c); apply reads_setting.
Qed.

Lemma reads_route c hasPreferred :
  nc_mode c = static_ipv4 -> line_free (nc_gateway c) = true ->
  exists to, reads "Network"
    (if negb (empty (nc_gateway c)) then
       endl +:+ "[Route]" +:+ endl +:+ "Gateway=" +:+ nc_gateway c +:+ endl +:+
       (if hasPreferred : bool then "Metric=" +:+ to_string (if nc_preferred_default c then 100 else 600) +:+ endl else "")
     else "") to
    (if empty (nc_gateway c) then []
     else ("Route", "Gateway", nc_gateway c) ::
       (if hasPreferred : bool then [("Route", "Metric", if nc_preferred_default c then "100" else "600")] else [])).
Proof.
  intros _ Hg. destruct (empty (nc_gateway c)); cbn [negb]; [exists "Network"; apply reads_nil|]. exists "Route".
  apply (reads_app _ endl "Network" []); [apply reads_blank|].
  apply (reads_app _ ("[" +:+ "Route" +:+ "]" +:+ endl) "Route" []); [by apply reads_section|].
  replace ("Gateway=" +:+ nc_gateway c +:+ endl +:+ _)
    with (("Gateway" +:+ "=" +:+ nc_gateway c +:+ endl) +:+
      (if hasPreferred then "Metric" +:+ "=" +:+ to_string (if nc_preferred_default c then 100 else 600) +:+ endl else ""))
    by (by rewrite !str_app_assoc).
  apply (reads_app _ _ "Route" [_]); [by apply reads_setting|].
  destruct hasPreferred; [|apply reads_nil]. by destruct (nc_preferred_default c); apply reads_setting.
Qed.

Definition static_text (c : NetworkConfig) : string :=
  if bool_decide (nc_mode c = static_ipv4) then "Address=" +:+ nc_address c +:+ "/" +:+ to_string (nc_prefix_length c) +:+ endl else "".

Lemma reads_address c : config_ok c ->
  reads "Network" (static_text c) "Network"
    (match nc_mode c with
     | static_ipv4 => [("Network", "Address", nc_address c +:+ "/" +:+ to_string (nc_prefix_length c))]
     | dhcp => []
     end).
Proof.
  intros (_ & _ & _ & Hm). unfold static_text. destruct (nc_mode c); [apply reads_nil|].
  destruct Hm as (Hp & _ & a & Ha & _). rewrite bool_decide_eq_true_2 by done.
  replace ("Address=" +:+ nc_address c +:+ "/" +:+ to_string (nc_prefix_length c) +:+ endl)
    with ("Address" +:+ "=" +:+ (nc_address c +:+ "/" +:+ to_string (nc_prefix_length c)) +:+ endl) by (by rewrite !str_app_assoc).
  apply reads_setting; [done|]. pose proof (ipv4_line_free _ _ Ha) as H1. pose proof (digits_line_free (nc_prefix_length c)) as H2.
  unfold line_free in *. rewrite !contains_app. apply negb_true_iff in H1. rewrite H1. apply H2. lia.
Qed.

Lemma reads_gateway c hasPreferred : config_ok c ->
  exists to, reads "Network"
    (if bool_decide (nc_mode c = static_ipv4) && negb (empty (nc_gateway c)) then
       endl +:+ "[Route]" +:+ endl +:+ "Gateway=" +:+ nc_gateway c +:+ endl +:+
       (if hasPreferred : bool then "Metric=" +:+ to_string (if nc_preferred_default c then 100 else 600) +:+ endl else "")
     else "") to
    (match nc_mode c with
     | static_ipv4 =>
         if empty (nc_gateway c) then []
         else ("Route", "Gateway", nc_gateway c) ::
           (if hasPreferred : bool then [("Route", "Metric", if nc_preferred_default c then "100" else "600")] else [])
     | dhcp => []
     end).
Proof.
  intros (_ & _ & _ & Hmode). destruct (nc_mode c) eqn:Em; [exists "Network"; apply reads_nil|]. rewrite bool_decide_eq_true_2 by done. cbn [andb].
  apply reads_route; [done|]. destruct Hmode as (_ & _ & a & _ & _ & Hg).
  destruct (empty (nc_gateway c)) eqn:Ee; [by apply empty_spec in Ee as ->|].
  destruct Hg as (g & Hg & _); [by apply empty_false | by eapply ipv4_line_free].
Qed.

Lemma render_reads c hasPreferred :
  config_ok c -> Forall (fun dns => line_free dns = true) (nc_dns_servers c) ->
  exists to, reads "" (render_text c hasPreferred) to (network_settings c hasPreferred).
Proof.
  intros Hok Hdns. assert (Hn : validInterfaceName (nc_interface c) = true) by apply Hok.
  destruct (reads_gateway c hasPreferred Hok) as [to Hroute]. exists "IPv6AcceptRA". unfold render_text, network_settings. cbv zeta. cbn [fold_right].
  rewrite str_app_nil_r. fold (static_text c).
  replace ("# Generated by MNC System Manager" +:+ endl +:+ "[Match]" +:+ endl +:+ "Name=" +:+ nc_interface c +:+ endl +:+ endl +:+
    "[Network]" +:+ endl +:+ "DHCP=" +:+ yes_no (bool_decide (nc_mode c = dhcp)) +:+ endl +:+ "IPv6AcceptRA=yes" +:+ endl +:+ _)
  with (("# Generated by MNC System Manager" +:+ endl) +:+ ("[" +:+ "Match" +:+ "]" +:+ endl) +:+
    ("Name" +:+ "=" +:+ nc_interface c +:+ endl) +:+ endl +:+ ("[" +:+ "Network" +:+ "]" +:+ endl) +:+
    ("DHCP" +:+ "=" +:+ yes_no (bool_decide (nc_mode c = dhcp)) +:+ endl) +:+ ("IPv6AcceptRA" +:+ "=" +:+ "yes" +:+ endl) +:+
    static_text c +:+ fold_right (fun dns rest => "DNS=" +:+ dns +:+ endl +:+ rest) "" (nc_dns_servers c) +:+
    (if bool_decide (nc_mode c = static_ipv4) && negb (empty (nc_gateway c)) then
       endl +:+ "[Route]" +:+ endl +:+ "Gateway=" +:+ nc_gateway c +:+ endl +:+
       (if hasPreferred then "Metric=" +:+ to_string (if nc_preferred_default c then 100 else 600) +:+ endl else "")
     else "") +:+
    dynamic_section c hasPreferred (if nc_preferred_default c then 100 else 600) "DHCPv4" +:+
    dynamic_section c hasPreferred (if nc_preferred_default c then 100 else 600) "DHCPv6" +:+
    dynamic_section c hasPreferred (if nc_preferred_default c then 100 else 600) "IPv6AcceptRA")
  by (rewrite !str_app_assoc; reflexivity).
  apply (reads_app _ _ "" []); [apply reads_comment|]. apply (reads_app _ _ "Match" []); [by apply reads_section|].
  apply (reads_app _ _ "Match" [_]); [apply reads_setting; [done | by apply interface_line_free]|].
  apply (reads_app _ _ "Match" []); [apply reads_blank|]. apply (reads_app _ _ "Network" []); [by apply reads_section|].
  apply (reads_app _ _ "Network" [_]); [apply reads_setting; [done | unfold yes_no; by destruct (bool_decide (nc_mode c = dhcp))]|].
  apply (reads_app _ _ "Network" [_]); [by apply reads_setting|].
  apply (reads_app _ _ "Network"); [by apply reads_address|]. apply (reads_app _ _ "Network"); [by apply reads_dns|].
  apply (reads_app _ _ to); [exact Hroute|].
  apply (reads_app _ _ "DHCPv4"); [by apply reads_dynamic|]. apply (reads_app _ _ "DHCPv6"); by apply reads_dynamic.
Qed.

(** The text of a valid configuration, read the way systemd reads it. *)
Lemma read_ini_render c hasPreferred : config_ok c -> read_ini (render_text c hasPreferred) = Some (network_settings c hasPreferred).
Proof.
  intros Hok. assert (Hfree : Forall (fun dns => line_free dns = true) (nc_dns_servers c)).
  { destruct Hok as (_ & _ & Hdns & _). eapply Forall_impl; [exact Hdns|]. intros dns [n Hd]. by eapply ipv4_line_free. }
  destruct (render_reads c hasPreferred Hok Hfree) as [to Hr].
  specialize (Hr ""). rewrite str_app_nil_r in Hr. unfold read_ini. rewrite Hr. cbn. by rewrite app_nil_r.
Qed.

(** C27: The file of a valid interface configuration, read the way systemd reads
    it, holds exactly the intended settings in their sections; for an invalid one
    no text is produced, and the error is that of the validation. *)
Theorem renderNetwork_reads_back c hasPreferred :
  match renderNetwork c hasPreferred with
  | Return text => validateNetwork [c] = Return tt /\ read_ini text = Some (network_settings c hasPreferred)
  | Throw e => validateNetwork [c] = Throw e
  end.
Proof.
  unfold renderNetwork. destruct (validateNetwork [c]) as [[]|e] eqn:Hv; cbn [mbind outcome_bind]; [|done]. split; [done|].
  apply read_ini_render. destruct (proj1 (validateNetwork_spec [c]) Hv) as (_ & _ & _ & Hok). by rewrite Forall_singleton in Hok.
Qed.
