(* ===== verification/ZoneCatalog.v ===== *)
(** * The time zone catalogue (daemon/timezone_catalog.cpp)

    Every installed time zone with its present offset and, where the table
    zone.tab knows it, the place it is named after. The time zone database of the
    C++ library is a parameter. *)

From stdpp Require Import sorting.
From S2P Require Import Prelude SystemTypes Double NetworkFile.

(** ** Coordinates *)

(** The lambda [number]. *)
Definition number (s : string) : Z :=
  match from_chars_signed 32 s with Some (n, EmptyString) => n | _ => -1 end.

(** [(negative ? -1 : 1) * (d + m / 60.0 + s / 3600.0)]. *)
Definition angle (negative : bool) (d m s : Z) : double :=
  dmul (of_int (if negative then -1 else 1))
    (dadd (dadd (of_int d) (ddiv (of_int m) (of_int 60))) (ddiv (of_int s) (of_int 3600))).

Definition coordinate (text : string) (degrees : nat) : option double :=
  match text with
  | EmptyString => None
  | String sign text =>
      if (sign <>? "+"%char) && (sign <>? "-"%char) then None
      else
        let size := String.length text in
        if negb (Nat.eqb size (degrees + 2)) && negb (Nat.eqb size (degrees + 4)) then None
        else
          let d := number (str_take degrees text) in
          let m := number (str_take 2 (str_drop degrees text)) in
          let s := if Nat.eqb size (degrees + 4) then number (str_drop (degrees + 2) text) else 0 in
          let maximum := if Nat.eqb degrees 2 then 90 else 180 in
          if (d <? 0) || (maximum <? d) || (m <? 0) || (60 <=? m) || (s <? 0) || (60 <=? s)
             || ((d =? maximum) && (negb (m =? 0) || negb (s =? 0)))
          then None
          else Some (angle (sign ==? "-"%char) d m s)
  end.

(** ** The table *)

(** [std::isspace] of the "C" locale. *)
Definition is_space (c : ascii) : bool := in_range (chr 9) (chr 13) c || (c ==? " "%char).

Fixpoint skip_space (s : string) : string :=
  match s with
  | String c rest => if is_space c then skip_space rest else s
  | EmptyString => ""
  end.

(** The text up to the first character of a kind, and from there on. *)
Fixpoint span_to (stop : ascii -> bool) (s : string) : string * string :=
  match s with
  | EmptyString => ("", "")
  | String c rest => if stop c then ("", s) else let '(w, r) := span_to stop rest in (String c w, r)
  end.

(** [fields >> word]; [None] when the stream fails. *)
Definition extract (s : string) : option (string * string) :=
  let '(w, rest) := span_to is_space (skip_space s) in if empty w then None else Some (w, rest).

Definition is_sign (c : ascii) : bool := (c ==? "+"%char) || (c ==? "-"%char).

(** [find_first_of("+-", 1)] and the two parts of the text. *)
Definition split_coordinates (coordinates : string) : option (string * string) :=
  match coordinates with
  | EmptyString => None
  | String c rest => let '(l, r) := span_to is_sign rest in if empty r then None else Some (String c l, r)
  end.

(** One round of the loop: what [emplace] gets. *)
Definition zone_line (line : string) : option (string * TimezoneLocation) :=
  if empty line || (match front line with Some c => c ==? "#"%char | None => false end) then None
  else
    '(country, fields) ← extract line;
    '(coordinates, fields) ← extract fields;
    '(id, fields) ← extract fields;
    '(north, east) ← split_coordinates coordinates;
    latitude ← coordinate north 2;
    longitude ← coordinate east 3;
    Some (id, mkTimezoneLocation latitude longitude).

(** [locations.emplace]: the first one of a name stays. *)
Definition emplace_location (locations : gmap string TimezoneLocation) (line : string) : gmap string TimezoneLocation :=
  match zone_line line with
  | Some (id, location) => match locations !! id with Some _ => locations | None => <[id := location]> locations end
  | None => locations
  end.

(** [table] is the contents of the file, if it can be opened. *)
Definition read_table (table : option string) : gmap string TimezoneLocation :=
  fold_left emplace_location (lines (default "" table)) ∅.

(** ** The catalogue *)

(** [std::unique]. *)
Fixpoint unique (l : list string) : list string :=
  match l with
  | [] => []
  | a :: rest => match unique rest with (b :: _) as l' => if a ==? b then l' else a :: l' | [] => [a] end
  end.

Section catalog.
(** [locate_zone(name)] and [get_info(instant)]: the name of the zone and its
    offset in seconds; [None] when one of the two throws. *)
Context (tzdb : string -> option (string * Z)).

Definition catalog_entry (locations : gmap string TimezoneLocation) (name : string) : Timezone :=
  match tzdb name with
  | None => mkTimezone name None None
  | Some (zone, offset) =>
      mkTimezone name (Some (i32 offset))
        (match locations !! name with Some l => Some l | None => locations !! zone end)
  end.

(** [instant] in nanoseconds. *)
Definition readTimezoneCatalog (installed : list string) (instant : Z) (table : option string) : TimezoneCatalog :=
  let locations := read_table table in
  let names := unique (merge_sort name_order installed) in
  mkTimezoneCatalog (Z.quot instant 1000000) (map (catalog_entry locations) names).

End catalog.

(** ** Fixed-width numerals *)

Fixpoint digits_n (k : nat) (n : Z) : list Z :=
  match k with O => [] | S k' => digits_n k' (n / 10) ++ [n mod 10] end.

Definition fixed (k : nat) (n : Z) : string := string_of_digits (digits_n k n).

Lemma length_digits_n k n : length (digits_n k n) = k.
Proof. revert n. induction k as [|k IH]; intros n; cbn; [done|]. rewrite length_app, IH. cbn. lia. Qed.

Lemma decimal_digits_n k n : decimal (digits_n k n).
Proof.
  revert n. induction k as [|k IH]; intros n; cbn; [constructor|]. apply Forall_app. split; [apply IH|].
  constructor; [apply Z.mod_pos_bound; lia | constructor].
Qed.

Lemma value_digits_n k n : 0 <= n < 10 ^ Z.of_nat k -> value 10 (digits_n k n) = n.
Proof.
  revert n. induction k as [|k IH]; intros n Hn; [cbn in *; unfold value; cbn; lia|].
  rewrite Nat2Z.inj_succ, Z.pow_succ_r in Hn by lia. cbn [digits_n]. rewrite value_snoc, IH.
  - rewrite Z.mul_comm. symmetry. apply Z.div_mod. lia.
  - split; [apply Z.div_pos; lia | apply Z.div_lt_upper_bound; lia].
Qed.

Lemma digits_n_value ds : decimal ds -> digits_n (length ds) (value 10 ds) = ds.
Proof.
  induction ds as [|d ds IH] using rev_ind; [done|]. intros [Hds Hd]%Forall_app.
  rewrite length_app, Nat.add_comm, value_snoc. cbn. pose proof (Forall_inv Hd) as Hr. cbv beta in Hr.
  rewrite Z.div_add_l, (Z.div_small d), Z.add_0_r, IH by (done || lia). f_equal. f_equal.
  rewrite Z.add_comm, Z.mod_add, Z.mod_small; lia.
Qed.

Lemma value_below ds : decimal ds -> value 10 ds < 10 ^ Z.of_nat (length ds).
Proof.
  induction ds as [|d ds IH] using rev_ind; [done|]. intros [Hds Hd]%Forall_app.
  rewrite length_app, Nat.add_comm, value_snoc. cbn [Nat.add length]. rewrite Nat2Z.inj_succ, Z.pow_succ_r by lia.
  pose proof (Forall_inv Hd) as Hr. cbv beta in Hr. specialize (IH Hds). lia.
Qed.

Lemma length_fixed k n : String.length (fixed k n) = k.
Proof. unfold fixed. by rewrite length_string_of_digits, length_digits_n. Qed.

(** ** What [number] reads *)

Lemma digit_char_no_minus d : 0 <= d < 10 -> digit_char d <> "-"%char.
Proof. intros H E. apply (f_equal is_digit) in E. by rewrite digit_char_is_digit in E. Qed.

Lemma from_chars_plain c s :
  c <> "-"%char ->
  from_chars_signed 32 (String c s) =
  match digits 10 (String c s) with
  | ([], _) => None
  | (ds, rest) => if (- 2 ^ 31 <=? value 10 ds) && (value 10 ds <? 2 ^ 31) then Some (value 10 ds, rest) else None
  end.
Proof. intros Hc. destruct c as [[] [] [] [] [] [] [] []]; try done. Qed.

Lemma digits_only ds : decimal ds -> digits 10 (string_of_digits ds) = (ds, "").
Proof. intros H. rewrite <- (str_app_nil_r (string_of_digits ds)). by apply digits_string_of_digits. Qed.

Lemma number_digits ds : decimal ds -> ds <> [] -> (length ds <= 9)%nat -> number (string_of_digits ds) = value 10 ds.
Proof.
  intros Hd Hne Hl. destruct ds as [|d ds]; [done|]. unfold number. cbn [string_of_digits].
  rewrite from_chars_plain by (apply digit_char_no_minus, (Forall_inv Hd)).
  change (String (digit_char d) (string_of_digits ds)) with (string_of_digits (d :: ds)). rewrite digits_only by done.
  pose proof (value_nonneg _ Hd). pose proof (value_below _ Hd).
  assert (10 ^ Z.of_nat (length (d :: ds)) <= 10 ^ 9) by (apply Z.pow_le_mono_r; lia).
  rewrite (proj2 (Z.leb_le _ _)), (proj2 (Z.ltb_lt _ _)) by lia. done.
Qed.

Lemma number_fixed k n : (0 < k <= 9)%nat -> 0 <= n < 10 ^ Z.of_nat k -> number (fixed k n) = n.
Proof.
  intros Hk Hn. unfold fixed. rewrite number_digits; [by apply value_digits_n | apply decimal_digits_n | | rewrite length_digits_n; lia].
  intros E. apply (f_equal length) in E. rewrite length_digits_n in E. cbn in E. lia.
Qed.

(** Minus signs read as zeros. *)
Fixpoint erase (s : string) : string :=
  match s with EmptyString => "" | String c rest => String (if c ==? "-"%char then "0"%char else c) (erase rest) end.

Lemma erase_app a b : erase (a +:+ b) = erase a +:+ erase b.
Proof. induction a; cbn; congruence. Qed.

Lemma erase_digits ds : decimal ds -> erase (string_of_digits ds) = string_of_digits ds.
Proof.
  induction 1 as [|d ds Hd _ IH]; cbn; [done|]. rewrite bool_decide_eq_false_2 by (by apply digit_char_no_minus). by rewrite IH.
Qed.

(** A number that is accepted is its digits, up to a minus before zeros. *)
Lemma number_sound s : 0 <= number s -> erase s = fixed (String.length s) (number s).
Proof.
  intros Hn. assert (Hds : exists ds, decimal ds /\ value 10 ds = number s /\ erase s = string_of_digits ds).
  { revert Hn. unfold number. destruct s as [|c s]; [cbn; lia|]. destruct (decide (c = "-"%char)) as [->|Hc].
    - cbn [from_chars_signed]. pose proof (digits_spec s) as Hs. destruct (digits 10 s) as [[|d ds] rest]; [lia|].
      destruct Hs as [Hd ->]. destruct (_ && _); [|lia]. destruct rest; [|lia]. intros Hv.
      pose proof (value_nonneg _ Hd). exists (0 :: d :: ds). split; [constructor; [lia | done]|]. split.
      + change (value 10 (0 :: d :: ds)) with (value 10 (d :: ds)). lia.
      + rewrite str_app_nil_r. cbn -[string_of_digits]. by rewrite erase_digits.
    - rewrite from_chars_plain by done. pose proof (digits_spec (String c s)) as Hs.
      destruct (digits 10 (String c s)) as [[|d ds] rest]; [lia|]. destruct Hs as [Hd ->].
      destruct (_ && _); [|lia]. destruct rest; [|lia]. intros _. exists (d :: ds). rewrite str_app_nil_r. by rewrite erase_digits. }
  destruct Hds as (ds & Hd & <- & He).
  assert (Hl : forall t, String.length (erase t) = String.length t) by (induction t; cbn; congruence).
  rewrite <- Hl, He, length_string_of_digits. unfold fixed. by rewrite digits_n_value.
Qed.

(** ** Coordinates are ISO 6709 angles *)

Definition greatest (k : nat) : Z := if Nat.eqb k 2 then 90 else 180.

(** An angle of degrees, minutes and, maybe, seconds. *)
Record Angle := mkAngle { an_negative : bool; an_degrees : Z; an_minutes : Z; an_seconds : option Z }.

Definition seconds_of (a : Angle) : Z := default 0 (an_seconds a).

Definition angle_ok (k : nat) (a : Angle) : Prop :=
  0 <= an_degrees a <= greatest k /\ 0 <= an_minutes a < 60 /\ 0 <= seconds_of a < 60 /\
  (an_degrees a = greatest k -> an_minutes a = 0 /\ seconds_of a = 0).

Definition angle_value (a : Angle) : double := angle (an_negative a) (an_degrees a) (an_minutes a) (seconds_of a).

(** The digits behind the sign, with [k] digits for the degrees. *)
Definition iso_digits (k : nat) (a : Angle) : string :=
  fixed k (an_degrees a) +:+ fixed 2 (an_minutes a) +:+ match an_seconds a with Some s => fixed 2 s | None => "" end.

Definition iso_text (k : nat) (a : Angle) : string := String (if an_negative a then "-" else "+") (iso_digits k a).

(** The test that [coordinate] makes. *)
Lemma angle_test k a :
  (an_degrees a <? 0) || (greatest k <? an_degrees a) || (an_minutes a <? 0) || (60 <=? an_minutes a) || (seconds_of a <? 0)
    || (60 <=? seconds_of a) || ((an_degrees a =? greatest k) && (negb (an_minutes a =? 0) || negb (seconds_of a =? 0))) = false
  <-> angle_ok k a.
Proof.
  unfold angle_ok. rewrite !orb_false_iff, andb_false_iff, orb_false_iff, !negb_false_iff, !Z.ltb_ge, !Z.leb_gt, Z.eqb_neq, !Z.eqb_eq. lia.
Qed.

Lemma str_take_prefix a b k : String.length a = k -> str_take k (a +:+ b) = a.
Proof. intros <-. apply str_take_app. Qed.

Lemma str_drop_prefix a b k : String.length a = k -> str_drop k (a +:+ b) = b.
Proof. intros <-. apply str_drop_app. Qed.

(** An angle that is written with two or three digits for the degrees is read. *)
Lemma coordinate_iso k a : k = 2%nat \/ k = 3%nat -> angle_ok k a -> coordinate (iso_text k a) k = Some (angle_value a).
Proof.
  intros Hk Ha. assert (Hmax : greatest k < 10 ^ Z.of_nat k) by (destruct Hk as [-> | ->]; done).
  destruct (Ha) as (Hd & Hm & Hs & _). unfold coordinate, iso_text.
  assert (Hsign : ((if an_negative a then "-" else "+")%char ==? "-"%char) = an_negative a) by (by destruct (an_negative a)).
  replace (_ && _) with false by (by destruct (an_negative a)).
  assert (Hlen : String.length (iso_digits k a) = (k + match an_seconds a with Some _ => 4 | None => 2 end)%nat).
  { unfold iso_digits. rewrite !str_length_app, !length_fixed. destruct (an_seconds a); cbn; lia. }
  assert (Hfd : number (str_take k (iso_digits k a)) = an_degrees a).
  { unfold iso_digits. rewrite str_take_prefix by apply length_fixed. apply number_fixed; lia. }
  assert (Hfm : number (str_take 2 (str_drop k (iso_digits k a))) = an_minutes a).
  { unfold iso_digits. rewrite str_drop_prefix, str_take_prefix by apply length_fixed. apply number_fixed; lia. }
  assert (Hfs : (if Nat.eqb (String.length (iso_digits k a)) (k + 4) then number (str_drop (k + 2) (iso_digits k a)) else 0) = seconds_of a).
  { rewrite Hlen. unfold seconds_of in *. destruct (an_seconds a) as [s|] eqn:E; [|rewrite (proj2 (Nat.eqb_neq _ _)) by lia; done].
    rewrite Nat.eqb_refl. unfold iso_digits. rewrite E, <- str_app_assoc, str_drop_prefix by (rewrite str_length_app, !length_fixed; done).
    cbn in Hs. cbn [default from_option]. apply (number_fixed 2 s); lia. }
  cbv zeta. rewrite Hfd, Hfm, Hfs. change (if Nat.eqb k 2 then 90 else 180) with (greatest k).
  rewrite (proj2 (angle_test k a) Ha), Hsign, Hlen. destruct (an_seconds a); rewrite Nat.eqb_refl, ?andb_false_r; done.
Qed.

Lemma length_str_take n s : (n <= String.length s)%nat -> String.length (str_take n s) = n.
Proof. revert s. induction n as [|n IH]; intros [|c s]; cbn; intros H; [done | done | lia | rewrite IH; lia]. Qed.

Lemma length_str_drop n s : String.length (str_drop n s) = (String.length s - n)%nat.
Proof. revert s. induction n as [|n IH]; intros [|c s]; cbn; [done..|]. apply IH. Qed.

Lemma str_drop_drop n m s : str_drop m (str_drop n s) = str_drop (n + m) s.
Proof. revert s. induction n as [|n IH]; intros [|c s]; cbn; [done | done | by destruct m | apply IH]. Qed.

(** The fields of a text that is accepted. *)
Lemma coordinate_fields k tail :
  (String.length tail = k + 2 \/ String.length tail = k + 4)%nat ->
  let d := str_take k tail in let m := str_take 2 (str_drop k tail) in let s := str_drop (k + 2) tail in
  tail = d +:+ m +:+ s /\ String.length d = k /\ String.length m = 2%nat /\
  String.length s = (if Nat.eqb (String.length tail) (k + 4) then 2 else 0)%nat.
Proof.
  intros Hl. cbv zeta. rewrite !length_str_take, length_str_drop by (rewrite ?length_str_drop; lia). split_and!; [|done|done|].
  - rewrite <- str_drop_drop, !str_take_drop. done.
  - destruct (Nat.eqb_spec (String.length tail) (k + 4)); lia.
Qed.

(** A text that is accepted is an angle, up to minus signs inside zeros. *)
Lemma coordinate_sound k text c :
  coordinate text k = Some c ->
  exists a sign tail, angle_ok k a /\ c = angle_value a /\ text = String sign tail /\ String sign (erase tail) = iso_text k a.
Proof.
  unfold coordinate. destruct text as [|sign tail]; [done|]. destruct ((sign <>? "+"%char) && (sign <>? "-"%char)) eqn:Esign; [done|].
  cbv zeta. destruct (negb (Nat.eqb _ _) && negb (Nat.eqb _ _)) eqn:Esize; [done|].
  assert (Hl : (String.length tail = k + 2 \/ String.length tail = k + 4)%nat).
  { apply andb_false_iff in Esize. rewrite !negb_false_iff, !Nat.eqb_eq in Esize. done. }
  destruct (coordinate_fields k tail Hl) as (Htail & Hd & Hm & Hs). revert Htail Hd Hm Hs.
  set (fd := str_take k tail). set (fm := str_take 2 (str_drop k tail)). set (fs := str_drop (k + 2) tail). intros Htail Hd Hm Hs.
  generalize dependent (Nat.eqb (String.length tail) (k + 4)). intros long _ Hs.
  set (a := mkAngle (sign ==? "-"%char) (number fd) (number fm) (if long then Some (number fs) else None)).
  replace (if long then number fs else 0) with (seconds_of a) by (unfold seconds_of, a; by destruct long).
  change (number fd) with (an_degrees a). change (number fm) with (an_minutes a).
  change (if Nat.eqb k 2 then 90 else 180) with (greatest k). destruct (_ || _) eqn:Etest; [done|].
  apply (angle_test k a) in Etest. intros [= <-]. exists a, sign, tail. split_and!; [done | done | done |].
  unfold iso_text. f_equal.
  - apply andb_false_iff in Esign. rewrite !negb_false_iff, !bool_decide_eq_true in Esign. by destruct Esign as [-> | ->].
  - destruct Etest as (Hrd & Hrm & Hrs & _). unfold iso_digits. rewrite Htail at 1. rewrite !erase_app, !number_sound, Hd, Hm by (cbn in *; lia).
    do 2 f_equal. unfold seconds_of in Hrs. subst a. destruct long.
    + rewrite number_sound, Hs by (cbn in Hrs; lia). done.
    + by destruct fs.
Qed.

(** A coordinate is accepted exactly when it is an angle in range. Written
    with a sign, two or three digits of degrees, two of minutes and maybe two of
    seconds, an angle of at most 90 or 180 degrees is read as its value in
    degrees; and a text that is accepted is such an angle, once minus signs that
    stand inside a zero are read as zeros. *)
Theorem coordinate_exact k :
  k = 2%nat \/ k = 3%nat ->
  (forall a, angle_ok k a -> coordinate (iso_text k a) k = Some (angle_value a)) /\
  (forall text c, coordinate text k = Some c ->
     exists a sign tail, angle_ok k a /\ c = angle_value a /\ text = String sign tail /\ String sign (erase tail) = iso_text k a).
Proof. intros Hk. split; [intros a; by apply coordinate_iso | intros text c; apply coordinate_sound]. Qed.

(** ** The table *)

(** The place of a zone: the first line that names it and can be read. *)
Fixpoint first_location (ls : list string) (id : string) : option TimezoneLocation :=
  match ls with
  | [] => None
  | l :: rest =>
      match zone_line l with
      | Some (id', location) => if id ==? id' then Some location else first_location rest id
      | None => first_location rest id
      end
  end.

Lemma fold_locations ls m id :
  fold_left emplace_location ls m !! id = match m !! id with Some l => Some l | None => first_location ls id end.
Proof.
  revert m. induction ls as [|l ls IH]; intros m; cbn [fold_left first_location]; [by destruct (m !! id)|].
  rewrite IH. unfold emplace_location. destruct (zone_line l) as [[id' location]|]; [|done].
  destruct (m !! id') as [loc'|] eqn:E; case_bool_decide as Hid; subst; rewrite ?E, ?lookup_insert_eq, ?lookup_insert_ne by done; done.
Qed.

Lemma read_table_lookup table id : read_table table !! id = first_location (lines (default "" table)) id.
Proof. unfold read_table. by rewrite fold_locations, lookup_empty. Qed.

(** *** Lines are read back *)

Definition no_space (s : string) : bool := str_all (fun c => negb (is_space c)) s.

Definition separated (s : string) : bool := match front s with Some c => is_space c | None => true end.

Lemma span_to_app stop w rest :
  str_all (fun c => negb (stop c)) w = true -> match front rest with Some c => stop c | None => true end = true ->
  span_to stop (w +:+ rest) = (w, rest).
Proof.
  intros Hw Hr. induction w as [|c w IH]; cbn in *.
  - destruct rest as [|c rest]; [done|]. cbn in *. by rewrite Hr.
  - apply andb_true_iff in Hw as [Hc%negb_true_iff Hw]. by rewrite Hc, IH.
Qed.

Lemma skip_space_word w rest : w <> "" -> no_space w = true -> skip_space (w +:+ rest) = w +:+ rest.
Proof. destruct w as [|c w]; [done|]. cbn. intros _ [Hc%negb_true_iff _]%andb_true_iff. by rewrite Hc. Qed.

Lemma extract_word w rest : w <> "" -> no_space w = true -> separated rest = true -> extract (w +:+ rest) = Some (w, rest).
Proof. intros Hne Hw Hr. unfold extract. rewrite skip_space_word, span_to_app by done. by destruct w. Qed.

Lemma extract_space c s : is_space c = true -> extract (String c s) = extract s.
Proof. intros Hc. unfold extract. cbn. by rewrite Hc. Qed.

Lemma digits_plain p ds : (forall c, is_digit c = true -> p c = true) -> decimal ds -> str_all p (string_of_digits ds) = true.
Proof. intros Hp Hd. eapply str_all_impl; [exact Hp | by apply str_all_digits]. Qed.

Lemma iso_digits_plain p k a : (forall c, is_digit c = true -> p c = true) -> str_all p (iso_digits k a) = true.
Proof.
  intros Hp. unfold iso_digits, fixed. rewrite !str_all_app, !(digits_plain p) by (done || apply decimal_digits_n).
  destruct (an_seconds a); [|done]. cbn [andb]. apply digits_plain; [done | apply decimal_digits_n].
Qed.

Lemma digit_no_space c : is_digit c = true -> negb (is_space c) = true.
Proof.
  intros H. assert (He : implb (is_digit c) (negb (is_space c)) = true) by (clear H; by_ascii c). by rewrite H in He.
Qed.

Lemma digit_no_sign c : is_digit c = true -> negb (is_sign c) = true.
Proof. intros H. assert (He : implb (is_digit c) (negb (is_sign c)) = true) by (clear H; by_ascii c). by rewrite H in He. Qed.

Lemma iso_no_space k a : no_space (iso_text k a) = true.
Proof. unfold no_space, iso_text. cbn [str_all]. rewrite iso_digits_plain by apply digit_no_space. by destruct (an_negative a). Qed.

Lemma split_iso lat lon :
  split_coordinates (iso_text 2 lat +:+ iso_text 3 lon) = Some (iso_text 2 lat, iso_text 3 lon).
Proof.
  unfold split_coordinates, iso_text at 1. cbn [String.append]. rewrite span_to_app.
  - done.
  - apply iso_digits_plain, digit_no_sign.
  - unfold iso_text. cbn. by destruct (an_negative lon).
Qed.

(** A line of the table. *)
Record ZoneRow := mkZoneRow {
  zr_country : string;
  zr_latitude : Angle;
  zr_longitude : Angle;
  zr_id : string;
  zr_comment : string
}.

Definition word_ok (s : string) : Prop := s <> "" /\ no_space s = true.

Definition row_ok (r : ZoneRow) : Prop :=
  word_ok (zr_country r) /\ front (zr_country r) <> Some "#"%char /\ word_ok (zr_id r) /\
  angle_ok 2 (zr_latitude r) /\ angle_ok 3 (zr_longitude r) /\
  separated (zr_comment r) = true /\ line_free (zr_comment r) = true.

Definition tab : string := String (chr 9) "".

Definition row_text (r : ZoneRow) : string :=
  zr_country r +:+ tab +:+ iso_text 2 (zr_latitude r) +:+ iso_text 3 (zr_longitude r) +:+ tab +:+ zr_id r +:+ zr_comment r.

Definition row_location (r : ZoneRow) : TimezoneLocation :=
  mkTimezoneLocation (angle_value (zr_latitude r)) (angle_value (zr_longitude r)).

Lemma zone_line_row r : row_ok r -> zone_line (row_text r) = Some (zr_id r, row_location r).
Proof.
  intros ([Hc1 Hc2] & Hhash & [Hi1 Hi2] & Hlat & Hlon & Hsep & _). unfold zone_line, row_text.
  rewrite (front_app (zr_country r)) by done.
  replace (empty _) with false by (symmetry; apply empty_false; by destruct (zr_country r)). cbn [orb].
  destruct (front (zr_country r)) as [c|]; [rewrite bool_decide_eq_false_2 by congruence|].
  all: rewrite (extract_word (zr_country r)) by done; cbn [mbind option_bind].
  all: unfold tab at 1; cbn [String.append]; rewrite extract_space by done.
  all: rewrite <- (str_app_assoc (iso_text 2 _)), (extract_word (iso_text 2 _ +:+ iso_text 3 _));
    [| done | unfold no_space; rewrite str_all_app; apply andb_true_iff; split; apply iso_no_space | done]; cbn [mbind option_bind].
  all: unfold tab at 1; cbn [String.append]; rewrite extract_space, extract_word by done; cbn [mbind option_bind].
  all: by rewrite split_iso; cbn [mbind option_bind]; rewrite !coordinate_iso by auto.
Qed.

(** A table: remarks and rows. *)
Definition table_line (l : string + ZoneRow) : string :=
  match l with inl remark => String "#" remark | inr r => row_text r end.

Definition table_text (rows : list (string + ZoneRow)) : string := fold_right (fun l s => table_line l +:+ endl +:+ s) "" rows.

Definition table_line_ok (l : string + ZoneRow) : Prop :=
  match l with inl remark => line_free remark = true | inr r => row_ok r end.

Definition table_ids (rows : list (string + ZoneRow)) : list string := omap (fun l => match l with inl _ => None | inr r => Some (zr_id r) end) rows.

Lemma no_space_line_free s : no_space s = true -> line_free s = true.
Proof.
  intros H. unfold line_free. rewrite contains_str_all, negb_involutive. eapply str_all_impl; [|exact H].
  intros c Hc. assert (He : implb (negb (is_space c)) (chr 10 <>? c) = true) by (clear; by_ascii c). rewrite Hc in He. exact He.
Qed.

Lemma line_free_app a b : line_free (a +:+ b) = line_free a && line_free b.
Proof. unfold line_free. by rewrite contains_app, negb_orb. Qed.

Lemma table_line_free l : table_line_ok l -> line_free (table_line l) = true.
Proof.
  destruct l as [remark|r]; [done|]. intros ([_ Hc] & _ & [_ Hi] & _ & _ & _ & Hcom). cbn. unfold row_text.
  rewrite !line_free_app, Hcom, (no_space_line_free _ Hc), (no_space_line_free _ Hi),
    !(no_space_line_free _ (iso_no_space _ _)). done.
Qed.

Lemma lines_table rows : Forall table_line_ok rows -> lines (table_text rows) = map table_line rows.
Proof.
  induction 1 as [|l rows Hl _ IH]; [done|]. cbn [table_text fold_right map]. rewrite lines_line by (by apply table_line_free). by rewrite <- IH.
Qed.

Lemma first_location_row rows r :
  Forall table_line_ok rows -> NoDup (table_ids rows) -> inr r ∈ rows ->
  first_location (map table_line rows) (zr_id r) = Some (row_location r).
Proof.
  induction 1 as [|l rows Hl Hrows IH]; intros Hnd Hin; [by apply elem_of_nil in Hin|]. cbn [map first_location].
  destruct l as [remark|r']; cbn [table_line].
  - change (zone_line (String "#" remark)) with (@None (string * TimezoneLocation)). apply IH; [done|].
    by apply elem_of_cons in Hin as [Hin|Hin].
  - rewrite zone_line_row by done. cbn in Hnd. apply NoDup_cons in Hnd as [Hnew Hnd].
    apply elem_of_cons in Hin as [[= ->]|Hin]; [by rewrite bool_decide_eq_true_2|].
    rewrite bool_decide_eq_false_2; [by apply IH|]. intros Heq. apply Hnew. rewrite <- Heq.
    apply list_elem_of_omap. exists (inr r). done.
Qed.

(** ** The catalogue *)

Definition name_before (a b : string) : Prop := name_order a b /\ a <> b.

Lemma elem_of_unique l x : x ∈ unique l <-> x ∈ l.
Proof.
  induction l as [|a l IH]; cbn [unique]; [done|]. rewrite elem_of_cons, <- IH.
  destruct (unique l) as [|b l'] eqn:E; [by rewrite elem_of_cons|].
  case_bool_decide; subst; rewrite ?elem_of_cons; tauto.
Qed.

Lemma unique_sorted l : StronglySorted name_order l -> StronglySorted name_before (unique l).
Proof.
  induction 1 as [|a l Hs IH Ha]; cbn [unique]; [constructor|].
  assert (Hall : Forall (name_order a) (unique l))
    by (rewrite Forall_forall in Ha |- *; intros x Hx; apply Ha, elem_of_unique, Hx).
  destruct (unique l) as [|b l'] eqn:E; [repeat constructor|]. case_bool_decide as Hab; [done|].
  constructor; [done|]. apply Forall_cons in Hall as [Hb Hl]. constructor; [done|].
  apply StronglySorted_inv in IH as [_ Hbl]. rewrite Forall_forall in Hl, Hbl |- *. intros x Hx.
  split; [by apply Hl|]. intros ->. destruct (Hbl x Hx) as [Hbx Hne]. apply Hne. by apply (anti_symm name_order).
Qed.

(** What the catalogue says of a zone. *)
Definition entry_right (tzdb : string -> option (string * Z)) (table : option string) (z : Timezone) : Prop :=
  let place := first_location (lines (default "" table)) in
  match tzdb (tz_id z) with
  | None => tz_utc_offset_seconds z = None /\ tz_location z = None
  | Some (zone, offset) =>
      tz_utc_offset_seconds z = Some (i32 offset) /\
      (forall l, tz_location z = Some l <-> place (tz_id z) = Some l \/ (place (tz_id z) = None /\ place zone = Some l))
  end.

Lemma catalog_entry_right tzdb table name : entry_right tzdb table (catalog_entry tzdb (read_table table) name).
Proof.
  unfold entry_right, catalog_entry. destruct (tzdb name) as [[zone offset]|] eqn:E; cbn; rewrite E; [|done].
  split; [done|]. intros l. rewrite !read_table_lookup. destruct (first_location _ name); naive_solver.
Qed.

Lemma catalog_ids tzdb locations names : map tz_id (map (catalog_entry tzdb locations) names) = names.
Proof.
  rewrite map_map. induction names as [|n names IH]; [done|]. cbn. rewrite IH. f_equal.
  unfold catalog_entry. by destruct (tzdb n) as [[]|].
Qed.

(** C33: The catalogue lists every installed zone once, in the order of the names,
    and no other. A zone that the database does not know has neither an offset
    nor a place; another one has the offset that the database gives, and the
    place of the first readable line of the table for its own name, else for the
    name of the zone it is a link to. *)
Theorem catalog_lists_installed tzdb installed instant table :
  let zones := tc_zones (readTimezoneCatalog tzdb installed instant table) in
  StronglySorted name_before (map tz_id zones) /\ (forall id, id ∈ map tz_id zones <-> id ∈ installed) /\
  Forall (entry_right tzdb table) zones.
Proof.
  cbn. rewrite catalog_ids. split_and!.
  - apply unique_sorted, Sorted_StronglySorted, Sorted_merge_sort, _; apply _.
  - intros id. rewrite elem_of_unique, (merge_sort_Permutation name_order). done.
  - apply Forall_forall. intros z Hz. apply list_elem_of_fmap in Hz as (name & -> & _). apply catalog_entry_right.
Qed.

(** C32: A table in the format of zone.tab is read back: an installed zone that the
    database knows, and that a row of the table locates, is in the catalogue at
    the place that [angle], the formula of the code, gives for the degrees,
    minutes and seconds of the row, whatever remarks and comments surround it. *)
Theorem zone_table_read_back tzdb installed instant rows r zone offset :
  Forall table_line_ok rows -> NoDup (table_ids rows) -> inr r ∈ rows -> zr_id r ∈ installed ->
  tzdb (zr_id r) = Some (zone, offset) ->
  mkTimezone (zr_id r) (Some (i32 offset)) (Some (row_location r)) ∈
    tc_zones (readTimezoneCatalog tzdb installed instant (Some (table_text rows))).
Proof.
  intros Hrows Hnd Hin Hinst Hdb. unfold readTimezoneCatalog. cbn [tc_zones]. apply list_elem_of_fmap. exists (zr_id r). split.
  - unfold catalog_entry. rewrite Hdb, read_table_lookup.
    unfold default, from_option, id. by rewrite lines_table, first_location_row.
  - apply elem_of_unique. by rewrite (merge_sort_Permutation name_order).
Qed.

(** ** The table of the unit tests *)

Definition toronto : ZoneRow :=
  mkZoneRow "CA" (mkAngle false 43 39 None) (mkAngle true 79 23 None) "America/Toronto" (tab +:+ "Eastern").

Definition kathmandu : ZoneRow := mkZoneRow "NP" (mkAngle false 27 43 None) (mkAngle false 85 19 (Some 30)) "Asia/Kathmandu" "".

Definition sample_table : list (string + ZoneRow) := [inl " comment"; inr toronto; inr kathmandu].

Definition sample_tzdb (name : string) : option (string * Z) :=
  if name ==? "America/Toronto" then Some (name, -18000)
  else if name ==? "Canada/Eastern" then Some ("America/Toronto", -18000)
  else if name ==? "UTC" then Some ("Etc/UTC", 0) else None.

Lemma sample_rows_ok : Forall table_line_ok sample_table.
Proof.
  assert (Ha : forall k a, (0 <=? an_degrees a) && (an_degrees a <? greatest k) && (0 <=? an_minutes a) && (an_minutes a <? 60) &&
    (0 <=? seconds_of a) && (seconds_of a <? 60) = true -> angle_ok k a).
  { intros k a H. unfold angle_ok. propify. lia. }
  repeat constructor; cbn; try done; by apply Ha.
Qed.

Lemma coordinate_exact_witness :
  coordinate "-0792330" 3 = Some (angle true 79 23 30) /\ coordinate "+9000" 2 = Some (angle false 90 0 0) /\
  coordinate "+9001" 2 = None.
Proof.
  split_and!.
  - apply (proj1 (coordinate_exact 3 (or_intror eq_refl)) (mkAngle true 79 23 (Some 30))). unfold angle_ok. cbn. lia.
  - apply (proj1 (coordinate_exact 2 (or_introl eq_refl)) (mkAngle false 90 0 None)). unfold angle_ok. cbn. lia.
  - reflexivity.
Defined.

Lemma zone_table_read_back_witness :
  mkTimezone "America/Toronto" (Some (-18000)) (Some (row_location toronto)) ∈
    tc_zones (readTimezoneCatalog sample_tzdb ["UTC"; "America/Toronto"; "Not/Installed"; "UTC"] 0 (Some (table_text sample_table))).
Proof.
  apply (zone_table_read_back sample_tzdb ["UTC"; "America/Toronto"; "Not/Installed"; "UTC"] 0 sample_table toronto "America/Toronto" (-18000)).
  - exact sample_rows_ok.
  - cbn. repeat constructor; set_solver.
  - right. left.
  - right. left.
  - reflexivity.
Defined.

(** The zones of the unit test: a link takes the place of its zone, an unknown
    zone has neither offset nor place. *)
Example sample_catalog :
  map (fun z => (tz_id z, tz_utc_offset_seconds z, bool_decide (is_Some (tz_location z))))
    (tc_zones (readTimezoneCatalog sample_tzdb ["UTC"; "Canada/Eastern"; "Asia/Kathmandu"; "UTC"] 0 (Some (table_text sample_table)))) =
  [("Asia/Kathmandu", None, false); ("Canada/Eastern", Some (-18000), true); ("UTC", Some 0, false)].
Proof. vm_compute. reflexivity. Qed.
