(* ===== verification/Timestamp.v ===== *)
(** * The wall clock as text (daemon/backend.cpp, lines 277 to 316)

    [gmtime_r], [localtime_r] and [strftime] as the native platform uses them,
    and the lambda [format] of [Native::time]. Both texts name the instant that
    was read: a reader of such texts gets the same millisecond back, up to the
    seconds of a historical offset, for which the text has no place. *)

From S2P Require Import Prelude SystemTypes.

(** [struct tm], as far as it is used: year, month (from 1), day, hour, minute,
    second and [tm_gmtoff]. *)
Record tm := mkTm { tm_year : Z; tm_mon : Z; tm_mday : Z; tm_hour : Z; tm_min : Z; tm_sec : Z; tm_gmtoff : Z }.

(** ** The calendar *)

(** The days before the year [y] of an era of 400 years that starts on the first
    of March. *)
Definition year_start (y : Z) : Z := 365 * y + y / 4 - y / 100.

(** The year of the era that a day is in: the last one that starts no later. *)
Fixpoint year_search (fuel : nat) (y day : Z) : Z :=
  match fuel with
  | O => y
  | S fuel' => if day <? year_start (y + 1) then y else year_search fuel' (y + 1) day
  end.

(** Year, month and day of a number of days since 1970-01-01. *)
Definition civil (days : Z) : Z * Z * Z :=
  let z := days + 719468 in
  let era := z / 146097 in
  let doe := z mod 146097 in
  let yoe := year_search 399 0 doe in
  let doy := doe - year_start yoe in
  let mp := (5 * doy + 2) / 153 in
  let m := if mp <? 10 then mp + 3 else mp - 9 in
  (yoe + era * 400 + (if m <=? 2 then 1 else 0), m, doy - (153 * mp + 2) / 5 + 1).

(** Broken-down time at an offset from UTC. *)
Definition broken_down (seconds offset : Z) : tm :=
  let t := seconds + offset in
  let '(y, m, d) := civil (t / 86400) in
  let s := t mod 86400 in
  mkTm y m d (s / 3600) (s / 60 mod 60) (s mod 60) offset.

(** [gmtime_r] and, with the offset of the zone, [localtime_r] fail when the year
    less 1900 does not fit [int]. *)
Definition converted (seconds offset : Z) : option tm :=
  let t := broken_down seconds offset in
  if (- 2 ^ 31 <=? tm_year t - 1900) && (tm_year t - 1900 <? 2 ^ 31) then Some t else None.

(** [tm t{}], which a conversion that fails is taken to leave as it is. *)
Definition zero_tm : tm := mkTm 1900 1 0 0 0 0 0.

(** [tm t{}; gmtime_r(&seconds, &t)] and the same with [localtime_r], of which no
    one checks the result. *)
Definition gmtime (seconds : Z) : tm := default zero_tm (converted seconds 0).

Definition localtime (seconds offset : Z) : tm := default zero_tm (converted seconds offset).

(** ** Texts *)

(** A number with leading zeros, two and three places wide. *)
Definition pad2 (n : Z) : string := (if n <? 10 then "0" else "") +:+ to_string n.

Definition pad3 (n : Z) : string := (if n <? 10 then "00" else if n <? 100 then "0" else "") +:+ to_string n.

Definition signed_string (n : Z) : string := if n <? 0 then "-" +:+ to_string (- n) else to_string n.

(** [strftime(b, sizeof b, "%Y-%m-%dT%H:%M:%S", &t)]. *)
Definition strftime (t : tm) : string :=
  signed_string (tm_year t) +:+ "-" +:+ pad2 (tm_mon t) +:+ "-" +:+ pad2 (tm_mday t) +:+ "T" +:+
  pad2 (tm_hour t) +:+ ":" +:+ pad2 (tm_min t) +:+ ":" +:+ pad2 (tm_sec t).

(** The lambda [format]; [nsec] is [now.tv_nsec] and [offset] is
    [result.utc_offset_seconds]. *)
Definition format (nsec offset : Z) (t : tm) (isUtc : bool) : string :=
  strftime t +:+ "." +:+ pad3 (nsec / 1000000) +:+
  (if isUtc then "Z"
   else (if offset <? 0 then "-" else "+") +:+ pad2 (Z.abs offset / 3600) +:+ ":" +:+ pad2 (Z.abs offset / 60 mod 60)).

(** ** Reading such a text *)

(** A whole field. *)
Definition number (s : string) : option Z :=
  match from_chars_unsigned 64 10 s with Some (n, EmptyString) => Some n | _ => None end.

(** A field up to a separator, and the rest of the text. *)
Definition field_to (c : ascii) (s : string) : option (Z * string) :=
  match cut c s with
  | (l, Some r) => n ← number l; Some (n, r)
  | (_, None) => None
  end.

(** The days from 1970-01-01 to a date. *)
Definition days_of (y m d : Z) : Z :=
  let y := y - (if m <=? 2 then 1 else 0) in
  let yoe := y mod 400 in
  let doy := (153 * (if m <=? 2 then m + 9 else m - 3) + 2) / 5 + d - 1 in
  y / 400 * 146097 + year_start yoe + doy - 719468.

Definition read_zone (s : string) : option Z :=
  match s with
  | String c rest =>
      if (c ==? "Z"%char) && empty rest then Some 0
      else if (c ==? "+"%char) || (c ==? "-"%char) then
        '(h, rest) ← field_to ":" rest;
        m ← number rest;
        Some ((if c ==? "-"%char then -1 else 1) * (h * 3600 + m * 60))
      else None
  | EmptyString => None
  end.

(** Three digits and the zone. *)
Definition read_fraction (s : string) : option (Z * Z) :=
  ms ← number (str_take 3 s);
  zone ← read_zone (str_drop 3 s);
  Some (ms, zone).

(** The milliseconds since 1970 that a text of the form
    [YYYY-MM-DDTHH:MM:SS.mmm] with [Z] or an offset names. *)
Definition read_timestamp (s : string) : option Z :=
  '(y, s) ← field_to "-" s;
  '(m, s) ← field_to "-" s;
  '(d, s) ← field_to "T" s;
  '(hh, s) ← field_to ":" s;
  '(mm, s) ← field_to ":" s;
  '(ss, s) ← field_to "." s;
  '(ms, zone) ← read_fraction s;
  Some ((days_of y m d * 86400 + hh * 3600 + mm * 60 + ss - zone) * 1000 + ms).

(** ** The calendar is right *)

Lemma year_search_spec fuel y day :
  0 <= y -> year_start y <= day ->
  let r := year_search fuel y day in
  y <= r <= y + Z.of_nat fuel /\ year_start r <= day /\ (day < year_start (r + 1) \/ r = y + Z.of_nat fuel).
Proof.
  revert y. induction fuel as [|fuel IH]; intros y Hy Hd; cbn [year_search]; cbv zeta; [lia|].
  destruct (Z.ltb_spec day (year_start (y + 1))); [lia|]. specialize (IH (y + 1)). cbv zeta in IH. lia.
Qed.

Lemma year_length y : year_start (y + 1) - year_start y <= 366.
Proof. unfold year_start. Z.to_euclidean_division_equations. lia. Qed.

(** The month and the day of a day of the year that starts in March. *)
Lemma month_day doy :
  0 <= doy <= 365 ->
  let mp := (5 * doy + 2) / 153 in 0 <= mp <= 11 /\ 1 <= doy - (153 * mp + 2) / 5 + 1 <= 31.
Proof. cbv zeta. intros. Z.to_euclidean_division_equations. lia. Qed.

(** A date of the calendar counts back to the same day. *)
Lemma civil_days days :
  let '(y, m, d) := civil days in days_of y m d = days /\ 1 <= m <= 12 /\ 1 <= d <= 31 /\
    (-719468 <= days -> 0 <= y /\ 365 * y <= days + 719833).
Proof.
  unfold civil, days_of. set (z := days + 719468).
  pose proof (Z.div_mod z 146097 ltac:(lia)) as Hz. pose proof (Z.mod_pos_bound z 146097 ltac:(lia)) as Hdoe.
  set (era := z / 146097) in *. set (doe := z mod 146097) in *.
  pose proof (year_search_spec 399 0 doe ltac:(lia) ltac:(change (year_start 0) with 0; lia)) as (Hyoe & Hlow & Hhigh).
  set (yoe := year_search 399 0 doe) in *.
  assert (Hyears : -719468 <= days -> 0 <= era /\ 365 * (yoe + era * 400) <= z).
  { intros Hd. assert (0 <= era) by (apply Z.div_pos; lia). split; [done|].
    assert (365 * yoe <= year_start yoe) by (unfold year_start; clear - Hyoe; Z.to_euclidean_division_equations; lia). lia. }
  assert (Hdoy : 0 <= doe - year_start yoe <= 365).
  { split; [lia|]. destruct Hhigh as [Hh|Hh]; [pose proof (year_length yoe); lia|].
    rewrite Hh. change (year_start (0 + Z.of_nat 399)) with 145731. lia. }
  destruct (month_day _ Hdoy) as [Hmp Hd]. set (doy := doe - year_start yoe) in *. set (mp := (5 * doy + 2) / 153) in *.
  assert (Hyear : forall e, (yoe + era * 400 + e - e) mod 400 = yoe /\ (yoe + era * 400 + e - e) / 400 = era).
  { intros e. replace (yoe + era * 400 + e - e) with (yoe + era * 400) by lia.
    rewrite Z.mod_add, Z.div_add, Z.mod_small, Z.div_small by lia. lia. }
  destruct (Z.ltb_spec mp 10).
  - rewrite (proj2 (Z.leb_gt (mp + 3) 2)) by lia. destruct (Hyear 0) as [-> ->].
    replace (mp + 3 - 3) with mp by lia. lia.
  - rewrite (proj2 (Z.leb_le (mp - 9) 2)) by lia. destruct (Hyear 1) as [-> ->].
    replace (mp - 9 + 9) with mp by lia. lia.
Qed.

(** ** The texts are read back *)

Lemma number_to_string n : 0 <= n < 2 ^ 64 -> number (to_string n) = Some n.
Proof. intros H. unfold number. by rewrite from_chars_to_string. Qed.

Lemma number_zero s n : number s = Some n -> number (String "0" s) = Some n.
Proof.
  unfold number, from_chars_unsigned. cbn [digits]. change (digit_val "0") with (Some 0). change (0 <? 10) with true. cbv iota.
  destruct (digits 10 s) as [[|d ds] r]; [done|]. change (value 10 (0 :: d :: ds)) with (value 10 (d :: ds)). done.
Qed.

Lemma number_pad2 n : 0 <= n < 2 ^ 64 -> number (pad2 n) = Some n.
Proof. intros H%number_to_string. unfold pad2. destruct (n <? 10); [by apply number_zero | done]. Qed.

Lemma number_pad3 n : 0 <= n < 2 ^ 64 -> number (pad3 n) = Some n.
Proof.
  intros H%number_to_string. unfold pad3. destruct (n <? 10); [by do 2 apply number_zero|].
  destruct (n <? 100); [by apply number_zero | done].
Qed.

Lemma pad2_digits n : 0 <= n -> str_all is_digit (pad2 n) = true.
Proof. intros H%to_string_all_digits. unfold pad2. by destruct (n <? 10). Qed.

(** Numbers below a bound, one by one. *)
Lemma below_forall (bound : nat) (P : Z -> bool) :
  forallb (fun n => P (Z.of_nat n)) (seq 0 bound) = true -> forall n, 0 <= n < Z.of_nat bound -> P n = true.
Proof.
  rewrite forallb_forall. intros H n Hn. rewrite <- (Z2Nat.id n) by lia. apply H, in_seq. lia.
Qed.

Lemma pad3_length n : 0 <= n < 1000 -> String.length (pad3 n) = 3%nat.
Proof.
  intros Hn. apply Nat.eqb_eq. revert n Hn. apply (below_forall 1000 (fun n => Nat.eqb (String.length (pad3 n)) 3)).
  vm_compute. reflexivity.
Qed.

Lemma field_to_app c t n rest :
  number t = Some n -> str_all is_digit t = true -> is_digit c = false -> field_to c (t +:+ String c "" +:+ rest) = Some (n, rest).
Proof. intros Hn Ht Hc. unfold field_to. change (String c "" +:+ rest) with (String c rest). rewrite cut_app by (by eapply str_all_contains). cbn. by rewrite Hn. Qed.

Lemma read_fraction_app ms zone z :
  0 <= ms < 1000 -> read_zone zone = Some z -> read_fraction (pad3 ms +:+ zone) = Some (ms, z).
Proof.
  intros Hms Hz. unfold read_fraction. rewrite <- (pad3_length ms Hms), str_take_app, str_drop_app, number_pad3 by lia.
  cbn. by rewrite Hz.
Qed.

Lemma signed_string_nonneg n : 0 <= n -> signed_string n = to_string n.
Proof. intros H. unfold signed_string. by rewrite (proj2 (Z.ltb_ge n 0)). Qed.

(** What the fields of a text name. *)
Lemma read_format t ms zone z :
  0 <= tm_year t < 2 ^ 64 -> 0 <= tm_mon t < 2 ^ 64 -> 0 <= tm_mday t < 2 ^ 64 -> 0 <= tm_hour t < 2 ^ 64 ->
  0 <= tm_min t < 2 ^ 64 -> 0 <= tm_sec t < 2 ^ 64 -> 0 <= ms < 1000 -> read_zone zone = Some z ->
  read_timestamp (strftime t +:+ "." +:+ pad3 ms +:+ zone) =
  Some ((days_of (tm_year t) (tm_mon t) (tm_mday t) * 86400 + tm_hour t * 3600 + tm_min t * 60 + tm_sec t - z) * 1000 + ms).
Proof.
  intros Hy Hm Hd Hh Hmi Hs Hms Hz. unfold strftime, read_timestamp. rewrite signed_string_nonneg by lia. rewrite !str_app_assoc.
  assert (Hpad : forall c n rest, is_digit c = false -> 0 <= n < 2 ^ 64 ->
    field_to c (pad2 n +:+ String c "" +:+ rest) = Some (n, rest)).
  { intros c n rest Hc Hn. apply (field_to_app c (pad2 n) n rest); [by apply number_pad2 | apply pad2_digits; lia | done]. }
  rewrite (field_to_app "-" (to_string (tm_year t)) (tm_year t));
    [| by apply number_to_string | apply to_string_all_digits; lia | done].
  cbn [mbind option_bind]. rewrite Hpad by done. cbn [mbind option_bind]. rewrite Hpad by done. cbn [mbind option_bind].
  rewrite Hpad by done. cbn [mbind option_bind]. rewrite Hpad by done. cbn [mbind option_bind].
  rewrite Hpad by done. cbn [mbind option_bind]. rewrite (read_fraction_app ms zone z) by done. done.
Qed.

Lemma read_zone_offset offset :
  Z.abs offset < 2 ^ 63 ->
  read_zone ((if offset <? 0 then "-" else "+") +:+ pad2 (Z.abs offset / 3600) +:+ ":" +:+ pad2 (Z.abs offset / 60 mod 60)) =
  Some (offset - Z.rem offset 60).
Proof.
  intros Hb.
  assert (Hh : 0 <= Z.abs offset / 3600 < 2 ^ 64) by (split; [apply Z.div_pos; lia | apply Z.div_lt_upper_bound; lia]).
  pose proof (Z.mod_pos_bound (Z.abs offset / 60) 60 ltac:(lia)) as Hmi.
  assert (Hsum : Z.abs offset - Z.rem (Z.abs offset) 60 = Z.abs offset / 3600 * 3600 + Z.abs offset / 60 mod 60 * 60)
    by (clear Hh Hmi Hb; Z.to_euclidean_division_equations; lia).
  assert (Hf : field_to ":" (pad2 (Z.abs offset / 3600) +:+ ":" +:+ pad2 (Z.abs offset / 60 mod 60)) =
    Some (Z.abs offset / 3600, pad2 (Z.abs offset / 60 mod 60)))
    by (apply field_to_app; [by apply number_pad2 | apply pad2_digits; lia | done]).
  assert (Hz : forall c, (c = "+"%char \/ c = "-"%char) ->
    read_zone (String c "" +:+ pad2 (Z.abs offset / 3600) +:+ ":" +:+ pad2 (Z.abs offset / 60 mod 60)) =
    Some ((if c ==? "-"%char then -1 else 1) * (Z.abs offset - Z.rem (Z.abs offset) 60))).
  { intros c Hc. unfold read_zone. cbn [String.append].
    replace ((c ==? "Z"%char) && _) with false by (by destruct Hc as [->| ->]).
    replace ((c ==? "+"%char) || (c ==? "-"%char)) with true by (by destruct Hc as [->| ->]).
    change (pad2 (Z.abs offset / 3600) +:+ String ":" ?r) with (pad2 (Z.abs offset / 3600) +:+ ":" +:+ r).
    rewrite Hf. cbn [mbind option_bind]. rewrite number_pad2 by lia. cbn [mbind option_bind]. f_equal. lia. }
  destruct (Z.ltb_spec offset 0); rewrite Hz by auto; f_equal.
  - rewrite bool_decide_eq_true_2 by done. rewrite (Z.abs_neq offset), Z.rem_opp_l by lia. lia.
  - rewrite bool_decide_eq_false_2 by done. rewrite Z.abs_eq by lia. lia.
Qed.

(** The fields of a broken-down time are in range and sum up to it. *)
Lemma broken_down_spec seconds offset :
  let t := broken_down seconds offset in
  days_of (tm_year t) (tm_mon t) (tm_mday t) * 86400 + tm_hour t * 3600 + tm_min t * 60 + tm_sec t = seconds + offset /\
  1 <= tm_mon t <= 12 /\ 1 <= tm_mday t <= 31 /\ 0 <= tm_hour t < 24 /\ 0 <= tm_min t < 60 /\ 0 <= tm_sec t < 60.
Proof.
  unfold broken_down. pose proof (civil_days ((seconds + offset) / 86400)) as Hc.
  destruct (civil _) as [[y m] d]. destruct Hc as (Hdays & Hm & Hd & _). cbn. rewrite Hdays.
  generalize (seconds + offset) as t. intros t. clear Hdays. Z.to_euclidean_division_equations. lia.
Qed.

(** The conversions succeed from the year 1 to the end of 64-bit milliseconds. *)
Lemma broken_down_year seconds offset :
  -62135596800 <= seconds + offset < 2 ^ 54 -> 0 <= tm_year (broken_down seconds offset) < 2 ^ 31.
Proof.
  intros H. unfold broken_down. pose proof (civil_days ((seconds + offset) / 86400)) as Hc.
  destruct (civil _) as [[y m] d]. destruct Hc as (_ & _ & _ & Hy). cbn [tm_year].
  assert (-719468 <= (seconds + offset) / 86400 < 208499990000)
    by (split; [apply Z.div_le_lower_bound; lia | apply Z.div_lt_upper_bound; lia]). lia.
Qed.

Lemma converted_some seconds offset :
  -62135596800 <= seconds + offset < 2 ^ 54 -> default zero_tm (converted seconds offset) = broken_down seconds offset.
Proof.
  intros H%broken_down_year. unfold converted. rewrite (proj2 (Z.leb_le _ _)), (proj2 (Z.ltb_lt _ _)) by lia. done.
Qed.

(** A reader of RFC 3339 texts gets the milliseconds since 1970 back from the UTC
    text. From the local text with its offset it gets the same, if the offset is
    of whole minutes; of the seconds of another offset, which the text leaves
    out, it is late. *)
Lemma timestamps_read_back seconds nsec offset :
  0 <= seconds < 10 ^ 16 -> 0 <= nsec < 1000000000 -> Z.abs offset < 2 ^ 31 ->
  read_timestamp (format nsec offset (gmtime seconds) true) = Some (seconds * 1000 + nsec / 1000000) /\
  read_timestamp (format nsec offset (localtime seconds offset) false) =
    Some (seconds * 1000 + nsec / 1000000 + 1000 * Z.rem offset 60).
Proof.
  intros Hs Hn Ho. unfold format, gmtime, localtime. rewrite !converted_some by lia.
  assert (Hms : 0 <= nsec / 1000000 < 1000) by (split; [apply Z.div_pos; lia | apply Z.div_lt_upper_bound; lia]).
  destruct (broken_down_spec seconds 0) as (Hu & Hu1 & Hu2 & Hu3 & Hu4 & Hu5).
  destruct (broken_down_spec seconds offset) as (Hl & Hl1 & Hl2 & Hl3 & Hl4 & Hl5).
  pose proof (broken_down_year seconds 0 ltac:(lia)). pose proof (broken_down_year seconds offset ltac:(lia)). split.
  - rewrite (read_format (broken_down seconds 0) _ "Z" 0), Hu; [f_equal; lia | lia.. | done].
  - rewrite (read_format (broken_down seconds offset) _ _ (offset - Z.rem offset 60)), Hl;
      [f_equal; lia | lia.. | apply read_zone_offset; lia].
Qed.

Example leap_day :
  format 7000000 (-12600) (gmtime 1709164800) true = "2024-02-29T00:00:00.007Z" /\
  format 7000000 (-12600) (localtime 1709164800 (-12600)) false = "2024-02-28T20:30:00.007-03:30".
Proof. split; vm_compute; reflexivity. Qed.

(** Beyond the range of [int] years the conversions fail and the text is that of
    the empty structure. *)
Example year_overflow : format 0 0 (gmtime (2 ^ 62)) true = "1900-01-00T00:00:00.000Z".
Proof. vm_compute. reflexivity. Qed.
