(* ===== verification/Bus.v ===== *)
(** * The node that the native platform runs on (daemon/backend.cpp, lines 25 to 109)

    [Node] is the interface of what the native platform uses besides files: the
    system bus, the steady clock, the kernel's network interfaces, links and the
    wall clock. On top of it, the helpers of daemon/backend.cpp that talk to the
    bus: [checked], [call], [property], [unitState] and [unit], the transition of
    a systemd unit that waits for its end.

    The ghost trace of [Native] lists what was asked of the bus and what was
    seen of the units, in order. *)

From S2P Require Import Prelude SystemTypes Effects Host Backend Clock.

(** ** The system bus *)

Inductive bus_value :=
  | BObject (path : string)
  | BText (text : string)
  | BTexts (texts : list string)
  | BInt (n : Z)
  | BBool (b : bool).

(** Destination, object, interface and member. *)
Record bus_method := mkMethod { bm_dest : string; bm_path : string; bm_iface : string; bm_member : string }.

#[export] Instance bus_value_eq_dec : EqDecision bus_value.
Proof. solve_decision. Defined.

#[export] Instance bus_method_eq_dec : EqDecision bus_method.
Proof. solve_decision. Defined.

(** A negative return code, [sd_bus_error::message] (null for [None]) and the
    text of [strerror]. *)
Record bus_failure := mkFailure { bf_code : Z; bf_message : option string; bf_strerror : string }.

(** ** The interface *)

Class Node (W : Type) `{Host W} := {
  (** The steady clock, in nanoseconds, as it would be read now. *)
  steady : W -> Z;
  steady_clock_now : W -> W * Z;
  sleep_for : Z -> W -> W;
  (** Whether [sd_bus_open_system] succeeded. *)
  sd_bus_open_system : W -> W * bool;
  sd_bus_call_method : bus_method -> list bus_value -> W -> W * (bus_failure + list bus_value);
  sd_bus_get_property_string : bus_method -> W -> W * (bus_failure + string);
  (** 0 when there is no such interface. *)
  if_nametoindex : string -> W -> W * Z;
  canonical_path : string -> W -> W * outcome string;
  is_regular_file : string -> W -> W * outcome bool;
  create_symlink : string -> string -> W -> W * outcome unit;
  rename_file : string -> string -> W -> W * outcome unit;
  read_symlink : string -> W -> W * outcome string;
  chmod_ok : string -> W -> W * bool;
  sethostname_ok : string -> W -> W * bool;
  (** [utsname::release], when [uname] succeeds. *)
  uname_release : W -> W * option string;
  (** Seconds and nanoseconds of [CLOCK_REALTIME]. *)
  clock_realtime : W -> W * option (Z * Z);
  (** [tm_gmtoff] of [localtime_r]: the offset of the zone in force at a time. *)
  local_offset : Z -> W -> W * Z;
  (** The names in a directory; [None] when it cannot be opened. *)
  list_directory : string -> W -> W * option (list string);
  (** The entries of /sys/class/net, and the answer of ETHTOOL_GET_TS_INFO. *)
  net_entries : W -> W * outcome (list net_entry);
  ts_info : string -> W -> option ethtool_ts_info
}.

(** [own p]: the file [p] belongs to the manager, so that no other service
    writes it. *)
Class NodeLaws (W : Type) `{Node W} (own : string -> Prop) := {
  steady_now_law w : steady w <= snd (steady_clock_now w) <= steady (fst (steady_clock_now w));
  sleep_for_law d w : 0 <= d -> steady w + d <= steady (sleep_for d w);
  steady_open w : steady w <= steady (fst (sd_bus_open_system w));
  steady_call m args w : steady w <= steady (fst (sd_bus_call_method m args w));
  steady_property m w : steady w <= steady (fst (sd_bus_get_property_string m w));
  now_frame w q : file (fst (steady_clock_now w)) q = file w q;
  sleep_frame d w q : file (sleep_for d w) q = file w q;
  open_frame w q : file (fst (sd_bus_open_system w)) q = file w q;
  call_frame m args w q : own q -> file (fst (sd_bus_call_method m args w)) q = file w q;
  property_frame m w q : own q -> file (fst (sd_bus_get_property_string m w)) q = file w q;
  nametoindex_frame n w q : file (fst (if_nametoindex n w)) q = file w q;
  canonical_frame p w q : file (fst (canonical_path p w)) q = file w q;
  regular_frame p w q : file (fst (is_regular_file p w)) q = file w q;
  symlink_frame t p w q : q <> p -> file (fst (create_symlink t p w)) q = file w q;
  rename_frame a b w q : q <> a -> q <> b -> file (fst (rename_file a b w)) q = file w q;
  read_symlink_frame p w q : file (fst (read_symlink p w)) q = file w q;
  chmod_frame p w q : file (fst (chmod_ok p w)) q = file w q;
  sethostname_frame n w q : file (fst (sethostname_ok n w)) q = file w q;
  uname_frame w q : file (fst (uname_release w)) q = file w q;
  realtime_frame w q : file (fst (clock_realtime w)) q = file w q;
  offset_frame t w q : file (fst (local_offset t w)) q = file w q;
  list_directory_frame p w q : file (fst (list_directory p w)) q = file w q;
  net_entries_frame w q : file (fst (net_entries w)) q = file w q
}.

(** ** The platform's object *)

Inductive deed :=
  | Asked (m : bus_method) (args : list bus_value) (ok : bool)   (* a method call on the bus *)
  | Seen (name state : string)                                   (* a unit's ActiveState *)
  | Written (path value : string).                               (* a file, atomically *)

Record Native (W : Type) := mkNative {
  nv_world : W;
  nv_trace : list deed   (* ghost, newest first *)
}.
Arguments mkNative {W}.
Arguments nv_world {W}.
Arguments nv_trace {W}.

Section bus.
Context {W : Type} {HO : Host W} {NO : Node W}.

Abbreviation N := (eff (Native W)).

(** A library function that does not throw, and one that may. *)
Definition sys_call {A} (f : W -> W * A) : N A := fun s =>
  let '(w, a) := f (nv_world s) in (mkNative w (nv_trace s), Return a).

Definition world {A} (f : W -> W * outcome A) : N A := fun s =>
  let '(w, r) := f (nv_world s) in (mkNative w (nv_trace s), r).

Definition did (d : deed) : N unit := modify (fun s => mkNative (nv_world s) (d :: nv_trace s)).

(** [Bus::Bus]. *)
Definition open_bus : N unit :=
  ok ← sys_call sd_bus_open_system;
  if (ok : bool) then mret tt else throw_err unavailable "system bus unavailable".

Definition EACCES : Z := 13.
Definition ETIMEDOUT : Z := 110.

Definition checked {A} (r : bus_failure + A) : N A :=
  match r with
  | inl f =>
      let message := match bf_message f with Some m => m | None => bf_strerror f end in
      throw_err (if bf_code f =? - EACCES then permission_denied
                 else if bf_code f =? - ETIMEDOUT then timeout else apply_failed) message
  | inr a => mret a
  end.

(** [call]. *)
Definition bus_call (m : bus_method) (args : list bus_value) : N (list bus_value) :=
  r ← sys_call (sd_bus_call_method m args);
  _ ← did (Asked m args (match r with inl _ => false | inr _ => true end));
  checked r.

(** [property]. *)
Definition bus_property (m : bus_method) : N string :=
  r ← sys_call (sd_bus_get_property_string m);
  checked r.

Definition systemd (member : string) : bus_method :=
  mkMethod "org.freedesktop.systemd1" "/org/freedesktop/systemd1" "org.freedesktop.systemd1.Manager" member.

(** [sd_bus_message_read(m, "o", ...)] and [sd_bus_message_read(m, "s", ...)]. *)
Definition read_object (reply : list bus_value) : option string :=
  match reply with BObject p :: _ => Some p | _ => None end.

Definition read_text (reply : list bus_value) : option string :=
  match reply with BText t :: _ => Some t | _ => None end.

Definition unitState (name : string) : N string :=
  if empty name then mret "inactive"
  else
    m ← bus_call (systemd "LoadUnit") [BText name];
    match read_object m with
    | None => throw_err unavailable "invalid unit reply"
    | Some path =>
        state ← bus_property (mkMethod "org.freedesktop.systemd1" path "org.freedesktop.systemd1.Unit" "ActiveState");
        _ ← did (Seen name state);
        mret state
    end.

(** The condition of both returns of [unit]. *)
Definition settled (start : bool) (state : string) : bool :=
  (start && (state ==? "active")) || (negb start && ((state ==? "inactive") || (state ==? "failed"))).

(** The loop of [unit]. Each round sleeps 50 ms, so that 200 rounds reach the
    deadline; [UnknownException] stands for the end of the fuel. *)
Fixpoint poll (fuel : nat) (name : string) (start : bool) (deadline : Z) : N unit :=
  match fuel with
  | O => throw UnknownException
  | S fuel' =>
      state ← unitState name;
      if settled start state then mret tt
      else if start && (state ==? "failed") then throw_err apply_failed ("unit failed: " +:+ name)
      else
        _ ← sys_call (fun w => (sleep_for 50000000 w, tt));
        now ← sys_call steady_clock_now;
        if now <? deadline then poll fuel' name start deadline
        else throw_err timeout ("unit transition timed out: " +:+ name)
  end.

Definition unit_transition (name : string) (start : bool) : N unit :=
  state ← unitState name;
  if settled start state then mret tt
  else
    _ ← bus_call (systemd (if start then "StartUnit" else "StopUnit")) [BText name; BText "replace"];
    now ← sys_call steady_clock_now;
    poll 200 name start (now + 10000000000).

End bus.

(** ** What the calls leave in the trace and in the files *)

Section relations.
Context {W : Type} {HO : Host W} {NO : Node W}.

(** The run of [s'] since [s] consists of deeds with [P]. *)
Definition extends (P : deed -> Prop) (s s' : Native W) : Prop :=
  exists run, nv_trace s' = run ++ nv_trace s /\ Forall P run.

(** The file [q] is as it was. *)
Definition keeps (q : string) (s s' : Native W) : Prop := file (nv_world s') q = file (nv_world s) q.

(** The steady clock does not go back. *)
Definition later (s s' : Native W) : Prop := steady (nv_world s) <= steady (nv_world s').

#[export] Instance extends_preorder P : PreOrder (extends P).
Proof.
  split.
  - intros s. by exists [].
  - intros s1 s2 s3 (r1 & H1 & P1) (r2 & H2 & P2). exists (r2 ++ r1). rewrite H2, H1, app_assoc.
    split; [done | by apply Forall_app].
Qed.

#[export] Instance keeps_preorder q : PreOrder (keeps q).
Proof. split; [done | unfold keeps; intros s1 s2 s3; congruence]. Qed.

#[export] Instance later_preorder : PreOrder later.
Proof. split; [intros s; unfold later; lia | unfold later; intros s1 s2 s3; lia]. Qed.

Lemma extends_mono (P Q : deed -> Prop) s s' : (forall d, P d -> Q d) -> extends P s s' -> extends Q s s'.
Proof. intros H (run & Hr & HP). exists run. split; [done|]. eapply Forall_impl; [exact HP | exact H]. Qed.

Lemma within_mono {A} (R R' : relation (Native W)) (m : eff (Native W) A) :
  (forall s s', R s s' -> R' s s') -> within R m -> within R' m.
Proof. intros H Hm s. apply H, Hm. Qed.

Lemma within_sys_call {A} R (f : W -> W * A) :
  (forall w t, R (mkNative w t) (mkNative (fst (f w)) t)) -> within R (sys_call f).
Proof. intros H [w t]. unfold sys_call. cbn. specialize (H w t). by destruct (f w). Qed.

Lemma within_world {A} R (f : W -> W * outcome A) :
  (forall w t, R (mkNative w t) (mkNative (fst (f w)) t)) -> within R (world f).
Proof. intros H [w t]. unfold world. cbn. specialize (H w t). by destruct (f w). Qed.

(** Functions of the world leave no deed. *)
Lemma extends_sys_call {A} P (f : W -> W * A) : within (extends P) (sys_call f).
Proof. apply within_sys_call. intros w t. by exists []. Qed.

Lemma extends_world {A} P (f : W -> W * outcome A) : within (extends P) (world f).
Proof. apply within_world. intros w t. by exists []. Qed.

Lemma extends_did P d : P d -> within (extends P) (did d).
Proof. intros H [w t]. exists [d]. split; [done | by apply Forall_singleton]. Qed.

Lemma keeps_did q d : within (keeps q) (did d).
Proof. by intros [w t]. Qed.

Lemma later_did d : within later (did d).
Proof. intros [w t]. unfold later. cbn. lia. Qed.

Lemma within_checked {A} (R : relation (Native W)) `{!PreOrder R} (r : bus_failure + A) : within R (checked r).
Proof. unfold checked. within_auto. Qed.

#[local] Hint Resolve extends_sys_call extends_world extends_did keeps_did later_did within_checked : within.

Lemma extends_bus_call P m args : (forall ok, P (Asked m args ok)) -> within (extends P) (bus_call m args).
Proof. intros H. unfold bus_call. within_auto. Qed.

Lemma extends_bus_property P m : within (extends P) (bus_property m).
Proof. unfold bus_property. within_auto. Qed.

(** The deeds of a transition of a unit: looking at it, and the one command. *)
Definition about (name : string) (start : bool) (d : deed) : Prop :=
  match d with
  | Seen n _ => n = name
  | Asked m args _ =>
      m = systemd "LoadUnit" /\ args = [BText name] \/
      m = systemd (if start then "StartUnit" else "StopUnit") /\ args = [BText name; BText "replace"]
  | Written _ _ => False
  end.

Lemma extends_unitState P name :
  (forall ok, P (Asked (systemd "LoadUnit") [BText name] ok)) -> (forall st, P (Seen name st)) ->
  within (extends P) (unitState name).
Proof.
  intros HL HS. pose proof (extends_bus_call P (systemd "LoadUnit") [BText name] HL).
  pose proof (extends_bus_property P). unfold unitState. within_auto.
Qed.

Lemma extends_poll fuel name start deadline : within (extends (about name start)) (poll fuel name start deadline).
Proof.
  pose proof (extends_unitState (about name start) name ltac:(cbn; auto) ltac:(done)).
  induction fuel as [|fuel IH]; cbn [poll]; within_auto.
Qed.

Lemma extends_unit_transition name start : within (extends (about name start)) (unit_transition name start).
Proof.
  pose proof (extends_unitState (about name start) name ltac:(cbn; auto) ltac:(done)).
  pose proof (extends_bus_call (about name start) (systemd (if start then "StartUnit" else "StopUnit"))
    [BText name; BText "replace"] ltac:(cbn; auto)).
  pose proof extends_poll. unfold unit_transition. within_auto.
Qed.

End relations.

#[export] Hint Resolve extends_sys_call extends_world extends_did extends_bus_property keeps_did later_did within_checked : within.

(** ** Files and the clock across the calls *)

Section laws.
Context {W : Type} {HO : Host W} {NO : Node W} {own : string -> Prop} {NL : NodeLaws W own}.

Lemma keeps_sys_call {A} q (f : W -> W * A) :
  (forall w, file (fst (f w)) q = file w q) -> within (keeps q) (sys_call f).
Proof. intros H. apply within_sys_call. intros w t. apply H. Qed.

Lemma keeps_world {A} q (f : W -> W * outcome A) :
  (forall w, file (fst (f w)) q = file w q) -> within (keeps q) (world f).
Proof. intros H. apply within_world. intros w t. apply H. Qed.

Lemma later_sys_call {A} (f : W -> W * A) :
  (forall w, steady w <= steady (fst (f w))) -> within later (sys_call f).
Proof. intros H. apply within_sys_call. intros w t. apply H. Qed.

Lemma keeps_open_bus q : within (keeps q) open_bus.
Proof. pose proof (keeps_sys_call q sd_bus_open_system (fun w => open_frame w q)). unfold open_bus. within_auto. Qed.

Lemma keeps_bus_call q m args : own q -> within (keeps q) (bus_call m args).
Proof.
  intros Hq. pose proof (keeps_sys_call q (sd_bus_call_method m args) (fun w => call_frame m args w q Hq)).
  unfold bus_call. within_auto.
Qed.

Lemma keeps_bus_property q m : own q -> within (keeps q) (bus_property m).
Proof.
  intros Hq. pose proof (keeps_sys_call q (sd_bus_get_property_string m) (fun w => property_frame m w q Hq)).
  unfold bus_property. within_auto.
Qed.

Lemma later_bus_call m args : within later (bus_call m args).
Proof.
  pose proof (later_sys_call (sd_bus_call_method m args) (steady_call m args)). unfold bus_call. within_auto.
Qed.

Lemma later_unitState name : within later (unitState name).
Proof.
  pose proof later_bus_call.
  pose proof (fun m => later_sys_call (sd_bus_get_property_string m) (steady_property m)).
  unfold unitState, bus_property. within_auto.
Qed.

#[local] Hint Resolve keeps_bus_call keeps_bus_property : within.

Lemma keeps_unitState q name : own q -> within (keeps q) (unitState name).
Proof. intros Hq. unfold unitState. within_auto. Qed.

Lemma keeps_unit_transition q name start : own q -> within (keeps q) (unit_transition name start).
Proof.
  intros Hq. pose proof (keeps_unitState q name Hq).
  pose proof (keeps_sys_call q steady_clock_now (fun w => now_frame w q)).
  pose proof (keeps_sys_call q (fun w => (sleep_for 50000000 w, tt)) (fun w => sleep_frame 50000000 w q)).
  assert (Hp : forall fuel deadline, within (keeps q) (poll fuel name start deadline))
    by (intros fuel deadline; induction fuel as [|fuel IH]; cbn [poll]; within_auto).
  unfold unit_transition. within_auto.
Qed.

(** ** The transition of a unit *)

Definition is_error (e : exn) : Prop := match e with Error _ => True | _ => False end.

(** The last thing done since [s] was to see the unit where it should be. An
    optional unit, without a name, counts as stopped. *)
Definition seen_settled (name : string) (start : bool) (s s' : Native W) : Prop :=
  (name = "" /\ start = false) \/
  exists state run, nv_trace s' = Seen name state :: run ++ nv_trace s /\ settled start state = true.

(** Time passed, and deeds were added. *)
Definition onward (s s' : Native W) : Prop := later s s' /\ extends (fun _ => True) s s'.

#[local] Instance onward_preorder : PreOrder onward.
Proof. split; [intros s; split; reflexivity | intros s1 s2 s3 [] []; split; by etrans]. Qed.

Lemma seen_settled_onward name start s1 s2 s3 :
  onward s1 s2 -> seen_settled name start s2 s3 -> seen_settled name start s1 s3.
Proof.
  intros [_ (run & Hr & _)] [?|(state & run' & Ht & Hs)]; [by left|]. right. exists state, (run' ++ run).
  by rewrite Ht, Hr, app_assoc.
Qed.

Lemma within_onward {A} (m : eff (Native W) A) : within later m -> within (extends (fun _ => True)) m -> within onward m.
Proof. intros H1 H2 s. split; [apply H1 | apply H2]. Qed.

Lemma wp_sys_call {A} (f : W -> W * A) (Q : A -> Native W -> Prop) E s :
  wp (sys_call f) Q E s <-> Q (snd (f (nv_world s))) (mkNative (fst (f (nv_world s))) (nv_trace s)).
Proof. unfold wp, sys_call. by destruct (f (nv_world s)). Qed.

Lemma wp_world {A} (f : W -> W * outcome A) (Q : A -> Native W -> Prop) E s :
  wp (world f) Q E s <->
  match snd (f (nv_world s)) with
  | Return a => Q a (mkNative (fst (f (nv_world s))) (nv_trace s))
  | Throw e => E e (mkNative (fst (f (nv_world s))) (nv_trace s))
  end.
Proof. unfold wp, world. destruct (f (nv_world s)) as [w []]; done. Qed.

Lemma wp_checked {A} (r : bus_failure + A) Q (E : exn -> Native W -> Prop) s :
  (forall a, r = inr a -> Q a s) -> (forall e, is_error e -> E e s) -> wp (checked r) Q E s.
Proof. intros HQ HE. destruct r as [f|a]; [apply wp_throw, HE; done | apply wp_ret; auto]. Qed.

Lemma wp_bus_call m args (Q : list bus_value -> Native W -> Prop) E s :
  (forall reply s', onward s s' -> Q reply s') -> (forall e s', is_error e -> E e s') -> wp (bus_call m args) Q E s.
Proof.
  intros HQ HE.
  pose proof (within_wp onward (bus_call m args) s
    (within_onward _ (later_bus_call m args) (extends_bus_call _ m args (fun _ => I)))) as Hl.
  assert (He : wp (bus_call m args) (fun _ _ => True) (fun e _ => is_error e) s).
  { unfold bus_call. wp_step. apply wp_sys_call. apply wp_bind, wp_modify, wp_checked; auto. }
  eapply wp_mono; [exact (wp_and _ _ _ _ _ _ Hl He) | cbn; intros; apply HQ; tauto | cbn; intros; apply HE; tauto].
Qed.

Lemma wp_unitState name start s :
  wp (unitState name)
    (fun state s' => (settled start state = true -> seen_settled name start s s') /\ onward s s')
    (fun e _ => is_error e) s.
Proof.
  pose proof (within_wp onward (unitState name) s
    (within_onward _ (later_unitState name) (extends_unitState _ name (fun _ => I) (fun _ => I)))) as Hl.
  assert (He : wp (unitState name)
    (fun state s' => settled start state = true -> seen_settled name start s s') (fun e _ => is_error e) s).
  { unfold unitState. destruct (empty name) eqn:En.
    { apply wp_ret. intros Hs. left. split; [by apply empty_spec|]. by destruct start. }
    wp_step. apply wp_bus_call; [|done]. intros m s1 [_ (run & Hr & _)]. destruct (read_object m); [|done].
    wp_step. unfold bus_property. wp_step. apply wp_sys_call. apply wp_checked; [|done]. intros state _.
    wp_steps. intros Hs. right. exists state, run. cbn. by rewrite Hr. }
  eapply wp_mono; [exact (wp_and _ _ _ _ _ _ He Hl) | cbn; tauto | cbn; tauto].
Qed.

(** The fuel that is left reaches the deadline. *)
Definition enough (fuel : nat) (deadline : Z) (s : Native W) : Prop :=
  (0 < fuel)%nat /\ deadline <= steady (nv_world s) + 50000000 * Z.of_nat fuel.

Lemma wp_poll fuel name start deadline s :
  enough fuel deadline s ->
  wp (poll fuel name start deadline) (fun _ s' => seen_settled name start s s') (fun e _ => is_error e) s.
Proof.
  revert s. induction fuel as [|fuel IH]; intros s [Hf Hd]; [lia|]. cbn [poll].
  wp_step. eapply wp_mono; [apply (wp_unitState name start s) | | done]. cbn. intros state s1 [Hset Hl].
  destruct (settled start state) eqn:Es; [by apply wp_ret, Hset|].
  destruct (start && _); [done|].
  apply wp_bind, wp_sys_call, wp_bind, wp_sys_call. cbn [nv_world nv_trace fst].
  pose proof (sleep_for_law 50000000 (nv_world s1) ltac:(lia)) as Hsleep.
  pose proof (steady_now_law (sleep_for 50000000 (nv_world s1))) as Hnow.
  destruct (Z.ltb_spec (snd (steady_clock_now (sleep_for 50000000 (nv_world s1)))) deadline); [|done].
  destruct Hl as [Hl Hx]. unfold later in Hl. rewrite Nat2Z.inj_succ in Hd.
  eapply wp_mono; [apply IH; unfold enough; cbn [nv_world]; lia | | done].
  intros ? s'. cbv beta. apply seen_settled_onward. split; [unfold later; cbn [nv_world]; lia | exact Hx].
Qed.

Lemma wp_unit_transition name start s :
  wp (unit_transition name start) (fun _ s' => seen_settled name start s s') (fun e _ => is_error e) s.
Proof.
  unfold unit_transition. wp_step. eapply wp_mono; [apply (wp_unitState name start s) | | done].
  cbv beta. intros state s1 [Hset Hl1]. destruct (settled start state) eqn:Es; [by apply wp_ret, Hset|].
  wp_step. apply wp_bus_call; [|done]. intros _ s2 Hl2. apply wp_bind, wp_sys_call.
  pose proof (steady_now_law (nv_world s2)) as Hnow.
  eapply wp_mono; [apply wp_poll; unfold enough; cbn [nv_world]; lia | | done].
  intros ? s'. cbv beta. apply seen_settled_onward. etrans; [exact Hl1|]. etrans; [exact Hl2|].
  split; [unfold later; cbn [nv_world]; lia | by exists []].
Qed.

(** C19: Starting or stopping a unit ends: it returns only after the unit was
    seen active (stopped or failed, for a stop), and otherwise throws an error
    after at most ten seconds of polling; on a clock that does not go back, 200
    rounds of 50 ms are enough, so that the fuel of the model never runs out. *)
Theorem unit_transition_settles name start s :
  match unit_transition name start s with
  | (s', Return _) => seen_settled name start s s'
  | (s', Throw e) => is_error e
  end.
Proof. exact (wp_unit_transition name start s). Qed.

(** A sequence of transitions in one direction: every unit was seen, or is
    optional, and nothing else was done. *)
Lemma wp_units names start s :
  wp (for_each (fun name => unit_transition name start) names)
    (fun _ s' => exists run, nv_trace s' = run ++ nv_trace s /\ Forall (fun d => exists n, n ∈ names /\ about n start d) run /\
       forall n, n ∈ names -> (n = "" /\ start = false) \/ exists state, Seen n state ∈ run /\ settled start state = true)
    (fun _ s' => extends (fun d => exists n, n ∈ names /\ about n start d) s s') s.
Proof.
  revert s. induction names as [|n names IH]; intros s; cbn [for_each].
  { apply wp_ret. exists []. split_and!; [done | done | by intros n ?%elem_of_nil]. }
  wp_step. pose proof (wp_unit_transition n start s) as Ht.
  pose proof (within_wp (extends (about n start)) _ s (extends_unit_transition n start)) as He.
  eapply wp_mono; [exact (wp_and _ _ _ _ _ _ Ht He) | | ].
  - intros _ s1 [Hs (run1 & Hr1 & Ha1)]. cbv beta.
    assert (Ha1' : Forall (fun d => exists n', n' ∈ n :: names /\ about n' start d) run1)
      by (eapply Forall_impl; [exact Ha1 | intros d Hd; exists n; split; [left | done]]).
    eapply wp_mono; [apply IH | |].
    + intros _ s2 (run2 & Hr2 & Ha2 & Hseen). exists (run2 ++ run1). rewrite Hr2, Hr1, app_assoc. split_and!; [done| |].
      * apply Forall_app. split; [|done]. eapply Forall_impl; [exact Ha2|].
        intros d (n' & Hn' & Hd). exists n'. split; [by right | done].
      * intros n' Hin. apply elem_of_cons in Hin as [Heq|Hn']; [subst n'|].
        -- destruct Hs as [?|(state & run & Hrun & Hset)]; [by left|]. right. exists state. split; [|done].
           rewrite Hr1 in Hrun. apply elem_of_app. right.
           change (Seen n state :: run ++ nv_trace s) with ((Seen n state :: run) ++ nv_trace s) in Hrun.
           apply app_inv_tail in Hrun. rewrite Hrun. left.
        -- destruct (Hseen n' Hn') as [?|(state & Hin & Hset)]; [by left|]. right. exists state.
           split; [apply elem_of_app; by left | done].
    + intros e s2 (run2 & Hr2 & Ha2). exists (run2 ++ run1). rewrite Hr2, Hr1, app_assoc. split; [done|].
      apply Forall_app. split; [|done]. eapply Forall_impl; [exact Ha2|].
      intros d (n' & Hn' & Hd). exists n'. split; [by right | done].
  - intros e s1 [_ He1]. eapply extends_mono; [|exact He1]. intros d Hd. exists n. split; [left | done].
Qed.

End laws.
