(* ===== verification/Native.v ===== *)
(** * The native platform (daemon/backend.cpp)

    [Native] implements the interface [Platform] of the manager on a [Node]:
    discovery, status, validation against the hardware, and the operations that
    change the host name, the time zone, the clock units, the network files, SSH
    and power, in the order of the source. The JSON reader of networkd's link
    descriptions and the standard library's time zone database are parameters. *)

From stdpp Require Import sorting.
From S2P Require Import Prelude SystemTypes Validation Effects Host Backend Clock NetworkFile ZoneCatalog Timestamp Bus.

(** ** Texts and addresses *)

Definition trim_char (c : ascii) : bool :=
  (c ==? " "%char) || (c ==? chr 13) || (c ==? chr 10) || (c ==? chr 9).

Fixpoint trim_front (s : string) : string :=
  match s with
  | EmptyString => ""
  | String c rest => if trim_char c then trim_front rest else s
  end.

Fixpoint trim_back (s : string) : string :=
  match s with
  | EmptyString => ""
  | String c rest =>
      match trim_back rest with
      | EmptyString => if trim_char c then "" else String c ""
      | rest' => String c rest'
      end
  end.

Definition trim (v : string) : string := trim_back (trim_front v).

Definition AF_INET : Z := 2.
Definition AF_INET6 : Z := 10.

(** [%x] of a 16-bit number. *)
Definition hex_word (w : Z) : string :=
  (if w <? 4096 then "" else String (hex_digit (w / 4096)) "") +:+
  (if w <? 256 then "" else String (hex_digit (w / 256 mod 16)) "") +:+
  (if w <? 16 then "" else String (hex_digit (w / 16 mod 16)) "") +:+
  String (hex_digit (w mod 16)) "".

Fixpoint words (bytes : list Z) : list Z :=
  match bytes with
  | hi :: lo :: rest => hi * 256 + lo :: words rest
  | _ => []
  end.

(** The first longest run of zero words: its start and its length. *)
Fixpoint zero_run (i : nat) (cur best : option (nat * nat)) (ws : list Z) : option (nat * nat) :=
  let better :=
    match cur, best with
    | Some (_, l), Some (_, l') => if (l' <? l)%nat then cur else best
    | Some _, None => cur
    | None, _ => best
    end in
  match ws with
  | [] => better
  | w :: rest =>
      if w =? 0 then
        zero_run (S i) (match cur with Some (b, l) => Some (b, S l) | None => Some (i, 1%nat) end) best rest
      else zero_run (S i) None better rest
  end.

Definition inet_ntop4 (bytes : list Z) : string := join "." (map to_string bytes).

(** The loop of [inet_ntop] over the words of an IPv6 address from the [i]th on. *)
Fixpoint ntop6 (i : nat) (run : option (nat * nat)) (bytes ws : list Z) : string :=
  match ws with
  | [] => match run with Some (b, l) => if (b + l =? 8)%nat then ":" else "" | None => "" end
  | w :: rest =>
      match run with
      | Some (b, l) =>
          if ((b <=? i) && (i <? b + l))%nat then (if (i =? b)%nat then ":" else "") +:+ ntop6 (S i) run bytes rest
          else
            (if (i =? 0)%nat then "" else ":") +:+
            (if (i =? 6)%nat && (b =? 0)%nat && ((l =? 6)%nat || ((l =? 5)%nat && (nth 5 (words bytes) 0 =? 65535)))
             then inet_ntop4 (drop 12 bytes)
             else hex_word w +:+ ntop6 (S i) run bytes rest)
      | None => (if (i =? 0)%nat then "" else ":") +:+ hex_word w +:+ ntop6 (S i) run bytes rest
      end
  end.

Definition inet_ntop6 (bytes : list Z) : string :=
  let run := match zero_run 0 None None (words bytes) with
             | Some (b, l) => if (l <? 2)%nat then None else Some (b, l)
             | None => None
             end in
  ntop6 0 run bytes (words bytes).

(** [inet_ntop]: [None] for another family. *)
Definition inet_ntop (family : Z) (bytes : list Z) : option string :=
  if family =? AF_INET then Some (inet_ntop4 bytes)
  else if family =? AF_INET6 then Some (inet_ntop6 bytes)
  else None.

Definition address (bytes : list Z) (family : Z) : string :=
  if negb (Z.of_nat (length bytes) =? (if family =? AF_INET then 4 else 16)) then ""
  else match inet_ntop family bytes with Some text => text | None => "" end.

(** ** Link descriptions *)

Record AddressInfo := mkAddressInfo {
  ai_Family : Z; ai_Address : list Z; ai_PrefixLength : Z; ai_ConfigSource : string
}.

Record RouteInfo := mkRouteInfo {
  ri_Family : Z; ri_Gateway : list Z; ri_DestinationPrefixLength : Z; ri_ConfigSource : string
}.

Record DnsInfo := mkDnsInfo { di_Family : Z; di_Address : list Z; di_ConfigSource : string }.

Record LinkInfo := mkLinkInfo {
  li_NetworkFile : string;
  li_NetworkFileDropins : list string;
  li_Addresses : list AddressInfo;
  li_Routes : list RouteInfo;
  li_DNS : list DnsInfo;
  li_CarrierState : string
}.

(** One line of a file in [dhcpEnabled]: the section and the flag. *)
Definition dhcp_line (acc : string * bool) (raw : string) : string * bool :=
  let '(section, enabled) := acc in
  let line := trim raw in
  if starts_with "[" line then (line, enabled)
  else if (section ==? "[Network]") && starts_with "DHCP=" line then
    let value := trim (str_drop 5 line) in
    (section, (value ==? "yes") || (value ==? "true") || (value ==? "ipv4"))
  else (section, enabled).

(** The lines of one file; the section starts anew. *)
Definition dhcp_file (enabled : bool) (text : string) : bool := snd (fold_left dhcp_line (lines text) ("", enabled)).

(** [fs::path(a) / b]. *)
Definition fs_join (a b : string) : string := if starts_with "/" b then b else path_append a b.

(** [static_cast<std::uint8_t>]. *)
Definition u8 (z : Z) : Z := z mod 2 ^ 8.


Module NativePlatform.
Section native.
Context {W : Type} {HO : Host W} {NO : Node W} (read_link : string -> option LinkInfo) (profile_ : Profile).
Context (tzdb : Z -> W -> string -> option (string * Z)).

Abbreviation N := (eff (Native W)).

Definition hostname1 (member : string) : bus_method :=
  mkMethod "org.freedesktop.hostname1" "/org/freedesktop/hostname1" "org.freedesktop.hostname1" member.

Definition timedate1 (member : string) : bus_method :=
  mkMethod "org.freedesktop.timedate1" "/org/freedesktop/timedate1" "org.freedesktop.timedate1" member.

Definition network1 (member : string) : bus_method :=
  mkMethod "org.freedesktop.network1" "/org/freedesktop/network1" "org.freedesktop.network1.Manager" member.

Definition login1 (member : string) : bus_method :=
  mkMethod "org.freedesktop.login1" "/org/freedesktop/login1" "org.freedesktop.login1.Manager" member.

(** [atomicWrite], noted in the trace. *)
Definition write_file (path value : string) : N unit :=
  _ ← world (atomicWrite path value);
  did (Written path value).

Definition read_file (path : string) (limit : Z) : N string := world (readFile path limit).

Definition describe (name : string) : N LinkInfo :=
  index ← sys_call (if_nametoindex name);
  if index =? 0 then throw_err unavailable ("interface unavailable: " +:+ name)
  else
    m ← bus_call (network1 "DescribeLink") [BInt index];
    match read_text m with
    | None => throw_err unavailable "networkd returned invalid link data"
    | Some json =>
        match read_link json with
        | None => throw_err unavailable "unsupported networkd description"
        | Some info => mret info
        end
    end.

Fixpoint dhcp_files (files : list string) (enabled : bool) : N bool :=
  match files with
  | [] => mret enabled
  | f :: rest => text ← read_file f 1048576; dhcp_files rest (dhcp_file enabled text)
  end.

Definition dhcpEnabled (info : LinkInfo) : N bool :=
  if empty (li_NetworkFile info) then throw_err unavailable "interface is not managed by networkd"
  else dhcp_files (li_NetworkFile info :: li_NetworkFileDropins info) false.

Definition interfacePolicy (name : string) (boot : bool) : N unit :=
  match find_policy profile_ name with
  | None => throw_err invalid_argument "interface is not managed by this product"
  | Some p =>
      let device := path_append (path_append "/sys/class/net" name) "device/of_node" in
      skip ← (if boot then found ← world (exists_ device); mret (negb found) else mret false);
      if (skip : bool) then mret tt
      else
        index ← sys_call (if_nametoindex name);
        mismatch ←
          (if index =? 0 then mret true
           else if empty (ip_device_tree_node p) then mret false
           else node ← world (canonical_path device); mret (filename node <>? ip_device_tree_node p));
        if (mismatch : bool) then throw_err invalid_argument "interface hardware identity mismatch" else mret tt
  end.

(** [unitState(bus, ssh_socket) == "active" || unitState(bus, ssh_service) == "active"]. *)
Definition ssh_active : N bool :=
  socket ← unitState (pf_ssh_socket profile_);
  if socket ==? "active" then mret true
  else service ← unitState (pf_ssh_service profile_); mret (service ==? "active").

(** *** Discovery *)

(** The loop over [info.Addresses]: the address and the prefix so far. *)
Fixpoint static_addresses (mode : NetworkMode) (infos : list AddressInfo) (acc : string * Z) : outcome (string * Z) :=
  match infos with
  | [] => Return acc
  | a :: rest =>
      if (ai_Family a =? AF_INET) && (ai_ConfigSource a ==? "static") then
        if bool_decide (mode = dhcp) || negb (empty (fst acc))
        then throw_error unsupported "migration cannot represent mixed or multiple IPv4 addresses"
        else static_addresses mode rest (address (ai_Address a) (ai_Family a), u8 (ai_PrefixLength a))
      else static_addresses mode rest acc
  end.

Definition static_gateway (routes : list RouteInfo) : string :=
  fold_left (fun g r =>
    if (ri_Family r =? AF_INET) && (ri_DestinationPrefixLength r =? 0) && (ri_ConfigSource r ==? "static") &&
       negb (bool_decide (ri_Gateway r = []))
    then address (ri_Gateway r) (ri_Family r) else g) routes "".

Definition static_dns (infos : list DnsInfo) : list string :=
  map (fun d => address (di_Address d) (di_Family d))
    (List.filter (fun d => (di_Family d =? AF_INET) && (di_ConfigSource d ==? "static")) infos).

Definition discover_interface (policy : InterfacePolicy) : N NetworkConfig :=
  _ ← interfacePolicy (ip_name policy) false;
  info ← describe (ip_name policy);
  enabled ← dhcpEnabled info;
  let mode := if (enabled : bool) then dhcp else static_ipv4 in
  '(addr, prefix) ← lift (static_addresses mode (li_Addresses info) ("", 24));
  mret (mkNetworkConfig (ip_name policy) mode addr prefix (static_gateway (li_Routes info)) (static_dns (li_DNS info)) false).

(** [for (policy : interfaces) ... push_back(f(policy))]. *)
Fixpoint collect {A B} (f : A -> N B) (l : list A) : N (list B) :=
  match l with
  | [] => mret []
  | x :: rest => y ← f x; ys ← collect f rest; mret (y :: ys)
  end.

Definition discover : N Configuration :=
  _ ← open_bus;
  hostname ← bus_property (hostname1 "Hostname");
  zone ← bus_property (timedate1 "Timezone");
  ssh ← ssh_active;
  network ← collect discover_interface (pf_interfaces profile_);
  let defaults := cf_time (pf_defaults profile_) in
  mret (mkConfiguration (mkPreferences hostname ssh network)
    (mkTimePreferences (tp_synchronization defaults) (if empty zone then "UTC" else zone)
       (tp_ptp_interface defaults) (tp_ntp_servers defaults))).

(** *** Status *)

Definition quote : string := String (chr 34) "".

(** The loop over the lines of /etc/os-release. *)
Definition pretty_name (os line : string) : string :=
  if starts_with "PRETTY_NAME=" line then
    let v := trim (str_drop 12 line) in
    if starts_with quote v && ends_with quote v then str_take (String.length v - 2) (str_drop 1 v) else v
  else os.

Definition link_addresses (infos : list AddressInfo) : list string :=
  List.concat (map (fun a =>
    let ip := address (ai_Address a) (ai_Family a) in
    if empty ip then [] else [ip +:+ "/" +:+ to_string (ai_PrefixLength a)]) infos).

Definition link_gateway (routes : list RouteInfo) : string :=
  fold_left (fun g r =>
    if (ri_Family r =? AF_INET) && (ri_DestinationPrefixLength r =? 0) && negb (bool_decide (ri_Gateway r = []))
    then address (ri_Gateway r) (ri_Family r) else g) routes "".

Definition link_dns (infos : list DnsInfo) : list string :=
  List.filter (fun ip => negb (empty ip)) (map (fun d => address (di_Address d) (di_Family d)) infos).

Definition status_interface (p : InterfacePolicy) : N NetworkStatus :=
  info ← describe (ip_name p);
  mac ← read_file (path_append (path_append "/sys/class/net" (ip_name p)) "address") 1048576;
  mret (mkNetworkStatus (ip_name p) (trim mac) (li_CarrierState info ==? "carrier")
    (link_addresses (li_Addresses info)) (link_gateway (li_Routes info)) (link_dns (li_DNS info))).

(** [discoverPtpInterfaces(profile_)] on the kernel's interfaces. *)
Definition ptp_interfaces : N (list PtpInterface) :=
  entries ← world net_entries;
  query ← gets (fun s => timestampCapabilities (fun name => ts_info name (nv_world s)));
  mret (discoverPtpInterfaces profile_ entries query).

Definition status : N SystemStatus :=
  _ ← open_bus;
  release ← sys_call uname_release;
  os ← read_file "/etc/os-release" 1048576;
  ptp ← ptp_interfaces;
  ssh ← ssh_active;
  network ← collect status_interface (pf_interfaces profile_);
  mret (mkSystemStatus default_Configuration network ptp (negb (bool_decide (pf_irig_units profile_ = []))) ssh
    (match release with Some r => r | None => "" end) (fold_left pretty_name (lines os) "")).

(** *** Time *)

Definition zoneinfo : string := "/usr/share/zoneinfo/".

Definition time : N TimeStatus :=
  _ ← open_bus;
  zone ← bus_property (timedate1 "Timezone");
  zone ←
    (if empty (pf_runtime_etc_directory profile_) then mret zone
     else
       link ← world (read_symlink (path_append (pf_runtime_etc_directory profile_) "localtime"));
       mret (if starts_with zoneinfo link then str_drop (String.length zoneinfo) link else zone));
  now ← sys_call clock_realtime;
  match now with
  | None => throw_err unavailable "wall clock unavailable"
  | Some (sec, nsec) =>
      uptime ← world clock_;
      gmtoff ← sys_call (local_offset sec);
      let local := localtime sec gmtoff in
      let offset := i32 (tm_gmtoff local) in
      mret (mkTimeStatus (i64 (i64 (sec * 1000) + nsec / 1000000)) (format nsec offset (gmtime sec) true)
        (format nsec offset local false) (if empty zone then "UTC" else zone) offset uptime)
  end.

Definition timezones : N (list string) :=
  _ ← open_bus;
  m ← bus_call (timedate1 "ListTimezones") [];
  match m with
  | BTexts zones :: _ => mret zones
  | _ => throw_err unavailable "invalid timezone list"
  end.

(** The standard library's database is asked for the time of the call. *)
Definition timezoneCatalog : N TimezoneCatalog :=
  installed ← timezones;
  now ← sys_call clock_realtime;
  let '(sec, nsec) := default (0, 0) now in
  let instant := sec * 1000000000 + nsec in
  table ← gets (fun s => file (nv_world s) "/usr/share/zoneinfo/zone.tab");
  db ← gets (fun s => tzdb instant (nv_world s));
  mret (readTimezoneCatalog db installed instant table).

(** *** Validation *)

Definition validateConfiguration (c : Configuration) : N unit :=
  _ ← lift (validate c);
  _ ← when (negb (Nat.eqb (length (pr_network (cf_system c))) (length (pf_interfaces profile_))))
        (throw_err invalid_argument "supply all managed interfaces");
  _ ← for_each (fun n => interfacePolicy (nc_interface n) false) (pr_network (cf_system c));
  zones ← timezones;
  _ ← when (negb (bool_decide (tp_timezone (cf_time c) ∈ zones))) (throw_err invalid_argument "timezone is not installed");
  ptp ← ptp_interfaces;
  _ ← lift (validatePtpSelection (cf_time c) ptp);
  when ((tp_synchronization (cf_time c) ==? "irig") && bool_decide (pf_irig_units profile_ = []))
    (throw_err unsupported "IRIG source profile is unavailable").

(** *** Changes *)

Definition hostname_file : string :=
  if empty (pf_runtime_etc_directory profile_) then "/etc/hostname"
  else path_append (pf_runtime_etc_directory profile_) "hostname".

Definition bootHostname (hostname : string) : N unit :=
  _ ← write_file hostname_file (hostname +:+ nl);
  mode ← sys_call (chmod_ok hostname_file);
  _ ← when (negb mode) (throw_err apply_failed "cannot set hostname file permissions");
  named ← sys_call (sethostname_ok hostname);
  when (negb named) (throw_err apply_failed "cannot set boot hostname").

Definition runtimeTimezone (zone : string) : N unit :=
  let target := fs_join "/usr/share/zoneinfo" zone in
  regular ← world (is_regular_file target);
  if negb regular || starts_with "/" zone || has_substring ".." zone then throw_err invalid_argument "invalid timezone"
  else
    let path := path_append (pf_runtime_etc_directory profile_) "localtime" in
    id ← world randomId;
    let temporary := path +:+ "." +:+ id in
    _ ← world (create_symlink target temporary);
    world (rename_file temporary path).

Definition reloadNetwork (configs : list NetworkConfig) : N unit :=
  _ ← open_bus;
  _ ← bus_call (network1 "Reload") [];
  for_each (fun c =>
    index ← sys_call (if_nametoindex (nc_interface c));
    _ ← bus_call (network1 "ReconfigureLink") [BInt index];
    mret tt) configs.

Definition sshBootPolicy (enabled : bool) : N unit :=
  let marker := path_append (pf_runtime_root profile_) "system/ssh-disabled" in
  if enabled then world (durableRemove marker) else write_file marker ("disabled" +:+ nl).

(** The time zone and the host name. *)
Definition set_identity (c : Configuration) : N unit :=
  if negb (empty (pf_runtime_etc_directory profile_)) then
    _ ← runtimeTimezone (tp_timezone (cf_time c));
    bootHostname (pr_hostname (cf_system c))
  else
    _ ← bus_call (timedate1 "SetTimezone") [BText (tp_timezone (cf_time c)); BBool false];
    _ ← bus_call (hostname1 "SetStaticHostname") [BText (pr_hostname (cf_system c)); BBool false];
    _ ← bus_call (hostname1 "SetHostname") [BText (pr_hostname (cf_system c)); BBool false];
    mret tt.

Definition preferences (c : Configuration) : N unit :=
  _ ← open_bus;
  _ ← set_identity c;
  changed ← world (writeClockPolicy profile_ (cf_time c) "/run");
  clocks ← lift (clockUnits profile_ (cf_time c));
  _ ← for_each (fun name => unit_transition name false) (cu_stop clocks);
  _ ← when (cp_servers changed && (tp_synchronization (cf_time c) ==? "ntp"))
        (for_each (fun name => unit_transition name false) (pf_ntp_units profile_));
  _ ← when (cp_network changed) (reloadNetwork (pr_network (cf_system c)));
  _ ← for_each (fun name => unit_transition name true) (cu_start clocks);
  _ ← sshBootPolicy (pr_ssh_enabled (cf_system c));
  _ ← unit_transition (pf_ssh_socket profile_) (pr_ssh_enabled (cf_system c));
  when (negb (pr_ssh_enabled (cf_system c))) (unit_transition (pf_ssh_service profile_) false).

Definition network_directory : string := "/run/systemd/network".

Definition network_file (interface : string) : string :=
  path_append network_directory ("10-mnc-" +:+ interface +:+ ".network").

(** The body of the loop of [network]. *)
Definition write_network (configs : list NetworkConfig) (bootstrap : bool) (c : NetworkConfig) : N unit :=
  _ ← interfacePolicy (nc_interface c) bootstrap;
  let hasPreferred := existsb nc_preferred_default configs in
  rendered ← lift (renderNetwork c hasPreferred);
  _ ← write_file (network_file (nc_interface c)) rendered;
  world (permissions (network_file (nc_interface c))).

Definition network (configs : list NetworkConfig) (bootstrap : bool) : N unit :=
  _ ← lift (validateNetwork configs);
  _ ← when (negb (Nat.eqb (length configs) (length (pf_interfaces profile_))))
        (throw_err invalid_argument "supply all managed interfaces");
  _ ← world (create_directories network_directory);
  _ ← world (permissions network_directory);
  _ ← for_each (write_network configs bootstrap) configs;
  when (negb bootstrap) (reloadNetwork configs).

Definition clockBootPolicy (time : TimePreferences) : N unit :=
  _ ← when (negb (empty (pf_runtime_etc_directory profile_))) (runtimeTimezone (tp_timezone time));
  _ ← world (writeClockPolicy profile_ time "/run");
  mret tt.

Definition power (action : PowerAction) : N unit :=
  _ ← open_bus;
  _ ← bus_call (login1 (match action with reboot => "Reboot" | shutdown => "PowerOff" end)) [BBool false];
  mret tt.

(** *** Link observations *)

(** [try { m } catch (const Error &) {}] around code that gives one value or none. *)
Definition catch_error {A} (default : A) (m : N A) : N A :=
  try_catch m (fun e => match e with Error _ => mret default | _ => throw e end).

Definition link_flags (text : string) : option Z :=
  let flags := trim text in
  let flag_text := if starts_with "0x" flags then str_drop 2 flags else flags in
  match from_chars_unsigned 32 16 flag_text with Some (n, _) => Some n | None => None end.

Definition observe_link (policy : InterfacePolicy) : N (option NetworkStatus) :=
  catch_error None (
    let link_path := path_append "/sys/class/net" (ip_name policy) in
    flags ← read_file (path_append link_path "flags") 32;
    match link_flags flags with
    | None => mret None
    | Some numeric_flags =>
        if negb (Z.testbit numeric_flags 0) then mret None
        else
          text ← read_file (path_append link_path "carrier") 8;
          let carrier := trim text in
          if (carrier <>? "0") && (carrier <>? "1") then mret None
          else mret (Some (mkNetworkStatus (ip_name policy) "" (carrier ==? "1") [] "" []))
    end).

Definition networkLinks : N (list NetworkStatus) :=
  observed ← collect observe_link (pf_interfaces profile_);
  mret (omap (fun o => o) observed).

(** *** Temperatures *)

(** [std::ranges::find(result, label, &Temperature::label)] and the assignment
    to the value found. *)
Fixpoint set_reading (label : string) (n : Z) (result : list Temperature) : list Temperature :=
  match result with
  | [] => []
  | t :: rest =>
      if te_label t ==? label then mkTemperature (te_zone t) (te_label t) (Some n) :: rest
      else t :: set_reading label n rest
  end.

Definition label_file (name : string) : bool := starts_with "temp" name && ends_with "_label" name.

(** One entry of a device's directory. *)
Definition read_entry (device : string) (result : list Temperature) (name : string) : N (list Temperature) :=
  if negb (label_file name) then mret result
  else catch_error result (
    text ← read_file (path_append device name) 256;
    let label := trim text in
    if negb (existsb (fun t => te_label t ==? label) result) then mret result
    else
      let input := str_take (String.length name - 6) name +:+ "_input" in
      v ← read_file (path_append device input) 128;
      match from_chars_signed 64 (trim v) with
      | Some (n, EmptyString) => mret (set_reading label n result)
      | _ => mret result
      end).

(** [for (x : l) acc = f(acc, x)]. *)
Fixpoint fold_each {A B} (f : B -> A -> N B) (acc : B) (l : list A) : N B :=
  match l with
  | [] => mret acc
  | x :: rest => acc' ← f acc x; fold_each f acc' rest
  end.

Definition read_device (root : string) (result : list Temperature) (device : string) : N (list Temperature) :=
  entries ← sys_call (list_directory (path_append root device));
  match entries with
  | None => mret result
  | Some names => fold_each (read_entry (path_append root device)) result names
  end.

Definition readTemperatures (root : string) (sensors : list SensorPolicy) : N (list Temperature) :=
  let result := map (fun s => mkTemperature (sp_zone s) (sp_label s) None) sensors in
  devices ← sys_call (list_directory root);
  match devices with
  | None => throw_err unavailable "hardware monitors unavailable"
  | Some names => fold_each (read_device root) result names
  end.

Definition temperatures : N (list Temperature) := readTemperatures "/sys/class/hwmon" (pf_sensors profile_).

(** *** [nativePlatform] *)

(** An operation on the world that the platform shares with the manager. *)
Definition on_world {A} (m : N A) : operation (list deed) W A := fun x =>
  let '(s, r) := m (mkNative (snd x) (fst x)) in ((nv_trace s, nv_world s), r).

Definition nativePlatform : Platform (list deed) W := {|
  platform_discover := on_world discover;
  platform_status := on_world status;
  platform_time := on_world time;
  platform_networkLinks := on_world networkLinks;
  platform_timezones := on_world timezones;
  platform_timezoneCatalog := on_world timezoneCatalog;
  platform_temperatures := on_world temperatures;
  platform_validateConfiguration c := on_world (validateConfiguration c);
  platform_preferences c := on_world (preferences c);
  platform_bootHostname h := on_world (bootHostname h);
  platform_network configs bootstrap := on_world (network configs bootstrap);
  platform_sshBootPolicy enabled := on_world (sshBootPolicy enabled);
  platform_clockBootPolicy t := on_world (clockBootPolicy t);
  platform_power a := on_world (power a)
|}.

End native.
End NativePlatform.
