(* ===== verification/NativeProperties.v ===== *)
(** * What the native platform changes (daemon/backend.cpp)

    The clock units of [preferences], and the files of [network] with what
    discovery reads back from them. *)

From stdpp Require Import sorting.
From S2P Require Import Prelude SystemTypes Validation Effects Host Backend Clock NetworkFile Timestamp Bus Native.
Import NativePlatform.

(** ** Clock units *)

(** A command that starts the unit [u]. *)
Definition starts (u : string) (d : deed) : Prop := exists ok, d = Asked (systemd "StartUnit") [BText u; BText "replace"] ok.

(** Not a command to start a unit. *)
Definition quiet (d : deed) : Prop :=
  match d with Asked m _ _ => m <> systemd "StartUnit" | _ => True end.

(** The unit [u] was seen stopped. *)
Definition seen_down (u : string) (run : list deed) : Prop := exists state, Seen u state ∈ run /\ settled false state = true.

Definition seen_up (u : string) (run : list deed) : Prop := Seen u "active" ∈ run.

(** Before any start command of the run, all of [others] were seen stopped. *)
Definition one_at_a_time (others : list string) (run : list deed) : Prop :=
  forall u post d pre, run = post ++ d :: pre -> starts u d -> forall v, v ∈ others -> v <> "" -> seen_down v pre.

Lemma starts_not_quiet u d : starts u d -> ~ quiet d.
Proof. intros [ok ->]. cbn. auto. Qed.

Lemma about_quiet name d : about name false d -> quiet d.
Proof. destruct d as [m args ok|n st|p v]; cbn; [intros [[-> _]|[-> _]]; discriminate | done | done]. Qed.

Lemma quiet_one_at_a_time others run : Forall quiet run -> one_at_a_time others run.
Proof.
  intros Hq u post d pre -> Hs. exfalso. apply Forall_app in Hq as [_ Hq]. inversion Hq; subst.
  by eapply starts_not_quiet.
Qed.

(** Once they are all down without a start, any continuation will do. *)
Lemma down_one_at_a_time others before after :
  Forall quiet before -> (forall v, v ∈ others -> v <> "" -> seen_down v before) ->
  one_at_a_time others (after ++ before).
Proof.
  intros Hq Hd u post d pre Hr Hs v Hv Hne.
  apply app_eq_app in Hr as (l & [[Ha Hb]|[Ha Hb]]).
  - destruct l as [|d' l].
    + cbn in Hb. subst before. inversion Hq; subst. exfalso. by eapply starts_not_quiet.
    + cbn in Hb. injection Hb as -> ->. destruct (Hd v Hv Hne) as (st & Hin & Hset).
      exists st. split; [apply elem_of_app; by right | done].
  - subst before. apply Forall_app in Hq as [_ Hq]. inversion Hq; subst. exfalso. by eapply starts_not_quiet.
Qed.

Section clock.
Context {W : Type} {HO : Host W} {NO : Node W} {own : string -> Prop} {NL : NodeLaws W own}.
Context (profile_ : Profile).

Lemma quiet_bus_call m args : m <> systemd "StartUnit" -> within (extends (W := W) quiet) (bus_call m args).
Proof. intros Hm. by apply extends_bus_call. Qed.

Lemma quiet_open_bus : within (extends (W := W) quiet) open_bus.
Proof. unfold open_bus. within_auto. Qed.

#[local] Hint Resolve quiet_open_bus : within.
#[local] Hint Extern 1 (within (extends quiet) (bus_call _ _)) => apply quiet_bus_call; discriminate : within.
#[local] Hint Extern 1 (quiet (Written _ _)) => exact I : within.

Lemma quiet_set_identity c : within (extends (W := W) quiet) (set_identity profile_ c).
Proof. unfold set_identity, runtimeTimezone, bootHostname, write_file. cbv zeta. within_auto. Qed.

Lemma quiet_reloadNetwork configs : within (extends (W := W) quiet) (reloadNetwork configs).
Proof. unfold reloadNetwork. within_auto. Qed.

Lemma about_quiet_all (names : list string) d : (exists n, n ∈ names /\ about n false d) -> quiet d.
Proof. intros (n & _ & Hd). by eapply about_quiet. Qed.

(** Quiet work that goes on from a state [s0]. *)
Lemma wp_quiet_bind {A B} (m : eff (Native W) A) (f : A -> eff (Native W) B) Q E s0 s :
  within (extends quiet) m -> extends quiet s0 s ->
  (forall a s1, extends quiet s0 s1 -> wp (f a) Q E s1) -> (forall e s1, extends quiet s0 s1 -> E e s1) ->
  wp (m ≫= f) Q E s.
Proof.
  intros Hm H0 HQ HE. apply wp_bind. eapply wp_mono; [apply (within_wp _ _ _ Hm) | |]; cbn; intros a s1 H1.
  - apply HQ. by etrans.
  - apply HE. by etrans.
Qed.

(** Every start command is for one of [names]. *)
Definition starts_only (names : list string) (d : deed) : Prop := forall u, starts u d -> u ∈ names.

Lemma quiet_starts_only names d : quiet d -> starts_only names d.
Proof. intros Hq u Hs. exfalso. by eapply starts_not_quiet. Qed.

Lemma about_starts_only n start names d : (start = true -> n ∈ names) -> about n start d -> starts_only names d.
Proof.
  intros Hn Ha u [ok ->]. cbn in Ha. destruct Ha as [[Hm _]|[Hm Hargs]]; [discriminate|].
  injection Hargs as ->. destruct start; [by apply Hn | discriminate].
Qed.

Lemma ssh_starts_only names enabled :
  pf_ssh_socket profile_ ∈ names ->
  within (extends (starts_only names)) (
    _ ← sshBootPolicy (W := W) profile_ enabled;
    _ ← unit_transition (pf_ssh_socket profile_) enabled;
    when (negb enabled) (unit_transition (pf_ssh_service profile_) false)).
Proof.
  intros Hn. assert (Ht : forall n start, (start = true -> n ∈ names) ->
    within (extends (W := W) (starts_only names)) (unit_transition n start)).
  { intros n start Hs. eapply within_mono; [|apply extends_unit_transition]. intros s s'. apply extends_mono.
    intros d. by apply about_starts_only. }
  pose proof (Ht (pf_ssh_socket profile_) enabled ltac:(auto)).
  pose proof (Ht (pf_ssh_service profile_) false ltac:(done)).
  assert (Hw : forall p v, starts_only names (Written p v)) by (intros p v; by apply quiet_starts_only).
  unfold sshBootPolicy, write_file. within_auto.
Qed.

(** What [preferences] leaves in the trace. *)
Definition clock_run (units : ClockUnits) (finished : bool) (s s' : Native W) : Prop :=
  exists run, nv_trace s' = run ++ nv_trace s /\ one_at_a_time (cu_stop units) run /\
    Forall (starts_only (pf_ssh_socket profile_ :: cu_start units)) run /\
    (finished = true -> (forall v, v ∈ cu_stop units -> v <> "" -> seen_down v run) /\
                        (forall u, u ∈ cu_start units -> seen_up u run)).

Lemma quiet_clock_run units s s' : extends quiet s s' -> clock_run units false s s'.
Proof.
  intros (run & Hr & Hq). exists run. split_and!; [done | by apply quiet_one_at_a_time | | done].
  eapply Forall_impl; [exact Hq | intros d; apply quiet_starts_only].
Qed.

(** All other clock units are down, and nothing was started yet. *)
Definition all_down (units : ClockUnits) (s s' : Native W) : Prop :=
  exists run, nv_trace s' = run ++ nv_trace s /\ Forall quiet run /\
    forall v, v ∈ cu_stop units -> v <> "" -> seen_down v run.

Lemma all_down_quiet units s0 s1 s2 : all_down units s0 s1 -> extends quiet s1 s2 -> all_down units s0 s2.
Proof.
  intros (r1 & H1 & Hq1 & Hd) (r2 & H2 & Hq2). exists (r2 ++ r1). rewrite H2, H1, app_assoc.
  split_and!; [done | by apply Forall_app|]. intros v Hv Hne. destruct (Hd v Hv Hne) as (st & Hin & Hs).
  exists st. split; [apply elem_of_app; by right | done].
Qed.

Lemma down_clock_run units s0 s1 s2 (finished : bool) :
  all_down units s0 s1 -> extends (starts_only (pf_ssh_socket profile_ :: cu_start units)) s1 s2 ->
  (finished = true -> forall u, u ∈ cu_start units -> exists run, nv_trace s2 = run ++ nv_trace s1 /\ seen_up u run) ->
  clock_run units finished s0 s2.
Proof.
  intros (r1 & H1 & Hq1 & Hd) (r2 & H2 & Ho2) Hup. exists (r2 ++ r1). rewrite H2, H1, app_assoc. split_and!.
  - done.
  - by apply down_one_at_a_time.
  - apply Forall_app. split; [done|]. eapply Forall_impl; [exact Hq1 | intros d; apply quiet_starts_only].
  - intros Hf. split.
    + intros v Hv Hne. destruct (Hd v Hv Hne) as (st & Hin & Hs). exists st. split; [apply elem_of_app; by right | done].
    + intros u Hu. destruct (Hup Hf u Hu) as (run & Hr & Hin). rewrite H2 in Hr. apply app_inv_tail in Hr as <-.
      unfold seen_up. apply elem_of_app. by left.
Qed.

Lemma settled_active state : settled true state = true -> state = "active".
Proof. unfold settled. cbn. rewrite orb_false_r. apply bool_decide_eq_true. Qed.

Lemma wp_preferences_end c units s0 s :
  all_down units s0 s ->
  wp (_ ← for_each (fun name => unit_transition name true) (cu_start units);
      _ ← sshBootPolicy profile_ (pr_ssh_enabled (cf_system c));
      _ ← unit_transition (pf_ssh_socket profile_) (pr_ssh_enabled (cf_system c));
      when (negb (pr_ssh_enabled (cf_system c))) (unit_transition (pf_ssh_service profile_) false))
    (fun _ s' => clock_run units true s0 s') (fun _ s' => clock_run units false s0 s') s.
Proof.
  intros Hdown. set (names := pf_ssh_socket profile_ :: cu_start units).
  assert (Hin : forall d, (exists n, n ∈ cu_start units /\ about n true d) -> starts_only names d).
  { intros d (n & Hn & Ha). eapply about_starts_only; [|exact Ha]. intros _. by right. }
  apply wp_bind. eapply wp_mono; [apply (wp_units (NL := NL)) | |].
  - cbv beta. intros _ s1 (run1 & H1 & Ha1 & Hseen).
    assert (He1 : extends (starts_only names) s s1) by (exists run1; split; [done | by eapply Forall_impl]).
    pose proof (within_wp _ _ s1 (ssh_starts_only names (pr_ssh_enabled (cf_system c)) ltac:(left))) as Hw.
    eapply wp_mono; [exact Hw | |]; cbv beta; intros ? s2 He2.
    + apply (down_clock_run units s0 s s2 true Hdown); [by etrans|]. intros _ u Hu.
      destruct He2 as (run2 & H2 & _). exists (run2 ++ run1). rewrite H2, H1, app_assoc. split; [done|].
      destruct (Hseen u Hu) as [[_ ?]|(st & Hst & ->%settled_active)]; [done|]. apply elem_of_app. by right.
    + apply (down_clock_run units s0 s s2 false Hdown); [by etrans | done].
  - cbv beta. intros e s1 He. apply (down_clock_run units s0 s s1 false Hdown); [|done]. exact (extends_mono _ _ _ _ Hin He).
Qed.

Lemma wp_preferences c units s :
  clockUnits profile_ (cf_time c) = Return units ->
  wp (preferences profile_ c) (fun _ s' => clock_run units true s s') (fun _ s' => clock_run units false s s') s.
Proof.
  intros Hu. unfold preferences. assert (Hquit : forall (e : exn) s1, extends quiet s s1 -> clock_run units false s s1)
    by (intros e s1; apply quiet_clock_run).
  eapply wp_quiet_bind; [apply quiet_open_bus | reflexivity | intros _ s1 H1 | done].
  eapply wp_quiet_bind; [apply quiet_set_identity | exact H1 | intros _ s2 H2 | done].
  eapply wp_quiet_bind; [apply extends_world | exact H2 | intros changed s3 H3 | done].
  apply wp_bind, wp_lift. rewrite Hu.
  apply wp_bind. eapply wp_mono; [apply (wp_units (NL := NL)) | |]; cbv beta.
  2: { intros e s4 He. apply quiet_clock_run. etrans; [exact H3|]. eapply extends_mono; [|exact He]. apply about_quiet_all. }
  intros _ s4 (run & Hr & Ha & Hd).
  assert (Hdown : all_down units s s4).
  { destruct H3 as (run0 & Hr0 & Hq0). exists (run ++ run0). rewrite Hr, Hr0, app_assoc. split_and!; [done| |].
    - apply Forall_app. split; [|done]. eapply Forall_impl; [exact Ha | apply about_quiet_all].
    - intros v Hv Hne. destruct (Hd v Hv) as [[? _]|(st & Hst & Hset)]; [done|]. exists st.
      split; [apply elem_of_app; by left | done]. }
  assert (Hmiss : forall (e : exn) s5, extends quiet s4 s5 -> clock_run units false s s5).
  { intros e s5 He. apply (down_clock_run units s s4 s5 false Hdown); [|done].
    eapply extends_mono; [apply quiet_starts_only | exact He]. }
  eapply wp_quiet_bind; [ | reflexivity | intros _ s5 H5 | done].
  { apply within_when; [apply _ | intros _]. apply within_for_each; [apply _ | intros n _].
    eapply within_mono; [|apply extends_unit_transition]. intros s5 s6. apply extends_mono, about_quiet. }
  eapply wp_quiet_bind; [ | exact H5 | intros _ s6 H6 | done].
  { apply within_when; [apply _ | intros _; apply quiet_reloadNetwork]. }
  apply wp_preferences_end. by eapply all_down_quiet.
Qed.

End clock.

(** C9: One clock at a time: [preferences], however it ends, asks systemd to start
    a unit only after every clock unit that the choice does not want was seen
    stopped; it starts only the units of the choice and the SSH socket; and when
    it returns, the other units were seen stopped and the chosen ones active. *)
Theorem preferences_one_clock {W} {HO : Host W} {NO : Node W} {own} {NL : NodeLaws W own} profile c units (s : Native W) :
  clockUnits profile (cf_time c) = Return units ->
  match preferences profile c s with
  | (s', Return _) => clock_run profile units true s s'
  | (s', Throw _) => clock_run profile units false s s'
  end.
Proof. exact (wp_preferences (NL := NL) profile c units s). Qed.

(** ** Loops *)

(** What every call establishes of its element, whatever the state. *)
Lemma wp_for_each_elems {S A} (f : A -> eff S unit) (l : list A) (P : A -> Prop) E s :
  (forall x s, x ∈ l -> wp (f x) (fun _ _ => P x) E s) -> wp (for_each f l) (fun _ _ => forall x, x ∈ l -> P x) E s.
Proof.
  revert s. induction l as [|x l IH]; intros s Hf; cbn [for_each]; [apply wp_ret; by intros x ?%elem_of_nil|].
  apply wp_bind. eapply wp_mono; [apply Hf; left | | done]. cbv beta. intros _ s1 Hx.
  eapply wp_mono; [apply IH; intros y s2 Hy; apply Hf; by right | | done]. cbv beta.
  intros _ s2 Hl y Hy. apply elem_of_cons in Hy as [->|Hy]; auto.
Qed.

(** ** Network files *)

(** What [f] achieves for one element, and keeps for the others, holds of all
    elements at the end. *)
Lemma wp_for_each_all {S A} (f : A -> eff S unit) (l : list A) (G : A -> S -> Prop) E s :
  NoDup l ->
  (forall x s, x ∈ l -> wp (f x) (fun _ s' => G x s' /\ forall y, y ∈ l -> y <> x -> G y s -> G y s') E s) ->
  wp (for_each f l) (fun _ s' => forall x, x ∈ l -> G x s') E s.
Proof.
  intros Hd Hf. enough (Hgen : forall done_ rest s, done_ ++ rest = l -> (forall x, x ∈ done_ -> G x s) ->
    wp (for_each f rest) (fun _ s' => forall x, x ∈ l -> G x s') E s) by (by apply (Hgen [] l s); [|intros x ?%elem_of_nil]).
  clear s. intros done_ rest. revert done_. induction rest as [|x rest IH]; intros done_ s Hl HG; cbn [for_each].
  { apply wp_ret. rewrite app_nil_r in Hl. by subst. }
  apply wp_bind. eapply wp_mono; [apply Hf; subst l; apply elem_of_app; right; left | | done].
  cbv beta. intros _ s' [Hx Hkeep]. apply (IH (done_ ++ [x])); [by rewrite <- app_assoc|].
  intros y [Hy|Hy%list_elem_of_singleton]%elem_of_app; [|by subst].
  apply Hkeep; [subst l; apply elem_of_app; by left | | by apply HG].
  subst l. apply NoDup_app in Hd as (_ & Hd & _). intros ->. by apply (Hd x Hy); left.
Qed.

Lemma has_substring_app_r t c s : has_substring t s = true -> has_substring t (String c s) = true.
Proof. intros H. cbn. rewrite H. apply orb_true_r. Qed.

Lemma dot_network_inside i i' rest :
  i' +:+ ".network" = i +:+ ".network." +:+ rest -> has_substring ".network" i' = true.
Proof.
  revert i'. induction i as [|c i IH]; intros i' He.
  - do 8 (destruct i' as [|? i']; [by discriminate He|]; cbn [String.append] in He; injection He as -> He).
    by destruct i'.
  - destruct i' as [|c' i'].
    + apply (f_equal String.length) in He. rewrite !str_length_app in He. cbn in He. lia.
    + cbn in He. injection He as -> He. by apply has_substring_app_r, (IH i').
Qed.

Lemma network_file_eq i : network_file i = "/run/systemd/network/10-mnc-" +:+ i +:+ ".network".
Proof. reflexivity. Qed.

Lemma str_app_inj_r a b c : a +:+ c = b +:+ c -> a = b.
Proof.
  revert b. induction a as [|x a IH]; intros [|y b] He; cbn in He; [done| | |].
  - apply (f_equal String.length) in He. cbn in He. rewrite str_length_app in He. lia.
  - apply (f_equal String.length) in He. cbn in He. rewrite str_length_app in He. lia.
  - injection He as -> He. by rewrite (IH b He).
Qed.

Lemma network_file_apart i i' :
  i <> i' -> has_substring ".network" i' = false -> apart (network_file i) (network_file i').
Proof.
  intros Hne Hs. rewrite !network_file_eq. split.
  - intros He%str_app_inj_l%str_app_inj_r. by subst.
  - apply not_true_is_false. intros [rest Hr]%starts_with_spec. rewrite !str_app_assoc in Hr. apply str_app_inj_l in Hr.
    apply dot_network_inside in Hr. congruence.
Qed.

Section network.
Context {W : Type} {HO : Host W} {HL : HostLaws W} {NO : Node W} {own : string -> Prop} {NL : NodeLaws W own}.
Context (profile_ : Profile).

Lemma keeps_interfacePolicy q name boot : within (keeps (W := W) q) (interfacePolicy profile_ name boot).
Proof.
  pose proof (keeps_sys_call q (if_nametoindex name) (fun w => nametoindex_frame name w q)).
  pose proof (fun p => keeps_world q (exists_ p) (fun w => exists_frame w p q)).
  pose proof (fun p => keeps_world q (canonical_path p) (fun w => canonical_frame p w q)).
  unfold interfacePolicy. cbv zeta. within_auto.
Qed.

Lemma keeps_write_file q path value : apart path q -> within (keeps (W := W) q) (write_file path value).
Proof.
  intros Ha. pose proof (keeps_world q (atomicWrite path value) (fun w => atomicWrite_frame w path value q Ha)).
  unfold write_file. within_auto.
Qed.

Lemma keeps_write_network q configs boot c :
  apart (network_file (nc_interface c)) q -> within (keeps (W := W) q) (write_network profile_ configs boot c).
Proof.
  intros Ha. pose proof (keeps_interfacePolicy q (nc_interface c) boot).
  pose proof (fun v => keeps_write_file q (network_file (nc_interface c)) v Ha).
  pose proof (fun p => keeps_world q (permissions p) (fun w => permissions_frame w p q)).
  unfold write_network. cbv zeta. within_auto.
Qed.

Lemma keeps_reloadNetwork q configs : own q -> within (keeps (W := W) q) (reloadNetwork configs).
Proof.
  intros Hq. pose proof (keeps_open_bus (W := W) (own := own) q). pose proof (fun m a => keeps_bus_call q m a Hq).
  pose proof (fun n => keeps_sys_call q (if_nametoindex n) (fun w => nametoindex_frame n w q)).
  unfold reloadNetwork. within_auto.
Qed.

(** The file of an interface is the rendered one. *)
Definition in_force (configs : list NetworkConfig) (c : NetworkConfig) (s : Native W) : Prop :=
  file (nv_world s) (network_file (nc_interface c)) = Some (render_text c (existsb nc_preferred_default configs)).

(** The deed that puts a configuration into its file. *)
Definition written (configs : list NetworkConfig) (c : NetworkConfig) : deed :=
  Written (network_file (nc_interface c)) (render_text c (existsb nc_preferred_default configs)).

Lemma untraced_interfacePolicy name boot : within (extends (W := W) (fun _ => False)) (interfacePolicy profile_ name boot).
Proof. unfold interfacePolicy. cbv zeta. within_auto. Qed.

Lemma extends_nothing (s s' : Native W) : extends (fun _ => False) s s' -> nv_trace s' = nv_trace s.
Proof. intros ([|d run] & Hr & Hf); [done|]. by apply Forall_cons in Hf as [[] _]. Qed.

Lemma wp_write_network configs boot c s :
  wp (write_network profile_ configs boot c)
    (fun _ s' => in_force configs c s' /\ nv_trace s' = written configs c :: nv_trace s) (fun _ _ => True) s.
Proof.
  unfold write_network. cbv zeta. wp_step.
  eapply wp_mono; [exact (within_wp _ _ s (untraced_interfacePolicy (nc_interface c) boot)) | | done].
  cbv beta. intros _ s1 Ht%extends_nothing. apply wp_bind, wp_lift. unfold renderNetwork.
  destruct (validateNetwork [c]) as [u|e]; [|done]. cbn [mbind outcome_bind]. unfold write_file. apply wp_bind, wp_bind, wp_world.
  destruct (snd (atomicWrite _ _ (nv_world s1))) as [[]|e] eqn:Ew; [|done].
  apply wp_modify, wp_world. cbn [nv_world nv_trace fst].
  pose proof (atomicWrite_ok _ _ _ Ew) as Hok. unfold in_force. cbn [nv_world nv_trace].
  destruct (snd (permissions _ _)); [|done]. rewrite permissions_frame, Ht. by split.
Qed.

Lemma keeps_others configs boot c s :
  NoDup (map nc_interface configs) -> Forall (fun c => has_substring ".network" (nc_interface c) = false) configs ->
  c ∈ configs -> forall y, y ∈ configs -> y <> c ->
  in_force configs y s -> in_force configs y (fst (write_network profile_ configs boot c s)).
Proof.
  intros Hnames Hplain Hc y Hy Hne. unfold in_force. rewrite Forall_forall in Hplain.
  rewrite (keeps_write_network (network_file (nc_interface y)) configs boot c); [done|].
  apply network_file_apart; [|by apply Hplain]. intros He. apply Hne. by eapply NoDup_map_inj.
Qed.

(** The loop of [network]. *)
Lemma wp_write_networks configs boot s :
  NoDup (map nc_interface configs) -> Forall (fun c => has_substring ".network" (nc_interface c) = false) configs ->
  wp (for_each (write_network profile_ configs boot) configs)
    (fun _ s' => (forall c, c ∈ configs -> in_force configs c s') /\
       nv_trace s' = rev (map (written configs) configs) ++ nv_trace s) (fun _ _ => True) s.
Proof.
  intros Hnames Hplain.
  assert (H1 : wp (for_each (write_network profile_ configs boot) configs)
    (fun _ s' => forall c, c ∈ configs -> in_force configs c s') (fun _ _ => True) s).
  { apply wp_for_each_all; [by apply NoDup_fmap_1 in Hnames|]. intros c s3 Hc.
    pose proof (keeps_others configs boot c s3 Hnames Hplain Hc) as Hkeep.
    eapply wp_mono; [exact (wp_and _ _ _ _ _ _ (wp_write_network configs boot c s3)
      (proj2 (wp_always _ (fun s' => forall y, y ∈ configs -> y <> c -> in_force configs y s3 -> in_force configs y s') s3) Hkeep))
      | cbv beta; tauto | done]. }
  assert (H2 : wp (for_each (write_network profile_ configs boot) configs)
    (fun _ s' => nv_trace s' = rev (map (written configs) configs) ++ nv_trace s) (fun _ _ => True) s).
  { clear Hnames Hplain H1. enough (Hgen : forall l s, wp (for_each (write_network profile_ configs boot) l)
      (fun _ s' => nv_trace s' = rev (map (written configs) l) ++ nv_trace s) (fun _ _ => True) s) by apply Hgen.
    clear s. induction l as [|c l IH]; intros s; cbn [for_each map rev]; [done|]. apply wp_bind.
    eapply wp_mono; [apply wp_write_network | | done]. cbv beta. intros _ s1 [_ H1].
    eapply wp_mono; [apply IH | | done]. cbv beta. intros _ s2 H2. rewrite H2, H1, <- app_assoc. done. }
  eapply wp_mono; [exact (wp_and _ _ _ _ _ _ H1 H2) | done | done].
Qed.

(** networkd is told to read its files again and then, for each interface in
    turn, to configure it anew by the index that the kernel gave for its name;
    every call was answered. The newest deed comes first. *)
Definition told (configs : list NetworkConfig) (reloads : list deed) : Prop :=
  exists indexes, Forall2 (fun c i => exists w : W, i = snd (if_nametoindex (nc_interface c) w)) configs indexes /\
    rev reloads = Asked (network1 "Reload") [] true :: map (fun i => Asked (network1 "ReconfigureLink") [BInt i] true) indexes.

(** A call that returns was answered, and is the next deed. *)
Lemma wp_answered m args (s : Native W) :
  wp (bus_call m args) (fun _ s' => nv_trace s' = Asked m args true :: nv_trace s) (fun _ _ => True) s.
Proof. unfold bus_call. wp_step. apply wp_sys_call, wp_bind, wp_modify. by destruct (snd _). Qed.

Lemma wp_reconfigure configs (s : Native W) :
  wp (for_each (fun c => index ← sys_call (if_nametoindex (nc_interface c));
                         _ ← bus_call (network1 "ReconfigureLink") [BInt index]; mret tt) configs)
    (fun _ s' => exists indexes, Forall2 (fun c i => exists w : W, i = snd (if_nametoindex (nc_interface c) w)) configs indexes /\
       nv_trace s' = rev (map (fun i => Asked (network1 "ReconfigureLink") [BInt i] true) indexes) ++ nv_trace s)
    (fun _ _ => True) s.
Proof.
  revert s. induction configs as [|c configs IH]; intros s; cbn [for_each]; [by exists []|].
  apply wp_bind, wp_bind, wp_sys_call, wp_bind. eapply wp_mono; [apply wp_answered | | done]. cbv beta. cbn [nv_trace].
  intros _ s1 H1. apply wp_ret. eapply wp_mono; [apply IH | | done]. cbv beta. intros _ s2 (indexes & Hi & H2).
  eexists (_ :: indexes). split; [constructor; [by eexists | exact Hi]|]. cbn [map rev]. by rewrite H2, H1, <- app_assoc.
Qed.

Lemma wp_reloadNetwork configs (s : Native W) :
  wp (reloadNetwork configs)
    (fun _ s' => exists reloads, nv_trace s' = reloads ++ nv_trace s /\ told configs reloads) (fun _ _ => True) s.
Proof.
  unfold reloadNetwork, open_bus. apply wp_bind, wp_bind, wp_sys_call. destruct (snd _); [|done]. apply wp_ret, wp_bind.
  eapply wp_mono; [apply wp_answered | | done]. cbv beta. cbn [nv_trace]. intros _ s1 H1.
  eapply wp_mono; [apply wp_reconfigure | | done]. cbv beta. intros _ s2 (indexes & Hi & H2).
  exists (rev (map (fun i => Asked (network1 "ReconfigureLink") [BInt i] true) indexes) ++ [Asked (network1 "Reload") [] true]).
  split; [by rewrite H2, H1, <- app_assoc|]. exists indexes. split; [exact Hi|]. by rewrite rev_app_distr, rev_involutive.
Qed.

(** The files are written in order, then networkd is told, unless at boot, when
    nothing else is done. *)
Definition network_applied (configs : list NetworkConfig) (boot : bool) (s s' : Native W) : Prop :=
  validateNetwork configs = Return tt /\ length configs = length (pf_interfaces profile_) /\
  (forall c, c ∈ configs -> in_force configs c s') /\
  exists reloads, nv_trace s' = reloads ++ rev (map (written configs) configs) ++ nv_trace s /\
    if boot then reloads = [] else told configs reloads.

Lemma wp_network configs boot s :
  (forall c, c ∈ configs -> own (network_file (nc_interface c))) ->
  Forall (fun c => has_substring ".network" (nc_interface c) = false) configs ->
  wp (network profile_ configs boot) (fun _ s' => network_applied configs boot s s')
    (fun _ s' => validateNetwork configs <> Return tt -> s' = s) s.
Proof.
  intros Hown Hplain. unfold network. apply wp_bind, wp_lift.
  destruct (validateNetwork configs) as [[]|e] eqn:Hv; [|done].
  destruct (proj1 (validateNetwork_spec configs) Hv) as (_ & _ & Hnames & _). apply wp_bind.
  destruct (Nat.eqb_spec (length configs) (length (pf_interfaces profile_))) as [Hlen|]; cbn [negb when]; [|done].
  apply wp_ret. apply wp_bind, wp_world. destruct (snd _); [|done]. apply wp_bind, wp_world. destruct (snd _); [|done].
  wp_step. eapply wp_mono; [by apply wp_write_networks | | done]. cbv beta. cbn [nv_trace]. intros _ s3 [H3 Ht].
  destruct boot; cbn [negb when].
  { apply wp_ret. split_and!; [done | done | done|]. by exists []. }
  pose proof (wp_reloadNetwork configs s3) as He.
  assert (Hk : forall c, c ∈ configs -> in_force configs c (fst (reloadNetwork configs s3))).
  { intros c Hc. unfold in_force. rewrite (keeps_reloadNetwork _ configs (Hown c Hc) s3). by apply H3. }
  eapply wp_mono; [exact (wp_and _ _ _ _ _ _ He
    (proj2 (wp_always _ (fun s' => forall c, c ∈ configs -> in_force configs c s') s3) Hk)) | | done]; cbv beta.
  intros _ s' [(run & Hr & Hl) Hf]. split_and!; [done | done | done|]. exists run. by rewrite Hr, Ht.
Qed.

End network.

(** ** Reading the DHCP flag back *)

Lemma trim_back_prefix s : exists t, s = trim_back s +:+ t.
Proof.
  induction s as [|c s [t IH]]; [by exists ""|]. cbn [trim_back].
  destruct (trim_back s) as [|d s'] eqn:E.
  - destruct (trim_char c); [by exists (String c s) | exists s; done].
  - exists t. cbn. by rewrite IH at 1.
Qed.

Lemma trim_front_id c s : trim_char c = false -> trim_front (String c s) = String c s.
Proof. intros H. cbn. by rewrite H. Qed.

Lemma trim_back_app s c : trim_char c = false -> trim_back (s +:+ String c "") = s +:+ String c "".
Proof.
  intros Hc. induction s as [|d s IH]; cbn; [by rewrite Hc|]. rewrite IH. by destruct s.
Qed.

Lemma trim_back_cons c s : trim_char c = false -> trim_back (String c s) = String c (trim_back s).
Proof. intros Hc. cbn. by destruct (trim_back s); [rewrite Hc|]. Qed.

Lemma trim_back_idem s : trim_back (trim_back s) = trim_back s.
Proof.
  induction s as [|c s IH]; [done|]. cbn [trim_back]. destruct (trim_back s) as [|d s'] eqn:E.
  - destruct (trim_char c) eqn:Hc; [done|]. cbn. by rewrite Hc.
  - cbn [trim_back] in IH |- *. by rewrite IH.
Qed.

Lemma trim_front_back s : trim_front (trim_back s) = trim_back (trim_front s).
Proof.
  induction s as [|c s IH]; [done|]. cbn [trim_front]. destruct (trim_char c) eqn:Hc.
  - rewrite <- IH. cbn [trim_back]. destruct (trim_back s); [by rewrite Hc | cbn [trim_front]; by rewrite Hc].
  - by rewrite trim_back_cons, trim_front_id.
Qed.

Lemma trim_trim_back s : trim (trim_back s) = trim s.
Proof. unfold trim. by rewrite trim_front_back, trim_back_idem. Qed.

(** A line that starts with a visible character keeps its start when trimmed. *)
Lemma trim_starts_with p c s :
  trim_char c = false -> starts_with p (String c s) = false -> starts_with p (trim (String c s)) = false.
Proof.
  intros Hc Hs. unfold trim. rewrite trim_front_id by done. apply not_true_is_false. intros [r Hr]%starts_with_spec.
  destruct (trim_back_prefix (String c s)) as [t Ht]. rewrite Ht, Hr, str_app_assoc in Hs.
  apply not_true_iff_false in Hs. apply Hs, starts_with_spec. by eexists.
Qed.

Definition dhcp_value (value : string) : bool :=
  let v := trim value in (v ==? "yes") || (v ==? "true") || (v ==? "ipv4").

(** The last DHCP setting of the section [Network]. *)
Fixpoint last_dhcp (enabled : bool) (settings : list (string * string * string)) : bool :=
  match settings with
  | [] => enabled
  | (section, key, value) :: rest =>
      last_dhcp (if (section ==? "Network") && (key ==? "DHCP") then dhcp_value value else enabled) rest
  end.

(** A key that starts with a visible character. *)
Definition visible (s : string) : Prop := exists c, front s = Some c /\ trim_char c = false.

Lemma dhcp_setting section sec enabled key value :
  visible key -> contains "=" key = false -> (forall r, key <> String "[" r) ->
  (sec ==? "[Network]") = (section ==? "Network") ->
  dhcp_line (sec, enabled) (key +:+ String "=" value) =
  (sec, if (section ==? "Network") && (key ==? "DHCP") then dhcp_value value else enabled).
Proof.
  intros (c & Hf & Hc) He Hb Hsec. destruct key as [|d key]; [done|]. injection Hf as ->. unfold dhcp_line.
  assert (H1 : starts_with "[" (trim (String c (key +:+ String "=" value))) = false).
  { apply trim_starts_with; [done|]. apply not_true_is_false. intros [r [= -> _]]%starts_with_spec. by apply (Hb key). }
  cbn [String.append]. rewrite H1, Hsec. destruct (section ==? "Network"); cbn [andb]; [|done].
  destruct (bool_decide_reflect (String c key = "DHCP")) as [[= -> ->]|Hk].
  - cbn [String.append].
    assert (Ht : trim (String "D" (String "H" (String "C" (String "P" (String "=" value))))) = "DHCP=" +:+ trim_back value).
    { unfold trim. rewrite trim_front_id by done. by rewrite !trim_back_cons by done. }
    rewrite Ht. cbn [String.append str_drop]. rewrite trim_trim_back. by destruct (trim_back value).
  - rewrite trim_starts_with; [done | done|]. apply not_true_is_false. intros [r Hr]%starts_with_spec. apply Hk.
    pose proof (cut_app "=" (String c key) value He) as Hcut. cbn [String.append] in Hcut. rewrite Hr in Hcut.
    change ("DHCP=" +:+ r) with ("DHCP" +:+ String "=" r) in Hcut. rewrite cut_app in Hcut by done. congruence.
Qed.

Lemma dhcp_section acc name :
  dhcp_line acc (String "[" (name +:+ String "]" "")) = (String "[" (name +:+ String "]" ""), snd acc).
Proof.
  destruct acc as [section enabled]. unfold dhcp_line, trim. rewrite trim_front_id by done.
  change (String "[" (name +:+ String "]" "")) with (String "[" name +:+ String "]" "").
  rewrite trim_back_app by done. cbn. by destruct (name +:+ "]").
Qed.

(** A line that systemd skips. *)
Lemma dhcp_blank acc l : read_line l = Blank -> dhcp_line acc l = acc.
Proof.
  destruct acc as [section enabled]. destruct l as [|c l]; [cbn; by rewrite andb_false_r|]. unfold read_line.
  destruct (bool_decide_reflect (c = "#"%char)) as [->|]; [|destruct (bool_decide_reflect (c = ";"%char)) as [->|]]; cbn [orb].
  - intros _. unfold dhcp_line. rewrite !trim_starts_with by done. by destruct (section ==? "[Network]").
  - intros _. unfold dhcp_line. rewrite !trim_starts_with by done. by destruct (section ==? "[Network]").
  - destruct (c ==? "["%char); [destruct (cut "]" l) as [name [[|? ?]|]]; done|].
    by destruct (cut "=" (String c l)) as [key [value|]].
Qed.

Lemma read_line_setting l key value :
  read_line l = Setting key value -> l = key +:+ String "=" value /\ contains "=" key = false /\ forall r, key <> String "[" r.
Proof.
  destruct l as [|c l]; [done|]. unfold read_line. destruct ((c ==? "#"%char) || (c ==? ";"%char)); [done|].
  destruct (bool_decide_reflect (c = "["%char)) as [->|Hc].
  - by destruct (cut "]" l) as [? [[|? ?]|]].
  - pose proof (cut_spec "=" (String c l)) as Hs. destruct (cut "=" (String c l)) as [k [v|]]; [|done].
    intros [= -> ->]. destruct Hs as [Hs He]. split_and!; [done | done|]. intros r ->. cbn in Hs. congruence.
Qed.

Lemma read_line_section l name : read_line l = Section_ name -> l = String "[" (name +:+ String "]" "").
Proof.
  destruct l as [|c l]; [done|]. unfold read_line. destruct ((c ==? "#"%char) || (c ==? ";"%char)); [done|].
  destruct (bool_decide_reflect (c = "["%char)) as [->|Hc].
  - pose proof (cut_spec "]" l) as Hs. destruct (cut "]" l) as [n [[|? ?]|]]; [|done|done].
    intros [= ->]. by destruct Hs as [-> _].
  - by destruct (cut "=" (String c l)) as [k [v|]].
Qed.

Definition setting_key (x : string * string * string) : string := snd (fst x).

(** [dhcpEnabled] reads a file that systemd can read as systemd does. *)
Lemma dhcp_reads ls section sec enabled settings :
  read_lines section ls = Some settings -> Forall (fun x => visible (setting_key x)) settings ->
  (sec ==? "[Network]") = (section ==? "Network") ->
  snd (fold_left dhcp_line ls (sec, enabled)) = last_dhcp enabled settings.
Proof.
  revert section sec enabled settings. induction ls as [|l ls IH]; intros section sec enabled settings Hr Hv Hs; cbn [read_lines] in Hr.
  { by injection Hr as <-. }
  cbn [fold_left]. destruct (read_line l) as [|name|key value|] eqn:El; [| | |done].
  - rewrite dhcp_blank by done. by apply (IH section).
  - apply read_line_section in El as ->. rewrite dhcp_section. apply (IH name); [done | done|].
    destruct (bool_decide_reflect (name = "Network")) as [->|Hn]; [done|]. apply bool_decide_eq_false. intros He. apply Hn.
    change "[Network]" with (String "[" ("Network" +:+ "]")) in He. injection He as He. exact (str_app_inj_r name "Network" "]" He).
  - destruct (read_lines section ls) as [rest|] eqn:Er; [|done]. injection Hr as <-. cbn [last_dhcp].
    apply Forall_cons in Hv as [Hk Hv]. apply read_line_setting in El as (-> & He & Hb).
    rewrite (dhcp_setting section) by done. by apply (IH section).
Qed.

Lemma last_dhcp_app enabled l1 l2 : last_dhcp enabled (l1 ++ l2) = last_dhcp (last_dhcp enabled l1) l2.
Proof. revert enabled. induction l1 as [|[[s k] v] l1 IH]; intros enabled; cbn; [done | apply IH]. Qed.

Lemma last_dhcp_other enabled l : Forall (fun x => setting_key x <> "DHCP") l -> last_dhcp enabled l = enabled.
Proof.
  induction 1 as [|[[s k] v] l Hk _ IH]; [done|]. cbn in *. rewrite (bool_decide_eq_false_2 (k = "DHCP")) by done.
  by rewrite andb_false_r.
Qed.

Lemma network_settings_keys c hasPreferred :
  Forall (fun x => visible (setting_key x)) (network_settings c hasPreferred).
Proof.
  unfold network_settings, dynamic_settings. rewrite !Forall_app, Forall_fmap.
  split_and!; repeat case_match; repeat constructor; try (eexists; split; reflexivity).
  apply Forall_true. intros x. by eexists.
Qed.

Lemma dhcp_file_render c hasPreferred enabled :
  config_ok c -> dhcp_file enabled (render_text c hasPreferred) = bool_decide (nc_mode c = dhcp).
Proof.
  intros Hok. unfold dhcp_file. pose proof (read_ini_render c hasPreferred Hok) as Hr. unfold read_ini in Hr.
  rewrite (dhcp_reads _ _ _ _ _ Hr (network_settings_keys c hasPreferred)) by done.
  unfold network_settings. rewrite !last_dhcp_app, !(last_dhcp_other _ (dynamic_settings _ _ _)).
  2-4: unfold dynamic_settings; repeat case_match; repeat constructor; discriminate.
  rewrite (last_dhcp_other _ (map _ _)) by (apply Forall_fmap, Forall_true; intros x; discriminate).
  rewrite !last_dhcp_other by (repeat case_match; repeat constructor; discriminate).
  cbn [last_dhcp]. unfold yes_no. by destruct (bool_decide (nc_mode c = dhcp)).
Qed.

Lemma dhcp_file_servers enabled : dhcp_file enabled explicit_servers = enabled.
Proof. by destruct enabled. Qed.

Section reading.
Context {W : Type} {HO : Host W} {HL : HostLaws W} {NO : Node W}.

Lemma wp_read_file path limit (Q : string -> Native W -> Prop) E s :
  (forall c s', file (nv_world s) path = Some c -> (forall q, keeps q s s') -> Q c s') ->
  (forall e s', (forall q, keeps q s s') -> E e s') -> wp (read_file path limit) Q E s.
Proof.
  intros HQ HE. apply wp_world. assert (Hk : forall q, keeps q s (mkNative (fst (readFile path limit (nv_world s))) (nv_trace s)))
    by (intros q; apply readFile_frame).
  destruct (snd (readFile path limit (nv_world s))) as [c|e] eqn:Er; [|by apply HE].
  apply HQ; [|done]. apply (readFile_ok _ _ _ _ Er).
Qed.

(** Drop-ins of the clock policy do not change the flag. *)
Lemma wp_dhcp_dropins dropins enabled s :
  Forall (fun p => file (nv_world s) p = Some explicit_servers) dropins ->
  wp (dhcp_files dropins enabled) (fun b _ => b = enabled) (fun _ _ => True) s.
Proof.
  revert s. induction dropins as [|p dropins IH]; intros s Hd; cbn [dhcp_files]; [done|].
  apply Forall_cons in Hd as [Hp Hd]. apply wp_bind, wp_read_file; [|done]. intros c s' Hc Hk.
  rewrite Hp in Hc. injection Hc as <-. rewrite dhcp_file_servers. apply IH.
  eapply Forall_impl; [exact Hd|]. intros q Hq. cbv beta. by rewrite (Hk q).
Qed.

Lemma wp_dhcpEnabled c hasPreferred info s :
  config_ok c -> li_NetworkFile info = network_file (nc_interface c) ->
  file (nv_world s) (network_file (nc_interface c)) = Some (render_text c hasPreferred) ->
  Forall (fun p => file (nv_world s) p = Some explicit_servers) (li_NetworkFileDropins info) ->
  wp (dhcpEnabled info) (fun b _ => b = bool_decide (nc_mode c = dhcp)) (fun _ _ => True) s.
Proof.
  intros Hok Hn Hf Hd. unfold dhcpEnabled. rewrite Hn. cbn [empty dhcp_files].
  apply wp_bind, wp_read_file; [|done]. intros text s' Ht Hk. rewrite Hf in Ht. injection Ht as <-.
  rewrite dhcp_file_render by done. apply wp_dhcp_dropins. eapply Forall_impl; [exact Hd|].
  intros q Hq. cbv beta. by rewrite (Hk q).
Qed.

End reading.

(** C18: When [network] returns, the configurations were valid and complete, and
    exactly their files were written, in order, each with the rendered text,
    which is what is on disk. At boot, when there is no bus, that is all. At any
    other time networkd was then, after the last file, told to reload and to
    reconfigure each interface in turn, and answered each of these calls. An
    invalid list changes nothing. *)
Theorem network_files_in_force {W} {HO : Host W} {HL : HostLaws W} {NO : Node W} {own} {NL : NodeLaws W own}
    profile configs boot (s : Native W) :
  (forall c, c ∈ configs -> own (network_file (nc_interface c))) ->
  Forall (fun c => has_substring ".network" (nc_interface c) = false) configs ->
  match network profile configs boot s with
  | (s', Return _) => network_applied profile configs boot s s'
  | (s', Throw _) => validateNetwork configs <> Return tt -> s' = s
  end.
Proof. exact (wp_network (HL := HL) (NL := NL) profile configs boot s). Qed.

(** The mode that discovery reads from the files is the mode that was set:
    after [network] returned, [dhcpEnabled] of a link that networkd runs with the
    written file (and with the drop-ins of the clock policy) answers, unless a
    file cannot be read, whether the configuration asks for DHCP. *)
Theorem network_mode_round_trip {W} {HO : Host W} {HL : HostLaws W} {NO : Node W} {own} {NL : NodeLaws W own}
    profile configs boot (s s' : Native W) c info :
  (forall c, c ∈ configs -> own (network_file (nc_interface c))) ->
  Forall (fun c => has_substring ".network" (nc_interface c) = false) configs ->
  network profile configs boot s = (s', Return tt) -> c ∈ configs ->
  li_NetworkFile info = network_file (nc_interface c) ->
  Forall (fun p => file (nv_world s') p = Some explicit_servers) (li_NetworkFileDropins info) ->
  match snd (dhcpEnabled info s') with
  | Return b => b = bool_decide (nc_mode c = dhcp)
  | Throw _ => True
  end.
Proof.
  intros Hown Hplain Hn Hc Hi Hd.
  pose proof (wp_run _ _ _ _ _ _ (wp_network (HL := HL) (NL := NL) profile configs boot s Hown Hplain) Hn) as (Hv & _ & Hf & _).
  destruct (proj1 (validateNetwork_spec configs) Hv) as (_ & _ & _ & Hok). rewrite Forall_forall in Hok.
  pose proof (wp_dhcpEnabled (HL := HL) c _ info s' (Hok c Hc) Hi (Hf c Hc) Hd) as Hw. unfold wp in Hw.
  by destruct (dhcpEnabled info s') as [? []].
Qed.
