(* ===== verification/NativeQueries.v ===== *)
(** * What the native platform reports and accepts (daemon/backend.cpp)

    Validation against the product, discovery, the time, link observations and
    temperatures. *)

From stdpp Require Import sorting.
From S2P Require Import Prelude SystemTypes Validation Effects Host Backend Clock NetworkFile Timestamp Bus Native.
From S2P Require Import NativeProperties.
Import NativePlatform.

(** ** Validated configurations *)

Lemma find_policy_some profile name p : find_policy profile name = Some p -> p ∈ pf_interfaces profile /\ ip_name p = name.
Proof. intros [Hin Hn]%find_some. apply bool_decide_eq_true in Hn. by rewrite list_elem_of_In. Qed.

(** A PTP choice that passes has a port and units. *)
Lemma ptp_selection_supported profile entries query time :
  validatePtpSelection time (discoverPtpInterfaces profile entries query) = Return tt -> tp_synchronization time = "ptp" ->
  pf_ptp_unit_templates profile <> [] /\ exists p, p ∈ pf_interfaces profile /\ ip_name p = tp_ptp_interface time.
Proof.
  unfold validatePtpSelection. intros Hv Hs. rewrite bool_decide_eq_true_2 in Hv by done. cbn [negb] in Hv.
  destruct (find_ptp _ _) as [i|] eqn:Ef; [|done]. destruct (pi_selectable i) eqn:Es; [|done].
  apply find_some in Ef as [Hin Hn]. apply bool_decide_eq_true in Hn.
  apply list_elem_of_In, discover_elem in Hin as (e & He & Hl & ->). rewrite ptp_interface_name in Hn.
  apply ptp_interface_selectable in Es as (Hm & Ht & _). split; [done|]. unfold managed in Hm.
  destruct (find_policy profile (ne_name e)) as [p|] eqn:Ep; [|done]. apply find_policy_some in Ep as [Hp Hpn].
  exists p. split; [done | congruence].
Qed.

Section validation.
Context {W : Type} {HO : Host W} {NO : Node W} (profile_ : Profile).

Lemma wp_interfacePolicy name boot (s : Native W) :
  wp (interfacePolicy profile_ name boot) (fun _ _ => exists p, p ∈ pf_interfaces profile_ /\ ip_name p = name)
    (fun _ _ => True) s.
Proof.
  unfold interfacePolicy. destruct (find_policy profile_ name) as [p|] eqn:Ep; [|done].
  eapply wp_mono; [apply wp_trivial | | done]. intros _ s' _. exists p. by apply find_policy_some.
Qed.

(** The configuration fits the product. *)
Definition fits (c : Configuration) : Prop :=
  validate c = Return tt /\ length (pr_network (cf_system c)) = length (pf_interfaces profile_) /\
  Forall (fun n => exists p, p ∈ pf_interfaces profile_ /\ ip_name p = nc_interface n) (pr_network (cf_system c)) /\
  supported profile_ (cf_time c).

Lemma wp_validateConfiguration c (s : Native W) :
  wp (validateConfiguration profile_ c) (fun _ _ => fits c) (fun _ _ => True) s.
Proof.
  unfold validateConfiguration. apply wp_bind, wp_lift. destruct (validate c) as [[]|e] eqn:Hv; [|done]. apply wp_bind.
  destruct (Nat.eqb_spec (length (pr_network (cf_system c))) (length (pf_interfaces profile_))) as [Hlen|]; cbn [negb when]; [|done].
  apply wp_ret, wp_bind.
  eapply wp_mono; [apply (wp_for_each_elems _ _ (fun n => exists p, p ∈ pf_interfaces profile_ /\ ip_name p = nc_interface n)) | | done].
  { intros n s1 _. apply wp_interfacePolicy. }
  cbv beta. intros _ s1 Hmanaged. wp_skip as zones.
  apply wp_bind. destruct (negb _); cbn [when]; [done|]. apply wp_ret. unfold ptp_interfaces.
  apply wp_bind, wp_bind, wp_world. destruct (snd _) as [entries|e]; [|done]. apply wp_bind, wp_gets, wp_ret.
  apply wp_bind, wp_lift. destruct (validatePtpSelection _ _) as [[]|e] eqn:Hp; [|done].
  destruct (_ && _) eqn:Hi; cbn [when]; [done|]. apply wp_ret. split_and!; [done | done | by apply Forall_forall|]. split.
  - intros Hs He. rewrite Hs, He in Hi. discriminate.
  - by eapply ptp_selection_supported.
Qed.

End validation.

(** A configuration that [validateConfiguration] accepts can be applied: it is
    valid, names as many interfaces as the product manages, all of them managed, and its clock source has
    units, so that [clockUnits], which [preferences] calls after it has changed
    the host name and the time zone, does not throw. *)
Theorem validated_configuration_fits {W} {HO : Host W} {NO : Node W} profile c (s : Native W) :
  units_ok profile ->
  match snd (validateConfiguration profile c s) with
  | Return _ => fits profile c /\ exists units, clockUnits profile (cf_time c) = Return units
  | Throw _ => True
  end.
Proof.
  intros Hok. pose proof (wp_validateConfiguration profile c s) as Hw. unfold wp in Hw.
  destruct (validateConfiguration profile c s) as [s' [u|e]]; [|done]. cbn. split; [done|].
  apply clockUnits_total; [done | apply Hw].
Qed.

(** ** Temperatures *)

Lemma from_chars_signed_range bits s n rest : from_chars_signed bits s = Some (n, rest) -> - 2 ^ (bits - 1) <= n < 2 ^ (bits - 1).
Proof.
  unfold from_chars_signed. destruct (match s with String "-" s' => (true, s') | _ => (false, s) end) as [negative body].
  destruct (digits 10 body) as [[|d ds] r]; [done|].
  destruct (_ && _) eqn:E; [|done]. intros [= <- _]. propify. lia.
Qed.

Section temperatures.
Context {W : Type} {HO : Host W} {HL : HostLaws W} {NO : Node W} {own : string -> Prop} {NL : NodeLaws W own}.

Lemma wp_fold_each {A B} (f : B -> A -> eff (Native W) B) l (I : B -> Native W -> Prop) E acc s :
  I acc s -> (forall acc x s, I acc s -> wp (f acc x) I E s) -> wp (fold_each f acc l) I E s.
Proof.
  intros HI Hf. revert acc s HI. induction l as [|x l IH]; intros acc s HI; cbn [fold_each]; [done|].
  apply wp_bind. eapply wp_mono; [by apply Hf | | done]. intros acc' s'. apply IH.
Qed.

(** A reading of a sensor: a file of a device names the sensor, and the file
    beside it holds the number, with nothing else but blanks around it. *)
Definition reading (w : W) (label : string) (n : Z) : Prop :=
  exists device name label_text text,
    label_file name = true /\ file w (path_append device name) = Some label_text /\ trim label_text = label /\
    file w (path_append device (str_take (String.length name - 6) name +:+ "_input")) = Some text /\
    from_chars_signed 64 (trim text) = Some (n, "").

Definition reading_ok (w : W) (t : Temperature) : Prop :=
  match te_millidegrees_c t with Some n => reading w (te_label t) n /\ - 2 ^ 63 <= n < 2 ^ 63 | None => True end.

Definition sensor_of (t : Temperature) : string * string := (te_zone t, te_label t).

(** The readings so far, with the files as they were in [w]. *)
Definition readings (w : W) (sensors : list SensorPolicy) (result : list Temperature) (s : Native W) : Prop :=
  map sensor_of result = map (fun p => (sp_zone p, sp_label p)) sensors /\ Forall (reading_ok w) result /\
  forall q, file (nv_world s) q = file w q.

Lemma set_reading_sensors label n result : map sensor_of (set_reading label n result) = map sensor_of result.
Proof. induction result as [|t result IH]; cbn; [done|]. case_bool_decide; cbn; [done | by rewrite IH]. Qed.

Lemma set_reading_ok w label n result :
  reading w label n -> - 2 ^ 63 <= n < 2 ^ 63 -> Forall (reading_ok w) result -> Forall (reading_ok w) (set_reading label n result).
Proof.
  intros Hr Hn. induction 1 as [|t result Ht Hrest IH]; cbn [set_reading]; [done|].
  case_bool_decide as Hl; constructor; [|done|done|done]. unfold reading_ok. cbn. by rewrite Hl.
Qed.

Lemma readings_kept w sensors result s s' : (forall q, keeps q s s') -> readings w sensors result s -> readings w sensors result s'.
Proof. intros Hk (? & ? & Hf). split_and!; [done | done|]. intros q. by rewrite (Hk q). Qed.

Lemma wp_catch_error {A} (d : A) (m : eff (Native W) A) Q E s :
  wp m Q (fun e s' => match e with Error _ => Q d s' | _ => E e s' end) s -> wp (catch_error d m) Q E s.
Proof. intros H. apply wp_try. eapply wp_mono; [exact H | done | by intros [] s']. Qed.

Lemma wp_read_entry w sensors device result name s :
  readings w sensors result s ->
  wp (read_entry device result name) (readings w sensors) (fun e s' => forall result, readings w sensors result s -> readings w sensors result s') s.
Proof.
  intros HI. unfold read_entry. destruct (label_file name) eqn:Hname; cbn [negb]; [|done].
  apply wp_catch_error, wp_bind, wp_read_file.
  2: { intros [] s' Hk; [by eapply readings_kept | by intros r; eapply readings_kept..]. }
  intros ltext s1 Hltext Hk1. cbv zeta. destruct (negb _); [by eapply readings_kept|].
  apply wp_bind, wp_read_file.
  2: { intros e s' Hk. assert (Hk2 : forall r, readings w sensors r s -> readings w sensors r s')
         by (intros r Hr; eapply readings_kept; [exact Hk|]; by eapply readings_kept; [exact Hk1|]).
       destruct e; auto. }
  intros text s2 Htext Hk2. assert (HI2 : readings w sensors result s2)
    by (eapply readings_kept; [exact Hk2|]; by eapply readings_kept; [exact Hk1|]).
  destruct (from_chars_signed 64 (trim text)) as [[n [|? ?]]|] eqn:Ep; [|done|done].
  destruct HI as (_ & _ & Hf). rewrite (Hk1 _) in Htext. rewrite Hf in Hltext, Htext.
  destruct HI2 as (Hs2 & Hok2 & Hf2). split_and!; [by rewrite set_reading_sensors | | done].
  apply set_reading_ok; [|by eapply (from_chars_signed_range 64) | done]. by exists device, name, ltext, text.
Qed.

Lemma wp_readTemperatures root sensors (s : Native W) :
  wp (readTemperatures root sensors) (readings (nv_world s) sensors) (fun _ s' => forall q, keeps q s s') s.
Proof.
  unfold readTemperatures. apply wp_bind, wp_sys_call.
  assert (Hl : forall p (s : Native W), forall q, keeps q s (mkNative (fst (list_directory p (nv_world s))) (nv_trace s)))
    by (intros p s1 q; apply list_directory_frame).
  destruct (snd _) as [names|]; [|intros q; apply Hl].
  assert (H0 : readings (nv_world s) sensors (map (fun p => mkTemperature (sp_zone p) (sp_label p) None) sensors)
    (mkNative (fst (list_directory root (nv_world s))) (nv_trace s))).
  { split_and!; [by rewrite map_map | by apply Forall_fmap, Forall_true | intros q; apply Hl]. }
  eapply wp_mono; [apply (wp_fold_each _ _ (readings (nv_world s) sensors) (fun _ s' => forall q, keeps q s s')) | done | done]; [done|].
  intros result device s1 H1. unfold read_device. apply wp_bind, wp_sys_call.
  assert (H2 : readings (nv_world s) sensors result (mkNative (fst (list_directory (path_append root device) (nv_world s1))) (nv_trace s1)))
    by (eapply readings_kept; [apply Hl | done]).
  destruct (snd _) as [entries|]; [|done]. apply wp_fold_each; [done|]. intros result' name s2 H3.
  eapply wp_mono; [by apply wp_read_entry | done|]. cbv beta. intros e s3 Hr q. specialize (Hr _ H3). apply Hr.
Qed.

End temperatures.

(** Temperatures are never guessed: the answer lists exactly the sensors of
    the profile, in order, and a value is there only when a device of the
    kernel names the sensor and its input file holds that number, whole and
    within 64 bits; nothing is written. *)
Theorem temperatures_are_readings {W} {HO : Host W} {HL : HostLaws W} {NO : Node W} {own} {NL : NodeLaws W own} root sensors (s : Native W) :
  match readTemperatures root sensors s with
  | (s', Return result) =>
      map sensor_of result = map (fun p => (sp_zone p, sp_label p)) sensors /\
      Forall (reading_ok (nv_world s)) result /\ forall q, keeps q s s'
  | (s', Throw _) => forall q, keeps q s s'
  end.
Proof.
  pose proof (wp_readTemperatures (HL := HL) (NL := NL) root sensors s) as Hw. unfold wp in Hw.
  destruct (readTemperatures root sensors s) as [s' [result|e]]; exact Hw.
Qed.

(** ** Discovery *)

(** No text, or the dotted text of four octets. *)
Definition quad (text : string) : Prop :=
  text = "" \/ exists a b c d, is_octet a /\ is_octet b /\ is_octet c /\ is_octet d /\ text = dotted a b c d.

Definition bytes_ok (bytes : list Z) : Prop := Forall is_octet bytes.

(** The bytes of a link description are bytes. *)
Definition link_bytes (info : LinkInfo) : Prop :=
  Forall (fun a => bytes_ok (ai_Address a)) (li_Addresses info) /\ Forall (fun r => bytes_ok (ri_Gateway r)) (li_Routes info) /\
  Forall (fun d => bytes_ok (di_Address d)) (li_DNS info).

Lemma address_quad bytes : bytes_ok bytes -> quad (address bytes AF_INET).
Proof.
  unfold address. change (AF_INET =? AF_INET) with true. cbv iota.
  destruct (Z.eqb_spec (Z.of_nat (length bytes)) 4) as [Hl|]; cbn [negb]; [|by left]. intros Hb.
  destruct bytes as [|a [|b [|c [|d [|e bytes]]]]]; cbn in Hl; try lia. unfold bytes_ok in Hb. inv_forall.
  right. exists a, b, c, d. done.
Qed.

(** What an interface is reported as. *)
Definition discovered (n : NetworkConfig) : Prop :=
  quad (nc_address n) /\ 0 <= nc_prefix_length n < 256 /\ quad (nc_gateway n) /\ Forall quad (nc_dns_servers n) /\
  (nc_mode n = dhcp -> nc_address n = "") /\ nc_preferred_default n = false.

Lemma static_addresses_ok mode infos acc res :
  Forall (fun a => bytes_ok (ai_Address a)) infos -> quad (fst acc) -> 0 <= snd acc < 256 -> (mode = dhcp -> fst acc = "") ->
  static_addresses mode infos acc = Return res -> quad (fst res) /\ 0 <= snd res < 256 /\ (mode = dhcp -> fst res = "").
Proof.
  intros Hb. revert acc. induction Hb as [|a infos Ha _ IH]; intros acc Hq Hp Hm; cbn [static_addresses].
  { by intros [= <-]. }
  destruct (Z.eqb_spec (ai_Family a) AF_INET) as [Hf|]; cbn [andb]; [|by apply IH].
  destruct (ai_ConfigSource a ==? "static"); [|by apply IH].
  destruct (bool_decide_reflect (mode = dhcp)) as [|Hd]; cbn [orb]; [done|].
  destruct (empty (fst acc)); cbn [negb]; [|done]. apply IH; cbn.
  - rewrite Hf. by apply address_quad.
  - apply Z.mod_pos_bound. lia.
  - done.
Qed.

Lemma fold_gateway_quad (test : RouteInfo -> bool) routes g :
  (forall r, test r = true -> ri_Family r = AF_INET) -> Forall (fun r => bytes_ok (ri_Gateway r)) routes -> quad g ->
  quad (fold_left (fun g r => if test r then address (ri_Gateway r) (ri_Family r) else g) routes g).
Proof.
  intros Ht Hb. revert g. induction Hb as [|r routes Hr _ IH]; intros g Hg; cbn [fold_left]; [done|]. apply IH.
  destruct (test r) eqn:Er; [|done]. rewrite (Ht r Er). by apply address_quad.
Qed.

Lemma static_gateway_quad routes : Forall (fun r => bytes_ok (ri_Gateway r)) routes -> quad (static_gateway routes).
Proof. intros Hb. apply fold_gateway_quad; [|done | by left]. intros r Hr. propify. done. Qed.

Lemma static_dns_quad infos : Forall (fun d => bytes_ok (di_Address d)) infos -> Forall quad (static_dns infos).
Proof.
  intros Hb. unfold static_dns. apply Forall_fmap, Forall_forall. intros d Hd.
  apply list_elem_of_In, filter_In in Hd as [Hin Hf]. rewrite Forall_forall in Hb. propify. cbn. rewrite H.
  by apply address_quad, Hb, list_elem_of_In.
Qed.

Section discovery.
Context {W : Type} {HO : Host W} {NO : Node W} (read_link : string -> option LinkInfo) (profile_ : Profile).
Context (Hlink : forall json info, read_link json = Some info -> link_bytes info).

Lemma wp_describe name (s : Native W) : wp (describe read_link name) (fun info _ => link_bytes info) (fun _ _ => True) s.
Proof.
  unfold describe. wp_skip as index.
  destruct (index =? 0); [done|]. wp_skip as m.
  destruct (read_text m) as [json|]; [|done]. destruct (read_link json) as [info|] eqn:El; [|done]. by apply wp_ret, (Hlink json).
Qed.

Lemma wp_discover_interface policy (s : Native W) :
  wp (discover_interface read_link profile_ policy) (fun n _ => nc_interface n = ip_name policy /\ discovered n) (fun _ _ => True) s.
Proof.
  unfold discover_interface. wp_skip as u.
  wp_step. eapply wp_mono; [apply wp_describe | | done]. cbv beta. intros info s2 (Ha & Hr & Hd).
  wp_skip as enabled.
  apply wp_bind, wp_lift. destruct (static_addresses _ _ _) as [[addr prefix]|e] eqn:Es; [|done]. apply wp_ret.
  apply static_addresses_ok in Es as (Hq & Hp & Hm); [|done | by left | cbn; lia | done]. cbn in Hq, Hp, Hm.
  split; [done|]. unfold discovered. cbn. split_and!; [done | lia | lia | by apply static_gateway_quad | by apply static_dns_quad | exact Hm | done].
Qed.

Lemma wp_collect {A B} (f : A -> eff (Native W) B) (P : A -> B -> Prop) l E s :
  (forall x s, wp (f x) (fun y _ => P x y) E s) -> wp (collect f l) (fun ys _ => Forall2 P l ys) E s.
Proof.
  intros Hf. revert s. induction l as [|x l IH]; intros s; cbn [collect]; [by apply wp_ret; constructor|].
  apply wp_bind. eapply wp_mono; [apply Hf | | done]. cbv beta. intros y s1 Hy.
  apply wp_bind. eapply wp_mono; [apply IH | | done]. cbv beta. intros ys s2 Hys. apply wp_ret. by constructor.
Qed.

Lemma wp_discover (s : Native W) :
  wp (discover read_link profile_)
    (fun c _ => map nc_interface (pr_network (cf_system c)) = map ip_name (pf_interfaces profile_) /\
       Forall discovered (pr_network (cf_system c)) /\ tp_timezone (cf_time c) <> "") (fun _ _ => True) s.
Proof.
  unfold discover. wp_skip as bus.
  wp_skip as hostname.
  wp_skip as zone.
  wp_skip as ssh.
  wp_step. eapply wp_mono; [apply (wp_collect _ (fun p n => nc_interface n = ip_name p /\ discovered n)); intros p s5;
    apply wp_discover_interface | | done]. cbv beta zeta. intros network s5 Hn. apply wp_ret. cbn. split_and!.
  - induction Hn as [|p n ps ns [Hi _] _ IH]; cbn; congruence.
  - induction Hn as [|p n ps ns [_ Hd] _ IH]; [constructor | by constructor].
  - destruct (empty zone) eqn:Ez; [done | by apply empty_false].
Qed.

End discovery.

(** C30: Discovery is well typed: the configuration it returns has the managed
    interfaces of the product, in order, each with addresses that are empty or
    dotted texts of four octets, a prefix of 8 bits and no static address under
    DHCP, and a time zone. *)
Theorem discover_well_typed {W} {HO : Host W} {NO : Node W} read_link profile (s : Native W) :
  (forall json info, read_link json = Some info -> link_bytes info) ->
  match snd (discover read_link profile s) with
  | Return c =>
      map nc_interface (pr_network (cf_system c)) = map ip_name (pf_interfaces profile) /\
      Forall discovered (pr_network (cf_system c)) /\ tp_timezone (cf_time c) <> ""
  | Throw _ => True
  end.
Proof.
  intros Hl. pose proof (wp_discover read_link profile Hl s) as Hw. unfold wp in Hw.
  by destruct (discover read_link profile s) as [s' [c|e]].
Qed.

(** ** Time *)

Section time.
Context {W : Type} {HO : Host W} {NO : Node W} (profile_ : Profile).

(** What the kernel's clock and the zone data promise: a time since 1970 that is
    less than 2^63 milliseconds (the kernel keeps it in 2^63 nanoseconds), and an
    offset that fits 32 bits. *)
Definition clock_ok : Prop :=
  (forall (w : W) sec nsec, snd (clock_realtime w) = Some (sec, nsec) -> 0 <= sec < 9223372036854775 /\ 0 <= nsec < 1000000000) /\
  (forall (w : W) sec, Z.abs (snd (local_offset sec w)) < 2 ^ 31).

Lemma i32_small z : - 2 ^ 31 <= z < 2 ^ 31 -> i32 z = z.
Proof. intros H. unfold i32. rewrite Z.mod_small; lia. Qed.

Lemma i64_small z : - 2 ^ 63 <= z < 2 ^ 63 -> i64 z = z.
Proof. intros H. unfold i64. rewrite Z.mod_small; lia. Qed.

(** What the texts of a status name. *)
Definition names_instant (t : TimeStatus) : Prop :=
  read_timestamp (ts_utc_time t) = Some (ts_unix_time_ms t) /\
  read_timestamp (ts_local_time t) = Some (ts_unix_time_ms t + 1000 * Z.rem (ts_utc_offset_seconds t) 60) /\
  ts_timezone t <> "".

Lemma wp_time (s : Native W) :
  clock_ok ->
  wp (time profile_) (fun t s' => names_instant t /\ exists w w' sec nsec,
       snd (clock_realtime w) = Some (sec, nsec) /\ ts_unix_time_ms t = sec * 1000 + nsec / 1000000 /\
       ts_utc_offset_seconds t = snd (local_offset sec w')) (fun _ _ => True) s.
Proof.
  intros [Hclock Hoffset]. unfold time. wp_skip as bus. wp_skip as zone0. wp_skip as zone.
  apply wp_bind, wp_sys_call. destruct (snd (clock_realtime _)) as [[sec nsec]|] eqn:Ec; [|done].
  pose proof Ec as Ec'. apply Hclock in Ec' as [Hsec Hnsec]. wp_skip as uptime. apply wp_bind, wp_sys_call, wp_ret.
  specialize (Hoffset (nv_world s'2) sec). unfold names_instant.
  cbn [ts_utc_time ts_local_time ts_unix_time_ms ts_timezone ts_utc_offset_seconds].
  set (offset := snd (local_offset sec (nv_world s'2))) in *.
  assert (Hl : tm_gmtoff (localtime sec offset) = offset).
  { unfold localtime. rewrite converted_some by lia. unfold broken_down. by destruct (civil _) as [[y m] d]. }
  assert (Hms : 0 <= nsec / 1000000 < 1000) by (split; [apply Z.div_pos; lia | apply Z.div_lt_upper_bound; lia]).
  rewrite Hl, i32_small, (i64_small (sec * 1000)), i64_small by lia.
  destruct (timestamps_read_back sec nsec offset) as [Hu Hlo]; [lia | lia | lia|].
  split; [split_and!; [exact Hu | exact Hlo|]; destruct (empty zone) eqn:Ez; [done | by apply empty_false]|].
  by exists (nv_world s'1), (nv_world s'2), sec, nsec.
Qed.

End time.

(** C31: A time status names one instant, the one that the clock showed: on a
    clock that shows a time from 1970 to the end of 64-bit milliseconds and with
    zone offsets of 32 bits, [time] reports the clock's milliseconds and the
    zone's offset; a reader of RFC 3339 texts gets those milliseconds back from
    the UTC text, and from the local text with its offset too when the offset is
    of whole minutes (otherwise it is off by the seconds of the offset, which the
    text leaves out). The time zone has a name. *)
Theorem time_names_one_instant {W} {HO : Host W} {NO : Node W} profile (s : Native W) :
  clock_ok (W := W) ->
  match snd (time profile s) with
  | Return t => names_instant t /\ exists w w' sec nsec,
      snd (clock_realtime w) = Some (sec, nsec) /\ ts_unix_time_ms t = sec * 1000 + nsec / 1000000 /\
      ts_utc_offset_seconds t = snd (local_offset sec w')
  | Throw _ => True
  end.
Proof.
  intros Hc. pose proof (wp_time profile s Hc) as Hw. unfold wp in Hw. by destruct (time profile s) as [s' [t|e]].
Qed.

(** ** Links *)

Section links.
Context {W : Type} {HO : Host W} {HL : HostLaws W} {NO : Node W} (profile_ : Profile).

(** The kernel says that the interface is up, and whether it has a carrier. *)
Definition observed (w : W) (n : NetworkStatus) : Prop :=
  exists p flags numeric carrier, p ∈ pf_interfaces profile_ /\ ns_interface n = ip_name p /\
    let link_path := path_append "/sys/class/net" (ip_name p) in
    file w (path_append link_path "flags") = Some flags /\ link_flags flags = Some numeric /\ Z.testbit numeric 0 = true /\
    file w (path_append link_path "carrier") = Some carrier /\ (trim carrier = "0" \/ trim carrier = "1") /\
    ns_carrier n = (trim carrier ==? "1").

Definition same_files (w : W) (s : Native W) : Prop := forall q, file (nv_world s) q = file w q.

(** The exceptions of [readFile] are errors of the manager. *)
Definition reads_throw_errors : Prop := forall (w : W) p n e, snd (readFile p n w) = Throw e -> is_error e.

Lemma wp_read_file_error path limit w (Q : string -> Native W -> Prop) E s :
  reads_throw_errors -> same_files w s -> (forall c s', file w path = Some c -> same_files w s' -> Q c s') ->
  (forall e s', is_error e -> same_files w s' -> E e s') -> wp (read_file path limit) Q E s.
Proof.
  intros He Hs HQ HE. apply wp_world. pose proof (He (nv_world s) path limit) as He1.
  assert (Hk : same_files w (mkNative (fst (readFile path limit (nv_world s))) (nv_trace s)))
    by (intros q; cbn; rewrite readFile_frame; apply Hs).
  destruct (snd (readFile path limit (nv_world s))) as [c|e] eqn:Er; [|by apply HE; auto].
  apply HQ; [|done]. rewrite <- (Hs path). apply (readFile_ok _ _ _ _ Er).
Qed.

Lemma wp_observe_link w p s :
  reads_throw_errors -> p ∈ pf_interfaces profile_ -> same_files w s ->
  wp (observe_link p) (fun o s' => same_files w s' /\
      match o with Some n => ns_interface n = ip_name p /\ observed w n | None => True end) (fun _ _ => False) s.
Proof.
  intros He Hp Hs. unfold observe_link. cbv zeta. apply wp_catch_error, wp_bind.
  apply (wp_read_file_error _ _ w); [done | done | | by intros [] s' ?]. intros flags s1 Hflags H1.
  destruct (link_flags flags) as [numeric|] eqn:Ef; [|by apply wp_ret].
  destruct (Z.testbit numeric 0) eqn:Eb; cbn [negb]; [|by apply wp_ret].
  apply wp_bind, (wp_read_file_error _ _ w); [done | done | | by intros [] s' ?]. intros carrier s2 Hcarrier H2.
  destruct (bool_decide_reflect (trim carrier = "0")) as [H0|H0]; cbn [negb andb].
  - apply wp_ret. split; [done|]. split; [done|]. exists p, flags, numeric, carrier. cbn. by split_and!; auto.
  - destruct (bool_decide_reflect (trim carrier = "1")) as [H1'|H1']; cbn [negb]; [|by apply wp_ret].
    apply wp_ret. split; [done|]. split; [done|]. exists p, flags, numeric, carrier. cbn. rewrite H1'. by split_and!; auto.
Qed.

Lemma wp_collect_links w l s :
  reads_throw_errors -> l ⊆ pf_interfaces profile_ -> same_files w s ->
  wp (collect observe_link l) (fun os _ => map ns_interface (omap (fun o => o) os) `sublist_of` map ip_name l /\
      Forall (observed w) (omap (fun o => o) os)) (fun _ _ => False) s.
Proof.
  intros He. revert s. induction l as [|p l IH]; intros s Hl Hs; cbn [collect]; [apply wp_ret; by repeat constructor|].
  apply wp_bind. eapply wp_mono; [apply (wp_observe_link w p); [done | apply Hl; left | done] | | done].
  cbv beta. intros o s1 [H1 Ho]. apply wp_bind. eapply wp_mono; [apply IH; [|done] | | done].
  { intros x Hx. apply Hl. by right. }
  cbv beta. intros os s2 [Hsub Hall]. apply wp_ret. destruct o as [n|]; cbn.
  - destruct Ho as [<- Hn]. split; [by apply sublist_skip | by constructor].
  - split; [by apply sublist_cons | done].
Qed.

End links.

(** Link observations are evidence, never guesses: [networkLinks] does not
    throw, reports interfaces of the product in the order of the profile, each at
    most once, and only those that the kernel says are up, with the carrier that
    the kernel reports; what cannot be read is left out. *)
Theorem links_are_observed {W} {HO : Host W} {HL : HostLaws W} {NO : Node W} profile (s : Native W) :
  reads_throw_errors (W := W) ->
  exists links, snd (networkLinks profile s) = Return links /\
    map ns_interface links `sublist_of` map ip_name (pf_interfaces profile) /\ Forall (observed profile (nv_world s)) links.
Proof.
  intros He. assert (Hw : wp (networkLinks profile) (fun links _ => map ns_interface links `sublist_of` map ip_name (pf_interfaces profile) /\
    Forall (observed profile (nv_world s)) links) (fun _ _ => False) s).
  { unfold networkLinks. apply wp_bind. eapply wp_mono; [apply (wp_collect_links (HL := HL) profile (nv_world s)) | | done]; done. }
  unfold wp in Hw. destruct (networkLinks profile s) as [s' [links|e]]; [|done]. by exists links.
Qed.
