(* ===== verification/NativeIsolation.v ===== *)
(** * The native platform keeps to its own files (daemon/backend.cpp)

    Every operation of the platform leaves the files of the manager alone. *)

From stdpp Require Import sorting.
From S2P Require Import Prelude SystemTypes Validation Effects Host Backend Clock NetworkFile Timestamp Bus Native.
From S2P Require Import NativeProperties NativeQueries.
Import NativePlatform.

(** ** Files that the platform leaves alone *)

(** [q] is none of the files of the platform: it is not below /run, and it is
    neither the host name file, the local time link, their temporary files, nor
    the SSH marker. No other service writes it. *)
Definition foreign (own : string -> Prop) (profile : Profile) (q : string) : Prop :=
  own q /\ starts_with "/run/" q = false /\ apart (hostname_file profile) q /\
  (let localtime := path_append (pf_runtime_etc_directory profile) "localtime" in apart localtime q) /\
  (let ssh := path_append (pf_runtime_root profile) "system/ssh-disabled" in apart ssh q /\ under ssh q = false).

Lemma below_run_apart p q : starts_with "/run/" q = false -> starts_with "/run/" p = true -> apart p q /\ under p q = false.
Proof.
  intros Hq [r ->]%starts_with_spec. assert (Hn : forall t, q <> "/run/" +:+ r +:+ t).
  { intros t ->. apply not_true_iff_false in Hq. apply Hq, starts_with_spec. by eexists. }
  split_and!.
  - split; [intros ->; by apply (Hn ""); rewrite str_app_nil_r|].
    apply not_true_is_false. intros [t Ht]%starts_with_spec. rewrite !str_app_assoc in Ht. by apply (Hn ("." +:+ t)).
  - unfold under. apply orb_false_iff. split.
    + apply bool_decide_eq_false. intros He. by apply (Hn ""); rewrite str_app_nil_r.
    + apply not_true_is_false. intros [t Ht]%starts_with_spec. rewrite !str_app_assoc in Ht. by apply (Hn ("/" +:+ t)).
Qed.

Lemma path_append_run a b : starts_with "/run/" a = true -> starts_with "/run/" (path_append a b) = true.
Proof.
  intros [r ->]%starts_with_spec. unfold path_append. apply starts_with_spec.
  destruct (_ || _); rewrite !str_app_assoc; by eexists.
Qed.

(** Writing and removing [p] leaves [q] alone. *)
Definition clear_of (p q : string) : Prop := apart p q /\ under p q = false.

Definition timesync_file : string := path_append "/run" "systemd/timesyncd.conf.d/90-mnc-time.conf".

(** The files of [writeClockPolicy] are not [q]. *)
Definition clear_of_policy (profile : Profile) (q : string) : Prop :=
  (forall mode, mode ∈ modes -> clear_of (marker "/run" profile mode) q) /\ clear_of timesync_file q /\
  forall name, clear_of (port_file "/run" name) q.

Lemma marker_run profile mode : starts_with "/run/" (marker "/run" profile mode) = true.
Proof.
  unfold marker. do 2 apply path_append_run. apply starts_with_spec. unfold path_append. cbn. by eexists.
Qed.

Lemma port_file_run name : starts_with "/run/" (port_file "/run" name) = true.
Proof. unfold port_file. do 2 apply path_append_run. reflexivity. Qed.

Lemma outside_run_clear profile q : starts_with "/run/" q = false -> clear_of_policy profile q.
Proof.
  intros Hq. split; [|split].
  - intros mode _. apply (below_run_apart _ _ Hq), marker_run.
  - by apply (below_run_apart _ _ Hq).
  - intros name. apply (below_run_apart _ _ Hq), port_file_run.
Qed.

Section policy.
Context {W : Type} {HO : Host W} {HL : HostLaws W} (profile : Profile) (q : string) (Hq : clear_of_policy profile q).

Definition kept (w w' : W) : Prop := file w' q = file w q.

#[export] Instance kept_preorder : PreOrder kept.
Proof. split; [done | unfold kept; intros w1 w2 w3; congruence]. Qed.

Lemma kept_exists p : within kept (exists_ p).
Proof. intros w. apply exists_frame. Qed.

Lemma kept_permissions p : within kept (permissions p).
Proof. intros w. apply permissions_frame. Qed.

Lemma kept_readFile p n : within kept (readFile p n).
Proof. intros w. apply readFile_frame. Qed.

Lemma kept_create_directories p : within kept (create_directories p).
Proof. intros w. apply create_directories_frame. Qed.

Lemma kept_atomicWrite p v : clear_of p q -> within kept (atomicWrite p v).
Proof. intros [Hp _] w. by apply atomicWrite_frame. Qed.

Lemma kept_durableRemove p : clear_of p q -> within kept (durableRemove p).
Proof. intros [_ Hp] w. by apply durableRemove_frame. Qed.

#[local] Hint Resolve kept_exists kept_permissions kept_readFile kept_create_directories kept_atomicWrite kept_durableRemove : within.

Lemma kept_missing fuel d : within kept (missing_directories fuel d).
Proof. revert d. induction fuel as [|fuel IH]; intros d; cbn [missing_directories]; within_auto. Qed.

#[local] Hint Resolve kept_missing : within.

Lemma kept_readableWrite p v : clear_of p q -> within kept (readableWrite p v).
Proof. intros Hp. unfold readableWrite. within_auto. Qed.

#[local] Hint Resolve kept_readableWrite : within.

Lemma kept_write_ports time ports changed : within kept (write_ports "/run" time ports changed).
Proof.
  destruct Hq as (_ & _ & Hport).
  revert changed. induction ports as [|port ports IH]; intros changed; cbn [write_ports]; cbv zeta; within_auto.
Qed.

Lemma kept_writeClockPolicy time : within kept (writeClockPolicy profile time "/run").
Proof. pose proof kept_write_ports. destruct Hq as (Hm & Ht & _). unfold writeClockPolicy. fold timesync_file. within_auto. Qed.

End policy.

(** *** What is written without the bus *)

Section writes.
Context {W : Type} {HO : Host W} {HL : HostLaws W} {NO : Node W} {own : string -> Prop} {NL : NodeLaws W own}.
Context (profile_ : Profile) (q : string).

Lemma bootHostname_keeps h : apart (hostname_file profile_) q -> within (keeps (W := W) q) (bootHostname profile_ h).
Proof.
  intros Ha. pose proof (fun v => keeps_write_file (W := W) q (hostname_file profile_) v Ha).
  pose proof (fun p => keeps_sys_call (W := W) q (chmod_ok p) (fun w => chmod_frame p w q)).
  pose proof (fun n => keeps_sys_call (W := W) q (sethostname_ok n) (fun w => sethostname_frame n w q)).
  unfold bootHostname. within_auto.
Qed.

Lemma runtimeTimezone_keeps zone :
  apart (path_append (pf_runtime_etc_directory profile_) "localtime") q -> within (keeps (W := W) q) (runtimeTimezone profile_ zone).
Proof.
  intros Ht. set (localtime := path_append (pf_runtime_etc_directory profile_) "localtime") in *. destruct Ht as [Hne Hdot].
  assert (Hid : forall id, q <> localtime +:+ "." +:+ id).
  { intros id ->. apply not_true_iff_false in Hdot. apply Hdot, starts_with_spec. exists id. by rewrite str_app_assoc. }
  assert (H1 : forall id target, within (keeps (W := W) q) (world (create_symlink target (localtime +:+ "." +:+ id)))).
  { intros id target. apply keeps_world. intros w. by apply symlink_frame. }
  assert (H2 : forall id, within (keeps (W := W) q) (world (rename_file (localtime +:+ "." +:+ id) localtime))).
  { intros id. apply keeps_world. intros w. by apply rename_frame. }
  pose proof (fun p => keeps_world (W := W) q (is_regular_file p) (fun w => regular_frame p w q)).
  pose proof (keeps_world (W := W) q randomId (fun w => randomId_frame w q)).
  unfold runtimeTimezone. fold localtime. cbv zeta. within_auto.
Qed.

Lemma writeClockPolicy_keeps time :
  clear_of_policy profile_ q -> within (keeps (W := W) q) (world (writeClockPolicy profile_ time "/run")).
Proof. intros Hq. apply keeps_world. intros w. by apply (kept_writeClockPolicy profile_ q). Qed.

Lemma sshBootPolicy_keeps enabled :
  clear_of (path_append (pf_runtime_root profile_) "system/ssh-disabled") q -> within (keeps (W := W) q) (sshBootPolicy profile_ enabled).
Proof.
  intros [Ha Hu]. pose proof (fun v => keeps_write_file (W := W) q (path_append (pf_runtime_root profile_) "system/ssh-disabled") v Ha).
  pose proof (keeps_world (W := W) q (durableRemove (path_append (pf_runtime_root profile_) "system/ssh-disabled"))
    (fun w => durableRemove_frame w _ _ Hu)).
  unfold sshBootPolicy. cbv zeta. within_auto.
Qed.

Lemma clockBootPolicy_keeps time :
  apart (path_append (pf_runtime_etc_directory profile_) "localtime") q -> clear_of_policy profile_ q ->
  within (keeps (W := W) q) (clockBootPolicy profile_ time).
Proof.
  intros Hl Hp. pose proof (fun z => runtimeTimezone_keeps z Hl). pose proof (fun t => writeClockPolicy_keeps t Hp).
  unfold clockBootPolicy. within_auto.
Qed.

End writes.

Section isolation.
Context {W : Type} {HO : Host W} {HL : HostLaws W} {NO : Node W} {own : string -> Prop} {NL : NodeLaws W own}.
Context (read_link : string -> option LinkInfo) (profile_ : Profile) (q : string) (Hq : foreign own profile_ q).

Lemma foreign_own : own q.
Proof. apply Hq. Qed.

(** The functions of the world that are used, each keeping [q]. *)
Lemma keeps_functions :
  (forall n, within (keeps (W := W) q) (sys_call (if_nametoindex n))) /\
  (forall p, within (keeps (W := W) q) (world (exists_ p))) /\
  (forall p n, within (keeps (W := W) q) (read_file p n)) /\
  (forall p, within (keeps (W := W) q) (world (permissions p))) /\
  (forall p, within (keeps (W := W) q) (world (create_directories p))) /\
  within (keeps (W := W) q) (world randomId) /\ within (keeps (W := W) q) (world clock_) /\
  (forall p, within (keeps (W := W) q) (world (is_regular_file p))) /\
  (forall p, within (keeps (W := W) q) (world (read_symlink p))) /\
  (forall p, within (keeps (W := W) q) (sys_call (chmod_ok p))) /\
  (forall p, within (keeps (W := W) q) (sys_call (sethostname_ok p))) /\
  within (keeps (W := W) q) (sys_call uname_release) /\ within (keeps (W := W) q) (sys_call clock_realtime) /\
  (forall t, within (keeps (W := W) q) (sys_call (local_offset t))) /\
  within (keeps (W := W) q) (world net_entries).
Proof.
  split_and!; intros; first [apply keeps_sys_call | apply keeps_world]; intros w;
    first [ apply nametoindex_frame | apply exists_frame | apply readFile_frame | apply permissions_frame
          | apply create_directories_frame | apply randomId_frame | apply clock_frame | apply regular_frame
          | apply read_symlink_frame | apply chmod_frame | apply sethostname_frame | apply uname_frame
          | apply realtime_frame | apply offset_frame | apply net_entries_frame ].
Qed.

Lemma keeps_collect {A B} (f : A -> eff (Native W) B) l :
  (forall x, within (keeps q) (f x)) -> within (keeps q) (collect f l).
Proof. intros Hf. induction l as [|x l IH]; cbn [collect]; within_auto. Qed.

Ltac keeps_auto :=
  destruct keeps_functions as (?K1 & ?K2 & ?K3 & ?K4 & ?K5 & ?K6 & ?K7 & ?K8 & ?K9 & ?K10 & ?K11 & ?K12 & ?K13 & ?K14 & ?K15);
  pose proof (keeps_open_bus (W := W) (own := own) q);
  pose proof (fun m a => keeps_bus_call (W := W) (own := own) q m a foreign_own);
  pose proof (fun m => keeps_bus_property (W := W) (own := own) q m foreign_own);
  pose proof (fun n => keeps_unitState (W := W) (own := own) q n foreign_own);
  pose proof (fun n b => keeps_unit_transition (W := W) (own := own) q n b foreign_own);
  pose proof (fun n b => keeps_interfacePolicy (W := W) (own := own) profile_ q n b);
  within_auto.

Lemma keeps_describe name : within (keeps (W := W) q) (describe read_link name).
Proof. unfold describe. keeps_auto. Qed.

Lemma keeps_dhcpEnabled info : within (keeps (W := W) q) (dhcpEnabled info).
Proof.
  assert (Hf : forall files b, within (keeps (W := W) q) (dhcp_files files b)).
  { intros files. induction files as [|f files IH]; intros b; cbn [dhcp_files]; keeps_auto. }
  unfold dhcpEnabled. keeps_auto.
Qed.

Lemma keeps_discover : within (keeps (W := W) q) (discover read_link profile_).
Proof.
  assert (Hi : within (keeps (W := W) q) (collect (discover_interface read_link profile_) (pf_interfaces profile_))).
  { apply keeps_collect. intros p. pose proof keeps_describe. pose proof keeps_dhcpEnabled. unfold discover_interface. keeps_auto. }
  unfold discover, ssh_active. keeps_auto.
Qed.

Lemma keeps_ptp_interfaces : within (keeps (W := W) q) (ptp_interfaces profile_).
Proof. unfold ptp_interfaces. keeps_auto. Qed.

Lemma keeps_status : within (keeps (W := W) q) (status read_link profile_).
Proof.
  assert (Hi : within (keeps (W := W) q) (collect (status_interface read_link) (pf_interfaces profile_))).
  { apply keeps_collect. intros p. pose proof keeps_describe. unfold status_interface. keeps_auto. }
  pose proof keeps_ptp_interfaces. unfold status, ssh_active. keeps_auto.
Qed.

Lemma keeps_time : within (keeps (W := W) q) (time profile_).
Proof. unfold time. keeps_auto. Qed.

Lemma keeps_timezones : within (keeps (W := W) q) timezones.
Proof. unfold timezones. keeps_auto. Qed.

Lemma keeps_timezoneCatalog tzdb : within (keeps (W := W) q) (timezoneCatalog tzdb).
Proof. pose proof keeps_timezones. unfold timezoneCatalog. keeps_auto. Qed.

Lemma keeps_validateConfiguration c : within (keeps (W := W) q) (validateConfiguration profile_ c).
Proof.
  pose proof keeps_ptp_interfaces. pose proof keeps_timezones. unfold validateConfiguration. keeps_auto.
Qed.

Lemma keeps_bootHostname h : within (keeps (W := W) q) (bootHostname profile_ h).
Proof. apply (bootHostname_keeps (own := own)), Hq. Qed.

Lemma keeps_runtimeTimezone zone : within (keeps (W := W) q) (runtimeTimezone profile_ zone).
Proof. apply (runtimeTimezone_keeps (own := own)), Hq. Qed.

Lemma keeps_writeClockPolicy time : within (keeps (W := W) q) (world (writeClockPolicy profile_ time "/run")).
Proof. apply writeClockPolicy_keeps, outside_run_clear, Hq. Qed.

Lemma keeps_sshBootPolicy enabled : within (keeps (W := W) q) (sshBootPolicy profile_ enabled).
Proof. apply (sshBootPolicy_keeps (W := W)); apply Hq. Qed.

Lemma keeps_preferences c : within (keeps (W := W) q) (preferences profile_ c).
Proof.
  pose proof keeps_bootHostname. pose proof keeps_runtimeTimezone. pose proof keeps_writeClockPolicy.
  pose proof keeps_sshBootPolicy. pose proof (fun l => keeps_reloadNetwork (W := W) (own := own) q l foreign_own).
  unfold preferences, set_identity. keeps_auto.
Qed.

Lemma keeps_network configs boot : within (keeps (W := W) q) (network profile_ configs boot).
Proof.
  assert (Hw : forall c, within (keeps (W := W) q) (write_network profile_ configs boot c)).
  { intros c. apply (keeps_write_network (own := own)). apply below_run_apart; [apply Hq | by rewrite network_file_eq]. }
  pose proof (fun l => keeps_reloadNetwork (W := W) (own := own) q l foreign_own). unfold network. keeps_auto.
Qed.

Lemma keeps_clockBootPolicy time : within (keeps (W := W) q) (clockBootPolicy profile_ time).
Proof. apply (clockBootPolicy_keeps (own := own)); [apply Hq | apply outside_run_clear, Hq]. Qed.

Lemma keeps_power action : within (keeps (W := W) q) (power action).
Proof. unfold power. keeps_auto. Qed.

Lemma keeps_networkLinks : within (keeps (W := W) q) (networkLinks profile_).
Proof.
  assert (Hi : within (keeps (W := W) q) (collect observe_link (pf_interfaces profile_))).
  { apply keeps_collect. intros p. unfold observe_link, catch_error. cbv zeta. keeps_auto. }
  unfold networkLinks. keeps_auto.
Qed.

Lemma keeps_temperatures : within (keeps (W := W) q) (temperatures profile_).
Proof.
  intros s. pose proof (wp_readTemperatures (HL := HL) (NL := NL) "/sys/class/hwmon" (pf_sensors profile_) s) as Hw.
  unfold wp in Hw. unfold temperatures. destruct (readTemperatures _ _ s) as [s' [ts|e]]; apply Hw.
Qed.

End isolation.

(** ** The platform leaves the manager's files to the manager *)

Lemma on_world_framed {W A} {HO : Host W} (own : string -> Prop) (m : eff (Native W) A) :
  (forall q, own q -> within (keeps q) m) -> Framed own (on_world m).
Proof.
  intros Hm [tr w] q Hq. unfold on_world. cbn [fst snd]. specialize (Hm q Hq (mkNative w tr)).
  by destruct (m (mkNative w tr)) as [s r].
Qed.

(** No operation, however it ends, changes a file that is not below /run and is
    neither the host name file, the local time link nor the SSH marker. *)
#[export] Instance native_laws {W} {HO : Host W} {HL : HostLaws W} {NO : Node W} {own} {NL : NodeLaws W own}
    read_link profile tzdb :
  PlatformLaws (H0 := nativePlatform read_link profile tzdb) (list deed) W (foreign own profile).
Proof.
  split; intros; apply on_world_framed; intros q Hq;
    first [ eapply keeps_discover | eapply keeps_status | eapply keeps_time | eapply keeps_networkLinks
          | eapply keeps_timezones | eapply keeps_timezoneCatalog | eapply keeps_temperatures | eapply keeps_validateConfiguration
          | eapply keeps_preferences | eapply keeps_bootHostname | eapply keeps_network | eapply keeps_sshBootPolicy
          | eapply keeps_clockBootPolicy | eapply keeps_power ]; exact Hq.
Qed.
