(* ===== verification/NativeSample.v ===== *)
(** * A concrete node

    The machine of Storage.v with a bus on which systemd starts and stops units
    in one polling interval, a clock, two network interfaces and a temperature
    sensor: every parameter of the native platform is instantiated, and the
    theorems are applied on whole runs. *)

From stdpp Require Import sorting.
From S2P Require Import Prelude SystemTypes Validation Effects Host Storage Backend Clock NetworkFile Timestamp Bus Native.
From S2P Require Import NativeProperties NativeQueries NativeIsolation Sample.
Import NativePlatform.

Record Board := mkBoard {
  bd_machine : Machine;
  bd_steady : Z;
  bd_units : gmap string string   (* the ActiveState of the units *)
}.

Definition on_machine {A} (f : Machine -> Machine * A) (b : Board) : Board * A :=
  let '(m, a) := f (bd_machine b) in (mkBoard m (bd_steady b) (bd_units b), a).

#[export] Instance Board_host : Host Board := {|
  file b := file (bd_machine b);
  exists_ p := on_machine (exists_ p);
  permissions p := on_machine (permissions p);
  readFile p n := on_machine (readFile p n);
  atomicWrite p v := on_machine (atomicWrite p v);
  durableRemove p := on_machine (durableRemove p);
  create_directories p := on_machine (create_directories p);
  randomId := on_machine randomId;
  clock_ := on_machine clock_
|}.

Lemma on_machine_fst {A} (f : Machine -> Machine * A) b : bd_machine (fst (on_machine f b)) = fst (f (bd_machine b)).
Proof. unfold on_machine. by destruct (f (bd_machine b)). Qed.

Lemma on_machine_snd {A} (f : Machine -> Machine * A) b : snd (on_machine f b) = snd (f (bd_machine b)).
Proof. unfold on_machine. by destruct (f (bd_machine b)). Qed.

#[export] Instance Board_laws : HostLaws Board.
Proof.
  split; intros *; cbn [file exists_ permissions readFile atomicWrite durableRemove create_directories randomId clock_ Board_host];
    rewrite ?on_machine_fst, ?on_machine_snd;
    first [ apply exists_frame | apply exists_false | apply permissions_frame | apply readFile_frame | apply readFile_ok
          | apply atomicWrite_ok | apply atomicWrite_fail | apply atomicWrite_frame | apply durableRemove_ok
          | apply durableRemove_frame | apply durableRemove_shrinks | apply create_directories_frame | apply randomId_frame
          | apply clock_frame | apply clock_returns ].
Qed.

(** ** The bus *)

Definition set_unit (u state : string) (b : Board) : Board := mkBoard (bd_machine b) (bd_steady b) (<[u := state]> (bd_units b)).

Definition board_call (m : bus_method) (args : list bus_value) (b : Board) : Board * (bus_failure + list bus_value) :=
  match args with
  | [BText u] => if bm_member m ==? "LoadUnit" then (b, inr [BObject ("/unit/" +:+ u)]) else (b, inr [])
  | [BText u; BText _] =>
      if bm_member m ==? "StartUnit" then (set_unit u "activating" b, inr [BObject "/job/1"])
      else if bm_member m ==? "StopUnit" then (set_unit u "deactivating" b, inr [BObject "/job/2"])
      else (b, inr [])
  | [BInt n] => (b, inr [BText ("link " +:+ to_string n)])
  | [] => if bm_member m ==? "ListTimezones" then (b, inr [BTexts ["UTC"; "Europe/Rome"]]) else (b, inr [])
  | _ => (b, inr [])
  end.

Definition board_property (m : bus_method) (b : Board) : Board * (bus_failure + string) :=
  if bm_member m ==? "ActiveState" then (b, inr (default "inactive" (bd_units b !! str_drop 6 (bm_path m))))
  else if bm_member m ==? "Timezone" then (b, inr "UTC")
  else if bm_member m ==? "Hostname" then (b, inr "mnc")
  else (b, inl (mkFailure (-2) None "No such file or directory")).

(** After a while, what was going on is done. *)
Definition progress (state : string) : string :=
  if state ==? "activating" then "active" else if state ==? "deactivating" then "inactive" else state.

#[export] Instance Board_node : Node Board := {|
  steady := bd_steady;
  steady_clock_now b := (b, bd_steady b);
  sleep_for d b := mkBoard (bd_machine b) (bd_steady b + d) (progress <$> bd_units b);
  sd_bus_open_system b := (b, true);
  sd_bus_call_method := board_call;
  sd_bus_get_property_string := board_property;
  if_nametoindex n b := (b, if n ==? "end0" then 2 else if n ==? "end-1" then 3 else 0);
  canonical_path p b := (b, Return "/firmware/soc/ethernet@f1");
  is_regular_file p b := (b, Return true);
  create_symlink t p b := (b, Return tt);
  rename_file p p' b := (b, Return tt);
  read_symlink p b := (b, Return "/usr/share/zoneinfo/Europe/Rome");
  chmod_ok p b := (b, true);
  sethostname_ok n b := (b, true);
  uname_release b := (b, Some "6.6.40");
  clock_realtime b := (b, Some (1709164800, 7000000));
  local_offset t b := (b, -12600);
  list_directory p b := (b, if p ==? "/sys/class/hwmon" then Some ["hwmon0"] else Some ["temp1_label"; "temp1_input"]);
  net_entries b := (b, Return sample_entries);
  ts_info n b := if n ==? "end0" then Some (mkTsInfo 0 69) else Some (mkTsInfo (-1) 0)
|}.

Lemma board_call_world m args b :
  bd_machine (fst (board_call m args b)) = bd_machine b /\ bd_steady (fst (board_call m args b)) = bd_steady b.
Proof. unfold board_call. by repeat case_match. Qed.

Lemma board_property_world m b : fst (board_property m b) = b.
Proof. unfold board_property. by repeat case_match. Qed.

#[export] Instance Board_node_laws : NodeLaws Board (fun _ => True).
Proof.
  split; intros *; cbn [steady steady_clock_now sleep_for sd_bus_open_system sd_bus_call_method sd_bus_get_property_string
    if_nametoindex canonical_path is_regular_file create_symlink rename_file read_symlink chmod_ok sethostname_ok uname_release
    clock_realtime local_offset list_directory net_entries Board_node file Board_host fst snd bd_steady bd_machine];
    try done; try lia.
  - destruct (board_call_world m args w) as [_ ->]. lia.
  - rewrite board_property_world. lia.
  - intros _. by destruct (board_call_world m args w) as [-> _].
  - intros _. by rewrite board_property_world.
Qed.

(** ** The node of the examples *)

Definition sample_files : list (string * string) :=
  [("/sys/class/net/end0/flags", "0x1003" +:+ nl); ("/sys/class/net/end0/carrier", "1" +:+ nl);
   ("/sys/class/net/end-1/flags", "0x1002" +:+ nl); ("/sys/class/net/end-1/carrier", "0" +:+ nl);
   ("/sys/class/hwmon/hwmon0/temp1_label", "board" +:+ nl); ("/sys/class/hwmon/hwmon0/temp1_input", "-2500" +:+ nl);
   ("/s/state.json", "journal")].

(** A disk with the given files, all on stable storage. *)
Definition disk_of (files : list (string * string)) : Disk :=
  let indexed := imap (fun i '(p, c) => (i, (p, c))) files in
  let data := list_to_map (map (fun '(i, (_, c)) => (i, c)) indexed) in
  let names := list_to_map (map (fun '(i, (p, _)) => (p, i)) indexed) in
  mkDisk data data names names [] {["/"; "/s"; "/run"]} ∅.

Definition sample_board (units : list (string * string)) : Board :=
  mkBoard (mkMachine (disk_of sample_files) [] (replicate 64 171) [(1, 0)] [disk_of sample_files]) 0 (list_to_map units).

Definition start_of (units : list (string * string)) : Native Board := mkNative (sample_board units) [].

Definition board_profile : Profile :=
  mkProfile "settings" "control" "/s" "/product/active.json" "/run/mnc" "" ""
    [mkInterfacePolicy "end0" "ethernet@f1"; mkInterfacePolicy "end-1" ""] [mkSensorPolicy "cpu" "board"; mkSensorPolicy "pl" "fpga"]
    default_Configuration "sshd.socket" "sshd.service" ["systemd-timesyncd.service"] ["irig.service"] ["ptp4l.service"]
    ["ptp4l@.service"] [] None.

Definition board_network : list NetworkConfig :=
  [mkNetworkConfig "end0" static_ipv4 "10.0.0.2" 24 "10.0.0.1" ["10.0.0.1"] true; mkNetworkConfig "end-1" dhcp "" 24 "" [] false].

Definition board_configuration : Configuration :=
  mkConfiguration (mkPreferences "mnc" true board_network) (ptp_choice "end0").

Definition before : Native Board := start_of [("systemd-timesyncd.service", "active"); ("sshd.socket", "active")].

Definition board_link (json : string) : option LinkInfo :=
  Some (mkLinkInfo "/s/state.json" [] [mkAddressInfo 2 [10; 0; 0; 2] 24 "static"] [mkRouteInfo 2 [10; 0; 0; 1] 0 "static"]
    [mkDnsInfo 2 [10; 0; 0; 1] "static"] "carrier").

(** ** The theorems on it *)

Lemma unit_transition_settles_witness :
  seen_settled "ptp4l.service" true before (fst (unit_transition "ptp4l.service" true before)).
Proof.
  assert (Hr : snd (unit_transition "ptp4l.service" true before) = Return tt) by (vm_compute; reflexivity).
  pose proof (unit_transition_settles "ptp4l.service" true before) as Ht.
  destruct (unit_transition "ptp4l.service" true before) as [s' [u|e]]; [exact Ht | discriminate Hr].
Defined.

Definition board_units : ClockUnits :=
  mkClockUnits ["irig.service"; "ptp4l@end\x2d1.service"; "ptp4l.service"; "systemd-timesyncd.service"] ["ptp4l@end0.service"].

Lemma preferences_one_clock_witness :
  clock_run board_profile board_units true before (fst (preferences board_profile board_configuration before)).
Proof.
  assert (Hr : snd (preferences board_profile board_configuration before) = Return tt) by (vm_compute; reflexivity).
  pose proof (preferences_one_clock board_profile board_configuration board_units before ltac:(vm_compute; reflexivity)) as Ht.
  destruct (preferences board_profile board_configuration before) as [s' [u|e]]; [exact Ht | discriminate Hr].
Defined.

Definition rewired : Native Board := fst (network board_profile board_network false before).

Lemma network_returns : network board_profile board_network false before = (rewired, Return tt).
Proof.
  assert (Hr : snd (network board_profile board_network false before) = Return tt) by (vm_compute; reflexivity).
  unfold rewired. rewrite <- Hr. apply surjective_pairing.
Qed.

Lemma board_names_plain : Forall (fun c => has_substring ".network" (nc_interface c) = false) board_network.
Proof. repeat constructor. Qed.

Lemma network_files_in_force_witness : network_applied board_profile board_network false before rewired.
Proof.
  pose proof (network_files_in_force board_profile board_network false before (fun _ _ => I) board_names_plain) as Ht.
  rewrite network_returns in Ht. exact Ht.
Defined.

Definition end0_link : LinkInfo := mkLinkInfo (network_file "end0") [] [] [] [] "carrier".

Lemma network_mode_round_trip_witness : snd (dhcpEnabled end0_link rewired) = Return false.
Proof.
  assert (Hr : returns (snd (dhcpEnabled end0_link rewired)) = true) by (vm_compute; reflexivity).
  pose proof (network_mode_round_trip board_profile board_network false before rewired
    (mkNetworkConfig "end0" static_ipv4 "10.0.0.2" 24 "10.0.0.1" ["10.0.0.1"] true) end0_link
    (fun _ _ => I) board_names_plain network_returns ltac:(left) eq_refl ltac:(constructor)) as Ht.
  destruct (snd (dhcpEnabled end0_link rewired)) as [b|e]; [by rewrite Ht | discriminate Hr].
Defined.

Lemma validated_configuration_fits_witness : exists units, clockUnits board_profile (cf_time board_configuration) = Return units.
Proof.
  assert (Hr : snd (validateConfiguration board_profile board_configuration before) = Return tt) by (vm_compute; reflexivity).
  pose proof (validated_configuration_fits board_profile board_configuration before ltac:(split; repeat constructor)) as Ht.
  rewrite Hr in Ht. apply Ht.
Defined.

Lemma temperatures_are_readings_witness :
  reading_ok (nv_world before) (mkTemperature "cpu" "board" (Some (-2500))).
Proof.
  assert (Hr : snd (readTemperatures "/sys/class/hwmon" (pf_sensors board_profile) before) =
    Return [mkTemperature "cpu" "board" (Some (-2500)); mkTemperature "pl" "fpga" None]) by (vm_compute; reflexivity).
  pose proof (temperatures_are_readings "/sys/class/hwmon" (pf_sensors board_profile) before) as Ht.
  destruct (readTemperatures _ _ before) as [s' [ts|e]]; [|discriminate Hr]. injection Hr as ->.
  destruct Ht as (_ & Hf & _). exact (Forall_inv Hf).
Defined.

Lemma discover_well_typed_witness : Forall discovered [mkNetworkConfig "end0" static_ipv4 "10.0.0.2" 24 "10.0.0.1" ["10.0.0.1"] false;
  mkNetworkConfig "end-1" static_ipv4 "10.0.0.2" 24 "10.0.0.1" ["10.0.0.1"] false].
Proof.
  assert (Hr : match snd (discover board_link board_profile before) with Return c => pr_network (cf_system c) | Throw _ => [] end =
    [mkNetworkConfig "end0" static_ipv4 "10.0.0.2" 24 "10.0.0.1" ["10.0.0.1"] false;
     mkNetworkConfig "end-1" static_ipv4 "10.0.0.2" 24 "10.0.0.1" ["10.0.0.1"] false]) by (vm_compute; reflexivity).
  assert (Hl : forall json info, board_link json = Some info -> link_bytes info).
  { intros json info [= <-]. unfold link_bytes, bytes_ok, is_octet.
    split_and!; repeat first [apply Forall_nil_2 | apply Forall_cons_2 | cbn; lia]. }
  pose proof (discover_well_typed board_link board_profile before Hl) as Ht.
  destruct (snd (discover board_link board_profile before)) as [c|e]; [|discriminate Hr]. rewrite <- Hr. apply Ht.
Defined.

Lemma board_clock_ok : clock_ok (W := Board).
Proof. split; [intros w sec nsec [= <- <-]; lia | intros w sec; reflexivity]. Qed.

Lemma time_names_one_instant_witness : read_timestamp "2024-02-28T20:30:00.007-03:30" = Some 1709164800007.
Proof.
  assert (Hr : snd (time board_profile before) = Return (mkTimeStatus 1709164800007 "2024-02-29T00:00:00.007Z"
    "2024-02-28T20:30:00.007-03:30" "UTC" (-12600) 1000)) by (vm_compute; reflexivity).
  pose proof (time_names_one_instant board_profile before board_clock_ok) as Ht. rewrite Hr in Ht. apply Ht.
Defined.

Lemma next_result_error (f : sysres -> eff Machine string) m :
  (forall r m, wp (f r) (fun _ _ => True) (fun e _ => is_error e) m) ->
  wp (next_result ≫= f) (fun _ _ => True) (fun e _ => is_error e) m.
Proof. intros Hf. apply wp_bind. unfold next_result, wp at 1. by destruct (mc_plan m). Qed.

Lemma read_loop_error fuel p limit value rest m : wp (read_loop fuel p limit value rest) (fun _ _ => True) (fun e _ => is_error e) m.
Proof.
  revert value rest m. induction fuel as [|fuel IH]; intros value rest m; cbn [read_loop]; [done|].
  apply next_result_error. intros r m'. repeat case_match; first [done | apply IH].
Qed.

Lemma sys_error f (k : option string -> eff Machine string) m :
  (forall r m, wp (k r) (fun _ _ => True) (fun e _ => is_error e) m) ->
  wp (sys f ≫= k) (fun _ _ => True) (fun e _ => is_error e) m.
Proof.
  intros Hk. apply wp_bind. unfold sys, next_result, mbind, eff_bind, wp at 1. destruct (mc_plan m) as [|[] plan]; cbn;
    repeat case_match; simplify_eq; try apply Hk.
Qed.

Lemma board_reads_throw_errors : reads_throw_errors (W := Board).
Proof.
  intros w p n e. cbn [readFile Board_host]. rewrite on_machine_snd. cbn [readFile Machine_host].
  assert (Hw : wp (machine_readFile p n) (fun _ _ => True) (fun e _ => is_error e) (bd_machine w)).
  { apply sys_error. intros [r|] m; [done|]. apply wp_bind, wp_gets. case_match; [apply read_loop_error | done]. }
  unfold wp in Hw. destruct (machine_readFile p n (bd_machine w)) as [m [c|e']]; [done|]. by intros [= ->].
Qed.

Lemma links_are_observed_witness : observed board_profile (nv_world before) (mkNetworkStatus "end0" "" true [] "" []).
Proof.
  assert (Hr : snd (networkLinks board_profile before) = Return [mkNetworkStatus "end0" "" true [] "" []]) by (vm_compute; reflexivity).
  destruct (links_are_observed board_profile before board_reads_throw_errors) as (links & Hl & _ & Hf).
  rewrite Hr in Hl. injection Hl as <-. exact (Forall_inv Hf).
Defined.
