(* ===== verification/ClockPolicy.v ===== *)
(** * The files of the clock policy (daemon/clock_config.cpp)

    What [writeClockPolicy] leaves on the disk: the markers that the units of the
    clock sources look for, the servers of timesyncd and the drop-ins of the
    ports, and what its result says of them. *)

From S2P Require Import Prelude SystemTypes Validation Effects Host Storage Backend Clock NetworkFile Timestamp Bus Native.
From S2P Require Import NativeProperties NativeQueries NativeIsolation NativeSample.

(** ** Reading the servers of timesyncd *)

(** The words of a value, as systemd separates them. *)
Fixpoint words (sofar s : string) : list string :=
  match s with
  | EmptyString => if empty sofar then [] else [sofar]
  | String c rest =>
      if c ==? " "%char then (if empty sofar then words "" rest else sofar :: words "" rest)
      else words (sofar +:+ String c "") rest
  end.

Lemma words_word sofar w rest :
  sofar +:+ w <> "" -> contains " " w = false -> words sofar (w +:+ " " +:+ rest) = (sofar +:+ w) :: words "" rest.
Proof.
  intros Hne Hw. revert sofar Hne. induction w as [|c w IH]; intros sofar Hne; cbn [String.append words].
  - rewrite str_app_nil_r in *. rewrite bool_decide_eq_true_2 by done. by destruct sofar.
  - cbn in Hw. apply orb_false_iff in Hw as [Hc Hw]. apply bool_decide_eq_false in Hc.
    rewrite bool_decide_eq_false_2 by congruence.
    assert (Hs : (sofar +:+ String c "") +:+ w = sofar +:+ String c w) by (by rewrite str_app_assoc).
    change (String " " rest) with (" " +:+ rest). rewrite IH, Hs; [done | done | by rewrite Hs].
Qed.

(** What the file says to timesyncd: no setting, or the earlier lists cleared
    and the given servers. *)
Definition server_settings (servers : list string) (settings : list (string * string * string)) : Prop :=
  (servers = [] /\ settings = []) \/
  (servers <> [] /\ exists value, words "" value = servers /\
     settings = [("Time", "NTP", ""); ("Time", "NTP", value); ("Time", "FallbackNTP", "")]).

Lemma ntp_server_plain s : validNtpServer s = true -> s <> "" /\ contains " " s = false /\ contains (chr 10) s = false.
Proof.
  intros Hv. split; [by intros ->|]. apply validNtpServer_chars in Hv.
  split; by eapply str_all_contains.
Qed.

Lemma timesync_reads servers :
  Forall (fun s => validNtpServer s = true) servers ->
  exists settings, read_ini (timesync_config servers) = Some settings /\ server_settings servers settings.
Proof.
  intros Hv. unfold timesync_config, read_ini. case_bool_decide as He.
  { exists []. split; [by subst | by left]. }
  set (value := fold_right (fun s rest => s +:+ " " +:+ rest) "" servers).
  assert (Hvalue : line_free value = true /\ words "" value = servers).
  { unfold value. clear He value. induction Hv as [|s servers Hs _ [IH1 IH2]]; cbn [fold_right]; [done|].
    destruct (ntp_server_plain s Hs) as (Hne & Hsp & Hnl). split; [|by rewrite (words_word "" s), IH2].
    unfold line_free in *. rewrite !contains_app, Hnl. cbn. exact IH1. }
  destruct Hvalue as [Hfree Hwords]. exists [("Time", "NTP", ""); ("Time", "NTP", value); ("Time", "FallbackNTP", "")].
  split; [|right; split; [done|]; by exists value].
  assert (Hr : reads "" (("[" +:+ "Time" +:+ "]" +:+ endl) +:+ (("NTP" +:+ "=" +:+ "" +:+ endl) +:+ (("NTP" +:+ "=" +:+ value +:+ endl) +:+
    ("FallbackNTP" +:+ "=" +:+ "" +:+ endl)))) "Time" ([] ++ [("Time", "NTP", "")] ++ [("Time", "NTP", value)] ++ [("Time", "FallbackNTP", "")])).
  { eapply reads_app; [by apply reads_section|]. eapply reads_app; [by apply reads_setting|].
    eapply reads_app; [by apply reads_setting | by apply reads_setting]. }
  specialize (Hr ""). rewrite str_app_nil_r in Hr. cbn [app] in Hr.
  replace ("[Time]" +:+ nl +:+ "NTP=" +:+ nl +:+ "NTP=" +:+ value +:+ nl +:+ "FallbackNTP=" +:+ nl) with
    (("[" +:+ "Time" +:+ "]" +:+ endl) +:+ (("NTP" +:+ "=" +:+ "" +:+ endl) +:+ (("NTP" +:+ "=" +:+ value +:+ endl) +:+
    ("FallbackNTP" +:+ "=" +:+ "" +:+ endl)))) by (unfold nl, endl; by rewrite !str_app_assoc).
  rewrite Hr. done.
Qed.

(** ** Writing a list of files *)

Section files.
Context {H : Type} {HO : Host H} {HL : HostLaws H}.
Abbreviation F := (eff H).

(** Each file has the given contents; [None] for no file. *)
Definition holds (l : list (string * option string)) (h : H) : Prop := forall p c, (p, c) ∈ l -> file h p = c.

(** The files of [done_] are written, those of [rest] are as they were in [h0]. *)
Definition underway (h0 : H) (done_ rest : list (string * option string)) (h : H) : Prop :=
  holds done_ h /\ forall p c, (p, c) ∈ rest -> file h p = file h0 p.

(** A computation that leaves [c] in [p] and touches nothing clear of it. *)
Definition puts {A} (p : string) (c : option string) (m : F A) : Prop :=
  (forall h, wp m (fun _ h' => file h' p = c) (fun _ _ => True) h) /\ forall q, clear_of p q -> within (kept q) m.

(** The files are pairwise clear of each other. *)
Fixpoint pairwise_clear (l : list string) : Prop :=
  match l with
  | [] => True
  | p :: rest => Forall (fun q => clear_of p q /\ clear_of q p) rest /\ pairwise_clear rest
  end.

#[export] Instance clear_of_dec p q : Decision (clear_of p q).
Proof. unfold clear_of, apart. apply _. Defined.

#[export] Instance pairwise_clear_dec l : Decision (pairwise_clear l).
Proof. induction l as [|p l IH]; cbn; apply _. Defined.

Lemma pairwise_clear_at l1 p l2 q :
  pairwise_clear (l1 ++ p :: l2) -> q ∈ l1 ++ l2 -> clear_of p q.
Proof.
  induction l1 as [|x l1 IH]; cbn; intros [Hx Hl] Hq.
  - rewrite Forall_forall in Hx. by apply Hx.
  - apply elem_of_cons in Hq as [->|Hq]; [|by apply IH].
    rewrite Forall_forall in Hx. apply (Hx p). rewrite elem_of_app, elem_of_cons. auto.
Qed.

Lemma wp_put {A} h0 done_ p c rest (m : F A) h :
  puts p c m -> pairwise_clear (map fst (done_ ++ (p, c) :: rest)) -> underway h0 done_ ((p, c) :: rest) h ->
  wp m (fun _ => underway h0 (done_ ++ [(p, c)]) rest) (fun _ _ => True) h.
Proof.
  intros [Hm Hk] Hclear [Hd Hr]. rewrite map_app in Hclear. cbn in Hclear.
  assert (Hq : forall q c', (q, c') ∈ done_ ++ rest -> clear_of p q).
  { intros q c' Hin. eapply pairwise_clear_at; [exact Hclear|]. rewrite <- map_app.
    apply (list_elem_of_fmap_2 fst _ (q, c')), Hin. }
  specialize (Hm h). unfold wp in *. pose proof (fun q Hc => Hk q Hc h) as Hkeep. destruct (m h) as [h' [a|e]]; [|done].
  unfold kept in Hkeep. cbn in Hkeep. split.
  - intros q c' [Hin|Hin%list_elem_of_singleton]%elem_of_app; [|by injection Hin as -> ->].
    rewrite (Hkeep q) by (eapply Hq, elem_of_app; eauto). by apply Hd.
  - intros q c' Hin. rewrite (Hkeep q) by (eapply Hq, elem_of_app; eauto). apply (Hr q c'). by right.
Qed.

(** ** The writes of the policy *)

Lemma puts_atomicWrite p v : puts p (Some v) (atomicWrite p v).
Proof.
  split; [|intros q Hq; by apply kept_atomicWrite]. intros h. unfold wp. pose proof (atomicWrite_ok h p v) as Hok.
  destruct (atomicWrite p v h) as [h' [[]|e]]; [by apply Hok | done].
Qed.

Lemma under_refl p : under p p = true.
Proof. unfold under. by rewrite bool_decide_eq_true_2. Qed.

Lemma puts_durableRemove p : puts p None (durableRemove p).
Proof.
  split; [|intros q Hq; by apply kept_durableRemove]. intros h. unfold wp. pose proof (durableRemove_ok h p p) as Hok.
  destruct (durableRemove p h) as [h' [[]|e]]; [apply Hok; [done | apply under_refl] | done].
Qed.

(** [readableWrite] reports a change, or the file was as wanted. *)
Lemma wp_readableWrite p v h :
  wp (readableWrite p v) (fun changed h' => file h' p = Some v /\ (changed = false -> file h p = Some v)) (fun _ _ => True) h.
Proof.
  unfold readableWrite. apply wp_bind. unfold wp at 1. pose proof (exists_frame h p p) as H1. destruct (exists_ p h) as [h1 [e|x]]; [|done].
  cbn in H1. apply wp_bind.
  eapply (wp_mono _ (fun same h' => same = true -> file h p = Some v /\ file h' p = Some v) _ (fun _ _ => True)); [| |done].
  { destruct e; [|by apply wp_ret]. apply wp_bind. unfold wp at 1. pose proof (readFile_ok h1 p 1048576) as H2.
    pose proof (readFile_frame h1 p 1048576 p) as H3. destruct (readFile p 1048576 h1) as [h2 [c|x]]; [|done].
    cbn in H2, H3. apply wp_ret. intros ->%bool_decide_eq_true. destruct (H2 v eq_refl) as [Hf _].
    rewrite <- H1. split; [done|]. by rewrite H3. }
  cbv beta. intros [] h2 Hsame; [apply wp_ret; by destruct (Hsame eq_refl)|]. clear Hsame.
  wp_skip as missing. wp_skip as u1. wp_skip as u2. wp_skip as u3. apply wp_bind.
  eapply wp_mono; [apply (proj1 (puts_atomicWrite p v)) | | done]. cbv beta. intros _ h4 Hv. apply wp_bind.
  unfold wp at 1. pose proof (permissions_frame h4 p p) as H5. destruct (permissions p h4) as [h5 [u|x]]; [|done].
  apply wp_ret. split; [|done]. cbn in H5. by rewrite H5.
Qed.

Lemma puts_readableWrite p v : puts p (Some v) (readableWrite p v).
Proof.
  split; [|intros q Hq; by apply kept_readableWrite]. intros h.
  eapply wp_mono; [apply wp_readableWrite | cbv beta; tauto | done].
Qed.

(** *** One port *)

(** The body of the loop of [write_ports]. *)
Definition write_port (path : string) (time : TimePreferences) (changed : bool) : F bool :=
  if negb (bool_decide (tp_ntp_servers time = [])) then w ← readableWrite path explicit_servers; mret (changed || w)
  else
    e ← exists_ path;
    if (e : bool) then _ ← durableRemove path; mret true else mret changed.

Definition wanted_port (time : TimePreferences) : option string :=
  if bool_decide (tp_ntp_servers time = []) then None else Some explicit_servers.

Lemma wp_write_port path time changed h :
  wp (write_port path time changed)
    (fun changed' h' => file h' path = wanted_port time /\
       (changed' = false -> changed = false /\ file h path = wanted_port time)) (fun _ _ => True) h.
Proof.
  unfold write_port, wanted_port. destruct (bool_decide (tp_ntp_servers time = [])); cbn [negb].
  - apply wp_bind. unfold wp at 1. pose proof (exists_frame h path path) as H1. pose proof (exists_false h path) as H2.
    destruct (exists_ path h) as [h1 [[]|x]]; cbn in H1, H2; [| |done].
    + apply wp_bind. eapply wp_mono; [apply (proj1 (puts_durableRemove path)) | | done]. cbv beta. intros _ h2 Hn. by apply wp_ret.
    + apply wp_ret. rewrite H1. by rewrite H2.
  - apply wp_bind. eapply wp_mono; [apply wp_readableWrite | | done]. cbv beta. intros w h1 [Hf Hw]. apply wp_ret. split; [done|].
    intros [-> ->]%orb_false_iff. by rewrite Hw.
Qed.

Lemma puts_write_port path time changed : puts path (wanted_port time) (write_port path time changed).
Proof.
  split; [intros h; eapply wp_mono; [apply wp_write_port | cbv beta; tauto | done]|]. intros q Hq.
  pose proof (kept_readableWrite q path explicit_servers Hq). pose proof (kept_durableRemove q path Hq).
  pose proof (kept_exists q path). unfold write_port. within_auto.
Qed.

(** ** The whole policy *)

Context (profile : Profile) (time : TimePreferences) (runtime : string).

(** The marker of a mode is absent exactly when the mode is chosen. *)
Definition marker_entry (mode : string) : string * option string :=
  (marker runtime profile mode, if tp_synchronization time ==? mode then None else Some ("disabled" +:+ nl)).

Definition servers_file : string := path_append runtime "systemd/timesyncd.conf.d/90-mnc-time.conf".

Definition port_files (ports : list InterfacePolicy) : list (string * option string) :=
  map (fun port => (port_file runtime (ip_name port), wanted_port time)) ports.

(** All files of the policy and what is wanted in them. *)
Definition policy_files : list (string * option string) :=
  map marker_entry modes ++ (servers_file, Some (timesync_config (tp_ntp_servers time))) :: port_files (pf_interfaces profile).

Context (Hclear : pairwise_clear (map fst policy_files)).

Lemma wp_markers h0 done_ l rest h :
  done_ ++ map marker_entry l ++ rest = policy_files -> underway h0 done_ (map marker_entry l ++ rest) h ->
  wp (for_each (fun mode =>
        if tp_synchronization time ==? mode then durableRemove (marker runtime profile mode)
        else atomicWrite (marker runtime profile mode) ("disabled" +:+ nl)) l)
    (fun _ => underway h0 (done_ ++ map marker_entry l) rest) (fun _ _ => True) h.
Proof.
  revert done_ h. induction l as [|mode l IH]; intros done_ h He Hu; cbn [for_each map app] in *.
  { apply wp_ret. by rewrite app_nil_r. }
  assert (Hp : puts (marker runtime profile mode) (if tp_synchronization time ==? mode then None else Some ("disabled" +:+ nl))
    (if tp_synchronization time ==? mode then durableRemove (marker runtime profile mode)
     else atomicWrite (marker runtime profile mode) ("disabled" +:+ nl))).
  { destruct (tp_synchronization time ==? mode); [apply puts_durableRemove | apply puts_atomicWrite]. }
  apply wp_bind. eapply wp_mono; [apply (wp_put h0 done_ _ _ (map marker_entry l ++ rest) _ h Hp) | | done].
  - unfold marker_entry in He at 1. rewrite He. exact Hclear.
  - exact Hu.
  - cbv beta. intros _ h1 H1. apply IH in H1; [|rewrite <- He, <- app_assoc; done].
    rewrite <- app_assoc in H1. exact H1.
Qed.

Lemma wp_write_ports h0 done_ ports changed h :
  done_ ++ port_files ports = policy_files -> underway h0 done_ (port_files ports) h ->
  wp (write_ports runtime time ports changed)
    (fun changed' h' => underway h0 (done_ ++ port_files ports) [] h' /\
       (changed' = false -> changed = false /\ holds (port_files ports) h0)) (fun _ _ => True) h.
Proof.
  revert done_ changed h. induction ports as [|port ports IH]; intros done_ changed h He Hu; cbn [write_ports port_files map] in *.
  { apply wp_ret. rewrite app_nil_r. split; [done|]. intros ->. split; [done|]. by intros p c ?%elem_of_nil. }
  destruct (negb (validInterfaceName (ip_name port))); [done|]. cbv zeta. fold (port_files ports) in *.
  set (path := port_file runtime (ip_name port)) in *. fold (write_port path time changed). apply wp_bind.
  eapply wp_mono; [apply (wp_and _ _ _ _ _ _ (wp_write_port path time changed h)
    (wp_put h0 done_ path _ (port_files ports) _ h (puts_write_port path time changed) ltac:(rewrite He; exact Hclear) Hu)) | | done].
  cbv beta. intros changed1 h1 [[_ Hc1] Hu1].
  eapply wp_mono; [apply (IH (done_ ++ [(path, wanted_port time)])); [by rewrite <- app_assoc | exact Hu1] | | done].
  cbv beta. intros changed2 h2 [Hu2 Hc2]. rewrite <- app_assoc in Hu2. split; [exact Hu2|].
  intros Hf. destruct (Hc2 Hf) as [Hf1 Hold]. destruct (Hc1 Hf1) as [-> Hpath]. split; [done|].
  intros p c Hin. apply elem_of_cons in Hin as [[= -> ->]|Hin]; [|by apply Hold].
  rewrite <- Hpath. symmetry. apply (proj2 Hu path (wanted_port time)). left.
Qed.

Lemma wp_writeClockPolicy h :
  wp (writeClockPolicy profile time runtime)
    (fun changes h' => Forall (fun s => validNtpServer s = true) (tp_ntp_servers time) /\ holds policy_files h' /\
       (cp_servers changes = false -> file h servers_file = Some (timesync_config (tp_ntp_servers time))) /\
       (cp_network changes = false -> holds (port_files (pf_interfaces profile)) h)) (fun _ _ => True) h.
Proof.
  unfold writeClockPolicy. fold servers_file. apply wp_bind, wp_lift. destruct (validate _) as [[]|e] eqn:Hv; [|done].
  apply validate_spec in Hv as (_ & (_ & _ & _ & _ & _ & Hservers) & _). apply wp_bind.
  destruct (_ && _); cbn [when]; [done|]. apply wp_ret, wp_bind.
  set (ports := port_files (pf_interfaces profile)).
  set (servers := (servers_file, Some (timesync_config (tp_ntp_servers time)))).
  eapply wp_mono; [apply (wp_markers h [] modes (servers :: ports) h eq_refl); split; [by intros p c ?%elem_of_nil | done] | | done].
  cbv beta. cbn [app]. intros _ h1 H1. apply wp_bind.
  eapply wp_mono; [apply (wp_and _ _ _ _ _ _ (wp_readableWrite servers_file (timesync_config (tp_ntp_servers time)) h1)
    (wp_put h (map marker_entry modes) servers_file _ ports _ h1 (puts_readableWrite _ _) Hclear H1)) | | done].
  cbv beta. intros changed h2 [[_ Hs] H2]. apply wp_bind.
  eapply wp_mono; [apply (wp_write_ports h (map marker_entry modes ++ [servers]) (pf_interfaces profile) false h2); [|exact H2] | | done].
  { unfold policy_files. by rewrite <- app_assoc. }
  cbv beta. intros network h3 [[H3 _] Hn]. apply wp_ret. split; [exact Hservers|]. split; [|split].
  - unfold policy_files. rewrite <- app_assoc in H3. exact H3.
  - intros Hc. rewrite <- (Hs Hc). symmetry. apply (proj2 H1 servers_file (Some (timesync_config (tp_ntp_servers time)))). left.
  - intros Hc. by apply Hn.
Qed.

(** C10: When [writeClockPolicy] returns, the files are the policy: the marker of a
    clock source is absent exactly when the source is the chosen one, the file
    of timesyncd, read the way systemd reads it, names the chosen servers and no
    others (and nothing when none are chosen), and the drop-in of every port is
    there exactly when servers are given; and a change that is not reported was
    none: the file or all the drop-ins had that contents before. The paths of the
    policy must be clear of each other. *)
Theorem clock_policy_in_force h :
  match writeClockPolicy profile time runtime h with
  | (h', Return changes) =>
      (forall mode, mode ∈ modes ->
         file h' (marker runtime profile mode) = if tp_synchronization time ==? mode then None else Some ("disabled" +:+ nl)) /\
      file h' servers_file = Some (timesync_config (tp_ntp_servers time)) /\
      (exists settings, read_ini (timesync_config (tp_ntp_servers time)) = Some settings /\
         server_settings (tp_ntp_servers time) settings) /\
      (forall port, port ∈ pf_interfaces profile -> file h' (port_file runtime (ip_name port)) = wanted_port time) /\
      (cp_servers changes = false -> file h servers_file = file h' servers_file) /\
      (cp_network changes = false -> forall port, port ∈ pf_interfaces profile ->
         file h (port_file runtime (ip_name port)) = file h' (port_file runtime (ip_name port)))
  | (_, Throw _) => True
  end.
Proof.
  pose proof (wp_writeClockPolicy h) as Hw. unfold wp in Hw.
  destruct (writeClockPolicy profile time runtime h) as [h' [changes|e]]; [|done]. destruct Hw as (Hv & Hh & Hs & Hn).
  assert (Hports : forall port, port ∈ pf_interfaces profile -> (port_file runtime (ip_name port), wanted_port time) ∈ port_files (pf_interfaces profile)).
  { intros port Hp. by apply (list_elem_of_fmap_2 (fun port => (port_file runtime (ip_name port), wanted_port time))). }
  assert (H1 : file h' servers_file = Some (timesync_config (tp_ntp_servers time))).
  { apply Hh. unfold policy_files. apply elem_of_app. right. left. }
  assert (H2 : forall port, port ∈ pf_interfaces profile -> file h' (port_file runtime (ip_name port)) = wanted_port time).
  { intros port Hp. apply Hh. unfold policy_files. apply elem_of_app. right. right. by apply Hports. }
  split_and!; [|done|by apply timesync_reads|done|intros Hc; rewrite H1; auto|].
  - intros mode Hm. apply Hh. unfold policy_files. apply elem_of_app. left.
    exact (list_elem_of_fmap_2 marker_entry modes mode Hm).
  - intros Hc port Hp. rewrite H2 by done. by apply Hn, Hports.
Qed.

End files.

(** ** The policy of a board *)

Definition server_choice : TimePreferences := mkTimePreferences "ntp" "UTC" "" ["time.example.org"].

Definition board_policy : Board * outcome ClockPolicyChanges :=
  writeClockPolicy board_profile server_choice "/run" (nv_world before).

Lemma board_policy_clear : pairwise_clear (map fst (policy_files board_profile server_choice "/run")).
Proof. apply (bool_decide_unpack _). vm_compute. exact I. Qed.

Lemma clock_policy_in_force_witness :
  file (fst board_policy) "/run/mnc/system/ntp-disabled" = None /\
  file (fst board_policy) "/run/mnc/system/ptp-disabled" = Some ("disabled" +:+ nl) /\
  file (fst board_policy) (port_file "/run" "end0") = Some explicit_servers.
Proof.
  assert (Hr : snd board_policy = Return (mkClockPolicyChanges true true)) by (vm_compute; reflexivity).
  pose proof (clock_policy_in_force board_profile server_choice "/run" board_policy_clear (nv_world before)) as Ht.
  fold board_policy in Ht. destruct board_policy as [h' [changes|e]]; [|discriminate Hr].
  destruct Ht as (Hm & _ & _ & Hp & _). split; [|split].
  - exact (Hm "ntp" ltac:(left)).
  - exact (Hm "ptp" ltac:(right; left)).
  - exact (Hp (mkInterfacePolicy "end0" "ethernet@f1") ltac:(left)).
Defined.
