(* ===== verification/System.v ===== *)
(** * The manager on the native platform

    The composition of the manager ([Backend]) with the native platform on one
    host: the interface [Platform] is instantiated with [nativePlatform], whose
    operations share the files of the host with the manager. What the platform
    does on the bus and in its files is accounted for by the calls that the
    manager made, which the histories of BackendLifecycle.v put in order with the
    writes of the journal. *)

From stdpp Require Import sorting.
From S2P Require Import Prelude SystemTypes Validation Effects Protocol Logging Host Storage Backend BackendSpec BackendLogic.
From S2P Require Import BackendRefinement BackendLifecycle Sample BackendProperties Clock NetworkFile Timestamp Bus Native.
From S2P Require Import NativeProperties NativeQueries NativeIsolation NativeSample.
Import NativePlatform.

(** ** What a call of the manager licenses *)

(** Deeds that change nothing. *)
Definition looks (d : deed) : Prop :=
  match d with
  | Seen _ _ => True
  | Asked m _ _ => m = network1 "DescribeLink" \/ m = timedate1 "ListTimezones" \/ m = systemd "LoadUnit"
  | Written _ _ => False
  end.

Section licence.
Context (profile_ : Profile).

Definition names_host (h : string) (d : deed) : Prop := d = Written (hostname_file profile_) (h +:+ nl).

Definition marks_ssh (d : deed) : Prop :=
  d = Written (path_append (pf_runtime_root profile_) "system/ssh-disabled") ("disabled" +:+ nl).

Definition reloads (d : deed) : Prop :=
  (exists ok, d = Asked (network1 "Reload") [] ok) \/
  (exists index ok, d = Asked (network1 "ReconfigureLink") [BInt index] ok).

Definition sets_identity (c : Configuration) (d : deed) : Prop :=
  exists ok,
    d = Asked (timedate1 "SetTimezone") [BText (tp_timezone (cf_time c)); BBool false] ok \/
    d = Asked (hostname1 "SetStaticHostname") [BText (pr_hostname (cf_system c)); BBool false] ok \/
    d = Asked (hostname1 "SetHostname") [BText (pr_hostname (cf_system c)); BBool false] ok.

(** A command to start or stop the unit [name]. *)
Definition commands (name : string) (start : bool) (d : deed) : Prop :=
  exists ok, d = Asked (systemd (if start then "StartUnit" else "StopUnit")) [BText name; BText "replace"] ok.

(** The units that the preferences may start and stop. *)
Definition unit_wanted (c : Configuration) (name : string) (start : bool) : Prop :=
  (exists units, clockUnits profile_ (cf_time c) = Return units /\ name ∈ (if start then cu_start units else cu_stop units)) \/
  (start = false /\ name ∈ pf_ntp_units profile_ /\ tp_synchronization (cf_time c) = "ntp") \/
  (name = pf_ssh_socket profile_ /\ start = pr_ssh_enabled (cf_system c)) \/
  (name = pf_ssh_service profile_ /\ start = false /\ pr_ssh_enabled (cf_system c) = false).

Definition licensed (c : call) (d : deed) : Prop :=
  match c with
  | CallPreferences c =>
      names_host (pr_hostname (cf_system c)) d \/ sets_identity c d \/ reloads d \/
      (exists name start, unit_wanted c name start /\ commands name start d) \/
      (pr_ssh_enabled (cf_system c) = false /\ marks_ssh d)
  | CallBootHostname h => names_host h d
  | CallNetwork n bootstrap =>
      (exists i text, i ∈ n /\ renderNetwork i (existsb nc_preferred_default n) = Return text /\
         d = Written (network_file (nc_interface i)) text) \/
      (bootstrap = false /\ reloads d)
  | CallSshBootPolicy enabled => enabled = false /\ marks_ssh d
  | CallClockBootPolicy _ => False
  | CallPower a => exists ok, d = Asked (login1 (match a with reboot => "Reboot" | shutdown => "PowerOff" end)) [BBool false] ok
  end.

Definition explained (c : call) (d : deed) : Prop := looks d \/ licensed c d.

End licence.

(** ** Queries only look *)

Section deeds.
Context {W : Type} {HO : Host W} {NO : Node W} (read_link : string -> option LinkInfo) (profile_ : Profile).
Context (tzdb : Z -> W -> string -> option (string * Z)).

Abbreviation looking := (within (extends (W := W) looks)).

Lemma extends_open_bus P : within (extends (W := W) P) open_bus.
Proof. unfold open_bus. within_auto. Qed.

Lemma looking_call m args : m = network1 "DescribeLink" \/ m = timedate1 "ListTimezones" \/ m = systemd "LoadUnit" -> looking (bus_call m args).
Proof. intros Hm. by apply extends_bus_call. Qed.

Lemma looking_unitState name : looking (unitState name).
Proof. apply extends_unitState; cbn; auto. Qed.

#[local] Hint Resolve extends_open_bus looking_unitState : within.
#[local] Hint Extern 1 (within (extends looks) (bus_call _ _)) => apply looking_call; auto : within.

Lemma extends_read_file P p n : within (extends (W := W) P) (read_file p n).
Proof. apply extends_world. Qed.

Lemma extends_collect {A B} P (f : A -> eff (Native W) B) l :
  (forall x, within (extends P) (f x)) -> within (extends P) (collect f l).
Proof. intros Hf. induction l as [|x l IH]; cbn [collect]; within_auto. Qed.

Lemma extends_fold_each {A B} P (f : B -> A -> eff (Native W) B) acc l :
  (forall acc x, within (extends P) (f acc x)) -> within (extends P) (fold_each f acc l).
Proof. intros Hf. revert acc. induction l as [|x l IH]; intros acc; cbn [fold_each]; within_auto. Qed.

Lemma extends_interfacePolicy P name boot : within (extends (W := W) P) (interfacePolicy profile_ name boot).
Proof. unfold interfacePolicy. cbv zeta. within_auto. Qed.

#[local] Hint Resolve extends_read_file extends_collect extends_fold_each extends_interfacePolicy : within.

Lemma looking_describe name : looking (describe read_link name).
Proof. unfold describe. within_auto. Qed.

Lemma looking_dhcpEnabled info : looking (dhcpEnabled info).
Proof.
  assert (Hf : forall files b, looking (dhcp_files files b)).
  { intros files. induction files as [|f files IH]; intros b; cbn [dhcp_files]; within_auto. }
  unfold dhcpEnabled. within_auto.
Qed.

Lemma looking_timezones : looking timezones.
Proof. unfold timezones. within_auto. Qed.

Lemma looking_ptp_interfaces : looking (ptp_interfaces profile_).
Proof. unfold ptp_interfaces. within_auto. Qed.

#[local] Hint Resolve looking_describe looking_dhcpEnabled looking_timezones looking_ptp_interfaces : within.

Lemma looking_discover : looking (discover read_link profile_).
Proof.
  assert (Hi : forall p, looking (discover_interface read_link profile_ p)) by (intros p; unfold discover_interface; within_auto).
  unfold discover, ssh_active. within_auto.
Qed.

Lemma looking_status : looking (status read_link profile_).
Proof.
  assert (Hi : forall p, looking (status_interface read_link p)) by (intros p; unfold status_interface; within_auto).
  unfold status, ssh_active. within_auto.
Qed.

Lemma looking_time : looking (time profile_).
Proof. unfold time. within_auto. Qed.

Lemma looking_timezoneCatalog : looking (timezoneCatalog tzdb).
Proof. unfold timezoneCatalog. within_auto. Qed.

Lemma looking_networkLinks : looking (networkLinks profile_).
Proof.
  assert (Hi : forall p, looking (observe_link p)) by (intros p; unfold observe_link, catch_error; cbv zeta; within_auto).
  unfold networkLinks. within_auto.
Qed.

Lemma looking_temperatures : looking (temperatures profile_).
Proof.
  assert (He : forall device result name, looking (read_entry device result name))
    by (intros; unfold read_entry, catch_error; cbv zeta; within_auto).
  assert (Hd : forall root result device, looking (read_device root result device)) by (intros; unfold read_device; within_auto).
  unfold temperatures, readTemperatures. cbv zeta. within_auto.
Qed.

Lemma looking_validateConfiguration c : looking (validateConfiguration profile_ c).
Proof. unfold validateConfiguration. within_auto. Qed.

(** ** Each call does what it licenses *)

Abbreviation doing c := (within (extends (W := W) (explained profile_ c))).

Lemma extends_write_file P p v : P (Written p v) -> within (extends (W := W) P) (write_file p v).
Proof. intros HP. unfold write_file. within_auto. Qed.

Lemma doing_licensed_call c m args : (forall ok, licensed profile_ c (Asked m args ok)) -> doing c (bus_call m args).
Proof. intros Hl. apply extends_bus_call. intros ok. right. apply Hl. Qed.

Lemma doing_licensed_write c p v : licensed profile_ c (Written p v) -> doing c (write_file p v).
Proof. intros Hl. apply extends_write_file. by right. Qed.

Lemma doing_power a : doing (CallPower a) (power a).
Proof.
  assert (Hc : doing (CallPower a) (bus_call (login1 (match a with reboot => "Reboot" | shutdown => "PowerOff" end)) [BBool false]))
    by (apply doing_licensed_call; intros ok; by exists ok).
  unfold power. within_auto.
Qed.

Lemma doing_bootHostname c h : licensed profile_ c (Written (hostname_file profile_) (h +:+ nl)) -> doing c (bootHostname profile_ h).
Proof. intros Hl. pose proof (doing_licensed_write c _ _ Hl). unfold bootHostname. within_auto. Qed.

Lemma extends_runtimeTimezone P zone : within (extends (W := W) P) (runtimeTimezone profile_ zone).
Proof. unfold runtimeTimezone. cbv zeta. within_auto. Qed.

#[local] Hint Resolve extends_runtimeTimezone : within.

Lemma doing_clockBootPolicy t : doing (CallClockBootPolicy t) (clockBootPolicy profile_ t).
Proof. unfold clockBootPolicy. within_auto. Qed.

Lemma doing_sshBootPolicy c enabled :
  (enabled = false -> forall d, marks_ssh profile_ d -> licensed profile_ c d) -> doing c (sshBootPolicy profile_ enabled).
Proof.
  intros Hl. unfold sshBootPolicy. cbv zeta. destruct enabled; [within_auto|]. apply doing_licensed_write. by apply Hl.
Qed.

Lemma doing_reloadNetwork c configs : (forall d, reloads d -> licensed profile_ c d) -> doing c (reloadNetwork configs).
Proof.
  intros Hl.
  assert (H1 : doing c (bus_call (network1 "Reload") [])) by (apply doing_licensed_call; intros ok; apply Hl; left; eauto).
  assert (H2 : forall i, doing c (bus_call (network1 "ReconfigureLink") [BInt i]))
    by (intros i; apply doing_licensed_call; intros ok; apply Hl; right; eauto).
  unfold reloadNetwork. within_auto.
Qed.

Lemma doing_network n bootstrap : doing (CallNetwork n bootstrap) (network profile_ n bootstrap).
Proof.
  assert (Hw : forall i, i ∈ n -> doing (CallNetwork n bootstrap) (write_network profile_ n bootstrap i)).
  { intros i Hi. unfold write_network. cbv zeta. apply within_bind; [apply _ | within_auto | intros _].
    apply within_lift_bind; [apply _|]. intros text Hr.
    assert (Hf : doing (CallNetwork n bootstrap) (write_file (network_file (nc_interface i)) text))
      by (apply doing_licensed_write; left; eauto).
    within_auto. }
  unfold network. within_auto. apply doing_reloadNetwork. intros d Hd. right. split; [by destruct bootstrap | done].
Qed.

Lemma doing_set_identity c : doing (CallPreferences c) (set_identity profile_ c).
Proof.
  pose proof (doing_bootHostname (CallPreferences c) (pr_hostname (cf_system c)) ltac:(by left)).
  assert (Hs : forall m args, (forall ok, sets_identity c (Asked m args ok)) -> doing (CallPreferences c) (bus_call m args))
    by (intros m args Hm; apply doing_licensed_call; intros ok; right; left; apply Hm).
  unfold set_identity. within_auto; apply Hs; intros ok; exists ok; auto.
Qed.

Lemma doing_unit c name start : unit_wanted profile_ c name start -> doing (CallPreferences c) (unit_transition name start).
Proof.
  intros Hu. eapply within_mono; [|apply extends_unit_transition]. intros s s'. apply extends_mono.
  intros [m args ok|n st|p v]; cbn; [|by left | done].
  intros [[-> ->]|[-> ->]]; [left; cbn; auto|]. right. do 3 right. left. exists name, start. split; [done|]. by exists ok.
Qed.

Lemma doing_preferences c : doing (CallPreferences c) (preferences profile_ c).
Proof.
  pose proof (doing_set_identity c).
  assert (Hr : forall l, doing (CallPreferences c) (reloadNetwork l)) by (intros l; apply doing_reloadNetwork; right; right; auto).
  assert (Hp : doing (CallPreferences c) (sshBootPolicy profile_ (pr_ssh_enabled (cf_system c))))
    by (apply doing_sshBootPolicy; intros He d Hd; do 4 right; auto).
  unfold preferences. apply within_bind; [apply _ | within_auto | intros _]. apply within_bind; [apply _ | within_auto | intros _].
  apply within_bind; [apply _ | within_auto | intros changed]. apply within_lift_bind; [apply _|]. intros clocks Hc.
  within_auto; apply doing_unit; unfold unit_wanted; propify.
  - left. eauto.
  - right; left. auto.
  - left. eauto.
  - do 2 right; left. auto.
  - do 3 right. auto.
Qed.

End deeds.

(** ** The manager's calls account for the deeds *)

Section composition.
Context {W : Type} {HO : Host W} {HL : HostLaws W} {NO : Node W} {own : string -> Prop} {NL : NodeLaws W own}.
Context {JS : Json State} {JL : JsonLaws State}.
Context (sha256 : string -> option (list Z)) (read_status : string -> option StorageBootStatus).
Context (read_link : string -> option LinkInfo) (tzdb : Z -> W -> string -> option (string * Z)).
Context (profile_ : Profile) {PO : ProfileOk profile_} {OW : Owned (foreign own profile_) profile_}.

#[local] Instance device : Platform (list deed) W := nativePlatform read_link profile_ tzdb.

Abbreviation B := (eff (Backend (list deed) W)).

(** Every deed since [b] looks only, or is licensed by a call noted since [b]. *)
Definition accounted (b b' : Backend (list deed) W) : Prop :=
  exists calls deeds, trace_ b' = calls ++ trace_ b /\ platform_ b' = deeds ++ platform_ b /\
    Forall (fun d => looks d \/ exists c ok, Called c ok ∈ calls /\ licensed profile_ c d) deeds.

#[local] Instance accounted_preorder : PreOrder accounted.
Proof.
  split; [intros b; by exists [], []|]. intros b1 b2 b3 (c1 & d1 & Hc1 & Hd1 & H1) (c2 & d2 & Hc2 & Hd2 & H2).
  exists (c2 ++ c1), (d2 ++ d1). rewrite Hc2, Hc1, Hd2, Hd1, !app_assoc. split_and!; [done..|].
  apply Forall_app. split; eapply Forall_impl; [exact H2 | | exact H1 |]; cbv beta;
    intros d [?|(c & ok & Hin & ?)]; [by left | right; exists c, ok | by left | right; exists c, ok];
    rewrite elem_of_app; auto.
Qed.

Lemma accounted_modify (f : Backend (list deed) W -> Backend (list deed) W) :
  (forall b, trace_ (f b) = trace_ b /\ platform_ (f b) = platform_ b) -> within accounted (modify f).
Proof. intros Hf b. destruct (Hf b) as [Ht Hp]. by exists [], []. Qed.

Lemma accounted_note e : within accounted (note e).
Proof. intros b. by exists [e], []. Qed.

Lemma accounted_host {A} (f : W -> W * outcome A) : within accounted (host f).
Proof. intros b. unfold host. destruct (f (host_ b)) as [h r]. by exists [], []. Qed.

Lemma accounted_ask {A} (m : eff (Native W) A) : within (extends looks) m -> within accounted (ask (on_world m)).
Proof.
  intros Hm b. unfold ask, on_world. cbn [fst snd]. destruct (Hm (mkNative (host_ b) (platform_ b))) as (run & Hr & Hl).
  destruct (m (mkNative (host_ b) (platform_ b))) as [s r]. cbn in Hr. exists [], run. split_and!; [done..|].
  eapply Forall_impl; [exact Hl|]. by left.
Qed.

Lemma accounted_call c (m : eff (Native W) unit) :
  within (extends (explained profile_ c)) m -> within accounted (call_platform c (on_world m)).
Proof.
  intros Hm b. unfold call_platform, noting, try_catch, ask, on_world, mbind, eff_bind. cbn [fst snd].
  destruct (Hm (mkNative (host_ b) (platform_ b))) as (run & Hr & Hl).
  destruct (m (mkNative (host_ b) (platform_ b))) as [s [u|e]]; cbn in Hr |- *; (eexists [Called c _], run; split_and!; [done..|]);
    (eapply Forall_impl; [exact Hl|]; intros d [?|?]; [by left | right; exists c; eexists; split; [left | done]]).
Qed.

#[local] Hint Resolve accounted_note accounted_host : within.
#[local] Hint Extern 1 (within accounted (modify _)) => apply accounted_modify; by intros b : within.

Lemma accounted_queries :
  (forall c, within accounted (ask (platform_validateConfiguration c))) /\ within accounted (ask platform_status) /\
  within accounted (ask platform_networkLinks) /\ within accounted (ask platform_discover).
Proof.
  split_and!; [intros c|..]; apply accounted_ask;
    first [apply looking_validateConfiguration | apply looking_status | apply looking_networkLinks | apply looking_discover].
Qed.

Lemma accounted_calls :
  (forall c, within accounted (Backend.preferences c)) /\ (forall h, within accounted (Backend.bootHostname h)) /\
  (forall n b, within accounted (Backend.network n b)) /\ (forall e, within accounted (Backend.sshBootPolicy e)) /\
  (forall t, within accounted (Backend.clockBootPolicy t)) /\ (forall a, within accounted (power_off a)).
Proof.
  split_and!; intros; apply accounted_call.
  - apply doing_preferences.
  - by apply doing_bootHostname.
  - apply doing_network.
  - apply doing_sshBootPolicy. by cbn.
  - apply doing_clockBootPolicy.
  - apply doing_power.
Qed.

Ltac account :=
  destruct accounted_queries as (?Q1 & ?Q2 & ?Q3 & ?Q4); destruct accounted_calls as (?K1 & ?K2 & ?K3 & ?K4 & ?K5 & ?K6);
  cbv zeta; within_auto.

Lemma accounted_noting e (m : B unit) : within accounted m -> within accounted (noting e m).
Proof. intros Hm. unfold noting. account. Qed.

#[local] Hint Resolve accounted_noting : within.

Lemma accounted_event code category message actor action outcome subject priority request_id :
  within accounted (event code category message actor action outcome subject priority request_id).
Proof. unfold event. account. Qed.

#[local] Hint Resolve accounted_event : within.

Lemma accounted_persist : within accounted (persist profile_).
Proof. unfold persist, get, set_storage_failed. account. Qed.

Lemma accounted_fileHash p : within accounted (fileHash sha256 p).
Proof. unfold fileHash. account. Qed.

Lemma accounted_update f : within accounted (update f).
Proof. apply accounted_modify. by intros b. Qed.

#[local] Hint Resolve accounted_persist accounted_fileHash accounted_update : within.

Lemma accounted_observeNetwork : within accounted (observeNetwork profile_).
Proof. unfold observeNetwork, Backend.observe_link, set_carriers, get. account. Qed.

Lemma accounted_settleNetwork commit bootstrap reason : within accounted (settleNetwork profile_ commit bootstrap reason).
Proof. unfold settleNetwork, get. account. Qed.

#[local] Hint Resolve accounted_observeNetwork accounted_settleNetwork : within.

Lemma accounted_recoverNetwork bootstrap : within accounted (recoverNetwork sha256 profile_ bootstrap).
Proof. unfold recoverNetwork, get. account. Qed.

#[local] Hint Resolve accounted_recoverNetwork : within.

Lemma accounted_tick : within accounted (tick sha256 profile_).
Proof. unfold tick, dispatch_job, now, get, set_next_observation, set_job_deadline. account. Qed.

Lemma accounted_idle : within accounted idle.
Proof. unfold idle, get. account. Qed.

#[local] Hint Resolve accounted_tick accounted_idle : within.

Lemma accounted_networkTransaction : within accounted (networkTransaction sha256 profile_).
Proof. unfold networkTransaction, now, get. account. Qed.

Lemma accounted_accept_job : within accounted (accept_job profile_).
Proof. unfold accept_job, now, get, set_job_deadline. account. Qed.

#[local] Hint Resolve accounted_networkTransaction accounted_accept_job : within.

Lemma accounted_perform r : within accounted (perform sha256 read_status profile_ r).
Proof.
  destruct r; cbn [perform].
  - apply accounted_tick.
  - unfold Backend.status, get. account.
  - unfold apply, restore, check_hostname, get. account.
  - unfold beginNetwork, check_hostname, now, get. account.
  - account.
  - unfold prepareNetworkCommit, checkId, now, get. account.
  - unfold finishNetwork, checkId, get. account.
  - unfold Backend.power. account.
  - unfold resetDevice, storageStatus. account.
Qed.

Lemma accounted_construct : within accounted (construct profile_).
Proof. unfold construct. account. Qed.

Lemma accounted_boot_policies : within accounted boot_policies.
Proof. unfold boot_policies, get. account. Qed.

#[local] Hint Resolve accounted_construct accounted_boot_policies : within.

Lemma accounted_bootstrap : within accounted (bootstrap sha256 read_status profile_).
Proof. unfold bootstrap, bootstrap_reset, storageStatus, durable_remove, get. account. Qed.

Lemma accounted_start : within accounted (start sha256 profile_).
Proof. unfold start, now, set_job_deadline, get. account. Qed.

#[local] Hint Resolve accounted_bootstrap accounted_start : within.

(** ** The processes of a device *)

(** A process in the world [w]: the manager before and after it boots, starts,
    or serves one request. *)
Inductive process : BackendLifecycle.world (list deed) W -> Backend (list deed) W -> Backend (list deed) W -> Prop :=
  | process_boot p h trace :
      process (Off p h trace) (blank p h trace) (fst (boot_process sha256 read_status profile_ (blank p h trace)))
  | process_start p h trace :
      process (Off p h trace) (blank p h trace) (fst (daemon_start sha256 profile_ (blank p h trace)))
  | process_request b r : process (On b) b (fst (perform sha256 read_status profile_ r b)).

Abbreviation world_step := (world_step sha256 read_status profile_).

Lemma process_accounted w b b' : process w b b' -> accounted b b'.
Proof.
  intros Hp. destruct Hp as [p h trace|p h trace|b r]; [| |apply accounted_perform].
  - revert p h trace. enough (Hb : within accounted (boot_process sha256 read_status profile_)) by (intros; apply Hb).
    unfold boot_process. account.
  - revert p h trace. enough (Hb : within accounted (daemon_start sha256 profile_)) by (intros; apply Hb).
    unfold daemon_start. account.
Qed.

(** What a process leaves is a world again. *)
Lemma process_step w b b' : process w b b' -> world_step w (stopped b') \/ world_step w (On b').
Proof.
  intros Hp. destruct Hp as [p h trace|p h trace|b r]; [left; constructor | | right; constructor].
  destruct (daemon_start sha256 profile_ (blank p h trace)) as [b [[]|e]] eqn:Hd; cbn;
    [right; by constructor | left; by eapply ws_start_fails].
Qed.

Lemma process_sound h w b b' :
  file h (state_path profile_) = None -> rtc world_step (Off [] h []) w -> process w b b' ->
  (exists s, journal_state profile_ (file (host_ b') (state_path profile_)) s /\ wf s) /\ trace_ok profile_ (trace_ b').
Proof.
  intros Hn Hw Hp%process_step.
  assert (Hs : forall w', world_step w w' -> rtc world_step (Off [] h []) w') by (intros; by eapply rtc_r).
  pose proof (worlds_sound (HL := HL) (JL := JL) (PO := PO) (PW := native_laws read_link profile_ tzdb) (OW := OW)
    sha256 read_status profile_ [] h) as Hsound.
  destruct Hp as [Hp|Hp]; apply Hs, Hsound in Hp; [|done | |done].
  - destruct Hp as (s & Hj & Hwf & Ht). eauto.
  - destruct Hp as [[_ (s & Hj & Hwf & _) Ht] _]. eauto.
Qed.

(** C4: The manager on the native platform, over one host: after any history of a
    new device, whatever a process then does (boot, start, a request or a tick,
    however it ends), the journal can be read and is well formed, and everything
    the platform did on the bus and wrote by name only looked, or was licensed by
    a call of the manager that fulfilled the contract of the platform. So
    logind is asked to stop the machine only for a job that the journal holds as
    dispatched, and networkd only gets files rendered from validated networks.
    The trace holds the bus calls and the files written by name; the files of
    [writeClockPolicy], symbolic links, removals and [sethostname] are not in it. *)
Theorem device_accounted h w b b' :
  file h (state_path profile_) = None -> rtc world_step (Off [] h []) w -> process w b b' ->
  (exists s, journal_state profile_ (file (host_ b') (state_path profile_)) s /\ wf s) /\
  exists deeds, platform_ b' = deeds ++ platform_ b /\
    forall d, d ∈ deeds ->
      looks d \/
      exists c ok after before, trace_ b' = after ++ Called c ok :: before /\ licensed profile_ c d /\ call_ok profile_ before c.
Proof.
  intros Hn Hw Hp. destruct (process_sound h w b b' Hn Hw Hp) as [Hj Ht]. split; [exact Hj|].
  destruct (process_accounted w b b' Hp) as (calls & deeds & Hc & Hd & Ha). exists deeds. split; [done|].
  intros d Hin. rewrite Forall_forall in Ha. destruct (Ha d Hin) as [Hl|(c & ok & Hcall & Hl)]; [by left|].
  right. apply list_elem_of_split in Hcall as (after & before & ->). rewrite <- app_assoc in Hc. exists c, ok, after, (before ++ trace_ b).
  split; [exact Hc|]. split; [done|]. rewrite Hc in Ht. cbn [app] in Ht. by eapply trace_ok_split.
Qed.

End composition.

(** ** A device *)

Definition device_configuration : Configuration :=
  mkConfiguration (mkPreferences "mnc" false board_network) (ptp_choice "end0").

Definition device_profile : Profile :=
  mkProfile "settings" "control" "/s" "/product/active.json" "/run/mnc" "" ""
    [mkInterfacePolicy "end0" "ethernet@f1"; mkInterfacePolicy "end-1" ""] [] device_configuration "sshd.socket" "sshd.service"
    ["systemd-timesyncd.service"] ["irig.service"] ["ptp4l.service"] ["ptp4l@.service"] []
    (Some (mkBootPreferences 1 device_configuration device_configuration "mnc")).

#[export] Instance device_profile_ok : ProfileOk device_profile.
Proof.
  split.
  - by apply validate_spec.
  - intros boot [= <-]. by apply validate_spec.
  - intros boot [= <-]. by apply (proj1 (validate_spec device_configuration)).
  - split; [done | reflexivity].
  - constructor.
Qed.

#[export] Instance device_owned : Owned (foreign (fun _ => True) device_profile) device_profile.
Proof. split; unfold foreign, apart; split_and!; vm_compute; first [exact I | reflexivity | discriminate]. Qed.

(** A new board; its clock shows one second, and later twenty. *)
Definition new_board : Board :=
  mkBoard (mkMachine (disk_of [("/etc/os-release", "Linux")]) [] (replicate 64 171) [(1, 0); (20, 0)] [disk_of []]) 0 ∅.

Definition no_database : Z -> Board -> string -> option (string * Z) := fun _ _ _ => None.

#[local] Instance board_device : Platform (list deed) Board := nativePlatform board_link device_profile no_database.

Definition device_boot : Backend (list deed) Board -> Backend (list deed) Board := fun b =>
  fst (boot_process sample_digest no_status device_profile b).

Definition booted : Backend (list deed) Board := device_boot (blank [] new_board []).

Definition started_up : Backend (list deed) Board :=
  fst (daemon_start sample_digest device_profile (blank (platform_ booted) (host_ booted) (trace_ booted))).

Definition asked_to_reboot : Backend (list deed) Board :=
  fst (perform sample_digest no_status device_profile (RPower reboot "admin" "7") started_up).

Definition rebooted : Backend (list deed) Board := fst (perform sample_digest no_status device_profile RTick asked_to_reboot).

(** The history of the device up to the request. *)
Lemma device_history :
  rtc (world_step sample_digest no_status device_profile) (Off [] new_board []) (On asked_to_reboot).
Proof.
  eapply rtc_l; [apply ws_boot|]. eapply rtc_l; [apply (ws_start _ _ _ _ _ _ started_up)|].
  - assert (Hr : snd (daemon_start sample_digest device_profile (blank (platform_ booted) (host_ booted) (trace_ booted))) = Return tt)
      by (vm_compute; reflexivity).
    rewrite <- Hr. apply surjective_pairing.
  - eapply rtc_l; [apply ws_request | apply rtc_refl].
Qed.

Lemma appended_head {A} (x : A) l l' : x :: l = l' ++ l -> x ∈ l'.
Proof.
  destruct l' as [|y l']; cbn; intros He; [|injection He as <- _; left].
  apply (f_equal length) in He. cbn in He. lia.
Qed.

(** A board boots, starts, accepts a request for a reboot and asks logind. *)
Lemma device_accounted_witness :
  exists c ok after before,
    trace_ rebooted = after ++ Called c ok :: before /\
    licensed device_profile c (Asked (login1 "Reboot") [BBool false] true) /\ call_ok device_profile before c.
Proof.
  destruct (device_accounted sample_digest no_status board_link no_database device_profile new_board (On asked_to_reboot)
    asked_to_reboot rebooted) as [_ (deeds & Hd & Hall)].
  - vm_compute. reflexivity.
  - exact device_history.
  - apply (process_request sample_digest no_status board_link no_database device_profile asked_to_reboot RTick).
  - destruct (Hall (Asked (login1 "Reboot") [BBool false] true)) as [Hl|Hc].
    + assert (Hn : platform_ rebooted = Asked (login1 "Reboot") [BBool false] true :: platform_ asked_to_reboot)
        by (vm_compute; reflexivity).
      rewrite Hn in Hd. exact (appended_head _ _ _ Hd).
    + exfalso. destruct Hl as [Hl|[Hl|Hl]]; discriminate Hl.
    + exact Hc.
Defined.
