(* ===== verification/ProfileLoading.v ===== *)
(** * The product profile (daemon/storage.cpp, [loadProfile] and [loadBootPreferences])

    The checks that a profile passes before the manager runs with it, with the
    lexical operations of [std::filesystem::path] that they use. What they give
    the manager is the interface [ProfileOk] that its theorems assume. *)

From S2P Require Import Prelude SystemTypes Validation Effects Protocol Host Storage Backend BackendSpec BackendLogic Sample.

(** ** Paths *)

(** The texts between the slashes. *)
Fixpoint split_slash (s : string) : list string :=
  match s with
  | EmptyString => [""]
  | String c rest =>
      if c ==? "/"%char then "" :: split_slash rest
      else match split_slash rest with [] => [String c ""] | x :: xs => String c x :: xs end
  end.

Definition is_absolute (p : string) : bool := starts_with "/" p.

(** The file names of a path; the last one is empty when the path ends in a
    separator behind a name. *)
Definition filenames (p : string) : list string :=
  let names := List.filter (fun x => negb (empty x)) (split_slash p) in
  if bool_decide (names = []) then [] else if ends_with "/" p then names ++ [""] else names.

(** One step of [lexically_normal]: the names kept so far, last first, and
    whether the text so far ends in a separator. *)
Definition normal_step (absolute : bool) (acc : list string * bool) (name : string) : list string * bool :=
  let '(kept, _) := acc in
  if (name ==? "") || (name ==? ".") then (kept, true)
  else if name ==? ".." then
    match kept with
    | [] => if absolute then ([], true) else ([".."], false)
    | last :: rest => if last ==? ".." then (".." :: kept, false) else (rest, true)
    end
  else (name :: kept, false).

Definition lexically_normal (p : string) : string :=
  if empty p then ""
  else
    let absolute := is_absolute p in
    let '(kept, trailing) := fold_left (normal_step absolute) (filenames p) ([], false) in
    let body := join "/" (rev kept) in
    let ending :=
      match kept with
      | [] => ""
      | last :: _ => if trailing && (last <>? "..") then "/" else ""
      end in
    if absolute then "/" +:+ body +:+ ending
    else if empty body then "." else body +:+ ending.

(** ** Loading *)

Record file_stat := mkStat { st_regular : bool; st_uid : Z; st_mode : Z }.

Definition runtime_char (c : ascii) : bool := is_alnum c || (c ==? "/"%char) || (c ==? "_"%char) || (c ==? "-"%char).

Definition valid_runtime_root (root : string) : bool :=
  is_absolute root &&
  match filenames root with
  | [dir; name] => (dir ==? "run") && negb (empty name) && (name <>? ".") && (name <>? "..")
  | _ => false
  end && str_all runtime_char root.

Definition protected_directories : list string := ["/etc"; "/var"; "/data"; "/usr"; "/root"].

Definition safe_reset_path (state path : string) : bool :=
  let target := lexically_normal path in
  negb (negb (is_absolute target) || (target ==? "/") || bool_decide (target ∈ protected_directories) ||
        (target ==? state) || starts_with (target +:+ "/") state).

Section loading.
Context {H : Type} {HO : Host H} {JProfile : Json Profile} {JBoot : Json BootPreferences}.
Context (lstat : string -> string + file_stat).
Abbreviation F := (eff H).

(** [lstat] and the check of the owner and the mode. *)
Definition check_trusted (p what message : string) : F unit :=
  match lstat p with
  | inl strerror => throw_err apply_failed (what +:+ ": " +:+ strerror)
  | inr st =>
      when (negb (st_regular st) || (st_uid st <>? 0) || negb (Z.land (st_mode st) 18 =? 0)) (throw_err permission_denied message)
  end.

Definition check_profile (profile : Profile) : outcome unit :=
  _ ← validate (pf_defaults profile);
  if negb (valid_runtime_root (pf_runtime_root profile)) then throw_error invalid_argument "invalid runtime root"
  else if (negb (empty (pf_runtime_etc_directory profile)) &&
           (pf_runtime_etc_directory profile <>? pf_runtime_root profile +:+ "/os")) ||
          (negb (empty (pf_storage_status_file profile)) &&
           (pf_storage_status_file profile <>? pf_runtime_root profile +:+ "/storage/status.json"))
  then throw_error invalid_argument "unsupported runtime storage paths"
  else if empty (pf_state_directory profile) || empty (pf_active_settings profile) ||
          empty (pf_settings_user profile) || empty (pf_control_user profile)
  then throw_error invalid_argument "incomplete system profile"
  else if forallb (safe_reset_path (lexically_normal (pf_state_directory profile))) (pf_reset_paths profile)
  then Return tt
  else throw_error invalid_argument "unsafe reset path in product profile".

Definition loadProfile (p : string) : F Profile :=
  _ ← check_trusted p "stat profile" "system profile must be a root-owned, non-writable regular file";
  text ← readFile p 1048576;
  profile ← lift (decode max_message_size text);
  _ ← lift (check_profile profile);
  mret profile.

(** The loop over [factory] and [initial]. *)
Definition check_interfaces (profile : Profile) (config : Configuration) : outcome unit :=
  if negb (Nat.eqb (length (pr_network (cf_system config))) (length (pf_interfaces profile)))
  then throw_error invalid_argument "boot preferences must include all managed interfaces"
  else if forallb (fun policy =>
            Nat.eqb (length (List.filter (fun n => nc_interface n ==? ip_name policy) (pr_network (cf_system config)))) 1)
            (pf_interfaces profile)
  then Return tt
  else throw_error invalid_argument "invalid boot interface".

Definition check_boot (profile : Profile) (boot : BootPreferences) : outcome BootPreferences :=
  if negb (bp_schema_version boot =? 1) || empty (bp_managed_hostname boot)
  then throw_error invalid_argument "invalid boot preferences"
  else
    let boot := mkBootPreferences (bp_schema_version boot) (set_hostname (bp_managed_hostname boot) (bp_factory boot))
                  (set_hostname (bp_managed_hostname boot) (bp_initial boot)) (bp_managed_hostname boot) in
    _ ← validate (bp_factory boot);
    _ ← validate (bp_initial boot);
    _ ← check_interfaces profile (bp_factory boot);
    _ ← check_interfaces profile (bp_initial boot);
    Return boot.

(** [profile.defaults = boot.factory; profile.boot_preferences = boot]. *)
Definition with_boot (profile : Profile) (boot : BootPreferences) : Profile :=
  mkProfile (pf_settings_user profile) (pf_control_user profile) (pf_state_directory profile) (pf_active_settings profile)
    (pf_runtime_root profile) (pf_runtime_etc_directory profile) (pf_storage_status_file profile) (pf_interfaces profile)
    (pf_sensors profile) (bp_factory boot) (pf_ssh_socket profile) (pf_ssh_service profile) (pf_ntp_units profile)
    (pf_irig_units profile) (pf_ptp_units profile) (pf_ptp_unit_templates profile) (pf_reset_paths profile) (Some boot).

Definition loadBootPreferences (profile : Profile) (path : string) : F Profile :=
  _ ← check_trusted path "stat boot preferences" "boot preferences must be root-owned and non-writable";
  text ← readFile path 1048576;
  boot ← lift (decode max_message_size text);
  boot ← lift (check_boot profile boot);
  mret (with_boot profile boot).

(** The loop of [main] over the arguments; the result is [bootstrap] too. *)
Fixpoint read_arguments (profile : Profile) (bootstrap : bool) (arguments : list string) : F (Profile * bool) :=
  match arguments with
  | [] => mret (profile, bootstrap)
  | argument :: rest =>
      let usage := StdException "usage: mnc-system-manager [--bootstrap] [--boot-preferences FILE]" in
      if argument ==? "--bootstrap" then read_arguments profile true rest
      else
        match rest with
        | file :: rest' =>
            if argument ==? "--boot-preferences"
            then profile' ← loadBootPreferences profile file; read_arguments profile' bootstrap rest'
            else throw usage
        | [] => throw usage
        end
  end.

Definition load (path : string) (arguments : list string) : F (Profile * bool) :=
  profile ← loadProfile path;
  read_arguments profile false arguments.

End loading.

(** ** What the checks give *)

(** The last slash of a text is where it is. *)
Lemma last_slash_unique a b c d :
  contains "/" b = false -> contains "/" d = false -> a +:+ String "/" b = c +:+ String "/" d -> a = c /\ b = d.
Proof.
  revert c. induction a as [|x a IH]; intros c Hb Hd He; destruct c as [|y c]; cbn in He.
  - by injection He as ->.
  - injection He as Hy He. exfalso. rewrite He, contains_app in Hb. cbn in Hb. by rewrite orb_true_r in Hb.
  - injection He as Hx He. exfalso. rewrite <- He, contains_app in Hd. cbn in Hd. by rewrite orb_true_r in Hd.
  - injection He as -> He. by destruct (IH c Hb Hd He) as [-> ->].
Qed.

(** A text with a slash is split at the last one. *)
Lemma split_last_slash s : contains "/" s = true -> exists a b, s = a +:+ String "/" b /\ contains "/" b = false.
Proof.
  induction s as [|c s IH]; cbn; [done|]. intros Hc. destruct (contains "/" s) eqn:E.
  - destruct (IH eq_refl) as (a & b & -> & Hb). exists (String c a), b. done.
  - rewrite orb_false_r in Hc. apply bool_decide_eq_true in Hc as <-. exists "", s. done.
Qed.

(** A file of a directory is below a path only if the directory is. *)
Lemma under_file p s f :
  contains "/" f = false -> under p (s +:+ "/" +:+ f) = true -> p = s +:+ "/" +:+ f \/ under p s = true.
Proof.
  intros Hf. unfold under. intros [Hp|Hp]%orb_true_iff; [left; by apply bool_decide_eq_true in Hp|]. right.
  apply starts_with_spec in Hp as [rest Hr]. rewrite str_app_assoc in Hr.
  change (s +:+ String "/" f = p +:+ String "/" rest) in Hr. apply orb_true_iff.
  destruct (contains "/" rest) eqn:E.
  - apply split_last_slash in E as (a & b & -> & Hb). right. apply starts_with_spec. exists a.
    replace (p +:+ String "/" (a +:+ String "/" b)) with ((p +:+ String "/" a) +:+ String "/" b) in Hr
      by (by rewrite str_app_assoc).
    apply last_slash_unique in Hr as [-> _]; [|done|done]. by rewrite str_app_assoc.
  - left. apply last_slash_unique in Hr as [-> _]; [by apply bool_decide_eq_true | done | done].
Qed.

(** A path in normal form that does not end in a slash. *)
Definition plain (p : string) : Prop := lexically_normal p = p /\ ends_with "/" p = false.

Lemma safe_reset_path_under state path :
  plain path -> safe_reset_path state path = true -> under path state = false.
Proof.
  intros [Hp _]. unfold safe_reset_path, under. rewrite Hp. cbv zeta. rewrite negb_true_iff, !orb_false_iff. tauto.
Qed.

Lemma state_path_plain profile :
  pf_state_directory profile <> "" -> plain (pf_state_directory profile) ->
  state_path profile = pf_state_directory profile +:+ "/" +:+ "state.json".
Proof. intros Hne [_ Hs]. unfold state_path, path_append. apply empty_false in Hne. by rewrite Hne, Hs. Qed.

Lemma check_profile_ok profile :
  check_profile profile = Return tt -> plain (pf_state_directory profile) -> Forall plain (pf_reset_paths profile) ->
  state_path profile ∉ pf_reset_paths profile ->
  configuration_ok (pf_defaults profile) /\ Forall (fun p => under p (state_path profile) = false) (pf_reset_paths profile).
Proof.
  unfold check_profile. intros Hc Hs Hr Hn.
  destruct (validate (pf_defaults profile)) as [[]|e] eqn:Hv; [|done]. cbn [mbind outcome_bind] in Hc.
  split; [by apply validate_spec|].
  destruct (negb (valid_runtime_root _)); [done|]. destruct (_ || _) in Hc; [done|].
  destruct (empty (pf_state_directory profile)) eqn:He; [done|]. cbn [orb] in Hc. destruct (_ || _) in Hc; [done|].
  destruct (forallb _ _) eqn:Hf; [|done]. rewrite (proj1 Hs) in Hf. apply empty_false in He.
  rewrite (state_path_plain profile He Hs) in Hn |- *.
  apply Forall_forall. intros p Hp. rewrite Forall_forall in Hr.
  assert (Hsafe : safe_reset_path (pf_state_directory profile) p = true) by (rewrite forallb_forall in Hf; by apply Hf, list_elem_of_In).
  apply (safe_reset_path_under _ _ (Hr p Hp)) in Hsafe. apply not_true_iff_false. intros Hu.
  apply under_file in Hu as [->|Hu]; [done | by rewrite Hu in Hsafe | done].
Qed.

Lemma check_boot_ok profile boot boot' :
  check_boot profile boot = Return boot' ->
  configuration_ok (bp_factory boot') /\ configuration_ok (bp_initial boot') /\ hostname_ok (bp_managed_hostname boot').
Proof.
  unfold check_boot. destruct (_ || _); [done|]. cbv zeta.
  destruct (validate (bp_factory _)) as [[]|e] eqn:H1; [|done]. cbn [mbind outcome_bind].
  destruct (validate (bp_initial _)) as [[]|e] eqn:H2; [|done]. cbn [mbind outcome_bind].
  destruct (check_interfaces profile (bp_factory _)) as [[]|e]; [|done]. cbn [mbind outcome_bind].
  destruct (check_interfaces profile (bp_initial _)) as [[]|e]; [|done]. intros [= <-]. cbn [bp_factory bp_initial bp_managed_hostname].
  apply validate_spec in H1, H2. split_and!; [done | done |]. apply H2.
Qed.

Section guarantees.
Context {H : Type} {HO : Host H} {JProfile : Json Profile} {JBoot : Json BootPreferences}.
Context (lstat : string -> string + file_stat).

(** The profile with other defaults and boot preferences that passed the checks. *)
Definition booted (profile profile' : Profile) : Prop :=
  exists boot, profile' = with_boot profile boot /\ configuration_ok (bp_factory boot) /\ configuration_ok (bp_initial boot) /\
    hostname_ok (bp_managed_hostname boot).

Lemma loadBootPreferences_booted profile file (h h' : H) profile' :
  loadBootPreferences lstat profile file h = (h', Return profile') -> booted profile profile'.
Proof.
  unfold loadBootPreferences, mbind, eff_bind, lift. destruct (check_trusted lstat file _ _ h) as [h1 [[]|e]]; [|done].
  destruct (readFile file 1048576 h1) as [h2 [text|e]]; [|done].
  destruct (decode max_message_size text) as [b0|e]; [|done].
  destruct (check_boot profile b0) as [b1|e] eqn:Hb; [|done]. intros [= _ <-].
  exists b1. split; [done|]. by eapply check_boot_ok.
Qed.

Lemma read_arguments_booted n arguments profile bootstrap (h h' : H) profile' b :
  (length arguments <= n)%nat -> read_arguments lstat profile bootstrap arguments h = (h', Return (profile', b)) ->
  (profile' = profile /\ "--boot-preferences" ∉ arguments) \/ booted profile profile'.
Proof.
  revert arguments profile bootstrap h. induction n as [|n IH]; intros [|a rest] profile bootstrap h Hn; cbn in Hn; try lia;
    cbn [read_arguments].
  1,2: intros [= _ <- _]; left; split; [done | apply not_elem_of_nil].
  case_bool_decide as Ha.
  - intros Hr. apply IH in Hr as [[-> Hnot]|Hb]; [left | by right | lia]. split; [done|]. subst a. set_solver.
  - destruct rest as [|file rest]; [done|]. case_bool_decide as Hf; [|done]. unfold mbind, eff_bind.
    destruct (loadBootPreferences lstat profile file h) as [h1 [p1|e]] eqn:Hl; [|done].
    apply loadBootPreferences_booted in Hl as (boot & -> & Hok). intros Hr. right. cbn in Hn.
    apply IH in Hr as [[-> _]|(boot' & -> & Hok')]; [by exists boot | by exists boot' | lia].
Qed.

(** C29: Loading establishes what the manager relies on: when the profile and the
    boot preferences pass the checks, the paths in it are plain, the journal
    itself is no reset path, the active settings are apart from the journal and
    its temporary files and the profile brings no boot preferences of its own, then every condition on the profile
    that the theorems about the manager assume holds. *)
Theorem loaded_profile_ok path arguments (h h' : H) profile bootstrap :
  load lstat path arguments h = (h', Return (profile, bootstrap)) ->
  plain (pf_state_directory profile) -> Forall plain (pf_reset_paths profile) ->
  state_path profile ∉ pf_reset_paths profile ->
  apart (state_path profile) (pf_active_settings profile) ->
  ("--boot-preferences" ∉ arguments -> pf_boot_preferences profile = None) ->
  ProfileOk profile.
Proof.
  unfold load, loadProfile, mbind, eff_bind, lift. intros Hl Hs Hr Hn Ha Hnone.
  destruct (check_trusted lstat path _ _ h) as [h1 [[]|e]]; [|done].
  destruct (readFile path 1048576 h1) as [h2 [text|e]]; [|done].
  destruct (decode max_message_size text) as [p0|e]; [|done].
  destruct (check_profile p0) as [[]|e] eqn:Hc; [|done]. cbn [mret eff_ret] in Hl.
  apply (read_arguments_booted (length arguments)) in Hl as [[-> Hnot]|(boot & -> & H1 & H2 & H3)]; [| |done].
  - destruct (check_profile_ok p0 Hc Hs Hr Hn) as [Hd Hreset]. specialize (Hnone Hnot).
    split; [done | intros ? Hb; by rewrite Hnone in Hb.. | done | done].
  - destruct (check_profile_ok p0 Hc Hs Hr Hn) as [_ Hreset].
    split; cbn [pf_defaults with_boot pf_boot_preferences]; [done | by intros ? [= <-].. | done | done].
Qed.

End guarantees.

(** ** Samples *)

Definition profile_json : Json Profile := {|
  write_json _ := Some "profile";
  read_json t := if t ==? "profile" then inr sample_profile else inl "syntax"
|}.

Definition boot_json : Json BootPreferences := {|
  write_json _ := Some "boot";
  read_json t := inl "syntax"
|}.

Definition root_owned (path : string) : string + file_stat := inr (mkStat true 0 420).   (* 0644 *)

Lemma loaded_profile_ok_witness : ProfileOk sample_profile /\ check_profile sample_profile = Return tt.
Proof.
  split; [|vm_compute; reflexivity].
  apply (loaded_profile_ok (JProfile := profile_json) (JBoot := boot_json) root_owned "/product/active.json" ["--bootstrap"]
    (sample_host "profile" [] []) (fst (load (JProfile := profile_json) (JBoot := boot_json) root_owned "/product/active.json" ["--bootstrap"]
      (sample_host "profile" [] []))) sample_profile true).
  - vm_compute; reflexivity.
  - split; vm_compute; reflexivity.
  - apply Forall_singleton. split; vm_compute; reflexivity.
  - intros Hx. cbn in Hx. apply list_elem_of_singleton in Hx. discriminate.
  - split; [discriminate | vm_compute; reflexivity].
  - intros _. reflexivity.
Defined.

(** The sample product with another reset path, its journal in /data/mnc. *)
Definition with_reset_path (path : string) : Profile :=
  let p := sample_profile in
  mkProfile (pf_settings_user p) (pf_control_user p) "/data/mnc" (pf_active_settings p) (pf_runtime_root p)
    (pf_runtime_etc_directory p) (pf_storage_status_file p) (pf_interfaces p) (pf_sensors p) (pf_defaults p) (pf_ssh_socket p)
    (pf_ssh_service p) (pf_ntp_units p) (pf_irig_units p) (pf_ptp_units p) (pf_ptp_unit_templates p) [path] (pf_boot_preferences p).

(** The guard of the reset paths does not see a trailing slash: a profile that
    resets /data, above the journal, or /etc is refused, and the same profile with
    /data/ or /etc/ is accepted, because [lexically_normal] keeps the slash; and so
    is one that resets the journal file itself. *)
Theorem reset_guard_gaps :
  check_profile (with_reset_path "/data") = throw_error invalid_argument "unsafe reset path in product profile" /\
  check_profile (with_reset_path "/etc") = throw_error invalid_argument "unsafe reset path in product profile" /\
  check_profile (with_reset_path "/data/") = Return tt /\
  check_profile (with_reset_path "/etc/") = Return tt /\
  check_profile (with_reset_path "/data/mnc/state.json") = Return tt.
Proof. vm_compute. split_and!; reflexivity. Qed.
