(* ===== verification/DaemonProcess.v ===== *)
(** * The process of the system manager (daemon/main.cpp, [Daemon] as a [Service], and [main])

    What the daemon adds to the life cycle of a service: the hooks, the worker
    thread that serves the bus beside the thread that waits for signals, and the
    main program. The flag that asks for a stop is one: the failing worker sets
    it, the loop of the service and the loop of the worker read it. Whether the
    bus can be opened and the name be had is a parameter, as is what arrives on
    the bus. *)

From S2P Require Import Prelude SystemTypes Effects Protocol AccessPolicy Logging Host Storage Backend BackendSpec BackendLogic BackendLifecycle.
From S2P Require Import Sample BackendProperties Daemon DaemonProperties Service ProfileLoading Bus Native.

(** The thread [worker_]: [Aborted] when an exception left it, which ends the
    process. *)
Inductive Thread := NoThread | Running | Ended | Aborted.

#[export] Instance Thread_eq_dec : EqDecision Thread.
Proof. solve_decision. Defined.

Record Manager (P H : Type) := mkManager {
  mn_daemon : Daemon P H;
  bus_ : bool;    (* not null *)
  slot_ : bool;   (* not null *)
  worker_ : Thread
}.
Arguments mkManager {P H}.
Arguments mn_daemon {P H}.
Arguments bus_ {P H}.
Arguments slot_ {P H}.
Arguments worker_ {P H}.

(** The methods of the table that [on_start] registers. *)
Definition methods : list string :=
  ["GetStatus"; "GetTime"; "ListTimezones"; "GetTimezoneCatalog"; "GetTemperatures"; "ApplyPreferences"; "BeginNetwork";
   "GetNetworkTransaction"; "PrepareNetworkCommit"; "FinishNetwork"; "Power"; "ResetDevice"; "GetJob"].

(** Which of the calls of [on_start] succeed. *)
Record Registration := mkRegistration {
  sd_bus_opens : bool;
  adds_vtable : list string -> bool;
  gets_name : bool
}.

Section process.
Context {P H : Type} {PL : Platform P H} {HO : Host H}.
Context {JState : Json State} {JEmpty : Json Empty} {JStatus : Json SystemStatus} {JTime : Json TimeStatus}
  {JZones : Json (list string)} {JCatalog : Json TimezoneCatalog} {JTemperatures : Json (list Temperature)}
  {JConfiguration : Json Configuration} {JProposal : Json NetworkProposal} {JTransaction : Json NetworkTransaction}
  {JId : Json Id} {JFinish : Json Finish} {JPower : Json Power} {JReset : Json Reset} {JJob : Json Job}
  {JReply : Json Reply}.
Context (sha256 : string -> option (list Z)) (read_status : string -> option StorageBootStatus).
Context (account : string -> option Z) (registration : Registration).
Context (profile_ : Profile).

Abbreviation worker := (Daemon.worker sha256 read_status account profile_).

(** ** The worker thread *)

(** One round of the worker: its loop ends when the flag is set, by it or by
    another thread. *)
Definition work_round (m : Manager P H) (round : BusRound) : Manager P H :=
  match worker_ m with
  | Running =>
      let '(d, r) := worker [(false, round)] (mn_daemon m) in
      mkManager d (bus_ m) (slot_ m)
        (match r with Throw _ => Aborted | Return _ => if stop_requested_ d then Ended else Running end)
  | _ => m
  end.

Definition work (rounds : list BusRound) (m : Manager P H) : Manager P H := fold_left work_round rounds m.

(** ** The hooks *)

(** The part of [on_start] behind [backend_.start()]. *)
Definition register (m : Manager P H) : Manager P H * outcome unit :=
  let d := mn_daemon m in
  if negb (sd_bus_opens registration) then (m, throw_error unavailable "cannot open system bus")
  else if negb (adds_vtable registration methods)
  then (mkManager d true (slot_ m) (worker_ m), throw_error unavailable "cannot register system manager")
  else if negb (gets_name registration)
  then (mkManager d true true (worker_ m), throw_error unavailable "cannot register system manager")
  else (mkManager d true true Running, Return tt).

Definition manager_on_start (m : Manager P H) : Manager P H * outcome unit :=
  let '(d, r) := on_backend (start sha256 profile_) (mn_daemon m) in
  let m := mkManager d (bus_ m) (slot_ m) (worker_ m) in
  match r with Throw e => (m, Throw e) | Return _ => register m end.

(** [on_stop], while the rounds [later] pass on the bus: [worker_.join()] returns
    when the worker has ended, and the rest follows; [false] while the worker
    still runs, or when the process was ended by an exception in it. *)
Definition manager_on_stop (later : list BusRound) (m : Manager P H) : Manager P H * bool :=
  let m := work later m in
  match worker_ m with
  | Running | Aborted => (m, false)
  | NoThread | Ended => (mkManager (mn_daemon m) false false NoThread, true)
  end.

(** [request_stop()] of the base class. *)
Definition manager_set_stop (m : Manager P H) : Manager P H :=
  mkManager (fst (Daemon.request_stop (mn_daemon m))) (bus_ m) (slot_ m) (worker_ m).

Definition manager_health (m : Manager P H) : outcome ServiceHealth :=
  let failed := failed_ (mn_daemon m) in
  Return (mkServiceHealth (negb failed) (if failed then "system worker failed" else "system manager ready")).

Definition manager_hooks (later : list BusRound) : Hooks (Manager P H) := {|
  stop_requested m := stop_requested_ (mn_daemon m);
  set_stop_requested := manager_set_stop;
  on_start := manager_on_start;
  on_reload m := (m, Return tt);
  on_stop := manager_on_stop later;
  health := manager_health
|}.

(** [Daemon::run]; [later] is what arrives on the bus while [on_stop] waits. *)
Definition run (masked : bool) (rounds : list (Round (Manager P H))) (later : list BusRound) : eff (Process (Manager P H)) (option Z) :=
  result ← execute (HK := manager_hooks later) "MNC system manager" masked rounds;
  failed ← gets (fun p => failed_ (mn_daemon (pc_state p)));
  mret (if (failed : bool) then (fun _ => 1) <$> result else result).

End process.

(** ** The main program *)
Section main_program.
Context {W : Type} {HO : Host W} {NO : Node W} (read_link : string -> option LinkInfo).
Context (tzdb : Z -> W -> string -> option (string * Z)).
Context {JProfile : Json Profile} {JBoot : Json BootPreferences}.
Context {JState : Json State} {JEmpty : Json Empty} {JStatus : Json SystemStatus} {JTime : Json TimeStatus}
  {JZones : Json (list string)} {JCatalog : Json TimezoneCatalog} {JTemperatures : Json (list Temperature)}
  {JConfiguration : Json Configuration} {JProposal : Json NetworkProposal} {JTransaction : Json NetworkTransaction}
  {JId : Json Id} {JFinish : Json Finish} {JPower : Json Power} {JReset : Json Reset} {JJob : Json Job}
  {JReply : Json Reply}.
Context (lstat : string -> string + file_stat).
Context (sha256 : string -> option (list Z)) (read_status : string -> option StorageBootStatus).
Context (account : string -> option Z) (registration : Registration).

(** [catch (const std::exception &e)]; another exception ends the process. *)
Definition exit_failed (e : exn) : outcome (option Z) :=
  match e with UnknownException => Throw e | _ => Return (Some 1) end.

Definition manager_of (b : Backend (list deed) W) : Manager (list deed) W := mkManager (mkDaemon b false false []) false false NoThread.

(** [nativePlatform(profile)]. *)
Definition native_of (profile : Profile) : Platform (list deed) W := NativePlatform.nativePlatform read_link profile tzdb.

(** [main]: the exit code, [None] while the daemon still runs. *)
Definition main (arguments : list string) (masked : bool) (rounds : list (Round (Manager (list deed) W))) (later : list BusRound) (h : W) :
    W * outcome (option Z) :=
  match load lstat "/usr/share/mnc/system/profile.json" arguments h with
  | (h, Throw e) => (h, exit_failed e)
  | (h, Return (profile, true)) =>
      let '(b, r) := boot_process (PL := native_of profile) sha256 read_status profile (blank [] h []) in
      (host_ b, match r with Return _ => Return (Some 0) | Throw e => exit_failed e end)
  | (h, Return (profile, false)) =>
      match construct profile (blank [] h []) with
      | (b, Throw e) => (host_ b, exit_failed e)
      | (b, Return _) =>
          let '(pr, r) := run (PL := native_of profile) sha256 read_status account registration
            profile masked rounds later (mkProcess (manager_of b) false false []) in
          (host_ (backend_ (mn_daemon (pc_state pr))), r)
      end
  end.

End main_program.

(** ** Properties *)

Section properties.
Context {P H : Type} {PL : Platform P H} {HO : Host H}.
Context {JState : Json State} {JEmpty : Json Empty} {JStatus : Json SystemStatus} {JTime : Json TimeStatus}
  {JZones : Json (list string)} {JCatalog : Json TimezoneCatalog} {JTemperatures : Json (list Temperature)}
  {JConfiguration : Json Configuration} {JProposal : Json NetworkProposal} {JTransaction : Json NetworkTransaction}
  {JId : Json Id} {JFinish : Json Finish} {JPower : Json Power} {JReset : Json Reset} {JJob : Json Job}
  {JReply : Json Reply}.
Context (sha256 : string -> option (list Z)) (read_status : string -> option StorageBootStatus).
Context (account : string -> option Z) (registration : Registration).
Context (profile_ : Profile).

Abbreviation dispatch := (Daemon.dispatch sha256 read_status account profile_).
Abbreviation work := (work sha256 read_status account profile_).
Abbreviation manager_on_start := (manager_on_start sha256 registration profile_).
Abbreviation manager_on_stop := (manager_on_stop sha256 read_status account profile_).
Abbreviation manager_hooks := (manager_hooks sha256 read_status account registration profile_).
Abbreviation run := (run sha256 read_status account registration profile_).
Abbreviation name_ := "MNC system manager".

(** The table of methods that the daemon registers, the policy and the
    dispatcher agree: a method is registered exactly when the policy lets some
    caller use it, root may use every one of them, and any other name is answered
    as unsupported without touching the manager. *)
Theorem methods_complete name :
  (name ∈ methods <-> exists uid settings control, allowed name uid settings control = true) /\
  (name ∈ methods -> forall settings control, allowed name 0 settings control = true) /\
  (name ∉ methods -> forall uid json b, dispatch name uid json b = (b, throw_error unsupported "unknown system operation")).
Proof.
  assert (Hroot : name ∈ methods -> forall settings control, allowed name 0 settings control = true).
  { intros Hin settings control. apply list_elem_of_In in Hin. cbn in Hin. destruct_or? Hin; subst; done. }
  split_and!; [|exact Hroot|].
  - split; [intros Hin; exists 0, None, None; by apply Hroot|]. intros (uid & settings & control & Ha).
    unfold allowed, settingsOperation, controlOperation in Ha.
    repeat (case_bool_decide as Hn; [subst; apply list_elem_of_In; cbn; tauto | clear Hn]). done.
  - intros Hout uid json b. unfold Daemon.dispatch.
    repeat (case_bool_decide as Hn; [exfalso; apply Hout; subst; apply list_elem_of_In; cbn; tauto | clear Hn]). done.
Qed.

(** *** The flags *)

Abbreviation work_round := (work_round sha256 read_status account profile_).

(** The flags of the daemon, which only the end of the worker sets. *)
Definition same_flags (d d' : Daemon P H) : Prop := stop_requested_ d' = stop_requested_ d /\ failed_ d' = failed_ d.

#[local] Instance same_flags_preorder : PreOrder same_flags.
Proof. split; [done|]. intros d1 d2 d3 [] []. split; congruence. Qed.

Lemma flags_on_backend {A} (m : eff (Backend P H) A) : within same_flags (on_backend m).
Proof. intros d. unfold on_backend. by destruct (m (backend_ d)). Qed.

Lemma flags_write_log priority message event fields source :
  within same_flags (write_log (P := P) (H := H) priority message event fields source).
Proof. by intros d. Qed.

#[local] Hint Resolve flags_on_backend flags_write_log : within.

Lemma flags_worker_loop round :
  within same_flags (worker_loop sha256 read_status account profile_ [(false, round)]).
Proof. cbn [worker_loop when]. unfold request. within_auto. Qed.

(** A thread that serves, one that failed and said so, and a dead process. *)
Definition sound_thread (m : Manager P H) : Prop :=
  match worker_ m with
  | Running | Aborted => stop_requested_ (mn_daemon m) = false /\ failed_ (mn_daemon m) = false
  | Ended => stop_requested_ (mn_daemon m) = true /\ failed_ (mn_daemon m) = true
  | NoThread => False
  end.

(** A worker that nobody asked to stop goes on, or fails and asks for a stop. *)
Lemma work_round_sound m round : sound_thread m -> sound_thread (work_round m round).
Proof.
  intros Hm. unfold DaemonProcess.work_round. destruct (worker_ m) eqn:Hw; try done.
  unfold sound_thread in Hm. rewrite Hw in Hm. destruct Hm as [Hs Hf]. unfold Daemon.worker, try_catch.
  pose proof (flags_worker_loop round (mn_daemon m)) as [Hstop Hfail].
  destruct (worker_loop _ _ _ _ _ _) as [d [u|e]]; cbn [fst] in Hstop, Hfail; rewrite Hs in Hstop; rewrite Hf in Hfail.
  - rewrite Hstop. done.
  - unfold sound_thread. by destruct e; cbn.
Qed.

Lemma work_sound rounds m : sound_thread m -> sound_thread (work rounds m).
Proof.
  revert m. induction rounds as [|r rounds IH]; intros m Hm; [done|].
  change (sound_thread (work rounds (work_round m r))). by apply IH, work_round_sound.
Qed.

Lemma work_ended rounds m : worker_ m <> Running -> work rounds m = m.
Proof.
  intros Hm. induction rounds as [|r rounds IH]; cbn; [done|]. unfold DaemonProcess.work_round at 2. by destruct (worker_ m).
Qed.

Lemma sound_failed m : sound_thread m -> failed_ (mn_daemon m) = true -> worker_ m = Ended /\ stop_requested_ (mn_daemon m) = true.
Proof. unfold sound_thread. destruct (worker_ m); intuition congruence. Qed.

Lemma sound_unfailed m : sound_thread m -> failed_ (mn_daemon m) = false -> stop_requested_ (mn_daemon m) = false.
Proof. unfold sound_thread. destruct (worker_ m); intuition congruence. Qed.

(** *** The process *)

(** What happens in one round of the process: rounds of the bus before the flag
    is read, rounds of the bus during the wait, and the end of the wait. *)
Record Turn := mkTurn { tn_before : list BusRound; tn_during : list BusRound; tn_reload : bool; tn_signal : Signal }.

Definition turn (t : Turn) : Round (Manager P H) := mkRound (work (tn_before t)) (work (tn_during t)) (tn_reload t) (tn_signal t).

(** What the worker made of the state by then. *)
Definition advance (m : Manager P H) (t : Turn) : Manager P H := work (tn_during t) (work (tn_before t) m).

(** Nobody asks for a stop. *)
Definition unasked (t : Turn) : Prop := tn_signal t = NoSignal \/ tn_signal t = SIGHUP.

Lemma advance_sound m t : sound_thread m -> sound_thread (advance m t).
Proof. intros Hm. by apply work_sound, work_sound. Qed.

(** A failed worker does nothing more. *)
Lemma advance_ended m t : worker_ m = Ended -> advance m t = m.
Proof. intros Hm. unfold advance. by rewrite !work_ended by (rewrite ?work_ended; by rewrite Hm). Qed.

Lemma fold_ended m turns : worker_ m = Ended -> fold_left advance turns m = m.
Proof. intros Hm. induction turns as [|t turns IH]; cbn; [done|]. by rewrite (advance_ended m t Hm). Qed.

Lemma fold_sound turns m : sound_thread m -> sound_thread (fold_left advance turns m).
Proof. revert m. induction turns as [|t turns IH]; intros m Hm; cbn; [done|]. by apply IH, advance_sound. Qed.

#[local] Arguments DaemonProcess.work : simpl never.

(** A worker that runs at the end of a round has not failed in it or before. *)
Lemma running_unfailed t m :
  sound_thread m -> worker_ (advance m t) = Running ->
  stop_requested_ (mn_daemon (work (tn_before t) m)) = false /\ failed_ (mn_daemon m) = false.
Proof.
  intros Hm Hw. split.
  - apply sound_unfailed; [by apply work_sound|]. destruct (failed_ (mn_daemon (work (tn_before t) m))) eqn:E; [|done].
    destruct (sound_failed _ (work_sound _ _ Hm) E) as [Hend _]. unfold advance in Hw.
    rewrite (work_ended (tn_during t)) in Hw by (by rewrite Hend). congruence.
  - destruct (failed_ (mn_daemon m)) eqn:E; [|done]. destruct (sound_failed _ Hm E) as [Hend _].
    rewrite (advance_ended _ t Hend) in Hw. congruence.
Qed.

(** A worker that serves ends when it looks at the flag. *)
Lemma set_stop_ends m round later :
  worker_ m = Running -> snd (manager_on_stop (round :: later) (manager_set_stop m)) = true.
Proof.
  intros Hw. unfold DaemonProcess.manager_on_stop.
  change (work (round :: later) (manager_set_stop m)) with (work later (work_round (manager_set_stop m) round)).
  assert (Hr : worker_ (work_round (manager_set_stop m) round) = Ended).
  { unfold DaemonProcess.work_round. cbn [worker_ manager_set_stop]. rewrite Hw.
    unfold Daemon.worker, try_catch, worker_loop, mbind, eff_bind, gets. done. }
  rewrite work_ended by (by rewrite Hr). cbv zeta. by rewrite Hr.
Qed.

Section hooks.
Context (later : list BusRound).
#[local] Instance hooks : Hooks (Manager P H) := manager_hooks later.

(** The process after [m], with the started worker. *)
Definition in_service (m : Manager P H) (p : Process (Manager P H)) : Prop :=
  pc_state p = m /\ pc_started p = true.

(** A round with a worker that does not fail in it goes on. *)
Lemma unasked_turn t rest code m p :
  unasked t -> in_service m p -> sound_thread m -> failed_ (mn_daemon (advance m t)) = false ->
  exists p1, in_service (advance m t) p1 /\ service_loop name_ (turn t :: rest) code p = service_loop name_ rest code p1.
Proof.
  intros Hq [Hp Hst] Hm Hf.
  assert (Hb : stop_requested_ (mn_daemon (work (tn_before t) m)) = false).
  { apply sound_unfailed; [by apply work_sound|]. destruct (failed_ (mn_daemon (work (tn_before t) m))) eqn:E; [|done].
    destruct (sound_failed _ (work_sound _ _ Hm) E) as [Hw _]. unfold advance in Hf.
    rewrite (work_ended (tn_during t)) in Hf by (by rewrite Hw). congruence. }
  unfold advance in Hf. unfold unasked in Hq. cbn [service_loop]. unfold read_stop, mbind, eff_bind, set_state, modify, gets. cbn. rewrite Hp, Hb.
  unfold listen, mbind, eff_bind, set_state, modify, when, request_reload. destruct t as [fb fd rl sg]. cbn in *.
  destruct rl; destruct Hq as [-> | ->]; cbn;
    unfold look_after, take_reload, read_health, run_hook, deed_done, modify, when, mbind, eff_bind; cbn;
    try destruct (reload_requested_ p); cbn; unfold manager_health; rewrite Hf; cbn;
    eexists (mkProcess _ _ _ _); (split; [|reflexivity]); (split; [reflexivity | exact Hst]).
Qed.

Lemma loop_stopped rounds code m p :
  in_service m p -> sound_thread m -> worker_ m = Ended ->
  exists p', in_service m p' /\ service_loop name_ (map turn rounds) code p = (p', Return (Some code)).
Proof.
  intros [Hp Hst] Hm Hw. assert (Hs : stop_requested_ (mn_daemon m) = true) by (unfold sound_thread in Hm; rewrite Hw in Hm; apply Hm).
  destruct rounds as [|t rest]; cbn; unfold read_stop, mbind, eff_bind, gets, set_state, modify, mret, eff_ret; cbn; rewrite Hp.
  - rewrite Hs. by exists p.
  - rewrite work_ended by (by rewrite Hw). rewrite Hs. eexists (mkProcess _ _ _ _). split; [|reflexivity]. by split.
Qed.

(** The worker fails in this round: either the flag is seen at once, or the
    health check sees the failure and the flag is seen then. *)
Lemma failing_turn t rest code m p :
  unasked t -> in_service m p -> sound_thread m -> failed_ (mn_daemon m) = false -> failed_ (mn_daemon (advance m t)) = true ->
  exists p' code', in_service (advance m t) p' /\ service_loop name_ (map turn (t :: rest)) code p = (p', Return (Some code')).
Proof.
  intros Hq [Hp Hst] Hm Hf Hfail. pose proof (work_sound (tn_before t) m Hm) as Hm1.
  destruct (failed_ (mn_daemon (work (tn_before t) m))) eqn:E.
  - destruct (sound_failed _ Hm1 E) as [Hw Hs]. unfold advance. rewrite (work_ended (tn_during t)) by (by rewrite Hw).
    cbn. unfold read_stop, mbind, eff_bind, set_state, modify, gets. cbn. rewrite Hp, Hs.
    eexists (mkProcess _ _ _ _), code. split; [|reflexivity]. by split.
  - pose proof (sound_unfailed _ Hm1 E) as Hs. destruct (sound_failed _ (advance_sound m t Hm) Hfail) as [Hw Hs2].
    pose proof (advance_sound m t Hm) as Hm2.
    cbn [map service_loop]. unfold read_stop at 1, mbind at 1 2, eff_bind at 1 2, set_state at 1, modify at 1, gets at 1. cbn -[listen look_after service_loop].
    rewrite Hp, Hs. unfold advance in *. destruct t as [fb fd rl sg]. cbn -[listen look_after service_loop] in *.
    assert (Hgo : forall p0 : Process (Manager P H), in_service (work fb m) p0 ->
      exists p1, in_service (work fd (work fb m)) p1 /\
        (_ ← listen (turn (mkTurn fb fd rl sg)); failed ← look_after name_;
         service_loop name_ (map turn rest) (if (failed : bool) then 1 else code)) p0 = service_loop name_ (map turn rest) 1 p1).
    { intros p0 [Hp0 Hst0]. unfold listen, mbind, eff_bind, set_state, modify, when, request_reload. cbn -[service_loop]. rewrite Hp0.
      assert (Hset : manager_set_stop (work fd (work fb m)) = work fd (work fb m)).
      { unfold manager_set_stop. destruct (work fd (work fb m)) as [[b fl st lg] bu sl wk]. cbn in Hs2 |- *. by rewrite Hs2. }
      destruct rl; destruct Hq as [Hsig|Hsig]; cbn in Hsig; subst sg; cbn -[service_loop];
        unfold look_after, take_reload, read_health, run_hook, deed_done, modify, when, mbind, eff_bind, request_stop, set_state, modify;
        cbn -[service_loop]; try destruct (reload_requested_ p0); cbn -[service_loop]; unfold manager_health; rewrite Hfail; cbn -[service_loop];
        rewrite Hset; eexists (mkProcess _ _ _ _); (split; [|reflexivity]); (split; [reflexivity | exact Hst0]). }
    destruct (Hgo (mkProcess (work fb m) (reload_requested_ p) (pc_started p) (pc_deeds p)) (conj eq_refl Hst)) as (p1 & Hp1 & Heq).
    destruct (loop_stopped rest 1 (work fd (work fb m)) p1 Hp1 Hm2 Hw) as (p' & Hp' & Hl).
    exists p', 1. split; [exact Hp'|]. rewrite <- Hl, <- Heq. reflexivity.
Qed.

Lemma loop_detects pre post code m p :
  Forall unasked pre -> in_service m p -> sound_thread m -> failed_ (mn_daemon m) = false ->
  failed_ (mn_daemon (fold_left advance pre m)) = true ->
  exists p' m' code', in_service m' p' /\ worker_ m' = Ended /\ failed_ (mn_daemon m') = true /\
    service_loop name_ (map turn (pre ++ post)) code p = (p', Return (Some code')).
Proof.
  intros Hpre. revert m p. induction Hpre as [|t pre Ht _ IH]; intros m p Hp Hm Hf Hfail; cbn [fold_left] in Hfail; [congruence|].
  destruct (failed_ (mn_daemon (advance m t))) eqn:E.
  - destruct (failing_turn t (pre ++ post) code m p Ht Hp Hm Hf E) as (p' & code' & Hp' & Hl).
    exists p', (advance m t), code'. split_and!; [done | by apply (sound_failed _ (advance_sound m t Hm)) | done | exact Hl].
  - cbn [app map]. destruct (unasked_turn t (map turn (pre ++ post)) code m p Ht Hp Hm E) as (p1 & Hp1 & ->).
    apply (IH (advance m t)); [done | by apply advance_sound | done | done].
Qed.

(** Rounds in which the worker does not fail. *)
Lemma loop_goes_on pre rest m p :
  Forall unasked pre -> in_service m p -> sound_thread m -> failed_ (mn_daemon (fold_left advance pre m)) = false ->
  exists p1, in_service (fold_left advance pre m) p1 /\
    service_loop name_ (map turn pre ++ rest) 0 p = service_loop name_ rest 0 p1.
Proof.
  intros Hpre. revert m p. induction Hpre as [|t pre Ht _ IH]; intros m p Hp Hm Hf; cbn [fold_left map app] in *; [by exists p|].
  assert (E : failed_ (mn_daemon (advance m t)) = false).
  { destruct (failed_ (mn_daemon (advance m t))) eqn:E; [|done].
    destruct (sound_failed _ (advance_sound m t Hm) E) as [Hw _]. rewrite (fold_ended (advance m t) pre Hw) in Hf. congruence. }
  destruct (unasked_turn t (map turn pre ++ rest) 0 m p Ht Hp Hm E) as (p1 & Hp1 & ->).
  apply IH; [done | by apply advance_sound | done].
Qed.

(** The process up to the loop. *)
Lemma begin_ready m m0 :
  manager_on_start m = (m0, Return tt) ->
  exists p1, in_service m0 p1 /\ begin_service name_ (mkProcess m false false []) = (p1, Return tt).
Proof.
  intros Hm. unfold begin_service, mbind, eff_bind, run_hook, set_started, deed_done, modify, read_health. cbn. rewrite Hm. cbn.
  eexists (mkProcess _ _ _ _). split; [|reflexivity]. by split.
Qed.

(** How [execute] ends, from the state that the loop leaves. *)
Lemma finish_started m p :
  in_service m p ->
  exists p', finish name_ p = (p', Return (snd (manager_on_stop later m))) /\ pc_state p' = fst (manager_on_stop later m) /\
    (snd (manager_on_stop later m) = false -> pc_deeds p' = pc_deeds p ++ [stopping name_]).
Proof.
  intros [Hp Hst]. unfold finish, stop_hook, call_on_stop, mbind, eff_bind, deed_done, modify, gets, when. cbn. rewrite Hst, Hp. cbn.
  destruct (manager_on_stop later m) as [m' []]; cbn; eexists (mkProcess _ _ _ _); (split; [reflexivity|]); (split; [reflexivity|]).
  - done.
  - intros _. cbn. by rewrite app_nil_r.
Qed.

End hooks.

(** [on_start] leaves the flags of the object and starts the worker. *)
Lemma on_start_sound m m0 :
  manager_on_start m = (m0, Return tt) -> stop_requested_ (mn_daemon m) = false -> failed_ (mn_daemon m) = false ->
  sound_thread m0 /\ failed_ (mn_daemon m0) = false.
Proof.
  intros Hm Hs Hf. unfold DaemonProcess.manager_on_start in Hm.
  pose proof (flags_on_backend (start sha256 profile_) (mn_daemon m)) as [H1 H2].
  destruct (on_backend _ (mn_daemon m)) as [d [u|e]]; [|done]. cbn in H1, H2. unfold register in Hm.
  destruct (negb (sd_bus_opens registration)); [done|]. destruct (negb (adds_vtable _ _)); [done|].
  destruct (negb (gets_name registration)); [done|]. injection Hm as <-. cbn. split; [split|]; cbn; congruence.
Qed.

(** C24: A worker that fails ends the process: the daemon has started, no signal
    asks for a stop, and after some rounds the worker has failed. Then [run]
    returns with exit code 1, whatever happens in later rounds: the failed worker
    sets the flag by which the loop ends, either before the health check has seen
    the failure, when [run] turns the exit code 0 into 1, or after it; and
    [on_stop] returns, since the worker has ended. *)
Theorem failed_worker_exits pre post later m m0 :
  manager_on_start m = (m0, Return tt) -> stop_requested_ (mn_daemon m) = false -> failed_ (mn_daemon m) = false ->
  Forall unasked pre -> failed_ (mn_daemon (fold_left advance pre m0)) = true ->
  snd (run true (map turn (pre ++ post)) later (mkProcess m false false [])) = Return (Some 1).
Proof.
  intros Hm Hs Hf Hpre Hfail. destruct (on_start_sound m m0 Hm Hs Hf) as [Hm0 Hf0].
  unfold DaemonProcess.run, mbind, eff_bind. unfold execute. cbn [negb]. unfold mbind, eff_bind, set_started at 1, modify.
  cbn [pc_state reload_requested_ pc_started pc_deeds]. unfold try_catch, mbind, eff_bind.
  destruct (begin_ready later m m0 Hm) as (p1 & Hp1 & Hb). unfold hooks in Hb. rewrite Hb.
  destruct (loop_detects later pre post 0 m0 p1 Hpre Hp1 Hm0 Hf0 Hfail) as (p2 & m2 & code & Hp2 & Hw2 & Hf2 & Hl).
  unfold hooks in Hl. rewrite Hl.
  destruct (finish_started later m2 p2 Hp2) as (p3 & Hfin & Hp3 & _). unfold hooks in Hfin. rewrite Hfin.
  unfold DaemonProcess.manager_on_stop in *. rewrite work_ended in * by (by rewrite Hw2). rewrite Hw2 in *. cbn in *.
  unfold mret, eff_ret, gets. cbn. rewrite Hp3. cbn. by rewrite Hf2.
Qed.

(** *** A wait for signals that fails *)

(** C38: When the wait for signals fails while the worker serves, [execute] leaves
    the loop without having requested a stop, and calls [on_stop], which joins a
    worker that no one told to end. Whatever arrives on the bus from then on
    ([later]), [execute] returns, with 1, exactly when the worker fails too; until
    then it hangs there, with the flag still clear and systemd told that the
    service is stopping. Had the flag been set, [on_stop] would return as soon as
    the worker looks at it. *)
Theorem failed_wait_blocks pre t post m m0 text :
  manager_on_start m = (m0, Return tt) -> stop_requested_ (mn_daemon m) = false -> failed_ (mn_daemon m) = false ->
  Forall unasked pre -> tn_signal t = WaitFails text ->
  let m1 := advance (fold_left advance pre m0) t in
  worker_ m1 = Running ->
  (forall later,
     let '(p', r) := execute (HK := manager_hooks later) name_ true (map turn (pre ++ t :: post)) (mkProcess m false false []) in
     (r = Return (Some 1) <-> failed_ (mn_daemon (work later m1)) = true) /\
     (r = Return (Some 1) \/
      r = Return None /\ stop_requested_ (mn_daemon (pc_state p')) = false /\
        exists l, pc_deeds p' = l ++ [failure_log name_ (StdException ("sigtimedwait failed: " +:+ text)); stopping name_])) /\
  (forall round later, snd (manager_on_stop (round :: later) (manager_set_stop m1)) = true).
Proof.
  intros Hm Hs Hf Hpre Hsig m1 Hw. destruct (on_start_sound m m0 Hm Hs Hf) as [Hm0 Hf0].
  pose proof (fold_sound pre m0 Hm0) as Hsound. assert (Hm1 : sound_thread m1) by (by apply advance_sound).
  destruct (running_unfailed t _ Hsound Hw) as [Hb Hf1]. split; [|intros round later; by apply set_stop_ends].
  - intros later. unfold execute. cbn [negb]. unfold mbind, eff_bind, set_started at 1, modify.
    cbn [pc_state reload_requested_ pc_started pc_deeds]. unfold try_catch, mbind, eff_bind.
    destruct (begin_ready later m m0 Hm) as (p1 & Hp1 & Hbegin). unfold hooks in Hbegin. rewrite Hbegin. clear Hbegin. rewrite map_app.
    destruct (loop_goes_on later pre (map turn (t :: post)) m0 p1 Hpre Hp1 Hm0 Hf1) as (p2 & [Hp2 Hst2] & Hl). unfold hooks in Hl. rewrite Hl.
    assert (Hloop : exists p3, service_loop (HK := manager_hooks later) name_ (map turn (t :: post)) 0 p2 =
        (p3, Throw (StdException ("sigtimedwait failed: " +:+ text))) /\ in_service m1 p3).
    { cbn [map service_loop]. unfold read_stop, listen, mbind, eff_bind, set_state, modify, when, gets, throw, request_reload. cbn.
      rewrite Hp2, Hb, Hsig. cbn. destruct (tn_reload t); cbn; eexists (mkProcess _ _ _ _); (split; [reflexivity|]); by split. }
    destruct Hloop as (p3 & -> & [Hp3 Hst3]). unfold failed_with, mbind, eff_bind, deed_done at 1, modify. cbn -[finish].
    set (p4 := mkProcess _ _ _ _). destruct (finish_started later m1 p4 (conj Hp3 Hst3)) as (p5 & Hfin & Hp5 & Hd5). unfold hooks in Hfin. rewrite Hfin.
    pose proof (work_sound later m1 Hm1) as Hm2. unfold DaemonProcess.manager_on_stop in Hp5, Hd5 |- *. cbv zeta in Hp5, Hd5 |- *.
    set (m2 := work later m1) in *. clearbody m2. unfold sound_thread in Hm2.
    destruct (worker_ m2); cbn in Hp5, Hd5 |- *; [done | | |]; destruct Hm2 as [Hs2 Hf2]; rewrite Hf2; (split; [done|]).
    all: try (by left). all: right; rewrite Hp5; (split_and!; [done | done|]).
    all: eexists; rewrite (Hd5 eq_refl); unfold p4; cbn; rewrite <- app_assoc; reflexivity.
Qed.

End properties.

(** ** The process of the sample device *)

Definition sample_registration : Registration := mkRegistration true (fun _ => true) true.

Definition sample_manager : Manager Fake Machine :=
  mkManager (sample_daemon (BackendProperties.later "previous" [2; 3; 4; 5; 6; 7; 8; 9] running)) false false NoThread.

Definition sample_on_start : Manager Fake Machine -> Manager Fake Machine * outcome unit :=
  manager_on_start sample_digest sample_registration sample_profile.

Lemma sample_starts : sample_on_start sample_manager = (fst (sample_on_start sample_manager), Return tt).
Proof.
  assert (Hr : snd (sample_on_start sample_manager) = Return tt) by by_computation.
  rewrite <- Hr. apply surjective_pairing.
Qed.

(** The bus is lost in the second round, before the flag is read. *)
Definition bus_lost : list Turn := [mkTurn [] [Quiet] false SIGHUP; mkTurn [Disconnected] [] false NoSignal].

Definition sample_advance : Manager Fake Machine -> Turn -> Manager Fake Machine :=
  advance sample_digest no_status sample_account sample_profile.

Lemma failed_worker_exits_witness :
  let start := mkProcess sample_manager false false [] in
  let rounds := map (turn sample_digest no_status sample_account sample_profile) (bus_lost ++ []) in
  snd (run sample_digest no_status sample_account sample_registration sample_profile true rounds [Quiet] start) = Return (Some 1) /\
  snd (execute (HK := manager_hooks sample_digest no_status sample_account sample_registration sample_profile [Quiet])
    "MNC system manager" true rounds start) = Return (Some 0).
Proof.
  cbv zeta. split; [|by_computation].
  apply (failed_worker_exits sample_digest no_status sample_account sample_registration sample_profile bus_lost [] [Quiet]
    sample_manager (fst (sample_on_start sample_manager)) sample_starts).
  - reflexivity.
  - reflexivity.
  - repeat constructor; by_computation.
  - by_computation.
Defined.

Definition wait_lost : Turn := mkTurn [] [Quiet] false (WaitFails "Invalid argument").

Lemma failed_wait_blocks_witness :
  snd (execute (HK := manager_hooks sample_digest no_status sample_account sample_registration sample_profile [Quiet])
    "MNC system manager" true (map (turn sample_digest no_status sample_account sample_profile) ([] ++ [wait_lost]))
    (mkProcess sample_manager false false [])) = Return None.
Proof.
  assert (Hw : worker_ (sample_advance (fst (sample_on_start sample_manager)) wait_lost) = Running) by by_computation.
  destruct (failed_wait_blocks sample_digest no_status sample_account sample_registration sample_profile
    [] wait_lost [] sample_manager (fst (sample_on_start sample_manager)) "Invalid argument" sample_starts eq_refl eq_refl
    ltac:(constructor) eq_refl Hw) as [H _].
  specialize (H [Quiet]).
  assert (Hf : failed_ (mn_daemon (work sample_digest no_status sample_account sample_profile [Quiet]
    (sample_advance (fst (sample_on_start sample_manager)) wait_lost))) = false) by by_computation.
  destruct (execute _ _ _ _) as [p' r]. destruct H as [Hiff [Hr|[Hr _]]]; [|exact Hr].
  apply Hiff in Hr. unfold sample_advance in Hf. cbn [fold_left] in Hr. rewrite Hf in Hr. discriminate Hr.
Defined.
