(* ===== verification/DeviceBoot.v ===== *)
(** * Boot of a device (main with --bootstrap on the native platform)

    When the boot of the manager on the native platform returns, the network
    files that networkd is about to read are those of the configuration that the
    manager is in, whichever way the boot took: reset, recovery of a transaction,
    plain restart or first boot. *)

From stdpp Require Import sorting.
From S2P Require Import Prelude AccessPolicy Daemon DaemonProperties Service ProfileLoading DaemonProcess.
From S2P Require Import SystemTypes Validation Effects Protocol Logging Host Storage Backend BackendSpec BackendLogic.
From S2P Require Import BackendRefinement BackendLifecycle Sample BackendProperties Clock NetworkFile Timestamp Bus Native.
From S2P Require Import NativeProperties NativeQueries NativeIsolation NativeSample System.
Import NativePlatform.

(** ** Paths *)

(** The manager and the boot policies write no network file. *)
Definition clear_paths (own : string -> Prop) (profile : Profile) : Prop :=
  forall policy, policy ∈ pf_interfaces profile ->
    let q := network_file (ip_name policy) in
    own q /\ has_substring ".network" (ip_name policy) = false /\
    apart (state_path profile) q /\ apart (hostname_file profile) q /\
    apart (path_append (pf_runtime_etc_directory profile) "localtime") q /\
    clear_of (path_append (pf_runtime_root profile) "system/ssh-disabled") q /\
    (forall mode, mode ∈ modes -> clear_of (marker "/run" profile mode) q).

(** The drop-in of a port is beside the network files. *)
Lemma port_file_clear i name : has_substring ".network" i = false -> clear_of (port_file "/run" name) (network_file i).
Proof.
  intros Hi. apply not_true_iff_false in Hi.
  assert (Hport : forall rest, port_file "/run" name +:+ rest <> network_file i).
  { intros rest He. apply Hi.
    enough (exists tail, i +:+ ".network" = name +:+ ".network." +:+ tail) as [tail Ht] by (by eapply dot_network_inside).
    rewrite network_file_eq in He. unfold port_file in He.
    change (path_append (path_append "/run" "systemd/network") ("10-mnc-" +:+ name +:+ ".network.d"))
      with ("/run/systemd/network/10-mnc-" +:+ name +:+ ".network.d") in He.
    unfold path_append in He. destruct (_ || _); rewrite !str_app_assoc in He; apply str_app_inj_l in He;
      [exists ("d" +:+ "50-mnc-time.conf" +:+ rest) | exists ("d" +:+ "/50-mnc-time.conf" +:+ rest)]; by rewrite <- He. }
  assert (Hne : forall rest, starts_with (port_file "/run" name +:+ rest) (network_file i) = false).
  { intros rest. apply not_true_is_false. intros [t Ht]%starts_with_spec. rewrite str_app_assoc in Ht. by eapply Hport. }
  assert (Hn : network_file i <> port_file "/run" name) by (intros He; apply (Hport ""); by rewrite str_app_nil_r).
  split; [split; [done | apply Hne]|]. unfold under. rewrite Hne, orb_false_r. by apply bool_decide_eq_false.
Qed.

Lemma timesync_clear i : clear_of timesync_file (network_file i).
Proof. rewrite network_file_eq. split; [split|]; [discriminate | reflexivity | reflexivity]. Qed.

Section boot.
Context {W : Type} {HO : Host W} {HL : HostLaws W} {NO : Node W} {own : string -> Prop} {NL : NodeLaws W own}.
Context {JS : Json State} {JL : JsonLaws State}.
Context (sha256 : string -> option (list Z)) (read_status : string -> option StorageBootStatus).
Context (read_link : string -> option LinkInfo) (tzdb : Z -> W -> string -> option (string * Z)).
Context (profile_ : Profile) (Hclear : clear_paths own profile_).

#[local] Instance boot_device : Platform (list deed) W := nativePlatform read_link profile_ tzdb.

Abbreviation BE := (Backend (list deed) W).

(** The network [n] names managed interfaces only, and their files are its own. *)
Definition managed_network (n : list NetworkConfig) : Prop :=
  forall c, c ∈ n -> exists p, p ∈ pf_interfaces profile_ /\ ip_name p = nc_interface c.

Definition on_disk (n : list NetworkConfig) (w : W) : Prop :=
  forall c, c ∈ n -> file w (network_file (nc_interface c)) = Some (render_text c (existsb nc_preferred_default n)).

(** ** Work that leaves the network files alone *)

Definition same_networks (b b' : BE) : Prop :=
  forall p, p ∈ pf_interfaces profile_ -> file (host_ b') (network_file (ip_name p)) = file (host_ b) (network_file (ip_name p)).

#[local] Instance same_networks_preorder : PreOrder same_networks.
Proof. split; [by intros b p|]. intros b1 b2 b3 H1 H2 p Hp. by rewrite H2, H1. Qed.

Lemma same_networks_on_disk n b b' : managed_network n -> same_networks b b' -> on_disk n (host_ b) -> on_disk n (host_ b').
Proof. intros Hm Hs Hd c Hc. destruct (Hm c Hc) as (p & Hp & Hn). rewrite <- Hn, (Hs p Hp), Hn. by apply Hd. Qed.

Lemma same_modify (f : BE -> BE) : (forall b, host_ (f b) = host_ b) -> within same_networks (modify f).
Proof. intros Hf b p Hp. cbn. by rewrite Hf. Qed.

Lemma same_host {A} (f : W -> W * outcome A) :
  (forall p w, p ∈ pf_interfaces profile_ -> file (fst (f w)) (network_file (ip_name p)) = file w (network_file (ip_name p))) ->
  within same_networks (host f).
Proof. intros Hf b p Hp. unfold host. specialize (Hf p (host_ b) Hp). by destruct (f (host_ b)). Qed.

Lemma same_ask {A} (m : eff (Native W) A) :
  (forall p, p ∈ pf_interfaces profile_ -> within (keeps (network_file (ip_name p))) m) -> within same_networks (ask (on_world m)).
Proof.
  intros Hm b p Hp. unfold ask, on_world. cbn [fst snd]. specialize (Hm p Hp (mkNative (host_ b) (platform_ b))).
  by destruct (m (mkNative (host_ b) (platform_ b))) as [s r].
Qed.

#[local] Hint Extern 1 (within same_networks (modify _)) => apply same_modify; by intros b : within.

Lemma same_noting e (m : eff BE unit) : within same_networks m -> within same_networks (noting e m).
Proof. intros Hm. unfold noting, note. within_auto. Qed.

Lemma same_persist : within same_networks (persist profile_).
Proof.
  assert (Hw : forall text, within same_networks (host (atomicWrite (state_path profile_) text))).
  { intros text. apply same_host. intros p w Hp. apply atomicWrite_frame. by apply (Hclear p Hp). }
  pose proof same_noting. unfold persist, get, set_storage_failed. within_auto.
Qed.

Lemma same_bootHostname h : within same_networks (Backend.bootHostname h).
Proof.
  apply same_noting, same_ask. intros p Hp. apply (bootHostname_keeps (own := own)). by apply (Hclear p Hp).
Qed.

Lemma same_sshBootPolicy enabled : within same_networks (Backend.sshBootPolicy enabled).
Proof. apply same_noting, same_ask. intros p Hp. apply (sshBootPolicy_keeps (W := W)). by apply (Hclear p Hp). Qed.

Lemma same_clockBootPolicy t : within same_networks (Backend.clockBootPolicy t).
Proof.
  apply same_noting, same_ask. intros p Hp. destruct (Hclear p Hp) as (_ & Hplain & _ & _ & Hlocal & _ & Hmark).
  apply (clockBootPolicy_keeps (own := own)); [done|].
  split; [done|]. split; [apply timesync_clear | intros name; by apply port_file_clear].
Qed.

#[local] Hint Resolve same_persist same_bootHostname same_sshBootPolicy same_clockBootPolicy : within.

(** ** The network at boot *)

Lemma wp_network_managed n (s : Native W) :
  wp (network profile_ n true) (fun _ _ => managed_network n) (fun _ _ => True) s.
Proof.
  unfold network. apply wp_bind, wp_lift. destruct (validateNetwork n) as [u|e]; [|done]. apply wp_bind.
  destruct (negb _); cbn [when]; [done|]. apply wp_ret. wp_skip as u1. wp_skip as u2. apply wp_bind.
  eapply wp_mono; [apply (wp_for_each_elems _ _ (fun c => exists p, p ∈ pf_interfaces profile_ /\ ip_name p = nc_interface c)) | |].
  - intros c s1 _. unfold write_network. apply wp_bind. eapply wp_mono; [apply wp_interfacePolicy | | done].
    cbv beta. intros _ s2 Hp. eapply wp_mono; [apply wp_trivial | done | done].
  - cbv beta. intros _ s1 Hm. cbn [negb when]. by apply wp_ret.
  - done.
Qed.

Lemma wp_boot_network n (s : Native W) :
  wp (network profile_ n true) (fun _ s' => managed_network n /\ on_disk n (nv_world s')) (fun _ _ => True) s.
Proof.
  pose proof (wp_network_managed n s) as Hm. pose proof (wp_network (own := own) profile_ n true s) as Hn. unfold wp in *.
  destruct (network profile_ n true s) as [s' [u|e]]; [|done]. split; [done|].
  destruct Hn as (_ & _ & Hf & _).
  - intros c Hc. destruct (Hm c Hc) as (p & Hp & <-). by apply (Hclear p Hp).
  - apply Forall_forall. intros c Hc. destruct (Hm c Hc) as (p & Hp & <-). by apply (Hclear p Hp).
  - exact Hf.
Qed.

Lemma wp_call_network n (b : BE) :
  wp (Backend.network n true) (fun _ b' => state_ b' = state_ b /\ managed_network n /\ on_disk n (host_ b')) (fun _ _ => True) b.
Proof.
  pose proof (wp_boot_network n (mkNative (host_ b) (platform_ b))) as Hn. unfold wp in Hn.
  unfold Backend.network, call_platform, noting, try_catch, ask, wp, mbind, eff_bind.
  cbn [platform_network boot_device nativePlatform]. unfold on_world. cbn [fst snd].
  destruct (network profile_ n true (mkNative (host_ b) (platform_ b))) as [s' [u|e]]; cbn; [|done]. by split.
Qed.

(** The state that the manager is in has its network on disk. *)
Definition network_on_disk (b : BE) : Prop := managed_network (net_of (state_ b)) /\ on_disk (net_of (state_ b)) (host_ b).

Definition same_state (b b' : BE) : Prop := state_ b' = state_ b /\ same_networks b b'.

Lemma same_state_on_disk b b' : same_state b b' -> network_on_disk b -> network_on_disk b'.
Proof. intros [Hs Hf] [Hm Hd]. unfold network_on_disk. rewrite Hs. split; [done|]. by eapply same_networks_on_disk. Qed.

#[local] Instance same_state_preorder : PreOrder same_state.
Proof.
  split; [by intros b; split|]. intros b1 b2 b3 [H1 H2] [H3 H4]. split; [congruence | by etrans].
Qed.

Lemma same_state_split {A} (m : eff BE A) :
  (forall b, state_ (fst (m b)) = state_ b) -> within same_networks m -> within same_state m.
Proof. intros Hs Hn b. split; [apply Hs | apply Hn]. Qed.

Lemma call_state c (f : operation (list deed) W unit) b : state_ (fst (call_platform c f b)) = state_ b.
Proof.
  unfold call_platform, noting, try_catch, ask, mbind, eff_bind. by destruct (f (platform_ b, host_ b)) as [[p h] [u|e]].
Qed.

Lemma persist_state (b : BE) : state_ (fst (persist profile_ b)) = state_ b.
Proof.
  unfold persist, noting, try_catch, mbind, eff_bind, get, gets, lift, host. destruct (storage_failed_ b); [done|].
  destruct (encode (state_ b)) as [text|e]; [|done]. by destruct (atomicWrite _ _ _) as [h [u|e]].
Qed.

(** A step that keeps the state and the files, before the rest. *)
Lemma wp_same {A B} (m : eff BE A) (f : A -> eff BE B) Q b :
  within same_state m -> network_on_disk b ->
  (forall a b', network_on_disk b' -> wp (f a) Q (fun _ _ => True) b') -> wp (m ≫= f) Q (fun _ _ => True) b.
Proof.
  intros Hm Hb Hf. apply wp_bind. eapply wp_mono; [apply (within_wp _ _ _ Hm) | | done]. cbv beta. intros a b' Hs.
  apply Hf. by eapply same_state_on_disk.
Qed.

Lemma wp_boot_policies b : wp boot_policies (fun _ b' => state_ b' = state_ b /\ network_on_disk b') (fun _ _ => True) b.
Proof.
  unfold boot_policies. apply wp_bind. unfold get. apply wp_gets, wp_bind.
  eapply wp_mono; [apply wp_call_network | | done]. cbv beta. intros _ b1 (Hs1 & Hm & Hd).
  assert (Hb1 : network_on_disk b1) by (unfold network_on_disk; by rewrite Hs1).
  assert (Hrest : forall b2 : BE, within same_state (_ ← Backend.sshBootPolicy (pr_ssh_enabled (cf_system (st_configuration (state_ b2))));
    Backend.clockBootPolicy (cf_time (st_configuration (state_ b2))))).
  { intros b2. apply within_bind; [apply _ | | intros _]; (apply same_state_split; [intros b3; apply call_state | within_auto]). }
  eapply wp_mono; [apply (within_wp _ _ _ (Hrest b)) | | done]. cbv beta. intros _ b2 Hs2. split; [by rewrite (proj1 Hs2)|].
  by eapply same_state_on_disk.
Qed.

Lemma wp_update_same {B} (f : State -> State) (k : unit -> eff BE B) Q b :
  (forall s, net_of (f s) = net_of s) -> network_on_disk b ->
  (forall b', network_on_disk b' -> wp (k tt) Q (fun _ _ => True) b') -> wp (update f ≫= k) Q (fun _ _ => True) b.
Proof.
  intros Hf Hb Hk. apply wp_bind, wp_modify, Hk. unfold network_on_disk in *. cbn. by rewrite Hf.
Qed.

Lemma same_state_persist : within same_state (persist profile_).
Proof. apply same_state_split; [intros b; apply persist_state | apply same_persist]. Qed.

Lemma same_state_event code category message actor action outcome subject priority request_id :
  within same_state (event code category message actor action outcome subject priority request_id).
Proof. unfold event. destruct (UserLog_record _ _ _); by intros b. Qed.

Lemma wp_bootstrap_reset b : wp (bootstrap_reset read_status profile_) (fun _ => network_on_disk) (fun _ _ => True) b.
Proof.
  unfold bootstrap_reset. wp_skip as u1. wp_skip as u2. wp_skip as u3. wp_skip as u4. wp_skip as u5. apply wp_bind.
  eapply wp_mono; [apply wp_boot_policies | | done]. cbv beta. intros _ b1 [_ Hb1].
  apply wp_update_same; [done | exact Hb1|]. intros b2 Hb2. apply wp_update_same; [done | exact Hb2|]. intros b3 Hb3.
  apply wp_same; [apply same_state_persist | exact Hb3|]. intros _ b4 Hb4. apply wp_bind. unfold get. apply wp_gets.
  eapply wp_mono; [apply (within_wp _ _ _ (same_state_event _ _ _ _ _ _ _ _ _)) | | done]. cbv beta. intros _ b5 Hs.
  by eapply same_state_on_disk.
Qed.

(** The state is in the journal. *)
Definition in_journal (b : BE) : Prop :=
  exists text, encode (state_ b) = Return text /\ file (host_ b) (state_path profile_) = Some text.

Lemma wp_persist_written (b : BE) : wp (persist profile_) (fun _ b' => same_state b b' /\ in_journal b') (fun _ _ => True) b.
Proof.
  pose proof (same_state_persist b) as Hs. unfold wp. revert Hs. unfold in_journal.
  unfold persist, noting, try_catch, mbind, eff_bind, get, gets, lift, host. destruct (storage_failed_ b); [done|].
  destruct (encode (state_ b)) as [text|e] eqn:He; [|done].
  pose proof (atomicWrite_ok (host_ b) (state_path profile_) text) as Hw.
  destruct (atomicWrite (state_path profile_) text (host_ b)) as [h [[]|e]]; cbn in *; [|done]. intros Hs. split; [exact Hs|].
  exists text. split; [done | by apply Hw].
Qed.

(** An initialised device has its network on disk. *)
Definition settled_network (b : BE) : Prop := st_initialized (state_ b) = true -> network_on_disk b.

Lemma same_settled b b' : same_state b b' -> settled_network b -> settled_network b'.
Proof. intros Hs Hb Hi. eapply same_state_on_disk; [exact Hs|]. apply Hb. by rewrite <- (proj1 Hs). Qed.

Lemma wp_managed_hostname boot b :
  settled_network b ->
  wp (_ ← update (fun s => with_configuration (set_hostname (bp_managed_hostname boot) (st_configuration s)) s);
      h ← get (fun b => pr_hostname (cf_system (st_configuration (state_ b))));
      _ ← Backend.bootHostname h;
      persist profile_) (fun _ b' => settled_network b' /\ in_journal b' /\
        st_initialized (state_ b') = st_initialized (state_ b)) (fun _ _ => True) b.
Proof.
  intros Hb. apply wp_bind, wp_modify, wp_bind. unfold get. apply wp_gets. set (b1 := mkBackend _ _ _ _ _ _ _ _).
  assert (Hb1 : settled_network b1) by exact Hb.
  assert (Hi1 : st_initialized (state_ b1) = st_initialized (state_ b)) by done. clearbody b1.
  assert (Hh : forall h, within same_state (Backend.bootHostname h)).
  { intros h. apply same_state_split; [intros b2; apply call_state | apply same_bootHostname]. }
  apply wp_bind. eapply wp_mono; [apply (within_wp _ _ _ (Hh _)) | | done]. cbv beta. intros _ b2 Hs2.
  eapply wp_mono; [apply wp_persist_written | | done]. cbv beta. intros _ b3 [Hs3 Hj].
  split; [|split; [done | by rewrite (proj1 Hs3), (proj1 Hs2)]].
  eapply same_settled; [exact Hs3|]. by eapply same_settled.
Qed.

(** The first half of [bootstrap]: the network of an initialised device is put in force. *)
Lemma wp_boot_network_first b :
  wp (if st_reset_intent (state_ b) then bootstrap_reset read_status profile_
      else if st_initialized (state_ b) then _ ← recoverNetwork sha256 profile_ true; boot_policies
      else
        match pf_boot_preferences profile_ with
        | Some boot =>
            _ ← update (with_configuration (bp_initial boot));
            _ ← boot_policies;
            _ ← update (with_initialized true);
            persist profile_
        | None => Backend.clockBootPolicy (cf_time (pf_defaults profile_))
        end) (fun _ => settled_network) (fun _ _ => True) b.
Proof.
  destruct (st_reset_intent (state_ b)).
  { eapply wp_mono; [apply wp_bootstrap_reset | cbv beta; by intros _ b' Hb' _ | done]. }
  destruct (st_initialized (state_ b)) eqn:Hi.
  { wp_skip as u1. eapply wp_mono; [apply wp_boot_policies | cbv beta; by intros _ b' [_ Hb'] _ | done]. }
  destruct (pf_boot_preferences profile_) as [boot|].
  - wp_skip as u1. apply wp_bind. eapply wp_mono; [apply wp_boot_policies | | done]. cbv beta. intros _ b2 [_ Hb2].
    apply wp_update_same; [done | exact Hb2|]. intros b3 Hb3.
    eapply wp_mono; [apply (within_wp _ _ _ same_state_persist) | | done]. cbv beta. intros _ b4 Hs _. by eapply same_state_on_disk.
  - unfold wp, settled_network, Backend.clockBootPolicy.
    pose proof (call_state (CallClockBootPolicy (cf_time (pf_defaults profile_)))
      (platform_clockBootPolicy (cf_time (pf_defaults profile_))) b) as Hs.
    destruct (call_platform _ _ b) as [b' [u|e]]; [|done]. cbn in Hs. rewrite Hs. congruence.
Qed.

(** ** The journal at boot *)

(** A new process that reads the journal of [b] finds the network that [b] has. *)
Definition tracks (b : BE) : Prop :=
  exists s, journal_state profile_ (file (host_ b) (state_path profile_)) s /\
    st_initialized s = st_initialized (state_ b) /\ net_of s = net_of (state_ b).

Definition same_record (b b' : BE) : Prop :=
  state_ b' = state_ b /\ file (host_ b') (state_path profile_) = file (host_ b) (state_path profile_).

#[local] Instance same_record_preorder : PreOrder same_record.
Proof. split; [by intros b; split|]. intros b1 b2 b3 [H1 H2] [H3 H4]. split; congruence. Qed.

Lemma same_record_tracks b b' : same_record b b' -> tracks b -> tracks b'.
Proof. intros [Hs Hf] (s & Hj & Hi & Hn). exists s. by rewrite Hs, Hf. Qed.

Lemma in_journal_tracks b : in_journal b -> tracks b.
Proof. intros (text & He & Hf). exists (state_ b). rewrite Hf. split; [by apply encode_read | done]. Qed.

Context (Hforeign : foreign own profile_ (state_path profile_)).

Lemma same_record_call c (f : operation (list deed) W unit) :
  Framed (foreign own profile_) f -> within same_record (call_platform c f).
Proof.
  intros Hf b. split; [apply call_state|]. specialize (Hf (platform_ b, host_ b) _ Hforeign).
  unfold call_platform, noting, try_catch, ask, mbind, eff_bind. by destruct (f (platform_ b, host_ b)) as [[p h] [u|e]].
Qed.

Lemma same_record_policies : within same_record boot_policies.
Proof.
  assert (PL : PlatformLaws (list deed) W (foreign own profile_)) by apply native_laws.
  unfold boot_policies, Backend.network, Backend.sshBootPolicy, Backend.clockBootPolicy, get.
  repeat (apply within_bind; [apply _ | first [apply within_gets; apply _ | apply same_record_call; apply _] | intros ?]).
  apply same_record_call; apply _.
Qed.

Lemma same_record_event code category message actor action outcome subject priority request_id :
  within same_record (event code category message actor action outcome subject priority request_id).
Proof. unfold event. destruct (UserLog_record _ _ _); by intros b. Qed.

(** After a change of the state that is written down. *)
Definition written (b : BE) : Prop := in_journal b /\ st_initialized (state_ b) = true.

Lemma wp_write_down {A} (k : unit -> eff BE A) b :
  st_initialized (state_ b) = true -> (forall u, within same_record (k u)) ->
  wp (persist profile_ ≫= k) (fun _ => written) (fun _ _ => True) b.
Proof.
  intros Hi Hk. apply wp_bind. eapply wp_mono; [apply wp_persist_written | | done]. cbv beta. intros u b1 [[Hs _] Hj].
  eapply wp_mono; [apply (within_wp _ _ _ (Hk u)) | | done]. cbv beta. intros _ b2 [Hs2 Hf2].
  destruct Hj as (t & He & Hf). split; [exists t; by rewrite Hs2, Hf2 | by rewrite Hs2, Hs].
Qed.

Lemma wp_reset_written b : wp (bootstrap_reset read_status profile_) (fun _ => written) (fun _ _ => True) b.
Proof.
  unfold bootstrap_reset. wp_skip as u1. wp_skip as u2. wp_skip as u3. apply wp_bind, wp_modify, wp_bind, wp_modify, wp_bind.
  eapply wp_mono; [apply (within_wp _ _ _ same_record_policies) | | done]. cbv beta. intros _ b1 [Hs1 _].
  apply wp_bind, wp_modify, wp_bind, wp_modify. apply wp_write_down; [cbn; by rewrite Hs1|]. intros _.
  unfold get. apply within_bind; [apply _ | apply within_gets; apply _ | intros s; apply same_record_event].
Qed.

Lemma wp_fileHash_state p (b : BE) :
  wp (fileHash sha256 p) (fun _ b' => state_ b' = state_ b) (fun _ _ => True) b.
Proof.
  assert (Hh : forall A (f : W -> W * outcome A) (b0 : BE), state_ (fst (host f b0)) = state_ b0).
  { intros A f b0. unfold host. by destruct (f (host_ b0)). }
  unfold fileHash. apply wp_bind. unfold wp at 1. pose proof (Hh _ (exists_ p) b) as H1.
  destruct (host (exists_ p) b) as [b1 [[]|e]]; [| by cbn in * | done]. cbn [negb]. apply wp_bind. unfold wp at 1.
  pose proof (Hh _ (readFile p 1048576) b1) as H2. destruct (host (readFile p 1048576) b1) as [b2 [v|e]]; [|done].
  cbn in *. destruct (sha256 v); [apply wp_ret; congruence | done].
Qed.

Lemma wp_recover_written b :
  tracks b -> st_initialized (state_ b) = true ->
  wp (recoverNetwork sha256 profile_ true) (fun _ b' => tracks b' /\ st_initialized (state_ b') = true) (fun _ _ => True) b.
Proof.
  intros Ht Hi. unfold recoverNetwork. apply wp_bind. unfold get at 1. apply wp_gets.
  destruct (negb (is_pending (state_ b))); [by apply wp_ret|]. apply wp_bind.
  eapply (wp_mono _ (fun _ b' => state_ b' = state_ b) _ (fun _ _ => True)); [| | done].
  { destruct (nt_state _ ==? _); [|by apply wp_ret].
    apply wp_bind. eapply wp_mono; [apply (wp_fileHash_state _ b) | cbv beta; intros h b1 Hs; by apply wp_ret | done]. }
  cbv beta. intros commit b1 Hs1. unfold settleNetwork. apply wp_bind. unfold get at 1. apply wp_gets, wp_bind.
  assert (Hn : forall n, within (fun b b' : BE => state_ b' = state_ b) (Backend.network n true))
    by (intros n b2; apply call_state).
  eapply wp_mono; [apply (within_wp _ _ _ (Hn _)) | | done]. cbv beta. intros _ b2 Hs2.
  apply wp_bind, wp_modify, wp_bind, wp_modify. eapply wp_mono; [apply wp_write_down | | done].
  - cbn. by rewrite Hs2, Hs1.
  - intros _. unfold get. apply within_bind; [apply _ | apply within_gets; apply _ | intros s; apply same_record_event].
  - cbv beta. intros _ b3 [Hj Hi3]. split; [by apply in_journal_tracks | done].
Qed.

(** The first half of [bootstrap] leaves a journal that agrees with the state. *)
Lemma wp_boot_journal_first b :
  tracks b ->
  wp (if st_reset_intent (state_ b) then bootstrap_reset read_status profile_
      else if st_initialized (state_ b) then _ ← recoverNetwork sha256 profile_ true; boot_policies
      else
        match pf_boot_preferences profile_ with
        | Some boot =>
            _ ← update (with_configuration (bp_initial boot));
            _ ← boot_policies;
            _ ← update (with_initialized true);
            persist profile_
        | None => Backend.clockBootPolicy (cf_time (pf_defaults profile_))
        end) (fun _ b' => tracks b' /\ (pf_boot_preferences profile_ <> None -> st_initialized (state_ b') = true))
    (fun _ _ => True) b.
Proof.
  intros Ht.
  destruct (st_reset_intent (state_ b)).
  { eapply wp_mono; [apply wp_reset_written | | done]. cbv beta. intros _ b' [Hj Hi]. split; [by apply in_journal_tracks | done]. }
  destruct (st_initialized (state_ b)) eqn:Hi.
  { apply wp_bind. eapply wp_mono; [by apply wp_recover_written | | done]. cbv beta. intros _ b1 [Ht1 Hi1].
    eapply wp_mono; [apply (within_wp _ _ _ same_record_policies) | | done]. cbv beta. intros _ b2 Hs.
    split; [by eapply same_record_tracks | by rewrite (proj1 Hs)]. }
  destruct (pf_boot_preferences profile_) as [boot|].
  - wp_skip as u1. wp_skip as u2. apply wp_bind, wp_modify.
    eapply wp_mono; [apply wp_persist_written | | done]. cbv beta. intros _ b4 [[Hs _] Hj].
    split; [by apply in_journal_tracks | by rewrite Hs].
  - assert (PL : PlatformLaws (list deed) W (foreign own profile_)) by apply native_laws.
    assert (Hc : within same_record (Backend.clockBootPolicy (cf_time (pf_defaults profile_))))
      by (apply same_record_call; apply _).
    eapply wp_mono; [apply (within_wp _ _ _ Hc) | | done]. cbv beta. intros _ b2 Hs. split; [by eapply same_record_tracks | done].
Qed.

Lemma wp_bootstrap b :
  tracks b ->
  wp (bootstrap sha256 read_status profile_)
    (fun _ b' => settled_network b' /\ tracks b' /\ (pf_boot_preferences profile_ <> None -> st_initialized (state_ b') = true))
    (fun _ _ => True) b.
Proof.
  intros Ht. unfold bootstrap. apply wp_bind. unfold get at 1. apply wp_gets, wp_bind.
  eapply wp_mono; [apply wp_and; [apply wp_boot_network_first | by apply wp_boot_journal_first] | | done].
  cbv beta. intros _ b1 (Hb1 & Ht1 & Hi1). destruct (pf_boot_preferences profile_) as [boot|]; [|by apply wp_ret].
  eapply wp_mono; [by apply wp_managed_hostname | | done]. cbv beta. intros _ b2 (Hb2 & Hj2 & Hi2).
  split; [done|]. split; [by apply in_journal_tracks | intros _; rewrite Hi2; by apply Hi1].
Qed.

(** The constructor reads the journal. *)
Lemma wp_construct b :
  state_ b = default_State -> wp (construct profile_) (fun _ => tracks) (fun _ _ => True) b.
Proof.
  intros Hd. pose proof (vwp_run _ _ _ _ _ (construct_boots (P := list deed) (HL := HL) profile_ (view_of profile_ b) Hd)) as Hv.
  unfold wp. destruct (construct profile_ b) as [b' [u|e]]; [|done]. destruct Hv as (s & Hj & Hv).
  exists s. injection Hv as Hs _ _ Hf _ _. rewrite Hs, Hf, migrate_initialized, migrate_network. done.
Qed.

End boot.

(** ** The main program *)

Section main_program.
Context {W : Type} {HO : Host W} {HL : HostLaws W} {NO : Node W} {own : string -> Prop} {NL : NodeLaws W own}.
Context (read_link : string -> option LinkInfo) (tzdb : Z -> W -> string -> option (string * Z)).
Context {JProfile : Json Profile} {JBoot : Json BootPreferences}.
Context {JState : Json State} {JEmpty : Json Empty} {JStatus : Json SystemStatus} {JTime : Json TimeStatus}
  {JZones : Json (list string)} {JCatalog : Json TimezoneCatalog} {JTemperatures : Json (list Temperature)}
  {JConfiguration : Json Configuration} {JProposal : Json NetworkProposal} {JTransaction : Json NetworkTransaction}
  {JId : Json Id} {JFinish : Json Finish} {JPower : Json Power} {JReset : Json Reset} {JJob : Json Job}
  {JReply : Json Reply}.
Context {JLState : JsonLaws State}.
Context (lstat : string -> string + file_stat).
Context (sha256 : string -> option (list Z)) (read_status : string -> option StorageBootStatus).
Context (account : string -> option Z) (registration : Registration).

Abbreviation main := (DaemonProcess.main read_link tzdb lstat sha256 read_status account registration).

(** C5: A boot that succeeds puts the network of the journal in force: when the
    program, called with --bootstrap for a product whose journal and whose other
    paths are clear of the network files and of what the platform writes, exits
    with 0, then the journal that it leaves determines a state [s] (the one the
    next process starts from), and if that device is initialised, then all of
    its interfaces are managed ones and on disk the file of each is the rendered
    one. With boot preferences the device is always initialised by then. *)
Theorem boot_network_in_force arguments masked rounds later h h1 h' profile :
  load lstat "/usr/share/mnc/system/profile.json" arguments h = (h1, Return (profile, true)) ->
  clear_paths own profile -> foreign own profile (state_path profile) ->
  main arguments masked rounds later h = (h', Return (Some 0)) ->
  exists s : State, journal_state profile (file h' (state_path profile)) s /\
    (st_initialized s = true -> managed_network profile (net_of s) /\ on_disk (net_of s) h') /\
    (pf_boot_preferences profile <> None -> st_initialized s = true).
Proof.
  intros Hl Hc Hf. unfold DaemonProcess.main. rewrite Hl.
  pose proof (fun b => wp_construct (JS := JState) profile b) as Hk.
  pose proof (fun b => wp_bootstrap (JS := JState) (NL := NL) sha256 read_status read_link tzdb profile Hc Hf b) as Hb.
  unfold boot_process, mbind, eff_bind. unfold native_of, boot_device in *.
  specialize (Hk (blank [] h1 []) eq_refl). unfold wp in Hk.
  destruct (construct profile _) as [b [[]|e]]; [|by destruct e]. specialize (Hb b Hk).
  unfold wp in Hb. destruct (bootstrap sha256 read_status profile b) as [b' [[]|e]]; [|by destruct e]. intros [= <-].
  destruct Hb as (Hb & (s & Hj & Hi & Hn) & Hboot). exists s. split; [done|]. rewrite Hi, Hn. by split.
Qed.

End main_program.

(** ** The boot of a board *)

(** The product without its boot preferences, and the readers of the two files. *)
Definition bare_profile : Profile :=
  mkProfile "settings" "control" "/s" "/product/active.json" "/run/mnc" "" ""
    [mkInterfacePolicy "end0" "ethernet@f1"; mkInterfacePolicy "end-1" ""] [] device_configuration "sshd.socket" "sshd.service"
    ["systemd-timesyncd.service"] ["irig.service"] ["ptp4l.service"] ["ptp4l@.service"] [] None.

Definition device_profile_json : Json Profile := {|
  write_json _ := Some "profile";
  read_json t := if t ==? "profile" then inr bare_profile else inl "syntax"
|}.

Definition device_boot_json : Json BootPreferences := {|
  write_json _ := Some "boot";
  read_json t := if t ==? "boot" then inr (mkBootPreferences 1 device_configuration device_configuration "mnc") else inl "syntax"
|}.

Definition boot_arguments : list string := ["--bootstrap"; "--boot-preferences"; "/usr/share/mnc/system/boot.json"].

Definition boot_board : Board :=
  mkBoard (mkMachine (disk_of [("/usr/share/mnc/system/profile.json", "profile"); ("/usr/share/mnc/system/boot.json", "boot")])
    [] (replicate 64 171) [(1, 0)] [disk_of []]) 0 ∅.

Definition board_load : Board * outcome (Profile * bool) :=
  load (JProfile := device_profile_json) (JBoot := device_boot_json) root_owned "/usr/share/mnc/system/profile.json" boot_arguments
    boot_board.

Definition board_main : Board * outcome (option Z) :=
  DaemonProcess.main (JProfile := device_profile_json) (JBoot := device_boot_json) board_link no_database root_owned sample_digest
    no_status sample_account sample_registration boot_arguments true [] [] boot_board.

Lemma device_paths_clear : clear_paths (fun _ => True) device_profile.
Proof.
  intros policy Hp. cbv zeta. cbn in Hp. apply elem_of_cons in Hp as [->|Hp%list_elem_of_singleton]; [|subst policy].
  all: split_and!; try exact I; try reflexivity; try (split; [discriminate | reflexivity]).
  all: try (split; [split; [discriminate | reflexivity] | reflexivity]).
  all: intros mode Hm; unfold modes in Hm; repeat (apply elem_of_cons in Hm as [->|Hm];
    [split; [split; [discriminate | reflexivity] | reflexivity]|]); by apply elem_of_nil in Hm.
Qed.

Lemma device_journal_foreign : foreign (fun _ => True) device_profile (state_path device_profile).
Proof. split; [exact I|]. split; [reflexivity|]. repeat split; try discriminate; reflexivity. Qed.

Lemma boot_network_in_force_witness :
  file (fst board_main) (network_file "end0") =
    Some (render_text (mkNetworkConfig "end0" static_ipv4 "10.0.0.2" 24 "10.0.0.1" ["10.0.0.1"] true) true).
Proof.
  assert (Hl : board_load = (fst board_load, Return (device_profile, true))).
  { assert (Hr : snd board_load = Return (device_profile, true)) by (vm_compute; reflexivity).
    rewrite <- Hr. apply surjective_pairing. }
  assert (Hm : board_main = (fst board_main, Return (Some 0))).
  { assert (Hr : snd board_main = Return (Some 0)) by (vm_compute; reflexivity). rewrite <- Hr. apply surjective_pairing. }
  destruct (boot_network_in_force board_link no_database root_owned sample_digest no_status sample_account sample_registration
    boot_arguments true [] [] boot_board (fst board_load) (fst board_main) device_profile Hl device_paths_clear device_journal_foreign Hm)
    as (s & Ht & Hs & _).
  assert (Hj : (t ← file (fst board_main) (state_path device_profile);
      match read_json (T := State) t with inr s => Some (st_initialized s, net_of s) | inl _ => None end) = Some (true, board_network))
    by (vm_compute; reflexivity).
  destruct (file (fst board_main) (state_path device_profile)) as [text|]; [|discriminate Hj].
  cbn [mbind option_bind journal_state] in Hj, Ht. rewrite Ht in Hj. injection Hj as Hi Hn.
  destruct (Hs Hi) as [_ Hd]. rewrite Hn in Hd.
  exact (Hd (mkNetworkConfig "end0" static_ipv4 "10.0.0.2" 24 "10.0.0.1" ["10.0.0.1"] true) ltac:(left)).
Defined.
