(* ===== verification/Journal.v ===== *)
(** * Reading the journal (common/mnc/logging/journal_reader.{hpp,cpp})

    The entries that the public log is read from: how one is decoded from the
    fields that journald keeps, which ones a query selects, and how a reader
    continues from a cursor. *)

From S2P Require Import Prelude SystemTypes Logging Host.

Record Entry := mkEntry {
  en_timestamp : Z;   (* microseconds *)
  en_cursor : string;
  en_priority : Priority;
  en_message : string;
  en_component : string;
  en_module : string;
  en_event : string;
  en_audience : string;
  en_category : string;
  en_actor : string;
  en_action : string;
  en_outcome : string;
  en_subject : string;
  en_changed_fields : list string;
  en_request_id : string;
  en_configuration_generation : string;
  en_unit : string;
  en_systemd_unit : string;
  en_executable : string;
  en_source_file : string;
  en_source_line : string;
  en_source_function : string
}.

Record Query := mkQuery {
  qu_component : option string;
  qu_module : option string;
  qu_maximum_priority : option Priority;
  qu_since : option Z;
  qu_after : option string;
  qu_components : list string;
  qu_units : list string;
  qu_limit : nat;
  qu_audience : option string;
  qu_category : option string;
  qu_event : option string;
  qu_until : option Z;
  qu_newest_first : bool;
  qu_strict_cursor : bool
}.

Inductive JournalErrorCode := unavailable_journal | cursor_expired | read_failed.

(** [listed] and the optional equalities of [matches_query]. *)
Definition listed (values : list string) (value : string) : bool :=
  bool_decide (values = []) || bool_decide (value ∈ values).

Definition equal_to (wanted : option string) (value : string) : bool :=
  match wanted with Some w => value ==? w | None => true end.

Definition matches_query (entry : Entry) (query : Query) : bool :=
  if negb (equal_to (qu_audience query) (en_audience entry)) then false
  else if negb (equal_to (qu_category query) (en_category entry)) then false
  else if negb (equal_to (qu_event query) (en_event entry)) then false
  else if match qu_since query with Some t => en_timestamp entry <? t | None => false end then false
  else if match qu_until query with Some t => t <? en_timestamp entry | None => false end then false
  else if negb (equal_to (qu_component query) (en_component entry)) then false
  else if negb (equal_to (qu_module query) (en_module entry)) then false
  else if match qu_maximum_priority query with
          | Some p => priority_code p <? priority_code (en_priority entry)
          | None => false
          end then false
  else
    let component_match := listed (qu_components query) (en_component entry) in
    let unit_match := listed (qu_units query) (en_unit entry) in
    if negb (bool_decide (qu_components query = [])) && negb (bool_decide (qu_units query = []))
    then component_match || unit_match
    else component_match && unit_match.

(** ** Pages *)

(** The cursor to continue from; an empty one is none. *)
Definition after_of (query : Query) : option string :=
  match qu_after query with Some c => if empty c then None else Some c | None => None end.

(** The loop of [bounded_page] over the entries in the order of the query, with
    the cursor still looked for and the number of entries that still fit. *)
Fixpoint page_loop (query : Query) (after : option string) (room : nat) (entries : list Entry) : list Entry :=
  match entries with
  | [] => []
  | e :: rest =>
      match after with
      | Some c => page_loop query (if en_cursor e ==? c then None else after) room rest
      | None =>
          if negb (matches_query e query) then page_loop query None room rest
          else
            match room with
            | O | S O => [e]
            | S room' => e :: page_loop query None room' rest
            end
      end
  end.

Definition bounded_page (entries : list Entry) (query : Query) : JournalErrorCode + list Entry :=
  if Nat.eqb (qu_limit query) 0 then inr []
  else
    match after_of query with
    | Some c =>
        if qu_strict_cursor query && negb (existsb (fun e => en_cursor e ==? c) entries) then inl cursor_expired
        else inr (page_loop query (Some c) (qu_limit query) (if qu_newest_first query then rev entries else entries))
    | None => inr (page_loop query None (qu_limit query) (if qu_newest_first query then rev entries else entries))
    end.

(** ** Decoding an entry *)

(** The loop of [changed_fields]; every pass shortens the text, so that as much
    fuel as it has characters is enough. *)
Fixpoint changed_fields_loop (fuel : nat) (value : string) (result : list string) : list string :=
  match fuel with
  | O => []
  | S fuel' =>
      match value with
      | EmptyString => result
      | String c rest =>
          if c <>? chr 34 then []
          else
            match cut (chr 34) rest with
            | (_, None) => []
            | (name, Some rest') =>
                if empty name || (128 <? size_of name) || negb (str_all identifier_char name) then []
                else
                  let result := result ++ [name] in
                  if 64 <? Z.of_nat (length result) then []
                  else if empty rest' then result
                  else if negb (starts_with ("," +:+ quote) rest') then []
                  else changed_fields_loop fuel' (str_drop 1 rest') result
            end
      end
  end.

Definition changed_fields (value : string) : list string :=
  if value ==? "[]" then []
  else if (64 * 132 <? size_of value) || negb (starts_with ("[" +:+ quote) value) || negb (ends_with (quote +:+ "]") value) then []
  else
    let inner := str_take (String.length value - 2) (str_drop 1 value) in
    changed_fields_loop (S (String.length inner)) inner [].

(** An entry as journald keeps it: a time and a cursor, when they can be read,
    and data of the form NAME=value. *)
Record raw_entry := mkRaw { re_realtime : option Z; re_cursor : option string; re_data : list string }.

(** [sd_journal_get_data]: the first datum with the name. *)
Definition get_data (raw : raw_entry) (name : string) : option string :=
  List.find (starts_with (name +:+ "=")) (re_data raw).

Definition field (raw : raw_entry) (name : string) : string :=
  match get_data raw name with
  | None => ""
  | Some value => match cut "=" value with (_, Some rest) => rest | (_, None) => "" end
  end.

Definition all_priorities : list Priority := [emergency; alert; critical; error; warning; notice; info; debug].

Definition parse_journal_priority (text : string) : Priority :=
  match from_chars_unsigned 32 10 text with
  | Some (numeric, _) => if numeric <=? priority_code debug then nth (Z.to_nat numeric) all_priorities info else info
  | None => info
  end.

Definition current_entry (raw : raw_entry) : Entry :=
  let f := field raw in
  mkEntry (default 0 (re_realtime raw)) (default "" (re_cursor raw)) (parse_journal_priority (f "PRIORITY"))
    (f "MESSAGE") (f "MNC_COMPONENT") (f "MNC_MODULE") (f "MNC_EVENT")
    (if empty (f "MNC_LOG_AUDIENCE") then "developer" else f "MNC_LOG_AUDIENCE")
    (f "MNC_EVENT_CATEGORY") (f "MNC_ACTOR") (f "MNC_ACTION") (f "MNC_OUTCOME") (f "MNC_SUBJECT")
    (changed_fields (f "MNC_CHANGED_FIELDS")) (f "MNC_REQUEST_ID") (f "MNC_CONFIGURATION_GENERATION")
    (if empty (f "UNIT") then f "_SYSTEMD_UNIT" else f "UNIT") (f "_SYSTEMD_UNIT") (f "_EXE")
    (f "CODE_FILE") (f "CODE_LINE") (f "CODE_FUNC").

(** ** Entries as JSON *)

Definition hex4 (n : Z) : string := hex_byte (n / 256) +:+ hex_byte (n mod 256).

Fixpoint json_escape (value : string) : string :=
  match value with
  | EmptyString => ""
  | String c rest =>
      (if c ==? chr 34 then String (chr 92) (String (chr 34) "")
       else if c ==? chr 92 then String (chr 92) (String (chr 92) "")
       else if c ==? chr 8 then String (chr 92) "b"
       else if c ==? chr 12 then String (chr 92) "f"
       else if c ==? chr 10 then String (chr 92) "n"
       else if c ==? chr 13 then String (chr 92) "r"
       else if c ==? chr 9 then String (chr 92) "t"
       else if code c <? 32 then String (chr 92) ("u" +:+ hex4 (code c))
       else String c "") +:+ json_escape rest
  end.

(** A member of the object, with the comma before it. *)
Definition member (name value : string) : string :=
  "," +:+ quote +:+ name +:+ quote +:+ ":" +:+ quote +:+ json_escape value +:+ quote.

Definition signed_to_string (n : Z) : string := if n <? 0 then "-" +:+ to_string (- n) else to_string n.

Definition entry_to_json (e : Entry) : string :=
  "{" +:+ quote +:+ "timestamp_usec" +:+ quote +:+ ":" +:+ signed_to_string (en_timestamp e) +:+
  member "cursor" (en_cursor e) +:+
  "," +:+ quote +:+ "priority" +:+ quote +:+ ":" +:+ quote +:+ priority_name (en_priority e) +:+ quote +:+
  member "message" (en_message e) +:+ member "component" (en_component e) +:+ member "module" (en_module e) +:+
  member "event" (en_event e) +:+ member "request_id" (en_request_id e) +:+
  member "configuration_generation" (en_configuration_generation e) +:+ member "unit" (en_unit e) +:+
  member "executable" (en_executable e) +:+ member "source_file" (en_source_file e) +:+
  member "source_line" (en_source_line e) +:+ member "source_function" (en_source_function e) +:+
  member "audience" (en_audience e) +:+ member "category" (en_category e) +:+ member "actor" (en_actor e) +:+
  member "action" (en_action e) +:+ member "outcome" (en_outcome e) +:+ member "subject" (en_subject e) +:+
  "," +:+ quote +:+ "changed_fields" +:+ quote +:+ ":[" +:+
  join "," (map (fun f => quote +:+ json_escape f +:+ quote) (en_changed_fields e)) +:+ "]}".

(** ** The names of the changed fields *)

Lemma identifier_no_quote n : str_all identifier_char n = true -> contains (chr 34) n = false.
Proof. intros H. by apply (str_all_contains _ _ _ H). Qed.

Lemma changed_fields_loop_join names fuel result :
  names <> [] -> Forall (fun n => identifier n = true) names -> (length (result ++ names) <= 64)%nat ->
  (String.length (join "," (map quoted names)) < fuel)%nat ->
  changed_fields_loop fuel (join "," (map quoted names)) result = result ++ names.
Proof.
  revert fuel result. induction names as [|n names IH]; [done|]. intros fuel result _ Hid Hlen Hfuel.
  inv_forall. destruct fuel as [|fuel]; [lia|].
  assert (Hn := H). unfold identifier in Hn. apply andb_true_iff in Hn as [[He Hs]%andb_true_iff Hc].
  assert (Hvalid : empty n || (128 <? size_of n) || negb (str_all identifier_char n) = false).
  { apply negb_true_iff in He. apply Z.leb_le in Hs. rewrite He, Hc, (proj2 (Z.ltb_ge _ _) Hs). done. }
  assert (Hroom : (64 <? Z.of_nat (length (result ++ [n]))) = false).
  { apply Z.ltb_ge. rewrite !length_app in *. cbn in *. lia. }
  destruct names as [|m names].
  - cbn [map join]. unfold quoted. change (quote +:+ n +:+ quote) with (String (chr 34) (n +:+ String (chr 34) "")).
    cbn [changed_fields_loop]. rewrite bool_decide_eq_true_2 by done. cbn [negb].
    rewrite cut_app by (by apply identifier_no_quote). cbv zeta. by rewrite Hvalid, Hroom.
  - cbn [map]. rewrite join_cons by done. set (tail := join "," (quoted m :: map quoted names)) in *.
    unfold quoted at 1. rewrite !str_app_assoc.
    change (quote +:+ n +:+ quote +:+ "," +:+ tail) with (String (chr 34) (n +:+ String (chr 34) ("," +:+ tail))).
    cbn [changed_fields_loop]. rewrite bool_decide_eq_true_2 by done. cbn [negb].
    rewrite cut_app by (by apply identifier_no_quote). cbv zeta. rewrite Hvalid, Hroom. cbn [empty String.append].
    assert (Ht : starts_with (String "," quote) (String "," tail) = true).
    { apply starts_with_spec. unfold tail. exists (str_drop 1 (join "," (quoted m :: map quoted names))). by destruct names. }
    rewrite Ht. cbn [negb str_drop]. replace (str_drop 0 tail) with tail by (by destruct tail).
    specialize (IH fuel (result ++ [n])). cbn [map] in IH. fold tail in IH. rewrite IH; [by rewrite <- app_assoc | done | | |].
    + exact Hid.
    + rewrite !length_app in *. cbn in *. lia.
    + cbn [map] in Hfuel. rewrite join_cons in Hfuel by done. fold tail in Hfuel.
      rewrite !str_length_app in Hfuel. cbn [String.length] in Hfuel. lia.
Qed.

Lemma ends_with_app a suffix : ends_with suffix (a +:+ suffix) = true.
Proof.
  unfold ends_with. rewrite str_length_app. apply andb_true_iff. split; [apply Nat.leb_le; lia|].
  replace (String.length a + String.length suffix - String.length suffix)%nat with (String.length a) by lia.
  rewrite str_drop_app. by apply bool_decide_eq_true.
Qed.

Lemma join_quoted_back names : names <> [] -> exists a, join "," (map quoted names) = a +:+ quote.
Proof.
  induction names as [|n names IH]; [done|]. intros _. destruct names as [|m names].
  - by exists (quote +:+ n).
  - destruct IH as [a Ha]; [done|]. cbn [map]. rewrite join_cons by done. cbn [map] in Ha. rewrite Ha.
    exists (quoted n +:+ "," +:+ a). by rewrite !str_app_assoc.
Qed.

Lemma join_quoted_front names : names <> [] -> exists b, join "," (map quoted names) = quote +:+ b.
Proof.
  destruct names as [|n [|m names]]; [done | |]; intros _; cbn [map]; [|rewrite join_cons by done]; unfold quoted at 1;
    eexists; rewrite ?str_app_assoc; reflexivity.
Qed.

Lemma join_quoted_size names :
  Forall (fun n => identifier n = true) names -> size_of (join "," (map quoted names)) <= 131 * Z.of_nat (length names).
Proof.
  induction 1 as [|n names Hn _ IH]; [done|].
  unfold identifier in Hn. apply andb_true_iff in Hn as [[_ Hs%Z.leb_le]%andb_true_iff _].
  destruct names as [|m names].
  - cbn [map join length]. unfold quoted. rewrite !size_of_app. change (size_of quote) with 1. lia.
  - cbn [map] in *. rewrite join_cons by done. unfold quoted at 1. rewrite !size_of_app.
    change (size_of quote) with 1. change (size_of ",") with 1. cbn [length] in *. lia.
Qed.

Lemma changed_fields_json names :
  Forall (fun n => identifier n = true) names -> (length names <= 64)%nat -> changed_fields (changed_json names) = names.
Proof.
  intros Hid Hlen. rewrite changed_json_join. destruct names as [|n names]; [reflexivity|].
  assert (Hne : n :: names <> []) by done. revert Hid Hlen Hne. generalize (n :: names). clear n names. intros names Hid Hlen Hne.
  destruct (join_quoted_back names Hne) as [a Ha]. destruct (join_quoted_front names Hne) as [b Hb].
  pose proof (join_quoted_size names Hid) as Hsize. unfold changed_fields.
  rewrite bool_decide_eq_false_2 by (rewrite Hb; done).
  assert (H1 : (64 * 132 <? size_of ("[" +:+ join "," (map quoted names) +:+ "]")) = false).
  { apply Z.ltb_ge. rewrite !size_of_app. change (size_of "[") with 1. change (size_of "]") with 1. lia. }
  assert (H2 : starts_with ("[" +:+ quote) ("[" +:+ join "," (map quoted names) +:+ "]") = true).
  { apply starts_with_spec. exists (b +:+ "]"). rewrite Hb. by rewrite !str_app_assoc. }
  assert (H3 : ends_with (quote +:+ "]") ("[" +:+ join "," (map quoted names) +:+ "]") = true).
  { rewrite Ha. replace ("[" +:+ (a +:+ quote) +:+ "]") with (("[" +:+ a) +:+ (quote +:+ "]")) by (by rewrite !str_app_assoc).
    apply ends_with_app. }
  rewrite H1, H2, H3. cbn [negb orb]. cbv zeta.
  assert (Hinner : str_take (String.length ("[" +:+ join "," (map quoted names) +:+ "]") - 2)
    (str_drop 1 ("[" +:+ join "," (map quoted names) +:+ "]")) = join "," (map quoted names)).
  { change (str_drop 1 ("[" +:+ join "," (map quoted names) +:+ "]")) with (str_drop 0 (join "," (map quoted names) +:+ "]")).
    replace (str_drop 0 (join "," (map quoted names) +:+ "]")) with (join "," (map quoted names) +:+ "]") by (by destruct (_ +:+ _)).
    rewrite !str_length_app. cbn [String.length].
    replace (1 + (String.length (join "," (map quoted names)) + 1) - 2)%nat with (String.length (join "," (map quoted names))) by lia.
    apply str_take_app. }
  rewrite Hinner. rewrite changed_fields_loop_join; [done | done | done | done | lia].
Qed.

(** ** An entry that was written by the public log *)

(** What journald adds itself: fields whose names begin with an underscore. *)
Definition trusted_datum (d : string) : Prop := starts_with "_" d = true.

Lemma find_trusted name trusted :
  front name <> Some "_"%char -> name <> "" -> Forall trusted_datum trusted -> List.find (starts_with (name +:+ "=")) trusted = None.
Proof.
  intros Hf Hn. induction 1 as [|d trusted Hd _ IH]; [done|]. cbn [List.find].
  destruct (starts_with (name +:+ "=") d) eqn:E; [|done]. exfalso.
  apply starts_with_spec in E as [r1 ->]. apply starts_with_spec in Hd as [r2 Hd].
  destruct name as [|c name]; [done|]. cbn in Hd. injection Hd as -> _. done.
Qed.

Lemma starts_with_name name other value :
  contains "=" name = false -> contains "=" other = false ->
  starts_with (name +:+ "=") (other +:+ "=" +:+ value) = bool_decide (name = other).
Proof.
  intros Hn Ho. apply Bool.eq_iff_eq_true. rewrite starts_with_spec, bool_decide_eq_true. split.
  - intros [rest Hr]. rewrite str_app_assoc in Hr. change (other +:+ String "=" value = name +:+ String "=" rest) in Hr.
    pose proof (cut_app "=" name rest Hn) as H1. rewrite <- Hr, (cut_app "=" other value Ho) in H1. congruence.
  - intros ->. exists value. by rewrite str_app_assoc.
Qed.

(** The value of a name is that of the first field with the name. *)
Lemma field_record time cursor record trusted name :
  forallb (fun f => negb (contains "=" (fd_name f))) record = true -> contains "=" name = false ->
  field (mkRaw time cursor (JournalSink_values record ++ trusted)) name =
  match List.find (fun f => name ==? fd_name f) record with
  | Some f => fd_value f
  | None => field (mkRaw time cursor trusted) name
  end.
Proof.
  intros Hr Hn. unfold field, get_data, JournalSink_values. cbn [re_data].
  induction record as [|f record IH]; cbn [map app List.find forallb] in *; [done|].
  apply andb_true_iff in Hr as [Hf%negb_true_iff Hr]. unfold journal_field at 1. rewrite starts_with_name by done.
  case_bool_decide as Hname; [|by apply IH]. subst name. unfold journal_field.
  change (fd_name f +:+ "=" +:+ fd_value f) with (fd_name f +:+ String "=" (fd_value f)). by rewrite cut_app.
Qed.

Lemma field_absent time cursor name trusted :
  front name <> Some "_"%char -> name <> "" -> Forall trusted_datum trusted -> field (mkRaw time cursor trusted) name = "".
Proof. intros H1 H2 H3. unfold field, get_data. cbn [re_data]. by rewrite find_trusted. Qed.

Lemma priority_read_back p : parse_journal_priority (to_string (priority_code p)) = p.
Proof. by destruct p. Qed.

(** The record of a valid event; [m] tells whether it has a module. *)
Definition user_record (log : LogBase) (priority : Priority) (event : UserEvent) (m : bool) : list Field :=
  [mkField "MESSAGE" (ue_message event); mkField "PRIORITY" (to_string (priority_code priority));
   mkField "MNC_COMPONENT" (lb_component log); mkField "MNC_LOG_AUDIENCE" "user"] ++
  (if m then [mkField "MNC_MODULE" (lb_module log)] else []) ++ [mkField "MNC_EVENT" (ue_code event)] ++ user_fields event.

Lemma UserLog_record_shape log priority event record :
  lb_audience log = user -> UserLog_record log priority event = Some record ->
  record = user_record log priority event (negb (empty (lb_module log))) /\
  changed_fields (changed_json (ue_changed_fields event)) = ue_changed_fields event.
Proof.
  intros Ha Hrec. unfold UserLog_record in Hrec. destruct (valid_user_event event) eqn:Hv; [|done]. cbn [negb] in Hrec.
  injection Hrec as <-. apply valid_user_event_spec in Hv as (Hcode & _ & _ & _ & _ & _ & _ & _ & _ & Hlen & Hids).
  split; [|by apply changed_fields_json].
  assert (Hne : empty (ue_code event) = false) by (unfold identifier in Hcode; by destruct (ue_code event)).
  unfold emit_record, core_fields, user_record. rewrite Ha, user_fields_emitted, Hne. cbn [negb].
  rewrite bool_decide_eq_true_2 by done. by rewrite <- !app_assoc.
Qed.

Lemma user_record_field log priority event m trusted time cursor name value :
  contains "=" name = false ->
  (forall m, List.find (fun f => name ==? fd_name f) (user_record log priority event m) = Some (mkField name value)) ->
  field (mkRaw time cursor (JournalSink_values (user_record log priority event m) ++ trusted)) name = value.
Proof. intros Hn Hf. rewrite field_record; [by rewrite Hf | by destruct m | done]. Qed.

Lemma user_record_module log priority event trusted time cursor :
  Forall trusted_datum trusted ->
  field (mkRaw time cursor (JournalSink_values (user_record log priority event (negb (empty (lb_module log)))) ++ trusted))
    "MNC_MODULE" = lb_module log.
Proof.
  intros Ht. rewrite field_record; [| by destruct (empty (lb_module log)) | done].
  destruct (empty (lb_module log)) eqn:Hm; [|reflexivity]. apply empty_spec in Hm. rewrite Hm.
  change (field (mkRaw time cursor trusted) "MNC_MODULE" = ""). by apply field_absent.
Qed.

(** C28: What the public log wrote is what a reader gets: a record of [UserLog] that
    passed through the journal, with whatever journald added to it, decodes to an
    entry with the message, the code, the priority, the author and every other
    part of the event, the list of changed fields included. *)
Theorem user_record_read_back log priority event record trusted time cursor :
  lb_audience log = user ->
  UserLog_record log priority event = Some record -> Forall trusted_datum trusted ->
  let e := current_entry (mkRaw (Some time) (Some cursor) (JournalSink_values record ++ trusted)) in
  en_timestamp e = time /\ en_cursor e = cursor /\ en_priority e = priority /\ en_message e = ue_message event /\
  en_component e = lb_component log /\ en_module e = lb_module log /\ en_event e = ue_code event /\ en_audience e = "user" /\
  mkUserEvent (en_event e) (en_category e) (en_message e) (en_actor e) (en_action e) (en_outcome e) (en_subject e)
    (en_changed_fields e) (en_request_id e) = event.
Proof.
  intros Ha Hrec Htr. destruct (UserLog_record_shape _ _ _ _ Ha Hrec) as [-> Hchanged].
  unfold current_entry. cbv zeta. rewrite user_record_module by done. clear Ha Hrec Htr.
  set (raw := mkRaw _ _ _).
  assert (Hf : forall name value, contains "=" name = false ->
    (forall m, List.find (fun f => name ==? fd_name f) (user_record log priority event m) = Some (mkField name value)) ->
    field raw name = value) by (intros; by apply user_record_field).
  rewrite (Hf "PRIORITY" (to_string (priority_code priority))), (Hf "MESSAGE" (ue_message event)),
    (Hf "MNC_COMPONENT" (lb_component log)), (Hf "MNC_EVENT" (ue_code event)), (Hf "MNC_LOG_AUDIENCE" "user"),
    (Hf "MNC_EVENT_CATEGORY" (ue_category event)), (Hf "MNC_ACTOR" (ue_actor event)), (Hf "MNC_ACTION" (ue_action event)),
    (Hf "MNC_OUTCOME" (ue_outcome event)), (Hf "MNC_SUBJECT" (ue_subject event)),
    (Hf "MNC_CHANGED_FIELDS" (changed_json (ue_changed_fields event))), (Hf "MNC_REQUEST_ID" (ue_request_id event))
    by (done || by intros []).
  rewrite priority_read_back, Hchanged. cbn. split_and!; try done. by destruct event.
Qed.

(** ** Reading page by page *)

Section pages.

Definition in_order (query : Query) (entries : list Entry) : list Entry :=
  if qu_newest_first query then rev entries else entries.

Definition selected (query : Query) (entries : list Entry) : list Entry :=
  List.filter (fun e => matches_query e query) entries.

Definition continue_after (query : Query) (cursor : string) : Query :=
  mkQuery (qu_component query) (qu_module query) (qu_maximum_priority query) (qu_since query) (Some cursor)
    (qu_components query) (qu_units query) (qu_limit query) (qu_audience query) (qu_category query) (qu_event query)
    (qu_until query) (qu_newest_first query) (qu_strict_cursor query).

(** The pages that a client gets who asks again from the last entry it has, until
    a page is empty. *)
Fixpoint pages (n : nat) (entries : list Entry) (query : Query) : list (list Entry) :=
  match n with
  | O => []
  | S n' =>
      match bounded_page entries query with
      | inr (e :: page) =>
          (e :: page) :: pages n' entries (continue_after query (en_cursor (List.last (e :: page) e)))
      | _ => []
      end
  end.

Lemma page_loop_take query room entries :
  room <> O -> page_loop query None room entries = take room (selected query entries).
Proof.
  revert room. induction entries as [|e rest IH]; intros room Hr; cbn; [by rewrite take_nil|].
  destruct (matches_query e query); cbn [negb]; [|by apply IH].
  destruct room as [|[|room]]; [done | done |]. rewrite IH by done. done.
Qed.

Lemma page_loop_seek query c room before e rest :
  en_cursor e = c -> Forall (fun x => en_cursor x <> c) before ->
  page_loop query (Some c) room (before ++ e :: rest) = page_loop query None room rest.
Proof.
  intros He. induction 1 as [|x before Hx _ IH]; cbn.
  - by rewrite bool_decide_eq_true_2.
  - by rewrite bool_decide_eq_false_2.
Qed.

(** A full or last page ends at one of the entries, and the rest follows it. *)
Lemma take_selected query k entries e page :
  take k (selected query entries) = e :: page ->
  exists l1 x l2, entries = l1 ++ x :: l2 /\ List.last (e :: page) e = x /\
    selected query entries = (e :: page) ++ selected query l2.
Proof.
  revert k e page. induction entries as [|y entries IH]; intros k e page; cbn; [by rewrite take_nil|].
  destruct (matches_query y query).
  - destruct k as [|k]; [done|]. cbn. intros [= <- Ht]. destruct page as [|z page].
    + exists [], y, entries. done.
    + destruct (IH k z page Ht) as (l1 & x & l2 & -> & Hl & Hs). exists (y :: l1), x, l2.
      split; [done|]. split; [|unfold selected in *; by rewrite Hs]. rewrite <- Hl. clear. revert z. induction page as [|w page IHp]; intros z; [done|].
      cbn in IHp |- *. destruct page; [done|]. apply (IHp z).
  - intros Ht. destruct (IH k e page Ht) as (l1 & x & l2 & -> & Hl & Hs). by exists (y :: l1), x, l2.
Qed.

Context (entries : list Entry) (Hunique : NoDup (map en_cursor entries)) (Hcursor : Forall (fun e => en_cursor e <> "") entries).

(** A query that continues behind [before]: it names the last cursor of it. *)
Definition continues (query : Query) (before : list Entry) : Prop :=
  (before = [] /\ after_of query = None) \/
  exists l e, before = l ++ [e] /\ after_of query = Some (en_cursor e).

Lemma bounded_page_continues query before rest :
  qu_limit query <> O -> in_order query entries = before ++ rest -> continues query before ->
  bounded_page entries query = inr (take (qu_limit query) (selected query rest)).
Proof.
  intros Hl Hsplit Hc. unfold bounded_page. rewrite (proj2 (Nat.eqb_neq _ _) Hl). fold (in_order query entries). rewrite Hsplit.
  destruct Hc as [[-> ->]|(l & e & -> & ->)]; [by rewrite page_loop_take|].
  assert (Hin : e ∈ in_order query entries) by (rewrite Hsplit; set_solver).
  assert (He : existsb (fun x => en_cursor x ==? en_cursor e) entries = true).
  { apply existsb_exists. exists e. split; [|by apply bool_decide_eq_true]. apply list_elem_of_In.
    unfold in_order in Hin. destruct (qu_newest_first query); [|done]. by rewrite list_elem_of_In, <- in_rev, <- list_elem_of_In in Hin. }
  rewrite He, andb_false_r, <- app_assoc. cbn [app]. rewrite page_loop_seek; [by rewrite page_loop_take | done|].
  assert (Hd : NoDup (map en_cursor (in_order query entries))).
  { unfold in_order. destruct (qu_newest_first query); [|done]. rewrite map_rev. apply NoDup_ListNoDup, NoDup_rev.
    by apply NoDup_ListNoDup. }
  rewrite Hsplit, <- app_assoc, map_app in Hd. apply NoDup_app in Hd as (_ & Hd & _).
  apply Forall_forall. intros x Hx Heq. apply (Hd (en_cursor x)); [by apply list_elem_of_fmap_2|].
  cbn. rewrite Heq. left.
Qed.

Lemma pages_continue n query before rest :
  qu_limit query <> O -> in_order query entries = before ++ rest -> continues query before -> (length rest < n)%nat ->
  concat (pages n entries query) = selected query rest.
Proof.
  revert query before rest. induction n as [|n IH]; intros query before rest Hl Hsplit Hc Hn; [lia|]. cbn [pages].
  rewrite (bounded_page_continues _ _ _ Hl Hsplit Hc).
  destruct (take (qu_limit query) (selected query rest)) as [|e page] eqn:Ht.
  - destruct (selected query rest); [done|]. by destruct (qu_limit query).
  - destruct (take_selected _ _ _ _ _ Ht) as (l1 & x & l2 & Hrest & Hlast & Hs). rewrite Hs. cbn [concat]. f_equal.
    set (c := List.last (e :: page) e) in *. replace (selected query l2) with (selected (continue_after query (en_cursor c)) l2) by done.
    apply (IH _ (before ++ l1 ++ [x])); [done | | |].
    + change (in_order (continue_after query (en_cursor c)) entries) with (in_order query entries).
      rewrite Hsplit, Hrest, <- !app_assoc. done.
    + right. exists (before ++ l1), x. split; [by rewrite app_assoc|]. unfold after_of. cbn [qu_after continue_after]. rewrite Hlast.
      assert (Hx : x ∈ entries).
      { assert (x ∈ in_order query entries) as Hx by (rewrite Hsplit, Hrest; set_solver). unfold in_order in Hx.
        destruct (qu_newest_first query); [by rewrite list_elem_of_In, <- in_rev, <- list_elem_of_In in Hx | done]. }
      rewrite Forall_forall in Hcursor. apply Hcursor, empty_false in Hx. by rewrite Hx.
    + rewrite Hrest, length_app in Hn. cbn in Hn. lia.
Qed.

End pages.

(** Paging loses and repeats nothing: when every entry has its own cursor, a
    client that asks for pages of any size, each time from the last entry it got,
    gets exactly the entries that match, each once and in the order asked for, and
    then an empty page; with strict cursors too. *)
Theorem pages_cover entries query :
  NoDup (map en_cursor entries) -> Forall (fun e => en_cursor e <> "") entries ->
  qu_limit query <> O -> after_of query = None ->
  concat (pages (S (length entries)) entries query) = selected query (in_order query entries).
Proof.
  intros Hu Hc Hl Ha. apply (pages_continue entries Hu Hc _ query [] (in_order query entries)); [done | done | by left|].
  unfold in_order. destruct (qu_newest_first query); [rewrite length_rev|]; lia.
Qed.

(** ** Samples *)

Definition sample_log : LogBase := mkLogBase "system-manager" "operations" user.

Definition sample_event : UserEvent :=
  mkUserEvent "settings_changed" "settings" "Settings changed" "admin" "apply" "completed" "device" ["network.end0"; "hostname"] "42".

Definition sample_raw (n : Z) : raw_entry :=
  mkRaw (Some n) (Some ("c" +:+ to_string n))
    (JournalSink_values (default [] (UserLog_record sample_log notice sample_event)) ++ ["_SYSTEMD_UNIT=mnc-system.service"]).

Lemma user_record_read_back_witness :
  let e := current_entry (sample_raw 7) in
  en_changed_fields e = ["network.end0"; "hostname"] /\ en_actor e = "admin" /\ en_systemd_unit e = "mnc-system.service".
Proof.
  destruct (user_record_read_back sample_log notice sample_event
    (default [] (UserLog_record sample_log notice sample_event)) ["_SYSTEMD_UNIT=mnc-system.service"] 7 "c7")
    as (_ & _ & _ & _ & _ & _ & _ & _ & He).
  - reflexivity.
  - vm_compute; reflexivity.
  - constructor; [reflexivity | constructor].
  - split; [exact (f_equal ue_changed_fields He)|]. split; [exact (f_equal ue_actor He)|]. vm_compute; reflexivity.
Defined.

Definition sample_entries : list Entry := map (fun n => current_entry (sample_raw n)) [1; 2; 3; 4; 5].

Definition sample_journal_query : Query :=
  mkQuery None None None (Some 2) None [] [] 2 (Some "user") None None None true true.

Lemma pages_cover_witness :
  map (map en_cursor) (pages 6 sample_entries sample_journal_query) = [["c5"; "c4"]; ["c3"; "c2"]] /\
  concat (pages 6 sample_entries sample_journal_query) = selected sample_journal_query (rev sample_entries).
Proof.
  split; [vm_compute; reflexivity|].
  apply (pages_cover sample_entries sample_journal_query).
  - apply (bool_decide_unpack _). vm_compute. exact I.
  - apply (bool_decide_unpack _). vm_compute. exact I.
  - discriminate.
  - reflexivity.
Defined.
