(* ===== verification/JournalReader.v ===== *)
(** * The journal reader (common/mnc/logging/journal_reader.cpp, lines 198 to 368)

    [JournalReader::read] and [follow] drive an iterator of libsystemd. The
    iterator is an interface, [JournalLib], whose laws say what its manual says:
    where a seek puts the position, and what the steps from there give. [read]
    is shown to give the page of the reference [bounded_page], and [follow] to
    deliver every entry once. *)

From stdpp Require Import sorting.
From S2P Require Import Prelude SystemTypes Logging Host Journal.

(** ** The iterator *)

(** Between the entries [n - 1] and [n], or on the entry [n]. *)
Inductive position := Before (n : nat) | At (n : nat).

Class JournalLib (J : Type) := {
  (** What the journal holds, oldest first, the matches that are set, and the
      position among the entries that match. *)
  entries : J -> list raw_entry;
  matches : J -> list string;
  place : J -> position;
  sd_journal_flush_matches : J -> J;
  sd_journal_add_match : string -> J -> J * Z;
  sd_journal_seek_tail : J -> J * Z;
  sd_journal_seek_cursor : string -> J -> J * Z;
  sd_journal_seek_realtime_usec : Z -> J -> J * Z;
  sd_journal_next : J -> J * Z;
  sd_journal_previous : J -> J * Z;
  sd_journal_test_cursor : string -> J -> Z;
  (** The fields, the time and the cursor of the entry at the position. *)
  current : J -> raw_entry;
  sd_journal_wait : Z -> J -> J * Z
}.

Definition has_data (ds : list string) (r : raw_entry) : bool := forallb (fun d => bool_decide (d ∈ re_data r)) ds.

(** The entries that the iterator visits. *)
Definition contents {J} `{JournalLib J} (j : J) : list raw_entry := List.filter (has_data (matches j)) (entries j).

(** The same journal with the same matches. *)
Definition same_view {J} `{JournalLib J} (j j' : J) : Prop := entries j' = entries j /\ matches j' = matches j.

(** The index that a step forward goes to, and the number of entries behind. *)
Definition next_index (p : position) : nat := match p with Before n => n | At n => S n end.

Definition previous_count (p : position) : nat := match p with Before n => n | At n => n end.

(** What the manual of sd_journal says of the calls; a negative result is a
    failure, of which nothing is known. *)
Class JournalLaws (J : Type) `{JournalLib J} := {
  flush_law j : entries (sd_journal_flush_matches j) = entries j /\ matches (sd_journal_flush_matches j) = [];
  match_law d j : let '(j', r) := sd_journal_add_match d j in 0 <= r -> entries j' = entries j /\ matches j' = d :: matches j;
  tail_law j : let '(j', r) := sd_journal_seek_tail j in 0 <= r -> same_view j j' /\ place j' = Before (length (contents j));
  (** The entry with the cursor; without one, the closest position. *)
  cursor_law c j : let '(j', r) := sd_journal_seek_cursor c j in 0 <= r -> same_view j j' /\
    exists k, place j' = Before k /\
      (Some c ∈ map re_cursor (contents j) -> exists e, contents j !! k = Some e /\ re_cursor e = Some c);
  (** Nothing at or after the time is skipped. *)
  realtime_law t j : let '(j', r) := sd_journal_seek_realtime_usec t j in 0 <= r -> same_view j j' /\
    exists k, place j' = Before k /\ Forall (fun e => default 0 (re_realtime e) < t) (take k (contents j));
  next_law j : let '(j', r) := sd_journal_next j in
    (r = 0 -> same_view j j' /\ contents j !! next_index (place j) = None) /\
    (0 < r -> same_view j j' /\ place j' = At (next_index (place j)) /\ is_Some (contents j !! next_index (place j)));
  previous_law j : let '(j', r) := sd_journal_previous j in
    (r = 0 -> same_view j j' /\ take (previous_count (place j)) (contents j) = []) /\
    (0 < r -> same_view j j' /\ exists i, place j' = At i /\ S i = (previous_count (place j) `min` length (contents j))%nat);
  test_law c j i : place j = At i -> contents j !! i = Some (current j) ->
    (sd_journal_test_cursor c j = 1 <-> re_cursor (current j) = Some c);
  current_law j i e : place j = At i -> contents j !! i = Some e -> current j = e
}.

(** ** Failures *)

(** [JournalError], [std::runtime_error] and [std::invalid_argument];
    [OutOfFuel] is of the model. *)
Inductive failure :=
  | JournalError (code : JournalErrorCode) (message : string)
  | RuntimeError (message : string)
  | InvalidArgument (message : string)
  | OutOfFuel.

Section read.
Context {J : Type} {JL : JournalLib J}.

Definition jm (A : Type) : Type := J -> J * (failure + A).

#[local] Instance jm_ret : MRet jm := fun A a j => (j, inr a).

#[local] Instance jm_bind : MBind jm := fun A B f m j =>
  match m j with
  | (j', inl e) => (j', inl e)
  | (j', inr a) => f a j'
  end.

Definition fail {A} (e : failure) : jm A := fun j => (j, inl e).

Definition lib {A} (f : J -> J * A) : jm A := fun j => let '(j', a) := f j in (j', inr a).

Definition read_error {A} : jm A := fail (JournalError read_failed "failed to read the system journal").

Definition expired {A} : jm A := fail (JournalError cursor_expired "journal cursor is no longer valid").

(** [if (detail::matches_query(entry, query)) result.push_back(entry)] for the
    current entry. *)
Definition push_current (query : Query) (result : list Entry) : jm (list Entry) := fun j =>
  let entry := current_entry (current j) in
  (j, inr (if matches_query entry query then result ++ [entry] else result)).

(** The lambda [step]. *)
Definition step (newest_first : bool) : J -> J * Z := if newest_first then sd_journal_previous else sd_journal_next.

(** [while (result.size() < query.limit && (state = step()) > 0) ...] and the
    test of [state] behind it. Every round moves on by one entry, so that more
    fuel than there are entries is enough. *)
Fixpoint read_loop (fuel : nat) (newest_first : bool) (query : Query) (result : list Entry) : jm (list Entry) :=
  if (length result <? qu_limit query)%nat then
    match fuel with
    | O => fail OutOfFuel
    | S fuel' =>
        state ← lib (step newest_first);
        if 0 <? state then result ← push_current query result; read_loop fuel' newest_first query result
        else if state <? 0 then read_error else mret result
    end
  else mret result.

(** The native match of the public stream. *)
Definition set_matches (query : Query) : jm unit :=
  _ ← lib (fun j => (sd_journal_flush_matches j, tt));
  if qu_audience query ==? Some "user" then
    r ← lib (sd_journal_add_match "MNC_LOG_AUDIENCE=user");
    if r <? 0 then fail (JournalError read_failed "failed to filter the system journal") else mret tt
  else mret tt.

(** Continuation from a cursor: the entries found so far. *)
Definition seek_after (query : Query) (c : string) : jm (list Entry) :=
  r ← lib (sd_journal_seek_cursor c);
  if r <? 0 then expired
  else
    positioned ← lib sd_journal_next;
    if positioned <? 0 then read_error
    else
      test ← lib (fun j => (j, sd_journal_test_cursor c j));
      if (positioned =? 0) || negb (test =? 1) then
        if qu_strict_cursor query then expired
        else if (0 <? positioned) && negb (qu_newest_first query) then push_current query [] else mret []
      else mret [].

(** [read] on an open journal. *)
Definition read_open (fuel : nat) (query : Query) : jm (list Entry) :=
  _ ← set_matches query;
  match after_of query with
  | Some c => result ← seek_after query c; read_loop fuel (qu_newest_first query) query result
  | None =>
      match qu_newest_first query, qu_since query with
      | false, Some since =>
          r ← lib (sd_journal_seek_realtime_usec (Z.max 0 since));
          if r <? 0 then read_error else read_loop fuel false query []
      | newest_first, _ =>
          r ← lib sd_journal_seek_tail;
          if r <? 0 then read_error
          else if newest_first then read_loop fuel true query []
          else result ← read_loop fuel true query []; mret (rev result)
      end
  end.

(** [JournalReader::available] and [JournalReader::read]; the journal is [None]
    when it could not be opened. *)
Definition available (journal : option J) : bool := match journal with Some _ => true | None => false end.

Definition read (fuel : nat) (query : Query) (journal : option J) : option J * (failure + list Entry) :=
  if Nat.eqb (qu_limit query) 0 then (journal, inr [])
  else
    match journal with
    | None => (journal, inl (JournalError unavailable_journal "failed to open the system journal"))
    | Some j => let '(j', r) := read_open fuel query j in (Some j', r)
    end.

End read.

#[export] Existing Instance jm_ret.
#[export] Existing Instance jm_bind.

(** ** Reading when no call fails *)

(** The calls succeed; a cursor that is in the journal can be sought. *)
Record reliable (J : Type) {JL : JournalLib J} : Prop := mkReliable {
  rel_match d (j : J) : 0 <= snd (sd_journal_add_match d j);
  rel_tail (j : J) : 0 <= snd (sd_journal_seek_tail j);
  rel_cursor c (j : J) i e : contents j !! i = Some e -> re_cursor e = Some c -> 0 <= snd (sd_journal_seek_cursor c j);
  rel_realtime t (j : J) : 0 <= snd (sd_journal_seek_realtime_usec t j);
  rel_next (j : J) : 0 <= snd (sd_journal_next j);
  rel_previous (j : J) : 0 <= snd (sd_journal_previous j)
}.

Section proof.
Context {J : Type} {JL : JournalLib J} {JW : JournalLaws J} (Hrel : reliable J).

Lemma same_view_contents (j j' : J) : same_view j j' -> contents j' = contents j.
Proof. intros [He Hm]. unfold contents. by rewrite He, Hm. Qed.

Lemma same_view_trans (j1 j2 j3 : J) : same_view j1 j2 -> same_view j2 j3 -> same_view j1 j3.
Proof. intros [] []. split; congruence. Qed.

(** The entries that lie ahead, in the direction of the reading. *)
Definition ahead (newest_first : bool) (j : J) : list raw_entry :=
  if newest_first then rev (take (previous_count (place j)) (contents j)) else drop (next_index (place j)) (contents j).

Definition standing_on (x : raw_entry) (j : J) : Prop := exists i, place j = At i /\ contents j !! i = Some x.

Lemma standing_current x j : standing_on x j -> current j = x.
Proof. intros (i & Hp & Hx). by eapply current_law. Qed.

Lemma next_spec j :
  match ahead false j with
  | [] => snd (sd_journal_next j) = 0 /\ same_view j (fst (sd_journal_next j))
  | x :: rest => 0 < snd (sd_journal_next j) /\ same_view j (fst (sd_journal_next j)) /\
      ahead false (fst (sd_journal_next j)) = rest /\ standing_on x (fst (sd_journal_next j))
  end.
Proof.
  pose proof (next_law j) as Hl. pose proof (rel_next J Hrel j) as Hr. destruct (sd_journal_next j) as [j' r]. cbn in *.
  destruct Hl as [H0 H1]. unfold ahead. destruct (contents j !! next_index (place j)) as [x|] eqn:Ex.
  - destruct (Z.lt_trichotomy r 0) as [?|[->|Hpos]]; [lia | by destruct (H0 eq_refl)|].
    rewrite (drop_S _ _ _ Ex). destruct (H1 Hpos) as (Hv & Hp & _).
    rewrite Hp, (same_view_contents _ _ Hv). split_and!; [done | exact Hv | done|]. exists (next_index (place j)).
    by rewrite (same_view_contents _ _ Hv).
  - rewrite drop_ge by (by apply lookup_ge_None). destruct (Z.lt_trichotomy r 0) as [?|[->|Hpos]]; [lia | by split; [|apply H0]|].
    destruct (H1 Hpos) as (_ & _ & [x Hx]). congruence.
Qed.

Lemma previous_spec j :
  match ahead true j with
  | [] => snd (sd_journal_previous j) = 0 /\ same_view j (fst (sd_journal_previous j))
  | x :: rest => 0 < snd (sd_journal_previous j) /\ same_view j (fst (sd_journal_previous j)) /\
      ahead true (fst (sd_journal_previous j)) = rest /\ standing_on x (fst (sd_journal_previous j))
  end.
Proof.
  pose proof (previous_law j) as Hl. pose proof (rel_previous J Hrel j) as Hr. destruct (sd_journal_previous j) as [j' r]. cbn in *.
  destruct Hl as [H0 H1]. unfold ahead. destruct (Z.lt_trichotomy r 0) as [?|[->|Hpos]]; [lia| |].
  - destruct (H0 eq_refl) as [Hv ->]. by split.
  - destruct (H1 Hpos) as (Hv & i & Hp & Hi). destruct (lookup_lt_is_Some_2 (contents j) i) as [x Hx]; [lia|].
    assert (Ht : take (previous_count (place j)) (contents j) = take i (contents j) ++ [x]).
    { rewrite <- (take_S_r _ _ _ Hx), Hi. destruct (Nat.le_ge_cases (previous_count (place j)) (length (contents j))).
      - by rewrite Nat.min_l.
      - by rewrite Nat.min_r, !take_ge. }
    rewrite Ht, rev_app_distr. cbn [rev app]. rewrite Hp, (same_view_contents _ _ Hv). cbn [previous_count].
    split_and!; [done | exact Hv | done|]. exists i. by rewrite (same_view_contents _ _ Hv).
Qed.

Lemma step_spec newest_first j :
  match ahead newest_first j with
  | [] => snd (step newest_first j) = 0 /\ same_view j (fst (step newest_first j))
  | x :: rest => 0 < snd (step newest_first j) /\ same_view j (fst (step newest_first j)) /\
      ahead newest_first (fst (step newest_first j)) = rest /\ standing_on x (fst (step newest_first j))
  end.
Proof. destruct newest_first; [apply previous_spec | apply next_spec]. Qed.

(** The loop takes the first matching entries ahead. *)
Lemma read_loop_spec fuel newest_first query result j :
  (length (ahead newest_first j) < fuel)%nat ->
  exists j', same_view j j' /\ read_loop fuel newest_first query result j =
    (j', inr (result ++ take (qu_limit query - length result) (selected query (map current_entry (ahead newest_first j))))).
Proof.
  revert result j. induction fuel as [|fuel IH]; intros result j Hf; [lia|]. cbn [read_loop].
  destruct (Nat.ltb_spec (length result) (qu_limit query)) as [Hroom|Hfull].
  2: { exists j. split; [done|]. replace (qu_limit query - length result)%nat with O by lia. cbn. by rewrite app_nil_r. }
  pose proof (step_spec newest_first j) as Hs. unfold mbind, jm_bind, lib.
  destruct (ahead newest_first j) as [|x rest] eqn:Ea; destruct (step newest_first j) as [j1 state]; cbn [fst snd] in Hs.
  - destruct Hs as [-> Hv]. cbn. exists j1. rewrite take_nil, app_nil_r. by split.
  - destruct Hs as (Hpos & Hv & Ha & Hx). rewrite (proj2 (Z.ltb_lt 0 state)) by lia. unfold push_current.
    rewrite (standing_current _ _ Hx). destruct (IH (if matches_query (current_entry x) query then result ++ [current_entry x] else result) j1)
      as (j2 & Hv2 & ->); [rewrite Ha; cbn in Hf; lia|]. exists j2. split; [by eapply same_view_trans|]. f_equal. f_equal.
    rewrite Ha. cbn [map]. unfold selected. cbn [List.filter]. destruct (matches_query (current_entry x) query); [|done].
    rewrite <- app_assoc, length_app. cbn [length app]. f_equal.
    replace (qu_limit query - length result)%nat with (S (qu_limit query - (length result + 1))) by lia. done.
Qed.

(** The entries that a query looks at. *)
Definition visible (query : Query) (es : list raw_entry) : list raw_entry :=
  if qu_audience query ==? Some "user" then List.filter (has_data ["MNC_LOG_AUDIENCE=user"]) es else es.

(** The journal as the query sees it, decoded. *)
Definition shown (query : Query) (j : J) : list Entry := map current_entry (visible query (entries j)).

(** Entries have their own cursors and times since 1970. *)
Definition journal_ok (es : list raw_entry) : Prop :=
  NoDup (map re_cursor es) /\ Forall (fun e => (exists c, re_cursor e = Some c /\ c <> "") /\ 0 <= default 0 (re_realtime e)) es.

Lemma filter_true {A} (l : list A) : List.filter (fun _ => true) l = l.
Proof. induction l; cbn; congruence. Qed.

Lemma set_matches_spec query j :
  exists j1, set_matches query j = (j1, inr tt) /\ entries j1 = entries j /\ contents j1 = visible query (entries j).
Proof.
  unfold set_matches, visible, mbind, jm_bind, lib. destruct (flush_law j) as [He Hm].
  set (j0 := sd_journal_flush_matches j) in *. destruct (qu_audience query ==? Some "user").
  - pose proof (match_law "MNC_LOG_AUDIENCE=user" j0) as Hl. pose proof (rel_match J Hrel "MNC_LOG_AUDIENCE=user" j0) as Hr.
    destruct (sd_journal_add_match _ j0) as [j1 r]. cbn in Hr. destruct (Hl Hr) as [He1 Hm1].
    rewrite (proj2 (Z.ltb_ge r 0)) by lia. exists j1. unfold contents. rewrite He1, Hm1, He, Hm. by split.
  - exists j0. split; [done|]. split; [done|]. unfold contents. rewrite Hm, He. apply filter_true.
Qed.

Lemma visible_ok query es : journal_ok es -> journal_ok (visible query es).
Proof.
  unfold visible. destruct (qu_audience query ==? Some "user"); [|done]. intros [Hd Hf]. split.
  - by apply NoDup_map_filter.
  - rewrite Forall_forall in Hf |- *. intros e [He _]%list_elem_of_In%filter_In. by apply Hf, list_elem_of_In.
Qed.

Lemma entry_cursor e c : re_cursor e = Some c -> en_cursor (current_entry e) = c.
Proof. intros H. cbn. by rewrite H. Qed.

Lemma journal_ok_cursors es : journal_ok es ->
  NoDup (map en_cursor (map current_entry es)) /\ Forall (fun e => en_cursor e <> "") (map current_entry es).
Proof.
  intros [Hd Hf]. split.
  - rewrite map_map. induction es as [|e es IH]; cbn [map]; [constructor|].
    apply NoDup_cons in Hd as [Hin Hd]. apply Forall_cons in Hf as [[(c & Hc & _) _] Hf]. apply NoDup_cons. split; [|by apply IH].
    intros (x & Hx & Hxin)%list_elem_of_fmap. apply Hin. rewrite Forall_forall in Hf.
    destruct (Hf x Hxin) as [(c' & Hc' & _) _]. rewrite (entry_cursor _ _ Hc), (entry_cursor _ _ Hc') in Hx.
    rewrite Hc, Hx, <- Hc'. by apply list_elem_of_fmap_2.
  - apply Forall_fmap. eapply Forall_impl; [exact Hf|]. intros e [(c & Hc & Hne) _]. change (en_cursor (current_entry e) <> ""). by rewrite (entry_cursor _ _ Hc).
Qed.

(** Seeking a cursor that is there stops on its entry. *)
Lemma seek_after_found query c j pre x post :
  NoDup (map re_cursor (contents j)) -> contents j = pre ++ x :: post -> re_cursor x = Some c ->
  exists j', seek_after query c j = (j', inr []) /\ same_view j j' /\ ahead false j' = post /\ ahead true j' = rev pre.
Proof.
  intros Hd Hc Hx. assert (Hi : contents j !! length pre = Some x) by (by rewrite Hc, list_lookup_middle).
  unfold seek_after, mbind, jm_bind, lib. pose proof (cursor_law c j) as Hl. pose proof (rel_cursor J Hrel c j _ _ Hi Hx) as Hr.
  destruct (sd_journal_seek_cursor c j) as [j1 r]. cbn in Hr. destruct (Hl Hr) as (Hv & k & Hp & Hk).
  rewrite (proj2 (Z.ltb_ge r 0)) by lia. assert (k = length pre) as ->.
  { destruct Hk as (e & He & Hec); [rewrite <- Hx; apply list_elem_of_fmap_2; by eapply list_elem_of_lookup_2|].
    eapply (NoDup_lookup _ k (length pre) (Some c) Hd); rewrite list_lookup_fmap; [rewrite He | rewrite Hi]; cbn; congruence. }
  pose proof (next_spec j1) as Hn. assert (Ha : ahead false j1 = x :: post).
  { unfold ahead. rewrite Hp, (same_view_contents _ _ Hv), Hc. cbn [next_index]. by rewrite drop_app_length. }
  rewrite Ha in Hn. pose proof (next_law j1) as Hnl. destruct (sd_journal_next j1) as [j2 positioned]. cbn [fst snd] in Hn.
  destruct Hn as (Hpos & Hv2 & Ha2 & Hx2). rewrite (proj2 (Z.ltb_ge positioned 0)) by lia.
  assert (Ht : sd_journal_test_cursor c j2 = 1).
  { destruct Hx2 as (i & Hp2 & Hi2). pose proof (standing_current x j2 ltac:(by exists i)) as Hcur.
    apply (test_law c j2 i Hp2); rewrite Hcur; done. }
  rewrite Ht, (proj2 (Z.eqb_neq positioned 0)) by lia. change (1 =? 1) with true. cbn [orb negb]. exists j2.
  split; [done|]. split; [by eapply same_view_trans|]. split; [done|].
  destruct Hnl as [_ Hnl]. destruct (Hnl Hpos) as (_ & Hp2 & _). unfold ahead.
  rewrite Hp2, (same_view_contents _ _ Hv2), (same_view_contents _ _ Hv), Hc, Hp. cbn [next_index previous_count].
  by rewrite take_app_length.
Qed.

(** A strict cursor that is not there is refused. *)
Lemma seek_after_missing query c j :
  qu_strict_cursor query = true -> (forall e, e ∈ contents j -> re_cursor e <> Some c) ->
  snd (seek_after query c j) = inl (JournalError cursor_expired "journal cursor is no longer valid").
Proof.
  intros Hs Hm. unfold seek_after, mbind, jm_bind, lib. pose proof (cursor_law c j) as Hl.
  destruct (sd_journal_seek_cursor c j) as [j1 r]. destruct (Z.ltb_spec r 0); [done|]. destruct (Hl ltac:(lia)) as (Hv & k & Hp & _).
  pose proof (next_spec j1) as Hn. destruct (ahead false j1) as [|x rest]; destruct (sd_journal_next j1) as [j2 positioned]; cbn [fst snd] in Hn.
  - destruct Hn as [-> _]. cbn. by rewrite Hs.
  - destruct Hn as (Hpos & Hv2 & _ & Hx). rewrite (proj2 (Z.ltb_ge positioned 0)) by lia.
    assert (Ht : sd_journal_test_cursor c j2 <> 1).
    { intros Ht. destruct Hx as (i & Hp2 & Hi2). pose proof (standing_current x j2 ltac:(by exists i)) as Hcur.
      apply (test_law c j2 i Hp2) in Ht; [|by rewrite Hcur]. rewrite Hcur in Ht. apply (Hm x); [|done].
      rewrite (same_view_contents _ _ Hv2), (same_view_contents _ _ Hv) in Hi2. by eapply list_elem_of_lookup_2. }
    rewrite (proj2 (Z.eqb_neq _ 1)) by done. cbn [negb]. rewrite orb_true_r, Hs. done.
Qed.

(** What [read] answers from a position, given what lies ahead. *)
Lemma read_loop_answer fuel newest_first query j :
  (length (ahead newest_first j) < fuel)%nat ->
  snd (read_loop fuel newest_first query [] j) = inr (take (qu_limit query) (selected query (map current_entry (ahead newest_first j)))) /\
  same_view j (fst (read_loop fuel newest_first query [] j)).
Proof.
  intros Hf. destruct (read_loop_spec fuel newest_first query [] j Hf) as (j' & Hv & ->). cbn.
  by rewrite Nat.sub_0_r.
Qed.

Lemma ahead_length newest_first (j : J) : (length (ahead newest_first j) <= length (contents j))%nat.
Proof. unfold ahead. destruct newest_first; [rewrite length_rev, length_take | rewrite length_drop]; lia. Qed.

Lemma contents_length (j : J) : (length (contents j) <= length (entries j))%nat.
Proof. unfold contents. apply List.filter_length_le. Qed.

(** The entries that a query selects, without those that the seek skips. *)
Lemma skipped_since query since es k :
  qu_since query = Some since -> Forall (fun e => 0 <= default 0 (re_realtime e)) es ->
  Forall (fun e => default 0 (re_realtime e) < Z.max 0 since) (take k es) ->
  selected query (map current_entry es) = selected query (map current_entry (drop k es)).
Proof.
  intros Hs Hpos Hskip. rewrite <- (take_drop k es) at 1. rewrite map_app. unfold selected. rewrite List.filter_app.
  enough (Hnil : List.filter (fun e => matches_query e query) (map current_entry (take k es)) = []) by (by rewrite Hnil).
  assert (Hp : Forall (fun e => 0 <= default 0 (re_realtime e)) (take k es)) by (by apply Forall_take).
  induction (take k es) as [|e l IH]; [done|]. apply Forall_cons in Hskip as [H1 H2]. apply Forall_cons in Hp as [H3 H4].
  cbn [map List.filter]. assert (Hm : matches_query (current_entry e) query = false); [|rewrite Hm; by apply IH].
  unfold matches_query. rewrite Hs. change (en_timestamp (current_entry e)) with (default 0 (re_realtime e)).
  rewrite (proj2 (Z.ltb_lt _ since)) by lia. by repeat case_match.
Qed.

(** The query says where to start: behind a cursor, at the newest entry, or at a
    time. *)
Definition anchored (query : Query) : Prop :=
  after_of query <> None \/ qu_newest_first query = true \/ qu_since query <> None.

(** A cursor that need not be strict is there. *)
Definition cursor_there (query : Query) (j : J) : Prop :=
  forall c, after_of query = Some c -> qu_strict_cursor query = true \/ Some c ∈ map re_cursor (visible query (entries j)).

Definition answer (r : JournalErrorCode + list Entry) : failure + list Entry :=
  match r with
  | inl _ => inl (JournalError cursor_expired "journal cursor is no longer valid")
  | inr page => inr page
  end.

Lemma seek_page fuel query c j :
  qu_limit query <> O -> journal_ok (contents j) -> after_of query = Some c ->
  qu_strict_cursor query = true \/ Some c ∈ map re_cursor (contents j) -> (length (contents j) < fuel)%nat ->
  snd ((result ← seek_after query c; read_loop fuel (qu_newest_first query) query result) j) =
  answer (bounded_page (map current_entry (contents j)) query).
Proof.
  intros Hlim Hok Ha Hthere Hfuel. pose proof (journal_ok_cursors _ Hok) as [Hd Hne].
  destruct (decide (Some c ∈ map re_cursor (contents j))) as [Hin|Hout].
  - apply list_elem_of_fmap in Hin as (x & Hx & (pre & post & Hsplit)%list_elem_of_split).
    destruct (seek_after_found query c j pre x post (proj1 Hok) Hsplit (eq_sym Hx)) as (j2 & Hseek & Hv & Hfwd & Hbwd).
    unfold mbind, jm_bind. rewrite Hseek. destruct (read_loop_answer fuel (qu_newest_first query) query j2) as [-> _].
    { pose proof (ahead_length (qu_newest_first query) j2). rewrite (same_view_contents _ _ Hv) in *. lia. }
    set (before := if qu_newest_first query then rev (map current_entry post) else map current_entry pre).
    rewrite (bounded_page_continues _ Hd Hne query (before ++ [current_entry x]) (map current_entry (ahead (qu_newest_first query) j2)));
      [done | done | |].
    + rewrite Hsplit, map_app. cbn [map]. unfold in_order, before. destruct (qu_newest_first query).
      * rewrite rev_app_distr, Hbwd, map_rev. cbn [rev]. by rewrite <- !app_assoc.
      * by rewrite Hfwd, <- app_assoc.
    + right. exists before, (current_entry x). split; [done|]. by rewrite (entry_cursor x c), Ha.
  - destruct Hthere as [Hstrict|?]; [|done]. assert (Hmiss : forall e, e ∈ contents j -> re_cursor e <> Some c).
    { intros e He Hec. apply Hout. rewrite <- Hec. by apply list_elem_of_fmap_2. }
    pose proof (seek_after_missing query c j Hstrict Hmiss) as Hseek. unfold mbind, jm_bind.
    destruct (seek_after query c j) as [j2 r]. cbn in Hseek. subst r. unfold bounded_page.
    rewrite (proj2 (Nat.eqb_neq _ _) Hlim), Ha, Hstrict. replace (existsb _ _) with false; [done|]. symmetry.
    apply not_true_is_false. intros (e & He & Hec%bool_decide_eq_true)%existsb_exists. apply list_elem_of_In in He.
    apply list_elem_of_fmap in He as (raw & -> & Hraw). destruct Hok as [_ Hf]. rewrite Forall_forall in Hf.
    destruct (Hf raw Hraw) as [(c' & Hc' & _) _]. rewrite (entry_cursor _ _ Hc') in Hec. subst c'. by apply (Hmiss raw).
Qed.

(** From the tail backwards. *)
Lemma tail_loop fuel query j :
  (length (contents j) < fuel)%nat ->
  exists j', (r ← lib sd_journal_seek_tail; if r <? 0 then read_error else read_loop fuel true query []) j =
    (j', inr (take (qu_limit query) (selected query (rev (map current_entry (contents j)))))).
Proof.
  intros Hfuel. unfold mbind, jm_bind, lib. pose proof (tail_law j) as Hl. pose proof (rel_tail J Hrel j) as Hr.
  destruct (sd_journal_seek_tail j) as [j1 r]. cbn in Hr. destruct (Hl Hr) as [Hv Hp]. rewrite (proj2 (Z.ltb_ge r 0)) by lia.
  pose proof (ahead_length true j1) as Hlen. rewrite (same_view_contents _ _ Hv) in Hlen.
  destruct (read_loop_spec fuel true query [] j1) as (j2 & _ & ->); [lia|]. exists j2. cbn [app length]. rewrite Nat.sub_0_r.
  unfold ahead. rewrite Hp, (same_view_contents _ _ Hv). cbn [previous_count]. by rewrite firstn_all, map_rev.
Qed.

Lemma since_loop fuel query since j :
  qu_since query = Some since -> journal_ok (contents j) -> (length (contents j) < fuel)%nat ->
  snd ((r ← lib (sd_journal_seek_realtime_usec (Z.max 0 since)); if r <? 0 then read_error else read_loop fuel false query []) j) =
  inr (take (qu_limit query) (selected query (map current_entry (contents j)))).
Proof.
  intros Hs [_ Hf] Hfuel. unfold mbind, jm_bind, lib. pose proof (realtime_law (Z.max 0 since) j) as Hl.
  pose proof (rel_realtime J Hrel (Z.max 0 since) j) as Hr. destruct (sd_journal_seek_realtime_usec _ j) as [j1 r]. cbn in Hr.
  destruct (Hl Hr) as (Hv & k & Hp & Hskip). rewrite (proj2 (Z.ltb_ge r 0)) by lia.
  destruct (read_loop_answer fuel false query j1) as [-> _].
  { pose proof (ahead_length false j1). rewrite (same_view_contents _ _ Hv) in *. lia. }
  unfold ahead. rewrite Hp, (same_view_contents _ _ Hv). cbn [next_index].
  rewrite <- (skipped_since query since (contents j) k); [done | done | | done].
  eapply Forall_impl; [exact Hf|]. by intros e [_ ?].
Qed.

Lemma bounded_page_whole query es :
  qu_limit query <> O -> after_of query = None ->
  bounded_page es query = inr (take (qu_limit query) (selected query (in_order query es))).
Proof. intros Hlim Ha. unfold bounded_page. rewrite (proj2 (Nat.eqb_neq _ _) Hlim), Ha. f_equal. by apply page_loop_take. Qed.

Lemma read_open_page fuel query j :
  qu_limit query <> O -> journal_ok (entries j) -> anchored query -> cursor_there query j -> (length (entries j) < fuel)%nat ->
  snd (read_open fuel query j) = answer (bounded_page (shown query j) query).
Proof.
  intros Hlim Hok Hanch Hthere Hfuel. unfold read_open, shown.
  destruct (set_matches_spec query j) as (j1 & Hset & He1 & Hc1). unfold mbind at 1, jm_bind at 1. rewrite Hset.
  pose proof (visible_ok query _ Hok) as Hvok. unfold cursor_there in Hthere. rewrite <- Hc1 in *.
  assert (Hlen : (length (contents j1) < fuel)%nat) by (pose proof (contents_length j1); rewrite He1 in *; lia).
  destruct (after_of query) as [c|] eqn:Ha; [by apply seek_page; auto|].
  rewrite (bounded_page_whole query) by done. unfold in_order.
  destruct (qu_newest_first query) eqn:En.
  - by destruct (tail_loop fuel query j1 Hlen) as [j2 ->].
  - destruct (qu_since query) as [since|] eqn:Es; [by apply since_loop|]. destruct Hanch as [?|[?|?]]; congruence.
Qed.

Lemma read_open_recent fuel query j :
  after_of query = None -> qu_newest_first query = false -> qu_since query = None -> (length (entries j) < fuel)%nat ->
  snd (read_open fuel query j) = inr (rev (take (qu_limit query) (selected query (rev (shown query j))))).
Proof.
  intros Ha Hn Hs Hfuel. unfold read_open, shown.
  destruct (set_matches_spec query j) as (j1 & Hset & He1 & Hc1). unfold mbind at 1, jm_bind at 1. rewrite Hset, Ha, Hn, Hs, <- Hc1.
  assert (Hlen : (length (contents j1) < fuel)%nat) by (pose proof (contents_length j1); rewrite He1 in *; lia).
  destruct (tail_loop fuel query j1 Hlen) as [j2 Ht]. unfold mbind, jm_bind in Ht |- *.
  destruct (lib sd_journal_seek_tail j1) as [j3 [e|r]]; [done|]. destruct (r <? 0); [done|]. by rewrite Ht.
Qed.

End proof.

(** C12: [read] answers as the reference does: when no call of the library fails,
    every entry has a cursor of its own, and the cursor to continue from is there
    or has to be (strict), a query that says where to start gets exactly the page
    of [bounded_page] over the entries it may see, in either order, or is refused
    because its cursor has expired; a query that does not gets the last matching
    entries, oldest first. The fuel is one more than the number of entries. *)
Theorem read_answers {J} {JL : JournalLib J} {JW : JournalLaws J} (Hrel : reliable J) query (j : J) :
  journal_ok (entries j) -> cursor_there query j ->
  (anchored query ->
   snd (read (S (length (entries j))) query (Some j)) = answer (bounded_page (shown query j) query)) /\
  (~ anchored query ->
   snd (read (S (length (entries j))) query (Some j)) = inr (rev (take (qu_limit query) (selected query (rev (shown query j)))))).
Proof.
  intros Hok Hthere. unfold read. destruct (Nat.eqb_spec (qu_limit query) 0) as [Hz|Hnz].
  - split; intros _; [|by rewrite Hz]. unfold bounded_page. by rewrite Hz.
  - split; intros Ha.
    + rewrite <- (read_open_page Hrel (S (length (entries j))) query j); [|done | done | done | done | lia].
      by destruct (read_open _ query j).
    + rewrite <- (read_open_recent Hrel (S (length (entries j))) query j).
      * by destruct (read_open _ query j).
      * destruct (after_of query) eqn:E; [|done]. exfalso. apply Ha. left. congruence.
      * destruct (qu_newest_first query) eqn:E; [|done]. exfalso. apply Ha. by right; left.
      * destruct (qu_since query) eqn:E; [|done]. exfalso. apply Ha. right; right. congruence.
      * lia.
Qed.

(** ** Following *)

(** [continuation.after = entry.cursor; continuation.since = entry.timestamp]. *)
Definition continue_behind (query : Query) (e : Entry) : Query :=
  mkQuery (qu_component query) (qu_module query) (qu_maximum_priority query) (Some (en_timestamp e)) (Some (en_cursor e))
    (qu_components query) (qu_units query) (qu_limit query) (qu_audience query) (qu_category query) (qu_event query)
    (qu_until query) (qu_newest_first query) (qu_strict_cursor query).

(** [continuation.after.reset()]. *)
Definition without_cursor (query : Query) : Query :=
  mkQuery (qu_component query) (qu_module query) (qu_maximum_priority query) (qu_since query) None
    (qu_components query) (qu_units query) (qu_limit query) (qu_audience query) (qu_category query) (qu_event query)
    (qu_until query) (qu_newest_first query) (qu_strict_cursor query).

Inductive follow_end := Stopped | Raised (f : failure) | Running.

Definition SD_JOURNAL_INVALIDATE : Z := 2.

Section follow.
Context {J : Type} {JL : JournalLib J}.

(** The handler may decide by what it was given before; [keep_running] by how
    often it was asked. *)
Context (handler : list Entry -> Entry -> bool) (keep_running : option (nat -> bool)) (wake_interval : Z).

Record Following := mkFollowing {
  fo_journal : J;
  fo_continuation : Query;
  fo_delivered : list Entry;   (* what the handler was given, oldest first *)
  fo_asked : nat               (* calls of keep_running *)
}.

(** [for (const auto &entry : entries) { if (!handler(entry)) return; ... }]: the
    flag says whether to go on. *)
Fixpoint hand (page : list Entry) (f : Following) : Following * bool :=
  match page with
  | [] => (f, true)
  | e :: rest =>
      if handler (fo_delivered f) e then
        hand rest (mkFollowing (fo_journal f) (continue_behind (fo_continuation f) e) (fo_delivered f ++ [e]) (fo_asked f))
      else (mkFollowing (fo_journal f) (fo_continuation f) (fo_delivered f ++ [e]) (fo_asked f), false)
  end.

(** [read(continuation)]. *)
Definition next_page (f : Following) : Following * (failure + list Entry) :=
  if Nat.eqb (qu_limit (fo_continuation f)) 0 then (f, inr [])
  else
    let '(j, r) := read_open (S (length (entries (fo_journal f)))) (fo_continuation f) (fo_journal f) in
    (mkFollowing j (fo_continuation f) (fo_delivered f) (fo_asked f), r).

(** [keep_running && !keep_running()]. *)
Definition stop_asked (f : Following) : Following * bool :=
  match keep_running with
  | None => (f, false)
  | Some k => (mkFollowing (fo_journal f) (fo_continuation f) (fo_delivered f) (S (fo_asked f)), negb (k (fo_asked f)))
  end.

Definition set_journal (j : J) (f : Following) : Following := mkFollowing j (fo_continuation f) (fo_delivered f) (fo_asked f).

(** The wait at the end of a round, and what follows it. *)
Definition wait_round (f : Following) : Following * option follow_end :=
  let '(j, state) := sd_journal_wait (wake_interval * 1000) (fo_journal f) in
  let f := set_journal j f in
  if state <? 0 then (f, Some (Raised (RuntimeError "failed while following the journal")))
  else
    let '(f, stop) := stop_asked f in
    if stop : bool then (f, Some Stopped)
    else
      match (state =? SD_JOURNAL_INVALIDATE), qu_after (fo_continuation f) with
      | true, Some c =>
          let '(j, r) := sd_journal_seek_cursor c (fo_journal f) in
          let f := set_journal j f in
          (if r <? 0 then mkFollowing (fo_journal f) (without_cursor (fo_continuation f)) (fo_delivered f) (fo_asked f) else f, None)
      | _, _ => (f, None)
      end.

(** One round of the loop; [None] when it goes on. *)
Definition round (f : Following) : Following * option follow_end :=
  let '(f, stop) := stop_asked f in
  if stop : bool then (f, Some Stopped)
  else
    let '(f, r) := next_page f in
    match r with
    | inl e => (f, Some (Raised e))
    | inr [] => wait_round f
    | inr page => let '(f, go_on) := hand page f in (f, if go_on : bool then None else Some Stopped)
    end.

(** [for (;;)], for a number of rounds. *)
Fixpoint rounds (n : nat) (f : Following) : Following * follow_end :=
  match n with
  | O => (f, Running)
  | S n' => match round f with (f', Some e) => (f', e) | (f', None) => rounds n' f' end
  end.

(** [follow] on an open journal, with the number of rounds to run. *)
Definition follow_open (n : nat) (query : Query) (j : J) : Following * follow_end :=
  let start := mkFollowing j query [] 0 in
  if qu_newest_first query then (start, Raised (InvalidArgument "journal follow requires oldest-first order"))
  else
    let '(f, r) := next_page start in
    match r with
    | inl e => (f, Raised e)
    | inr page =>
        let '(f, go_on) := hand page f in
        if negb go_on then (f, Stopped)
        else
          match qu_after (fo_continuation f) with
          | None =>
              let '(j, r) := sd_journal_seek_tail (fo_journal f) in
              if r <? 0 then (set_journal j f, Raised (RuntimeError "failed to follow the system journal"))
              else rounds n (set_journal j f)
          | Some _ => rounds n f
          end
    end.

(** [JournalReader::follow]: what was delivered, and how it ended. *)
Definition follow (n : nat) (query : Query) (journal : option J) : list Entry * follow_end :=
  match journal with
  | None => ([], Raised (RuntimeError "failed to open the system journal"))
  | Some j => let '(f, e) := follow_open n query j in (fo_delivered f, e)
  end.

End follow.

(** ** Following loses nothing *)

(** A journal that only grows, whose times do not go back: [good] holds of it
    and stays. *)
Record append_only {J} {JL : JournalLib J} (good : J -> Prop) : Prop := mkAppendOnly {
  ao_ok j : good j -> journal_ok (entries j);
  ao_sorted j : good j -> StronglySorted Z.le (map (fun e => default 0 (re_realtime e)) (entries j));
  ao_flush j : good j -> good (sd_journal_flush_matches j);
  ao_match d j : good j -> good (fst (sd_journal_add_match d j)) /\ entries (fst (sd_journal_add_match d j)) = entries j;
  ao_tail j : good j -> good (fst (sd_journal_seek_tail j)) /\ entries (fst (sd_journal_seek_tail j)) = entries j;
  ao_cursor c j : good j -> good (fst (sd_journal_seek_cursor c j)) /\ entries (fst (sd_journal_seek_cursor c j)) = entries j;
  ao_realtime t j : good j ->
    good (fst (sd_journal_seek_realtime_usec t j)) /\ entries (fst (sd_journal_seek_realtime_usec t j)) = entries j;
  ao_next j : good j -> good (fst (sd_journal_next j)) /\ entries (fst (sd_journal_next j)) = entries j;
  ao_previous j : good j -> good (fst (sd_journal_previous j)) /\ entries (fst (sd_journal_previous j)) = entries j;
  ao_wait t j : good j -> good (fst (sd_journal_wait t j)) /\ 0 <= snd (sd_journal_wait t j) < SD_JOURNAL_INVALIDATE /\
    exists new, entries (fst (sd_journal_wait t j)) = entries j ++ new
}.

Lemma last_default {A} (x : A) l d d' : List.last (x :: l) d = List.last (x :: l) d'.
Proof. revert x. induction l as [|y l IH]; intros x; [done | exact (IH y)]. Qed.

Lemma last_In {A} (x : A) l d : In (List.last (x :: l) d) (x :: l).
Proof. revert x. induction l as [|y l IH]; intros x; [by left | right; exact (IH y)]. Qed.

Section following.
Context {J : Type} {JL : JournalLib J} {JW : JournalLaws J} (Hrel : reliable J) (good : J -> Prop) (Hao : append_only good).
Context (handler : list Entry -> Entry -> bool) (keep_running : option (nat -> bool)) (wake_interval : Z).

(** Reading leaves the journal as it is. *)
Definition stays (j j' : J) : Prop := good j -> good j' /\ entries j' = entries j.

Lemma stays_refl j : stays j j.
Proof. done. Qed.

Lemma stays_trans j1 j2 j3 : stays j1 j2 -> stays j2 j3 -> stays j1 j3.
Proof. intros H1 H2 Hg. destruct (H1 Hg) as [Hg2 E2]. destruct (H2 Hg2) as [Hg3 E3]. split; congruence. Qed.

Lemma stays_bind {A B} (m : jm (J := J) A) (k : A -> jm B) j :
  stays j (fst (m j)) -> (forall a j', stays j' (fst (k a j'))) -> stays j (fst ((m ≫= k) j)).
Proof.
  intros Hm Hk. unfold mbind, jm_bind. destruct (m j) as [j' [e|a]]; [done|]. eapply stays_trans; [exact Hm | apply Hk].
Qed.

Lemma stays_lib {A} (f : J -> J * A) j : stays j (fst (f j)) -> stays j (fst (lib f j)).
Proof. unfold lib. by destruct (f j). Qed.

Lemma stays_step newest_first j : stays j (fst (lib (step newest_first) j)).
Proof. apply stays_lib. intros Hg. destruct newest_first; [by apply ao_previous | by apply ao_next]. Qed.

Lemma stays_read_loop fuel newest_first query result j : stays j (fst (read_loop fuel newest_first query result j)).
Proof.
  revert result j. induction fuel as [|fuel IH]; intros result j; cbn [read_loop]; destruct (_ <? _)%nat; try apply stays_refl.
  apply stays_bind; [apply stays_step | intros state j1]. destruct (0 <? state); [|by destruct (state <? 0)].
  apply stays_bind; [apply stays_refl | intros r j2; apply IH].
Qed.

Lemma stays_seek_after query c j : stays j (fst (seek_after query c j)).
Proof.
  unfold seek_after. apply stays_bind; [apply stays_lib; intros Hg; by apply ao_cursor | intros r j1]. destruct (r <? 0); [done|].
  apply stays_bind; [apply stays_lib; intros Hg; by apply ao_next | intros p j2]. destruct (p <? 0); [done|].
  apply stays_bind; [by apply stays_lib | intros t j3]. by repeat case_match.
Qed.

Lemma stays_set_matches query j : stays j (fst (set_matches query j)).
Proof.
  unfold set_matches. apply stays_bind.
  - apply stays_lib. intros Hg. split; [by apply ao_flush | apply flush_law].
  - intros [] j1. destruct (qu_audience query ==? Some "user"); [|done].
    apply stays_bind; [apply stays_lib; intros Hg; by apply ao_match | intros r j2]. by destruct (r <? 0).
Qed.

Lemma stays_read_open fuel query j : stays j (fst (read_open fuel query j)).
Proof.
  unfold read_open. apply stays_bind; [apply stays_set_matches | intros [] j1]. destruct (after_of query) as [c|].
  { apply stays_bind; [apply stays_seek_after | intros r j2; apply stays_read_loop]. }
  assert (Htail : forall (k : jm (list Entry)) j, (forall j, stays j (fst (k j))) ->
    stays j (fst ((r ← lib sd_journal_seek_tail; if r <? 0 then read_error else k) j))).
  { intros k j2 Hk. apply stays_bind; [apply stays_lib; intros Hg; by apply ao_tail | intros r j3]. by destruct (r <? 0). }
  destruct (qu_newest_first query); [apply Htail; intros j2; apply stays_read_loop|]. destruct (qu_since query) as [since|].
  - apply stays_bind; [apply stays_lib; intros Hg; by apply ao_realtime | intros r j2].
    destruct (r <? 0); [done | apply stays_read_loop].
  - apply Htail. intros j2. apply stays_bind; [apply stays_read_loop | done].
Qed.

Abbreviation Hand := (hand (J := J) handler).

(** What the handler was given by a page. *)
Lemma hand_spec page f :
  let '(f', go_on) := Hand page f in
  fo_journal f' = fo_journal f /\
  if go_on then fo_delivered f' = fo_delivered f ++ page /\
    fo_continuation f' = match page with [] => fo_continuation f | e :: rest => continue_behind (fo_continuation f) (List.last (e :: rest) e) end
  else exists given, given `prefix_of` page /\ fo_delivered f' = fo_delivered f ++ given.
Proof.
  revert f. induction page as [|e page IH]; intros f; cbn [hand]; [by rewrite app_nil_r|].
  destruct (handler (fo_delivered f) e).
  - specialize (IH (mkFollowing (fo_journal f) (continue_behind (fo_continuation f) e) (fo_delivered f ++ [e]) (fo_asked f))).
    destruct (Hand page _) as [f' go_on]. cbn [fo_journal fo_delivered fo_continuation] in IH. destruct IH as [Hj Hrest].
    split; [done|]. destruct go_on.
    + destruct Hrest as [-> ->]. rewrite <- app_assoc. split; [done|]. destruct page as [|e' page]; [done|].
      change (List.last (e :: e' :: page) e) with (List.last (e' :: page) e).
      by rewrite (last_default e' page e e').
    + destruct Hrest as (given & Hp & ->). exists (e :: given). split; [by apply prefix_cons | by rewrite <- app_assoc].
  - split; [done|]. exists [e]. split; [by exists page | done].
Qed.

Lemma hand_accepts page f : (forall d x, handler d x = true) -> snd (Hand page f) = true.
Proof. intros Hall. revert f. induction page as [|e page IH]; intros f; cbn [hand]; [done|]. by rewrite Hall. Qed.

(** *** The invariant *)

Context (query : Query) (before : list Entry).
Context (Hlimit : qu_limit query <> O) (Holdest : qu_newest_first query = false).
Context (Hanchor : after_of query <> None \/ qu_since query <> None) (Hstart : continues query before).

(** The journal is split into what lies before the start, what was looked at,
    and the rest; all that matched was delivered, and the continuation stands
    behind the last entry that was. *)
Definition following_ok (f : Following (J := J)) (post : list Entry) : Prop :=
  good (fo_journal f) /\ exists pre, shown query (fo_journal f) = before ++ pre ++ post /\
    fo_delivered f = selected query pre /\
    ((pre = [] /\ fo_continuation f = query) \/
     exists l x, pre = l ++ [x] /\ matches_query x query = true /\ fo_continuation f = continue_behind query x).

Lemma shown_entry j x : good j -> x ∈ shown query j ->
  Some (en_cursor x) ∈ map re_cursor (visible query (entries j)) /\ en_cursor x <> "".
Proof.
  intros Hg Hx. pose proof (visible_ok query _ (ao_ok good Hao j Hg)) as [_ Hf].
  apply list_elem_of_fmap in Hx as (raw & -> & Hraw). rewrite Forall_forall in Hf.
  destruct (Hf raw Hraw) as [(c & Hc & Hne) _]. rewrite (entry_cursor _ _ Hc). split; [|done].
  rewrite <- Hc. by apply list_elem_of_fmap_2.
Qed.

Lemma shown_sorted j : good j -> StronglySorted Z.le (map en_timestamp (shown query j)).
Proof.
  intros Hg. pose proof (ao_sorted good Hao j Hg) as Hs. unfold shown, visible. rewrite map_map.
  change (fun x => en_timestamp (current_entry x)) with (fun e => default 0 (re_realtime e)).
  destruct (qu_audience query ==? Some "user"); [|done]. induction (entries j) as [|e es IH]; cbn [List.filter map]; [constructor|].
  cbn [map] in Hs. apply StronglySorted_inv in Hs as [Hs Hle]. specialize (IH Hs). destruct (has_data _ e); [|done].
  cbn [map]. constructor; [done|]. rewrite Forall_fmap in Hle |- *. rewrite Forall_forall in Hle |- *.
  intros x [Hx _]%list_elem_of_In%filter_In. by apply Hle, list_elem_of_In.
Qed.

(** Behind an entry that matched, the continuation selects what the query does. *)
Lemma continue_selects x post :
  matches_query x query = true -> Forall (fun e => en_timestamp x <= en_timestamp e) post ->
  selected (continue_behind query x) post = selected query post.
Proof.
  intros Hx. induction 1 as [|e post He _ IH]; [done|]. unfold selected in *. cbn [List.filter].
  assert (Hm : matches_query e (continue_behind query x) = matches_query e query); [|by rewrite Hm, IH].
  assert (Hsince : match qu_since query with Some t => en_timestamp e <? t | None => false end = false).
  { destruct (qu_since query) as [t|] eqn:Es; [|done]. apply Z.ltb_ge.
    unfold matches_query in Hx. rewrite Es in Hx. destruct (Z.ltb_spec (en_timestamp x) t); [|lia].
    repeat case_match; discriminate. }
  unfold matches_query. rewrite Hsince. cbn [qu_since continue_behind]. by rewrite (proj2 (Z.ltb_ge _ _)).
Qed.

Lemma sorted_behind l x post :
  StronglySorted Z.le (map en_timestamp (l ++ x :: post)) -> Forall (fun e => en_timestamp x <= en_timestamp e) post.
Proof.
  induction l as [|y l IH]; cbn; intros Hs; apply StronglySorted_inv in Hs as [Hs Hle]; [|by apply IH].
  exact (proj1 (Forall_fmap _ _ _) Hle).
Qed.

(** The continuation asks for what the query asks for, from the right place. *)
Lemma continuation_spec f pre post :
  good (fo_journal f) -> shown query (fo_journal f) = before ++ pre ++ post ->
  ((pre = [] /\ fo_continuation f = query) \/
   exists l x, pre = l ++ [x] /\ matches_query x query = true /\ fo_continuation f = continue_behind query x) ->
  qu_limit (fo_continuation f) = qu_limit query /\ shown (fo_continuation f) (fo_journal f) = shown query (fo_journal f) /\
  qu_newest_first (fo_continuation f) = false /\ anchored (fo_continuation f) /\
  continues (fo_continuation f) (before ++ pre) /\ selected (fo_continuation f) post = selected query post.
Proof.
  intros Hg Hsplit [[-> ->]|(l & x & -> & Hx & ->)].
  - rewrite app_nil_r. split_and!; [done | done | done | | done | done]. unfold anchored. destruct Hanchor; auto.
  - assert (Hin : x ∈ shown query (fo_journal f)) by (rewrite Hsplit; set_solver).
    destruct (shown_entry _ x Hg Hin) as [_ Hne].
    assert (Ha : after_of (continue_behind query x) = Some (en_cursor x))
      by (unfold after_of; cbn [qu_after continue_behind]; by apply empty_false in Hne as ->).
    split_and!; [done | done | done | left; congruence | right; exists (before ++ l), x; by rewrite app_assoc|].
    apply continue_selects; [done|]. apply (sorted_behind (before ++ l)).
    pose proof (shown_sorted _ Hg) as Hs. rewrite Hsplit in Hs. by rewrite <- !app_assoc in Hs |- *.
Qed.

Lemma continuation_there f pre post :
  good (fo_journal f) -> shown query (fo_journal f) = before ++ pre ++ post ->
  shown (fo_continuation f) (fo_journal f) = shown query (fo_journal f) ->
  visible (fo_continuation f) (entries (fo_journal f)) = visible query (entries (fo_journal f)) ->
  continues (fo_continuation f) (before ++ pre) -> cursor_there (fo_continuation f) (fo_journal f).
Proof.
  intros Hg Hsplit Hshown Hvis Hcontinues c Hc. right. destruct Hcontinues as [[_ ?]|(l & e & Hl & He)]; [congruence|].
  assert (Hin : e ∈ shown query (fo_journal f)) by (rewrite Hsplit, app_assoc, Hl; set_solver).
  destruct (shown_entry _ e Hg Hin) as [Hin' _]. rewrite Hvis. by replace c with (en_cursor e) by congruence.
Qed.

Lemma next_page_spec f post :
  following_ok f post ->
  exists j, next_page f = (set_journal j f, inr (take (qu_limit query) (selected query post))) /\ following_ok (set_journal j f) post.
Proof.
  intros (Hg & pre & Hsplit & Hdel & Hcont). set (j := fo_journal f) in *.
  destruct (continuation_spec f pre post Hg Hsplit Hcont) as (Hlim & Hshown & Hnf & Hanch & Hcontinues & Hsel).
  destruct (journal_ok_cursors _ (visible_ok query _ (ao_ok good Hao j Hg))) as [Hd Hne].
  assert (Hvis : visible (fo_continuation f) (entries j) = visible query (entries j))
    by (by destruct Hcont as [[_ ->]|(? & ? & _ & _ & ->)]).
  pose proof (continuation_there f pre post Hg Hsplit Hshown Hvis Hcontinues) as Hthere.
  pose proof (read_open_page Hrel (S (length (entries j))) (fo_continuation f) j ltac:(congruence)
    (ao_ok good Hao j Hg) Hanch Hthere ltac:(lia)) as Hread.
  fold j in Hshown. rewrite Hshown in Hread.
  rewrite (bounded_page_continues (shown query j) Hd Hne (fo_continuation f) (before ++ pre) post) in Hread;
    [|congruence | unfold in_order; rewrite Hnf; by rewrite Hsplit, app_assoc | done].
  rewrite Hsel, Hlim in Hread. pose proof (stays_read_open (S (length (entries j))) (fo_continuation f) j Hg) as [Hg' He'].
  unfold next_page. fold j. rewrite (proj2 (Nat.eqb_neq _ _)) by congruence.
  destruct (read_open _ (fo_continuation f) j) as [j' r]. cbn [fst snd answer] in *. subst r. exists j'. split; [done|].
  split; [done|]. exists pre. cbn [fo_journal set_journal fo_delivered fo_continuation]. split_and!; [|done | done].
  unfold shown in *. by rewrite He'.
Qed.

Lemma selected_app l1 l2 : selected query (l1 ++ l2) = selected query l1 ++ selected query l2.
Proof. apply List.filter_app. Qed.

(** A page that is taken whole moves the continuation behind its last entry. *)
Lemma hand_ok f post k :
  following_ok f post ->
  let '(f', go_on) := Hand (take k (selected query post)) f in
  (if go_on then exists post', following_ok f' post' /\
       selected query post = take k (selected query post) ++ selected query post' else True) /\
  good (fo_journal f') /\ shown query (fo_journal f') = shown query (fo_journal f) /\
  exists given, given `prefix_of` selected query post /\ fo_delivered f' = fo_delivered f ++ given /\
    (go_on = true -> given = take k (selected query post)).
Proof.
  intros (Hg & pre & Hsplit & Hdel & Hcont). pose proof (hand_spec (take k (selected query post)) f) as Hh.
  destruct (Hand _ f) as [f' go_on]. destruct Hh as [Hj Hh]. rewrite Hj. split_and!; [| done | done |].
  - destruct go_on; [|done]. destruct Hh as [Hdel' Hcont'].
    destruct (take k (selected query post)) as [|e page] eqn:Et.
    + exists post. split; [|done]. split; [by rewrite Hj|]. exists pre. rewrite Hj, Hdel', app_nil_r, Hcont'. done.
    + destruct (take_selected _ _ _ _ _ Et) as (l1 & x & l2 & Hpost & Hlast & Hs). exists l2.
      assert (Hpage : selected query (l1 ++ [x]) = e :: page).
      { rewrite Hpost in Hs. change (l1 ++ x :: l2) with (l1 ++ [x] ++ l2) in Hs. rewrite app_assoc, selected_app in Hs.
        by apply app_inv_tail in Hs. }
      split; [|exact Hs]. split; [by rewrite Hj|]. exists (pre ++ l1 ++ [x]). rewrite Hj. split_and!.
      * rewrite Hsplit, Hpost, <- !app_assoc. done.
      * by rewrite Hdel', Hdel, selected_app, Hpage.
      * right. exists (pre ++ l1), x. split_and!; [by rewrite app_assoc | |].
        -- rewrite <- Hlast. assert (Hin : List.last (e :: page) e ∈ selected query (l1 ++ [x])).
           { rewrite Hpage. apply list_elem_of_In. apply last_In. }
           apply list_elem_of_In, filter_In in Hin. apply Hin.
        -- rewrite Hcont', Hlast. by destruct Hcont as [[_ ->]|(? & ? & _ & _ & ->)].
  - destruct go_on.
    + destruct Hh as [Hdel' _]. exists (take k (selected query post)). split_and!; [apply prefix_take | done | done].
    + destruct Hh as (given & Hp & Hd). exists given. split_and!; [|done | done]. etrans; [exact Hp | apply prefix_take].
Qed.

(** What was delivered is a first part of what there is to deliver. *)
Definition delivers (f : Following (J := J)) : Prop :=
  good (fo_journal f) /\ exists rest, shown query (fo_journal f) = before ++ rest /\ fo_delivered f `prefix_of` selected query rest.

Lemma following_delivers f post given :
  following_ok f post -> given `prefix_of` selected query post ->
  forall f', good (fo_journal f') -> shown query (fo_journal f') = shown query (fo_journal f) ->
  fo_delivered f' = fo_delivered f ++ given -> delivers f'.
Proof.
  intros (Hg & pre & Hsplit & Hdel & _) Hp f' Hg' Hs Hd. split; [done|]. exists (pre ++ post).
  split; [by rewrite Hs|]. rewrite Hd, Hdel, selected_app. by apply prefix_app.
Qed.

(** The number of questions asked does not matter. *)
Lemma stop_asked_spec f post : following_ok f post ->
  following_ok (fst (stop_asked keep_running f)) post /\ fo_delivered (fst (stop_asked keep_running f)) = fo_delivered f /\
  (keep_running = None -> snd (stop_asked keep_running f) = false).
Proof. intros Hok. unfold stop_asked. by destruct keep_running. Qed.

(** New entries come behind the others. *)
Lemma shown_grows j j' new : entries j' = entries j ++ new -> exists new', shown query j' = shown query j ++ new'.
Proof.
  intros He. unfold shown, visible. rewrite He. destruct (qu_audience query ==? Some "user").
  - rewrite List.filter_app, map_app. by eexists.
  - rewrite map_app. by eexists.
Qed.

Lemma following_grows f post j' new :
  following_ok f post -> good j' -> shown query j' = shown query (fo_journal f) ++ new -> following_ok (set_journal j' f) (post ++ new).
Proof.
  intros (Hg & pre & Hsplit & Hrest) Hg' Hn. split; [done|]. exists pre. cbn [fo_journal set_journal fo_delivered fo_continuation].
  split; [|exact Hrest]. by rewrite Hn, Hsplit, <- !app_assoc.
Qed.

Lemma wait_round_spec f post :
  following_ok f post ->
  match wait_round keep_running wake_interval f with
  | (f', None) => exists new, following_ok f' (post ++ new) /\ fo_delivered f' = fo_delivered f /\
      (entries (fst (sd_journal_wait (wake_interval * 1000) (fo_journal f))) = entries (fo_journal f) -> new = [])
  | (f', Some e) => e = Stopped /\ keep_running <> None /\ delivers f'
  end.
Proof.
  intros Hok. unfold wait_round. destruct (ao_wait good Hao (wake_interval * 1000) (fo_journal f) (proj1 Hok)) as (Hg & Hr & new & Hn).
  destruct (sd_journal_wait _ _) as [j state]. cbn [fst snd] in *. destruct (shown_grows _ _ _ Hn) as [new' Hnew].
  pose proof (following_grows f post j new' Hok Hg Hnew) as Hok'. unfold SD_JOURNAL_INVALIDATE in *.
  rewrite (proj2 (Z.ltb_ge state 0)), (proj2 (Z.eqb_neq state 2)) by lia.
  destruct (stop_asked_spec _ _ Hok') as (Hok2 & Hdel & Hnone). destruct (stop_asked keep_running (set_journal j f)) as [f2 stop].
  cbn [fst snd] in *. destruct stop.
  - split; [done|]. split; [by intros ?%Hnone|]. eapply (following_delivers f2 _ []); [exact Hok2 | apply prefix_nil | apply Hok2 | done|].
    by rewrite app_nil_r.
  - exists new'. split_and!; [done | done|]. intros He. unfold shown in Hnew. rewrite He in Hnew.
    rewrite <- (app_nil_r (map current_entry _)) in Hnew at 1. by apply app_inv_head in Hnew.
Qed.

Lemma round_spec f post :
  following_ok f post ->
  match round handler keep_running wake_interval f with
  | (f', None) => exists post', following_ok f' post' /\
      ((selected query post = [] /\ fo_delivered f' = fo_delivered f /\
        ((forall t j, good j -> entries (fst (sd_journal_wait t j)) = entries j) -> post' = post)) \/
       exists page, page <> [] /\ fo_delivered f' = fo_delivered f ++ page /\ selected query post = page ++ selected query post')
  | (f', Some e) => e = Stopped /\ delivers f' /\ ((forall d x, handler d x = true) -> keep_running <> None)
  end.
Proof.
  intros Hok. unfold round. destruct (stop_asked_spec f post Hok) as (Hok1 & Hdel1 & Hnone).
  destruct (stop_asked keep_running f) as [f1 stop]. cbn [fst snd] in *. destruct stop.
  { split; [done|]. split; [|by intros _ ?%Hnone]. eapply (following_delivers f1 _ []); [exact Hok1 | apply prefix_nil | apply Hok1 | done|].
    by rewrite app_nil_r. }
  destruct (next_page_spec f1 post Hok1) as (j & Hpage & Hok2). rewrite Hpage.
  destruct (take (qu_limit query) (selected query post)) as [|e page] eqn:Et.
  - pose proof (wait_round_spec _ _ Hok2) as Hw. destruct (wait_round keep_running wake_interval (set_journal j f1)) as [f3 [end_|]].
    + destruct Hw as (-> & Hk & Hd). split_and!; [done | done | done].
    + destruct Hw as (new & Hok3 & Hdel3 & Hquiet). exists (post ++ new). split; [done|]. left.
      split_and!; [by destruct (selected query post), (qu_limit query) | by rewrite Hdel3|].
      intros Hq. rewrite Hquiet by apply Hq, Hok2. apply app_nil_r.
  - pose proof (hand_ok (set_journal j f1) post (qu_limit query) Hok2) as Hh. pose proof (hand_spec (e :: page) (set_journal j f1)) as Hs.
    pose proof (hand_accepts (e :: page) (set_journal j f1)) as Hacc.
    rewrite Et in Hh. destruct (Hand (e :: page) (set_journal j f1)) as [f3 go_on]. cbn [snd] in Hacc.
    destruct Hh as (Hgo & Hg & Hshown & given & Hp & Hd & Hgiven). destruct go_on.
    + destruct Hgo as (post' & Hok3 & Hsel). exists post'. split; [done|]. right. exists (e :: page). split_and!; [done | | done].
      rewrite Hd, (Hgiven eq_refl). cbn [set_journal fo_delivered]. by rewrite Hdel1.
    + split_and!; [done | |].
      * by eapply (following_delivers (set_journal j f1) post given).
      * intros Hall. specialize (Hacc Hall). discriminate.
Qed.

Lemma rounds_deliver n f post : following_ok f post ->
  let '(f', e) := rounds handler keep_running wake_interval n f in delivers f' /\ (e = Stopped \/ e = Running).
Proof.
  revert f post. induction n as [|n IH]; intros f post Hok; cbn [rounds].
  - split; [|by right]. eapply (following_delivers f _ []); [exact Hok | apply prefix_nil | apply Hok | done | by rewrite app_nil_r].
  - pose proof (round_spec f post Hok) as Hr. destruct (round handler keep_running wake_interval f) as [f1 [e|]].
    + destruct Hr as (-> & Hd & _). split; [done | by left].
    + destruct Hr as (post' & Hok' & _). by eapply IH.
Qed.

(** On a journal that has come to rest, a handler that takes everything gets it. *)
Lemma rounds_finish n f post :
  (forall t j, good j -> entries (fst (sd_journal_wait t j)) = entries j) -> (forall d x, handler d x = true) -> keep_running = None ->
  following_ok f post -> (length (selected query post) <= n)%nat ->
  fo_delivered (fst (rounds handler keep_running wake_interval n f)) = fo_delivered f ++ selected query post.
Proof.
  intros Hquiet Hall Hkeep. revert f post. induction n as [|n IH]; intros f post Hok Hn; cbn [rounds].
  { destruct (selected query post); [by rewrite app_nil_r | cbn in Hn; lia]. }
  pose proof (round_spec f post Hok) as Hr. destruct (round handler keep_running wake_interval f) as [f1 [e|]].
  { destruct Hr as (_ & _ & Hk). by destruct (Hk Hall). }
  destruct Hr as (post' & Hok' & [(Hnil & Hd & Hsame)|(page & Hne & Hd & Hsel)]).
  - rewrite (Hsame Hquiet) in Hok'. rewrite (IH f1 post Hok'), Hd; [done|]. rewrite Hnil. cbn. lia.
  - rewrite (IH f1 post' Hok'), Hd, Hsel, app_assoc; [done|]. rewrite Hsel, length_app in Hn. destruct page; [done|]. cbn in Hn. lia.
Qed.

Lemma following_start j rest : good j -> shown query j = before ++ rest -> following_ok (mkFollowing j query [] 0) rest.
Proof. intros Hg Hs. split; [done|]. exists []. split_and!; [done | done | by left]. Qed.

(** The state in which the loop of [follow] starts. *)
Lemma follow_open_spec n j rest :
  good j -> shown query j = before ++ rest ->
  (exists f, follow_open handler keep_running wake_interval n query j = (f, Stopped) /\ delivers f /\
     ~ (forall d x, handler d x = true)) \/
  exists f post, follow_open handler keep_running wake_interval n query j = rounds handler keep_running wake_interval n f /\
    following_ok f post /\ fo_delivered f ++ selected query post = selected query rest.
Proof.
  intros Hg Hs. pose proof (following_start j rest Hg Hs) as Hok. unfold follow_open. rewrite Holdest.
  destruct (next_page_spec _ _ Hok) as (j1 & Hpage & Hok1). rewrite Hpage.
  pose proof (hand_ok _ _ (qu_limit query) Hok1) as Hh.
  pose proof (hand_accepts (take (qu_limit query) (selected query rest)) (set_journal j1 (mkFollowing j query [] 0))) as Hacc.
  destruct (Hand _ _) as [f go_on]. cbn [snd] in Hacc. destruct Hh as (Hgo & Hgf & Hshown & given & Hp & Hd & Hgiven). destruct go_on; cbn [negb].
  - right. destruct Hgo as (post' & Hok2 & Hsel).
    assert (Hall : fo_delivered f ++ selected query post' = selected query rest) by (rewrite Hd, (Hgiven eq_refl); symmetry; exact Hsel).
    destruct (qu_after (fo_continuation f)); [by exists f, post'|].
    destruct (ao_tail good Hao (fo_journal f) (proj1 Hok2)) as [Hg2 He2]. pose proof (rel_tail J Hrel (fo_journal f)) as Hr.
    destruct (sd_journal_seek_tail (fo_journal f)) as [j2 r]. cbn [fst snd] in *. rewrite (proj2 (Z.ltb_ge r 0)) by lia.
    exists (set_journal j2 f), post'. split_and!; [done | | done]. rewrite <- (app_nil_r post'). apply following_grows; [done | done|].
    unfold shown. by rewrite He2, app_nil_r.
  - left. exists f. split_and!; [done | by eapply (following_delivers _ rest given) | intros Hall; by specialize (Hacc Hall)].
Qed.

End following.


(** ** Following never goes back in time

    Whatever the library does: these lemmas use none of its laws. *)
Section onward.
Context {J : Type} {JL : JournalLib J}.
Context (handler : list Entry -> Entry -> bool) (keep_running : option (nat -> bool)) (wake_interval : Z).

Abbreviation state := (Following (J := J)).

(** What a computation answers has [P], if it answers. *)
Definition answers {A} (P : A -> Prop) (m : jm (J := J) A) : Prop := forall j, match snd (m j) with inr a => P a | inl _ => True end.

Lemma answers_bind {A B} (P : A -> Prop) (Q : B -> Prop) (m : jm (J := J) A) (k : A -> jm B) :
  answers P m -> (forall a, P a -> answers Q (k a)) -> answers Q (m ≫= k).
Proof.
  intros Hm Hk j. specialize (Hm j). unfold mbind, jm_bind. destruct (m j) as [j' [e|a]]; [done|]. cbn in Hm. by apply Hk.
Qed.

Lemma answers_any {A} (m : jm (J := J) A) : answers (fun _ => True) m.
Proof. intros j. by destruct (snd (m j)). Qed.

Definition all_match (query : Query) (page : list Entry) : Prop := Forall (fun e => matches_query e query = true) page.

Lemma push_current_match query result : all_match query result -> answers (all_match query) (push_current query result).
Proof.
  intros Hr j. cbn. destruct (matches_query _ query) eqn:E; [|done]. apply Forall_app. split; [done|]. by apply Forall_singleton.
Qed.

Lemma read_loop_match fuel newest_first query result :
  all_match query result -> answers (all_match query) (read_loop fuel newest_first query result).
Proof.
  revert result. induction fuel as [|fuel IH]; intros result Hr; cbn [read_loop]; (destruct (_ <? _)%nat; [|by intros j]).
  { by intros j. }
  apply (answers_bind (fun _ => True)); [apply answers_any|]. intros state _. destruct (0 <? state).
  - apply (answers_bind (all_match query)); [by apply push_current_match | intros; by apply IH].
  - by destruct (state <? 0); intros j.
Qed.

Lemma seek_after_match query c : answers (all_match query) (seek_after query c).
Proof.
  assert (Hnil : all_match query []) by constructor. unfold seek_after.
  apply (answers_bind (fun _ => True)); [apply answers_any | intros r _]. destruct (r <? 0); [by intros j|].
  apply (answers_bind (fun _ => True)); [apply answers_any | intros positioned _]. destruct (positioned <? 0); [by intros j|].
  apply (answers_bind (fun _ => True)); [apply answers_any | intros test _]. destruct (_ || _); [|by intros j].
  destruct (qu_strict_cursor query); [by intros j|]. destruct (_ && _); [by apply push_current_match | by intros j].
Qed.

(** Every entry of a page matches the query it was read for. *)
Lemma read_open_match fuel query : answers (all_match query) (read_open fuel query).
Proof.
  assert (Hnil : all_match query []) by constructor.
  assert (Hloop : forall newest_first, answers (all_match query) (read_loop fuel newest_first query []))
    by (intros; by apply read_loop_match).
  assert (Htail : answers (all_match query)
    (r ← lib sd_journal_seek_tail;
     if r <? 0 then read_error
     else if qu_newest_first query then read_loop fuel true query []
     else result ← read_loop fuel true query []; mret (rev result))).
  { apply (answers_bind (fun _ => True)); [apply answers_any | intros r _]. destruct (r <? 0); [by intros j|].
    destruct (qu_newest_first query); [done|]. apply (answers_bind (all_match query)); [done|]. intros page Hp j. by apply Forall_rev. }
  unfold read_open. apply (answers_bind (fun _ => True)); [apply answers_any | intros _ _].
  destruct (after_of query) as [c|].
  { apply (answers_bind (all_match query)); [apply seek_after_match | intros; by apply read_loop_match]. }
  destruct (qu_newest_first query) eqn:E; [done|]. destruct (qu_since query) as [since|]; [|done].
  apply (answers_bind (fun _ => True)); [apply answers_any | intros r _]. destruct (r <? 0); [by intros j | done].
Qed.

Lemma match_since e query t : matches_query e query = true -> qu_since query = Some t -> t <= en_timestamp e.
Proof.
  unfold matches_query. intros Hm Ht. rewrite Ht in Hm.
  repeat (destruct (negb (equal_to _ _)); [done|]). destruct (Z.ltb_spec (en_timestamp e) t); [done | lia].
Qed.

(** From [f] on to [f'], only entries from the time [t] on are delivered. *)
Definition onward_from (t : Z) (f f' : state) : Prop :=
  exists more, fo_delivered f' = fo_delivered f ++ more /\ Forall (fun e => t <= en_timestamp e) more.

Lemma onward_same t (f f' : state) : fo_delivered f' = fo_delivered f -> onward_from t f f'.
Proof. intros Hd. exists []. by rewrite Hd, app_nil_r. Qed.

Lemma onward_trans t (f1 f2 f3 : state) : onward_from t f1 f2 -> onward_from t f2 f3 -> onward_from t f1 f3.
Proof.
  intros (m1 & H1 & Hm1) (m2 & H2 & Hm2). exists (m1 ++ m2). rewrite H2, H1, app_assoc. split; [done|]. by apply Forall_app.
Qed.

(** The continuation asks for nothing earlier than [t]. *)
Definition asks_from (t : Z) (f : state) : Prop := exists t', qu_since (fo_continuation f) = Some t' /\ t <= t'.

Lemma hand_onward t page (f : state) :
  Forall (fun e => t <= en_timestamp e) page -> asks_from t f ->
  let '(f', _) := hand handler page f in onward_from t f f' /\ asks_from t f'.
Proof.
  intros Hp. revert f. induction Hp as [|e page He _ IH]; intros f Hf; cbn [hand]; [split; [by apply onward_same | done]|].
  assert (Hone : forall q n j, onward_from t f (mkFollowing j q (fo_delivered f ++ [e]) n))
    by (intros; exists [e]; split; [done | by apply Forall_singleton]).
  destruct (handler (fo_delivered f) e); [|split; [apply Hone | exact Hf]].
  set (f1 := mkFollowing _ _ _ _). assert (H1 : asks_from t f1) by (by exists (en_timestamp e)).
  specialize (IH f1 H1). destruct (hand handler page f1) as [f' go_on]. destruct IH as [H2 H3]. split; [|done].
  eapply onward_trans; [apply Hone | exact H2].
Qed.

Lemma next_page_onward t (f : state) :
  asks_from t f -> let '(f', r) := next_page f in fo_delivered f' = fo_delivered f /\ asks_from t f' /\
    match r with inr page => Forall (fun e => t <= en_timestamp e) page | inl _ => True end.
Proof.
  intros Hf. unfold next_page. destruct (Nat.eqb _ _); [by split_and!; [done | done | constructor]|].
  pose proof (read_open_match (S (length (entries (fo_journal f)))) (fo_continuation f) (fo_journal f)) as Hm.
  destruct (read_open _ _ _) as [j [e|page]]; split_and!; try done. cbn in Hm. destruct Hf as (t' & Ht & Hle).
  eapply Forall_impl; [exact Hm|]. intros e He. cbv beta in He. pose proof (match_since _ _ _ He Ht). lia.
Qed.

Lemma stop_asked_keeps (f : state) :
  fo_delivered (fst (stop_asked keep_running f)) = fo_delivered f /\
  fo_continuation (fst (stop_asked keep_running f)) = fo_continuation f.
Proof. unfold stop_asked. by destruct keep_running. Qed.

Lemma wait_round_onward (f : state) :
  let f' := fst (wait_round keep_running wake_interval f) in
  fo_delivered f' = fo_delivered f /\ qu_since (fo_continuation f') = qu_since (fo_continuation f).
Proof.
  unfold wait_round. destruct (sd_journal_wait _ _) as [j r]. destruct (r <? 0); [done|].
  pose proof (stop_asked_keeps (set_journal j f)) as [Hd Hc]. destruct (stop_asked keep_running (set_journal j f)) as [f1 stop].
  cbn in Hd, Hc. assert (H1 : fo_delivered f1 = fo_delivered f /\ qu_since (fo_continuation f1) = qu_since (fo_continuation f))
    by (by rewrite Hd, Hc).
  destruct stop; [exact H1|]. destruct (r =? _); [|exact H1]. destruct (qu_after _); [|exact H1].
  destruct (sd_journal_seek_cursor _ _) as [j2 r2]. by destruct (r2 <? 0).
Qed.

Lemma round_onward t (f : state) :
  asks_from t f -> let '(f', _) := round handler keep_running wake_interval f in onward_from t f f' /\ asks_from t f'.
Proof.
  intros Hf. unfold round. pose proof (stop_asked_keeps f) as [Hd Hc]. destruct (stop_asked keep_running f) as [f1 stop].
  cbn in Hd, Hc. assert (H1 : asks_from t f1) by (unfold asks_from; by rewrite Hc).
  destruct stop; [split; [by apply onward_same | done]|].
  pose proof (next_page_onward t f1 H1) as Hn. destruct (next_page f1) as [f2 r]. destruct Hn as (Hd2 & H2 & Hp).
  assert (H12 : onward_from t f f2) by (apply onward_same; congruence).
  destruct r as [e|[|e page]]; [by split| |].
  - pose proof (wait_round_onward f2) as [Hd3 Hc3]. destruct (wait_round _ _ f2) as [f3 r]. cbn in Hd3, Hc3.
    split; [apply onward_same; congruence|]. unfold asks_from. by rewrite Hc3.
  - pose proof (hand_onward t (e :: page) f2 Hp H2) as Hh. destruct (hand handler (e :: page) f2) as [f3 go_on].
    destruct Hh as [H3 H3']. split; [by eapply onward_trans | done].
Qed.

Lemma rounds_onward t n (f : state) :
  asks_from t f -> onward_from t f (fst (rounds handler keep_running wake_interval n f)).
Proof.
  revert f. induction n as [|n IH]; intros f Hf; cbn [rounds]; [by apply onward_same|].
  pose proof (round_onward t f Hf) as Hr. destruct (round _ _ _ f) as [f1 [e|]]; destruct Hr as [H1 H2]; [done|].
  eapply onward_trans; [exact H1 | by apply IH].
Qed.

(** While the loop runs, the continuation starts at the time of the last entry. *)
Definition in_step (f : state) : Prop :=
  forall x, List.last (map Some (fo_delivered f)) None = Some x -> qu_since (fo_continuation f) = Some (en_timestamp x).

Lemma in_step_same (f f' : state) :
  fo_delivered f' = fo_delivered f -> qu_since (fo_continuation f') = qu_since (fo_continuation f) -> in_step f -> in_step f'.
Proof. unfold in_step. intros -> ->. done. Qed.

Lemma hand_in_step page (f : state) :
  in_step f -> let '(f', go_on) := hand handler page f in go_on = true -> in_step f'.
Proof.
  revert f. induction page as [|e page IH]; intros f Hf; cbn [hand]; [done|].
  destruct (handler (fo_delivered f) e); [|done]. apply IH. intros x. cbn. rewrite map_app. cbn [map]. rewrite last_last. by intros [= ->].
Qed.

Lemma next_page_keeps (f : state) :
  fo_delivered (fst (next_page f)) = fo_delivered f /\ fo_continuation (fst (next_page f)) = fo_continuation f.
Proof. unfold next_page. destruct (Nat.eqb _ _); [done|]. by destruct (read_open _ _ _). Qed.

Lemma round_in_step (f : state) :
  in_step f -> let '(f', r) := round handler keep_running wake_interval f in (r = None -> in_step f') /\ r <> Some Running.
Proof.
  intros Hf. unfold round. pose proof (stop_asked_keeps f) as [Hd Hc]. destruct (stop_asked keep_running f) as [f1 stop].
  cbn in Hd, Hc. destruct stop; [done|]. pose proof (next_page_keeps f1) as [Hd2 Hc2]. destruct (next_page f1) as [f2 r].
  cbn in Hd2, Hc2. assert (H2 : in_step f2) by (eapply in_step_same; [| |exact Hf]; congruence).
  destruct r as [e|[|e page]]; [done| |].
  - pose proof (wait_round_onward f2) as [Hd3 Hc3]. assert (Hrun : snd (wait_round keep_running wake_interval f2) <> Some Running).
    { unfold wait_round. repeat case_match; done. }
    destruct (wait_round _ _ f2) as [f3 r]. cbn in *. split; [|done]. intros _. by eapply in_step_same.
  - pose proof (hand_in_step (e :: page) f2 H2) as Hh. destruct (hand handler (e :: page) f2) as [f3 go_on].
    destruct go_on; split; try done. intros _. by apply Hh.
Qed.

Lemma rounds_split n m (f f1 : state) :
  in_step f -> rounds handler keep_running wake_interval n f = (f1, Running) ->
  in_step f1 /\ rounds handler keep_running wake_interval (n + m) f = rounds handler keep_running wake_interval m f1.
Proof.
  revert f. induction n as [|n IH]; intros f Hf; cbn [rounds Nat.add]; [by intros [= <-]|].
  pose proof (round_in_step f Hf) as Hr. destruct (round _ _ _ f) as [f2 [e|]]; destruct Hr as [H1 H2].
  - intros [= -> ->]. done.
  - apply IH. by apply H1.
Qed.

(** The loop of [follow_open] starts in step. *)
Lemma follow_open_split n m query (j : J) f1 :
  follow_open handler keep_running wake_interval n query j = (f1, Running) ->
  in_step f1 /\
  follow_open handler keep_running wake_interval (n + m) query j = rounds handler keep_running wake_interval m f1.
Proof.
  unfold follow_open. destruct (qu_newest_first query); [done|].
  pose proof (next_page_keeps (mkFollowing j query [] 0)) as [Hd Hc]. destruct (next_page _) as [f r]. cbn in Hd, Hc.
  assert (Hf : in_step f) by (intros x; by rewrite Hd).
  destruct r as [e|page]; [done|]. pose proof (hand_in_step page f Hf) as Hh. destruct (hand handler page f) as [f2 go_on].
  destruct go_on; cbn [negb]; [|done]. specialize (Hh eq_refl).
  destruct (qu_after (fo_continuation f2)); [by apply rounds_split|].
  destruct (sd_journal_seek_tail _) as [j2 r2]. destruct (r2 <? 0); [done|]. apply rounds_split. exact Hh.
Qed.

End onward.

