(* ===== verification/JournalSample.v ===== *)
(** * A concrete journal

    A journal as a list with a position, to which entries are added while the
    reader waits: it has the laws of the iterator, and the theorems about the
    reader are applied on it. Two runs show where [follow] does lose entries. *)

From stdpp Require Import sorting.
From S2P Require Import Prelude SystemTypes Logging Host Journal JournalReader.

Record Tape := mkTape {
  tp_entries : list raw_entry;
  tp_matches : list string;
  tp_place : position;
  tp_future : list (list raw_entry)   (* what comes with each wait *)
}.

Definition tape_contents (t : Tape) : list raw_entry := List.filter (has_data (tp_matches t)) (tp_entries t).

Definition tape_at (p : position) (t : Tape) : Tape := mkTape (tp_entries t) (tp_matches t) p (tp_future t).

Fixpoint index_of (c : string) (l : list raw_entry) : nat :=
  match l with [] => O | e :: l' => if re_cursor e ==? Some c then O else S (index_of c l') end.

(** The entries before the first one at or after a time. *)
Fixpoint before_time (t : Z) (l : list raw_entry) : nat :=
  match l with [] => O | e :: l' => if default 0 (re_realtime e) <? t then S (before_time t l') else O end.

#[export] Instance Tape_lib : JournalLib Tape := {|
  entries := tp_entries;
  matches := tp_matches;
  place := tp_place;
  sd_journal_flush_matches t := mkTape (tp_entries t) [] (tp_place t) (tp_future t);
  sd_journal_add_match d t := (mkTape (tp_entries t) (d :: tp_matches t) (tp_place t) (tp_future t), 0);
  sd_journal_seek_tail t := (tape_at (Before (length (tape_contents t))) t, 0);
  sd_journal_seek_cursor c t := (tape_at (Before (index_of c (tape_contents t))) t, 0);
  sd_journal_seek_realtime_usec u t := (tape_at (Before (before_time u (tape_contents t))) t, 0);
  sd_journal_next t :=
    let i := next_index (tp_place t) in
    match tape_contents t !! i with Some _ => (tape_at (At i) t, 1) | None => (t, 0) end;
  sd_journal_previous t :=
    match (previous_count (tp_place t) `min` length (tape_contents t))%nat with
    | O => (t, 0)
    | S i => (tape_at (At i) t, 1)
    end;
  sd_journal_test_cursor c t :=
    match tp_place t with
    | At i => match tape_contents t !! i with Some e => if re_cursor e ==? Some c then 1 else 0 | None => -1 end
    | Before _ => -1
    end;
  current t := match tp_place t with At i => default (mkRaw None None []) (tape_contents t !! i) | Before _ => mkRaw None None [] end;
  sd_journal_wait _ t :=
    match tp_future t with
    | [] => (t, 0)
    | new :: future => (mkTape (tp_entries t ++ new) (tp_matches t) (tp_place t) future, 1)
    end
|}.

Lemma index_of_spec c l : Some c ∈ map re_cursor l -> exists e, l !! index_of c l = Some e /\ re_cursor e = Some c.
Proof.
  induction l as [|e l IH]; cbn; [by intros ?%elem_of_nil|]. rewrite elem_of_cons.
  destruct (bool_decide_reflect (re_cursor e = Some c)) as [He|He]; [by exists e|]. intros [?|Hin]; [congruence|]. by apply IH.
Qed.

Lemma before_time_spec t l : Forall (fun e => default 0 (re_realtime e) < t) (take (before_time t l) l).
Proof.
  induction l as [|e l IH]; cbn [before_time take]; [constructor|].
  destruct (Z.ltb_spec (default 0 (re_realtime e)) t); [|constructor]. cbn [take]. by constructor.
Qed.

#[export] Instance Tape_laws : JournalLaws Tape.
Proof.
  split.
  - done.
  - done.
  - intros j _. by split; [split|].
  - intros c j _. split; [by split|]. eexists. split; [reflexivity|]. apply index_of_spec.
  - intros t j _. split; [by split|]. eexists. split; [reflexivity|]. apply before_time_spec.
  - intros j. cbn -[tape_contents]. change (contents j) with (tape_contents j).
    destruct (tape_contents j !! next_index (tp_place j)) eqn:E; split; [done | | done | done].
    intros _. split; [by split|]. by split.
  - intros j. cbn -[tape_contents Nat.min]. change (contents j) with (tape_contents j).
    destruct (previous_count (tp_place j) `min` length (tape_contents j))%nat as [|i] eqn:E; split; [| done | done |].
    + intros _. split; [by split|]. apply length_zero_iff_nil. rewrite length_take. exact E.
    + intros _. split; [by split|]. by exists i.
  - intros c j i Hp Hc. change (tape_contents j !! i = Some (current j)) in Hc. change (tp_place j = At i) in Hp.
    assert (Ht : sd_journal_test_cursor c j = if re_cursor (current j) ==? Some c then 1 else 0).
    { cbn -[tape_contents current]. by rewrite Hp, Hc. }
    rewrite Ht. case_bool_decide; split; congruence || done.
  - intros j i e Hp Hc. change (tape_contents j !! i = Some e) in Hc. change (tp_place j = At i) in Hp.
    cbn -[tape_contents]. by rewrite Hp, Hc.
Qed.

Lemma tape_reliable : reliable Tape.
Proof.
  split; intros *; cbn -[Nat.min]; try lia; [destruct (_ !! _); cbn; lia | destruct (Nat.min _ _); cbn; lia].
Qed.

(** A tape whose entries, present and to come, are in order. *)
Definition tape_good (t : Tape) : Prop :=
  let all := tp_entries t ++ concat (tp_future t) in
  journal_ok all /\ StronglySorted Z.le (map (fun e => default 0 (re_realtime e)) all).

Lemma journal_ok_prefix l1 l2 : journal_ok (l1 ++ l2) -> journal_ok l1.
Proof.
  intros [Hd Hf]. rewrite map_app in Hd. apply NoDup_app in Hd as [Hd _]. apply Forall_app in Hf as [Hf _]. by split.
Qed.

Lemma sorted_prefix {A} (R : relation A) l1 l2 : StronglySorted R (l1 ++ l2) -> StronglySorted R l1.
Proof.
  induction l1 as [|x l1 IH]; cbn; [constructor|]. intros [Hs Hf]%StronglySorted_inv.
  apply Forall_app in Hf as [Hf _]. constructor; auto.
Qed.

Lemma tape_append_only : append_only tape_good.
Proof.
  split; intros *.
  - intros [Hok _]. by eapply journal_ok_prefix.
  - intros [_ Hs]. rewrite map_app in Hs. by eapply sorted_prefix.
  - done.
  - done.
  - done.
  - done.
  - done.
  - intros Hg. cbn -[tape_contents]. by destruct (tape_contents j !! _).
  - intros Hg. cbn -[tape_contents Nat.min]. by destruct (Nat.min _ _).
  - intros Hg. unfold SD_JOURNAL_INVALIDATE. cbn. destruct j as [es ms p [|new future]]; cbn.
    + split; [done|]. split; [lia|]. exists []. by rewrite app_nil_r.
    + split; [|split; [lia | by exists new]]. unfold tape_good in *. cbn in *. by rewrite <- app_assoc.
Qed.

(** ** The theorems on it *)

Definition sample_tape (ns : list Z) (future : list (list Z)) : Tape :=
  mkTape (map sample_raw ns) [] (Before 0) (map (map sample_raw) future).

Definition from_time (t : option Z) (limit : nat) : Query :=
  mkQuery None None None t None [] [] limit (Some "user") None None None false true.

Definition behind_cursor (c : string) (newest_first : bool) : Query :=
  mkQuery None None None None (Some c) [] [] 2 (Some "user") None None None newest_first true.

Lemma sample_tape_ok : journal_ok (entries (sample_tape [1; 2; 3; 4; 5] [])).
Proof.
  split; [apply (bool_decide_unpack _); vm_compute; exact I|].
  apply Forall_fmap, Forall_forall. intros n Hn. split; [exists ("c" +:+ to_string n); done|]. cbn.
  set_unfold in Hn. destruct_or?; lia.
Qed.

Lemma read_answers_witness :
  option_map (map en_cursor) (match snd (read 6 (behind_cursor "c4" true) (Some (sample_tape [1; 2; 3; 4; 5] []))) with
                              | inr page => Some page | inl _ => None end) = Some ["c3"; "c2"].
Proof.
  destruct (read_answers tape_reliable (behind_cursor "c4" true) (sample_tape [1; 2; 3; 4; 5] [])) as [Hr _].
  - exact sample_tape_ok.
  - intros c _. left. reflexivity.
  - change (S (length (entries (sample_tape [1; 2; 3; 4; 5] [])))) with 6%nat in Hr. rewrite Hr; [vm_compute; reflexivity|].
    left. discriminate.
Defined.

(** A tape at rest. *)
Definition tape_rests (t : Tape) : Prop := tape_good t /\ tp_future t = [].

Lemma tape_rests_append_only : append_only tape_rests.
Proof.
  destruct tape_append_only as [Hok Hsorted _ _ _ _ _ Hnext Hprev _]. split; intros *; try (by intros [Hg Hf]; auto).
  - intros [Hg Hf]. cbn -[tape_contents]. by destruct (tape_contents j !! _).
  - intros [Hg Hf]. cbn -[tape_contents Nat.min]. by destruct (Nat.min _ _).
  - intros [Hg Hf]. unfold SD_JOURNAL_INVALIDATE. cbn. rewrite Hf. cbn. split; [done|]. split; [lia|]. exists []. by rewrite app_nil_r.
Qed.

Definition always (d : list Entry) (e : Entry) : bool := true.


(** ** Where entries are lost *)

(** The entries of a journal that match a query from the start. *)
Definition matching (query : Query) (t : Tape) : list string := map en_cursor (selected query (shown query t)).

(** Two entries that were logged after the clock was set back are not delivered. *)
Definition set_back : Tape := sample_tape [10] [[5; 6]; [11]].


(** A follow that starts on an empty journal, without a time, has no cursor to
    continue from: of a burst it delivers only the last entries. *)
Example burst_on_empty_journal :
  let '(f, e) := follow_open always None 250 6 (from_time None 2) (sample_tape [] [[1; 2; 3]]) in
  matching (from_time None 2) (fo_journal f) = ["c1"; "c2"; "c3"] /\ map en_cursor (fo_delivered f) = ["c2"; "c3"].
Proof. vm_compute. split; reflexivity. Qed.
